(* ===== verification/_CoqProject ===== *)
-Q . S2P
Prelude.v
Threads.v
GoStrings.v
GoNet.v
GoFormat.v
Url.v
Mtls.v
NodeTypes.v
Gorm.v
Terminal.v
NodesRepo.v
NodesNetwork.v
NodesRefresh.v
NodesCreate.v
NodesQueries.v
NodesDemo.v
NodesReference.v
PublicServices.v
NodeConfigs.v
Config.v
Base64.v
Aes.v
JoinStore.v
CommandTypes.v
JoinClient.v
Addresses.v
NetworkApps.v
Docker.v
Ssh.v
World.v
DockerSocket.v
LocalJoin.v
LocalService.v
LocalNodes.v
ApiCommands.v
Commands.v
Reconcile.v
Machines.v
Startup.v
Lifecycle.v
Routes.v
WorldNetwork.v
Capacity.v
CommandTree.v
Remote.v
Handshake.v
Concurrent.v
Invitations.v
Cli.v
CommandLine.v
Database.v
Main.v
