(* ===== verification/Prelude.v ===== *)
(** * wireport: a verification development

    wireport joins machines into one WireGuard network.  One node is the gateway: it keeps
    the database of the network, runs the reverse proxy (Caddy) and the name server
    (CoreDNS), and answers an HTTP API that only holders of a client certificate can call.
    Servers (docker hosts) and clients (laptops) get in with a join token that the gateway
    hands out.  This library models the Go code under src/app/internal and
    src/app/cmd/server/commands that decides all this, and proves what the network may rely
    on.

    ** Conventions

    A Go function that may fail is an [Out]: a value, an error, a panic, or [logger.Fatal]
    ending the process.  Code that changes a state [S] is in the monad [M S] := S -> Out A * S,
    which keeps what was done before a failure; [attempt] is the code's [if err != nil], and
    [Transaction] its rollback.  Integers are [Z] with the width written out where the code
    relies on it, bytes are [Z] in 0..255 or the characters of a [string].  Names, messages
    and the order of checks are those of the source.

    ** The files, from the bottom up

    - Prelude: errors and [errors.Is], outcomes, the monads, Hoare triples for them ([triple],
      with their hint databases), lemmas on lists and maps.
    - Threads: computations cut into the actions that nothing interrupts, pools of them that
      take turns, and rules for what one guarantees whatever the others do.
    - GoStrings, GoNet, GoFormat, Base64: the functions of Go's strings, strconv, net, fmt and
      encoding/base64 that the program calls, executable; Url: package net/url, which reads the
      addresses of services and makes the text the database is opened with.
    - Mtls (encryption/mtls/service.go): certificate bundles over the interface [X509].
    - NodeTypes (nodes/types/): addresses, networks, the [Node] record, [WGConfig.ToINI].
    - Gorm: the interface of the database, its laws, and an in-memory instance.
    - Terminal (terminal/, wg/): commands of the operating system, key pairs.
    - NodesRepo (nodes/repository.go): the node repository, every operation.  NodesNetwork is
      the invariant of all tables it can reach, NodesRefresh the closed form of
      [updateNodes], NodesCreate the creating operations, NodesQueries the allocators,
      counters, labels and removal, NodesDemo a network built by running the code, and
      NodesReference what [updateNodes] computes up to the order of rows.
    - Config (cmd/server/config/config.go): what the environment says about the places of the
      database and of the configuration files.
    - PublicServices (publicservices/): services, Caddy entries, their repository.
    - NodeConfigs (nodes/types/node.go): the four files a node writes; [SaveConfigs].
    - Aes (encryption/aes/): CBC encryption of requests and responses over [BlockCipher].
    - JoinStore (jointokens/, joinrequests/repository.go, joinrequests/types/): join tokens,
      join requests and the text they travel in.
    - CommandTypes (commands/types/api-dto.go): the bodies of the API.
    - JoinClient (joinrequests/api.go, join_error.go): the retry loop of a joining node and
      what it tells its user.
    - NetworkApps (networkapps/service.go): restarting WireGuard, CoreDNS and Caddy; the
      scheduler as a step relation over callers and the worker goroutine.
    - World: the state a command works on: four tables, the disk and shell of the host, the
      two output streams, the restarts asked for, the docker calls made and the remote machine.
    - Addresses (utils/service.go, cmd/server/commands/utils.go): addresses of services and
      of machines reached over ssh.
    - Docker (dockerutils/service.go): the docker network, over a daemon whose answers depend
      on the calls made so far.
    - Ssh (ssh/): questions to and scripts for other machines, over the interface [SshLib].
    - DockerSocket (dockersocket/service.go): the docker socket and the label for it.
    - LocalService, LocalNodes (commands/local_service.go, local_server.go, local_client.go):
      the commands as the gateway runs them; LocalJoin (commands/local_join.go): joining.
    - ApiCommands (commands/api_commands_service.go): the same commands as requests.
    - Commands (commands/service.go): which role may run which command, and where it runs.
    - Reconcile (commands/local_server.go): a server's round, which brings its published
      services in line with container labels.
    - Machines (commands/local_gateway.go, local_server.go): bringing machines up and down
      over ssh; Startup (commands/local_gateway.go): the start of a gateway with its control
      server in a goroutine; Lifecycle (commands/service.go): the same behind the check of roles, and the
      start of a server, which joins first.
    - Routes (commands/routes.go): the gateway's HTTP handlers, the join route included.
    - WorldNetwork, Remote, Handshake: theorems across these files: the network invariant over
      commands and requests, a client's command against the gateway's own, a whole join.
    - Capacity: theorems on what is promised: join requests against the addresses and subnets
      that are left, over commands and joins.
    - Concurrent (commands/routes.go, nodes/repository.go): the join handler as a thread, action
      by action, among other requests and commands; Invitations (commands/local_server.go): the
      same for the command that hands out a join request.
    - Cli (cmd/server/commands/): what the command line checks before it hands over; CommandTree:
      the commands, their flags and the variables behind them, over the interface [Cobra];
      CommandLine: the [Run] functions and [rootCmd.Execute()] on top of both.
    - Database (database/service.go): the DSN, the database opened and closed, and the repair of
      stored labels, with [json.Valid]; Main (cmd/server/main.go): the entry point.

    A command goes through these as in the program: [Commands.Cmd.x] picks by role either
    [LocalNodes.x] or [LocalService.x] on this node's [World], or [ApiCommands.Api.x] over the
    transport; the other end is [Routes.serve], which runs [Commands.Cmd.x] again on the
    gateway's [World] (Remote puts the two ends together).  [LocalJoin.Join] asks through
    [JoinClient.JoinGateway] the other end's [Routes.join_handler] (Handshake), which calls
    [NodesRepo.CreateServer] or [NodesRepo.CreateClient], then [NodeConfigs.SaveConfigs] and
    [NetworkApps.RestartNetworkApps].

    ** What is proved

    - The network: whatever the calls and whatever fails, one gateway, no address or docker
      subnet twice, addresses and subnets in range (NodesNetwork); a refresh wires everybody
      to the gateway and the creating operations give the least free address and subnet with
      a certificate (NodesCreate); counters agree with allocators, refusals change nothing
      (NodesQueries).
    - The same over whole commands and requests, from the start of the gateway on an empty
      database, in any order and with any failure (WorldNetwork); and for nodes that join at
      the same time, with their actions and everybody else's interleaved in any way, with a
      node of its own in every answer (Concurrent); up to the order of rows a refresh is a function of the table, and
      refreshing twice is refreshing once (NodesReference).
    - Both ends together: a client's command leaves the gateway in the state its own command
      would have left and prints what that printed (Remote); a node that joins over the wire,
      where every machine but the gateway named in the invitation is silent and the gateway
      takes only that invitation's certificate, ends up with the node the gateway stored for it
      (Handshake).
    - Invitations: what has been promised and what has been taken never exceed the addresses
      and subnets there are, so that who holds a join request finds an address, and a subnet if it
      named none itself; a subnet named twice is promised twice; a join that is refused
      at its last step spoils the books (Capacity).
    - What taking turns can spoil: on any gateway with room for one more server any number of
      invitations handed out at once (Invitations), an error lost or taken for another
      (Startup); and as examples a gateway saved over a node that joined meanwhile and one
      invitation taken up twice (Concurrent).
    - Who may do what: only the gateway works on its database (Commands); nobody joins
      without a stored invitation, and a node can only remove itself (Routes).
    - The commands end to end: publishing, unpublishing, new servers, joining, with what is
      stored, written, restarted and printed, and what happens when a step fails
      (LocalService, LocalNodes, Routes).
    - Texts: configurations, networks, join requests and encrypted payloads read back as what
      they were made from; Caddy entries are balanced (NodeTypes, JoinStore, Aes,
      PublicServices).
    - Machines: a database is emptied only after the gateway's teardown has succeeded, an
      installation hands out the token its script printed, every listed container ends up in
      the docker network, a round runs the script the docker socket's label asks for and asks
      the gateway for what the container labels ask for, and says so, a server changes nothing
      of its database but its labels and keeps its
      token until it has joined (Machines, Ssh, Docker, DockerSocket, Reconcile, Lifecycle).
    - The command line: a command does what its own flags and arguments say, though the
      commands share the variables behind them (CommandTree, CommandLine); credentials are
      complete, a publication is handed over or answered with the one complaint it deserves,
      a postponed token is the one tried next (Cli); an address of a service that is printed
      reads back, but for IPv6 hosts of the web, and which machines' texts are accepted
      (Addresses).
    - The database: once it is open the stored labels are JSON, and when it is not the first step
      that failed gives the error and what it leaves is known (Database); which paths their DSN names, and which it does not; every
      profile has a database of its own (Config); how the program ends (Main).
    - Progress: the wait for a server ends with its timeout (Ssh), the retry loop ends after at
      most five posts with the delays it should have (JoinClient); every scheduled restart
      happens once the worker has run (NetworkApps); [k] requests to join that are left alone
      end within [11 k] actions (Concurrent).

    ** What the model takes as given

    The parameters are the code that is not in the repository: the database ([Gorm], with
    [GormLaws]: what is written is found, uniqueness of the key, failures that change
    nothing, no order of rows), certificates ([X509]), the template engine and the embedded
    templates ([Raymond]), JSON ([Json]; that a value
    comes back is assumed of the values at hand, or of those whose strings are UTF-8), the block cipher ([BlockCipher]), the parsing of the
    command line ([Cobra], with [CobraLaws]: a declared flag's variable starts with the flag's
    default, a command that runs is declared, takes its number of arguments, and finds in its
    variables what was given), the operating system's commands, the HTTP transport, clocks and random bytes.  Every law is satisfied
    by an instance in the library ([mem_gorm], [toy_x509], [toy_raymond] and the like), at
    which the theorems are applied to concrete inputs.

    Loops in the source are structural recursion over the list or range they run through, so
    no fuel is needed for them; the retry loop is bounded by its five attempts, the wait for
    a node by its ten, and the run of the scheduler's worker by the twelve steps its cycle
    can take before it rests.  The wait for a server has [Ssh.poll_rounds] rounds, which
    outlast the timeout on any clock that goes on while the loop sleeps ([Ssh.wait_ends]).
    A server's start has no end: [Lifecycle.Life.ServerStart] is its first attempts to join,
    its first rounds and so many calls to itself, and what is proved holds for all of them.

    ** What is not modelled

    Logging; the HTTP server and the multiplexer (routes/routes.go); the ssh and docker
    libraries, and what sqlite and gorm do when they open, migrate and close a database, which are
    parameters; the help and completion that cobra adds to the commands, and their long help
    texts; the file .env, whose variables count as part of the environment.  The transactions of sqlite are
    taken to follow one another, as [_txlock=immediate] makes them; what else happens
    between two of its calls is everything in Concurrent for the join handler and in
    Invitations for handing out a request, and nothing for the other handlers and commands,
    which are sequential.  The file writes of
    [SaveConfigs] are one action there.  What the embedded scripts and templates say is given
    by [Raymond]. *)
From Stdlib Require Export ZArith Lia Ascii String.
From stdpp Require Export base gmap strings list fin_maps sorting.

#[global] Open Scope Z_scope.

(** ** Go errors *)

(** An [error] value of Go.  A sentinel is a package-level variable made by
    [errors.New] and compared by identity; [Errorf] is an error made on the spot
    ([errors.New], or [fmt.Errorf] without [%w]); [Wrapped] is [fmt.Errorf] with
    one [%w] and [Joined] with two; their texts are the whole message. *)
Inductive error : Type :=
| Sentinel (name text : string)
| Errorf (text : string)
| Wrapped (text : string) (inner : error)
| Joined (text : string) (first second : error).

#[export] Instance error_eq_dec : EqDecision error.
Proof. solve_decision. Defined.

(** [err.Error()] *)
Definition error_text (e : error) : string :=
  match e with
  | Sentinel _ t => t
  | Errorf t => t
  | Wrapped t _ => t
  | Joined t _ _ => t
  end.

(** [errors.Is(err, target)] for a sentinel [target]. *)
Fixpoint errors_Is (e target : error) : bool :=
  bool_decide (e = target) ||
  match e with
  | Wrapped _ inner => errors_Is inner target
  | Joined _ a b => errors_Is a target || errors_Is b target
  | _ => false
  end.

(** ** Outcomes and the state monad *)

(** How a Go call ends: with a value, with a non-nil [error], with a run-time
    panic, or with the process gone ([log.Fatal]). *)
Inductive Out (A : Type) : Type :=
| Ret (a : A)
| Throw (e : error)
| Panic (why : string)
| Exited (why : string).
Arguments Ret {A} _.
Arguments Throw {A} _.
Arguments Panic {A} _.
Arguments Exited {A} _.

#[export] Instance Out_ret : MRet Out := λ A a, Ret a.
#[export] Instance Out_bind : MBind Out := λ A B f o,
  match o with
  | Ret a => f a
  | Throw e => Throw e
  | Panic p => Panic p
  | Exited p => Exited p
  end.

(** Go code that reads and writes a state of type [S].  The state survives an
    error return: only a transaction undoes it. *)
Definition M (S A : Type) : Type := S → Out A * S.

#[export] Instance M_ret {S} : MRet (M S) := λ A a s, (Ret a, s).
#[export] Instance M_bind {S} : MBind (M S) := λ A B f c s,
  match c s with
  | (Ret a, s') => f a s'
  | (Throw e, s') => (Throw e, s')
  | (Panic p, s') => (Panic p, s')
  | (Exited p, s') => (Exited p, s')
  end.

(** Runs [c] and hands its error, if it is one, to the caller as a value: Go's
    [x, err := f()] where [err] is inspected rather than returned. *)
Definition attempt {S A} (c : M S A) : M S (error + A) := λ s,
  match c s with
  | (Ret a, s') => (Ret (inr a), s')
  | (Throw e, s') => (Ret (inl e), s')
  | (Panic p, s') => (Panic p, s')
  | (Exited p, s') => (Exited p, s')
  end.

Definition throw {S A} (e : error) : M S A := λ s, (Throw e, s).
Definition get {S} : M S S := λ s, (Ret s, s).
Definition put {S} (s : S) : M S unit := λ _, (Ret tt, s).
Definition lift {S A} (o : Out A) : M S A := λ s, (o, s).

(** Runs [f] on the elements of a list in order. *)
Fixpoint foreach {S A} (f : A → M S unit) (l : list A) : M S unit :=
  match l with
  | [] => mret tt
  | x :: l' => f x ≫= λ _, foreach f l'
  end.

(** The elements' results in order, or the first failure. *)
Fixpoint out_map {A B} (f : A → Out B) (l : list A) : Out (list B) :=
  match l with
  | [] => Ret []
  | x :: l' => y ← f x; ys ← out_map f l'; mret (y :: ys)
  end.

(** ** Lemmas *)

Lemma bind_Ret_inv {A B} (c : Out A) (f : A → Out B) b :
  c ≫= f = Ret b → ∃ a, c = Ret a ∧ f a = Ret b.
Proof. destruct c; cbn; intros; simplify_eq; eauto. Qed.

(** A call that gives a value or an error. *)
Definition ends {A} (o : Out A) : Prop := (∃ a, o = Ret a) ∨ ∃ e, o = Throw e.
Lemma ends_Ret {A} (a : A) : ends (Ret a).
Proof. left. by exists a. Qed.
Lemma ends_Throw {A} e : ends (Throw e : Out A).
Proof. right. by exists e. Qed.
Lemma ends_bind {A B} (c : Out A) (f : A → Out B) : ends c → (∀ a, ends (f a)) → ends (c ≫= f).
Proof. intros [[a ->]|[e ->]] Hf; [apply Hf|apply ends_Throw]. Qed.
#[export] Hint Resolve ends_Ret ends_Throw ends_bind : ends.
(** Down a chain of calls, and into every branch. *)
Ltac by_ends :=
  repeat first
    [ progress intros
    | apply ends_Ret | apply ends_Throw | apply ends_bind
    | assumption
    | solve [eauto with ends]
    | match goal with
      | |- ends (match ?x with _ => _ end) => destruct x
      | |- ends (if ?b then _ else _) => destruct b
      end ].

(** A run whose outcome is known, with the state it leaves. *)
Lemma run_outcome {S A} (c : M S A) s o : (c s).1 = o → c s = (o, (c s).2).
Proof. intros <-. apply surjective_pairing. Qed.
Lemma M_bind_Ret_inv {S A B} (c : M S A) (f : A → M S B) s b s' :
  (c ≫= f) s = (Ret b, s') → ∃ a s1, c s = (Ret a, s1) ∧ f a s1 = (Ret b, s').
Proof. unfold mbind, M_bind. destruct (c s) as [[] s1]; intros; simplify_eq; eauto. Qed.

Lemma M_bind_Ret {S A B} (c : M S A) (f : A → M S B) s a s1 :
  c s = (Ret a, s1) → (c ≫= f) s = f a s1.
Proof. intros H. unfold mbind, M_bind. by rewrite H. Qed.

Lemma M_bind_Throw {S A B} (c : M S A) (f : A → M S B) s e s1 :
  c s = (Throw e, s1) → (c ≫= f) s = (Throw e, s1).
Proof. intros H. unfold mbind, M_bind. by rewrite H. Qed.

Lemma M_bind_Panic {S A B} (c : M S A) (f : A → M S B) s p s1 :
  c s = (Panic p, s1) → (c ≫= f) s = (Panic p, s1).
Proof. intros H. unfold mbind, M_bind. by rewrite H. Qed.

Lemma out_map_Ret {A B} (f : A → Out B) (g : A → B) l :
  (∀ x, x ∈ l → f x = Ret (g x)) → out_map f l = Ret (map g l).
Proof.
  induction l as [|x l IH]; intros H; cbn; [done|].
  rewrite H by set_solver. cbn. rewrite IH by set_solver. done.
Qed.

Lemma out_map_inv {A B} (f : A → Out B) l ys :
  out_map f l = Ret ys → Forall2 (λ x y, f x = Ret y) l ys.
Proof.
  revert ys. induction l as [|x l IH]; cbn; intros ys H; [by simplify_eq; constructor|].
  apply bind_Ret_inv in H as (y & Hy & H). apply bind_Ret_inv in H as (ys' & Hys & H).
  injection H as <-. constructor; auto.
Qed.

(** ** Triples *)

(** Started in a state that satisfies [P], [c] either returns a value and a state
    that satisfy [Q], or ends otherwise in a state that satisfies [E]. *)
Definition triple {S A} (P : S → Prop) (c : M S A) (Q : A → S → Prop) (E : S → Prop) : Prop :=
  ∀ s, P s → match c s with (Ret a, s') => Q a s' | (_, s') => E s' end.

Lemma triple_ret {S A} (a : A) (Q : A → S → Prop) E : triple (Q a) (mret a) Q E.
Proof. by intros s. Qed.

Lemma triple_throw {S A} e (Q : A → S → Prop) E : triple E (throw e) Q E.
Proof. by intros s. Qed.

Lemma triple_bind {S A B} (P : S → Prop) (c : M S A) (f : A → M S B) Q R E :
  triple P c Q E → (∀ a, triple (Q a) (f a) R E) → triple P (c ≫= f) R E.
Proof.
  intros Hc Hf s Hs. specialize (Hc s Hs). unfold mbind, M_bind.
  destruct (c s) as [[a|e|p|p] s1]; [by apply Hf|done..].
Qed.

Lemma triple_conseq {S A} (P P' : S → Prop) (c : M S A) (Q Q' : A → S → Prop) (E E' : S → Prop) :
  triple P' c Q' E' → (∀ s, P s → P' s) → (∀ a s, Q' a s → Q a s) → (∀ s, E' s → E s) →
  triple P c Q E.
Proof.
  intros Hc HP HQ HE s Hs. specialize (Hc s (HP s Hs)). destruct (c s) as [[a|e|p|p] s1]; eauto.
Qed.

Lemma triple_lift {S A} (o : Out A) (P : S → Prop) (Q : A → S → Prop) (E : S → Prop) :
  (∀ a s, o = Ret a → P s → Q a s) → (∀ s, P s → E s) → triple P (lift o) Q E.
Proof. intros HQ HE s Hs. cbn. destruct o; auto. Qed.

Lemma triple_foreach {S A} (f : A → M S unit) (l : list A) (I : S → Prop) E :
  (∀ x, x ∈ l → triple I (f x) (λ _, I) E) → triple I (foreach f l) (λ _, I) E.
Proof.
  induction l as [|x l IH]; intros Hf; cbn [foreach]; [by intros s|].
  eapply triple_bind; [apply Hf; left|]. intros []. apply IH. intros y Hy. apply Hf. by right.
Qed.

(** What a run that satisfies a triple shows. *)
Lemma triple_Ret {S A} (P : S → Prop) (c : M S A) Q E s a s' :
  triple P c Q E → P s → c s = (Ret a, s') → Q a s'.
Proof. intros Hc Hs Hr. specialize (Hc s Hs). by rewrite Hr in Hc. Qed.

Lemma triple_any {S A} (P : S → Prop) (c : M S A) (Q : S → Prop) s o s' :
  triple P c (λ _, Q) Q → P s → c s = (o, s') → Q s'.
Proof. intros Hc Hs Hr. specialize (Hc s Hs). rewrite Hr in Hc. by destruct o. Qed.

#[export] Instance filter_Permutation {A} (p : A → bool) :
  Proper ((≡ₚ) ==> (≡ₚ)) (List.filter p).
Proof.
  intros l l'. induction 1 as [|x l l' _ IH|x y l|l1 l2 l3 _ IH1 _ IH2]; cbn.
  - done.
  - destruct (p x); [by constructor|done].
  - destruct (p x), (p y); (apply perm_swap || done).
  - by etransitivity.
Qed.
