(* ===== verification/Threads.v ===== *)
(** * Computations that run at the same time

    A handler of [net/http] runs in a goroutine of its own: between two of its operations
    anything else may happen to what it shares with the others.  A [Thread] is such a
    computation cut into the actions that nothing interrupts; [run] runs it alone, a pool
    of threads takes steps in any order, and [secure] is what a thread guarantees as long
    as everybody else keeps to a relation [R] on the shared state. *)
From S2P Require Import Prelude.

(** ** Threads *)

(** The end with its outcome, or one action and what is done with its outcome. *)
Inductive Thread (S A : Type) : Type :=
| Ended (o : Out A)
| Act {B : Type} (c : M S B) (k : Out B → Thread S A).
Arguments Ended {S A} o.
Arguments Act {S A B} c k.

Definition atomic {S A} (c : M S A) : Thread S A := Act c Ended.

(** Goes on with [k], or with [h] when there is an error; a panic ends it. *)
Fixpoint catch {S A B} (t : Thread S A) (h : error → Thread S B) (k : A → Thread S B) : Thread S B :=
  match t with
  | Ended (Ret a) => k a
  | Ended (Throw e) => h e
  | Ended (Panic p) => Ended (Panic p)
  | Ended (Exited p) => Ended (Exited p)
  | Act c f => Act c (λ o, catch (f o) h k)
  end.
#[export] Instance Thread_ret {S} : MRet (Thread S) := λ A a, Ended (Ret a).
#[export] Instance Thread_bind {S} : MBind (Thread S) := λ A B f t, catch t (λ e, Ended (Throw e)) f.

(** A thread that nobody interrupts. *)
Fixpoint run {S A} (t : Thread S A) : M S A :=
  match t with
  | Ended o => lift o
  | Act c k => λ s, let '(o, s') := c s in run (k o) s'
  end.

Lemma run_catch {S A B} (t : Thread S A) (h : error → Thread S B) (k : A → Thread S B) s :
  run (catch t h k) s
  = (r ← attempt (run t); match r with inl e => run (h e) | inr a => run (k a) end) s.
Proof.
  revert s. induction t as [[]|C c f IH]; intros s; try done.
  cbn. unfold mbind, M_bind, attempt. cbn. destruct (c s) as [o s'].
  rewrite IH. unfold mbind, M_bind, attempt. by destruct (run (f o) s') as [[] ?].
Qed.
Lemma run_catch_to {S A B} (t : Thread S A) c (h : error → Thread S B) h' (k : A → Thread S B) k' :
  (∀ s, run t s = c s) → (∀ e s, run (h e) s = h' e s) → (∀ a s, run (k a) s = k' a s) →
  ∀ s, run (catch t h k) s = (r ← attempt c; match r with inl e => h' e | inr a => k' a end) s.
Proof.
  intros Ht Hh Hk s. rewrite run_catch. unfold mbind, M_bind, attempt.
  rewrite Ht. destruct (c s) as [[] ?]; [apply Hk|apply Hh|done..].
Qed.
Lemma run_bind {S A B} (t : Thread S A) c (k : A → Thread S B) k' :
  (∀ s, run t s = c s) → (∀ a s, run (k a) s = k' a s) → ∀ s, run (t ≫= k) s = (c ≫= k') s.
Proof.
  intros Ht Hk s. unfold mbind at 1, Thread_bind.
  rewrite (run_catch_to _ c _ (λ e, lift (Throw e)) _ k') by done.
  unfold mbind, M_bind, attempt. by destruct (c s) as [[] ?].
Qed.
Lemma run_atomic {S A} (c : M S A) s : run (atomic c) s = c s.
Proof. cbn. by destruct (c s). Qed.

(** ** Pools *)

Section pool.
  Context {S A : Type}.
  (** what else happens to the state *)
  Context (others : S → S → Prop).

Inductive pool_step : S * list (Thread S A) → S * list (Thread S A) → Prop :=
| PoolAct i B (c : M S B) k s ts o s' :
    ts !! i = Some (Act c k) → c s = (o, s') → pool_step (s, ts) (s', <[i := k o]> ts)
| PoolOthers s ts s' : others s s' → pool_step (s, ts) (s', ts).

(** One action of the [i]-th thread, and the actions of a schedule. *)
Definition act (i : nat) (x : S * list (Thread S A)) : S * list (Thread S A) :=
  match x.2 !! i with
  | Some (Act c k) => let '(o, s') := c x.1 in (s', <[i := k o]> x.2)
  | _ => x
  end.
Definition schedule (l : list nat) (x : S * list (Thread S A)) : S * list (Thread S A) :=
  fold_left (λ x i, act i x) l x.

Definition active (i : nat) (x : S * list (Thread S A)) : bool :=
  match x.2 !! i with Some (Act _ _) => true | _ => false end.
Lemma act_step i x : active i x = true → pool_step x (act i x).
Proof.
  unfold active, act. destruct x as [s ts]. cbn. destruct (ts !! i) as [[o|B c k]|] eqn:Hi; [done| |done].
  intros _. destruct (c s) as [o s'] eqn:Hc. by eapply PoolAct.
Qed.
Lemma act_idle i x : active i x = false → act i x = x.
Proof. unfold active, act. by destruct (x.2 !! i) as [[]|]. Qed.

Lemma schedule_steps l x : rtc pool_step x (schedule l x).
Proof.
  revert x. induction l as [|i l IH]; intros x; [done|]. etransitivity; [|apply IH].
  destruct (active i x) eqn:Hi; [by apply rtc_once, act_step|by rewrite act_idle].
Qed.


(** One thread of a pool, wherever it is: it can come from [t] to [t'], and the state from [s]
    to [s']. *)
Definition moves (s : S) (t : Thread S A) (s' : S) (t' : Thread S A) : Prop :=
  ∀ before after, rtc pool_step (s, before ++ t :: after) (s', before ++ t' :: after).
Lemma moves_trans s1 s2 s3 t1 t2 t3 : moves s1 t1 s2 t2 → moves s2 t2 s3 t3 → moves s1 t1 s3 t3.
Proof. intros H1 H2 before after. by etransitivity; [apply H1|apply H2]. Qed.
Lemma moves_act {B} (c : M S B) k s o s' : c s = (o, s') → moves s (Act c k) s' (k o).
Proof.
  intros Hc before after. apply rtc_once.
  replace (before ++ k o :: after) with (<[length before := k o]> (before ++ Act c k :: after)).
  - eapply PoolAct; [|exact Hc]. by rewrite lookup_app_r, Nat.sub_diag.
  - by rewrite insert_app_r_alt, Nat.sub_diag.
Qed.
Lemma moves_run t : ∀ s o s', run t s = (o, s') → moves s t s' (Ended o).
Proof.
  induction t as [o'|B c k IH]; intros s o s'; cbn.
  - by intros [= <- <-] before after.
  - destruct (c s) as [o1 s1] eqn:Hc. intros Hrun.
    eapply moves_trans; [by apply moves_act|by apply IH].
Qed.
(** Many threads, each after those before it. *)
Lemma moves_all {B} (f g : B → Thread S A) s l :
  (∀ x, x ∈ l → moves s (f x) s (g x)) → rtc pool_step (s, map f l) (s, map g l).
Proof.
  intros Hl. enough (∀ before, rtc pool_step (s, before ++ map f l) (s, before ++ map g l)) as H by exact (H []).
  induction l as [|x l IH]; intros before; [done|]. cbn.
  etransitivity; [apply (Hl x ltac:(by left))|].
  rewrite !(cons_middle (g x)), !(app_assoc before [g x]). apply IH. intros y Hy. apply Hl. by right.
Qed.
End pool.
Arguments moves {S A} others s t s' t'.

(** An action that only looks. *)
Lemma moves_query {S A B} others (c : M S B) h (k : B → Thread S A) s b :
  c s = (Ret b, s) → moves others s (catch (atomic c) h k) s (k b).
Proof. intros Hc. exact (moves_act others c _ s _ s Hc). Qed.

(** ** Guarantees *)

(** [R] is what every action keeps to; the guarantee [Q] is to hold at the end, whatever
    the others do meanwhile that keeps to [R]. *)

Section guarantee.
  Context {S : Type} (R : S → S → Prop) {HR : PreOrder R}.

Fixpoint wp {A} (t : Thread S A) (Q : Out A → S → Prop) (s : S) : Prop :=
  match t with
  | Ended o => Q o s
  | Act c k => let '(o, s') := c s in R s s' ∧ ∀ s'', R s' s'' → wp (k o) Q s''
  end.
Definition secure {A} (t : Thread S A) (Q : Out A → S → Prop) (s : S) : Prop :=
  ∀ s', R s s' → wp t Q s'.

Lemma wp_mono {A} (t : Thread S A) (P Q : Out A → S → Prop) s :
  (∀ o s', P o s' → Q o s') → wp t P s → wp t Q s.
Proof.
  intros HPQ. revert s. induction t as [o|B c k IH]; intros s; cbn; [auto|].
  destruct (c s) as [o s']. intros [Hs Hk]. split; [done|]. auto.
Qed.

Lemma wp_catch {A B} (t : Thread S A) h k (Q : Out B → S → Prop) s :
  wp t (λ o s', match o with
                | Ret a => wp (k a) Q s'
                | Throw e => wp (h e) Q s'
                | Panic p => Q (Panic p) s'
                | Exited p => Q (Exited p) s'
                end) s → wp (catch t h k) Q s.
Proof.
  revert s. induction t as [[]|C c f IH]; intros s; cbn; try done.
  destruct (c s) as [o s']. intros [Hs Hk]. split; [done|]. auto.
Qed.

(** One action: a rule of [triple] for it, with what it leaves still to hold later. *)
Lemma wp_atomic {A} (c : M S A) (P : S → Prop) (Q : A → S → Prop) (E : S → Prop) s :
  triple P c (λ a s', R s s' ∧ ∀ s'', R s' s'' → Q a s'')
    (λ s', R s s' ∧ ∀ s'', R s' s'' → E s'') →
  P s → wp (atomic c) (λ o s', match o with Ret a => Q a s' | _ => E s' end) s.
Proof. intros Hc Hs. specialize (Hc s Hs). cbn. by destruct (c s) as [[] s']. Qed.

(** The first action of a thread whose failures end it harmlessly; what the action
    establishes has to stand up to the others. *)
Definition stable (P : S → Prop) : Prop := ∀ s s', P s → R s s' → P s'.
Lemma wp_step {A B} (c : M S A) h k (P : S → Prop) (P' : A → S → Prop) (Q : Out B → S → Prop) s :
  (∀ s, P s → R s (c s).2 ∧ ∀ a, (c s).1 = Ret a → P' a (c s).2) → (∀ a, stable (P' a)) →
  (∀ e s, wp (h e) Q s) → (∀ p s, Q (Panic p) s) → (∀ p s, Q (Exited p) s) →
  (∀ a s, P' a s → wp (k a) Q s) → P s → wp (catch (atomic c) h k) Q s.
Proof.
  intros Hc HP' Hh Hp Hx Hk Hs. destruct (Hc s Hs) as [Hstep Hret]. apply wp_catch. cbn.
  destruct (c s) as [o s']. cbn in *. split; [done|]. intros s'' Hs''.
  destruct o as [a|e|p|p]; [|done..]. apply Hk. eapply HP'; [by apply Hret|done].
Qed.

(** Threads that guarantee something alone guarantee it together. *)
Lemma pool_secure {A} (others : S → S → Prop) (Q : nat → Out A → S → Prop) s ts s' ts' :
  (∀ x y, others x y → R x y) → (∀ i t, ts !! i = Some t → secure t (Q i) s) →
  rtc (pool_step others) (s, ts) (s', ts') →
  R s s' ∧ ∀ i t, ts' !! i = Some t → secure t (Q i) s'.
Proof.
  intros Hothers. remember (s, ts) as x eqn:Hx. remember (s', ts') as y eqn:Hy.
  intros Hts Hsteps. revert s ts Hx Hts.
  induction Hsteps as [x|x z y Hstep _ IH]; intros s ts -> Hts; [by injection Hy as <- <-|].
  assert (∃ s1 ts1, z = (s1, ts1) ∧ R s s1 ∧ ∀ i t, ts1 !! i = Some t → secure t (Q i) s1)
    as (s1 & ts1 & -> & Hs & Hts1).
  { inversion Hstep as [i B c k ? ? o s1 Hi Hc|? ? s1 Ho]; subst.
    - pose proof (Hts i _ Hi s (reflexivity s)) as Hw. cbn in Hw. rewrite Hc in Hw.
      destruct Hw as [Hs Hk]. do 2 eexists. split; [done|]. split; [done|].
      intros j t [(-> & <- & _)|[_ Hj]]%list_lookup_insert_Some; [exact Hk|].
      intros s2 Hs2. eapply Hts; [done|]. by etransitivity.
    - do 2 eexists. split; [done|]. split; [by apply Hothers|].
      intros j t Hj s2 Hs2. eapply Hts; [done|]. etransitivity; [by apply Hothers|done]. }
  destruct (IH Hy s1 ts1 eq_refl Hts1) as [Hs' Hend]. split; [by etransitivity|done].
Qed.
End guarantee.

(** ** How long they run *)

(** A thread of at most [n] actions. *)
Fixpoint within {S A} (n : nat) (t : Thread S A) {struct t} : Prop :=
  match t with
  | Ended _ => True
  | Act c k => match n with O => False | Datatypes.S n' => ∀ o, within n' (k o) end
  end.

Lemma within_more {S A} n m (t : Thread S A) : (n ≤ m)%nat → within n t → within m t.
Proof.
  revert n m. induction t as [o|B c k IH]; intros n m Hnm; [done|].
  destruct n as [|n], m as [|m]; cbn; intros Ht; try done; [lia|].
  intros o. apply (IH o n); [lia|done].
Qed.
Lemma within_catch {S A B} n m (t : Thread S A) (h : error → Thread S B) (k : A → Thread S B) :
  within n t → (∀ e, within m (h e)) → (∀ a, within m (k a)) → within (n + m) (catch t h k).
Proof.
  intros Ht Hh Hk. revert n Ht. induction t as [[]|C c f IH]; intros n Ht; cbn; try done.
  1,2: by apply (within_more m); [lia|].
  destruct n as [|n]; [done|]. cbn. intros o. by apply IH.
Qed.
Lemma within_atomic {S A} (c : M S A) : within 1 (atomic c).
Proof. done. Qed.

(** A pool goes on until everybody is at the end. *)
Definition ended {S A} (t : Thread S A) : Prop := ∃ o, t = Ended o.
Lemma pool_goes_on {S A} others (x : S * list (Thread S A)) :
  Forall ended x.2 ∨ ∃ y, pool_step others x y.
Proof.
  destruct x as [s ts]. cbn.
  assert (Forall ended ts ∨ ∃ i B (c : M S B) k, ts !! i = Some (Act c k)) as [Hts|(i & B & c & k & Hi)].
  { induction ts as [|[o|B c k] ts IH]; [by left| |right; by exists 0%nat, B, c, k].
    destruct IH as [IH|(i & B & c & k & Hi)]; [left|right; by exists (Datatypes.S i), B, c, k].
    constructor; [by exists o|done]. }
  - by left.
  - right. destruct (c s) as [o s'] eqn:Hc. eexists. by eapply PoolAct.
Qed.

(** The actions the threads have left, each under its own bound, and their sum. *)
Lemma sum_list_insert i n n' ns :
  ns !! i = Some n → (sum_list (<[i := n']> ns) + n = sum_list ns + n')%nat.
Proof.
  revert i. induction ns as [|x ns IH]; intros [|i] Hi; try done.
  - injection Hi as ->. change (n' + sum_list ns + n = n + sum_list ns + n')%nat. lia.
  - specialize (IH i Hi). change (x + sum_list (<[i := n']> ns) + n = x + sum_list ns + n')%nat. lia.
Qed.
Lemma pool_bound {S A} m (x y : S * list (Thread S A)) ns :
  Forall2 within ns x.2 → nsteps (pool_step (λ _ _, False)) m x y → (m ≤ sum_list ns)%nat.
Proof.
  intros Hns Hsteps. revert ns Hns.
  induction Hsteps as [x|m x z y Hstep _ IH]; intros ns Hns; [lia|].
  inversion Hstep as [i B c k s ts o s' Hi Hc|]; subst; [|done]. cbn in *.
  destruct (Forall2_lookup_r _ _ _ _ _ Hns Hi) as (n & Hn & Hw). cbn in Hw. destruct n as [|n]; [done|].
  assert (Forall2 within (<[i := n]> ns) (<[i := k o]> ts)) as Hns' by by apply Forall2_insert.
  specialize (IH _ Hns'). pose proof (sum_list_insert i _ n ns Hn). lia.
Qed.

(** However they take turns, threads left alone come to their ends. *)
Lemma pool_ends {S A} n m s (ts : list (Thread S A)) x :
  Forall (within n) ts → nsteps (pool_step (λ _ _, False)) m (s, ts) x → (m ≤ n * length ts)%nat.
Proof.
  intros Hts Hsteps. eapply (pool_bound _ _ _ (replicate (length ts) n)) in Hsteps.
  - rewrite sum_list_replicate in Hsteps. lia.
  - cbn. apply Forall2_replicate_l; [done|]. exact Hts.
Qed.
