(* ===== verification/GoStrings.v ===== *)
(** * The parts of Go's [strings], [strconv] and [fmt] the program uses

    A Go string is a sequence of bytes; here it is a [string] whose [ascii]
    characters are those bytes, so a UTF-8 literal of the source is the same
    literal here.  Only the functions the modelled code calls are defined. *)
From S2P Require Import Prelude.

(** ** Characters *)

Definition code (c : ascii) : Z := Z.of_N (N_of_ascii c).
Definition chr (z : Z) : ascii := ascii_of_N (Z.to_N z).
Definition is_digit (c : ascii) : bool := (48 <=? code c) && (code c <=? 57).
Definition byte_string (l : list Z) : string :=
  foldr (λ z s, String (chr z) s) EmptyString l.
Definition newline : string := byte_string [10].
Definition tab : string := byte_string [9].

(** Every byte of [s] satisfies [p]. *)
Fixpoint str_all (p : ascii → bool) (s : string) : bool :=
  match s with
  | EmptyString => true
  | String c s' => p c && str_all p s'
  end.

(** ** Package [strings] *)

(** [strings.Split(s, sep)] for a one-byte separator. *)
Fixpoint Split (sep : ascii) (s : string) : list string :=
  match s with
  | EmptyString => [EmptyString]
  | String c s' =>
      if Ascii.eqb c sep then EmptyString :: Split sep s'
      else match Split sep s' with
           | [] => [String c EmptyString]
           | p :: ps => String c p :: ps
           end
  end.

(** [strings.Join(elems, sep)] *)
Fixpoint Join (elems : list string) (sep : string) : string :=
  match elems with
  | [] => EmptyString
  | [e] => e
  | e :: es => e +:+ sep +:+ Join es sep
  end.

(** [strings.Repeat(s, count)] for [count >= 0] *)
Fixpoint Repeat (s : string) (count : nat) : string :=
  match count with
  | O => EmptyString
  | S n => s +:+ Repeat s n
  end.

(** The rest of [s] after the prefix [p], if it has it. *)
Fixpoint strip_prefix (p s : string) : option string :=
  match p, s with
  | EmptyString, _ => Some s
  | String a p', String b s' => if Ascii.eqb a b then strip_prefix p' s' else None
  | String _ _, EmptyString => None
  end.

(** [strings.HasPrefix(s, prefix)] *)
Definition HasPrefix (s prefix : string) : bool :=
  match strip_prefix prefix s with Some _ => true | None => false end.

(** [strings.TrimPrefix(s, prefix)] *)
Definition TrimPrefix (s prefix : string) : string :=
  match strip_prefix prefix s with Some r => r | None => s end.

(** The text before and after the last [sep], if there is one. *)
Fixpoint cut_last (sep : ascii) (s : string) : option (string * string) :=
  match s with
  | EmptyString => None
  | String c s' =>
      match cut_last sep s' with
      | Some (a, b) => Some (String c a, b)
      | None => if Ascii.eqb c sep then Some (EmptyString, s') else None
      end
  end.

(** [strings.Contains(s, substr)] *)
Fixpoint Contains (s substr : string) : bool :=
  HasPrefix s substr ||
  match s with
  | EmptyString => false
  | String _ s' => Contains s' substr
  end.

(** [utf8.Valid]: no stray or missing continuation byte, no overlong form, no surrogate
    and nothing above U+10FFFF. *)
Definition continuation (lo hi b : Z) : bool := (lo <=? b) && (b <=? hi).
Fixpoint valid_utf8 (l : list Z) : bool :=
  match l with
  | [] => true
  | b0 :: l1 =>
      if b0 <? 128 then valid_utf8 l1
      else
        match l1 with
        | [] => false
        | b1 :: l2 =>
            if continuation 194 223 b0 then continuation 128 191 b1 && valid_utf8 l2
            else
              match l2 with
              | [] => false
              | b2 :: l3 =>
                  if continuation 224 239 b0
                  then continuation (if b0 =? 224 then 160 else 128) (if b0 =? 237 then 159 else 191) b1
                       && continuation 128 191 b2 && valid_utf8 l3
                  else
                    match l3 with
                    | [] => false
                    | b3 :: l4 =>
                        continuation 240 244 b0
                        && continuation (if b0 =? 240 then 144 else 128) (if b0 =? 244 then 143 else 191) b1
                        && continuation 128 191 b2 && continuation 128 191 b3 && valid_utf8 l4
                    end
              end
        end
  end.
Definition ValidString (s : string) : bool := valid_utf8 (map code (list_ascii_of_string s)).

Example ValidString_some :
  ValidString "wg0 ✅ é" = true ∧ ValidString (String (ascii_of_N 255) "a") = false ∧
  ValidString (String (ascii_of_N 195) "") = false.
Proof. by vm_compute. Qed.

(** The UTF-8 encodings of the runes for which [unicode.IsSpace] holds. *)
Definition white_space : list string :=
  map byte_string
    ([[9]; [10]; [11]; [12]; [13]; [32]; [194; 133]; [194; 160]; [225; 154; 128]]
     ++ map (λ k, [226; 128; 128 + Z.of_nat k]) (seq 0 11)
     ++ [[226; 128; 168]; [226; 128; 169]; [226; 128; 175]; [226; 129; 159];
         [227; 128; 128]]).

(** [s] without one leading member of [ws], if it starts with one. *)
Fixpoint strip_one (ws : list string) (s : string) : option string :=
  match ws with
  | [] => None
  | w :: ws' =>
      match strip_prefix w s with
      | Some r => Some r
      | None => strip_one ws' s
      end
  end.

(** [s] without its leading members of [ws]; each round drops at least one byte,
    so [String.length s] rounds are enough. *)
Fixpoint strip_all (ws : list string) (rounds : nat) (s : string) : string :=
  match rounds with
  | O => s
  | S n => match strip_one ws s with Some r => strip_all ws n r | None => s end
  end.

Definition trim_start (ws : list string) (s : string) : string :=
  strip_all ws (String.length s) s.
Definition trim_end (ws : list string) (s : string) : string :=
  String.rev (trim_start (map String.rev ws) (String.rev s)).

(** [strings.TrimSpace(s)] *)
Definition TrimSpace (s : string) : string :=
  trim_end white_space (trim_start white_space s).

(** [strings.TrimRight(s, "\t ")] *)
Definition TrimRight_tab_space (s : string) : string :=
  trim_end [tab; " "%string] s.

(** [strings.Cut(s, sep)] for a one-byte separator it finds: what is before and after. *)
Fixpoint cut_first (sep : ascii) (s : string) : option (string * string) :=
  match s with
  | EmptyString => None
  | String c s' =>
      if Ascii.eqb c sep then Some (EmptyString, s')
      else match cut_first sep s' with
           | Some (a, b) => Some (String c a, b)
           | None => None
           end
  end.

(** [strings.ToLower] as far as ASCII letters go: the ASCII ones, and the two other
    characters whose lower case is one, U+0130 (i) and U+212A (k).  Other characters
    are kept: they are compared with nothing. *)
Definition lower_ascii (c : ascii) : ascii :=
  if (65 <=? code c) && (code c <=? 90) then chr (code c + 32) else c.
Fixpoint ToLower (s : string) : string :=
  match s with
  | EmptyString => EmptyString
  | String a s1 =>
      match s1 with
      | String b s2 =>
          if (code a =? 196) && (code b =? 176) then String "i" (ToLower s2)
          else
            match s2 with
            | String c s3 =>
                if (code a =? 226) && (code b =? 132) && (code c =? 170)
                then String "k" (ToLower s3)
                else String (lower_ascii a) (ToLower s1)
            | EmptyString => String (lower_ascii a) (ToLower s1)
            end
      | EmptyString => String (lower_ascii a) (ToLower s1)
      end
  end.

(** ** Packages [strconv] and [fmt] *)

(** Decimal digits of [n], most significant first, in front of [acc]. *)
Fixpoint digits (fuel : nat) (n : N) (acc : string) : string :=
  match fuel with
  | O => acc
  | S f =>
      let acc' := String (chr (48 + Z.of_N (n mod 10))) acc in
      if (n <? 10)%N then acc' else digits f (n / 10) acc'
  end.

(** The decimal form of [n]; a number has no more decimal digits than binary
    ones, so the fuel is enough. *)
Definition Uitoa (n : N) : string := digits (S (N.to_nat (N.log2 n))) n EmptyString.

(** [fmt.Sprintf("%d", z)] and [strconv.Itoa(z)] *)
Definition Itoa (z : Z) : string :=
  if z <? 0 then String "-" (Uitoa (Z.to_N (- z))) else Uitoa (Z.to_N z).

(** The value of a run of decimal digits read after [v]; [None] if another byte
    occurs. *)
Fixpoint parse_digits (s : string) (v : Z) : option Z :=
  match s with
  | EmptyString => Some v
  | String c s' =>
      if is_digit c then parse_digits s' (10 * v + (code c - 48)) else None
  end.

Definition parse_nat (s : string) : option Z :=
  match s with EmptyString => None | _ => parse_digits s 0 end.

Definition int64_min : Z := - 2 ^ 63.
Definition int64_max : Z := 2 ^ 63 - 1.
Definition uint16_ok (z : Z) : Prop := 0 ≤ z < 2 ^ 16.

Definition int64_checked (v : Z) : option Z :=
  if (int64_min <=? v) && (v <=? int64_max) then Some v else None.

(** [strconv.Atoi(s)]: an optional sign, then digits, in the range of [int64]. *)
Definition Atoi (s : string) : option Z :=
  match s with
  | String "-" r => v ← parse_nat r; int64_checked (- v)
  | String "+" r => v ← parse_nat r; int64_checked v
  | _ => v ← parse_nat s; int64_checked v
  end.

(** [strconv.ParseUint(s, 10, bits)]: digits only, below [2 ^ bits]. *)
Definition ParseUint (s : string) (bits : Z) : option Z :=
  v ← parse_nat s; if v <? 2 ^ bits then Some v else None.

(** ** Lemmas *)

Create HintDb gostr.

#[global] Arguments String.rev : simpl never.

Lemma str_app_nil_l s : EmptyString +:+ s = s.
Proof. reflexivity. Qed.

Lemma str_app_cons c s t : String c s +:+ t = String c (s +:+ t).
Proof. reflexivity. Qed.

(** Pushes [+:+] through the characters on its left. *)
Ltac str_simpl := rewrite ?str_app_nil_l, ?str_app_cons; cbn; rewrite ?str_app_nil_l, ?str_app_cons.

Lemma str_app_nil_r s : s +:+ EmptyString = s.
Proof. induction s as [|c s IH]; [done|]. str_simpl. by rewrite IH. Qed.

Lemma str_app_assoc a b c : (a +:+ b) +:+ c = a +:+ b +:+ c.
Proof. induction a as [|x a IH]; [done|]. str_simpl. by rewrite IH. Qed.

Lemma str_app_length a b : String.length (a +:+ b) = (String.length a + String.length b)%nat.
Proof. induction a as [|x a IH]; [done|]. str_simpl. by rewrite IH. Qed.

Lemma str_app_ne_r a c b : a +:+ String c b ≠ EmptyString.
Proof. by destruct a. Qed.

Lemma code_chr z : 0 ≤ z < 256 → code (chr z) = z.
Proof. intros ?. unfold code, chr. rewrite N_ascii_embedding; lia. Qed.

Lemma code_inj c d : code c = code d → c = d.
Proof.
  unfold code. intros H%N2Z.inj.
  by rewrite <- (ascii_N_embedding c), H, ascii_N_embedding.
Qed.

Lemma code_range c : 0 ≤ code c < 256.
Proof. unfold code. pose proof (N_ascii_bounded c). lia. Qed.

(** *** [str_all] *)

Lemma str_all_app p a b : str_all p (a +:+ b) = str_all p a && str_all p b.
Proof. induction a as [|c a IH]; [done|]. str_simpl. by rewrite IH, andb_assoc. Qed.

Lemma str_all_impl (p q : ascii → bool) s :
  (∀ c, p c = true → q c = true) → str_all p s = true → str_all q s = true.
Proof.
  intros Hpq. induction s as [|c s IH]; cbn; [done|].
  rewrite !andb_true_iff. intros [Hc Hs]. eauto.
Qed.

Lemma str_all_rev_app p a b :
  str_all p (String.rev_app a b) = str_all p a && str_all p b.
Proof.
  revert b. induction a as [|c a IH]; intros b; cbn; [done|].
  rewrite IH. cbn. by rewrite andb_assoc, (andb_comm (str_all p a)).
Qed.

Lemma str_all_rev p s : str_all p (String.rev s) = str_all p s.
Proof. unfold String.rev. rewrite str_all_rev_app. apply andb_true_r. Qed.

Lemma rev_app_spec a b : String.rev_app a b = String.rev a +:+ b.
Proof.
  unfold String.rev. revert b. induction a as [|c a IH]; intros b; [done|].
  cbn. rewrite IH, (IH (String c EmptyString)). by rewrite str_app_assoc.
Qed.

Lemma str_rev_cons c s : String.rev (String c s) = String.rev s +:+ String c EmptyString.
Proof. exact (rev_app_spec s (String c EmptyString)). Qed.

Lemma str_rev_app a b : String.rev (a +:+ b) = String.rev b +:+ String.rev a.
Proof.
  induction a as [|c a IH]; str_simpl.
  - change (String.rev EmptyString) with EmptyString. by rewrite str_app_nil_r.
  - by rewrite !str_rev_cons, IH, str_app_assoc.
Qed.

Lemma str_rev_involutive s : String.rev (String.rev s) = s.
Proof.
  induction s as [|c s IH]; [done|].
  by rewrite str_rev_cons, str_rev_app, IH.
Qed.

(** *** [Split] and [Join] *)

Definition lacks (sep : ascii) (s : string) : bool :=
  str_all (λ c, negb (Ascii.eqb c sep)) s.

Lemma lacks_app sep a b : lacks sep (a +:+ b) = lacks sep a && lacks sep b.
Proof. apply str_all_app. Qed.
Lemma cut_last_lacks sep s : lacks sep s = true → cut_last sep s = None.
Proof.
  unfold lacks. induction s as [|c s IH]; cbn; [done|].
  rewrite andb_true_iff, negb_true_iff. intros [-> Hs]. by rewrite IH.
Qed.
Lemma cut_last_app sep a b : lacks sep b = true → cut_last sep (a +:+ String sep b) = Some (a, b).
Proof.
  intros Hb. induction a as [|c a IH]; str_simpl; cbn [cut_last].
  - by rewrite (cut_last_lacks _ _ Hb), Ascii.eqb_refl.
  - by rewrite IH.
Qed.
Lemma cut_first_lacks sep s : lacks sep s = true → cut_first sep s = None.
Proof.
  induction s as [|c s IH]; [done|]. cbn. destruct (Ascii.eqb c sep); [done|].
  intros Hs. by rewrite IH.
Qed.
Lemma cut_first_app sep a b : lacks sep a = true → cut_first sep (a +:+ String sep b) = Some (a, b).
Proof.
  induction a as [|c a IH]; str_simpl; cbn; [by rewrite Ascii.eqb_refl|].
  destruct (Ascii.eqb c sep); [done|]. intros Ha. by rewrite IH.
Qed.
Lemma str_app_inj_l a b c : a +:+ b = a +:+ c → b = c.
Proof. induction a as [|x a IH]; intros E; [done|]. injection E as E. auto. Qed.
Lemma str_app_inj_r a b s : a +:+ s = b +:+ s → a = b.
Proof.
  revert b. induction a as [|x a IH]; intros [|y b] E; [done| | |].
  - apply (f_equal String.length) in E. rewrite !str_app_length in E. cbn in E. lia.
  - apply (f_equal String.length) in E. rewrite !str_app_length in E. cbn in E. lia.
  - injection E as -> E. f_equal. auto.
Qed.
Lemma cut_first_Some sep s a b : cut_first sep s = Some (a, b) → s = a +:+ String sep b ∧ lacks sep a = true.
Proof.
  revert a. induction s as [|c s IH]; cbn; intros a; [done|].
  destruct (Ascii.eqb c sep) eqn:E.
  - apply Ascii.eqb_eq in E as ->. by intros [= <- <-].
  - destruct (cut_first sep s) as [[a' b']|]; [|done]. intros [= <- ->].
    destruct (IH a' eq_refl) as [-> Ha]. split; [done|]. cbn. by rewrite E.
Qed.
Lemma cut_first_has sep s : lacks sep s = false → ∃ a b, cut_first sep s = Some (a, b).
Proof.
  induction s as [|c s IH]; cbn; [done|]. destruct (Ascii.eqb c sep); [by exists "", s|].
  cbn. intros (a & b & ->)%IH. by eexists _, _.
Qed.
Lemma cut_last_Some sep s a b :
  cut_last sep s = Some (a, b) → s = a +:+ String sep b ∧ lacks sep b = true.
Proof.
  revert a b. induction s as [|c s IH]; intros a b; cbn; [done|].
  destruct (cut_last sep s) as [[a' b']|] eqn:E.
  - intros [= <- <-]. destruct (IH a' b' eq_refl) as [-> ?]. by rewrite str_app_cons.
  - destruct (Ascii.eqb_spec c sep) as [->|]; [|done]. intros [= <- <-]. split; [done|].
    clear IH. unfold lacks. induction s as [|d s IH]; [done|]. cbn in *.
    destruct (cut_last sep s) as [[]|]; [done|]. destruct (Ascii.eqb d sep); [done|]. by apply IH.
Qed.

Lemma Split_ne_nil sep s : Split sep s ≠ [].
Proof. destruct s as [|c s]; cbn; [done|]. by case_match; [|case_match]. Qed.

Lemma Split_lacks sep s : lacks sep s = true → Split sep s = [s].
Proof.
  unfold lacks. induction s as [|c s IH]; cbn; [done|].
  rewrite andb_true_iff, negb_true_iff. intros [-> Hs]. by rewrite IH.
Qed.

Lemma Split_app sep a s :
  lacks sep a = true → Split sep (a +:+ String sep s) = a :: Split sep s.
Proof.
  unfold lacks. induction a as [|c a IH]; str_simpl; [by rewrite Ascii.eqb_refl|].
  rewrite andb_true_iff, negb_true_iff. intros [-> Ha]. by rewrite IH.
Qed.

Lemma Split_Join sep ps :
  ps ≠ [] → Forall (λ p, lacks sep p = true) ps →
  Split sep (Join ps (String sep EmptyString)) = ps.
Proof.
  induction ps as [|p ps IH]; intros Hne Hps; [done|].
  apply Forall_cons in Hps as [Hp Hps]. destruct ps as [|q ps].
  - by apply Split_lacks.
  - change (Join (p :: q :: ps) (String sep EmptyString))
      with (p +:+ String sep (Join (q :: ps) (String sep EmptyString))).
    rewrite Split_app by done. by rewrite IH.
Qed.

Lemma Split_parts_lack sep s : Forall (λ p, lacks sep p = true) (Split sep s).
Proof.
  induction s as [|c s IH]; cbn; [by constructor|].
  destruct (Ascii.eqb c sep) eqn:E; [by constructor|].
  destruct (Split sep s) as [|p ps]; [constructor; [|done]|].
  - unfold lacks; cbn. by rewrite E.
  - apply Forall_cons in IH as [? ?]. constructor; [|done].
    unfold lacks in *; cbn. by rewrite E.
Qed.

Lemma Join_Split sep s : Join (Split sep s) (String sep EmptyString) = s.
Proof.
  induction s as [|c s IH]; [done|]. cbn.
  destruct (Ascii.eqb_spec c sep) as [->|].
  - destruct (Split sep s) as [|p ps] eqn:E; [by apply Split_ne_nil in E|].
    cbn in *. by rewrite IH.
  - destruct (Split sep s) as [|p ps] eqn:E; [by apply Split_ne_nil in E|].
    destruct ps; cbn in *; by rewrite <- IH.
Qed.

(** *** Trimming *)

Definition plain (c : ascii) : bool := (33 <=? code c) && (code c <=? 126).

Definition starts_plain (s : string) : bool :=
  match s with EmptyString => false | String c _ => plain c end.

Lemma strip_prefix_app p s : strip_prefix p (p +:+ s) = Some s.
Proof. induction p as [|c p IH]; [done|]. str_simpl. by rewrite Ascii.eqb_refl. Qed.

Lemma strip_prefix_Some p s r : strip_prefix p s = Some r → s = p +:+ r.
Proof.
  revert s. induction p as [|c p IH]; intros [|d s]; cbn; intros H; simplify_eq; try done.
  destruct (Ascii.eqb_spec c d) as [->|]; [|done]. rewrite str_app_cons. f_equal. by apply IH.
Qed.

Lemma strip_one_plain ws s :
  Forall (λ w, w ≠ EmptyString ∧ starts_plain w = false) ws →
  s = EmptyString ∨ starts_plain s = true → strip_one ws s = None.
Proof.
  intros Hws Hs. induction Hws as [|w ws [Hne Hw] _ IH]; cbn; [done|].
  destruct w as [|a w]; [done|]. destruct s as [|b s]; cbn in *; [done|].
  destruct Hs as [|Hs]; [done|].
  destruct (Ascii.eqb_spec a b) as [->|]; [congruence|]. auto.
Qed.

Lemma trim_start_plain ws s :
  Forall (λ w, w ≠ EmptyString ∧ starts_plain w = false) ws →
  s = EmptyString ∨ starts_plain s = true → trim_start ws s = s.
Proof.
  intros Hws Hs. unfold trim_start. destruct s as [|c s]; [done|]. cbn -[strip_one].
  by rewrite (strip_one_plain ws (String c s)).
Qed.

Lemma white_space_not_plain :
  Forall (λ w, w ≠ EmptyString ∧ starts_plain w = false) white_space
  ∧ Forall (λ w, w ≠ EmptyString ∧ starts_plain w = false) (map String.rev white_space).
Proof. split; repeat (constructor; [split; [done|vm_compute; reflexivity]|]); constructor. Qed.

Lemma str_all_plain_start s :
  str_all plain s = true → s = EmptyString ∨ starts_plain s = true.
Proof. destruct s; cbn; [by left|]. rewrite andb_true_iff. intros []; auto. Qed.

(** No white space at either end. *)
Definition trimmed (s : string) : Prop :=
  (s = EmptyString ∨ starts_plain s = true) ∧ (String.rev s = EmptyString ∨ starts_plain (String.rev s) = true).
Lemma TrimSpace_trimmed s : trimmed s → TrimSpace s = s.
Proof.
  intros [Hs Hr]. unfold TrimSpace, trim_end.
  rewrite (trim_start_plain white_space s) by (done || apply white_space_not_plain).
  rewrite trim_start_plain by (done || apply white_space_not_plain). apply str_rev_involutive.
Qed.
Lemma TrimSpace_plain s : str_all plain s = true → TrimSpace s = s.
Proof.
  intros Hs. apply TrimSpace_trimmed. split; apply str_all_plain_start; [done|by rewrite str_all_rev].
Qed.
Lemma starts_plain_app a b : a ≠ EmptyString → str_all plain a = true → starts_plain (a +:+ b) = true.
Proof. destruct a as [|c a]; [done|]. cbn. by rewrite andb_true_iff; intros _ []. Qed.
(** A text between two that hold no white space. *)
Lemma trimmed_between a s b :
  a ≠ EmptyString → b ≠ EmptyString → str_all plain a = true → str_all plain b = true →
  trimmed (a +:+ s +:+ b).
Proof.
  intros Ha Hb Pa Pb. split; right; [by apply starts_plain_app|]. rewrite !str_rev_app, str_app_assoc.
  apply starts_plain_app; [|by rewrite str_all_rev].
  intros E. apply Hb. by rewrite <- (str_rev_involutive b), E.
Qed.

(** *** Decimal numbers *)

Lemma digit_char d : (d < 10)%N →
  is_digit (chr (48 + Z.of_N d)) = true ∧ code (chr (48 + Z.of_N d)) = 48 + Z.of_N d.
Proof.
  intros Hd. assert (code (chr (48 + Z.of_N d)) = 48 + Z.of_N d) as E by (apply code_chr; lia).
  split; [|done]. unfold is_digit. rewrite E. apply andb_true_iff. lia.
Qed.

Lemma mod10_lt n : (n mod 10 < 10)%N.
Proof. by apply N.mod_lt. Qed.

Lemma digits_all fuel n acc :
  str_all is_digit acc = true → str_all is_digit (digits fuel n acc) = true.
Proof.
  revert n acc. induction fuel as [|f IH]; intros n acc Hacc; cbn; [done|].
  assert (str_all is_digit (String (chr (48 + Z.of_N (n mod 10))) acc) = true) as H.
  { cbn. rewrite Hacc. rewrite (proj1 (digit_char (n mod 10) (mod10_lt n))). done. }
  case_match; auto.
Qed.

Lemma digits_ne fuel n acc : acc ≠ EmptyString → digits fuel n acc ≠ EmptyString.
Proof.
  revert n acc. induction fuel as [|f IH]; intros n acc Hacc; cbn; [done|].
  case_match; [done|]. by apply IH.
Qed.

Lemma Uitoa_ne n : Uitoa n ≠ EmptyString.
Proof. unfold Uitoa. cbn. case_match; [done|]. by apply digits_ne. Qed.

Lemma Itoa_ne z : Itoa z ≠ EmptyString.
Proof. unfold Itoa. case_match; [done|]. apply Uitoa_ne. Qed.

Lemma Itoa_digits z : 0 ≤ z → str_all is_digit (Itoa z) = true.
Proof. intros ?. unfold Itoa. destruct (Z.ltb_spec z 0); [lia|]. by apply digits_all. Qed.

Lemma log2_div10 n : (10 ≤ n)%N → (N.log2 (n / 10) < N.log2 n)%N.
Proof.
  intros Hn. assert (0 < n / 10)%N by (apply N.div_str_pos; lia).
  pose proof (N.log2_double (n / 10) ltac:(done)) as E.
  assert (2 * (n / 10) ≤ n)%N as Hle by (pose proof (N.Div0.mul_div_le n 10); lia).
  apply N.log2_le_mono in Hle. lia.
Qed.

Lemma parse_digits_digits fuel n acc v :
  (N.to_nat (N.log2 n) < fuel)%nat →
  ∃ k, parse_digits (digits fuel n acc) v = parse_digits acc (k * v + Z.of_N n).
Proof.
  revert n acc. induction fuel as [|f IH]; intros n acc Hf; [lia|].
  cbn [digits]. destruct (digit_char (n mod 10) (mod10_lt n)) as [Hd Hc].
  destruct (N.ltb_spec n 10) as [Hn|Hn].
  - exists 10. cbn [parse_digits]. rewrite Hd, Hc.
    f_equal. rewrite N.mod_small by done. lia.
  - pose proof (log2_div10 n Hn).
    destruct (IH (n / 10)%N (String (chr (48 + Z.of_N (n mod 10))) acc)) as (k & ->); [lia|].
    exists (10 * k). cbn [parse_digits]. rewrite Hd, Hc. f_equal.
    pose proof (N.div_mod n 10 (N.neq_succ_0 9)). lia.
Qed.

Lemma parse_nat_Uitoa n : parse_nat (Uitoa n) = Some (Z.of_N n).
Proof.
  pose proof (Uitoa_ne n) as Hne. unfold parse_nat.
  destruct (Uitoa n) as [|c s] eqn:E; [done|]. rewrite <- E. unfold Uitoa.
  destruct (parse_digits_digits (S (N.to_nat (N.log2 n))) n EmptyString 0) as (k & ->); [lia|].
  cbn. f_equal. lia.
Qed.

Lemma int64_checked_ok z : int64_min ≤ z ≤ int64_max → int64_checked z = Some z.
Proof. intros ?. unfold int64_checked. by rewrite (proj2 (andb_true_iff _ _)) by lia. Qed.

Lemma Atoi_no_sign c s :
  is_digit c = true → Atoi (String c s) = (v ← parse_nat (String c s); int64_checked v).
Proof. by destruct c as [[][][][][][][][]]. Qed.

Lemma Atoi_Itoa z : int64_min ≤ z ≤ int64_max → Atoi (Itoa z) = Some z.
Proof.
  intros Hz. pose proof (Itoa_digits z) as Hd. unfold Itoa in *.
  destruct (Z.ltb_spec z 0).
  - change (Atoi (String "-" ?r)) with (v ← parse_nat r; int64_checked (- v)).
    rewrite parse_nat_Uitoa. cbn -[int64_checked].
    rewrite <- (int64_checked_ok z) by done. f_equal. lia.
  - pose proof (parse_nat_Uitoa (Z.to_N z)) as E. specialize (Hd ltac:(lia)).
    destruct (Uitoa (Z.to_N z)) as [|c s]; [done|]. cbn in Hd.
    apply andb_true_iff in Hd as [Hc _].
    rewrite Atoi_no_sign, E by done. cbn -[int64_checked].
    rewrite Z2N.id by lia. by apply int64_checked_ok.
Qed.

Lemma Itoa_inj x y : 0 ≤ x → 0 ≤ y → Itoa x = Itoa y → x = y.
Proof.
  unfold Itoa. destruct (Z.ltb_spec x 0), (Z.ltb_spec y 0); try lia.
  intros _ _ E. apply (f_equal parse_nat) in E. rewrite !parse_nat_Uitoa in E.
  simplify_eq. lia.
Qed.

Lemma ParseUint_Itoa z bits : 0 ≤ z < 2 ^ bits → ParseUint (Itoa z) bits = Some z.
Proof.
  intros Hz. unfold ParseUint, Itoa. destruct (Z.ltb_spec z 0); [lia|].
  rewrite parse_nat_Uitoa. cbn. rewrite Z2N.id by lia.
  by destruct (Z.ltb_spec z (2 ^ bits)); [|lia].
Qed.

Lemma digit_plain c : is_digit c = true → plain c = true.
Proof. unfold is_digit, plain. rewrite !andb_true_iff. lia. Qed.

Lemma digit_lacks sep s :
  is_digit sep = false → str_all is_digit s = true → lacks sep s = true.
Proof.
  intros Hsep. apply str_all_impl. intros c Hc. rewrite negb_true_iff.
  apply Ascii.eqb_neq. congruence.
Qed.

Lemma Itoa_plain z : 0 ≤ z → str_all plain (Itoa z) = true.
Proof. intros ?. eapply str_all_impl; [apply digit_plain|]. by apply Itoa_digits. Qed.

Lemma Itoa_lacks sep z : is_digit sep = false → 0 ≤ z → lacks sep (Itoa z) = true.
Proof. intros ? ?. apply digit_lacks; [done|]. by apply Itoa_digits. Qed.

#[export] Hint Resolve Itoa_plain Itoa_lacks Itoa_ne Itoa_digits : gostr.

(** ** A text codec for countable types

    Instances of the interfaces to third-party encoders use it. *)
Definition to_text `{Countable A} (a : A) : string := Itoa (Zpos (encode a)).
Definition of_text `{Countable A} (s : string) : option A :=
  z ← parse_nat s; match z with Zpos p => decode p | _ => None end.

Lemma of_to_text `{Countable A} (a : A) : of_text (to_text a) = Some a.
Proof.
  unfold of_text, to_text, Itoa. cbn [Z.ltb Z.compare]. rewrite parse_nat_Uitoa. cbn.
  apply decode_encode.
Qed.

(** What trimming takes away. *)
Lemma strip_one_Some ws s r : strip_one ws s = Some r → ∃ w, w ∈ ws ∧ s = w +:+ r.
Proof.
  induction ws as [|w ws IH]; cbn; [done|]. destruct (strip_prefix w s) as [r'|] eqn:E.
  - intros [= <-]. exists w. split; [left|by apply strip_prefix_Some].
  - intros (w' & Hw & Hs)%IH. exists w'. split; [by right|done].
Qed.

Lemma trim_start_split q ws s :
  Forall (λ w, str_all q w = true) ws →
  ∃ p, s = p +:+ trim_start ws s ∧ str_all q p = true.
Proof.
  intros Hws. unfold trim_start. generalize (String.length s) as n. intros n. revert s.
  induction n as [|n IH]; intros s; cbn [strip_all]; [by exists EmptyString|].
  destruct (strip_one ws s) as [r|] eqn:E; [|by exists EmptyString].
  apply strip_one_Some in E as (w & Hw & ->). destruct (IH r) as (p & Hr & Hp).
  exists (w +:+ p). rewrite str_app_assoc, <- Hr. split; [done|].
  rewrite str_all_app, Hp. rewrite Forall_forall in Hws. by rewrite Hws.
Qed.

Lemma trim_end_split q ws s :
  Forall (λ w, str_all q w = true) ws →
  ∃ p, s = trim_end ws s +:+ p ∧ str_all q p = true.
Proof.
  intros Hws. destruct (trim_start_split q (map String.rev ws) (String.rev s)) as (p & Hs & Hp).
  { apply Forall_map. eapply Forall_impl; [exact Hws|]. intros w Hw. by rewrite str_all_rev. }
  exists (String.rev p). rewrite str_all_rev. split; [|done].
  unfold trim_end. rewrite <- str_rev_app, <- Hs. by rewrite str_rev_involutive.
Qed.

Lemma TrimSpace_split q s :
  Forall (λ w, str_all q w = true) white_space →
  ∃ a b, s = a +:+ TrimSpace s +:+ b ∧ str_all q a = true ∧ str_all q b = true.
Proof.
  intros Hws. destruct (trim_start_split q white_space s) as (a & Ha & ?); [done|].
  destruct (trim_end_split q white_space (trim_start white_space s)) as (b & Hb & ?); [done|].
  exists a, b. split; [|done]. unfold TrimSpace. by rewrite <- Hb.
Qed.

Lemma str_all_Repeat q s n : str_all q s = true → str_all q (Repeat s n) = true.
Proof. intros Hs. induction n; [done|]. cbn [Repeat]. by rewrite str_all_app, Hs. Qed.
