(* ===== verification/GoNet.v ===== *)
(** * The parts of Go's package [net] the program uses

    [net.IP] and [net.IPMask] are byte slices, here lists of byte values; the nil
    slice is [[]].  [ParseIP], [IP.String], [CIDRMask] and [IPNet.String] follow
    the library's code, IPv6 forms included. *)
From S2P Require Import Prelude GoStrings.

Definition IP : Type := list Z.
Definition IPMask : Type := list Z.

Record IPNet : Type := MkIPNet { net_IP : IP; net_Mask : IPMask }.
Record UDPAddr : Type := MkUDPAddr { udp_IP : IP; udp_Port : Z }.

#[export] Instance IPNet_eq_dec : EqDecision IPNet.
Proof. solve_decision. Defined.
#[export] Instance UDPAddr_eq_dec : EqDecision UDPAddr.
Proof. solve_decision. Defined.

(** The bytes in front of an IPv4 address in its 16-byte form. *)
Definition v4InV6Prefix : list Z := [0; 0; 0; 0; 0; 0; 0; 0; 0; 0; 255; 255].

(** [net.IPv4(a, b, c, d)] *)
Definition IPv4 (a b c d : Z) : IP := v4InV6Prefix ++ [a; b; c; d].

(** [ip.To4()] *)
Definition To4 (ip : IP) : IP :=
  if (length ip =? 4)%nat then ip
  else if (length ip =? 16)%nat && bool_decide (take 12 ip = v4InV6Prefix)
  then drop 12 ip else [].

(** ** [net.ParseIP] *)

(** [netip.parseIPv4Fields]: [prev] is the byte before [s], [fields] the octets
    complete so far. *)
Fixpoint parseIPv4Fields (s : string) (prev : option ascii) (val digLen : Z)
    (fields : list Z) : option (list Z) :=
  match s with
  | EmptyString => if (length fields <? 3)%nat then None else Some (fields ++ [val])
  | String c s' =>
      if is_digit c then
        if (digLen =? 1) && (val =? 0) then None
        else
          let val' := val * 10 + (code c - 48) in
          if 255 <? val' then None
          else parseIPv4Fields s' (Some c) val' (digLen + 1) fields
      else if Ascii.eqb c "." then
        if bool_decide (prev = None) || bool_decide (s' = EmptyString)
           || bool_decide (prev = Some "."%char) then None
        else if (length fields =? 3)%nat then None
        else parseIPv4Fields s' (Some c) 0 0 (fields ++ [val])
      else None
  end.

Definition hex_value (c : ascii) : option Z :=
  if is_digit c then Some (code c - 48)
  else if (97 <=? code c) && (code c <=? 102) then Some (code c - 87)
  else if (65 <=? code c) && (code c <=? 70) then Some (code c - 55)
  else None.

(** One group of at most four hex digits: how many were read, their value and
    the rest. *)
Fixpoint hexGroup (s : string) (off : nat) (acc : Z) : option (nat * Z * string) :=
  match s with
  | String c s' =>
      match hex_value c with
      | Some h => if (3 <? off)%nat then None else hexGroup s' (S off) (16 * acc + h)
      | None => Some (off, acc, s)
      end
  | EmptyString => Some (off, acc, EmptyString)
  end.

(** The group loop of [netip.parseIPv6]: [ip] holds the bytes so far and
    [ellipsis] where a double colon stood.  Each round adds two bytes, so nine
    rounds are enough. *)
Fixpoint parseIPv6Groups (rounds : nat) (s : string) (ip : list Z) (ellipsis : option nat)
    : option (string * list Z * option nat) :=
  match rounds with
  | O => None
  | S n =>
      if (16 <=? length ip)%nat then Some (s, ip, ellipsis)
      else
        '(off, acc, rest) ← hexGroup s 0 0;
        if (off =? 0)%nat then None
        else
          match rest with
          | String "." _ =>
              if bool_decide (ellipsis = None) && negb (length ip =? 12)%nat then None
              else if (16 <? length ip + 4)%nat then None
              else
                four ← parseIPv4Fields s None 0 0 [];
                Some (EmptyString, ip ++ four, ellipsis)
          | _ =>
              let ip' := ip ++ [acc / 256; acc mod 256] in
              match rest with
              | EmptyString => Some (EmptyString, ip', ellipsis)
              | String ":" EmptyString => None
              | String ":" (String ":" rest') =>
                  if bool_decide (is_Some ellipsis) then None
                  else match rest' with
                       | EmptyString => Some (EmptyString, ip', Some (length ip'))
                       | _ => parseIPv6Groups n rest' ip' (Some (length ip'))
                       end
              | String ":" rest' => parseIPv6Groups n rest' ip' ellipsis
              | _ => None
              end
          end
  end.

(** [netip.parseIPv6] of a string without a zone. *)
Definition parseIPv6 (s : string) : option IP :=
  let '(s', ellipsis) :=
    match strip_prefix "::" s with Some r => (r, Some 0%nat) | None => (s, None) end in
  if bool_decide (ellipsis = Some 0%nat) && bool_decide (s' = EmptyString)
  then Some (replicate 16 0)
  else
    '(rest, ip, ell) ← parseIPv6Groups 9 s' [] ellipsis;
    if negb (bool_decide (rest = EmptyString)) then None
    else if (length ip <? 16)%nat then
      match ell with
      | None => None
      | Some e => Some (take e ip ++ replicate (16 - length ip) 0 ++ drop e ip)
      end
    else match ell with Some _ => None | None => Some ip end.

(** The first of the bytes that tell the address families apart. *)
Fixpoint first_mark (s : string) : option ascii :=
  match s with
  | EmptyString => None
  | String c s' =>
      if Ascii.eqb c "." || Ascii.eqb c ":" || Ascii.eqb c "%" then Some c
      else first_mark s'
  end.

(** [net.ParseIP(s)]: the 16-byte form, nil when [s] is no address; an IPv6
    address with a zone is none. *)
Definition ParseIP (s : string) : IP :=
  match first_mark s with
  | Some "."%char =>
      match parseIPv4Fields s None 0 0 [] with
      | Some four => v4InV6Prefix ++ four
      | None => []
      end
  | Some ":"%char =>
      if lacks "%" s then default [] (parseIPv6 s) else []
  | _ => []
  end.

(** ** Printing *)

(** [fmt.Sprintf("%d.%d.%d.%d", a, b, c, d)] *)
Definition dotted (a b c d : Z) : string :=
  Itoa a +:+ "." +:+ Itoa b +:+ "." +:+ Itoa c +:+ "." +:+ Itoa d.

Definition hex_digit (d : Z) : string :=
  String (if d <? 10 then chr (48 + d) else chr (87 + d)) EmptyString.

(** [net.hexString]: two digits a byte. *)
Definition hexString (l : list Z) : string :=
  foldr (λ b s, hex_digit (b / 16) +:+ hex_digit (b mod 16) +:+ s) EmptyString l.

(** Hex digits of a 16-bit group without leading zeros. *)
Definition appendHex (g : Z) : string :=
  (if 4096 <=? g then hex_digit (g / 4096) else EmptyString) +:+
  (if 256 <=? g then hex_digit (g / 256 mod 16) else EmptyString) +:+
  (if 16 <=? g then hex_digit (g / 16 mod 16) else EmptyString) +:+
  hex_digit (g mod 16).

Fixpoint groups (l : list Z) : list Z :=
  match l with
  | h :: l :: r => h * 256 + l :: groups r
  | _ => []
  end.

(** How many groups at the front of [gs] are zero. *)
Fixpoint zero_run (gs : list Z) : nat :=
  match gs with
  | g :: gs' => if g =? 0 then S (zero_run gs') else O
  | [] => O
  end.

(** The first longest run of two or more zero groups: its start and length. *)
Definition longest_run (gs : list Z) : nat * nat :=
  foldl (λ best i, let n := zero_run (drop i gs) in
         if (2 <=? n)%nat && (best.2 <? n)%nat then (i, n) else best)
    (255, 0)%nat (seq 0 8).

(** [netip.Addr.String] of an IPv6 address. *)
Definition v6String (ip : IP) : string :=
  let gs := groups ip in
  let '(start, len) := longest_run gs in
  if (len =? 0)%nat then Join (map appendHex gs) ":"
  else Join (map appendHex (take start gs)) ":" +:+ "::" +:+
       Join (map appendHex (drop (start + len) gs)) ":".

(** [ip.String()] *)
Definition IP_String (ip : IP) : string :=
  match ip with
  | [] => "<nil>"
  | _ =>
      match To4 ip with
      | [a; b; c; d] => dotted a b c d
      | _ => if (length ip =? 16)%nat then v6String ip else "?" +:+ hexString ip
      end
  end.

(** [net.CIDRMask(ones, 32)] *)
Definition mask_byte (ones : Z) : Z :=
  if 8 <=? ones then 255 else if ones <=? 0 then 0 else 256 - 2 ^ (8 - ones).
Definition CIDRMask32 (ones : Z) : IPMask :=
  if (ones <? 0) || (32 <? ones) then []
  else map (λ i, mask_byte (ones - 8 * i)) [0; 1; 2; 3].

(** The number of leading one bits of a byte, [None] if a one follows a zero. *)
Definition leading_ones (v : Z) : option Z :=
  snd <$> List.find (λ p, fst p =? v)
            (map (λ k, (mask_byte k, k)) [0; 1; 2; 3; 4; 5; 6; 7; 8]).

(** [net.simpleMaskLength]: the prefix length, -1 if the mask is none. *)
Fixpoint simpleMaskLength (mask : IPMask) : Z :=
  match mask with
  | [] => 0
  | v :: mask' =>
      if v =? 255 then
        let n := simpleMaskLength mask' in if n =? -1 then -1 else 8 + n
      else match leading_ones v with
           | Some k => if forallb (Z.eqb 0) mask' then k else -1
           | None => -1
           end
  end.

(** [n.String()] of an [IPNet]: the address and mask lengths must agree. *)
Definition IPNet_String (n : IPNet) : string :=
  let ip4 := To4 (net_IP n) in
  let ip := match ip4 with [] => net_IP n | _ => ip4 end in
  let mask :=
    if (length (net_Mask n) =? 4)%nat then
      if (length ip =? 4)%nat then net_Mask n else []
    else if (length (net_Mask n) =? 16)%nat then
      if (length ip =? 4)%nat then drop 12 (net_Mask n) else net_Mask n
    else [] in
  if negb ((length ip =? 4)%nat || (length ip =? 16)%nat) || bool_decide (mask = [])
  then "<nil>"
  else
    let l := simpleMaskLength mask in
    if l =? -1 then IP_String ip +:+ "/" +:+ hexString mask
    else IP_String ip +:+ "/" +:+ Itoa l.

(** A 16-byte IPv4 address and a [/ones] network on it, as [ParseIP] and
    [CIDRMask] make them. *)
Definition byte_val (z : Z) : Prop := 0 ≤ z < 256.
Definition v4_addr (ip : IP) : Prop :=
  ∃ a b c d, ip = IPv4 a b c d ∧ byte_val a ∧ byte_val b ∧ byte_val c ∧ byte_val d.
Definition v4_net (n : IPNet) : Prop :=
  v4_addr (net_IP n) ∧ ∃ ones, 0 ≤ ones ≤ 32 ∧ net_Mask n = CIDRMask32 ones.

(** ** Lemmas *)

(** What [parseIPv4Fields] does on a run of digits. *)
Fixpoint octet_run (w : string) (prev : option ascii) (val digLen : Z)
    : option (option ascii * Z * Z) :=
  match w with
  | EmptyString => Some (prev, val, digLen)
  | String c w' =>
      if is_digit c then
        if (digLen =? 1) && (val =? 0) then None
        else
          let val' := val * 10 + (code c - 48) in
          if 255 <? val' then None else octet_run w' (Some c) val' (digLen + 1)
      else None
  end.

Lemma parseIPv4Fields_run w s prev val n fields p' v' n' :
  octet_run w prev val n = Some (p', v', n') →
  parseIPv4Fields (w +:+ s) prev val n fields = parseIPv4Fields s p' v' n' fields.
Proof.
  revert prev val n. induction w as [|c w IH]; intros prev val n; cbn [octet_run]; intros H.
  - by simplify_eq.
  - rewrite str_app_cons. cbn [parseIPv4Fields].
    destruct (is_digit c); [|done].
    destruct ((n =? 1) && (val =? 0)); [done|].
    destruct (255 <? val * 10 + (code c - 48)); [done|]. by apply IH.
Qed.

(** All [n] below a bound satisfy a boolean test, by computation. *)
Lemma forallb_range (f : Z → bool) n :
  forallb f (map Z.of_nat (seq 0 n)) = true → ∀ z, 0 ≤ z < Z.of_nat n → f z = true.
Proof.
  rewrite forallb_forall. intros H z Hz. apply H. apply in_map_iff.
  exists (Z.to_nat z). split; [lia|]. apply in_seq. lia.
Qed.

Definition octet_ok (b : Z) : bool :=
  match octet_run (Itoa b) None 0 0 with
  | Some (Some p, v, n) => (v =? b) && is_digit p
  | _ => false
  end.

Lemma octet_run_prev w prev prev' val n :
  w ≠ EmptyString → octet_run w prev val n = octet_run w prev' val n.
Proof. by destruct w. Qed.

Lemma octet_run_Itoa prev b : byte_val b →
  ∃ p n, octet_run (Itoa b) prev 0 0 = Some (Some p, b, n) ∧ is_digit p = true.
Proof.
  intros Hb. rewrite (octet_run_prev _ prev None) by apply Itoa_ne.
  assert (octet_ok b = true) as H
    by (apply (forallb_range octet_ok 256); [vm_compute; reflexivity|done]).
  unfold octet_ok in H. destruct (octet_run (Itoa b) None 0 0) as [[[[p|] v] n]|]; try done.
  apply andb_true_iff in H as [Hv%Z.eqb_eq Hp]. subst. eauto.
Qed.

(** An octet followed by a point, not the last one. *)
Lemma parseIPv4Fields_octet b s prev fields :
  byte_val b → s ≠ EmptyString → (length fields < 3)%nat →
  parseIPv4Fields (Itoa b +:+ String "." s) prev 0 0 fields
  = parseIPv4Fields s (Some "."%char) 0 0 (fields ++ [b]).
Proof.
  intros Hb Hs Hf. destruct (octet_run_Itoa prev b Hb) as (p & n & Hrun & Hp).
  rewrite (parseIPv4Fields_run _ _ _ _ _ _ _ _ _ Hrun). cbn [parseIPv4Fields].
  change (is_digit ".") with false. rewrite Ascii.eqb_refl. cbn match.
  rewrite (bool_decide_eq_false_2 (Some p = None)) by done.
  rewrite (bool_decide_eq_false_2 (s = EmptyString)) by done.
  rewrite (bool_decide_eq_false_2 (Some p = Some "."%char)) by (intros ?; simplify_eq).
  destruct (Nat.eqb_spec (length fields) 3); [lia|done].
Qed.

Lemma parseIPv4Fields_last b prev fields :
  byte_val b → (3 ≤ length fields)%nat →
  parseIPv4Fields (Itoa b) prev 0 0 fields = Some (fields ++ [b]).
Proof.
  intros Hb Hf. destruct (octet_run_Itoa prev b Hb) as (p & n & Hrun & Hp).
  rewrite <- (str_app_nil_r (Itoa b)), (parseIPv4Fields_run _ _ _ _ _ _ _ _ _ Hrun).
  cbn [parseIPv4Fields]. by destruct (Nat.ltb_spec (length fields) 3); [lia|].
Qed.

Lemma first_mark_digits w s :
  str_all is_digit w = true → first_mark (w +:+ s) = first_mark s.
Proof.
  induction w as [|c w IH]; [done|]. cbn. rewrite andb_true_iff. intros [Hc Hw].
  rewrite str_app_cons. cbn. rewrite IH by done.
  assert (∀ d, is_digit d = false → Ascii.eqb c d = false) as Hne.
  { intros d Hd. apply Ascii.eqb_neq. congruence. }
  by rewrite !Hne.
Qed.

Lemma ParseIP_dotted a b c d :
  byte_val a → byte_val b → byte_val c → byte_val d →
  ParseIP (dotted a b c d) = IPv4 a b c d.
Proof.
  intros Ha Hb Hc Hd. unfold ParseIP, dotted.
  rewrite first_mark_digits by (apply Itoa_digits; unfold byte_val in *; lia).
  rewrite !str_app_cons, !str_app_nil_l. cbn [first_mark]. rewrite Ascii.eqb_refl. cbn match.
  rewrite !parseIPv4Fields_octet by (done || apply str_app_ne_r || apply Itoa_ne || (cbn; lia)).
  by rewrite parseIPv4Fields_last by (done || cbn; lia).
Qed.

Lemma dotted_inj a b c d a' b' c' d' :
  byte_val a → byte_val b → byte_val c → byte_val d →
  byte_val a' → byte_val b' → byte_val c' → byte_val d' →
  dotted a b c d = dotted a' b' c' d' → a = a' ∧ b = b' ∧ c = c' ∧ d = d'.
Proof.
  intros ???????? E. apply (f_equal ParseIP) in E. rewrite !ParseIP_dotted in E by done.
  apply app_inv_head in E. by simplify_eq.
Qed.

(** The bytes of [dotted] are digits and points. *)
Lemma dotted_all p a b c d :
  p "."%char = true → (∀ x, is_digit x = true → p x = true) →
  0 ≤ a → 0 ≤ b → 0 ≤ c → 0 ≤ d → str_all p (dotted a b c d) = true.
Proof.
  intros Hdot Hdig ????. unfold dotted.
  assert (∀ z, 0 ≤ z → str_all p (Itoa z) = true) as HI.
  { intros z Hz. eapply str_all_impl; [apply Hdig|]. by apply Itoa_digits. }
  rewrite !str_all_app, !HI by done. cbn. by rewrite Hdot.
Qed.

Lemma To4_IPv4 a b c d : To4 (IPv4 a b c d) = [a; b; c; d].
Proof. reflexivity. Qed.

Lemma IP_String_IPv4 a b c d : IP_String (IPv4 a b c d) = dotted a b c d.
Proof. reflexivity. Qed.

Lemma simpleMaskLength_CIDRMask32 ones :
  0 ≤ ones ≤ 32 → simpleMaskLength (CIDRMask32 ones) = ones.
Proof.
  intros Ho. apply Z.eqb_eq.
  apply (forallb_range (λ o, simpleMaskLength (CIDRMask32 o) =? o) 33);
    [vm_compute; reflexivity|lia].
Qed.

Lemma length_CIDRMask32 ones : 0 ≤ ones ≤ 32 → length (CIDRMask32 ones) = 4%nat.
Proof. intros Ho. unfold CIDRMask32. destruct (Z.ltb_spec ones 0), (Z.ltb_spec 32 ones); try lia. done. Qed.

Lemma CIDRMask32_inj o o' :
  0 ≤ o ≤ 32 → 0 ≤ o' ≤ 32 → CIDRMask32 o = CIDRMask32 o' → o = o'.
Proof.
  intros Ho Ho' E. apply (f_equal simpleMaskLength) in E.
  by rewrite !simpleMaskLength_CIDRMask32 in E.
Qed.

Lemma IPNet_String_v4 a b c d ones :
  0 ≤ ones ≤ 32 →
  IPNet_String (MkIPNet (IPv4 a b c d) (CIDRMask32 ones))
  = dotted a b c d +:+ "/" +:+ Itoa ones.
Proof.
  intros Ho. unfold IPNet_String. cbn [net_IP net_Mask]. rewrite To4_IPv4.
  rewrite length_CIDRMask32 by done.
  cbn -[CIDRMask32 simpleMaskLength IP_String hexString Itoa bool_decide].
  rewrite bool_decide_eq_false_2
    by (intros E; pose proof (length_CIDRMask32 ones Ho) as L; by rewrite E in L).
  rewrite simpleMaskLength_CIDRMask32 by done.
  by destruct (Z.eqb_spec ones (-1)); [lia|].
Qed.
