(* ===== verification/GoFormat.v ===== *)
(** * Verbs of Go's [fmt] that need more than a conversion

    [%-24s] and [%q], as the messages of the commands use them. *)
From S2P Require Import Prelude GoStrings.

(** [%-24s] of an ASCII text. *)
Definition pad_right (width : nat) (s : string) : string :=
  s +:+ Repeat " " (width - String.length s).

(** [%q] of a text: quotes around it, its ASCII characters escaped as [strconv.Quote]
    does; other bytes are taken for printable characters and kept. *)
Definition hex_digit (n : Z) : string :=
  byte_string [if n <? 10 then 48 + n else 87 + n].
Definition quote_char (c : ascii) : string :=
  let n := code c in
  if n =? 34 then byte_string [92; 34]
  else if n =? 92 then byte_string [92; 92]
  else if n =? 7 then "\a" else if n =? 8 then "\b" else if n =? 9 then "\t"
  else if n =? 10 then "\n" else if n =? 11 then "\v" else if n =? 12 then "\f"
  else if n =? 13 then "\r"
  else if (n <? 32) || (n =? 127) then "\x" +:+ hex_digit (n / 16) +:+ hex_digit (n mod 16)
  else String c EmptyString.
Definition Quote (s : string) : string :=
  byte_string [34] +:+ Join (map quote_char (list_ascii_of_string s)) "" +:+ byte_string [34].
