(* ===== verification/Mtls.v ===== *)
(** * [internal/encryption/mtls]: the certificate bundles of the control channel

    The bundles, their operations and the certificate templates are the source's.
    The cryptography under them (elliptic-curve keys, the DER and PEM encodings,
    signing) is the interface [X509], whose laws are the documented behaviour of
    [encoding/pem] and [crypto/x509]: a certificate keeps its times to the second and
    an IPv4 address in four bytes.  [toy_x509] is an instance of it. *)
From S2P Require Import Prelude GoStrings GoNet.

Inductive ExtKeyUsage : Type := ExtKeyUsageClientAuth | ExtKeyUsageServerAuth.

Definition KeyUsageDigitalSignature : Z := 1.
Definition KeyUsageCertSign : Z := 32.

(** The fields of [x509.Certificate] the code sets.  [cert_Issuer] is the common
    name of the parent; in a template it is ignored. *)
Record Certificate : Type := MkCertificate {
  cert_SerialNumber : Z;
  cert_CommonName : string;
  cert_Issuer : string;
  cert_NotBefore : Z;
  cert_NotAfter : Z;
  cert_IsCA : bool;
  cert_ExtKeyUsage : list ExtKeyUsage;
  cert_KeyUsage : Z;
  cert_DNSNames : list string;
  cert_IPAddresses : list IP;
}.

(** A time as a certificate holds it, to the second, and an address. *)
Definition whole_seconds (t : Z) : Z := t / 10 ^ 9 * 10 ^ 9.
Definition short_ip (ip : IP) : IP := if bool_decide (To4 ip = []) then ip else To4 ip.

(** What is read of [tpl] as signed by [parent]. *)
Definition issued (tpl parent : Certificate) : Certificate :=
  MkCertificate (cert_SerialNumber tpl) (cert_CommonName tpl) (cert_CommonName parent)
    (whole_seconds (cert_NotBefore tpl)) (whole_seconds (cert_NotAfter tpl)) (cert_IsCA tpl)
    (cert_ExtKeyUsage tpl) (cert_KeyUsage tpl) (cert_DNSNames tpl)
    (map short_ip (cert_IPAddresses tpl)).

(** A template without DNS names, and with addresses of four or sixteen bytes. *)
Definition plain_template (tpl : Certificate) : Prop :=
  cert_DNSNames tpl = [] ∧
  Forall (λ ip, length ip = 4%nat ∨ length ip = 16%nat) (cert_IPAddresses tpl).

(** What the code calls in [crypto/ecdsa], [crypto/x509], [crypto/tls] and
    [encoding/pem].  [GenerateKey] takes the randomness it consumes. *)
Class X509 : Type := {
  ECKey : Type;
  GenerateKey : nat → Out ECKey;
  CreateCertificate : Certificate → Certificate → ECKey → ECKey → Out string;
  ParseCertificate : string → Out Certificate;
  MarshalECPrivateKey : ECKey → Out string;
  ParseECPrivateKey : string → Out ECKey;
  pem_Encode : string → string → string;
  pem_Decode : string → option string;
  X509KeyPair : string → string → Out (string * string);
}.

Class X509Laws `(X : X509) : Prop := {
  pem_round_trip ty b :
    ty ∈ ["CERTIFICATE"; "EC PRIVATE KEY"] → pem_Decode (pem_Encode ty b) = Some b;
  certificate_round_trip tpl parent key signer der :
    plain_template tpl → CreateCertificate tpl parent key signer = Ret der →
    ParseCertificate der = Ret (issued tpl parent);
  key_round_trip key der :
    MarshalECPrivateKey key = Ret der → ParseECPrivateKey der = Ret key;
}.

Record Options : Type := MkOptions {
  opt_CommonName : string;
  opt_Expiry : Z;
  opt_DNSNames : list string;
  opt_IPAddresses : list string;
}.

Record PEMBundle : Type := MkPEMBundle { CertPEM : string; KeyPEM : string }.

(** [Clients] is a Go map, [None] when it is the nil map. *)
Record FullGatewayBundle : Type := MkGatewayBundle {
  gb_RootCA : PEMBundle;
  gb_Server : PEMBundle;
  gb_Clients : option (gmap string PEMBundle);
  gb_Generated : Z;
}.

Record FullClientBundle : Type := MkClientBundle {
  cb_RootCA : PEMBundle;
  cb_Client : PEMBundle;
  cb_Generated : Z;
}.

(** The parts of [tls.Config] the code sets: certificate pools are the PEM texts
    appended to them. *)
Record TLSConfig : Type := MkTLSConfig {
  tls_Certificates : list (string * string);
  tls_ClientCAs : list string;
  tls_RootCAs : list string;
  tls_RequireAndVerifyClientCert : bool;
}.

#[export] Instance TLSConfig_eq_dec : EqDecision TLSConfig.
Proof. solve_decision. Defined.
#[export] Instance PEMBundle_eq_dec : EqDecision PEMBundle.
Proof. solve_decision. Defined.
#[export] Instance FullGatewayBundle_eq_dec : EqDecision FullGatewayBundle.
Proof. solve_decision. Defined.
#[export] Instance FullClientBundle_eq_dec : EqDecision FullClientBundle.
Proof. solve_decision. Defined.

Definition no_pem : PEMBundle := MkPEMBundle "" "".

(** [b.Clients[name]]: reading the nil map finds nothing. *)
Definition client_of (b : FullGatewayBundle) (name : string) : option PEMBundle :=
  cs ← gb_Clients b; cs !! name.

Definition set_clients (cs : option (gmap string PEMBundle)) (b : FullGatewayBundle)
    : FullGatewayBundle :=
  MkGatewayBundle (gb_RootCA b) (gb_Server b) cs (gb_Generated b).

Section operations.
  Context `{X : X509}.

Definition pem_certificate (der : string) : string := pem_Encode "CERTIFICATE" der.
Definition pem_key (der : string) : string := pem_Encode "EC PRIVATE KEY" der.

(** [block.Bytes] of [block, _ := pem.Decode(..)]: a text without a block gives a
    nil pointer. *)
Definition pem_block_bytes (pem : string) : Out string :=
  match pem_Decode pem with
  | Some b => Ret b
  | None => Panic "nil pointer dereference: pem block"
  end.

(** The certificate template of [createSignedCert]. *)
Definition cert_template (opt : Options) (now : Z) (isServer : bool) : Certificate :=
  {| cert_SerialNumber := now / 10 ^ 9;
     cert_CommonName := opt_CommonName opt;
     cert_Issuer := "";
     cert_NotBefore := now;
     cert_NotAfter := now + opt_Expiry opt;
     cert_IsCA := false;
     cert_ExtKeyUsage :=
       if isServer then [ExtKeyUsageServerAuth] else [ExtKeyUsageClientAuth];
     cert_KeyUsage := KeyUsageDigitalSignature;
     cert_DNSNames := if isServer then opt_DNSNames opt else [];
     cert_IPAddresses :=
       if isServer
       then List.filter (λ ip, negb (bool_decide (ip = []))) (map ParseIP (opt_IPAddresses opt))
       else [] |}.

(** [createSignedCert]: the certificate and its key, both in PEM. *)
Definition createSignedCert (seed : nat) (now : Z) (opt : Options)
    (caCert : Certificate) (caKey : ECKey) (isServer : bool) : Out (string * string) :=
  key ← GenerateKey seed;
  cert ← CreateCertificate (cert_template opt now isServer) caCert key caKey;
  keyBytes ← MarshalECPrivateKey key;
  mret (pem_certificate cert, pem_key keyBytes).

Definition root_template (notBefore now rootExpiry : Z) : Certificate :=
  {| cert_SerialNumber := 1;
     cert_CommonName := "wireport gateway Root CA";
     cert_Issuer := "";
     cert_NotBefore := notBefore;
     cert_NotAfter := now + rootExpiry;
     cert_IsCA := true;
     cert_ExtKeyUsage := [ExtKeyUsageClientAuth; ExtKeyUsageServerAuth];
     cert_KeyUsage := Z.lor KeyUsageDigitalSignature KeyUsageCertSign;
     cert_DNSNames := [];
     cert_IPAddresses := [] |}.

(** [Generate]: a self-signed root and a server certificate under it.  [clock i] is
    what the [i]-th reading of [time.Now()] gives. *)
Definition Generate (seed : nat) (clock : nat → Z) (serverOpt : Options) (rootExpiry : Z)
    : Out FullGatewayBundle :=
  rootKey ← GenerateKey seed;
  let rootTpl := root_template (clock 0%nat) (clock 1%nat) rootExpiry in
  rootCert ← CreateCertificate rootTpl rootTpl rootKey rootKey;
  rootCertParsed ← ParseCertificate rootCert;
  rootKeyBytes ← MarshalECPrivateKey rootKey;
  '(serverCert, serverKey) ← createSignedCert (S seed) (clock 2%nat) serverOpt rootCertParsed rootKey true;
  mret (MkGatewayBundle
          (MkPEMBundle (pem_certificate rootCert) (pem_key rootKeyBytes))
          (MkPEMBundle serverCert serverKey) (Some ∅) (clock 3%nat)).

(** [b.AddClient(opt)]: the bundle after the call.  The nil map is replaced
    before anything can fail, but a nil and an empty map read the same. *)
Definition AddClient (seed : nat) (now : Z) (opt : Options) (b : FullGatewayBundle)
    : Out FullGatewayBundle :=
  let clients := default ∅ (gb_Clients b) in
  caCertBytes ← pem_block_bytes (CertPEM (gb_RootCA b));
  caCert ← ParseCertificate caCertBytes;
  caKeyBytes ← pem_block_bytes (KeyPEM (gb_RootCA b));
  caKey ← ParseECPrivateKey caKeyBytes;
  '(certPEM, keyPEM) ← createSignedCert seed now opt caCert caKey false;
  mret (set_clients (Some (<[opt_CommonName opt := MkPEMBundle certPEM keyPEM]> clients)) b).

(** [b.RemoveClient(clientName)]: [delete] on a Go map, a no-op on the nil map. *)
Definition RemoveClient (clientName : string) (b : FullGatewayBundle) : FullGatewayBundle :=
  set_clients (delete clientName <$> gb_Clients b) b.

(** [b.PublicOnly()] *)
Definition PublicOnly (b : FullGatewayBundle) : FullGatewayBundle :=
  MkGatewayBundle (MkPEMBundle (CertPEM (gb_RootCA b)) "")
    (MkPEMBundle (CertPEM (gb_Server b)) "")
    (Some ((λ v, MkPEMBundle (CertPEM v) "") <$> default ∅ (gb_Clients b)))
    (gb_Generated b).

(** [b.GetClientBundlePublic(clientName)] *)
Definition GetClientBundlePublic (clientName : string) (b : FullGatewayBundle)
    : Out FullClientBundle :=
  match client_of b clientName with
  | None => Throw (Errorf "client not found")
  | Some clientData =>
      Ret (MkClientBundle (MkPEMBundle (CertPEM (gb_RootCA b)) "") clientData (gb_Generated b))
  end.

(** [b.GetServerTLSConfig()] *)
Definition GetServerTLSConfig (b : FullGatewayBundle) : Out TLSConfig :=
  if bool_decide (KeyPEM (gb_Server b) = "") || bool_decide (CertPEM (gb_Server b) = "")
     || bool_decide (CertPEM (gb_RootCA b) = "")
  then Throw (Errorf "server key, cert or root CA cert is empty")
  else
    serverCert ← X509KeyPair (CertPEM (gb_Server b)) (KeyPEM (gb_Server b));
    mret (MkTLSConfig [serverCert] [CertPEM (gb_RootCA b)] [] true).

(** [b.GetClientTLSConfig()] *)
Definition GetClientTLSConfig (b : FullClientBundle) : Out TLSConfig :=
  if bool_decide (KeyPEM (cb_Client b) = "") || bool_decide (CertPEM (cb_Client b) = "")
     || bool_decide (CertPEM (cb_RootCA b) = "")
  then Throw (Errorf "client key, cert or root CA cert is empty")
  else
    clientCert ← X509KeyPair (CertPEM (cb_Client b)) (KeyPEM (cb_Client b));
    mret (MkTLSConfig [clientCert] [] [CertPEM (cb_RootCA b)] false).

(** [b.TLSConfigs(clientName)]: the server's and a client's configuration. *)
Definition TLSConfigs (clientName : string) (b : FullGatewayBundle)
    : Out (TLSConfig * TLSConfig) :=
  if bool_decide (KeyPEM (gb_Server b) = "") || bool_decide (CertPEM (gb_Server b) = "")
     || bool_decide (CertPEM (gb_RootCA b) = "")
  then Throw (Errorf "server key, cert or root CA cert is empty")
  else
    serverCert ← X509KeyPair (CertPEM (gb_Server b)) (KeyPEM (gb_Server b));
    match client_of b clientName with
    | None => Throw (Errorf "client not found")
    | Some clientData =>
        clientCert ← X509KeyPair (CertPEM clientData) (KeyPEM clientData);
        mret (MkTLSConfig [serverCert] [CertPEM (gb_RootCA b)] [] true,
              MkTLSConfig [clientCert] [] [CertPEM (gb_RootCA b)] false)
    end.
End operations.

(** ** A model of the interface *)

#[export] Instance ExtKeyUsage_eq_dec : EqDecision ExtKeyUsage.
Proof. solve_decision. Defined.

Definition usage_bool (u : ExtKeyUsage) : bool :=
  match u with ExtKeyUsageClientAuth => true | ExtKeyUsageServerAuth => false end.
Definition bool_usage (b : bool) : ExtKeyUsage :=
  if b then ExtKeyUsageClientAuth else ExtKeyUsageServerAuth.

#[export] Instance ExtKeyUsage_countable : Countable ExtKeyUsage.
Proof. apply (inj_countable' usage_bool bool_usage). by intros []. Defined.

#[export] Instance Certificate_eq_dec : EqDecision Certificate.
Proof. solve_decision. Defined.

(** Field by field, so that the encoding stays linear in the certificate. *)
Definition cert_fields (c : Certificate) : list positive :=
  [encode (cert_SerialNumber c); encode (cert_CommonName c); encode (cert_Issuer c);
   encode (cert_NotBefore c); encode (cert_NotAfter c); encode (cert_IsCA c);
   encode (cert_ExtKeyUsage c); encode (cert_KeyUsage c); encode (cert_DNSNames c);
   encode (cert_IPAddresses c)].
Definition fields_cert (l : list positive) : option Certificate :=
  match l with
  | [a; b; c; d; e; f; g; h; i; j] =>
      a ← decode a; b ← decode b; c ← decode c; d ← decode d; e ← decode e;
      f ← decode f; g ← decode g; h ← decode h; i ← decode i; j ← decode j;
      Some (MkCertificate a b c d e f g h i j)
  | _ => None
  end.

#[export] Instance Certificate_countable : Countable Certificate.
Proof.
  apply (inj_countable cert_fields fields_cert).
  intros []. cbn -[encode decode]. by rewrite !decode_encode.
Defined.

#[export] Instance toy_x509 : X509 := {|
  ECKey := nat;
  GenerateKey seed := Ret seed;
  CreateCertificate tpl parent _ _ := Ret (to_text (issued tpl parent));
  ParseCertificate der :=
    match of_text der with Some c => Ret c | None => Throw (Errorf "x509: malformed") end;
  MarshalECPrivateKey k := Ret (Itoa (Z.of_nat k));
  ParseECPrivateKey der :=
    match parse_nat der with
    | Some k => Ret (Z.to_nat k) | None => Throw (Errorf "x509: malformed") end;
  pem_Encode _ b := "PEM " +:+ b;
  pem_Decode s := strip_prefix "PEM " s;
  X509KeyPair c k := Ret (c, k);
|}.

#[export] Instance toy_x509_laws : X509Laws toy_x509.
Proof.
  split; cbn -[of_text to_text].
  - intros _ b _. apply (strip_prefix_app "PEM ").
  - intros tpl parent _ _ der _ [= <-]. by rewrite of_to_text.
  - intros key der [= <-]. unfold Itoa. destruct (Z.ltb_spec (Z.of_nat key) 0); [lia|].
    rewrite parse_nat_Uitoa. by rewrite Z2N.id, Nat2Z.id by lia.
Qed.

(** ** Properties of the bundles *)

Lemma no_names_plain tpl :
  cert_DNSNames tpl = [] → cert_IPAddresses tpl = [] → plain_template tpl.
Proof. intros Hd Hi. split; [done|]. by rewrite Hi. Qed.

Section properties.
  Context `{X : X509} {L : X509Laws X}.

Lemma pem_block_bytes_certificate der : pem_block_bytes (pem_certificate der) = Ret der.
Proof. unfold pem_block_bytes, pem_certificate. rewrite pem_round_trip; [done|left]. Qed.

(** A client certificate issued by [createSignedCert] reads back as the template signed
    by the authority. *)
Lemma createSignedCert_inv seed now opt ca key c k :
  createSignedCert seed now opt ca key false = Ret (c, k) →
  ∃ der, pem_block_bytes c = Ret der ∧
         ParseCertificate der = Ret (issued (cert_template opt now false) ca).
Proof.
  unfold createSignedCert. intros (k0 & Hk & H)%bind_Ret_inv.
  apply bind_Ret_inv in H as (der & Hder & H).
  apply bind_Ret_inv in H as (kb & Hkb & H). injection H as <- <-.
  exists der. split; [apply pem_block_bytes_certificate|].
  eapply certificate_round_trip; [by apply no_names_plain|exact Hder].
Qed.

Lemma AddClient_inv seed now opt b b' :
  AddClient seed now opt b = Ret b' →
  ∃ der ca kder key pair,
    pem_block_bytes (CertPEM (gb_RootCA b)) = Ret der ∧ ParseCertificate der = Ret ca ∧
    pem_block_bytes (KeyPEM (gb_RootCA b)) = Ret kder ∧ ParseECPrivateKey kder = Ret key ∧
    createSignedCert seed now opt ca key false = Ret (CertPEM pair, KeyPEM pair) ∧
    b' = set_clients (Some (<[opt_CommonName opt := pair]> (default ∅ (gb_Clients b)))) b.
Proof.
  unfold AddClient. intros (der & Hder & H)%bind_Ret_inv.
  apply bind_Ret_inv in H as (ca & Hca & H).
  apply bind_Ret_inv in H as (kder & Hkder & H).
  apply bind_Ret_inv in H as (key & Hkey & H).
  apply bind_Ret_inv in H as ([c k] & Hck & H). injection H as <-.
  exists der, ca, kder, key, (MkPEMBundle c k). done.
Qed.

Lemma AddClient_client seed now opt b b' :
  AddClient seed now opt b = Ret b' →
  ∃ cb, GetClientBundlePublic (opt_CommonName opt) b' = Ret cb.
Proof.
  intros (? & ? & ? & ? & pair & _ & _ & _ & _ & _ & ->)%AddClient_inv.
  eexists. unfold GetClientBundlePublic, client_of. cbn. by rewrite lookup_insert_eq.
Qed.

(** Issuing a client certificate adds it under its name: the authority, the server's
    pair and every other client stay as they are, and the public bundle of that client
    has its pair and the authority's certificate without the authority's key. *)
Theorem AddClient_bundle seed now opt b b' :
  AddClient seed now opt b = Ret b' →
  gb_RootCA b' = gb_RootCA b ∧ gb_Server b' = gb_Server b ∧
  gb_Generated b' = gb_Generated b ∧
  (∀ n, n ≠ opt_CommonName opt → client_of b' n = client_of b n) ∧
  ∃ pair, client_of b' (opt_CommonName opt) = Some pair ∧
    GetClientBundlePublic (opt_CommonName opt) b' =
      Ret (MkClientBundle (MkPEMBundle (CertPEM (gb_RootCA b)) "") pair (gb_Generated b)).
Proof.
  intros (? & ? & ? & ? & pair & _ & _ & _ & _ & _ & ->)%AddClient_inv. cbn.
  repeat split; try done.
  - intros n Hn. unfold client_of. cbn. rewrite lookup_insert_ne by done.
    destruct (gb_Clients b); cbn; [done|apply lookup_empty].
  - exists pair. unfold GetClientBundlePublic, client_of. cbn. by rewrite lookup_insert_eq.
Qed.

(** A client certificate issued under a generated authority reads back as the client
    template (client authentication only, not an authority, the expiry asked for, to the
    second) signed by that authority's root. *)
Theorem Generate_then_AddClient seed clock serverOpt rootExpiry b seed' now' opt b' :
  Generate seed clock serverOpt rootExpiry = Ret b →
  AddClient seed' now' opt b = Ret b' →
  ∃ pair der, client_of b' (opt_CommonName opt) = Some pair ∧
    pem_block_bytes (CertPEM pair) = Ret der ∧
    ParseCertificate der
      = Ret (issued (cert_template opt now' false) (root_template (clock 0%nat) (clock 1%nat) rootExpiry)).
Proof.
  unfold Generate. intros (rk & Hrk & H)%bind_Ret_inv.
  apply bind_Ret_inv in H as (rc & Hrc & H). apply bind_Ret_inv in H as (rp & Hrp & H).
  apply bind_Ret_inv in H as (rb & Hrb & H). apply bind_Ret_inv in H as ([sc sk] & Hs & H).
  injection H as <-.
  intros (der & ca & kder & key & [c k] & Hder & Hca & _ & _ & Hcert & ->)%AddClient_inv.
  cbn [gb_RootCA CertPEM KeyPEM] in *.
  rewrite pem_block_bytes_certificate in Hder. injection Hder as <-.
  apply createSignedCert_inv in Hcert as (cder & Hcder & Hparse).
  exists (MkPEMBundle c k), cder. unfold client_of. cbn. rewrite lookup_insert_eq.
  repeat split; [done|]. rewrite Hparse.
  rewrite (certificate_round_trip _ _ _ _ _ (no_names_plain (root_template _ _ _) eq_refl eq_refl) Hrc) in Hca. by injection Hca as <-.
Qed.
End properties.

(** A public bundle holds no private key, and the same certificates. *)
Theorem PublicOnly_no_keys b :
  KeyPEM (gb_RootCA (PublicOnly b)) = "" ∧ KeyPEM (gb_Server (PublicOnly b)) = "" ∧
  CertPEM (gb_RootCA (PublicOnly b)) = CertPEM (gb_RootCA b) ∧
  CertPEM (gb_Server (PublicOnly b)) = CertPEM (gb_Server b) ∧
  ∀ n, client_of (PublicOnly b) n
       = (λ p, MkPEMBundle (CertPEM p) "") <$> client_of b n.
Proof.
  repeat split. intros n. unfold client_of. cbn. rewrite lookup_fmap.
  destruct (gb_Clients b); cbn; [done|]. by rewrite lookup_empty.
Qed.

(** Removing a client's certificate removes it and no other. *)
Theorem RemoveClient_bundle name b :
  client_of (RemoveClient name b) name = None ∧
  (∀ n, n ≠ name → client_of (RemoveClient name b) n = client_of b n) ∧
  GetClientBundlePublic name (RemoveClient name b) = Throw (Errorf "client not found").
Proof.
  assert (client_of (RemoveClient name b) name = None) as H.
  { unfold client_of, RemoveClient. destruct (gb_Clients b); cbn; [apply lookup_delete_eq|done]. }
  repeat split; [done| |].
  - intros n Hn. unfold client_of, RemoveClient. destruct (gb_Clients b); cbn; [|done].
    by rewrite lookup_delete_ne.
  - unfold GetClientBundlePublic. by rewrite H.
Qed.

Definition toy_options : Options := MkOptions "client" 100 [] [].
Definition toy_bundle : FullGatewayBundle :=
  match Generate 0 (λ _, 0) (MkOptions "gw" 10 [] []) 50 with
  | Ret b => b
  | _ => MkGatewayBundle no_pem no_pem None 0
  end.
Definition toy_bundle_after : FullGatewayBundle :=
  match AddClient 7 5 toy_options toy_bundle with Ret b => b | _ => toy_bundle end.

Lemma toy_AddClient : AddClient 7 5 toy_options toy_bundle = Ret toy_bundle_after.
Proof. vm_compute. reflexivity. Qed.

Lemma AddClient_bundle_witness : gb_RootCA toy_bundle_after = gb_RootCA toy_bundle.
Proof. exact (proj1 (AddClient_bundle 7 5 toy_options toy_bundle _ toy_AddClient)). Defined.

Lemma Generate_then_AddClient_witness :
  ∃ pair der, client_of toy_bundle_after "client" = Some pair ∧
    pem_block_bytes (CertPEM pair) = Ret der ∧
    ParseCertificate der = Ret (issued (cert_template toy_options 5 false) (root_template 0 0 50)).
Proof.
  refine (Generate_then_AddClient 0 (λ _, 0) (MkOptions "gw" 10 [] []) 50 toy_bundle 7 5
    toy_options toy_bundle_after _ toy_AddClient).
  vm_compute. reflexivity.
Defined.
