(* ===== verification/NodeTypes.v ===== *)
(** * [internal/nodes/types]: nodes, their addresses and their WireGuard configuration

    The address types with their parsing and printing, the node record and the
    WireGuard configuration with its INI form.  The files a node writes are in
    [NodeConfigs.v]. *)
From S2P Require Import Prelude GoStrings GoNet Mtls.

(** ** Addresses *)

(** [IPMarshable], [IPNetMarshable] and [UDPAddrMarshable] embed the [net] types
    and add nothing to them but their JSON form. *)
Definition IPMarshable : Type := IP.
Definition IPNetMarshable : Type := IPNet.
Definition UDPAddrMarshable : Type := UDPAddr.

(** [IPToString]: the last four bytes of a 16-byte address. *)
Definition IPToString (ip : IP) : string :=
  if (length ip <? 16)%nat then ""
  else dotted (nth 12 ip 0) (nth 13 ip 0) (nth 14 ip 0) (nth 15 ip 0).

(** [UDPAddrMarshable.String] *)
Definition UDPAddr_String (udpaddr : UDPAddrMarshable) : string :=
  if bool_decide (udp_IP udpaddr = []) then ""
  else if udp_Port udpaddr =? 0 then IPToString (udp_IP udpaddr)
  else IPToString (udp_IP udpaddr) +:+ ":" +:+ Itoa (udp_Port udpaddr).

(** [ParseIPNetMarshable(s, maskMustBeSpecified)]; what follows a second slash
    is not looked at. *)
Definition ParseIPNetMarshable (s : string) (maskMustBeSpecified : bool) : Out IPNetMarshable :=
  if bool_decide (s = "") then
    Throw (Errorf "invalid IP network format, expected 'IP/CIDR'")
  else
    match Split "/" s with
    | [] => Throw (Errorf "invalid IP network format, expected 'IP/CIDR'")
    | part0 :: rest =>
        let ip := ParseIP part0 in
        if bool_decide (ip = []) then Throw (Errorf "invalid IP address")
        else
          match rest with
          | [] =>
              if maskMustBeSpecified then Throw (Errorf "network mask must be specified")
              else Ret (MkIPNet ip (CIDRMask32 32))
          | part1 :: _ =>
              match Atoi part1 with
              | None => Throw (Errorf "invalid CIDR value for network mask")
              | Some ones =>
                  if (ones <? 0) || (32 <? ones)
                  then Throw (Errorf "CIDR value for network mask must be between 0 and 32")
                  else Ret (MkIPNet ip (CIDRMask32 ones))
              end
          end
    end.

(** [MapIPNetMarshablesToStrings] *)
Definition MapIPNetMarshablesToStrings (ipnets : list IPNetMarshable) (includeMask : bool)
    : list string :=
  map (λ ipnet, if includeMask then IPNet_String ipnet else IPToString (net_IP ipnet)) ipnets.

(** [MapStringsToIPNetMarshables]: what does not parse is dropped. *)
Fixpoint MapStringsToIPNetMarshables (strs : list string) : list IPNetMarshable :=
  match strs with
  | [] => []
  | s :: strs' =>
      let s := TrimSpace s in
      let result := MapStringsToIPNetMarshables strs' in
      if bool_decide (s = "") then result
      else match ParseIPNetMarshable s false with
           | Ret ipnet => ipnet :: result
           | _ => result
           end
  end.

(** ** The WireGuard configuration *)

Record WGConfigInterface : Type := MkWGConfigInterface {
  if_Address : IPNetMarshable;
  if_ListenPort : option Z;
  if_PrivateKey : string;
  if_DNS : list IPNetMarshable;
  if_PostUp : string;
  if_PostDown : string;
}.

Record WGConfigPeer : Type := MkWGConfigPeer {
  peer_PublicKey : string;
  peer_Endpoint : option UDPAddrMarshable;
  peer_AllowedIPs : list IPNetMarshable;
  peer_PersistentKeepalive : option Z;
}.

Record WGConfig : Type := MkWGConfig {
  wg_Interface : WGConfigInterface;
  wg_Peers : list WGConfigPeer;
}.

(** ** Nodes *)

(** [NodeRole] is a string type with four constants; [NodeRoleOther] stands for
    any other text a stored or received node may carry. *)
Inductive NodeRole : Type :=
| NodeRoleGateway
| NodeRoleClient
| NodeRoleServer
| NodeRoleEmpty
| NodeRoleOther (text : string).

Definition role_text (r : NodeRole) : string :=
  match r with
  | NodeRoleGateway => "gateway"
  | NodeRoleClient => "client"
  | NodeRoleServer => "server"
  | NodeRoleEmpty => "empty"
  | NodeRoleOther text => text
  end.

(** [Node].  The columns [CreatedAt] and [UpdatedAt] are kept by the database
    layer and read by nothing; they are left out. *)
Record Node : Type := MkNode {
  node_ID : string;
  node_Role : NodeRole;
  node_IsCurrentNode : bool;
  node_WGPrivateKey : string;
  node_WGPublicKey : string;
  node_WGConfig : WGConfig;
  node_WGPublicIP : option string;
  node_WGPublicPort : option Z;
  node_ConnectionEncryptionKey : option string;
  node_GatewayPublicIP : string;
  node_GatewayPublicPort : Z;
  node_GatewayCertBundle : option FullGatewayBundle;
  node_ClientCertBundle : option FullClientBundle;
  node_DockerSubnet : option IPNetMarshable;
  node_Labels : list string;
}.

#[export] Instance WGConfigInterface_eq_dec : EqDecision WGConfigInterface.
Proof. solve_decision. Defined.
#[export] Instance WGConfigPeer_eq_dec : EqDecision WGConfigPeer.
Proof. solve_decision. Defined.
#[export] Instance WGConfig_eq_dec : EqDecision WGConfig.
Proof. solve_decision. Defined.
#[export] Instance NodeRole_eq_dec : EqDecision NodeRole.
Proof. solve_decision. Defined.
#[export] Instance Node_eq_dec : EqDecision Node.
Proof. solve_decision. Defined.

(** Field updates. *)
Definition set_DNS (dns : list IPNetMarshable) (c : WGConfig) : WGConfig :=
  let i := wg_Interface c in
  MkWGConfig (MkWGConfigInterface (if_Address i) (if_ListenPort i) (if_PrivateKey i) dns
                (if_PostUp i) (if_PostDown i)) (wg_Peers c).
Definition set_Peers (peers : list WGConfigPeer) (c : WGConfig) : WGConfig :=
  MkWGConfig (wg_Interface c) peers.
Definition set_WGConfig (c : WGConfig) (n : Node) : Node :=
  MkNode (node_ID n) (node_Role n) (node_IsCurrentNode n) (node_WGPrivateKey n)
    (node_WGPublicKey n) c (node_WGPublicIP n) (node_WGPublicPort n)
    (node_ConnectionEncryptionKey n) (node_GatewayPublicIP n) (node_GatewayPublicPort n)
    (node_GatewayCertBundle n) (node_ClientCertBundle n) (node_DockerSubnet n) (node_Labels n).
Definition set_Labels (labels : list string) (n : Node) : Node :=
  MkNode (node_ID n) (node_Role n) (node_IsCurrentNode n) (node_WGPrivateKey n)
    (node_WGPublicKey n) (node_WGConfig n) (node_WGPublicIP n) (node_WGPublicPort n)
    (node_ConnectionEncryptionKey n) (node_GatewayPublicIP n) (node_GatewayPublicPort n)
    (node_GatewayCertBundle n) (node_ClientCertBundle n) (node_DockerSubnet n) labels.
Definition set_GatewayCertBundle (b : option FullGatewayBundle) (n : Node) : Node :=
  MkNode (node_ID n) (node_Role n) (node_IsCurrentNode n) (node_WGPrivateKey n)
    (node_WGPublicKey n) (node_WGConfig n) (node_WGPublicIP n) (node_WGPublicPort n)
    (node_ConnectionEncryptionKey n) (node_GatewayPublicIP n) (node_GatewayPublicPort n)
    b (node_ClientCertBundle n) (node_DockerSubnet n) (node_Labels n).
Definition set_IsCurrentNode (cur : bool) (n : Node) : Node :=
  MkNode (node_ID n) (node_Role n) cur (node_WGPrivateKey n)
    (node_WGPublicKey n) (node_WGConfig n) (node_WGPublicIP n) (node_WGPublicPort n)
    (node_ConnectionEncryptionKey n) (node_GatewayPublicIP n) (node_GatewayPublicPort n)
    (node_GatewayCertBundle n) (node_ClientCertBundle n) (node_DockerSubnet n) (node_Labels n).

(** [n.BeforeCreate]: the hook that runs before an INSERT made by [Create]. *)
Definition BeforeCreate (n : Node) : Node := set_Labels [] n.

(** The address of the node on the WireGuard network. *)
Definition node_wg_ip (n : Node) : IP := net_IP (if_Address (wg_Interface (node_WGConfig n))).

(** ** The INI form *)

Definition line (s : string) : string := s +:+ newline.
Definition concat_strings (l : list string) : string := foldr String.append EmptyString l.

(** What [ToINI] writes for one peer. *)
Definition peer_ini (peer : WGConfigPeer) : list string :=
  [newline +:+ line "[Peer]"; line ("PublicKey = " +:+ peer_PublicKey peer)] ++
  match peer_Endpoint peer with
  | Some e => if bool_decide (UDPAddr_String e = "") then []
              else [line ("Endpoint = " +:+ UDPAddr_String e)]
  | None => []
  end ++
  (if (0 <? length (peer_AllowedIPs peer))%nat
   then [line ("AllowedIPs = " +:+
               Join (MapIPNetMarshablesToStrings (peer_AllowedIPs peer) true) ", ")]
   else []) ++
  match peer_PersistentKeepalive peer with
  | Some k => [line ("PersistentKeepalive = " +:+ Itoa k)]
  | None => []
  end.

(** [c.ToINI()]; it never returns an error. *)
Definition ToINI (c : WGConfig) : string :=
  let i := wg_Interface c in
  concat_strings (
    [line "# # # # # # # # # # # # # # # # # # # # # # #";
     line "#       wireport config for WireGuard       #";
     line "# # # # # # # # # # # # # # # # # # # # # # #";
     line "";
     line "[Interface]";
     line ("Address = " +:+ IPNet_String (if_Address i))] ++
    match if_ListenPort i with
    | Some p => [line ("ListenPort = " +:+ Itoa p)]
    | None => []
    end ++
    [line ("PrivateKey = " +:+ if_PrivateKey i)] ++
    (if (0 <? length (if_DNS i))%nat
     then [line ("DNS = " +:+ Join (MapIPNetMarshablesToStrings (if_DNS i) false) ", ")]
     else []) ++
    (if bool_decide (if_PostUp i = "") then [] else [line ("PostUp = " +:+ if_PostUp i)]) ++
    (if bool_decide (if_PostDown i = "") then [] else [line ("PostDown = " +:+ if_PostDown i)]) ++
    flat_map peer_ini (wg_Peers c)).

(** [n.GetFormattedWireguardConfig()] *)
Definition GetFormattedWireguardConfig (n : Node) : Out string := Ret (ToINI (node_WGConfig n)).

(** ** Lemmas on addresses *)

Create HintDb nodetypes.

Lemma v4_addr_length ip : v4_addr ip → length ip = 16%nat.
Proof. by intros (a & b & c & d & -> & _). Qed.

Lemma v4_addr_ne ip : v4_addr ip → ip ≠ [].
Proof. by intros (a & b & c & d & -> & _). Qed.

Lemma IPToString_IPv4 a b c d : IPToString (IPv4 a b c d) = dotted a b c d.
Proof. reflexivity. Qed.

Lemma ParseIP_IPToString ip : v4_addr ip → ParseIP (IPToString ip) = ip.
Proof. intros (a & b & c & d & -> & ?). rewrite IPToString_IPv4. apply ParseIP_dotted; tauto. Qed.

Lemma IPToString_inj ip ip' : v4_addr ip → v4_addr ip' → IPToString ip = IPToString ip' → ip = ip'.
Proof. intros H H' E. by rewrite <- (ParseIP_IPToString ip), E, ParseIP_IPToString. Qed.

Lemma IPToString_v4_all p ip :
  v4_addr ip → p "."%char = true → (∀ x, is_digit x = true → p x = true) →
  str_all p (IPToString ip) = true.
Proof.
  intros (a & b & c & d & -> & Ha & Hb & Hc & Hd) ??. rewrite IPToString_IPv4.
  unfold byte_val in *. apply dotted_all; (done || lia).
Qed.

Lemma IPNet_String_v4_net n :
  v4_net n →
  ∃ ones, 0 ≤ ones ≤ 32 ∧ net_Mask n = CIDRMask32 ones ∧
    IPNet_String n = IPToString (net_IP n) +:+ "/" +:+ Itoa ones.
Proof.
  destruct n as [ip mask]. intros [(a & b & c & d & E & _) (ones & Ho & E')]. cbn in E, E'. subst.
  exists ones. repeat split; try lia. by apply IPNet_String_v4.
Qed.

Lemma lacks_digits_dot sep ip :
  v4_addr ip → is_digit sep = false → sep ≠ "."%char → lacks sep (IPToString ip) = true.
Proof.
  intros Hip Hsep Hdot. apply IPToString_v4_all; [done| |].
  - apply negb_true_iff, Ascii.eqb_neq. congruence.
  - intros x Hx. apply negb_true_iff, Ascii.eqb_neq. congruence.
Qed.

Lemma str_all_plain_IPToString ip : v4_addr ip → str_all plain (IPToString ip) = true.
Proof. intros ?. apply IPToString_v4_all; [done|done|apply digit_plain]. Qed.

(** Parsing [a.b.c.d/ones]. *)
Lemma ParseIPNetMarshable_masked ip ones mm :
  v4_addr ip → 0 ≤ ones ≤ 32 →
  ParseIPNetMarshable (IPToString ip +:+ "/" +:+ Itoa ones) mm = Ret (MkIPNet ip (CIDRMask32 ones)).
Proof.
  intros Hip Ho. unfold ParseIPNetMarshable. rewrite str_app_cons, str_app_nil_l.
  rewrite bool_decide_eq_false_2 by apply str_app_ne_r.
  rewrite Split_app, Split_lacks by (apply Itoa_lacks || apply lacks_digits_dot; (done || lia)).
  cbn match. rewrite ParseIP_IPToString by done.
  rewrite bool_decide_eq_false_2 by by apply v4_addr_ne.
  rewrite Atoi_Itoa by (unfold int64_min, int64_max; lia).
  destruct (Z.ltb_spec ones 0), (Z.ltb_spec 32 ones); (lia || done).
Qed.

(** Parsing a bare address. *)
Lemma ParseIPNetMarshable_bare ip :
  v4_addr ip → ParseIPNetMarshable (IPToString ip) false = Ret (MkIPNet ip (CIDRMask32 32)).
Proof.
  intros Hip. unfold ParseIPNetMarshable.
  rewrite bool_decide_eq_false_2.
  - rewrite Split_lacks by (apply lacks_digits_dot; done). cbn match.
    rewrite ParseIP_IPToString by done. by rewrite bool_decide_eq_false_2 by by apply v4_addr_ne.
  - destruct Hip as (a & b & c & d & -> & _). rewrite IPToString_IPv4. unfold dotted.
    apply str_app_ne_r.
Qed.

(** One element of [MapStringsToIPNetMarshables] that parses. *)
Lemma MapStrings_cons s n strs :
  str_all plain s = true → s ≠ "" → ParseIPNetMarshable s false = Ret n →
  MapStringsToIPNetMarshables (s :: strs) = n :: MapStringsToIPNetMarshables strs.
Proof.
  intros Hp Hne Hs. cbn. rewrite TrimSpace_plain by done.
  rewrite bool_decide_eq_false_2 by done. by rewrite Hs.
Qed.

Lemma IPNet_String_plain n : v4_net n → str_all plain (IPNet_String n) = true ∧ IPNet_String n ≠ "".
Proof.
  intros Hn. pose proof Hn as [Hip _]. apply IPNet_String_v4_net in Hn as (ones & Ho & _ & ->).
  rewrite str_app_cons, str_app_nil_l. split; [|apply str_app_ne_r].
  rewrite str_all_app. cbn. rewrite str_all_plain_IPToString by done.
  by rewrite Itoa_plain by lia.
Qed.

(** Nodes carry subnets of the form [ParseIPNetMarshable] accepts. *)
Lemma ParseIPNetMarshable_inv s mm n :
  ParseIPNetMarshable s mm = Ret n →
  net_IP n ≠ [] ∧ ∃ ones, 0 ≤ ones ≤ 32 ∧ net_Mask n = CIDRMask32 ones.
Proof.
  unfold ParseIPNetMarshable. case_bool_decide; [done|].
  destruct (Split "/" s) as [|p rest]; [done|]. case_bool_decide; [done|].
  destruct rest as [|q rest].
  - destruct mm; [done|]. intros [= <-]. split; [done|]. by exists 32.
  - destruct (Atoi q) as [ones|]; [|done].
    destruct (Z.ltb_spec ones 0), (Z.ltb_spec 32 ones); try done.
    intros [= <-]. split; [done|]. exists ones. split; [lia|done].
Qed.

Lemma ParseIPNetMarshable_String n mm :
  v4_net n → ParseIPNetMarshable (IPNet_String n) mm = Ret n.
Proof.
  intros Hn. pose proof Hn as [Hip _].
  apply IPNet_String_v4_net in Hn as (ones & Ho & Hm & ->).
  rewrite ParseIPNetMarshable_masked by done. rewrite <- Hm. by destruct n.
Qed.

Lemma MapStrings_nets l :
  Forall v4_net l → MapStringsToIPNetMarshables (map IPNet_String l) = l.
Proof.
  induction 1 as [|n l Hn _ IH]; [done|]. cbn [map].
  pose proof (IPNet_String_plain n Hn) as [? ?].
  erewrite MapStrings_cons; [by rewrite IH|done|done|]. by apply ParseIPNetMarshable_String.
Qed.

Lemma MapStrings_bare ips :
  Forall v4_addr ips →
  MapStringsToIPNetMarshables (map IPToString ips)
  = map (λ ip, MkIPNet ip (CIDRMask32 32)) ips.
Proof.
  induction 1 as [|ip ips Hip _ IH]; [done|]. cbn [map].
  erewrite MapStrings_cons; [by rewrite IH| | |].
  - by apply str_all_plain_IPToString.
  - destruct Hip as (a & b & c & d & -> & _). rewrite IPToString_IPv4. unfold dotted.
    apply str_app_ne_r.
  - by apply ParseIPNetMarshable_bare.
Qed.

#[export] Hint Resolve v4_addr_length v4_addr_ne str_all_plain_IPToString : nodetypes.

(** ** Reading an INI text back *)

(** How [wg-quick] reads a line: nothing, a section header, or a key and a value
    around the first [" = "]. *)
Inductive ini_line : Type :=
| IniSkip
| IniHeader (name : string)
| IniEntry (key value : string).

Fixpoint cut_entry (s : string) : option (string * string) :=
  match strip_prefix " = " s with
  | Some v => Some (EmptyString, v)
  | None =>
      match s with
      | EmptyString => None
      | String c s' => '(k, v) ← cut_entry s'; Some (String c k, v)
      end
  end.

Definition classify (s : string) : ini_line :=
  match s with
  | EmptyString | String "#" _ => IniSkip
  | String "[" s' => IniHeader (String.rev (TrimPrefix (String.rev s') "]"))
  | _ => match cut_entry s with Some (k, v) => IniEntry k v | None => IniSkip end
  end.

(** The sections of a text, and the entries in front of the first one. *)
Definition read_step (l : string)
    (r : list (string * string) * list (string * list (string * string))) :=
  match classify l with
  | IniSkip => r
  | IniHeader h => ([], (h, r.1) :: r.2)
  | IniEntry k v => ((k, v) :: r.1, r.2)
  end.
Definition read_ini (s : string) := (foldr read_step ([], []) (Split "010" s)).2.

(** What the two kinds of section say. *)
Definition opt_entry (key : string) (v : option string) : list (string * string) :=
  match v with Some v => [(key, v)] | None => [] end.
Definition nonempty (s : string) : option string :=
  if bool_decide (s = "") then None else Some s.

Definition interface_entries (i : WGConfigInterface) : list (string * string) :=
  [("Address", IPNet_String (if_Address i))] ++
  opt_entry "ListenPort" (Itoa <$> if_ListenPort i) ++
  [("PrivateKey", if_PrivateKey i)] ++
  (if bool_decide (if_DNS i = []) then []
   else [("DNS", Join (map (IPToString ∘ net_IP) (if_DNS i)) ", ")]) ++
  opt_entry "PostUp" (nonempty (if_PostUp i)) ++
  opt_entry "PostDown" (nonempty (if_PostDown i)).

Definition peer_entries (p : WGConfigPeer) : list (string * string) :=
  [("PublicKey", peer_PublicKey p)] ++
  opt_entry "Endpoint" (e ← peer_Endpoint p; nonempty (UDPAddr_String e)) ++
  (if bool_decide (peer_AllowedIPs p = []) then []
   else [("AllowedIPs", Join (map IPNet_String (peer_AllowedIPs p)) ", ")]) ++
  opt_entry "PersistentKeepalive" (Itoa <$> peer_PersistentKeepalive p).

(** No value of the configuration, as it is printed, holds a line break. *)
Definition one_line (s : string) : Prop := lacks "010" s = true.
Definition config_one_line (c : WGConfig) : Prop :=
  Forall (λ e, one_line e.2)
    (interface_entries (wg_Interface c) ++ flat_map peer_entries (wg_Peers c)).

(** The lines [ToINI] writes. *)
Definition entry_line (e : string * string) : string := e.1 +:+ " = " +:+ e.2.
Definition ini_lines (c : WGConfig) : list string :=
  ["# # # # # # # # # # # # # # # # # # # # # # #";
   "#       wireport config for WireGuard       #";
   "# # # # # # # # # # # # # # # # # # # # # # #"; ""; "[Interface]"] ++
  map entry_line (interface_entries (wg_Interface c)) ++
  flat_map (λ p, "" :: "[Peer]" :: map entry_line (peer_entries p)) (wg_Peers c).

Lemma concat_strings_app a b :
  concat_strings (a ++ b) = concat_strings a +:+ concat_strings b.
Proof.
  induction a as [|s a IH]; [done|]. cbn [app concat_strings foldr] in *.
  unfold concat_strings in IH. rewrite IH. by rewrite str_app_assoc.
Qed.

Lemma concat_strings_congr a x y :
  concat_strings x = concat_strings y → concat_strings (a ++ x) = concat_strings (a ++ y).
Proof. intros E. by rewrite !concat_strings_app, E. Qed.

Lemma peer_ini_lines p :
  concat_strings (peer_ini p)
  = concat_strings (map line ("" :: "[Peer]" :: map entry_line (peer_entries p))).
Proof.
  destruct p as [pk ep ips ka]. unfold peer_ini, peer_entries, nonempty.
  cbn [peer_PublicKey peer_Endpoint peer_AllowedIPs peer_PersistentKeepalive].
  destruct ep as [e|]; cbn [mbind option_bind]; [case_bool_decide|];
    (destruct ips as [|ip ips]; [|rewrite (bool_decide_eq_false_2 (ip :: ips = [])) by done]);
    destruct ka as [k|]; reflexivity.
Qed.

Lemma ToINI_lines c : ToINI c = concat_strings (map line (ini_lines c)).
Proof.
  destruct c as [[addr lp pk dns up down] peers]. unfold ToINI, ini_lines.
  cbn [wg_Interface wg_Peers if_Address if_ListenPort if_PrivateKey if_DNS if_PostUp if_PostDown].
  assert (concat_strings (flat_map peer_ini peers) = concat_strings (map line
    (flat_map (λ p, "" :: "[Peer]" :: map entry_line (peer_entries p)) peers))) as E.
  { induction peers as [|p peers IH]; [done|]. cbn [flat_map].
    by rewrite map_app, !concat_strings_app, IH, peer_ini_lines. }
  symmetry in E. rewrite (app_assoc _ _ (flat_map (λ p, "" :: _) peers)), map_app,
    (concat_strings_congr _ _ _ E). clear E.
  f_equal. unfold interface_entries, nonempty.
  cbn [if_Address if_ListenPort if_PrivateKey if_DNS if_PostUp if_PostDown].
  destruct lp as [p|]; (destruct dns as [|d dns];
      [|rewrite (bool_decide_eq_false_2 (d :: dns = [])) by done]);
    repeat case_bool_decide; try done; reflexivity.
Qed.

Lemma Split_lines ls :
  Forall one_line ls → Split "010" (concat_strings (map line ls)) = ls ++ [""].
Proof.
  induction 1 as [|l ls Hl _ IH]; [done|]. unfold concat_strings in *. cbn [map foldr].
  unfold line at 1. rewrite str_app_assoc. change (newline +:+ ?x) with (String "010" x).
  by rewrite Split_app, IH.
Qed.

(** Every key [ToINI] writes is read back with its value, whatever the value. *)
Definition readable (e : string * string) : Prop :=
  classify (entry_line e) = IniEntry e.1 e.2 ∧ (one_line e.2 → one_line (entry_line e)).

Lemma opt_entry_readable k v : (∀ x, readable (k, x)) → Forall readable (opt_entry k v).
Proof. intros H. destruct v; cbn; auto. Qed.

Lemma interface_entries_readable i : Forall readable (interface_entries i).
Proof.
  unfold interface_entries. rewrite !Forall_app. repeat split;
    try case_bool_decide; repeat constructor; try apply opt_entry_readable; try done;
    by intros.
Qed.

Lemma peer_entries_readable p : Forall readable (peer_entries p).
Proof.
  unfold peer_entries. rewrite !Forall_app. repeat split;
    try case_bool_decide; repeat constructor; try apply opt_entry_readable; try done;
    by intros.
Qed.

Lemma entries_one_line es :
  Forall readable es → Forall (λ e, one_line e.2) es → Forall one_line (map entry_line es).
Proof.
  intros Hr Ho. apply Forall_map. induction Hr as [|e es [_ He] _ IH]; [done|].
  inversion_clear Ho. constructor; [by apply He|by apply IH].
Qed.

Lemma read_entries es rest r :
  Forall readable es →
  foldr read_step r (map entry_line es ++ rest)
  = (es ++ (foldr read_step r rest).1, (foldr read_step r rest).2).
Proof.
  induction 1 as [|[k v] es [He _] _ IH]; cbn [map app foldr]; [by destruct foldr|].
  rewrite IH. unfold read_step at 1. by rewrite He.
Qed.

Lemma read_peers peers r :
  r.1 = [] →
  foldr read_step r (flat_map (λ p, "" :: "[Peer]" :: map entry_line (peer_entries p)) peers)
  = ([], map (λ p, ("Peer", peer_entries p)) peers ++ r.2).
Proof.
  intros Hr. induction peers as [|p peers IH]; cbn [flat_map map app foldr];
    [by destruct r; cbn in *; subst|].
  rewrite read_entries by apply peer_entries_readable. rewrite IH. cbn.
  by rewrite app_nil_r.
Qed.

Lemma ini_lines_one_line c : config_one_line c → Forall one_line (ini_lines c).
Proof.
  intros H. unfold config_one_line in H. apply Forall_app in H as [Hi Hp]. unfold ini_lines.
  rewrite !Forall_app. repeat split; [repeat constructor; done| |].
  - by apply entries_one_line; [apply interface_entries_readable|].
  - induction (wg_Peers c) as [|p peers IH]; [done|]. cbn [flat_map] in *.
    apply Forall_app in Hp as [Hp Hps]. rewrite Forall_app. split; [|auto].
    do 2 (constructor; [done|]). by apply entries_one_line; [apply peer_entries_readable|].
Qed.

(** C32: the INI text of a configuration whose values hold no line break reads back,
    section by section and key by key, as the configuration: the interface first, then
    one [Peer] section per peer in order, each optional key there exactly when it is set. *)
Theorem ToINI_reads_back c :
  config_one_line c →
  read_ini (ToINI c) = ("Interface", interface_entries (wg_Interface c)) ::
                       map (λ p, ("Peer", peer_entries p)) (wg_Peers c).
Proof.
  intros H. unfold read_ini. rewrite ToINI_lines, Split_lines by by apply ini_lines_one_line.
  unfold ini_lines. rewrite <- !app_assoc. cbn [app foldr].
  rewrite read_entries by apply interface_entries_readable.
  rewrite foldr_app, read_peers by done. cbn. by rewrite !app_nil_r.
Qed.

Definition sample_config : WGConfig :=
  MkWGConfig
    (MkWGConfigInterface (MkIPNet (IPv4 10 0 0 2) (CIDRMask32 24)) None "key=" 
       [MkIPNet (IPv4 10 0 0 1) (CIDRMask32 32)] "" "")
    [MkWGConfigPeer "peer=" (Some (MkUDPAddr (IPv4 203 0 113 7) 51820))
       [MkIPNet (IPv4 10 0 0 0) (CIDRMask32 24)] (Some 15)].

Lemma ToINI_reads_back_witness :
  config_one_line sample_config ∧
  read_ini (ToINI sample_config)
  = [("Interface", [("Address", "10.0.0.2/24"); ("PrivateKey", "key="); ("DNS", "10.0.0.1")]);
     ("Peer", [("PublicKey", "peer="); ("Endpoint", "203.0.113.7:51820");
               ("AllowedIPs", "10.0.0.0/24"); ("PersistentKeepalive", "15")])].
Proof.
  assert (config_one_line sample_config) as H by (repeat constructor).
  split; [exact H|]. rewrite (ToINI_reads_back sample_config H). vm_compute. reflexivity.
Defined.

(** A list of IPv4 networks survives printing and parsing, with and without a mask
    being demanded. *)
Theorem nets_round_trip l :
  Forall v4_net l →
  MapStringsToIPNetMarshables (MapIPNetMarshablesToStrings l true) = l ∧
  Forall (λ n, ∀ mm, ParseIPNetMarshable (IPNet_String n) mm = Ret n) l.
Proof.
  intros Hl. split; [by apply MapStrings_nets|].
  eapply Forall_impl; [exact Hl|]. intros n Hn mm. by apply ParseIPNetMarshable_String.
Qed.

Lemma nets_round_trip_witness :
  MapStringsToIPNetMarshables
    (MapIPNetMarshablesToStrings [MkIPNet (IPv4 172 20 0 0) (CIDRMask32 16)] true)
  = [MkIPNet (IPv4 172 20 0 0) (CIDRMask32 16)].
Proof.
  apply (nets_round_trip [MkIPNet (IPv4 172 20 0 0) (CIDRMask32 16)]).
  constructor; [|constructor]. split; [|exists 16; split; [lia|reflexivity]].
  exists 172, 20, 0, 0. unfold byte_val. repeat split; lia.
Defined.

(** Of the prefix lengths an [int] can hold, [ParseIPNetMarshable] takes exactly
    those from 0 to 32 after an IPv4 address. *)
Theorem ParseIPNetMarshable_prefix ip z mm :
  v4_addr ip → 0 ≤ z ≤ int64_max →
  ParseIPNetMarshable (IPToString ip +:+ "/" +:+ Itoa z) mm
  = if z <=? 32 then Ret (MkIPNet ip (CIDRMask32 z))
    else Throw (Errorf "CIDR value for network mask must be between 0 and 32").
Proof.
  intros Hip Hz. destruct (Z.leb_spec z 32); [apply ParseIPNetMarshable_masked; (done || lia)|].
  unfold ParseIPNetMarshable. rewrite str_app_cons, str_app_nil_l.
  rewrite bool_decide_eq_false_2 by apply str_app_ne_r.
  rewrite Split_app, Split_lacks by (apply Itoa_lacks || apply lacks_digits_dot; (done || lia)).
  cbn match. rewrite ParseIP_IPToString by done.
  rewrite bool_decide_eq_false_2 by by apply v4_addr_ne.
  rewrite Atoi_Itoa by (unfold int64_min; lia).
  destruct (Z.ltb_spec z 0), (Z.ltb_spec 32 z); (lia || done).
Qed.

Lemma ParseIPNetMarshable_prefix_witness :
  ParseIPNetMarshable "10.0.0.1/33" true
  = Throw (Errorf "CIDR value for network mask must be between 0 and 32").
Proof.
  apply (ParseIPNetMarshable_prefix (IPv4 10 0 0 1) 33 true); [|unfold int64_max; lia].
  exists 10, 0, 0, 1. unfold byte_val. repeat split; lia.
Defined.

(** A network whose address is not an IPv4 one is accepted, but has no text: it
    prints as [<nil>], whatever the address. *)
Theorem parsed_v6_prints_nil s mm n :
  ParseIPNetMarshable s mm = Ret n → To4 (net_IP n) = [] → IPNet_String n = "<nil>".
Proof.
  intros (_ & ones & Ho & Hm)%ParseIPNetMarshable_inv H4. unfold IPNet_String.
  assert ((length (net_IP n) =? 4)%nat = false) as Hlen.
  { destruct (length (net_IP n) =? 4)%nat eqn:E; [|done]. unfold To4 in H4. rewrite E in H4.
    rewrite H4 in E. done. }
  rewrite H4, Hm, length_CIDRMask32 by lia. cbn [Nat.eqb]. rewrite Hlen. cbn zeta.
  rewrite (bool_decide_eq_true_2 (@nil Z = [])) by done. by rewrite orb_true_r.
Qed.

Lemma parsed_v6_prints_nil_witness :
  ∃ n, ParseIPNetMarshable "fd00::/16" true = Ret n ∧ IPNet_String n = "<nil>".
Proof.
  eexists. split; [vm_compute; reflexivity|].
  refine (parsed_v6_prints_nil "fd00::/16" true _ _ _); vm_compute; reflexivity.
Defined.
