(* ===== verification/Gorm.v ===== *)
(** * The database layer the repositories call

    [gorm.io/gorm] and the SQLite under it are not part of the source.  [Gorm] is
    the interface the repositories use: an abstract table and the operations the
    code calls on it.  [GormLaws] states what their documentation promises, in
    terms of [rows], the table's content by primary key.  An operation may fail
    ([Throw]) at any time; it is only on a [healthy] table, one whose file and
    connection work, that success is promised.  Nothing is assumed of the order in
    which rows come back.  [mem_gorm] is an instance kept in memory. *)
From S2P Require Import Prelude.

(** [gorm.ErrRecordNotFound] *)
Definition ErrRecordNotFound : error := Sentinel "gorm.ErrRecordNotFound" "record not found".

(** What the struct tags and hooks of a table's row type say. *)
Class Model (K T : Type) `{Countable K} : Type := {
  pk : T → K;
  (** a primary-key column has its zero value: [Save] inserts *)
  pk_zero : K → bool;
  (** two rows a unique index does not let coexist *)
  clash : T → T → bool;
  (** the [BeforeCreate] hook *)
  on_create : T → T;
  pk_on_create : ∀ x, pk (on_create x) = pk x;
}.

Class Gorm (K T : Type) `{Model K T} : Type := {
  Table : Type;
  rows : Table → gmap K T;
  healthy : Table → Prop;
  (** [db.Find(&xs, p)] *)
  Find : (T → bool) → Table → Out (list T);
  (** [db.First(&x, p)] *)
  First : (T → bool) → Table → Out T;
  (** [db.Order("<column> DESC").First(&x)], for a column of numbers *)
  FirstDesc : (T → Z) → Table → Out T;
  (** [db.Model(&T{}).Where(p).Count(&n)] *)
  Count : (T → bool) → Table → Out Z;
  (** [db.Create(&x)]: [x] as the hook leaves it *)
  Create : T → M Table T;
  (** [db.Save(&x)], [db.Delete(&T{}, p)] and [db.Model(&T{}).Where(p).Update(..)]:
      the [RowsAffected] *)
  Save : T → M Table Z;
  Delete : (T → bool) → M Table Z;
  Update : (T → bool) → (T → T) → M Table Z;
  (** [db.Transaction(fc)]: the body is given what [db] itself sees, and runs on [tx] *)
  Transaction : ∀ {A : Type}, (Table → M Table A) → M Table A;
}.

Definition values {K T} `{Countable K} (m : gmap K T) : list T := (map_to_list m).*2.

(** No row but the one with [x]'s own key clashes with [x]. *)
Definition no_clash {K T} `{Model K T} (m : gmap K T) (x : T) : Prop :=
  ∀ k y, m !! k = Some y → k ≠ pk x → clash y x = false.

Class GormLaws (K T : Type) `{Gorm K T} : Prop := {
  rows_pk t k x : rows t !! k = Some x → pk x = k;
  find_rows p t l : Find p t = Ret l → l ≡ₚ List.filter p (values (rows t));
  find_ok p t : healthy t → ∃ l, Find p t = Ret l;
  first_row p t x : First p t = Ret x → rows t !! pk x = Some x ∧ p x = true;
  (** no other error of the database reads "record not found" *)
  first_none p t e :
    First p t = Throw e → error_text e = "record not found" →
    ∀ k x, rows t !! k = Some x → p x = false;
  first_ok p t : healthy t → (∃ x, First p t = Ret x) ∨ First p t = Throw ErrRecordNotFound;
  first_desc_row f t x :
    FirstDesc f t = Ret x →
    rows t !! pk x = Some x ∧ ∀ k y, rows t !! k = Some y → f y ≤ f x;
  first_desc_none f t : FirstDesc f t = Throw ErrRecordNotFound → rows t = ∅;
  first_desc_ok f t :
    healthy t → (∃ x, FirstDesc f t = Ret x) ∨ FirstDesc f t = Throw ErrRecordNotFound;
  count_rows p t n :
    Count p t = Ret n → n = Z.of_nat (length (List.filter p (values (rows t))));
  count_ok p t : healthy t → ∃ n, Count p t = Ret n;
  create_rows x y t t' :
    Create x t = (Ret y, t') →
    y = on_create x ∧ rows t !! pk x = None ∧ rows t' = <[pk x := y]> (rows t);
  create_fail x o t t' : Create x t = (o, t') → (∀ y, o ≠ Ret y) → t' = t;
  create_ok x t :
    healthy t → rows t !! pk x = None → no_clash (rows t) (on_create x) →
    ∃ t', Create x t = (Ret (on_create x), t') ∧ healthy t';
  create_clash x t :
    healthy t → rows t !! pk x ≠ None → ∃ e, Create x t = (Throw e, t);
  save_rows x n t t' :
    Save x t = (Ret n, t') → pk_zero (pk x) = false →
    n = 1 ∧ rows t' = <[pk x := x]> (rows t);
  save_fail x o t t' : Save x t = (o, t') → (∀ n, o ≠ Ret n) → t' = t;
  save_ok x t :
    healthy t → pk_zero (pk x) = false → no_clash (rows t) x →
    ∃ n t', Save x t = (Ret n, t') ∧ healthy t';
  delete_rows p n t t' :
    Delete p t = (Ret n, t') →
    n = Z.of_nat (length (List.filter p (values (rows t)))) ∧
    rows t' = filter (λ kx, p kx.2 = false) (rows t);
  delete_fail p o t t' : Delete p t = (o, t') → (∀ n, o ≠ Ret n) → t' = t;
  delete_ok p t : healthy t → ∃ n t', Delete p t = (Ret n, t') ∧ healthy t';
  update_rows p f n t t' :
    (∀ x, pk (f x) = pk x) → Update p f t = (Ret n, t') →
    n = Z.of_nat (length (List.filter p (values (rows t)))) ∧
    rows t' = (λ x, if p x then f x else x) <$> rows t;
  update_fail p f o t t' : Update p f t = (o, t') → (∀ n, o ≠ Ret n) → t' = t;
  update_ok p f t :
    healthy t → (∀ x, pk (f x) = pk x) → (∀ x y, clash (f x) y = clash x y) →
    (∀ x y, clash y (f x) = clash y x) →
    ∃ n t', Update p f t = (Ret n, t') ∧ healthy t';
  transaction_commit A (body : Table → M Table A) a t t' :
    Transaction body t = (Ret a, t') → body t t = (Ret a, t');
  transaction_ok A (body : Table → M Table A) a t t' :
    body t t = (Ret a, t') → healthy t' → Transaction body t = (Ret a, t');
  transaction_fail A (body : Table → M Table A) o t t' :
    Transaction body t = (o, t') → (∀ a, o ≠ Ret a) → t' = t;
  transaction_rollback A (body : Table → M Table A) o t t' :
    body t t = (o, t') → (∀ a, o ≠ Ret a) → Transaction body t = (o, t);
}.

(** Runs [c] and looks neither at its value nor at its error. *)
Definition ignoring {S A} (c : M S A) : M S unit := λ s,
  match c s with
  | (Ret _, s') | (Throw _, s') => (Ret tt, s')
  | (Panic p, s') => (Panic p, s')
  | (Exited p, s') => (Exited p, s')
  end.

(** A query whose error is not looked at: the destination keeps its value. *)
Definition or_zero {A} (zero : A) (o : Out A) : Out A :=
  match o with Throw _ => Ret zero | _ => o end.

Lemma triple_ignoring {S A} (c : M S A) (P Q E : S → Prop) :
  triple P c (λ _, Q) Q → (∀ s, Q s → E s) → triple P (ignoring c) (λ _, Q) E.
Proof.
  intros Hc HE s Hs. specialize (Hc s Hs). unfold ignoring.
  destruct (c s) as [[a|e|p|p] s1]; auto.
Qed.

(** A query leaves the table alone. *)
Definition query {S A} (f : S → Out A) : M S A := λ s, (f s, s).

Lemma query_Ret {S A} (f : S → Out A) s a : f s = Ret a → query f s = (Ret a, s).
Proof. intros H. unfold query. by rewrite H. Qed.

Lemma lift_Ret {S A} (o : Out A) (s : S) a : o = Ret a → lift o s = (Ret a, s).
Proof. by intros ->. Qed.

(** ** An instance in memory *)

Section memory.
  Context {K T : Type} `{Model K T}.

Definition clashes (m : gmap K T) (x : T) : bool :=
  existsb (λ ky, negb (bool_decide (ky.1 = pk x)) && clash ky.2 x) (map_to_list m).

(** Rows are kept under their own keys. *)
Definition keyed (m : gmap K T) : Prop := map_Forall (λ k x, pk x = k) m.
Definition keyedb (m : gmap K T) : bool :=
  forallb (λ kx, bool_decide (pk kx.2 = kx.1)) (map_to_list m).

Lemma keyedb_spec m : keyedb m = true ↔ keyed m.
Proof.
  unfold keyedb, keyed. rewrite forallb_forall, map_Forall_to_list, Forall_forall. split.
  - intros H1 [k x] Hk. apply list_elem_of_In in Hk. apply H1 in Hk.
    by apply bool_decide_eq_true_1 in Hk.
  - intros H1 [k x] Hk. apply list_elem_of_In in Hk. apply H1 in Hk.
    by apply bool_decide_eq_true_2.
Qed.

Definition mem_table : Type := { m : gmap K T | keyedb m = true }.
Definition mem_rows (t : mem_table) : gmap K T := proj1_sig t.

(** The table with the content [m], if that is one. *)
Definition mem_put (m : gmap K T) (t : mem_table) : mem_table :=
  match Bool.bool_dec (keyedb m) true with
  | left Hm => exist _ m Hm
  | right _ => t
  end.

Lemma mem_rows_put m t : keyed m → mem_rows (mem_put m t) = m.
Proof.
  intros Hm%keyedb_spec. unfold mem_put. by destruct Bool.bool_dec.
Qed.

Definition mem_count (p : T → bool) (t : mem_table) : Z :=
  Z.of_nat (length (List.filter p (values (mem_rows t)))).

(** The largest of a list. *)
Fixpoint largest (f : T → Z) (l : list T) : option T :=
  match l with
  | [] => None
  | x :: l' =>
      match largest f l' with
      | Some y => Some (if f x <? f y then y else x)
      | None => Some x
      end
  end.

#[export] Instance mem_gorm : Gorm K T := {|
  Table := mem_table;
  rows := mem_rows;
  healthy _ := True;
  Find p t := Ret (List.filter p (values (mem_rows t)));
  First p t :=
    match List.filter p (values (mem_rows t)) with
    | x :: _ => Ret x
    | [] => Throw ErrRecordNotFound
    end;
  FirstDesc f t :=
    match largest f (values (mem_rows t)) with
    | Some x => Ret x
    | None => Throw ErrRecordNotFound
    end;
  Count p t := Ret (mem_count p t);
  Create x t :=
    match mem_rows t !! pk x with
    | Some _ => (Throw (Errorf "UNIQUE constraint failed"), t)
    | None =>
        if clashes (mem_rows t) (on_create x)
        then (Throw (Errorf "UNIQUE constraint failed"), t)
        else (Ret (on_create x), mem_put (<[pk x := on_create x]> (mem_rows t)) t)
    end;
  Save x t :=
    if clashes (mem_rows t) x
    then (Throw (Errorf "UNIQUE constraint failed"), t)
    else (Ret 1, mem_put (<[pk x := x]> (mem_rows t)) t);
  Delete p t := (Ret (mem_count p t), mem_put (filter (λ kx, p kx.2 = false) (mem_rows t)) t);
  Update p f t :=
    (Ret (mem_count p t), mem_put ((λ x, if p x then f x else x) <$> mem_rows t) t);
  Transaction A body t :=
    match body t t with
    | (Ret a, t') => (Ret a, t')
    | (Throw e, _) => (Throw e, t)
    | (Panic p, _) => (Panic p, t)
    | (Exited p, _) => (Exited p, t)
    end;
|}.
End memory.

Lemma elem_of_values {K T} `{Countable K} (m : gmap K T) x :
  x ∈ values m ↔ ∃ k, m !! k = Some x.
Proof.
  unfold values. rewrite list_elem_of_fmap. split.
  - intros ([k y] & -> & Hk%elem_of_map_to_list). by exists k.
  - intros [k Hk]. exists (k, x). by rewrite elem_of_map_to_list.
Qed.

Lemma elem_of_filter_values {K T} `{Countable K} (m : gmap K T) p x :
  x ∈ List.filter p (values m) ↔ (∃ k, m !! k = Some x) ∧ p x = true.
Proof.
  rewrite list_elem_of_In, filter_In, <- list_elem_of_In. by rewrite elem_of_values.
Qed.

Section memory_laws.
  Context {K T : Type} `{Model K T}.

Lemma mem_keyed (t : mem_table) : keyed (mem_rows t).
Proof. destruct t as [m Hm]. by apply keyedb_spec. Qed.

Lemma keyed_insert m x : keyed m → keyed (<[pk x := x]> m).
Proof. intros Hm. by apply map_Forall_insert_2. Qed.

Lemma clashes_false m x : no_clash m x → clashes m x = false.
Proof.
  intros Hx. unfold clashes. destruct existsb eqn:E; [|done].
  apply existsb_exists in E as ([k y] & Hin & Hc). apply list_elem_of_In in Hin.
  apply elem_of_map_to_list in Hin. cbn in Hc. case_bool_decide as Hk; [done|].
  cbn in Hc. by rewrite (Hx k y) in Hc.
Qed.

Lemma largest_spec (f : T → Z) l :
  match largest f l with
  | Some x => x ∈ l ∧ ∀ y, y ∈ l → f y ≤ f x
  | None => l = []
  end.
Proof.
  induction l as [|x l IH]; cbn; [done|]. destruct (largest f l) as [y|].
  - destruct IH as [Hy Hmax]. destruct (Z.ltb_spec (f x) (f y)).
    + split; [by right|]. intros z [->|Hz]%elem_of_cons; [lia|auto].
    + split; [left|]. intros z [->|Hz]%elem_of_cons; [lia|]. specialize (Hmax z Hz). lia.
  - subst. split; [left|]. intros z ->%list_elem_of_singleton. lia.
Qed.

#[export] Instance mem_gorm_laws : GormLaws K T.
Proof.
  split; cbn.
  - intros t k x. apply mem_keyed.
  - by intros p t l [= <-].
  - intros p t _. eauto.
  - intros p t x Hx. destruct (List.filter p _) as [|y l] eqn:E; [done|].
    injection Hx as ->. assert (x ∈ List.filter p (values (mem_rows t))) as Hx
      by (rewrite E; left).
    apply elem_of_filter_values in Hx as [[k Hk] Hp]. split; [|done].
    by rewrite (mem_keyed t _ _ Hk).
  - intros p t e Hf _ k x Hk. destruct (List.filter p _) as [|y l] eqn:E; [|done].
    destruct (p x) eqn:Hp; [|done].
    assert (x ∈ List.filter p (values (mem_rows t))) as Hx
      by (apply elem_of_filter_values; eauto).
    rewrite E in Hx. set_solver.
  - intros p t _. destruct (List.filter p _); eauto.
  - intros f t x Hx. pose proof (largest_spec f (values (mem_rows t))) as Hm.
    destruct (largest f _) as [y|]; [|done]. injection Hx as ->. destruct Hm as [Hx Hm].
    apply elem_of_values in Hx as [k Hk]. rewrite (mem_keyed t _ _ Hk). split; [done|].
    intros j y Hj. apply Hm, elem_of_values. eauto.
  - intros f t Hx. pose proof (largest_spec f (values (mem_rows t))) as Hm.
    destruct (largest f _) as [y|]; [done|]. unfold values in Hm. apply fmap_nil_inv in Hm.
    by apply map_to_list_empty_iff.
  - intros f t _. destruct (largest f _); eauto.
  - by intros p t n [= <-].
  - intros p t _. eauto.
  - intros x y t t' Hc. destruct (mem_rows t !! pk x); [done|].
    destruct (clashes _ _); [done|]. injection Hc as <- <-. split; [done|]. split; [done|].
    apply mem_rows_put. rewrite <- (pk_on_create x). apply keyed_insert, mem_keyed.
  - intros x o t t' Hc Ho. destruct (mem_rows t !! pk x); [by injection Hc|].
    destruct (clashes _ _); injection Hc as <- <-; [done|by destruct (Ho (on_create x))].
  - intros x t _ Hx Hc. rewrite Hx, clashes_false by done. eauto.
  - intros x t _ Hx. destruct (mem_rows t !! pk x); [eauto|done].
  - intros x n t t' Hs _. destruct (clashes _ _); [done|]. injection Hs as <- <-.
    split; [done|]. apply mem_rows_put, keyed_insert, mem_keyed.
  - intros x o t t' Hs Ho. destruct (clashes _ _); injection Hs as <- <-; [done|by destruct (Ho 1)].
  - intros x t _ _ Hc. rewrite clashes_false by done. eauto.
  - intros p n t t' [= <- <-]. split; [done|]. apply mem_rows_put.
    intros k x [Hk _]%map_lookup_filter_Some. by apply (mem_keyed t).
  - intros p o t t' [= <- <-] Ho. by destruct (Ho (mem_count p t)).
  - intros p t _. eauto.
  - intros p f n t t' Hf [= <- <-]. split; [done|]. apply mem_rows_put.
    intros k x. rewrite lookup_fmap_Some. intros (y & <- & Hy).
    apply mem_keyed in Hy. destruct (p y); [by rewrite Hf|done].
  - intros p f o t t' [= <- <-] Ho. by destruct (Ho (mem_count p t)).
  - intros p f t _ _ _ _. eauto.
  - intros A body a t t'. destruct (body t t) as [[] ?]; congruence.
  - intros A body a t t' -> _. done.
  - intros A body o t t' Hb Ho. destruct (body t t) as [[] ?]; injection Hb as <- <-; try done.
    by destruct (Ho a).
  - intros A body o t t' -> Ho. destruct o as [a| | |]; try done. by destruct (Ho a).
Qed.
End memory_laws.

(** ** Consequences of the laws *)

Section consequences.
  Context {K T : Type} `{GormLaws K T}.

Lemma find_elem p t l x :
  Find p t = Ret l → x ∈ l ↔ rows t !! pk x = Some x ∧ p x = true.
Proof.
  intros Hl%find_rows. rewrite Hl, elem_of_filter_values. split.
  - intros [[k Hk] ?]. split; [|done]. by rewrite (rows_pk _ _ _ Hk).
  - intros [??]. eauto.
Qed.

(** The rows found have different keys. *)
Lemma find_NoDup p t l : Find p t = Ret l → NoDup (pk <$> l).
Proof.
  intros Hl%find_rows. rewrite Hl. unfold values.
  assert (∀ kxs : list (K * T), NoDup kxs.*1 → Forall (λ kx, pk kx.2 = kx.1) kxs →
    NoDup (pk <$> List.filter p kxs.*2)) as Haux.
  { induction kxs as [|[k x] kxs IH]; cbn; [constructor|].
    intros [Hk Hnd]%NoDup_cons [Hx Hf]%Forall_cons. cbn in Hx.
    destruct (p x); cbn; [|by apply IH]. constructor; [|by apply IH].
    intros (y & Hy & Hin)%list_elem_of_fmap. apply Hk.
    apply list_elem_of_In, filter_In in Hin as [Hin _]. apply list_elem_of_In in Hin.
    apply list_elem_of_fmap in Hin as ([k' y'] & -> & Hin). cbn in Hy.
    rewrite Forall_forall in Hf. specialize (Hf _ Hin). cbn in Hf.
    apply list_elem_of_fmap. exists (k', y'). split; [cbn; congruence|done]. }
  apply Haux; [apply NoDup_fst_map_to_list|].
  apply Forall_forall. intros [k x] Hk%elem_of_map_to_list. by eapply rows_pk.
Qed.

Lemma find_length p t l :
  Find p t = Ret l → length l = length (List.filter p (values (rows t))).
Proof. intros Hl%find_rows. by rewrite Hl. Qed.

(** Two searches for the same thing find the same rows, in some order. *)
Lemma find_all_size t l : Find (λ _, true) t = Ret l → length l = size (rows t).
Proof.
  intros Hl%find_length. rewrite Hl. unfold values.
  assert (∀ xs : list T, List.filter (λ _, true) xs = xs) as Hall.
  { induction xs as [|x xs IH]; cbn; congruence. }
  by rewrite Hall, length_fmap, length_map_to_list.
Qed.

Lemma find_existsb p q t l :
  Find p t = Ret l → existsb q l = existsb q (List.filter p (values (rows t))).
Proof.
  intros Hl%find_rows. apply eq_true_iff_eq. rewrite !existsb_exists.
  split; intros (x & Hx & Hq); exists x; (split; [|done]); apply list_elem_of_In in Hx;
    apply list_elem_of_In; by rewrite Hl in *.
Qed.

Lemma triple_query {A} (f : Table → Out A) (P : Table → Prop) (Q : A → Table → Prop)
    (E : Table → Prop) :
  (∀ a t, P t → f t = Ret a → Q a t) → (∀ t, P t → E t) → triple P (query f) Q E.
Proof. intros HQ HE t Ht. cbn. destruct (f t) eqn:Hf; eauto. Qed.

(** A transaction either commits what its body did or leaves no trace. *)
Lemma triple_transaction {A} (body : Table → M Table A) (P : Table → Prop)
    (Q : A → Table → Prop) :
  (∀ db, P db → triple (λ t, t = db) (body db) Q (λ _, True)) →
  triple P (Transaction body) Q P.
Proof.
  intros Hb t Ht. destruct (Transaction body t) as [o t'] eqn:Ho.
  destruct o as [a|e|p|p]; [|erewrite (transaction_fail _ _ _ _ _ Ho) by done; done..].
  apply transaction_commit in Ho. by eapply triple_Ret in Ho; [|by apply Hb|].
Qed.

Lemma triple_save x (P : Table → Prop) (Q : Z → Table → Prop) (E : Table → Prop) :
  pk_zero (pk x) = false →
  (∀ t t', P t → rows t' = <[pk x := x]> (rows t) → Q 1 t') → (∀ t, P t → E t) →
  triple P (Save x) Q E.
Proof.
  intros Hx HQ HE t Ht. destruct (Save x t) as [[n|e|p|p] t'] eqn:Hs.
  1: apply save_rows in Hs as [-> Hr]; eauto.
  all: erewrite (save_fail _ _ _ _ Hs) by done; eauto.
Qed.

Lemma triple_create x (P : Table → Prop) (Q : T → Table → Prop) (E : Table → Prop) :
  (∀ t t', P t → rows t !! pk x = None → rows t' = <[pk x := on_create x]> (rows t) →
    Q (on_create x) t') → (∀ t, P t → E t) →
  triple P (Create x) Q E.
Proof.
  intros HQ HE t Ht. destruct (Create x t) as [[n|e|p|p] t'] eqn:Hs.
  1: apply create_rows in Hs as (-> & ? & Hr); eauto.
  all: erewrite (create_fail _ _ _ _ Hs) by done; eauto.
Qed.

Lemma triple_delete p (P : Table → Prop) (Q : Z → Table → Prop) (E : Table → Prop) :
  (∀ n t t', P t → rows t' = filter (λ kx, p kx.2 = false) (rows t) → Q n t') →
  (∀ t, P t → E t) → triple P (Delete p) Q E.
Proof.
  intros HQ HE t Ht. destruct (Delete p t) as [[n|e|q|q] t'] eqn:Hs.
  1: apply delete_rows in Hs as (-> & Hr); eauto.
  all: erewrite (delete_fail _ _ _ _ Hs) by done; eauto.
Qed.

Lemma triple_update (p : T → bool) (f : T → T) (P : Table → Prop) (Q : Z → Table → Prop) (E : Table → Prop) :
  (∀ x, pk (f x) = pk x) →
  (∀ n t t', P t → rows t' = (λ x, if p x then f x else x) <$> rows t → Q n t') →
  (∀ t, P t → E t) → triple P (Update p f) Q E.
Proof.
  intros Hf HQ HE t Ht. destruct (Update p f t) as [[n|e|q|q] t'] eqn:Hs.
  1: apply update_rows in Hs as (-> & Hr); eauto.
  all: erewrite (update_fail _ _ _ _ _ Hs) by done; eauto.
Qed.

(** ** Conditions on the whole primary key *)

Section by_key.
  Context (p : T → bool) (k : K) (Hp : ∀ x, p x = bool_decide (pk x = k)).

Lemma first_key t :
  healthy t →
  First p t = match rows t !! k with Some x => Ret x | None => Throw ErrRecordNotFound end.
Proof.
  intros Ht. destruct (first_ok p t Ht) as [[x Hx]|Hx].
  - rewrite Hx. apply first_row in Hx as [Hx Hk]. rewrite Hp in Hk.
    apply bool_decide_eq_true_1 in Hk. rewrite Hk in Hx. by rewrite Hx.
  - destruct (rows t !! k) as [x|] eqn:E; [|done].
    pose proof (first_none _ _ _ Hx eq_refl _ _ E) as Hn. rewrite Hp in Hn.
    apply bool_decide_eq_false_1 in Hn. by apply rows_pk in E.
Qed.

Lemma filter_key t : filter (λ kx, p kx.2 = false) (rows t) = delete k (rows t).
Proof.
  apply map_eq. intros j. destruct (decide (j = k)) as [->|Hj].
  - rewrite lookup_delete_eq. apply map_lookup_filter_None_2. right.
    intros x Hx. cbn. rewrite Hp. apply rows_pk in Hx. by rewrite bool_decide_eq_true_2.
  - rewrite lookup_delete_ne by done. destruct (rows t !! j) as [x|] eqn:Hx.
    + apply map_lookup_filter_Some_2; [done|]. cbn. rewrite Hp. apply rows_pk in Hx.
      apply bool_decide_eq_false_2. congruence.
    + by apply map_lookup_filter_None_2; left.
Qed.

Lemma count_key t :
  (0 <? Z.of_nat (length (List.filter p (values (rows t))))) = bool_decide (is_Some (rows t !! k)).
Proof.
  case_bool_decide as Hk.
  - destruct Hk as [x Hx]. apply Z.ltb_lt.
    enough (length (List.filter p (values (rows t))) ≠ 0%nat) by lia.
    intros E%length_zero_iff_nil.
    assert (x ∈ List.filter p (values (rows t))) as Hin.
    { apply elem_of_filter_values. split; [eauto|]. rewrite Hp.
      by apply bool_decide_eq_true_2, rows_pk in Hx || (apply rows_pk in Hx; by apply bool_decide_eq_true_2). }
    rewrite E in Hin. by apply elem_of_nil in Hin.
  - apply Z.ltb_ge. enough (List.filter p (values (rows t)) = []) as -> by done.
    destruct List.filter as [|x l] eqn:E; [done|]. exfalso. apply Hk.
    assert (x ∈ List.filter p (values (rows t))) as Hin by (rewrite E; left).
    apply elem_of_filter_values in Hin as [[j Hj] Hx]. rewrite Hp in Hx.
    apply bool_decide_eq_true_1 in Hx. pose proof (rows_pk _ _ _ Hj). exists x. congruence.
Qed.
End by_key.

(** A save on a healthy table where nothing clashes. *)
Lemma save_row x t :
  healthy t → pk_zero (pk x) = false → no_clash (rows t) x →
  ∃ t', Save x t = (Ret 1, t') ∧ healthy t' ∧ rows t' = <[pk x := x]> (rows t).
Proof.
  intros Ht Hx Hc. destruct (save_ok x t Ht Hx Hc) as (n & t' & Hs & Ht').
  pose proof (save_rows _ _ _ _ Hs Hx) as [-> Hr]. eauto.
Qed.
End consequences.
