(* ===== verification/Terminal.v ===== *)
(** * [internal/terminal] and [internal/wg]: local commands

    What a command does when it runs is the operating system's business: a
    [Runner] is a parameter of everything that executes one. *)
From S2P Require Import Prelude GoStrings.

Record Command : Type := MkCommand {
  cmd_Command : string;
  cmd_Args : list string;
  cmd_Dir : string;
}.

Definition NewCommand (command : string) (args : list string) : Command :=
  MkCommand command args "".

(** What [cmd.Run()] leaves: the two buffers, and the error's text if it fails. *)
Record RunResult : Type := MkRunResult {
  run_stdout : string;
  run_stderr : string;
  run_err : option string;
}.
Definition Runner : Type := Command → RunResult.

(** [c.Execute()] *)
Definition Execute (run : Runner) (c : Command) : Out string :=
  let r := run c in
  match run_err r with
  | Some err =>
      Throw (Errorf ("command failed: " +:+ err +:+ newline +:+ "Stderr: " +:+ run_stderr r))
  | None => Ret (TrimSpace (run_stdout r))
  end.

(** [wg.GenerateKeyPair()]: the private and the public key. *)
Definition GenerateKeyPair (run : Runner) : Out (string * string) :=
  privateKey ← Execute run (NewCommand "wg" ["genkey"]);
  publicKey ← Execute run
    (NewCommand "sh" ["-c"; "echo " +:+ privateKey +:+ " | wg pubkey"]);
  mret (privateKey, publicKey).
