(* ===== verification/NodesRepo.v ===== *)
(** * [internal/nodes]: the node repository

    The nodes of a network and the rules that tie them together: which address and
    which docker subnet the next node gets, what its WireGuard configuration says,
    and who is whose peer. *)
From S2P Require Import Prelude GoStrings GoNet Mtls NodeTypes Gorm.
From S2P Require Import Terminal.

#[export] Instance Node_model : Model string Node := {|
  pk := node_ID;
  pk_zero id := bool_decide (id = "");
  clash a b := bool_decide (node_WGConfig a = node_WGConfig b);
  on_create := BeforeCreate;
  pk_on_create _ := eq_refl;
|}.

Definition ErrGatewayNodeNotFound : error :=
  Sentinel "ErrGatewayNodeNotFound" "gateway node not found".
Definition ErrGatewayNodePublicIPPortNotFound : error :=
  Sentinel "ErrGatewayNodePublicIPPortNotFound" "gateway node public ip or port not found".
Definition ErrGatewayNodeAlreadyExists : error :=
  Sentinel "ErrGatewayNodeAlreadyExists" "gateway node already exists".
Definition ErrFailedToParseIP : error :=
  Sentinel "ErrFailedToParseIP" "failed to parse ip".
Definition ErrNoAvailableDockerSubnets : error :=
  Sentinel "ErrNoAvailableDockerSubnets"
    "no available docker subnets found in 172.16.0.0/12 range".
Definition ErrNoAvailableWGPrivateIPs : error :=
  Sentinel "ErrNoAvailableWGPrivateIPs"
    "no available wg public ips found in 10.0.0.0/24 range".

Definition dockerSubnetStart : Z := 20.
Definition dockerSubnetEnd : Z := 31.
Definition wgPrivateIPStart : Z := 1.
Definition wgPrivateIPEnd : Z := 254.
Definition DockerSocketPublishedLabel : string := "docker-socket-published".

(** [config.Config.CertExpiry]: five years, in nanoseconds. *)
Definition CertExpiry : Z := 3600 * 10 ^ 9 * 24 * 365 * 5.

(** The zero value of [types.Node], which a failed query leaves in place. *)
Definition zero_Node : Node :=
  MkNode "" (NodeRoleOther "") false "" ""
    (MkWGConfig (MkWGConfigInterface (MkIPNet [] []) None "" [] "" "") [])
    None None None "" 0 None None None [].

(** The conditions of the queries. *)
Definition any_node (n : Node) : bool := true.
Definition has_role (r : NodeRole) (n : Node) : bool := bool_decide (node_Role n = r).
Definition has_id (id : string) (n : Node) : bool := bool_decide (node_ID n = id).
Definition server_or_gateway (n : Node) : bool :=
  has_role NodeRoleServer n || has_role NodeRoleGateway n.
Definition client_or_server (n : Node) : bool :=
  has_role NodeRoleClient n || has_role NodeRoleServer n.

(** [filterNodes] *)
Definition filterNodes (allNodes : list Node) (roles : list NodeRole) : list Node :=
  List.filter (λ n, bool_decide (node_Role n ∈ roles)) allNodes.

(** ** Refreshing the configurations *)

Definition dockerDNS : string := "127.0.0.11".
Definition persistentKeepalive : Z := 15.
Definition serverPeerAllowedIps : string := "10.0.0.0/24".
Definition dockerAllAllowedSubnets : string := "172.16.0.0/12".

(** [d.String()] on a [*IPNetMarshable]. *)
Definition subnet_String (d : option IPNetMarshable) : Out string :=
  match d with
  | Some d => Ret (IPNet_String d)
  | None => Panic "nil pointer dereference: DockerSubnet"
  end.

(** The peer the gateway keeps for a client or a server. *)
Definition gateway_peer (n : Node) : Out WGConfigPeer :=
  allowedIPs ←
    match node_Role n with
    | NodeRoleServer =>
        subnet ← subnet_String (node_DockerSubnet n);
        mret [IPToString (node_wg_ip n) +:+ "/32"; subnet]
    | NodeRoleClient => mret [IPToString (node_wg_ip n) +:+ "/32"]
    | _ => mret []
    end;
  mret (MkWGConfigPeer (node_WGPublicKey n) None (MapStringsToIPNetMarshables allowedIPs) None).

Definition set_DNS_and_Peers (dns : list string) (peers : list WGConfigPeer) (n : Node) : Node :=
  set_WGConfig (set_Peers peers (set_DNS (MapStringsToIPNetMarshables dns) (node_WGConfig n))) n.

(** The body of the loop of [updateNodes], up to the [Save]. *)
Definition refresh_node (gatewayNode : Node) (gatewayEndpoint : UDPAddrMarshable)
    (oldNodes : list Node) (node : Node) : Out Node :=
  match node_Role node with
  | NodeRoleGateway =>
      let serverNodes := filterNodes oldNodes [NodeRoleServer] in
      let clientServerNodes := filterNodes oldNodes [NodeRoleClient; NodeRoleServer] in
      peers ← out_map gateway_peer clientServerNodes;
      mret (set_DNS_and_Peers
              (dockerDNS :: map (λ s, IPToString (node_wg_ip s)) serverNodes) peers node)
  | NodeRoleServer =>
      mret (set_DNS_and_Peers
              [IPToString (node_wg_ip gatewayNode); dockerDNS]
              [MkWGConfigPeer (node_WGPublicKey gatewayNode) (Some gatewayEndpoint)
                 (MapStringsToIPNetMarshables [serverPeerAllowedIps])
                 (Some persistentKeepalive)] node)
  | NodeRoleClient =>
      mret (set_DNS_and_Peers
              [IPToString (node_wg_ip gatewayNode)]
              [MkWGConfigPeer (node_WGPublicKey gatewayNode) (Some gatewayEndpoint)
                 (MapStringsToIPNetMarshables
                    [dockerAllAllowedSubnets; IPToString (node_wg_ip gatewayNode) +:+ "/24"])
                 (Some persistentKeepalive)] node)
  | _ => mret node
  end.

(** The node's docker subnet is printed like [s]. *)
Definition uses_subnet (s : string) (n : Node) : bool :=
  match node_DockerSubnet n with
  | Some d => bool_decide (IPNet_String d = s)
  | None => false
  end.

Definition uses_wg_ip (s : string) (n : Node) : bool :=
  bool_decide (IPToString (node_wg_ip n) = s).

(** The loop of [GetNextAssignableDockerSubnet]. *)
Fixpoint first_free_subnet (nodes : list Node) (nums : list Z) : Out IPNetMarshable :=
  match nums with
  | [] => Throw ErrNoAvailableDockerSubnets
  | networkNum :: nums' =>
      let ip := ParseIP ("172." +:+ Itoa networkNum +:+ ".0.0") in
      if bool_decide (ip = []) then Throw ErrFailedToParseIP
      else
        let proposedSubnet := MkIPNet ip (CIDRMask32 16) in
        if existsb (uses_subnet (IPNet_String proposedSubnet)) nodes
        then first_free_subnet nodes nums'
        else Ret proposedSubnet
  end.

(** The loop of [GetNextAssignableWGPrivateIP]. *)
Fixpoint first_free_wg_ip (nodes : list Node) (nums : list Z) : Out IPMarshable :=
  match nums with
  | [] => Throw ErrNoAvailableWGPrivateIPs
  | networkNum :: nums' =>
      let ip := ParseIP ("10.0.0." +:+ Itoa networkNum) in
      if bool_decide (ip = []) then Throw ErrFailedToParseIP
      else if existsb (uses_wg_ip (IPToString ip)) nodes
           then first_free_wg_ip nodes nums'
           else Ret ip
  end.

(** [for i := a; i <= b; i++] *)
Definition range (a b : Z) : list Z := seqZ a (b - a + 1).

(** ** The repository *)

(** What a call that creates a node takes from outside: the commands it runs, the
    identifier it draws, the randomness of its keys and the readings of its clock. *)
Record CreateEnv : Type := MkCreateEnv {
  env_run : Runner;
  env_uuid : string;
  env_seed : nat;
  env_clock : nat → Z;
}.

Definition gatewayInterfacePostUp : string :=
  "iptables -A FORWARD -i wg0 -j ACCEPT; iptables -t nat -A POSTROUTING -o eth1 -j MASQUERADE".
Definition gatewayInterfacePostDown : string :=
  "iptables -D FORWARD -i wg0 -j ACCEPT; iptables -t nat -D POSTROUTING -o eth1 -j MASQUERADE".

(** The nodes the three [Create] methods insert. *)
Definition gateway_node (nodeID priv pub : string) (wgIP : IP) (WGPublicIP : IPMarshable)
    (WGPublicPort : Z) (gatewayPublicIP : string) (gatewayPublicPort : Z)
    (bundle : FullGatewayBundle) : Node :=
  {| node_ID := nodeID; node_Role := NodeRoleGateway; node_IsCurrentNode := true;
     node_WGPrivateKey := priv; node_WGPublicKey := pub;
     node_WGConfig :=
       MkWGConfig
         (MkWGConfigInterface (MkIPNet wgIP (CIDRMask32 24)) (Some WGPublicPort) priv []
            gatewayInterfacePostUp gatewayInterfacePostDown) [];
     node_WGPublicIP := Some (IP_String WGPublicIP);
     node_WGPublicPort := Some WGPublicPort;
     node_ConnectionEncryptionKey := None;
     node_GatewayPublicIP := gatewayPublicIP;
     node_GatewayPublicPort := gatewayPublicPort;
     node_GatewayCertBundle := Some bundle; node_ClientCertBundle := None;
     node_DockerSubnet := None; node_Labels := [] |}.

Definition peer_node (role : NodeRole) (nodeID priv pub : string) (wgIP : IP)
    (gw : Node) (bundle : FullClientBundle) (subnet : option IPNetMarshable) : Node :=
  {| node_ID := nodeID; node_Role := role; node_IsCurrentNode := false;
     node_WGPrivateKey := priv; node_WGPublicKey := pub;
     node_WGConfig :=
       MkWGConfig
         (MkWGConfigInterface (MkIPNet wgIP (CIDRMask32 24)) None priv [] "" "")
         [MkWGConfigPeer (node_WGPublicKey gw) None [] None];
     node_WGPublicIP := None; node_WGPublicPort := None;
     node_ConnectionEncryptionKey := None;
     node_GatewayPublicIP := node_GatewayPublicIP gw;
     node_GatewayPublicPort := node_GatewayPublicPort gw;
     node_GatewayCertBundle := None; node_ClientCertBundle := Some bundle;
     node_DockerSubnet := subnet; node_Labels := [] |}.

Definition isNone {A} (o : option A) : bool := match o with None => true | Some _ => false end.

Section repository.
  Context `{G : Gorm string Node} {X : X509}.

(** [GetByID], [GetCurrentNode] and [GetGatewayNode] *)
Definition GetByID (id : string) (db : Table) : Out Node := First (has_id id) db.
Definition GetCurrentNode (db : Table) : Out Node := First node_IsCurrentNode db.
Definition GetGatewayNode (db : Table) : Out (option Node) :=
  match First (has_role NodeRoleGateway) db with
  | Ret n => Ret (Some n)
  | Throw e => if bool_decide (error_text e = "record not found") then Ret None else Throw e
  | Panic p => Panic p
  | Exited p => Exited p
  end.

(** [GetNodesByRole] and [CountNodesByRole] *)
Definition GetNodesByRole (role : NodeRole) (db : Table) : Out (list Node) :=
  Find (has_role role) db.
Definition CountNodesByRole (role : NodeRole) (db : Table) : Out Z := Count (has_role role) db.

(** [GetServerByWGPrivateIP] *)
Definition GetServerByWGPrivateIP (ip : string) (db : Table) : Out Node :=
  match ParseIPNetMarshable (TrimSpace ip) false with
  | Ret ipnet =>
      let ipStr := IPToString (net_IP ipnet) in
      nodes ← GetNodesByRole NodeRoleServer db;
      match List.find (uses_wg_ip ipStr) nodes with
      | Some n => Ret n
      | None => Throw ErrRecordNotFound
      end
  | Throw e => Throw (Wrapped ("invalid IP address: " +:+ error_text e) e)
  | Panic p => Panic p
  | Exited p => Exited p
  end.

(** [IsCurrentNodeGateway]: an error reads as "no". *)
Definition IsCurrentNodeGateway (db : Table) : Out bool :=
  match First node_IsCurrentNode db with
  | Throw _ => Ret false
  | o => n ← o; mret (has_role NodeRoleGateway n)
  end.

(** [IsDockerSubnetAvailable] and [IsWGPrivateIPAvailable]: an error reads as "no". *)
Definition IsDockerSubnetAvailable (dockerSubnet : IPNetMarshable) (db : Table) : Out bool :=
  match Find server_or_gateway db with
  | Throw _ => Ret false
  | o => nodes ← o; mret (negb (existsb (uses_subnet (IPNet_String dockerSubnet)) nodes))
  end.
Definition IsWGPrivateIPAvailable (WGPrivateIP : IPMarshable) (db : Table) : Out bool :=
  match Find any_node db with
  | Throw _ => Ret false
  | o => nodes ← o; mret (negb (existsb (uses_wg_ip (IP_String WGPrivateIP)) nodes))
  end.

(** [TotalAndAvailableDockerSubnets] and [TotalAvailableWireguardClients] *)
Definition TotalAndAvailableDockerSubnets (db : Table) : Out (Z * Z) :=
  nodes ← Find server_or_gateway db;
  let n := Z.of_nat (length nodes) in
  mret (n, (dockerSubnetEnd - dockerSubnetStart + 1) - n).
Definition TotalAvailableWireguardClients (db : Table) : Out (Z * Z) :=
  count ← Count any_node db;
  mret (count, (wgPrivateIPEnd - wgPrivateIPStart + 1) - count).

(** [GetNextAssignableDockerSubnet] and [GetNextAssignableWGPrivateIP] *)
Definition GetNextAssignableDockerSubnet (db : Table) : Out IPNetMarshable :=
  nodes ← Find server_or_gateway db;
  first_free_subnet nodes (range dockerSubnetStart dockerSubnetEnd).
Definition GetNextAssignableWGPrivateIP (db : Table) : Out IPMarshable :=
  nodes ← Find any_node db;
  first_free_wg_ip nodes (range wgPrivateIPStart wgPrivateIPEnd).

(** [updateNodes]: only the transaction's own outcome is an error; the queries and
    the saves inside are not checked. *)
Definition updateNodes : M Table unit :=
  Transaction (λ _,
    gatewayNode ← query (λ tx, or_zero zero_Node (First (has_role NodeRoleGateway) tx));
    if bool_decide (node_ID gatewayNode = "") then throw ErrGatewayNodeNotFound
    else
      match node_WGPublicIP gatewayNode, node_WGPublicPort gatewayNode with
      | Some ip, Some port =>
          let gatewayEndpoint := MkUDPAddr (ParseIP ip) port in
          oldNodes ← query (λ tx, or_zero [] (Find any_node tx));
          foreach (λ node,
            node' ← lift (refresh_node gatewayNode gatewayEndpoint oldNodes node);
            ignoring (Save node')) oldNodes
      | _, _ => throw ErrGatewayNodePublicIPPortNotFound
      end).

(** [r.db.First(..).RowsAffected > 0] *)
Definition exists_row (p : Node → bool) (db : Table) : Out bool :=
  match First p db with
  | Throw _ => Ret false
  | o => _ ← o; mret true
  end.

(** [CreateGateway] *)
Definition CreateGateway (env : CreateEnv) (WGPublicIP : IPMarshable) (WGPublicPort : Z)
    (gatewayPublicIP : string) (gatewayPublicPort : Z) : M Table Node :=
  present ← query (exists_row (has_role NodeRoleGateway));
  if present : bool then throw ErrGatewayNodeAlreadyExists
  else
    wgPrivateIP ← query GetNextAssignableWGPrivateIP;
    '(priv, pub) ← lift (GenerateKeyPair (env_run env));
    let nodeID := env_uuid env in
    bundle ← lift (Generate (env_seed env) (env_clock env)
                     (MkOptions nodeID CertExpiry [] [gatewayPublicIP]) CertExpiry);
    node ← Transaction (λ _,
      _ ← query (λ tx, or_zero [] (Find client_or_server tx));
      Create (gateway_node nodeID priv pub wgPrivateIP WGPublicIP WGPublicPort
                gatewayPublicIP gatewayPublicPort bundle));
    _ ← updateNodes;
    query (GetByID (node_ID node)).

(** [gw.GatewayCertBundle.AddClient(..)], [tx.Save(&gw)] and
    [GetClientBundlePublic]: the steps [CreateServer] and [CreateClient] share. *)
Definition issue_client_bundle (env : CreateEnv) (gw : Node) : M Table FullClientBundle :=
  match node_GatewayCertBundle gw with
  | None => lift (Panic "nil pointer dereference: GatewayCertBundle")
  | Some b =>
      let nodeID := env_uuid env in
      b' ← lift (AddClient (env_seed env) (env_clock env 0%nat)
                   (MkOptions nodeID CertExpiry [] []) b);
      _ ← ignoring (Save (set_GatewayCertBundle (Some b') gw));
      lift (GetClientBundlePublic nodeID b')
  end.

(** The docker subnet of a new server: the one asked for, or the next one. *)
Definition choose_subnet (forceDockerSubnetStr : option string) (db : Table)
    : Out IPNetMarshable :=
  match forceDockerSubnetStr with
  | Some s =>
      dockerSubnet ← ParseIPNetMarshable s true;
      free ← IsDockerSubnetAvailable dockerSubnet db;
      if free : bool then Ret dockerSubnet
      else Throw (Errorf "docker subnet already in use")
  | None => GetNextAssignableDockerSubnet db
  end.

(** The transaction of [CreateServer]: the queries on [r.db] inside it see [db]. *)
Definition server_transaction (env : CreateEnv) (forceDockerSubnetStr : option string)
    (priv pub : string) : M Table Node :=
  Transaction (λ db,
    gw ← query (λ tx, or_zero zero_Node (First (has_role NodeRoleGateway) tx));
    if bool_decide (node_ID gw = "") then throw (Errorf "gateway node not found")
    else
      clientCertBundle ← issue_client_bundle env gw;
      if isNone (node_WGPublicIP gw) || isNone (node_WGPublicPort gw)
      then throw (Errorf "gateway node public ip or port not found")
      else
        wgPrivateIP ← lift (GetNextAssignableWGPrivateIP db);
        dockerSubnet ← lift (choose_subnet forceDockerSubnetStr db);
        Create (peer_node NodeRoleServer (env_uuid env) priv pub wgPrivateIP gw
                  clientCertBundle (Some dockerSubnet))).

(** [CreateServer] *)
Definition CreateServer (env : CreateEnv) (forceDockerSubnetStr : option string)
    : M Table Node :=
  '(priv, pub) ← lift (GenerateKeyPair (env_run env));
  node ← server_transaction env forceDockerSubnetStr priv pub;
  _ ← updateNodes;
  query (GetByID (node_ID node)).

(** The transaction of [CreateClient] *)
Definition client_transaction (env : CreateEnv) (priv pub : string) : M Table Node :=
  Transaction (λ db,
    _ ← query (λ tx, or_zero [] (Find any_node tx));
    wgPrivateIP ← lift (GetNextAssignableWGPrivateIP db);
    gw ← query (λ tx, or_zero zero_Node (
                  l ← Find (has_role NodeRoleGateway) tx; mret (default zero_Node (head l))));
    if bool_decide (node_ID gw = "") then throw (Errorf "gateway node not found")
    else
      clientCertBundle ← issue_client_bundle env gw;
      Create (peer_node NodeRoleClient (env_uuid env) priv pub wgPrivateIP gw
                clientCertBundle None)).

(** [CreateClient] *)
Definition CreateClient (env : CreateEnv) : M Table Node :=
  '(priv, pub) ← lift (GenerateKeyPair (env_run env));
  node ← client_transaction env priv pub;
  _ ← updateNodes;
  query (GetByID (node_ID node)).

(** [EnsureGatewayNode] *)
Definition EnsureGatewayNode (env : CreateEnv) (WGPublicIP : IPMarshable) (WGPublicPort : Z)
    (gatewayPublicIP : string) (gatewayPublicPort : Z) : M Table Node :=
  gatewayNode ← query GetGatewayNode;
  match gatewayNode with
  | Some n => mret n
  | None => CreateGateway env WGPublicIP WGPublicPort gatewayPublicIP gatewayPublicPort
  end.

(** [SaveNode], [DeleteServer] and [DeleteAll] *)
Definition SaveNode (node : Node) : M Table unit := _ ← Save node; mret tt.
Definition DeleteServer (nodeID : string) : M Table unit :=
  _ ← Delete (λ n, has_id nodeID n && has_role NodeRoleServer n); mret tt.
Definition DeleteAll : M Table unit := _ ← Delete any_node; mret tt.

(** [updateNodeLabels]: the labels are stored as JSON and read back the same. *)
Definition updateNodeLabels (nodeID : string) (labels : list string) : M Table unit :=
  affected ← Update (has_id nodeID) (set_Labels labels);
  if affected =? 0 then throw ErrRecordNotFound else mret tt.

(** [assignLabelToNode] and [removeLabelFromNode] *)
Definition assignLabelToNode (nodeID label : string) : M Table unit :=
  Transaction (λ _,
    node ← query (First (has_id nodeID));
    if bool_decide (label ∈ node_Labels node) then mret tt
    else updateNodeLabels nodeID (node_Labels node ++ [label])).
Definition removeLabelFromNode (nodeID label : string) : M Table unit :=
  Transaction (λ _,
    node ← query (First (has_id nodeID));
    if bool_decide (label ∈ node_Labels node)
    then updateNodeLabels nodeID
           (List.filter (λ l, negb (bool_decide (l = label))) (node_Labels node))
    else mret tt).

Definition AddLabelToNode (nodeID label : string) : M Table unit :=
  assignLabelToNode nodeID label.
Definition RemoveLabelFromNode (nodeID label : string) : M Table unit :=
  removeLabelFromNode nodeID label.
Definition PublishDockerSocket (nodeID : string) : M Table unit :=
  assignLabelToNode nodeID DockerSocketPublishedLabel.
Definition UnpublishDockerSocket (nodeID : string) : M Table unit :=
  removeLabelFromNode nodeID DockerSocketPublishedLabel.
Definition UpdateLabels (nodeID : string) (labels : list string) : M Table unit :=
  Transaction (λ _, updateNodeLabels nodeID labels).
End repository.

(** ** The allocators *)

(** The [n]-th WireGuard address and the [n]-th docker subnet. *)
Definition wg_ip (n : Z) : IP := IPv4 10 0 0 n.
Definition docker_subnet (n : Z) : IPNet := MkIPNet (IPv4 172 n 0 0) (CIDRMask32 16).

Definition wg_ip_used (nodes : list Node) (n : Z) : bool :=
  existsb (uses_wg_ip (IPToString (wg_ip n))) nodes.
Definition subnet_used (nodes : list Node) (n : Z) : bool :=
  existsb (uses_subnet (IPNet_String (docker_subnet n))) nodes.

(** The least number of [lo..hi] that is not [used], as an outcome. *)
Definition is_least_free {A} (used : Z → bool) (lo hi : Z) (val : Z → A) (full : error)
    (r : Out A) : Prop :=
  (∃ n, lo ≤ n ≤ hi ∧ used n = false ∧ (∀ m, lo ≤ m < n → used m = true) ∧ r = Ret (val n)) ∨
  ((∀ m, lo ≤ m ≤ hi → used m = true) ∧ r = Throw full).

Lemma find_range (p : Z → bool) lo hi :
  match List.find p (range lo hi) with
  | Some n => lo ≤ n ≤ hi ∧ p n = true ∧ ∀ m, lo ≤ m < n → p m = false
  | None => ∀ m, lo ≤ m ≤ hi → p m = false
  end.
Proof.
  unfold range. remember (Z.to_nat (hi - lo + 1)) as k eqn:Hk. revert lo Hk.
  induction k as [|k IH]; intros lo Hk.
  - rewrite seqZ_nil by lia. cbn. lia.
  - rewrite seqZ_cons by lia. cbn [List.find].
    destruct (p lo) eqn:Hp; [repeat split; (done || lia)|].
    specialize (IH (Z.succ lo)).
    replace (Z.pred (hi - lo + 1)) with (hi - Z.succ lo + 1) by lia.
    destruct List.find as [n|].
    + destruct IH as (?&?&Hm); [lia|]. split; [lia|]. split; [done|].
      intros m ?. destruct (decide (m = lo)) as [->|]; [done|]. apply Hm. lia.
    + intros m ?. destruct (decide (m = lo)) as [->|]; [done|]. apply IH; lia.
Qed.

Lemma least_free_find {A} used lo hi (val : Z → A) full :
  is_least_free used lo hi val full
    match List.find (λ n, negb (used n)) (range lo hi) with
    | Some n => Ret (val n)
    | None => Throw full
    end.
Proof.
  pose proof (find_range (λ n, negb (used n)) lo hi) as H. destruct List.find as [n|].
  - left. destruct H as (?&?%negb_true_iff&Hm). exists n. repeat split; try (done || lia).
    intros m ?. by apply negb_false_iff, Hm.
  - right. split; [|done]. intros m ?. by apply negb_false_iff, H.
Qed.

Lemma first_free_wg_ip_find nodes nums :
  Forall byte_val nums →
  first_free_wg_ip nodes nums =
    match List.find (λ n, negb (wg_ip_used nodes n)) nums with
    | Some n => Ret (wg_ip n)
    | None => Throw ErrNoAvailableWGPrivateIPs
    end.
Proof.
  induction 1 as [|n nums Hn _ IH]; [done|]. cbn [first_free_wg_ip List.find].
  change ("10.0.0." +:+ Itoa n) with (dotted 10 0 0 n).
  rewrite ParseIP_dotted by (done || unfold byte_val; lia).
  change (wg_ip_used nodes n) with (existsb (uses_wg_ip (IPToString (IPv4 10 0 0 n))) nodes).
  rewrite bool_decide_eq_false_2 by done. by destruct existsb.
Qed.

Lemma first_free_subnet_find nodes nums :
  Forall byte_val nums →
  first_free_subnet nodes nums =
    match List.find (λ n, negb (subnet_used nodes n)) nums with
    | Some n => Ret (docker_subnet n)
    | None => Throw ErrNoAvailableDockerSubnets
    end.
Proof.
  induction 1 as [|n nums Hn _ IH]; [done|]. cbn [first_free_subnet List.find].
  change ("172." +:+ Itoa n +:+ ".0.0") with (dotted 172 n 0 0).
  rewrite ParseIP_dotted by (done || unfold byte_val; lia).
  change (subnet_used nodes n)
    with (existsb (uses_subnet (IPNet_String (MkIPNet (IPv4 172 n 0 0) (CIDRMask32 16)))) nodes).
  rewrite bool_decide_eq_false_2 by done. by destruct existsb.
Qed.

Lemma range_bytes lo hi : 0 ≤ lo → hi < 256 → Forall byte_val (range lo hi).
Proof.
  intros ??. apply Forall_forall. intros n Hn. unfold range in Hn. apply elem_of_seqZ in Hn.
  unfold byte_val. lia.
Qed.

Lemma first_free_wg_ip_least nodes :
  is_least_free (wg_ip_used nodes) wgPrivateIPStart wgPrivateIPEnd wg_ip
    ErrNoAvailableWGPrivateIPs
    (first_free_wg_ip nodes (range wgPrivateIPStart wgPrivateIPEnd)).
Proof.
  rewrite first_free_wg_ip_find by by apply range_bytes. apply least_free_find.
Qed.

Lemma first_free_subnet_least nodes :
  is_least_free (subnet_used nodes) dockerSubnetStart dockerSubnetEnd docker_subnet
    ErrNoAvailableDockerSubnets
    (first_free_subnet nodes (range dockerSubnetStart dockerSubnetEnd)).
Proof.
  rewrite first_free_subnet_find by by apply range_bytes. apply least_free_find.
Qed.

(** The names of the addresses and of the subnets are different. *)
Lemma wg_ip_String_inj m n :
  byte_val m → byte_val n → IPToString (wg_ip m) = IPToString (wg_ip n) → m = n.
Proof. intros ?? E. apply dotted_inj in E; (tauto || done || unfold byte_val; lia). Qed.

Lemma docker_subnet_v4 n : byte_val n → v4_net (docker_subnet n).
Proof.
  intros Hn. split; [|by exists 16]. exists 172, n, 0, 0. unfold byte_val in *. repeat split; lia.
Qed.

Lemma docker_subnet_String_inj m n :
  byte_val m → byte_val n →
  IPNet_String (docker_subnet m) = IPNet_String (docker_subnet n) → m = n.
Proof.
  intros Hm Hn E. apply (f_equal (λ s, ParseIPNetMarshable s true)) in E.
  rewrite !ParseIPNetMarshable_String in E by by apply docker_subnet_v4.
  unfold docker_subnet, IPv4 in E. by injection E.
Qed.

(** A range in which every number is taken by a different one of [l] is no longer
    than [l]. *)
Lemma pigeonhole {A B} `{EqDecision B} (f : Z → B) (g : A → B) (l : list A) lo hi :
  (∀ m n, lo ≤ m ≤ hi → lo ≤ n ≤ hi → f m = f n → m = n) →
  (∀ m, lo ≤ m ≤ hi → ∃ x, x ∈ l ∧ g x = f m) →
  hi - lo + 1 ≤ Z.of_nat (length l).
Proof.
  intros Hinj Hall. destruct (decide (hi - lo + 1 < 0)) as [|Hlen]; [lia|].
  assert (NoDup (map f (range lo hi))) as Hnd.
  { apply NoDup_fmap_2_strong; [|apply NoDup_seqZ].
    intros m n Hm Hn. unfold range in *. apply elem_of_seqZ in Hm, Hn. apply Hinj; lia. }
  apply NoDup_submseteq with (k := map g l) in Hnd.
  - apply submseteq_length in Hnd. unfold range in Hnd.
    rewrite !length_map, length_seqZ in Hnd. lia.
  - intros y Hy. apply list_elem_of_fmap in Hy as (m & -> & Hm). unfold range in Hm.
    apply elem_of_seqZ in Hm. destruct (Hall m) as (x & Hx & <-); [lia|].
    apply list_elem_of_fmap. eauto.
Qed.
