(* ===== verification/NodesNetwork.v ===== *)
(** * The network the node repository keeps

    What holds of the stored nodes however the repository's operations are called
    and however the database fails: one gateway, different addresses, different
    docker subnets ([network_ok]).  Reachability is by the step relation [step],
    one constructor for each operation that changes the table. *)
From S2P Require Import Prelude GoStrings GoNet Mtls NodeTypes Gorm.
From S2P Require Import Terminal NodesRepo.

(** The part of a node that refreshing the configurations does not touch. *)
Record NodeCore : Type := MkNodeCore {
  core_role : NodeRole;
  core_ip : IP;
  core_subnet : option IPNetMarshable;
  core_public : option string * option Z;
}.
Definition core (n : Node) : NodeCore :=
  MkNodeCore (node_Role n) (node_wg_ip n) (node_DockerSubnet n)
    (node_WGPublicIP n, node_WGPublicPort n).

Definition is_subnet (d : IPNet) : Prop :=
  net_IP d ≠ [] ∧ ∃ ones, 0 ≤ ones ≤ 32 ∧ net_Mask d = CIDRMask32 ones.

(** What a node of each role carries. *)
Definition core_shape (a : NodeCore) : Prop :=
  (∃ n, wgPrivateIPStart ≤ n ≤ wgPrivateIPEnd ∧ core_ip a = wg_ip n) ∧
  match core_role a with
  | NodeRoleGateway =>
      core_subnet a = None ∧ is_Some (core_public a).1 ∧ is_Some (core_public a).2
  | NodeRoleServer => ∃ d, core_subnet a = Some d ∧ is_subnet d
  | NodeRoleClient => core_subnet a = None
  | _ => False
  end.

(** Two different nodes of one network. *)
Definition core_apart (a b : NodeCore) : Prop :=
  core_ip a ≠ core_ip b ∧
  ¬ (core_role a = NodeRoleGateway ∧ core_role b = NodeRoleGateway) ∧
  ∀ d e, core_subnet a = Some d → core_subnet b = Some e → IPNet_String d ≠ IPNet_String e.

Record network_ok (c : gmap string NodeCore) : Prop := {
  net_named : c !! "" = None;
  net_shape : ∀ k a, c !! k = Some a → core_shape a;
  net_apart : ∀ i j a b, c !! i = Some a → c !! j = Some b → i ≠ j → core_apart a b;
}.

Lemma core_apart_sym a b : core_apart a b → core_apart b a.
Proof.
  intros (Hip & Hgw & Hs). split; [congruence|]. split; [tauto|].
  intros d e Hd He E. by apply (Hs e d).
Qed.

Lemma network_ok_empty : network_ok ∅.
Proof. split; [done|..]; intros *; rewrite lookup_empty; done. Qed.

Lemma network_ok_insert c k a :
  network_ok c → k ≠ "" → core_shape a →
  (∀ j b, c !! j = Some b → core_apart a b) → network_ok (<[k:=a]> c).
Proof.
  intros [Hn Hs Ha] Hk Hsa Hap. split.
  - by rewrite lookup_insert_ne.
  - intros j b. rewrite lookup_insert_Some. intros [[_ <-]|[_ ?]]; eauto.
  - intros i j x y. rewrite !lookup_insert_Some.
    intros [[<- <-]|[? Hx]] [[<- <-]|[? Hy]] Hij; eauto using core_apart_sym. done.
Qed.

Lemma network_ok_subseteq c c' : network_ok c → c' ⊆ c → network_ok c'.
Proof.
  intros [Hn Hs Ha] Hsub. split.
  - eapply lookup_weaken_None; eauto.
  - eauto using lookup_weaken.
  - eauto using lookup_weaken.
Qed.

Section network.
  Context {G : Gorm string Node} {L : GormLaws string Node} {X : X509}.

Definition cores (t : Table) : gmap string NodeCore := core <$> rows t.
Definition ok (t : Table) : Prop := network_ok (cores t).

Lemma cores_lookup t k n : rows t !! k = Some n → cores t !! k = Some (core n).
Proof. intros Hk. unfold cores. by rewrite lookup_fmap, Hk. Qed.

Lemma cores_lookup_inv t k a :
  cores t !! k = Some a → ∃ n, rows t !! k = Some n ∧ a = core n ∧ node_ID n = k.
Proof.
  unfold cores. rewrite lookup_fmap. intros (n & Hn & ->)%fmap_Some.
  exists n. split; [done|]. split; [done|]. by eapply rows_pk in Hn.
Qed.

(** A save that keeps the core of a stored node keeps the network. *)
Lemma save_cores n c :
  c !! node_ID n = Some (core n) → node_ID n ≠ "" →
  triple (λ t, cores t = c) (Save n) (λ _ t, cores t = c) (λ t, cores t = c).
Proof.
  intros Hc Hid. apply triple_save; [by apply bool_decide_eq_false_2| |done].
  intros t t' Ht Hr. unfold cores in *. rewrite Hr, fmap_insert, Ht. by apply insert_id.
Qed.

Lemma refresh_core gw ep l n n' : refresh_node gw ep l n = Ret n' → core n' = core n ∧ node_ID n' = node_ID n.
Proof.
  unfold refresh_node. destruct (node_Role n); cbn [mret]; try by intros [= <-].
  intros (ps & _ & H)%bind_Ret_inv. by injection H as <-.
Qed.

Lemma first_network p t n :
  ok t → or_zero zero_Node (First p t) = Ret n → node_ID n ≠ "" →
  rows t !! node_ID n = Some n ∧ p n = true.
Proof.
  intros Hok Hf Hid. destruct (First p t) eqn:E; cbn in Hf; try done.
  - injection Hf as ->. by apply first_row in E.
  - by injection Hf as <-.
Qed.

Lemma find_first_network p t n :
  ok t → or_zero zero_Node (l ← Find p t; mret (default zero_Node (head l))) = Ret n →
  node_ID n ≠ "" → rows t !! node_ID n = Some n.
Proof.
  intros Hok Hf Hid. destruct (Find p t) as [l|e| |] eqn:E; cbn in Hf; try done.
  - injection Hf as <-. destruct l as [|n l]; [done|]. cbn in *.
    apply (find_elem _ _ _ n E). left.
  - by injection Hf as <-.
Qed.

(** [updateNodes] never changes who is in the network. *)
Lemma updateNodes_cores c :
  network_ok c → triple (λ t, cores t = c) updateNodes (λ _ t, cores t = c) (λ t, cores t = c).
Proof.
  intros Hok. apply triple_transaction. intros db Hdb.
  eapply triple_bind; [apply (triple_query _ _ (λ _ t, t = db)); [by intros|done]|].
  intros gw. cbn beta. case_bool_decide; [by intros t _|].
  destruct (node_WGPublicIP gw) as [ip|]; [|by intros t _].
  destruct (node_WGPublicPort gw) as [port|]; [|by intros t _].
  eapply triple_bind.
  { apply (triple_query _ _ (λ l t, t = db ∧ or_zero [] (Find any_node db) = Ret l)); [|done].
    by intros l t ->. }
  intros l. cbn beta. eapply triple_conseq with (P' := λ t, cores t = c ∧ or_zero [] (Find any_node db) = Ret l)
    (Q' := λ _ t, cores t = c ∧ or_zero [] (Find any_node db) = Ret l) (E' := λ _, True);
    [|intros t [-> ?]; by split|by intros [] t []|done].
  apply triple_foreach. intros n Hn.
  eapply triple_bind.
  { apply (triple_lift _ _ (λ n' t, (cores t = c ∧ or_zero [] (Find any_node db) = Ret l)
      ∧ core n' = core n ∧ node_ID n' = node_ID n)); [|done].
    intros n' t Hr Ht. split; [done|]. by eapply refresh_core. }
  intros n' t ((Ht & Hl) & Hcore & Hid). revert t Ht.
  apply triple_ignoring; [|done].
  destruct (Find any_node db) as [l0|e| |] eqn:E; cbn in Hl; try done;
    injection Hl as <-; [|by apply elem_of_nil in Hn].
  apply (find_elem _ _ _ n) in E as [E _]. specialize (E Hn) as [E _].
  apply cores_lookup in E. rewrite Hdb in E. change (pk n) with (node_ID n) in E.
  eapply triple_conseq; [apply (save_cores n' c)|..]; try done.
  - by rewrite Hcore, Hid.
  - rewrite Hid. intros E0. rewrite E0 in E. by rewrite (net_named _ Hok) in E.
Qed.

(** The address and the subnet a new node gets are nobody's. *)
Lemma next_wg_ip_free db ip :
  GetNextAssignableWGPrivateIP db = Ret ip →
  (∃ n, wgPrivateIPStart ≤ n ≤ wgPrivateIPEnd ∧ ip = wg_ip n) ∧
  ∀ k b, cores db !! k = Some b → ip ≠ core_ip b.
Proof.
  unfold GetNextAssignableWGPrivateIP. intros (l & Hl & H)%bind_Ret_inv.
  destruct (first_free_wg_ip_least l) as [(n & Hn & Hfree & _ & E)|[_ E]];
    rewrite E in H; [|done]. injection H as <-.
  split; [eauto|]. intros k b (x & Hx & -> & Hk)%cores_lookup_inv Heq.
  unfold wg_ip_used in Hfree. apply not_true_iff_false in Hfree. apply Hfree.
  apply existsb_exists. exists x. split.
  - apply list_elem_of_In, (find_elem _ _ _ _ Hl). split; [|done].
    change (pk x) with (node_ID x). by rewrite Hk.
  - apply bool_decide_eq_true_2. cbn in Heq. by rewrite <- Heq.
Qed.

Lemma find_subnets_free db l s :
  ok db → Find server_or_gateway db = Ret l → existsb (uses_subnet s) l = false →
  ∀ k b e, cores db !! k = Some b → core_subnet b = Some e → s ≠ IPNet_String e.
Proof.
  intros Hok Hl Hfree k b e Hb He Heq.
  pose proof (net_shape _ Hok _ _ Hb) as [_ Hshape].
  apply cores_lookup_inv in Hb as (x & Hx & -> & Hk). cbn in He, Hshape.
  apply not_true_iff_false in Hfree. apply Hfree. apply existsb_exists. exists x. split.
  - apply list_elem_of_In, (find_elem _ _ _ _ Hl). change (pk x) with (node_ID x).
    rewrite Hk. split; [done|]. unfold server_or_gateway, has_role.
    destruct (node_Role x); try done; [congruence].
  - unfold uses_subnet. rewrite He. by apply bool_decide_eq_true_2.
Qed.

Lemma choose_subnet_free force db d :
  ok db → choose_subnet force db = Ret d →
  is_subnet d ∧
  ∀ k b e, cores db !! k = Some b → core_subnet b = Some e → IPNet_String d ≠ IPNet_String e.
Proof.
  intros Hok. unfold choose_subnet. destruct force as [s|].
  - intros (d' & Hd & H)%bind_Ret_inv. apply bind_Ret_inv in H as (free & Hfree & H).
    destruct free; [|done]. injection H as ->.
    split; [by eapply ParseIPNetMarshable_inv|].
    unfold IsDockerSubnetAvailable in Hfree. destruct (Find server_or_gateway db) eqn:E; try done.
    cbn in Hfree. injection Hfree as Hfree%negb_true_iff. by apply find_subnets_free with a.
  - unfold GetNextAssignableDockerSubnet. intros (l & Hl & H)%bind_Ret_inv.
    destruct (first_free_subnet_least l) as [(n & Hn & Hfree & _ & E)|[_ E]];
      rewrite E in H; [|done]. injection H as <-.
    split; [|by apply find_subnets_free with l].
    split; [done|]. exists 16. split; [lia|done].
Qed.

(** What [issue_client_bundle] changes is a bundle. *)
Lemma issue_client_bundle_cores env gw db :
  rows db !! node_ID gw = Some gw → node_ID gw ≠ "" →
  triple (λ t, t = db) (issue_client_bundle env gw) (λ _ t, cores t = cores db) (λ _, True).
Proof.
  intros Hrow Hid. unfold issue_client_bundle. destruct (node_GatewayCertBundle gw) as [b|]; [|done].
  eapply triple_bind with (Q := λ _ t, cores t = cores db);
    [apply triple_lift; [by intros a t _ ->|done]|].
  intros b'. eapply triple_bind with (Q := λ _ t, cores t = cores db);
    [|intros _; by apply triple_lift].
  apply triple_ignoring; [|done]. apply save_cores; [|done]. exact (cores_lookup _ _ _ Hrow).
Qed.

Lemma updateNodes_ok : triple ok updateNodes (λ _, ok) ok.
Proof.
  intros t Ht. pose proof (updateNodes_cores _ Ht t eq_refl) as H. unfold ok in *.
  destruct (updateNodes t) as [[] t']; by rewrite H.
Qed.

(** A node [n] joins the network [c] under a new identifier. *)
Record joins (c : gmap string NodeCore) (id : string) (role : NodeRole) (n : Node) (t : Table)
    : Prop := {
  joins_id : node_ID n = id;
  joins_role : node_Role n = role;
  joins_new : c !! id = None;
  joins_cores : cores t = <[id := core n]> c;
  joins_ok : network_ok (cores t);
}.

Lemma create_ok_triple x c :
  network_ok c → node_ID x ≠ "" → core_shape (core x) →
  (∀ j b, c !! j = Some b → core_apart (core x) b) →
  triple (λ t, cores t = c) (Create x) (joins c (node_ID x) (node_Role x)) (λ _, True).
Proof.
  intros Hok Hid Hs Ha. apply triple_create; [|done]. intros t t' Ht Hnone Hr.
  change (pk x) with (node_ID x) in *. assert (cores t' = <[node_ID x := core (on_create x)]> c) as Hc.
  { unfold cores in *. by rewrite Hr, fmap_insert, Ht. }
  split; [done|done| |done|].
  - rewrite <- Ht. unfold cores. by rewrite lookup_fmap, Hnone.
  - rewrite Hc. change (core (on_create x)) with (core x). by apply network_ok_insert.
Qed.

Lemma server_transaction_joins c env force priv pub :
  network_ok c → env_uuid env ≠ "" →
  triple (λ t, cores t = c) (server_transaction env force priv pub)
    (joins c (env_uuid env) NodeRoleServer) (λ t, cores t = c).
Proof.
  intros Hc Huuid. apply triple_transaction. intros db Hdb. assert (ok db) as Hok by by rewrite <- Hdb in Hc.
  eapply triple_bind.
  { apply (triple_query _ _ (λ gw t, t = db ∧
      or_zero zero_Node (First (has_role NodeRoleGateway) db) = Ret gw)); [|done].
    by intros gw t ->. }
  intros gw. cbn beta. case_bool_decide as Hid; [by intros t _|].
  eapply triple_bind with (Q := λ _ t, cores t = cores db).
  { intros t [-> Hgw]. pose proof (first_network _ _ _ Hok Hgw Hid) as [Hrow _].
    by apply (issue_client_bundle_cores env gw db). }
  intros b. destruct (isNone _ || isNone _); [by intros t _|].
  eapply triple_bind with (Q := λ ip t, cores t = cores db ∧
    GetNextAssignableWGPrivateIP db = Ret ip); [by apply triple_lift|].
  intros ip. eapply triple_bind with (Q := λ d t, (cores t = cores db ∧
    GetNextAssignableWGPrivateIP db = Ret ip) ∧ choose_subnet force db = Ret d);
    [by apply triple_lift|].
  intros d t [[Ht Hip] Hd]. revert t Ht. rewrite <- Hdb.
  apply next_wg_ip_free in Hip as [Hip Hfree]. apply choose_subnet_free in Hd as [Hd Hdfree]; [|done].
  apply create_ok_triple; [done|done| |].
  - split; [done|]. cbn. eauto.
  - intros j a Ha. split; [by eapply Hfree|]. split; [by intros []|].
    intros d' e [= <-] He. by eapply Hdfree.
Qed.

Lemma client_transaction_joins c env priv pub :
  network_ok c → env_uuid env ≠ "" →
  triple (λ t, cores t = c) (client_transaction env priv pub)
    (joins c (env_uuid env) NodeRoleClient) (λ t, cores t = c).
Proof.
  intros Hc Huuid. apply triple_transaction. intros db Hdb. assert (ok db) as Hok by by rewrite <- Hdb in Hc.
  eapply triple_bind with (Q := λ _ t, t = db); [by apply triple_query|]. intros _.
  eapply triple_bind with (Q := λ ip t, t = db ∧ GetNextAssignableWGPrivateIP db = Ret ip);
    [by apply triple_lift|]. intros ip.
  eapply triple_bind.
  { apply (triple_query _ _ (λ gw t, (t = db ∧ GetNextAssignableWGPrivateIP db = Ret ip) ∧
      (node_ID gw ≠ "" → rows db !! node_ID gw = Some gw))); [|done].
    intros gw t [-> Hip] Hgw. split; [done|]. by eapply find_first_network. }
  intros gw. cbn beta. case_bool_decide as Hid; [by intros t _|].
  eapply triple_bind with (Q := λ _ t, cores t = cores db ∧
    GetNextAssignableWGPrivateIP db = Ret ip).
  { intros t [[-> Hip] Hrow].
    pose proof (issue_client_bundle_cores env gw db (Hrow Hid) Hid db eq_refl) as H.
    destruct (issue_client_bundle env gw db) as [[] ?]; done. }
  intros b t [Ht Hip]. revert t Ht. rewrite <- Hdb. apply next_wg_ip_free in Hip as [Hip Hfree].
  apply create_ok_triple; [done|done| |].
  - by split.
  - intros j a Ha. split; [by eapply Hfree|]. split; [by intros []|]. by intros.
Qed.

(** Around the transaction that inserts the node. *)
Lemma around_create (c : string → string → M Table Node) (run : Runner) id role :
  (∀ priv pub cs, network_ok cs →
     triple (λ t, cores t = cs) (c priv pub) (joins cs id role) (λ t, cores t = cs)) →
  triple ok ('(priv, pub) ← lift (GenerateKeyPair run);
             node ← c priv pub; _ ← updateNodes; query (GetByID (node_ID node))) (λ _, ok) ok.
Proof.
  intros Hc. eapply triple_bind with (Q := λ _, ok); [by apply triple_lift|].
  intros [priv pub]. eapply triple_bind with (Q := λ _, ok).
  { intros t Ht. specialize (Hc priv pub _ Ht t eq_refl). unfold ok in *.
    destruct (c priv pub t) as [[n|e|p|p] t']; [by apply Hc|by rewrite Hc..]. }
  intros node. eapply triple_bind with (Q := λ _, ok); [apply updateNodes_ok|].
  intros _. by apply triple_query.
Qed.

Lemma CreateServer_ok env force :
  env_uuid env ≠ "" → triple ok (CreateServer env force) (λ _, ok) ok.
Proof.
  intros Huuid. apply (around_create (server_transaction env force) _ (env_uuid env) NodeRoleServer).
  intros. by apply server_transaction_joins.
Qed.

Lemma CreateClient_ok env : env_uuid env ≠ "" → triple ok (CreateClient env) (λ _, ok) ok.
Proof.
  intros Huuid. apply (around_create (client_transaction env) _ (env_uuid env) NodeRoleClient).
  intros. by apply client_transaction_joins.
Qed.

(** Nobody in the table is a gateway. *)
Definition no_gateway (t : Table) : Prop :=
  ∀ k a, cores t !! k = Some a → core_role a ≠ NodeRoleGateway.

(** [GetGatewayNode] says that there is none only when there is none: a look-up that
    fails for another reason is an error of [GetGatewayNode]. *)
Lemma GetGatewayNode_none t : GetGatewayNode t = Ret None → no_gateway t.
Proof.
  unfold GetGatewayNode. intros Hg k a (n & Hn & -> & _)%cores_lookup_inv.
  destruct (First _ t) as [x|e| |] eqn:E; try done. case_bool_decide as He; [|done].
  apply (first_none _ _ _ E He) in Hn. by apply bool_decide_eq_false_1 in Hn.
Qed.

Lemma CreateGateway_ok env ip port pubip pubport :
  env_uuid env ≠ "" →
  triple (λ t, ok t ∧ no_gateway t) (CreateGateway env ip port pubip pubport) (λ _, ok) ok.
Proof.
  intros Huuid.
  eapply triple_bind with (Q := λ _ t, ok t ∧ no_gateway t); [by apply triple_query; [|intros t []]|].
  intros [|]; [by intros t []|].
  eapply triple_bind with (Q := λ wip t, (ok t ∧ no_gateway t) ∧
    GetNextAssignableWGPrivateIP t = Ret wip); [by apply triple_query; [|intros t []]|].
  intros wip. eapply triple_bind with (Q := λ _ t, (ok t ∧ no_gateway t) ∧
    GetNextAssignableWGPrivateIP t = Ret wip); [by apply triple_lift; [|intros t [[]]]|].
  intros [priv pub]. eapply triple_bind with (Q := λ _ t, (ok t ∧ no_gateway t) ∧
    GetNextAssignableWGPrivateIP t = Ret wip); [by apply triple_lift; [|intros t [[]]]|].
  intros bundle. eapply triple_bind with (Q := λ _, ok).
  { eapply triple_conseq; [apply triple_transaction with (Q := λ _, ok)|..];
      [|by intros t Ht; exact Ht|done|by intros t [[]]].
    intros db [[Hok Hno] Hip]. eapply triple_bind with (Q := λ _ t, t = db); [by apply triple_query|].
    intros _. apply next_wg_ip_free in Hip as [Hip Hfree].
    eapply triple_conseq; [apply (create_ok_triple _ (cores db))|by intros t ->|by intros n t []|done]; try done.
    intros j a Ha. split; [by eapply Hfree|]. split; [intros [_ Hg]; by apply (Hno j a)|done]. }
  intros node. eapply triple_bind with (Q := λ _, ok); [apply updateNodes_ok|].
  intros _. by apply triple_query.
Qed.

Lemma EnsureGatewayNode_ok env ip port pubip pubport :
  env_uuid env ≠ "" → triple ok (EnsureGatewayNode env ip port pubip pubport) (λ _, ok) ok.
Proof.
  intros Huuid. eapply triple_bind with (Q := λ found t, ok t ∧ GetGatewayNode t = Ret found);
    [by apply triple_query|].
  intros [n|]; [by intros t []|].
  eapply triple_conseq; [by apply CreateGateway_ok|..]; try done.
  intros t [Hok Hg]. split; [done|]. by apply GetGatewayNode_none.
Qed.

(** The other operations. *)
Lemma delete_ok_triple p : triple ok (_ ← Delete p; mret tt) (λ _, ok) ok.
Proof.
  eapply triple_bind with (Q := λ _, ok); [|by intros _ t].
  apply triple_delete; [|done]. intros _ t t' Ht Hr. unfold ok, cores in *. rewrite Hr.
  eapply network_ok_subseteq; [done|]. apply map_fmap_mono, map_filter_subseteq.
Qed.

(** Operations that leave everybody's identity alone. *)
Definition same_cores {A} (c : M Table A) : Prop :=
  ∀ cs, triple (λ t, cores t = cs) c (λ _ t, cores t = cs) (λ t, cores t = cs).
Lemma same_cores_ok {A} (c : M Table A) : same_cores c → triple ok c (λ _, ok) ok.
Proof.
  intros Hc t Ht. specialize (Hc _ t eq_refl). unfold ok in *. by destruct (c t) as [[] t']; rewrite Hc.
Qed.

Lemma updateNodeLabels_cores id labels : same_cores (updateNodeLabels id labels).
Proof.
  intros cs. eapply triple_bind with (Q := λ _ t, cores t = cs).
  - apply triple_update; [done| |done]. intros _ t t' Ht Hr. unfold cores in *.
    rewrite Hr, <- map_fmap_compose.
    by erewrite map_fmap_ext; [|intros k n _; cbn; by destruct (has_id id n)].
  - intros n. destruct (n =? 0); by intros t.
Qed.
Lemma label_transaction_cores id (f : Node → M Table unit) :
  (∀ n, same_cores (f n)) →
  same_cores (Transaction (λ _, node ← query (First (has_id id)); f node)).
Proof.
  intros Hf cs. apply triple_transaction. intros db Hdb.
  eapply triple_bind with (Q := λ _ t, cores t = cs); [apply triple_query; [by intros n t -> _|done]|].
  intros n. by eapply triple_conseq; [apply (Hf n cs)|..].
Qed.
Lemma assignLabelToNode_cores id label : same_cores (assignLabelToNode id label).
Proof.
  apply label_transaction_cores. intros n. case_bool_decide; [by intros cs t|].
  apply updateNodeLabels_cores.
Qed.
Lemma removeLabelFromNode_cores id label : same_cores (removeLabelFromNode id label).
Proof.
  apply label_transaction_cores. intros n. case_bool_decide; [|by intros cs t].
  apply updateNodeLabels_cores.
Qed.
Lemma UpdateLabels_cores id labels : same_cores (UpdateLabels id labels).
Proof.
  intros cs. apply triple_transaction. intros db Hdb.
  eapply triple_conseq; [apply updateNodeLabels_cores|by intros t ->|done|done].
Qed.
Lemma assignLabelToNode_ok id label : triple ok (assignLabelToNode id label) (λ _, ok) ok.
Proof. apply same_cores_ok, assignLabelToNode_cores. Qed.
Lemma removeLabelFromNode_ok id label : triple ok (removeLabelFromNode id label) (λ _, ok) ok.
Proof. apply same_cores_ok, removeLabelFromNode_cores. Qed.
Lemma UpdateLabels_ok id labels : triple ok (UpdateLabels id labels) (λ _, ok) ok.
Proof. apply same_cores_ok, UpdateLabels_cores. Qed.

(** Saving a stored node back with another bundle, key or label keeps its core. *)
Lemma SaveNode_ok n :
  node_ID n ≠ "" →
  triple (λ t, ok t ∧ cores t !! node_ID n = Some (core n)) (SaveNode n) (λ _, ok) ok.
Proof.
  intros Hid t [Hok Hn]. pose proof (save_cores n (cores t) Hn Hid t eq_refl) as H.
  unfold SaveNode, mbind, M_bind, ok in *. destruct (Save n t) as [[] t']; cbn; by rewrite H.
Qed.

(** A node that has joined elsewhere is the first of its own table. *)
Lemma SaveNode_first n :
  node_ID n ≠ "" → core_shape (core n) →
  triple (λ t, rows t = ∅) (SaveNode n) (λ _, ok) ok.
Proof.
  intros Hid Hs. assert (∀ t, rows t = ∅ → ok t) as Hempty.
  { intros t Ht. unfold ok, cores. rewrite Ht, fmap_empty. apply network_ok_empty. }
  eapply triple_bind with (Q := λ _, ok); [|by intros _ t].
  apply triple_save; [by apply bool_decide_eq_false_2| |done].
  intros t t' Ht Hr. unfold ok, cores. rewrite Hr, Ht, fmap_insert, fmap_empty.
  apply network_ok_insert; [apply network_ok_empty|done|done|]. intros j b. by rewrite lookup_empty.
Qed.

(** The nodes the code saves on their own: one read from the same table, its role,
    addresses and subnet as they were (the gateway's bundle after a removal, a key), or
    the one a joining machine was given, into its own table, which is empty. *)
Definition saved (n : Node) (t : Table) : Prop :=
  cores t !! node_ID n = Some (core n) ∨ rows t = ∅ ∧ core_shape (core n).

(** One call of the repository, whatever its outcome.  [CreateGateway] and [updateNodes]
    are called by the others only. *)
Inductive step (t t' : Table) : Prop :=
| StepEnsureGateway env ip port pubip pubport o :
    env_uuid env ≠ "" → EnsureGatewayNode env ip port pubip pubport t = (o, t') → step t t'
| StepCreateServer env force o :
    env_uuid env ≠ "" → CreateServer env force t = (o, t') → step t t'
| StepCreateClient env o :
    env_uuid env ≠ "" → CreateClient env t = (o, t') → step t t'
| StepSaveNode n o :
    node_ID n ≠ "" → saved n t → SaveNode n t = (o, t') → step t t'
| StepDeleteServer id o : DeleteServer id t = (o, t') → step t t'
| StepDeleteAll o : DeleteAll t = (o, t') → step t t'
| StepAddLabel id label o : AddLabelToNode id label t = (o, t') → step t t'
| StepRemoveLabel id label o : RemoveLabelFromNode id label t = (o, t') → step t t'
| StepPublishSocket id o : PublishDockerSocket id t = (o, t') → step t t'
| StepUnpublishSocket id o : UnpublishDockerSocket id t = (o, t') → step t t'
| StepUpdateLabels id labels o : UpdateLabels id labels t = (o, t') → step t t'.

Lemma step_ok t t' : ok t → step t t' → ok t'.
Proof.
  intros Hok [].
  - by eapply triple_any; [by eapply EnsureGatewayNode_ok| |].
  - by eapply triple_any; [by eapply CreateServer_ok| |].
  - by eapply triple_any; [by eapply CreateClient_ok| |].
  - destruct H0 as [Hn|[He Hs]].
    + by eapply triple_any; [by eapply SaveNode_ok| |].
    + exact (triple_any _ _ _ _ _ _ (SaveNode_first n H Hs) He H1).
  - by eapply triple_any; [apply delete_ok_triple| |].
  - by eapply triple_any; [apply delete_ok_triple| |].
  - by eapply triple_any; [apply assignLabelToNode_ok| |].
  - by eapply triple_any; [apply removeLabelFromNode_ok| |].
  - by eapply triple_any; [apply assignLabelToNode_ok| |].
  - by eapply triple_any; [apply removeLabelFromNode_ok| |].
  - by eapply triple_any; [apply UpdateLabels_ok| |].
Qed.

(** C1: whatever the state-changing calls of the repository are, in any order, with any
    query, save or transaction failing on the way, the table they lead to from an empty
    one holds a network: at most one gateway (a failing look-up is never taken for its
    absence), no address twice, no docker subnet twice, every server with a subnet, every
    address in 10.0.0.1-254.  [SaveNode] is taken as its callers use it: with a node
    whose role, address and subnet are those of its row, or for the first node of an
    empty table.  [CreateGateway] and [updateNodes] happen inside the other calls. *)
Theorem reachable_network t t' : rows t = ∅ → rtc step t t' → ok t'.
Proof.
  intros Ht Hs. assert (ok t) as Hok.
  { unfold ok, cores. rewrite Ht, fmap_empty. apply network_ok_empty. }
  clear Ht. induction Hs as [|t t1 t2 Hstep _ IH]; [done|]. apply IH. by eapply step_ok.
Qed.
End network.
