(* ===== verification/NodesRefresh.v ===== *)
(** * What [updateNodes] writes

    The configurations a refresh stores, in closed form ([refreshed]), and the proof
    that on a working database [updateNodes] stores exactly those. *)
From S2P Require Import Prelude GoStrings GoNet Mtls NodeTypes Gorm.
From S2P Require Import Terminal NodesRepo NodesNetwork.

(** A single address as a network. *)
Definition host (ip : IP) : IPNet := MkIPNet ip (CIDRMask32 32).

Definition set_network (dns : list IPNet) (peers : list WGConfigPeer) (n : Node) : Node :=
  set_WGConfig (set_Peers peers (set_DNS dns (node_WGConfig n))) n.

(** What the gateway routes to a node besides the node's own address. *)
Definition routed (n : Node) : list IPNet :=
  match node_Role n, node_DockerSubnet n with
  | NodeRoleServer, Some d => MapStringsToIPNetMarshables [IPNet_String d]
  | _, _ => []
  end.

(** The gateway's peer for a client or a server, and their peer for the gateway. *)
Definition peer_of (n : Node) : WGConfigPeer :=
  MkWGConfigPeer (node_WGPublicKey n) None (host (node_wg_ip n) :: routed n) None.
Definition gateway_endpoint (gw : Node) : UDPAddr :=
  MkUDPAddr (ParseIP (default "" (node_WGPublicIP gw))) (default 0 (node_WGPublicPort gw)).
Definition peer_to_gateway (gw : Node) (allowed : list IPNet) : WGConfigPeer :=
  MkWGConfigPeer (node_WGPublicKey gw) (Some (gateway_endpoint gw)) allowed
    (Some persistentKeepalive).

Definition docker_dns : IPNet := host (IPv4 127 0 0 11).
Definition wg_network : IPNet := MkIPNet (IPv4 10 0 0 0) (CIDRMask32 24).
Definition docker_networks : IPNet := MkIPNet (IPv4 172 16 0 0) (CIDRMask32 12).

(** The node [n] of the network [l] with the gateway [gw], refreshed. *)
Definition refreshed (gw : Node) (l : list Node) (n : Node) : Node :=
  match node_Role n with
  | NodeRoleGateway =>
      set_network (docker_dns :: map (host ∘ node_wg_ip) (filterNodes l [NodeRoleServer]))
        (map peer_of (filterNodes l [NodeRoleClient; NodeRoleServer])) n
  | NodeRoleServer =>
      set_network [host (node_wg_ip gw); docker_dns] [peer_to_gateway gw [wg_network]] n
  | NodeRoleClient =>
      set_network [host (node_wg_ip gw)]
        [peer_to_gateway gw [docker_networks; MkIPNet (node_wg_ip gw) (CIDRMask32 24)]] n
  | _ => n
  end.

Lemma wg_ip_v4 n : byte_val n → v4_addr (wg_ip n).
Proof. intros ?. exists 10, 0, 0, n. unfold byte_val in *. repeat split; lia. Qed.

Lemma shape_v4 a : core_shape a → v4_addr (core_ip a).
Proof.
  intros [(n & Hn & ->) _]. apply wg_ip_v4. unfold byte_val, wgPrivateIPStart, wgPrivateIPEnd in *. lia.
Qed.

(** One element of [MapStringsToIPNetMarshables] of the form [a.b.c.d/ones]. *)
Lemma MapStrings_masked ip ones strs :
  v4_addr ip → 0 ≤ ones ≤ 32 →
  MapStringsToIPNetMarshables ((IPToString ip +:+ "/" +:+ Itoa ones) :: strs)
  = MkIPNet ip (CIDRMask32 ones) :: MapStringsToIPNetMarshables strs.
Proof.
  intros Hip Ho. apply MapStrings_cons; [| |by apply ParseIPNetMarshable_masked].
  - rewrite str_app_cons, str_app_nil_l, str_all_app. cbn.
    by rewrite str_all_plain_IPToString, Itoa_plain by (done || lia).
  - rewrite str_app_cons. apply str_app_ne_r.
Qed.

Lemma MapStrings_app a b :
  MapStringsToIPNetMarshables (a ++ b)
  = MapStringsToIPNetMarshables a ++ MapStringsToIPNetMarshables b.
Proof.
  induction a as [|s a IH]; [done|]. cbn. case_bool_decide; [done|].
  destruct (ParseIPNetMarshable _ _); cbn; congruence.
Qed.

Lemma gateway_peer_of n :
  core_shape (core n) → node_Role n ≠ NodeRoleGateway → gateway_peer n = Ret (peer_of n).
Proof.
  intros Hs Hgw. pose proof (shape_v4 _ Hs) as Hip. destruct Hs as [_ Hs]. cbn in Hs, Hip.
  unfold gateway_peer, peer_of, routed. destruct (node_Role n); try done.
  - cbn [mbind Out_bind mret Out_ret]. change "/32" with ("/" +:+ Itoa 32).
    by rewrite MapStrings_masked by done.
  - destruct Hs as (d & -> & _). cbn [mbind Out_bind mret Out_ret subnet_String].
    change "/32" with ("/" +:+ Itoa 32). by rewrite MapStrings_masked by done.
Qed.

Lemma MapStrings_hosts ips :
  Forall v4_addr ips →
  MapStringsToIPNetMarshables (map IPToString ips) = map host ips.
Proof. apply MapStrings_bare. Qed.

Lemma elem_of_filterNodes n l roles :
  n ∈ filterNodes l roles ↔ n ∈ l ∧ node_Role n ∈ roles.
Proof.
  unfold filterNodes. rewrite list_elem_of_In, filter_In, <- list_elem_of_In.
  by rewrite bool_decide_eq_true.
Qed.

(** The loop's body computes [refreshed]. *)
Lemma refresh_node_refreshed gw l n :
  (∀ x, x ∈ l → core_shape (core x)) → n ∈ l → gw ∈ l →
  refresh_node gw (gateway_endpoint gw) l n = Ret (refreshed gw l n).
Proof.
  intros Hs Hn Hgw. pose proof (shape_v4 _ (Hs _ Hgw)) as Hip. cbn in Hip.
  unfold refresh_node, refreshed, set_DNS_and_Peers, set_network.
  destruct (node_Role n) eqn:Hr; try done.
  - rewrite (out_map_Ret _ peer_of).
    + cbn [mbind Out_bind mret Out_ret]. do 4 f_equal.
      change dockerDNS with (IPToString (IPv4 127 0 0 11)).
      rewrite <- map_map, <- (map_cons IPToString), MapStrings_hosts; [cbn [map]; by rewrite map_map|].
      constructor; [by exists 127, 0, 0, 11|].
      apply Forall_forall. intros ip (x & -> & [Hx _]%elem_of_filterNodes)%list_elem_of_fmap.
      by apply (shape_v4 _ (Hs _ Hx)).
    + intros x [Hx Hrx]%elem_of_filterNodes. apply gateway_peer_of; [by apply Hs|].
      intros E. rewrite E in Hrx. by rewrite !elem_of_cons, elem_of_nil in Hrx; destruct Hrx as [|[|]].
  - change [IPToString (node_wg_ip gw)] with (map IPToString [node_wg_ip gw]).
    change dockerAllAllowedSubnets with (IPToString (IPv4 172 16 0 0) +:+ "/" +:+ Itoa 12).
    change "/24" with ("/" +:+ Itoa 24).
    rewrite MapStrings_hosts by by constructor.
    by rewrite !MapStrings_masked by (done || by exists 172, 16, 0, 0).
  - change [IPToString (node_wg_ip gw); dockerDNS]
      with (map IPToString [node_wg_ip gw; IPv4 127 0 0 11]).
    rewrite MapStrings_hosts; [done|]. constructor; [done|]. constructor; [|done].
    by exists 127, 0, 0, 11.
Qed.

Lemma refreshed_core gw l n : core (refreshed gw l n) = core n.
Proof. unfold refreshed. by destruct (node_Role n). Qed.

Lemma refreshed_id gw l n : node_ID (refreshed gw l n) = node_ID n.
Proof. unfold refreshed. by destruct (node_Role n). Qed.

Section refresh.
  Context {G : Gorm string Node} {L : GormLaws string Node}.

(** In a network no configuration is stored twice: saving one never clashes. *)
Lemma ok_no_clash t n :
  ok t → (∀ k b, cores t !! k = Some b → k ≠ node_ID n → core_ip b ≠ node_wg_ip n) →
  no_clash (rows t) n.
Proof.
  intros Hok Hip k y Hy Hk. apply bool_decide_eq_false_2. intros E.
  apply (Hip k (core y)); [by apply cores_lookup|done|]. cbn. unfold node_wg_ip. by rewrite E.
Qed.

Lemma cores_other_ip t k n :
  ok t → cores t !! node_ID n = Some (core n) → k ≠ node_ID n →
  ∀ b, cores t !! k = Some b → core_ip b ≠ node_wg_ip n.
Proof.
  intros Hok Hn Hk b Hb. by destruct (net_apart _ Hok _ _ _ _ Hb Hn Hk) as [? _].
Qed.

Lemma save_known t n :
  ok t → healthy t → cores t !! node_ID n = Some (core n) →
  ∃ m t', Save n t = (Ret m, t') ∧ healthy t' ∧ rows t' = <[node_ID n := n]> (rows t) ∧
          cores t' = cores t.
Proof.
  intros Hok Ht Hn.
  assert (pk_zero (pk n) = false) as Hid.
  { apply bool_decide_eq_false_2. intros E. cbn in E. rewrite E in Hn.
    by rewrite (net_named _ Hok) in Hn. }
  destruct (save_ok n t Ht Hid) as (m & t' & Hs & Ht').
  { apply ok_no_clash; [done|]. intros k b Hb Hk. by eapply cores_other_ip. }
  pose proof (save_rows _ _ _ _ Hs Hid) as [_ Hr].
  exists m, t'. repeat split; try done. unfold cores in *. rewrite Hr, fmap_insert.
  by apply insert_id.
Qed.

(** The loop, on a list of different stored nodes. *)
Lemma refresh_loop (f : Node → Out Node) (g : Node → Node) l t :
  ok t → healthy t → NoDup (node_ID <$> l) →
  (∀ n, n ∈ l → cores t !! node_ID n = Some (core n) ∧ f n = Ret (g n) ∧
                core (g n) = core n ∧ node_ID (g n) = node_ID n) →
  ∃ t', foreach (λ node, node' ← lift (f node); ignoring (Save node')) l t = (Ret tt, t') ∧
        healthy t' ∧ (∀ n, n ∈ l → rows t' !! node_ID n = Some (g n)) ∧
        (∀ k, k ∉ node_ID <$> l → rows t' !! k = rows t !! k).
Proof.
  revert t. induction l as [|n l IH]; intros t Hok Ht Hnd Hl.
  { exists t. repeat split; try done. intros n Hn. by apply elem_of_nil in Hn. }
  cbn [fmap list_fmap] in Hnd. apply NoDup_cons in Hnd as [Hnl Hnd].
  destruct (Hl n) as (Hn & Hf & Hc & Hid); [left|].
  destruct (save_known t (g n)) as (m & t1 & Hs & Ht1 & Hr & Hcs); [done|done| |].
  { by rewrite Hid, Hc. }
  destruct (IH t1) as (t' & Hrun & Ht' & Hin & Hout); [by unfold ok; rewrite Hcs|done|done| |].
  { intros x Hx. rewrite Hcs. apply Hl. by right. }
  exists t'. split; [|split; [done|split]].
  - cbn [foreach]. unfold mbind, M_bind, lift at 1, ignoring. rewrite Hf, Hs. exact Hrun.
  - intros x [->|Hx]%elem_of_cons; [|by apply Hin].
    rewrite Hout by done. by rewrite Hr, Hid, lookup_insert_eq.
  - intros k Hk. cbn in Hk. apply not_elem_of_cons in Hk as [Hkn Hk].
    rewrite Hout by done. rewrite Hr, Hid. by rewrite lookup_insert_ne.
Qed.

Definition is_gateway_of (t : Table) (gw : Node) : Prop :=
  rows t !! node_ID gw = Some gw ∧ node_Role gw = NodeRoleGateway.

(** The first gateway found is the gateway. *)
Lemma first_gateway t gw :
  ok t → healthy t → is_gateway_of t gw → First (has_role NodeRoleGateway) t = Ret gw.
Proof.
  intros Hok Ht [Hgw Hrole].
  destruct (first_ok (has_role NodeRoleGateway) t Ht) as [[x Hx]|Hx].
  - rewrite Hx. apply first_row in Hx as [Hx Hr]. apply bool_decide_eq_true_1 in Hr.
    change (pk x) with (node_ID x) in Hx.
    destruct (decide (node_ID x = node_ID gw)) as [E|Hne]; [rewrite E in Hx; congruence|].
    destruct (net_apart _ Hok _ _ _ _ (cores_lookup _ _ _ Hx) (cores_lookup _ _ _ Hgw) Hne)
      as (_ & [] & _). by split.
  - apply (first_none _ _ _ Hx eq_refl) in Hgw. by apply bool_decide_eq_false_1 in Hgw.
Qed.

Lemma updateNodes_spec t gw :
  ok t → healthy t → is_gateway_of t gw →
  ∃ t' l, updateNodes t = (Ret tt, t') ∧ healthy t' ∧ l ≡ₚ values (rows t) ∧
          rows t' = refreshed gw l <$> rows t.
Proof.
  intros Hok Ht Hgw. pose proof (first_gateway _ _ Hok Ht Hgw) as Hfirst.
  destruct Hgw as [Hgw Hrole]. pose proof (net_shape _ Hok _ _ (cores_lookup _ _ _ Hgw)) as [_ Hsh].
  cbn in Hsh. rewrite Hrole in Hsh. destruct Hsh as (_ & [ip Hip] & [port Hport]).
  destruct (find_ok any_node t Ht) as [l Hl].
  assert (∀ n, n ∈ l ↔ rows t !! node_ID n = Some n) as Hin.
  { intros n. rewrite (find_elem _ _ _ n Hl). tauto. }
  destruct (refresh_loop (refresh_node gw (gateway_endpoint gw) l) (refreshed gw l) l t)
    as (t' & Hrun & Ht' & Hnew & Hold); [done|done|exact (find_NoDup _ _ _ Hl)| |].
  { intros n Hn. split; [by apply cores_lookup, Hin|].
    split; [|split; [apply refreshed_core|apply refreshed_id]].
    apply refresh_node_refreshed; [|done|by apply Hin].
    intros x Hx. by eapply net_shape, cores_lookup, Hin. }
  exists t', l. split; [|split; [done|split]].
  - apply transaction_ok; [|done].
    unfold mbind at 1, M_bind, query. rewrite Hfirst. cbn [or_zero].
    assert (node_ID gw ≠ "") as Hid.
    { intros E. apply cores_lookup in Hgw. rewrite E in Hgw. by rewrite (net_named _ Hok) in Hgw. }
    rewrite bool_decide_eq_false_2 by done. rewrite Hip, Hport.
    unfold mbind at 1, M_bind, query. rewrite Hl. cbn [or_zero].
    unfold gateway_endpoint in Hrun. by rewrite Hip, Hport in Hrun.
  - apply find_rows in Hl. rewrite Hl. clear. induction (values (rows t)); cbn; by f_equiv.
  - apply map_eq. intros k. rewrite lookup_fmap. destruct (rows t !! k) as [n|] eqn:Hk.
    + pose proof (rows_pk _ _ _ Hk) as E. cbn in E. subst k. cbn. apply Hnew. by apply Hin.
    + cbn. rewrite Hold; [done|]. intros (n & -> & Hn)%list_elem_of_fmap.
      apply Hin in Hn. congruence.
Qed.

Lemma GetByID_lookup t k n : healthy t → rows t !! k = Some n → GetByID k t = Ret n.
Proof.
  intros Ht Hk. unfold GetByID. destruct (first_ok (has_id k) t Ht) as [[x Hx]|Hx].
  - rewrite Hx. apply first_row in Hx as [Hx Hp]. apply bool_decide_eq_true_1 in Hp.
    cbn in Hx. rewrite Hp in Hx. congruence.
  - pose proof (first_none _ _ _ Hx eq_refl _ _ Hk) as Hp. apply bool_decide_eq_false_1 in Hp.
    by apply rows_pk in Hk.
Qed.

Lemma refreshed_cores gw l t t' : rows t' = refreshed gw l <$> rows t → cores t' = cores t.
Proof.
  intros Hr. unfold cores. rewrite Hr, <- map_fmap_compose. apply map_fmap_ext.
  intros k n _. apply refreshed_core.
Qed.

(** The end of the [Create] methods. *)
Lemma finish_create t x gw :
  ok t → healthy t → is_gateway_of t gw → rows t !! node_ID x = Some x →
  ∃ t' l, (_ ← updateNodes; query (GetByID (node_ID x))) t = (Ret (refreshed gw l x), t') ∧
          ok t' ∧ healthy t' ∧ l ≡ₚ values (rows t) ∧ rows t' = refreshed gw l <$> rows t.
Proof.
  intros Hok Ht Hgw Hx. destruct (updateNodes_spec t gw) as (t' & l & Hu & Ht' & Hl & Hr); [done..|].
  exists t', l. split; [|split; [|done]].
  - rewrite (M_bind_Ret _ _ _ _ _ Hu). unfold query. f_equal.
    apply GetByID_lookup; [done|]. by rewrite Hr, lookup_fmap, Hx.
  - unfold ok. by rewrite (refreshed_cores _ _ _ _ Hr).
Qed.

(** While there are fewer nodes than addresses there is an address left. *)
Lemma next_wg_ip_ok t :
  healthy t → Z.of_nat (size (rows t)) < wgPrivateIPEnd - wgPrivateIPStart + 1 →
  ∃ i, GetNextAssignableWGPrivateIP t = Ret (wg_ip i).
Proof.
  intros Ht Hsize. unfold GetNextAssignableWGPrivateIP.
  destruct (find_ok any_node t Ht) as [l Hl]. rewrite Hl. cbn [mbind Out_bind].
  destruct (first_free_wg_ip_least l) as [(n & _ & _ & _ & ->)|[Hall _]]; [eauto|].
  rewrite <- (find_all_size t l) in Hsize by done. exfalso.
  enough (wgPrivateIPEnd - wgPrivateIPStart + 1 ≤ Z.of_nat (length l)) by lia.
  apply (pigeonhole (λ n, IPToString (wg_ip n)) (λ n, IPToString (node_wg_ip n))).
  - unfold wgPrivateIPStart, wgPrivateIPEnd. intros m n ??. apply wg_ip_String_inj; unfold byte_val; lia.
  - intros m Hm. apply Hall, existsb_exists in Hm as (x & Hx & Hu).
    exists x. split; [by apply list_elem_of_In|]. by apply bool_decide_eq_true_1 in Hu.
Qed.

Lemma create_known t x :
  ok t → healthy t → rows t !! node_ID x = None → node_Labels x = [] → node_ID x ≠ "" →
  core_shape (core x) → (∀ j b, cores t !! j = Some b → core_apart (core x) b) →
  ∃ t', Create x t = (Ret x, t') ∧ ok t' ∧ healthy t' ∧ rows t' = <[node_ID x := x]> (rows t).
Proof.
  intros Hok Ht Hnone Hlab Hid Hs Ha.
  assert (on_create x = x) as Hx by (destruct x; cbn in *; by subst).
  destruct (create_ok x t Ht Hnone) as (t' & Hc & Ht').
  { rewrite Hx. apply ok_no_clash; [done|]. intros k b Hb _.
    destruct (Ha _ _ Hb) as [Hip _]. cbn in Hip. congruence. }
  pose proof (create_rows _ _ _ _ Hc) as (_ & _ & Hr). rewrite Hx in Hc, Hr.
  exists t'. split; [done|]. split; [|done].
  unfold ok, cores. rewrite Hr, fmap_insert. by apply network_ok_insert.
Qed.
End refresh.

Section issue.
  Context {G : Gorm string Node} {L : GormLaws string Node} {X : X509}.

Definition client_options (env : CreateEnv) : Options :=
  MkOptions (env_uuid env) CertExpiry [] [].

Lemma issue_known env gw b b' t :
  ok t → healthy t → cores t !! node_ID gw = Some (core gw) →
  node_GatewayCertBundle gw = Some b →
  AddClient (env_seed env) (env_clock env 0%nat) (client_options env) b = Ret b' →
  ∃ t' cb, issue_client_bundle env gw t = (Ret cb, t') ∧ healthy t' ∧
    GetClientBundlePublic (env_uuid env) b' = Ret cb ∧
    rows t' = <[node_ID gw := set_GatewayCertBundle (Some b') gw]> (rows t) ∧
    cores t' = cores t.
Proof.
  intros Hok Ht Hgw Hb Hadd. destruct (AddClient_client _ _ _ _ _ Hadd) as [cb Hcb].
  cbn [opt_CommonName client_options] in Hcb.
  destruct (save_known t (set_GatewayCertBundle (Some b') gw)) as (m & t' & Hs & Ht' & Hr & Hc);
    [done..|].
  exists t', cb. split; [|done]. unfold issue_client_bundle. rewrite Hb.
  unfold client_options in Hadd.
  unfold mbind, M_bind, lift, ignoring. rewrite Hadd, Hs. by rewrite Hcb.
Qed.
End issue.
