(* ===== verification/NodesCreate.v ===== *)
(** * Creating nodes

    What the repository's operations achieve on a working database: the refresh
    wires gateway, servers and clients together, and a new node comes out
    registered, addressed, certified and wired. *)
From S2P Require Import Prelude GoStrings GoNet Mtls NodeTypes Gorm.
From S2P Require Import Terminal NodesRepo NodesNetwork NodesRefresh.

Section create.
  Context {G : Gorm string Node} {L : GormLaws string Node} {X : X509}.

(** What a successful creation needs: a working database that holds a network, its
    gateway [gw] with a certificate authority [b] that can sign, a fresh identifier,
    keys, and an address to give. *)
Record can_create (t : Table) (env : CreateEnv) (gw : Node) (b' : FullGatewayBundle)
    (priv pub : string) : Prop := {
  cc_ok : ok t;
  cc_healthy : healthy t;
  cc_gateway : is_gateway_of t gw;
  cc_bundle : ∃ b, node_GatewayCertBundle gw = Some b ∧
    AddClient (env_seed env) (env_clock env 0%nat) (client_options env) b = Ret b';
  cc_keys : GenerateKeyPair (env_run env) = Ret (priv, pub);
  cc_uuid : env_uuid env ≠ "";
  cc_fresh : rows t !! env_uuid env = None;
  cc_room : Z.of_nat (size (rows t)) < wgPrivateIPEnd - wgPrivateIPStart + 1;
}.

(** What it achieves. *)
Record created (t t' : Table) (env : CreateEnv) (gw : Node) (b' : FullGatewayBundle) (n : Node)
    : Prop := {
  cr_ok : ok t';
  cr_healthy : healthy t';
  cr_stored : rows t' !! env_uuid env = Some n;
  cr_address : GetNextAssignableWGPrivateIP t = Ret (node_wg_ip n);
  cr_bundle : Ret <$> node_ClientCertBundle n = Some (GetClientBundlePublic (env_uuid env) b');
  cr_gateway : ∃ gw', rows t' !! node_ID gw = Some gw' ∧ node_GatewayCertBundle gw' = Some b' ∧
    peer_of n ∈ wg_Peers (node_WGConfig gw');
  cr_others : ∀ k, k ≠ env_uuid env → cores t' !! k = cores t !! k;
}.

Lemma is_gateway_insert t t' gw gw' x :
  is_gateway_of t gw → node_ID gw' = node_ID gw → node_Role gw' = node_Role gw →
  rows t' = <[node_ID x := x]> (<[node_ID gw := gw']> (rows t)) → node_ID x ≠ node_ID gw →
  is_gateway_of t' gw'.
Proof.
  intros [_ Hrole] Hid Hr Hrows Hx. split; [|congruence].
  by rewrite Hrows, Hid, lookup_insert_ne, lookup_insert_eq.
Qed.

Lemma peer_of_refreshed gw l n : peer_of (refreshed gw l n) = peer_of n.
Proof. unfold refreshed. by destruct (node_Role n) eqn:E; unfold peer_of, routed; cbn; rewrite ?E. Qed.

Lemma refreshed_gateway_peers gw l :
  node_Role gw = NodeRoleGateway →
  wg_Peers (node_WGConfig (refreshed gw l gw))
  = map peer_of (filterNodes l [NodeRoleClient; NodeRoleServer]).
Proof. intros Hr. unfold refreshed. by rewrite Hr. Qed.

(** From the inserted row to the finished network. *)
Lemma created_after_insert t t1 t2 env gw b' priv pub role ip cb subnet :
  can_create t env gw b' priv pub → role = NodeRoleServer ∨ role = NodeRoleClient →
  GetNextAssignableWGPrivateIP t = Ret ip →
  GetClientBundlePublic (env_uuid env) b' = Ret cb →
  cores t1 = cores t →
  rows t1 = <[node_ID gw := set_GatewayCertBundle (Some b') gw]> (rows t) →
  let x := peer_node role (env_uuid env) priv pub ip gw cb subnet in
  ok t2 → healthy t2 → rows t2 = <[node_ID x := x]> (rows t1) →
  ∃ t' l, (_ ← updateNodes; query (GetByID (node_ID x))) t2
          = (Ret (refreshed (set_GatewayCertBundle (Some b') gw) l x), t') ∧
        created t t' env gw b' (refreshed (set_GatewayCertBundle (Some b') gw) l x).
Proof.
  intros Hcan Hrole Hip Hcb Hc1 Hr1 x Hok2 Ht2 Hr2.
  destruct Hcan as [Hok Ht Hgw _ _ _ Hfresh _]. pose proof Hgw as [Hgrow Hgrole].
  set (gw' := set_GatewayCertBundle (Some b') gw).
  assert (node_ID x ≠ node_ID gw) as Hne.
  { cbn. intros E. rewrite E in Hfresh. congruence. }
  rewrite Hr1 in Hr2. pose proof (is_gateway_insert t t2 gw gw' x Hgw eq_refl eq_refl Hr2 Hne) as Hgw2.
  assert (rows t2 !! node_ID x = Some x) as Hx2 by (by rewrite Hr2, lookup_insert_eq).
  destruct (finish_create t2 x gw' Hok2 Ht2 Hgw2 Hx2) as (t' & l & Hrun & Hok' & Ht' & Hl & Hr').
  exists t', l. split; [done|]. split; try done.
  - change (env_uuid env) with (node_ID x). by rewrite Hr', lookup_fmap, Hx2.
  - rewrite Hip. f_equal. change (node_wg_ip ?n) with (core_ip (core n)). by rewrite refreshed_core.
  - unfold refreshed. destruct Hrole as [-> | ->]; cbn; by rewrite Hcb.
  - exists (refreshed gw' l gw'). split; [|split].
    + destruct Hgw2 as [Hg2 _]. change (node_ID gw) with (node_ID gw').
      by rewrite Hr', lookup_fmap, Hg2.
    + unfold refreshed. cbn. by rewrite Hgrole.
    + rewrite refreshed_gateway_peers by done. rewrite peer_of_refreshed.
      apply list_elem_of_fmap. exists x. split; [done|]. apply elem_of_filterNodes.
      split; [|destruct Hrole as [-> | ->]; cbn; rewrite !elem_of_cons; tauto].
      rewrite Hl. apply elem_of_values. eauto.
  - intros k Hk. rewrite (refreshed_cores _ _ _ _ Hr'). unfold cores in *.
    rewrite Hr2, <- Hr1, fmap_insert, lookup_insert_ne by done. by rewrite Hc1.
Qed.

Lemma gateway_id t gw : ok t → is_gateway_of t gw → node_ID gw ≠ "".
Proof.
  intros Hok [Hgw _] E. apply cores_lookup in Hgw. rewrite E in Hgw.
  by rewrite (net_named _ Hok) in Hgw.
Qed.

Lemma gateway_public t gw :
  ok t → is_gateway_of t gw →
  isNone (node_WGPublicIP gw) = false ∧ isNone (node_WGPublicPort gw) = false.
Proof.
  intros Hok [Hgw Hr]. pose proof (net_shape _ Hok _ _ (cores_lookup _ _ _ Hgw)) as [_ Hs].
  cbn in Hs. rewrite Hr in Hs. by destruct Hs as (_ & [? ->] & [? ->]).
Qed.

(** The node [CreateServer] or [CreateClient] inserts is new to the network. *)
Lemma new_core_apart t role ip subnet pub :
  ok t → role = NodeRoleServer ∨ role = NodeRoleClient →
  GetNextAssignableWGPrivateIP t = Ret ip →
  (∀ d, subnet = Some d → ∀ k b e, cores t !! k = Some b → core_subnet b = Some e →
    IPNet_String d ≠ IPNet_String e) →
  ∀ j b, cores t !! j = Some b → core_apart (MkNodeCore role ip subnet pub) b.
Proof.
  intros Hok Hrole [_ Hfree]%next_wg_ip_free Hsub j b Hb.
  split; [by eapply Hfree|]. split; [by destruct Hrole as [-> | ->]; intros []|].
  intros d e Hd He. by eapply Hsub.
Qed.

Lemma fresh_after_issue t t1 env gw b' :
  is_gateway_of t gw → rows t !! env_uuid env = None →
  rows t1 = <[node_ID gw := set_GatewayCertBundle (Some b') gw]> (rows t) →
  rows t1 !! env_uuid env = None.
Proof.
  intros [Hgw _] Hfresh ->. rewrite lookup_insert_ne; [done|]. intros E. congruence.
Qed.

(** C11: [CreateServer] on a working network with an address and a subnet to give:
    the server is stored under its new identifier with the least free address, the
    chosen subnet, a client certificate under the gateway's authority and the gateway
    as its only peer; the gateway has it as a peer; nobody else's identity changes. *)
Theorem CreateServer_creates t env force gw b' priv pub d :
  can_create t env gw b' priv pub → choose_subnet force t = Ret d →
  ∃ t' n, CreateServer env force t = (Ret n, t') ∧ created t t' env gw b' n ∧
    node_Role n = NodeRoleServer ∧ node_DockerSubnet n = Some d ∧
    wg_Peers (node_WGConfig n) = [peer_to_gateway gw [wg_network]].
Proof.
  intros Hcan Hd. pose proof Hcan as [Hok Ht Hgw (b & Hb & Hadd) Hkeys Huuid Hfresh Hroom].
  destruct (next_wg_ip_ok t Ht Hroom) as [i Hip].
  destruct (issue_known env gw b b' t Hok Ht) as (t1 & cb & Hissue & Ht1 & Hcb & Hr1 & Hc1);
    [by apply cores_lookup, Hgw|done|done|].
  pose proof (proj1 (choose_subnet_free _ _ _ Hok Hd)) as Hsub.
  destruct (create_known t1 (peer_node NodeRoleServer (env_uuid env) priv pub (wg_ip i) gw cb
    (Some d))) as (t2 & Hcreate & Hok2 & Ht2 & Hr2); try done.
  { unfold ok. by rewrite Hc1. }
  { by eapply fresh_after_issue. }
  { split; [by apply (next_wg_ip_free _ _ Hip)|]. by exists d. }
  { rewrite Hc1. apply new_core_apart; [done|by left|done|].
    intros ? [= <-]. by apply (choose_subnet_free force t d). }
  destruct (created_after_insert t t1 t2 env gw b' priv pub NodeRoleServer (wg_ip i) cb (Some d))
    as (t' & l & Hrun & Hcreated); [done|by left|done..|].
  exists t', (refreshed (set_GatewayCertBundle (Some b') gw) l
    (peer_node NodeRoleServer (env_uuid env) priv pub (wg_ip i) gw cb (Some d))).
  split; [|done]. unfold CreateServer, server_transaction. erewrite M_bind_Ret; [|by apply lift_Ret].
  cbn beta iota. erewrite M_bind_Ret; [exact Hrun|]. apply transaction_ok; [|done].
  erewrite M_bind_Ret by (apply query_Ret; by rewrite (first_gateway t gw)).
  rewrite bool_decide_eq_false_2 by by apply (gateway_id t). cbn beta iota.
  erewrite M_bind_Ret by exact Hissue. destruct (gateway_public t gw Hok Hgw) as [-> ->].
  cbn [orb]. erewrite M_bind_Ret by by apply lift_Ret.
  by erewrite M_bind_Ret by by apply lift_Ret.
Qed.

Lemma find_gateway t gw :
  ok t → healthy t → is_gateway_of t gw →
  or_zero zero_Node (l ← Find (has_role NodeRoleGateway) t; mret (default zero_Node (head l)))
  = Ret gw.
Proof.
  intros Hok Ht [Hgw Hrole]. destruct (find_ok (has_role NodeRoleGateway) t Ht) as [l Hl].
  rewrite Hl. cbn [mbind Out_bind mret Out_ret or_zero].
  pose proof (find_elem _ _ _ gw Hl) as [_ Hin].
  assert (gw ∈ l) as Hgl by (apply Hin; split; [done|by apply bool_decide_eq_true_2]).
  destruct l as [|x l]; [by apply elem_of_nil in Hgl|]. cbn. f_equal.
  destruct (proj1 (find_elem _ _ _ x Hl)) as [Hx Hr]; [left|].
  apply bool_decide_eq_true_1 in Hr. change (pk x) with (node_ID x) in Hx.
  destruct (decide (node_ID x = node_ID gw)) as [E|Hne]; [rewrite E in Hx; congruence|].
  destruct (net_apart _ Hok _ _ _ _ (cores_lookup _ _ _ Hx) (cores_lookup _ _ _ Hgw) Hne)
    as (_ & [] & _). by split.
Qed.

(** C12: [CreateClient] on a working network with an address to give: the client is
    stored with the least free address, a client certificate under the gateway's
    authority, no subnet, and the gateway as its only peer, reached for every docker
    network and for the WireGuard network; the gateway has it as a peer. *)
Theorem CreateClient_creates t env gw b' priv pub :
  can_create t env gw b' priv pub →
  ∃ t' n, CreateClient env t = (Ret n, t') ∧ created t t' env gw b' n ∧
    node_Role n = NodeRoleClient ∧ node_DockerSubnet n = None ∧
    wg_Peers (node_WGConfig n)
      = [peer_to_gateway gw [docker_networks; MkIPNet (node_wg_ip gw) (CIDRMask32 24)]].
Proof.
  intros Hcan. pose proof Hcan as [Hok Ht Hgw (b & Hb & Hadd) Hkeys Huuid Hfresh Hroom].
  destruct (next_wg_ip_ok t Ht Hroom) as [i Hip].
  destruct (issue_known env gw b b' t Hok Ht) as (t1 & cb & Hissue & Ht1 & Hcb & Hr1 & Hc1);
    [by apply cores_lookup, Hgw|done|done|].
  destruct (create_known t1 (peer_node NodeRoleClient (env_uuid env) priv pub (wg_ip i) gw cb
    None)) as (t2 & Hcreate & Hok2 & Ht2 & Hr2); try done.
  { unfold ok. by rewrite Hc1. }
  { by eapply fresh_after_issue. }
  { split; [by apply (next_wg_ip_free _ _ Hip)|done]. }
  { rewrite Hc1. by apply new_core_apart; [|right|..]. }
  destruct (created_after_insert t t1 t2 env gw b' priv pub NodeRoleClient (wg_ip i) cb None)
    as (t' & l & Hrun & Hcreated); [done|by right|done..|].
  exists t', (refreshed (set_GatewayCertBundle (Some b') gw) l
    (peer_node NodeRoleClient (env_uuid env) priv pub (wg_ip i) gw cb None)).
  split; [|done]. unfold CreateClient, client_transaction. erewrite M_bind_Ret; [|by apply lift_Ret].
  cbn beta iota. erewrite M_bind_Ret; [exact Hrun|]. apply transaction_ok; [|done].
  destruct (find_ok any_node t Ht) as [l0 Hl0].
  erewrite M_bind_Ret by (apply query_Ret; by rewrite Hl0).
  erewrite M_bind_Ret by by apply lift_Ret.
  erewrite M_bind_Ret by (apply query_Ret; by rewrite (find_gateway t gw)).
  rewrite bool_decide_eq_false_2 by by apply (gateway_id t). cbn beta iota.
  by erewrite M_bind_Ret by exact Hissue.
Qed.

(** C10: after a refresh on a working database, the gateway has exactly one peer for
    each client and server, routed to its address and its subnet; a server's one peer
    is the gateway, for the WireGuard network; a client's is the gateway, for every
    docker network as well.  Identities do not change. *)
Theorem updateNodes_wires t gw :
  ok t → healthy t → is_gateway_of t gw →
  ∃ t' gw', updateNodes t = (Ret tt, t') ∧ cores t' = cores t ∧
    rows t' !! node_ID gw = Some gw' ∧
    wg_Peers (node_WGConfig gw')
      ≡ₚ map peer_of (filterNodes (values (rows t)) [NodeRoleClient; NodeRoleServer]) ∧
    if_DNS (wg_Interface (node_WGConfig gw'))
      ≡ₚ docker_dns :: map (host ∘ node_wg_ip) (filterNodes (values (rows t)) [NodeRoleServer]) ∧
    ∀ k n, rows t !! k = Some n →
      (node_Role n = NodeRoleServer → rows t' !! k = Some (set_network
        [host (node_wg_ip gw); docker_dns] [peer_to_gateway gw [wg_network]] n)) ∧
      (node_Role n = NodeRoleClient → rows t' !! k = Some (set_network
        [host (node_wg_ip gw)]
        [peer_to_gateway gw [docker_networks; MkIPNet (node_wg_ip gw) (CIDRMask32 24)]] n)).
Proof.
  intros Hok Ht Hgw. destruct (updateNodes_spec t gw) as (t' & l & Hu & Ht' & Hl & Hr); [done..|].
  exists t', (refreshed gw l gw). destruct Hgw as [Hgw Hrole].
  assert (∀ roles, filterNodes l roles ≡ₚ filterNodes (values (rows t)) roles) as Hf.
  { intros roles. unfold filterNodes. by rewrite Hl. }
  split; [done|]. split; [by eapply refreshed_cores|].
  split; [by rewrite Hr, lookup_fmap, Hgw|]. split; [|split].
  - rewrite refreshed_gateway_peers by done. by rewrite Hf.
  - unfold refreshed. rewrite Hrole. cbn. by rewrite Hf.
  - intros k n Hk. rewrite Hr, lookup_fmap, Hk. cbn. unfold refreshed.
    split; intros ->; done.
Qed.

(** With no gateway in the table a refresh is refused and changes nothing. *)
Theorem updateNodes_no_gateway t :
  healthy t → (∀ k n, rows t !! k = Some n → node_Role n ≠ NodeRoleGateway) →
  updateNodes t = (Throw ErrGatewayNodeNotFound, t).
Proof.
  intros Ht Hno. eapply transaction_rollback; [|done].
  rewrite (M_bind_Ret _ _ _ zero_Node t); [done|]. apply query_Ret.
  destruct (first_ok (has_role NodeRoleGateway) t Ht) as [[x Hx]| ->]; [|done].
  apply first_row in Hx as [Hx Hp]. apply bool_decide_eq_true_1 in Hp. by apply Hno in Hx.
Qed.
End create.
