(* ===== verification/NodesQueries.v ===== *)
(** * Allocation, capacity, labels and removal

    What the repository's queries say about the stored network, and the operations
    that do not create nodes. *)
From S2P Require Import Prelude GoStrings GoNet Mtls NodeTypes Gorm.
From S2P Require Import Terminal NodesRepo NodesNetwork NodesRefresh NodesCreate.

Lemma existsb_ext_bool {A} (p q : A → bool) l : (∀ x, p x = q x) → existsb p l = existsb q l.
Proof. intros H. induction l; cbn; congruence. Qed.

Lemma filter_any (l : list Node) : List.filter any_node l = l.
Proof. induction l; cbn; congruence. Qed.

Lemma is_least_free_ext {A} used used' lo hi (val : Z → A) full r :
  (∀ n, used n = used' n) → is_least_free used lo hi val full r → is_least_free used' lo hi val full r.
Proof.
  intros E [(n & Hn & Hf & Hm & ->)|[Hm ->]]; [left|right].
  - exists n. rewrite <- E. split; [done|]. split; [done|]. split; [|done].
    intros m Hlt. rewrite <- E. by apply Hm.
  - split; [|done]. intros m Hlt. rewrite <- E. by apply Hm.
Qed.

Section queries.
  Context {G : Gorm string Node} {L : GormLaws string Node}.

(** C37: the next WireGuard address is the least of 10.0.0.1 to 10.0.0.254 that no
    stored node has, and the allocator gives up only when all are taken. *)
Theorem GetNextAssignableWGPrivateIP_least t :
  healthy t →
  is_least_free (wg_ip_used (values (rows t))) 1 254 wg_ip ErrNoAvailableWGPrivateIPs
    (GetNextAssignableWGPrivateIP t).
Proof.
  intros Ht. unfold GetNextAssignableWGPrivateIP. destruct (find_ok any_node t Ht) as [l Hl].
  rewrite Hl. cbn [mbind Out_bind].
  eapply is_least_free_ext; [|apply first_free_wg_ip_least].
  intros n. unfold wg_ip_used. by rewrite (find_existsb _ _ _ _ Hl), filter_any.
Qed.

(** The next docker subnet is the least of 172.20.0.0/16 to 172.31.0.0/16 that no
    server or gateway has, and the allocator gives up only when all are taken. *)
Theorem GetNextAssignableDockerSubnet_least t :
  healthy t →
  is_least_free (subnet_used (List.filter server_or_gateway (values (rows t)))) 20 31
    docker_subnet ErrNoAvailableDockerSubnets (GetNextAssignableDockerSubnet t).
Proof.
  intros Ht. unfold GetNextAssignableDockerSubnet.
  destruct (find_ok server_or_gateway t Ht) as [l Hl].
  rewrite Hl. cbn [mbind Out_bind].
  eapply is_least_free_ext; [|apply first_free_subnet_least].
  intros n. unfold subnet_used. by rewrite (find_existsb _ _ _ _ Hl).
Qed.

(** The addresses of a network are different ones of the 254. *)
Lemma network_size t ips :
  ok t → healthy t → NoDup ips →
  (∀ ip, ip ∈ ips → (∃ n, wgPrivateIPStart ≤ n ≤ wgPrivateIPEnd ∧ ip = wg_ip n) ∧
                    ∀ k b, cores t !! k = Some b → ip ≠ core_ip b) →
  Z.of_nat (size (rows t)) + Z.of_nat (length ips) ≤ wgPrivateIPEnd - wgPrivateIPStart + 1.
Proof.
  intros Hok Ht Hnd Hips. destruct (find_ok any_node t Ht) as [l Hl].
  rewrite <- (find_all_size t l) by done.
  assert (∀ n, n ∈ l → cores t !! node_ID n = Some (core n)) as Hin.
  { intros n Hn. apply cores_lookup. by apply (find_elem _ _ _ n Hl). }
  assert (NoDup (map node_wg_ip l ++ ips)) as Hall.
  { apply NoDup_app. split; [|split; [|done]].
    - pose proof (find_NoDup _ _ _ Hl) as Hids. clear Hl Hips.
      induction l as [|n l IH]; cbn in *; [constructor|].
      apply NoDup_cons in Hids as [Hn Hids].
      constructor; [|apply IH; [intros; apply Hin; by right|done]].
      intros (m & E & Hm)%list_elem_of_fmap.
      assert (node_ID n ≠ node_ID m) as Hne.
      { intros E'. apply Hn. apply list_elem_of_fmap. by exists m. }
      destruct (net_apart _ Hok _ _ _ _ (Hin n (list_elem_of_here _ _))
        (Hin m (list_elem_of_further _ _ _ Hm)) Hne) as [? _]. done.
    - intros ip (n & -> & Hn)%list_elem_of_fmap Hip. apply Hips in Hip as [_ Hip].
      by apply (Hip _ _ (Hin n Hn)). }
  apply NoDup_submseteq with (k := map wg_ip (range wgPrivateIPStart wgPrivateIPEnd)) in Hall.
  - apply submseteq_length in Hall. rewrite length_app, !length_map in Hall.
    unfold range in Hall. rewrite length_seqZ in Hall.
    unfold wgPrivateIPStart, wgPrivateIPEnd in *. lia.
  - assert (∀ n ip, wgPrivateIPStart ≤ n ≤ wgPrivateIPEnd → ip = wg_ip n →
      ip ∈ map wg_ip (range wgPrivateIPStart wgPrivateIPEnd)) as Hmem.
    { intros n ip Hn ->. apply list_elem_of_fmap. exists n. split; [done|].
      apply elem_of_seqZ. unfold wgPrivateIPStart, wgPrivateIPEnd in *. lia. }
    intros ip. rewrite elem_of_app. intros [(n & -> & Hn)%list_elem_of_fmap|Hip].
    + destruct (net_shape _ Hok _ _ (Hin n Hn)) as [(i & Hi & E) _]. by apply (Hmem i).
    + apply Hips in Hip as [(i & Hi & ->) _]. by apply (Hmem i).
Qed.

(** In a network the number of free addresses that [TotalAvailableWireguardClients]
    reports is never negative, and it is positive exactly when the allocator has an
    address to give. *)
Theorem TotalAvailableWireguardClients_agrees t :
  ok t → healthy t →
  ∃ total available, TotalAvailableWireguardClients t = Ret (total, available) ∧
    total = Z.of_nat (size (rows t)) ∧ total + available = 254 ∧ 0 ≤ available ∧
    (0 < available ↔ ∃ ip, GetNextAssignableWGPrivateIP t = Ret ip).
Proof.
  intros Hok Ht. unfold TotalAvailableWireguardClients.
  destruct (count_ok any_node t Ht) as [n Hn]. rewrite Hn. cbn [mbind Out_bind mret Out_ret].
  assert (n = Z.of_nat (size (rows t))) as E.
  { rewrite (count_rows _ _ _ Hn), filter_any. unfold values.
    by rewrite length_fmap, length_map_to_list. }
  exists n, (254 - 1 + 1 - n).
  pose proof (network_size t [] Hok Ht ltac:(constructor) ltac:(set_solver)) as Hsize.
  cbn [length] in Hsize. unfold wgPrivateIPStart, wgPrivateIPEnd in *.
  split; [done|]. split; [done|]. split; [lia|]. split; [lia|]. split.
  - intros Hpos. destruct (next_wg_ip_ok t Ht) as [i Hi]; [|eauto].
    unfold wgPrivateIPStart, wgPrivateIPEnd. lia.
  - intros [ip Hip%next_wg_ip_free].
    pose proof (network_size t [ip] Hok Ht (NoDup_singleton _)) as Hsize'.
    cbn [length] in Hsize'. unfold wgPrivateIPStart, wgPrivateIPEnd in *.
    enough (Z.of_nat (size (rows t)) + Z.of_nat 1 ≤ 254 - 1 + 1) by lia.
    apply Hsize'. by intros ? ->%list_elem_of_singleton.
Qed.

(** Nodes that use every subnet are as many as there are. *)
Lemma subnets_covered (l : list Node) :
  (∀ m, dockerSubnetStart ≤ m ≤ dockerSubnetEnd → ∃ x, x ∈ l ∧ uses_subnet (IPNet_String (docker_subnet m)) x = true) →
  dockerSubnetEnd - dockerSubnetStart + 1 ≤ Z.of_nat (length l).
Proof.
  intros Hall. apply (pigeonhole (λ n, Some (IPNet_String (docker_subnet n)))
    (λ n, IPNet_String <$> node_DockerSubnet n)).
  - unfold dockerSubnetStart, dockerSubnetEnd. intros m n ?? E%(inj Some).
    apply docker_subnet_String_inj in E; unfold byte_val; lia.
  - intros m Hm. destruct (Hall m Hm) as (x & Hx & Hu). exists x. split; [done|].
    unfold uses_subnet in Hu. destruct (node_DockerSubnet x) as [d|] eqn:Hd; [|done].
    apply bool_decide_eq_true_1 in Hu. cbn. by rewrite Hu.
Qed.
(** Where fewer nodes take one than there are, one is left. *)
Lemma next_subnet_ok t :
  healthy t →
  Z.of_nat (length (List.filter server_or_gateway (values (rows t)))) < dockerSubnetEnd - dockerSubnetStart + 1 →
  ∃ n, GetNextAssignableDockerSubnet t = Ret (docker_subnet n).
Proof.
  intros Ht Hsize. unfold GetNextAssignableDockerSubnet.
  destruct (find_ok server_or_gateway t Ht) as [l Hl]. rewrite Hl. cbn [mbind Out_bind].
  destruct (first_free_subnet_least l) as [(n & _ & _ & _ & ->)|[Hall _]]; [eauto|]. exfalso.
  apply find_rows, Permutation_length in Hl. rewrite <- Hl in Hsize.
  enough (dockerSubnetEnd - dockerSubnetStart + 1 ≤ Z.of_nat (length l)) by lia.
  apply subnets_covered. intros m Hm. apply Hall, existsb_exists in Hm as (x & Hx & Hu).
  exists x. by rewrite list_elem_of_In.
Qed.

(** [TotalAndAvailableDockerSubnets] counts the gateway, which has no subnet: as
    long as it does not report a negative number, zero included, the allocator still
    has a subnet to give. *)
Theorem TotalAndAvailableDockerSubnets_reserves_one t gw total available :
  ok t → healthy t → is_gateway_of t gw →
  TotalAndAvailableDockerSubnets t = Ret (total, available) → 0 ≤ available →
  ∃ n, GetNextAssignableDockerSubnet t = Ret (docker_subnet n).
Proof.
  intros Hok Ht [Hgw Hrole] Htot Hav.
  unfold TotalAndAvailableDockerSubnets in Htot. unfold GetNextAssignableDockerSubnet.
  destruct (find_ok server_or_gateway t Ht) as [l Hl]. rewrite Hl in *.
  cbn [mbind Out_bind mret Out_ret] in *. injection Htot as <- <-.
  destruct (first_free_subnet_least l) as [(n & _ & _ & _ & ->)|[Hall _]]; [eauto|]. exfalso.
  assert (gw ∈ l) as Hg.
  { apply (find_elem _ _ _ gw Hl). split; [done|].
    unfold server_or_gateway, has_role. rewrite Hrole. done. }
  apply list_elem_of_split in Hg as (l1 & l2 & ->).
  assert (node_DockerSubnet gw = None) as Hns.
  { pose proof (net_shape _ Hok _ _ (cores_lookup _ _ _ Hgw)) as [_ Hs]. cbn in Hs.
    rewrite Hrole in Hs. tauto. }
  rewrite length_app in Hav. cbn [length] in Hav.
  enough (dockerSubnetEnd - dockerSubnetStart + 1 ≤ Z.of_nat (length (l1 ++ l2))) as Hp.
  { rewrite length_app in Hp. lia. }
  apply subnets_covered. intros m Hm. apply Hall, existsb_exists in Hm as (x & Hx & Hu). exists x.
  apply list_elem_of_In in Hx. rewrite elem_of_app, elem_of_cons in Hx. rewrite elem_of_app.
  split; [|done]. destruct Hx as [|[->|]]; [by left| |by right].
  unfold uses_subnet in Hu. by rewrite Hns in Hu.
Qed.

(** ** Labels *)

Lemma count_id t k n :
  rows t !! k = Some n → length (List.filter (has_id k) (values (rows t))) ≠ 0%nat.
Proof.
  intros Hk E. apply length_zero_iff_nil in E.
  assert (n ∈ List.filter (has_id k) (values (rows t))) as Hn.
  { apply elem_of_filter_values. split; [eauto|]. apply bool_decide_eq_true_2.
    by apply rows_pk in Hk. }
  rewrite E in Hn. by apply elem_of_nil in Hn.
Qed.

Lemma update_id_rows t k n (f : Node → Node) :
  rows t !! k = Some n →
  (λ x, if has_id k x then f x else x) <$> rows t = <[k := f n]> (rows t).
Proof.
  intros Hk. apply map_eq. intros j. rewrite lookup_fmap.
  destruct (decide (j = k)) as [->|Hj].
  - rewrite Hk, lookup_insert_eq. cbn. unfold has_id. apply rows_pk in Hk. cbn in Hk.
    by rewrite bool_decide_eq_true_2.
  - rewrite lookup_insert_ne by done. destruct (rows t !! j) as [x|] eqn:Hx; [|done].
    cbn. unfold has_id. apply rows_pk in Hx. cbn in Hx.
    by rewrite bool_decide_eq_false_2 by congruence.
Qed.

Lemma updateNodeLabels_spec t k n labels :
  healthy t → rows t !! k = Some n →
  ∃ t', updateNodeLabels k labels t = (Ret tt, t') ∧ healthy t' ∧
        rows t' = <[k := set_Labels labels n]> (rows t).
Proof.
  intros Ht Hk. destruct (update_ok (has_id k) (set_Labels labels) t Ht) as (m & t' & Hu & Ht');
    [done..|].
  exists t'. apply update_rows in Hu as Hm; [|done]. destruct Hm as [Hm Hr].
  split; [|split; [done|]].
  - unfold updateNodeLabels. rewrite (M_bind_Ret _ _ _ _ _ Hu).
    destruct (Z.eqb_spec m 0) as [E|]; [|done]. exfalso. apply (count_id t k n Hk). lia.
  - by rewrite Hr, (update_id_rows t k n).
Qed.

Lemma first_id t k n : healthy t → rows t !! k = Some n → First (has_id k) t = Ret n.
Proof. apply GetByID_lookup. Qed.

Lemma AddLabelToNode_spec t k n label :
  healthy t → rows t !! k = Some n →
  ∃ t', AddLabelToNode k label t = (Ret tt, t') ∧ healthy t' ∧
    rows t' = if bool_decide (label ∈ node_Labels n) then rows t
              else <[k := set_Labels (node_Labels n ++ [label]) n]> (rows t).
Proof.
  intros Ht Hk. unfold AddLabelToNode, assignLabelToNode.
  case_bool_decide as Hin.
  - exists t. split; [|done]. apply transaction_ok; [|done].
    erewrite M_bind_Ret by (apply query_Ret; by apply first_id).
    by rewrite bool_decide_eq_true_2.
  - destruct (updateNodeLabels_spec t k n (node_Labels n ++ [label]) Ht Hk) as (t' & Hu & Ht' & Hr).
    exists t'. split; [|done]. apply transaction_ok; [|done].
    erewrite M_bind_Ret by (apply query_Ret; by apply first_id).
    by rewrite bool_decide_eq_false_2.
Qed.

Lemma RemoveLabelFromNode_spec t k n label :
  healthy t → rows t !! k = Some n →
  ∃ t', RemoveLabelFromNode k label t = (Ret tt, t') ∧ healthy t' ∧
    rows t' = if bool_decide (label ∈ node_Labels n)
              then <[k := set_Labels
                 (List.filter (λ l, negb (bool_decide (l = label))) (node_Labels n)) n]> (rows t)
              else rows t.
Proof.
  intros Ht Hk. unfold RemoveLabelFromNode, removeLabelFromNode.
  case_bool_decide as Hin.
  - destruct (updateNodeLabels_spec t k n
      (List.filter (λ l, negb (bool_decide (l = label))) (node_Labels n)) Ht Hk) as (t' & Hu & Ht' & Hr).
    exists t'. split; [|done]. apply transaction_ok; [|done].
    erewrite M_bind_Ret by (apply query_Ret; by apply first_id).
    rewrite bool_decide_eq_true_2 by done. exact Hu.
  - exists t. split; [|done]. apply transaction_ok; [|done].
    erewrite M_bind_Ret by (apply query_Ret; by apply first_id).
    by rewrite bool_decide_eq_false_2.
Qed.

Lemma filter_lacks (label : string) labels :
  label ∉ labels → List.filter (λ l, negb (bool_decide (l = label))) labels = labels.
Proof.
  induction labels as [|l labels IH]; [done|]. intros [Hl Hn]%not_elem_of_cons. cbn.
  rewrite bool_decide_eq_false_2 by done. cbn. by rewrite IH.
Qed.

(** Adding a label a node does not have appends it, adding it again changes
    nothing, and removing it restores the table. *)
Theorem AddLabel_RemoveLabel t k n label :
  healthy t → rows t !! k = Some n → label ∉ node_Labels n →
  ∃ t1 t2 t3, AddLabelToNode k label t = (Ret tt, t1) ∧
    rows t1 = <[k := set_Labels (node_Labels n ++ [label]) n]> (rows t) ∧
    AddLabelToNode k label t1 = (Ret tt, t2) ∧ rows t2 = rows t1 ∧
    RemoveLabelFromNode k label t1 = (Ret tt, t3) ∧ rows t3 = rows t.
Proof.
  intros Ht Hk Hn. destruct (AddLabelToNode_spec t k n label Ht Hk) as (t1 & H1 & Ht1 & Hr1).
  rewrite bool_decide_eq_false_2 in Hr1 by done.
  set (n1 := set_Labels (node_Labels n ++ [label]) n) in *.
  assert (rows t1 !! k = Some n1) as Hk1 by by rewrite Hr1, lookup_insert_eq.
  destruct (AddLabelToNode_spec t1 k n1 label Ht1 Hk1) as (t2 & H2 & Ht2 & Hr2).
  destruct (RemoveLabelFromNode_spec t1 k n1 label Ht1 Hk1) as (t3 & H3 & Ht3 & Hr3).
  assert (label ∈ node_Labels n1) as Hin by (cbn; set_solver).
  rewrite bool_decide_eq_true_2 in Hr2, Hr3 by done.
  exists t1, t2, t3. repeat (split; [done|]). rewrite Hr3, Hr1, insert_insert_eq. cbn.
  rewrite List.filter_app, filter_lacks by done. cbn. rewrite bool_decide_eq_true_2 by done.
  cbn. rewrite app_nil_r. apply insert_id. rewrite Hk. by destruct n.
Qed.

(** The label operations refuse a node that is not stored, and change nothing. *)
Theorem labels_of_unknown_node t k label labels :
  healthy t → rows t !! k = None →
  AddLabelToNode k label t = (Throw ErrRecordNotFound, t) ∧
  RemoveLabelFromNode k label t = (Throw ErrRecordNotFound, t) ∧
  UpdateLabels k labels t = (Throw ErrRecordNotFound, t).
Proof.
  intros Ht Hk.
  assert (First (has_id k) t = Throw ErrRecordNotFound) as Hf.
  { destruct (first_ok (has_id k) t Ht) as [[x Hx]|]; [|done].
    apply first_row in Hx as [Hx Hp]. apply bool_decide_eq_true_1 in Hp. cbn in Hx.
    rewrite Hp in Hx. congruence. }
  destruct (update_ok (has_id k) (set_Labels labels) t Ht) as (m & t' & Hu & Ht'); [done..|].
  apply update_rows in Hu as Hm; [|done]. destruct Hm as [Hm _].
  assert (List.filter (has_id k) (values (rows t)) = []) as Hnil.
  { destruct List.filter as [|x l] eqn:E; [done|].
    assert (x ∈ List.filter (has_id k) (values (rows t))) as Hx by (rewrite E; left).
    apply elem_of_filter_values in Hx as [[j Hj] Hp]. apply bool_decide_eq_true_1 in Hp.
    pose proof (rows_pk _ _ _ Hj) as Hj'. cbn in Hj'. congruence. }
  rewrite Hnil in Hm. cbn in Hm. subst m.
  split; [|split]; (eapply transaction_rollback; [|done]).
  - apply M_bind_Throw. unfold query. by rewrite Hf.
  - apply M_bind_Throw. unfold query. by rewrite Hf.
  - unfold updateNodeLabels. rewrite (M_bind_Ret _ _ _ _ _ Hu). done.
Qed.

(** ** Removal *)

(** [DeleteServer] removes the server with that identifier and nothing else: in
    particular it leaves the peer that the gateway's stored configuration has for it. *)
Theorem DeleteServer_only t t' id :
  DeleteServer id t = (Ret tt, t') →
  ∀ k n, rows t' !! k = Some n ↔
         rows t !! k = Some n ∧ ¬ (k = id ∧ node_Role n = NodeRoleServer).
Proof.
  unfold DeleteServer. intros (m & t1 & Hd & H)%M_bind_Ret_inv k n. injection H as <-.
  apply delete_rows in Hd as [_ ->]. rewrite map_lookup_filter_Some. cbn.
  split; intros [Hk Hp]; (split; [done|]); pose proof (rows_pk _ _ _ Hk) as E; cbn in E.
  - intros [-> Hr]. unfold has_id, has_role in Hp.
    rewrite bool_decide_eq_true_2, bool_decide_eq_true_2 in Hp by done. done.
  - unfold has_id, has_role. rewrite <- bool_decide_and. apply bool_decide_eq_false_2. naive_solver.
Qed.
End queries.

(** ** Refusals *)

Section refusals.
  Context {G : Gorm string Node} {L : GormLaws string Node} {X : X509}.

(** When no subnet can be had (the one asked for is malformed or in use, or none is
    left), [CreateServer] reports why and leaves the table as it was, the certificate
    already issued included. *)
Theorem CreateServer_no_subnet t env force gw b' priv pub e :
  can_create t env gw b' priv pub → choose_subnet force t = Throw e →
  CreateServer env force t = (Throw e, t).
Proof.
  intros [Hok Ht Hgw (b & Hb & Hadd) Hkeys Huuid Hfresh Hroom] Hd.
  destruct (next_wg_ip_ok t Ht Hroom) as [i Hip].
  destruct (issue_known env gw b b' t Hok Ht) as (t1 & cb & Hissue & Ht1 & Hcb & Hr1 & Hc1);
    [by apply cores_lookup, Hgw|done|done|].
  unfold CreateServer, server_transaction. erewrite M_bind_Ret; [|by apply lift_Ret]. cbn beta iota.
  apply M_bind_Throw. eapply transaction_rollback; [|done].
  erewrite M_bind_Ret by (apply query_Ret; by rewrite (first_gateway t gw)).
  rewrite bool_decide_eq_false_2 by by apply (gateway_id t). cbn beta iota.
  erewrite M_bind_Ret by exact Hissue. destruct (gateway_public t gw Hok Hgw) as [-> ->].
  cbn [orb]. erewrite M_bind_Ret by by apply lift_Ret.
  apply M_bind_Throw. unfold lift. by rewrite Hd.
Qed.

(** A second gateway is refused, and [EnsureGatewayNode] returns the first one. *)
Theorem second_gateway t gw env ip port pubip pubport :
  ok t → healthy t → is_gateway_of t gw →
  CreateGateway env ip port pubip pubport t = (Throw ErrGatewayNodeAlreadyExists, t) ∧
  EnsureGatewayNode env ip port pubip pubport t = (Ret gw, t).
Proof.
  intros Hok Ht Hgw. pose proof (first_gateway t gw Hok Ht Hgw) as Hf. split.
  - unfold CreateGateway. erewrite M_bind_Ret; [|apply query_Ret; unfold exists_row; by rewrite Hf].
    done.
  - unfold EnsureGatewayNode.
    erewrite M_bind_Ret; [|apply query_Ret; unfold GetGatewayNode; by rewrite Hf]. done.
Qed.

(** An address space without a free address refuses clients and servers alike, and
    nothing changes. *)
Theorem no_address_left t env force gw b' priv pub :
  ok t → healthy t → is_gateway_of t gw →
  (∃ b, node_GatewayCertBundle gw = Some b ∧
    AddClient (env_seed env) (env_clock env 0%nat) (client_options env) b = Ret b') →
  GenerateKeyPair (env_run env) = Ret (priv, pub) →
  GetNextAssignableWGPrivateIP t = Throw ErrNoAvailableWGPrivateIPs →
  CreateClient env t = (Throw ErrNoAvailableWGPrivateIPs, t) ∧
  CreateServer env force t = (Throw ErrNoAvailableWGPrivateIPs, t).
Proof.
  intros Hok Ht Hgw (b & Hb & Hadd) Hkeys Hip. split.
  - unfold CreateClient, client_transaction. erewrite M_bind_Ret; [|by apply lift_Ret]. cbn beta iota.
    apply M_bind_Throw. eapply transaction_rollback; [|done].
    destruct (find_ok any_node t Ht) as [l Hl].
    erewrite M_bind_Ret by (apply query_Ret; by rewrite Hl).
    apply M_bind_Throw. unfold lift. by rewrite Hip.
  - destruct (issue_known env gw b b' t Hok Ht) as (t1 & cb & Hissue & Ht1 & Hcb & Hr1 & Hc1);
      [by apply cores_lookup, Hgw|done|done|].
    unfold CreateServer, server_transaction. erewrite M_bind_Ret; [|by apply lift_Ret]. cbn beta iota.
    apply M_bind_Throw. eapply transaction_rollback; [|done].
    erewrite M_bind_Ret by (apply query_Ret; by rewrite (first_gateway t gw)).
    rewrite bool_decide_eq_false_2 by by apply (gateway_id t). cbn beta iota.
    erewrite M_bind_Ret by exact Hissue. destruct (gateway_public t gw Hok Hgw) as [-> ->].
    cbn [orb]. apply M_bind_Throw. unfold lift. by rewrite Hip.
Qed.
End refusals.
