(* ===== verification/NodesDemo.v ===== *)
(** * A small network, made by running the repository

    A gateway, a server and a client created on the in-memory database with the toy
    certificate library: the concrete inputs at which the theorems on the repository
    are shown to apply. *)
From S2P Require Import Prelude GoStrings GoNet Mtls NodeTypes Gorm.
From S2P Require Import Terminal NodesRepo NodesNetwork NodesRefresh NodesCreate NodesQueries.

(** [wg genkey] and [wg pubkey] that print a line each. *)
Definition demo_run : Runner := λ c,
  if bool_decide (cmd_Command c = "wg") then MkRunResult ("private" +:+ newline) "" None
  else MkRunResult ("public" +:+ newline) "" None.

Definition demo_env (id : string) (seed : nat) : CreateEnv :=
  MkCreateEnv demo_run id seed (λ i, Z.of_nat i).

Lemma demo_empty_keyed : keyedb (∅ : gmap string Node) = true.
Proof. vm_compute. reflexivity. Qed.
Definition demo_table : Type := Table (Gorm := mem_gorm (K := string) (T := Node)).
Definition demo_empty : demo_table := exist _ (∅ : gmap string Node) demo_empty_keyed.
Definition demo_ip : IP := IPv4 203 0 113 7.

Definition demo_gateway : demo_table :=
  (EnsureGatewayNode (demo_env "gw" 0) demo_ip 51820 "203.0.113.7" 4060 demo_empty).2.
Definition demo_server : demo_table := (CreateServer (demo_env "s1" 10) None demo_gateway).2.
Definition demo_client : demo_table := (CreateClient (demo_env "c1" 20) demo_server).2.

Definition demo_node (id : string) (t : demo_table) : Node := default zero_Node (rows t !! id).

(** ** The networks are networks *)

Lemma demo_empty_ok : ok demo_empty.
Proof. exact network_ok_empty. Qed.

Lemma demo_gateway_ok : ok demo_gateway.
Proof.
  eapply triple_any; [by apply (EnsureGatewayNode_ok (demo_env "gw" 0))| |apply surjective_pairing].
  apply demo_empty_ok.
Qed.

Lemma demo_server_ok : ok demo_server.
Proof.
  eapply triple_any; [by apply (CreateServer_ok (demo_env "s1" 10))| |apply surjective_pairing].
  apply demo_gateway_ok.
Qed.

Lemma demo_client_ok : ok demo_client.
Proof.
  eapply triple_any; [by apply (CreateClient_ok (demo_env "c1" 20))| |apply surjective_pairing].
  apply demo_server_ok.
Qed.

Lemma demo_step_gateway : step demo_empty demo_gateway.
Proof.
  exact (StepEnsureGateway demo_empty demo_gateway (demo_env "gw" 0) demo_ip 51820 "203.0.113.7"
    4060 _ ltac:(discriminate) (surjective_pairing _)).
Qed.

Lemma demo_step_server : step demo_gateway demo_server.
Proof.
  exact (StepCreateServer demo_gateway demo_server (demo_env "s1" 10) None _
    ltac:(discriminate) (surjective_pairing _)).
Qed.

Lemma demo_step_client : step demo_server demo_client.
Proof.
  exact (StepCreateClient demo_server demo_client (demo_env "c1" 20) _
    ltac:(discriminate) (surjective_pairing _)).
Qed.

Definition demo_gw : Node := demo_node "gw" demo_client.

Lemma demo_is_gateway : is_gateway_of demo_client demo_gw.
Proof. split; vm_compute; reflexivity. Qed.

(** The gateway's bundle after a third client. *)
Definition demo_next : CreateEnv := demo_env "n1" 30.
Definition demo_bundle : FullGatewayBundle :=
  match node_GatewayCertBundle demo_gw with
  | Some b =>
      match AddClient (env_seed demo_next) (env_clock demo_next 0%nat) (client_options demo_next) b with
      | Ret b' => b'
      | _ => b
      end
  | None => MkGatewayBundle no_pem no_pem None 0
  end.

Lemma demo_adds : ∃ b, node_GatewayCertBundle demo_gw = Some b ∧
  AddClient (env_seed demo_next) (env_clock demo_next 0%nat) (client_options demo_next) b
  = Ret demo_bundle.
Proof. eexists. split; vm_compute; reflexivity. Qed.

Lemma demo_can_create :
  can_create demo_client demo_next demo_gw demo_bundle "private" "public".
Proof.
  split; [apply demo_client_ok|done|apply demo_is_gateway|apply demo_adds|..];
    vm_compute; (reflexivity || discriminate).
Qed.

(** A network with every address taken: the gateway and 253 clients. *)
Definition full_client (i : Z) : Node :=
  peer_node NodeRoleClient ("n" +:+ Itoa i) "private" "public" (wg_ip i) demo_gw
    (MkClientBundle no_pem no_pem 0) None.
Definition full_rows (l : list Z) : gmap string Node :=
  foldr (λ i m, <[node_ID (full_client i) := full_client i]> m) (rows demo_gateway) l.
Definition demo_full : demo_table := mem_put (full_rows (range 2 254)) demo_empty.

Lemma full_rows_ok l :
  NoDup l → Forall (λ i, 2 ≤ i ≤ 254) l →
  network_ok (core <$> full_rows l) ∧
  ∀ k a, (core <$> full_rows l) !! k = Some a → ∃ j, core_ip a = wg_ip j ∧ (j = 1 ∨ j ∈ l).
Proof.
  induction l as [|i l IH]; cbn [full_rows foldr]; intros Hnd Hl.
  - split; [apply demo_gateway_ok|]. intros k a Hk.
    apply (cores_lookup_inv demo_gateway) in Hk as (n & Hn & -> & _).
    assert (values (rows demo_gateway) = [demo_node "gw" demo_gateway]) as Hv
      by (vm_compute; reflexivity).
    assert (n ∈ values (rows demo_gateway)) as Hin by (apply elem_of_values; eauto).
    rewrite Hv in Hin. apply list_elem_of_singleton in Hin as ->. exists 1.
    split; [vm_compute; reflexivity|by left].
  - apply NoDup_cons in Hnd as [Hi Hnd]. apply Forall_cons in Hl as [Hb Hl].
    destruct (IH Hnd Hl) as [Hok Hips]. rewrite fmap_insert. split.
    + apply network_ok_insert; [done|done| |].
      * split; [|done]. exists i. unfold wgPrivateIPStart, wgPrivateIPEnd. split; [lia|done].
      * intros k b Hk. destruct (Hips k b Hk) as (j & Hj & Hor).
        split; [|split; [by intros []|done]]. rewrite Hj. cbn. unfold wg_ip, IPv4. intros [= <-].
        destruct Hor as [-> |]; [lia|done].
    + intros k a. rewrite lookup_insert_Some. intros [[_ <-]|[_ Hk]].
      * exists i. split; [done|]. right. left.
      * destruct (Hips k a Hk) as (j & Hj & Hor). exists j. split; [done|].
        destruct Hor; [by left|]. right. by right.
Qed.

Lemma demo_full_rows : rows demo_full = full_rows (range 2 254).
Proof. apply mem_rows_put, keyedb_spec. vm_compute. reflexivity. Qed.

Lemma demo_full_ok : ok demo_full.
Proof.
  unfold ok, cores. rewrite demo_full_rows. apply full_rows_ok; [apply NoDup_seqZ|].
  apply Forall_forall. intros i Hi%elem_of_seqZ. lia.
Qed.

Definition full_gw : Node := demo_node "gw" demo_full.
Definition full_bundle : FullGatewayBundle :=
  match node_GatewayCertBundle full_gw with
  | Some b =>
      match AddClient (env_seed demo_next) (env_clock demo_next 0%nat) (client_options demo_next) b with
      | Ret b' => b'
      | _ => b
      end
  | None => MkGatewayBundle no_pem no_pem None 0
  end.

(** ** The theorems at work *)

Lemma no_address_left_witness :
  CreateClient demo_next demo_full = (Throw ErrNoAvailableWGPrivateIPs, demo_full).
Proof.
  refine (proj1 (no_address_left demo_full demo_next None full_gw full_bundle "private" "public"
    demo_full_ok I _ _ _ _)).
  - split; vm_compute; reflexivity.
  - eexists. split; vm_compute; reflexivity.
  - vm_compute. reflexivity.
  - vm_compute. reflexivity.
Defined.

Lemma reachable_network_witness : ok demo_client.
Proof.
  apply (reachable_network demo_empty demo_client); [vm_compute; reflexivity|].
  eapply rtc_l; [exact demo_step_gateway|]. eapply rtc_l; [exact demo_step_server|].
  eapply rtc_l; [exact demo_step_client|].
  apply rtc_refl.
Defined.

Lemma updateNodes_wires_witness :
  ∃ t' gw', updateNodes demo_client = (Ret tt, t') ∧ rows t' !! "gw" = Some gw' ∧
    length (wg_Peers (node_WGConfig gw')) = 2%nat.
Proof.
  destruct (updateNodes_wires demo_client demo_gw demo_client_ok I demo_is_gateway)
    as (t' & gw' & Hu & _ & Hgw & Hp & _).
  exists t', gw'. split; [exact Hu|]. split; [exact Hgw|]. rewrite Hp. vm_compute. reflexivity.
Defined.

Lemma updateNodes_no_gateway_witness :
  updateNodes demo_empty = (Throw ErrGatewayNodeNotFound, demo_empty).
Proof.
  refine (updateNodes_no_gateway demo_empty I _). intros k n H. vm_compute in H. by destruct k.
Defined.

Lemma CreateServer_creates_witness :
  ∃ t' n, CreateServer demo_next (Some "172.25.0.0/16") demo_client = (Ret n, t') ∧
    node_Role n = NodeRoleServer ∧
    node_DockerSubnet n = Some (docker_subnet 25).
Proof.
  destruct (CreateServer_creates demo_client demo_next (Some "172.25.0.0/16") demo_gw demo_bundle
    "private" "public" (docker_subnet 25) demo_can_create) as (t' & n & Hc & _ & Hr & Hd & _).
  - vm_compute. reflexivity.
  - exact (ex_intro _ t' (ex_intro _ n (conj Hc (conj Hr Hd)))).
Defined.

Lemma CreateClient_creates_witness :
  ∃ t' n, CreateClient demo_next demo_client = (Ret n, t') ∧ node_Role n = NodeRoleClient.
Proof.
  destruct (CreateClient_creates demo_client demo_next demo_gw demo_bundle "private" "public"
    demo_can_create) as (t' & n & Hc & _ & Hr & _).
  exact (ex_intro _ t' (ex_intro _ n (conj Hc Hr))).
Defined.

Lemma CreateServer_no_subnet_witness :
  CreateServer demo_next (Some "172.20.0.0/16") demo_client
  = (Throw (Errorf "docker subnet already in use"), demo_client).
Proof.
  refine (CreateServer_no_subnet demo_client demo_next (Some "172.20.0.0/16") demo_gw demo_bundle
    "private" "public" (Errorf "docker subnet already in use") demo_can_create _).
  vm_compute. reflexivity.
Defined.

Lemma second_gateway_witness :
  EnsureGatewayNode demo_next demo_ip 51820 "203.0.113.9" 4060 demo_client
  = (Ret demo_gw, demo_client).
Proof.
  exact (proj2 (second_gateway demo_client demo_gw demo_next demo_ip 51820 "203.0.113.9" 4060
    demo_client_ok I demo_is_gateway)).
Defined.

Lemma GetNextAssignableWGPrivateIP_least_witness :
  is_least_free (wg_ip_used (values (rows demo_client))) 1 254 wg_ip ErrNoAvailableWGPrivateIPs
    (GetNextAssignableWGPrivateIP demo_client).
Proof. exact (GetNextAssignableWGPrivateIP_least demo_client I). Defined.

Lemma GetNextAssignableDockerSubnet_least_witness :
  is_least_free (subnet_used (List.filter server_or_gateway (values (rows demo_client)))) 20 31
    docker_subnet ErrNoAvailableDockerSubnets (GetNextAssignableDockerSubnet demo_client).
Proof. exact (GetNextAssignableDockerSubnet_least demo_client I). Defined.

Lemma TotalAvailableWireguardClients_agrees_witness :
  ∃ total available, TotalAvailableWireguardClients demo_client = Ret (total, available) ∧
    total + available = 254.
Proof.
  destruct (TotalAvailableWireguardClients_agrees demo_client demo_client_ok I)
    as (total & available & Ht & _ & Hsum & _).
  exact (ex_intro _ total (ex_intro _ available (conj Ht Hsum))).
Defined.

Lemma TotalAndAvailableDockerSubnets_reserves_one_witness :
  ∃ n, GetNextAssignableDockerSubnet demo_client = Ret (docker_subnet n).
Proof.
  refine (TotalAndAvailableDockerSubnets_reserves_one demo_client demo_gw 2 10
    demo_client_ok I demo_is_gateway _ _); [vm_compute; reflexivity|lia].
Defined.

Lemma AddLabel_RemoveLabel_witness :
  ∃ t1 t3, AddLabelToNode "s1" "x" demo_client = (Ret tt, t1) ∧
    RemoveLabelFromNode "s1" "x" t1 = (Ret tt, t3) ∧ rows t3 = rows demo_client.
Proof.
  destruct (AddLabel_RemoveLabel demo_client "s1" (demo_node "s1" demo_client) "x" I)
    as (t1 & _ & t3 & H1 & _ & _ & _ & H3 & Hr).
  - vm_compute. reflexivity.
  - vm_compute. apply not_elem_of_nil.
  - exact (ex_intro _ t1 (ex_intro _ t3 (conj H1 (conj H3 Hr)))).
Defined.

Lemma labels_of_unknown_node_witness :
  AddLabelToNode "zz" "x" demo_client = (Throw ErrRecordNotFound, demo_client).
Proof.
  refine (proj1 (labels_of_unknown_node demo_client "zz" "x" [] I _)). vm_compute. reflexivity.
Defined.

Lemma DeleteServer_only_witness :
  rows (DeleteServer "s1" demo_client).2 !! "gw" = Some demo_gw.
Proof.
  refine (proj2 (DeleteServer_only demo_client (DeleteServer "s1" demo_client).2 "s1" _ "gw"
    demo_gw) _).
  - vm_compute. reflexivity.
  - split; [vm_compute; reflexivity|]. by intros [? _].
Defined.

(** A subnet that overlaps one in use is accepted: only the texts are compared. *)
Example overlapping_subnet_accepted :
  choose_subnet (Some "172.20.5.0/16") demo_client
  = Ret (MkIPNet (IPv4 172 20 5 0) (CIDRMask32 16)) ∧
  node_DockerSubnet (demo_node "s1" demo_client) = Some (docker_subnet 20).
Proof. split; vm_compute; reflexivity. Qed.
