(* ===== verification/NodesReference.v ===== *)
(** * What [updateNodes] computes, up to order

    The database hands the nodes out in an order of its own, and the peers and the DNS servers
    that [updateNodes] writes ([NodesRefresh.v]) follow it. Up to that order the result is a
    function of the table, and refreshing twice is refreshing once. *)
From S2P Require Import Prelude GoNet NodeTypes Gorm NodesRepo NodesNetwork.
From S2P Require Import NodesRefresh NodesCreate NodesDemo.

Definition peers_of (n : Node) : list WGConfigPeer := wg_Peers (node_WGConfig n).
Definition dns_of (n : Node) : list IPNet := if_DNS (wg_Interface (node_WGConfig n)).

(** Nodes that differ at most in the order of their peers and DNS servers. *)
Record same_config (n m : Node) : Prop := {
  same_rest : set_network [] [] n = set_network [] [] m;
  same_peers : peers_of n ≡ₚ peers_of m;
  same_dns : dns_of n ≡ₚ dns_of m;
}.
#[export] Instance same_config_equivalence : Equivalence same_config.
Proof.
  split.
  - by intros n.
  - intros n m [Hr Hp Hd]. by split.
  - intros n m k [Hr Hp Hd] [Hr' Hp' Hd']. split; by etransitivity.
Qed.

Definition same_table (m1 m2 : gmap string Node) : Prop :=
  ∀ k, option_Forall2 same_config (m1 !! k) (m2 !! k).

#[export] Instance filterNodes_proper : Proper ((≡ₚ) ==> (=) ==> (≡ₚ)) filterNodes.
Proof. intros l l' Hl roles _ <-. unfold filterNodes. by rewrite Hl. Qed.
#[export] Instance refreshed_proper gw : Proper ((≡ₚ) ==> (=) ==> same_config) (refreshed gw).
Proof.
  intros l l' Hl n _ <-. unfold refreshed. destruct (node_Role n); try reflexivity.
  split; [done|..]; cbn; by rewrite Hl.
Qed.

(** ** A refreshed node looks to the others as it did *)

Section again.
  Context (gw : Node) (l : list Node).

Lemma refreshed_role n : node_Role (refreshed gw l n) = node_Role n.
Proof. unfold refreshed. by destruct (node_Role n) eqn:E. Qed.
Lemma refreshed_wg_ip n : node_wg_ip (refreshed gw l n) = node_wg_ip n.
Proof. unfold refreshed. by destruct (node_Role n). Qed.
Lemma refreshed_peer_of n : peer_of (refreshed gw l n) = peer_of n.
Proof.
  unfold peer_of, routed. rewrite refreshed_role, refreshed_wg_ip. unfold refreshed.
  by destruct (node_Role n).
Qed.
Lemma refreshed_to_gateway n allowed : peer_to_gateway (refreshed gw l n) allowed = peer_to_gateway n allowed.
Proof. unfold peer_to_gateway, gateway_endpoint, refreshed. by destruct (node_Role n). Qed.

Lemma filterNodes_refreshed l' roles :
  filterNodes (map (refreshed gw l) l') roles = map (refreshed gw l) (filterNodes l' roles).
Proof.
  unfold filterNodes. induction l' as [|n l' IH]; [done|]. cbn. rewrite refreshed_role, IH.
  by case_bool_decide.
Qed.

Lemma refreshed_twice n :
  refreshed (refreshed gw l gw) (map (refreshed gw l) l) (refreshed gw l n) = refreshed gw l n.
Proof.
  unfold refreshed at 1. rewrite refreshed_role, refreshed_wg_ip, !refreshed_to_gateway, !filterNodes_refreshed,
    !map_map, (map_ext _ _ refreshed_peer_of).
  rewrite (map_ext (λ x, (host ∘ node_wg_ip) (refreshed gw l x)) (host ∘ node_wg_ip))
    by (intros x; cbn; by rewrite refreshed_wg_ip).
  unfold refreshed. by destruct (node_Role n).
Qed.
End again.

Lemma values_fmap (f : Node → Node) (m : gmap string Node) : values (f <$> m) ≡ₚ map f (values m).
Proof.
  unfold values. rewrite map_to_list_fmap, <- list_fmap_compose. clear.
  induction (map_to_list m) as [|[k n] l IH]; [done|]. cbn. by rewrite IH.
Qed.

(** The reference: every node refreshed in the light of the whole table. *)
Definition wired (gw : Node) (rows : gmap string Node) : gmap string Node :=
  refreshed gw (values rows) <$> rows.

Section reference.
  Context {G : Gorm string Node} {L : GormLaws string Node}.

(** C9: [updateNodes] computes, up to the order of peers and DNS servers, the network in which
    every node is written for the nodes there are; a second refresh finds nothing to do. *)
Theorem updateNodes_reference t gw :
  ok t → healthy t → is_gateway_of t gw →
  ∃ t1 t2, updateNodes t = (Ret tt, t1) ∧ same_table (rows t1) (wired gw (rows t)) ∧
    updateNodes t1 = (Ret tt, t2) ∧ same_table (rows t2) (rows t1).
Proof.
  intros Hok Ht Hgw. destruct (updateNodes_spec t gw) as (t1 & l & Hu & Ht1 & Hl & Hr); [done..|].
  assert (ok t1) as Hok1 by (unfold ok in *; by erewrite refreshed_cores).
  assert (is_gateway_of t1 (refreshed gw l gw)) as Hgw1.
  { destruct Hgw as [Hgw Hrole]. split; [|by rewrite refreshed_role].
    by rewrite Hr, refreshed_id, lookup_fmap, Hgw. }
  destruct (updateNodes_spec t1 (refreshed gw l gw)) as (t2 & l2 & Hu2 & _ & Hl2 & Hr2); [done..|].
  exists t1, t2. split; [done|]. split; [|split; [done|]].
  - intros k. unfold wired. rewrite Hr, !lookup_fmap. destruct (rows t !! k); constructor. by rewrite Hl.
  - intros k. rewrite Hr2, lookup_fmap, Hr, !lookup_fmap. destruct (rows t !! k) as [n|]; constructor.
    rewrite Hl2, Hr, values_fmap, <- Hl. by rewrite refreshed_twice.
Qed.
End reference.

Lemma updateNodes_reference_witness :
  ∃ t1, updateNodes demo_client = (Ret tt, t1) ∧ same_table (rows t1) (wired demo_gw (rows demo_client)).
Proof.
  destruct (updateNodes_reference demo_client demo_gw demo_client_ok I demo_is_gateway)
    as (t1 & t2 & Hu & Hs & _).
  exists t1. split; [exact Hu|exact Hs].
Defined.
