(* ===== verification/PublicServices.v ===== *)
(** * [internal/publicservices]: published services and their Caddy entries

    The service record, the Caddyfile entry written for it, and the repository that
    stores the services by public protocol, host and port. *)
From S2P Require Import Prelude GoStrings GoNet Gorm.

Definition PublicServiceParamType : Type := string.
Definition PublicServiceParamTypeCaddyFreeText : PublicServiceParamType := "caddyFreeTextParam".

Record PublicServiceParam : Type := MkParam {
  ParamType : PublicServiceParamType;
  ParamValue : string;
}.

(** [PublicService].  The columns [CreatedAt] and [UpdatedAt] are read by nothing. *)
Record PublicService : Type := MkPublicService {
  PublishedByNodeID : option string;
  LocalProtocol : string;
  LocalHost : string;
  LocalPort : Z;
  PublicProtocol : string;
  PublicHost : string;
  PublicPort : Z;
  Params : list PublicServiceParam;
}.

#[export] Instance PublicServiceParam_eq_dec : EqDecision PublicServiceParam.
Proof. solve_decision. Defined.
#[export] Instance PublicService_eq_dec : EqDecision PublicService.
Proof. solve_decision. Defined.

Definition set_Params (ps : list PublicServiceParam) (s : PublicService) : PublicService :=
  MkPublicService (PublishedByNodeID s) (LocalProtocol s) (LocalHost s) (LocalPort s)
    (PublicProtocol s) (PublicHost s) (PublicPort s) ps.

(** ** Caddy entries *)

Definition space : string := " ".

(** [formatBlockParams] *)
Definition formatBlockParams (blockParams : list PublicServiceParam)
    (levelSpacesMain levelSpacesClosing : nat) : string :=
  match blockParams with
  | [] => ""
  | _ =>
      "{" +:+ newline +:+
      Join (map (λ p, Repeat space levelSpacesMain +:+ ParamValue p) blockParams) newline +:+
      newline +:+ Repeat space levelSpacesClosing +:+ "}"
  end.

(** [0.0.0.0] in place of the gateway's own public address. *)
Definition bind_host (host gatewayPublicIP : string) : string :=
  if bool_decide (host = gatewayPublicIP) then "0.0.0.0" else host.

(** The site address of a layer 7 entry. *)
Definition publicHostname (publicProtocol publicHost : string) (publicPort : Z) : Out string :=
  let isIP := negb (bool_decide (ParseIP publicHost = [])) in
  let plain := publicProtocol +:+ "://" +:+ publicHost in
  let full := plain +:+ ":" +:+ Itoa publicPort in
  if bool_decide (publicProtocol = "https") then
    if isIP then Throw (Errorf "https on ip address is not supported")
    else Ret (if publicPort =? 443 then plain else full)
  else if bool_decide (publicProtocol = "http") && negb (publicPort =? 80) then
    Ret (if isIP then ":" +:+ Itoa publicPort else full)
  else Ret plain.

(** [s.AsCaddyConfigEntry(gatewayPublicIP)] *)
Definition AsCaddyConfigEntry (gatewayPublicIP : string) (s : PublicService) : Out string :=
  if (bool_decide (LocalProtocol s = "udp") && bool_decide (PublicProtocol s = "tcp")) ||
     (bool_decide (LocalProtocol s = "tcp") && bool_decide (PublicProtocol s = "udp"))
  then Throw (Errorf "for layer 4, local protocol and public protocol must be the same (udp -> udp or tcp -> tcp)")
  else if bool_decide (LocalHost s = "") then Throw (Errorf "local host cannot be empty")
  else if bool_decide (PublicHost s = "") then Throw (Errorf "public host cannot be empty")
  else
    let publicHost := bind_host (PublicHost s) gatewayPublicIP in
    let localHost := bind_host (LocalHost s) gatewayPublicIP in
    result ←
      (if bool_decide (PublicProtocol s = "https") || bool_decide (PublicProtocol s = "http") then
         hostname ← publicHostname (PublicProtocol s) publicHost (PublicPort s);
         let reverseProxy := TrimSpace (
           "reverse_proxy " +:+ LocalProtocol s +:+ "://" +:+ localHost +:+ ":" +:+
           Itoa (LocalPort s) +:+ " " +:+ formatBlockParams (Params s) 8 4) in
         mret (newline +:+ hostname +:+ " {" +:+ newline +:+
               "    " +:+ reverseProxy +:+ newline +:+ "}" +:+ newline)
       else if bool_decide (PublicProtocol s = "udp") || bool_decide (PublicProtocol s = "tcp") then
         let upstream := TrimSpace (
           "upstream " +:+ LocalProtocol s +:+ "/" +:+ localHost +:+ ":" +:+
           Itoa (LocalPort s) +:+ " " +:+ formatBlockParams (Params s) 16 12) in
         mret (newline +:+
               "        " +:+ PublicProtocol s +:+ "/" +:+ "0.0.0.0" +:+ ":" +:+
               Itoa (PublicPort s) +:+ " {" +:+ newline +:+
               "            route {" +:+ newline +:+
               "                proxy {" +:+ newline +:+
               "                    " +:+ upstream +:+ newline +:+
               "                }" +:+ newline +:+
               "            }" +:+ newline +:+
               "        }" +:+ newline)
       else
         mret ("# service publication: " +:+ PublicProtocol s +:+ "://" +:+ publicHost +:+ ":" +:+
               Itoa (PublicPort s) +:+ " (public) -> " +:+ LocalProtocol s +:+ "://" +:+
               localHost +:+ ":" +:+ Itoa (LocalPort s) +:+ " (local)"));
    mret (TrimRight_tab_space result).

(** ** The repository *)

Definition ErrServiceNotFound : error :=
  Sentinel "ErrServiceNotFound" "public service not found".
Definition ErrParamNotFound : error :=
  Sentinel "ErrParamNotFound" "service parameter not found".
Definition ErrParamExists : error :=
  Sentinel "ErrParamExists" "service parameter already exists".

(** The primary key: protocol, host and port. *)
Definition ServiceKey : Type := string * string * Z.
Definition service_key (s : PublicService) : ServiceKey :=
  (PublicProtocol s, PublicHost s, PublicPort s).

#[export] Instance Service_model : Model ServiceKey PublicService := {|
  pk := service_key;
  pk_zero '(proto, host, port) :=
    bool_decide (proto = "") || bool_decide (host = "") || (port =? 0);
  clash _ _ := false;
  on_create s := s;
  pk_on_create _ := eq_refl;
|}.

Definition at_key (k : ServiceKey) (s : PublicService) : bool := bool_decide (service_key s = k).
Definition same_param (ty : PublicServiceParamType) (value : string) (p : PublicServiceParam) : bool :=
  bool_decide (ParamType p = ty) && bool_decide (ParamValue p = value).

Section repository.
  Context `{G : Gorm ServiceKey PublicService}.

(** [r.Save(service)] of the service repository. *)
Definition SaveService (service : PublicService) : M Table unit :=
  existing ← query (λ db, match First (at_key (service_key service)) db with
                          | Ret s => Ret (inr s)
                          | Throw e => Ret (inl e)
                          | Panic p => Panic p
                          | Exited p => Exited p
                          end);
  match existing with
  | inl e =>
      if bool_decide (e = ErrRecordNotFound) then _ ← Create service; mret tt else throw e
  | inr _ => _ ← Save service; mret tt
  end.

(** [r.GetAll()] *)
Definition GetAllServices (db : Table) : Out (list PublicService) :=
  match Find (λ _, true) db with
  | Throw e => if errors_Is e ErrRecordNotFound then Ret [] else Throw e
  | o => o
  end.

(** [r.Delete(..)]: an error reads as "nothing deleted". *)
Definition DeleteService (k : ServiceKey) : M Table bool :=
  r ← attempt (Delete (at_key k));
  match r with
  | inl _ => mret false
  | inr affected => mret (0 <? affected)
  end.

(** [r.Get(..)] *)
Definition GetService (k : ServiceKey) (db : Table) : Out PublicService :=
  match First (at_key k) db with
  | Throw e => if bool_decide (e = ErrRecordNotFound) then Throw ErrServiceNotFound else Throw e
  | o => o
  end.

(** [result.Error == nil && result.RowsAffected > 0] of [r.db.Save(&service)]. *)
Definition save_changed (service : PublicService) : M Table bool :=
  r ← attempt (Save service);
  match r with
  | inl _ => mret false
  | inr affected => mret (0 <? affected)
  end.

(** [r.AddParam(..)] and [r.RemoveParam(..)] *)
Definition AddParam (k : ServiceKey) (ty : PublicServiceParamType) (value : string)
    : M Table bool :=
  r ← attempt (query (First (at_key k)));
  match r with
  | inl _ => mret false
  | inr service =>
      if existsb (same_param ty value) (Params service) then mret false
      else save_changed (set_Params (Params service ++ [MkParam ty value]) service)
  end.
Definition RemoveParam (k : ServiceKey) (ty : PublicServiceParamType) (value : string)
    : M Table bool :=
  r ← attempt (query (First (at_key k)));
  match r with
  | inl _ => mret false
  | inr service =>
      if existsb (same_param ty value) (Params service)
      then save_changed (set_Params
             (List.filter (λ p, negb (same_param ty value p)) (Params service)) service)
      else mret false
  end.
End repository.

(** ** Entries are blocks *)

(** How deep in braces a text ends that starts at depth [n]; [None] when it closes a
    brace that is not open. *)
Fixpoint brace_depth (s : string) (n : nat) : option nat :=
  match s with
  | EmptyString => Some n
  | String c s' =>
      if Ascii.eqb c "{" then brace_depth s' (S n)
      else if Ascii.eqb c "}" then match n with O => None | S m => brace_depth s' m end
      else brace_depth s' n
  end.
Definition balanced (s : string) : Prop := brace_depth s 0 = Some 0%nat.
Definition no_brace (c : ascii) : bool := negb (Ascii.eqb c "{") && negb (Ascii.eqb c "}").

(** The texts of a service are free of braces, and its parameters close what they open. *)
Definition tidy (s : PublicService) : Prop :=
  str_all no_brace (LocalProtocol s) = true ∧ str_all no_brace (LocalHost s) = true ∧
  str_all no_brace (PublicProtocol s) = true ∧ str_all no_brace (PublicHost s) = true ∧
  Forall (λ p, balanced (ParamValue p)) (Params s).

Lemma brace_depth_app a b n : brace_depth (a +:+ b) n = brace_depth a n ≫= brace_depth b.
Proof.
  revert n. induction a as [|c a IH]; intros n; [done|]. rewrite str_app_cons. cbn.
  destruct (Ascii.eqb c "{"); [apply IH|]. destruct (Ascii.eqb c "}"); [|apply IH].
  destruct n; [done|apply IH].
Qed.

Lemma brace_depth_neutral s n : str_all no_brace s = true → brace_depth s n = Some n.
Proof.
  induction s as [|c s IH]; [done|]. cbn. unfold no_brace. intros [Hc Hs]%andb_true_iff.
  apply andb_true_iff in Hc as [Ho%negb_true_iff Hc%negb_true_iff]. rewrite Ho, Hc. auto.
Qed.

Lemma brace_depth_mono s k n m :
  brace_depth s n = Some m → brace_depth s (n + k)%nat = Some (m + k)%nat.
Proof.
  revert n. induction s as [|c s IH]; cbn; intros n H; [by injection H as ->|].
  destruct (Ascii.eqb c "{"); [by apply (IH (S n))|].
  destruct (Ascii.eqb c "}"); [|by apply IH]. destruct n; [done|]. by apply IH.
Qed.

Lemma balanced_anywhere s n : balanced s → brace_depth s n = Some n.
Proof. intros H. by apply (brace_depth_mono s n 0 0). Qed.

Lemma digits_no_brace s : str_all is_digit s = true → str_all no_brace s = true.
Proof.
  apply str_all_impl. intros c Hc. unfold no_brace. apply andb_true_iff.
  split; apply negb_true_iff, Ascii.eqb_neq; intros ->; vm_compute in Hc; discriminate.
Qed.

Lemma Itoa_no_brace z : str_all no_brace (Itoa z) = true.
Proof.
  unfold Itoa. destruct (Z.ltb_spec z 0); cbn [str_all].
  - by apply digits_no_brace, digits_all.
  - by apply digits_no_brace, digits_all.
Qed.

(** Over the text in front of [+:+]: a balanced one, one that opens a brace, one that
    closes it. *)
Lemma brace_over a b n : balanced a → brace_depth (a +:+ b) n = brace_depth b n.
Proof. intros H. by rewrite brace_depth_app, balanced_anywhere. Qed.

Lemma brace_open a b n : brace_depth a 0 = Some 1%nat → brace_depth (a +:+ b) n = brace_depth b (S n).
Proof. intros H. rewrite brace_depth_app. by rewrite (brace_depth_mono a n 0 1 H : brace_depth a n = _). Qed.

Lemma brace_close a b n : brace_depth a 1 = Some 0%nat → brace_depth (a +:+ b) (S n) = brace_depth b n.
Proof. intros H. rewrite brace_depth_app. by rewrite (brace_depth_mono a n 1 0 H : brace_depth a (S n) = _). Qed.

Lemma balanced_plain s : str_all no_brace s = true → balanced s.
Proof. apply brace_depth_neutral. Qed.

Create HintDb braces.
#[export] Hint Resolve balanced_plain Itoa_no_brace str_all_Repeat : braces.
#[export] Hint Extern 1 (str_all _ _ = true) => reflexivity : braces.
Ltac braces :=
  repeat first
    [ rewrite brace_over by eauto with braces
    | rewrite brace_open by reflexivity
    | rewrite brace_close by reflexivity ].

Lemma white_space_no_brace : Forall (λ w, str_all no_brace w = true) white_space.
Proof. repeat constructor. Qed.

Lemma brace_depth_TrimSpace s n : brace_depth (TrimSpace s) n = brace_depth s n.
Proof.
  destruct (TrimSpace_split no_brace s white_space_no_brace) as (a & b & E & Ha & Hb).
  set (t := TrimSpace s) in *. clearbody t. subst s.
  rewrite !brace_depth_app, (brace_depth_neutral a) by done. cbn [mbind option_bind].
  rewrite brace_depth_app. destruct (brace_depth t n); cbn [mbind option_bind]; [|done].
  by rewrite brace_depth_neutral.
Qed.

Lemma brace_depth_TrimRight s n : brace_depth (TrimRight_tab_space s) n = brace_depth s n.
Proof.
  destruct (trim_end_split no_brace [tab; " "%string] s) as (p & E & Hp); [repeat constructor|].
  unfold TrimRight_tab_space. set (t := trim_end _ s) in *. clearbody t. subst s.
  rewrite brace_depth_app. destruct (brace_depth t n); cbn [mbind option_bind]; [|done].
  by rewrite brace_depth_neutral.
Qed.

Lemma brace_depth_block ps k1 k2 n :
  Forall (λ p, balanced (ParamValue p)) ps →
  brace_depth (formatBlockParams ps k1 k2) n = Some n.
Proof.
  intros Hps. destruct ps as [|p ps]; [done|]. unfold formatBlockParams.
  assert (∀ ps m, Forall (λ p, balanced (ParamValue p)) ps →
    brace_depth (Join (map (λ p, Repeat space k1 +:+ ParamValue p) ps) newline) m = Some m) as Hj.
  { clear. intros ps m Hps. induction Hps as [|p ps Hp _ IH]; [done|].
    destruct ps as [|q ps]; cbn [map Join] in *.
    - braces. by apply balanced_anywhere.
    - change (Join (?x :: ?y :: ?l) ?c) with (x +:+ c +:+ Join (y :: l) c).
      rewrite str_app_assoc. braces. exact IH. }
  braces. rewrite brace_depth_app, Hj by done. cbn [mbind option_bind]. braces.
  by apply (brace_depth_mono "}" n 1 0).
Qed.

Lemma bind_host_tidy h ip : str_all no_brace h = true → str_all no_brace (bind_host h ip) = true.
Proof. intros H. unfold bind_host. by case_bool_decide. Qed.
#[export] Hint Resolve bind_host_tidy : braces.

Lemma publicHostname_tidy proto host port h :
  str_all no_brace proto = true → str_all no_brace host = true →
  publicHostname proto host port = Ret h → str_all no_brace h = true.
Proof.
  intros Hp Hh H. unfold publicHostname in H.
  assert (∀ a b, str_all no_brace a = true → str_all no_brace b = true →
    str_all no_brace (a +:+ b) = true) as Happ.
  { intros a b Ha Hb. by rewrite str_all_app, Ha, Hb. }
  pose proof (Itoa_no_brace port) as Hi.
  repeat case_match; simplify_eq; repeat (apply Happ); done.
Qed.

(** The Caddyfile entry of a service whose texts are free of braces and whose
    parameters close the braces they open is itself balanced, so that no entry reaches
    into the next. *)
Theorem entry_balanced ip s e : tidy s → AsCaddyConfigEntry ip s = Ret e → balanced e.
Proof.
  intros (Hlp & Hlh & Hpp & Hph & Hps) H. unfold AsCaddyConfigEntry in H.
  destruct (_ || _) in H; [done|]. do 2 (case_bool_decide; [done|]).
  apply bind_Ret_inv in H as (r & Hr & H). injection H as <-.
  unfold balanced. rewrite brace_depth_TrimRight. destruct (_ || _) in Hr.
  - apply bind_Ret_inv in Hr as (h & Hh & Hr). injection Hr as <-.
    apply publicHostname_tidy in Hh; [|done|by apply bind_host_tidy].
    braces. rewrite brace_depth_app, brace_depth_TrimSpace.
    braces. by rewrite brace_depth_block.
  - destruct (_ || _) in Hr; injection Hr as <-.
    + braces. rewrite brace_depth_app, brace_depth_TrimSpace. braces.
      by rewrite brace_depth_block.
    + braces. done.
Qed.

Definition set_PublicHost (h : string) (s : PublicService) : PublicService :=
  MkPublicService (PublishedByNodeID s) (LocalProtocol s) (LocalHost s) (LocalPort s)
    (PublicProtocol s) h (PublicPort s) (Params s).

(** The entry of a [tcp] or [udp] service says nothing of the public host: it always
    listens on 0.0.0.0, so two services that differ in the host alone get one and the
    same entry. *)
Theorem layer4_ignores_public_host ip s h :
  PublicProtocol s = "tcp" ∨ PublicProtocol s = "udp" → PublicHost s ≠ "" → h ≠ "" →
  AsCaddyConfigEntry ip (set_PublicHost h s) = AsCaddyConfigEntry ip s.
Proof.
  intros Hp Hs Hh. unfold AsCaddyConfigEntry. cbn [set_PublicHost PublicHost PublicProtocol
    LocalProtocol LocalHost LocalPort PublicPort Params].
  rewrite (bool_decide_eq_false_2 (h = "")), (bool_decide_eq_false_2 (PublicHost s = "")) by done.
  by destruct Hp as [-> | ->].
Qed.

Section repository_properties.
  Context {G : Gorm ServiceKey PublicService} {L : GormLaws ServiceKey PublicService}.

Lemma at_key_pk k s : at_key k s = bool_decide (pk s = k).
Proof. reflexivity. Qed.

Lemma GetService_lookup t k :
  healthy t →
  GetService k t = match rows t !! k with Some s => Ret s | None => Throw ErrServiceNotFound end.
Proof.
  intros Ht. unfold GetService. rewrite (first_key _ _ (at_key_pk k)) by done.
  by destruct (rows t !! k).
Qed.

Lemma no_service_clash (m : gmap ServiceKey PublicService) s : no_clash m s.
Proof. by intros k y _ _. Qed.

Lemma SaveService_row t s :
  healthy t → pk_zero (service_key s) = false →
  ∃ t', SaveService s t = (Ret tt, t') ∧ healthy t' ∧ rows t' = <[service_key s := s]> (rows t).
Proof.
  intros Ht Hz. unfold SaveService, mbind, M_bind, query.
  rewrite (first_key _ _ (at_key_pk _)) by done. destruct (rows t !! service_key s) as [x|] eqn:E.
  - destruct (save_row s t Ht Hz (no_service_clash _ _)) as (t' & Hs & Ht' & Hr).
    exists t'. split; [by rewrite Hs|]. by split.
  - destruct (create_ok s t Ht E (no_service_clash _ _)) as (t' & Hc & Ht').
    pose proof (create_rows _ _ _ _ Hc) as (_ & _ & Hr). exists t'.
    rewrite bool_decide_eq_true_2 by done. split; [by rewrite Hc|]. by split.
Qed.

Lemma DeleteService_row t k :
  healthy t →
  ∃ t', DeleteService k t = (Ret (bool_decide (is_Some (rows t !! k))), t') ∧ healthy t' ∧
        rows t' = delete k (rows t).
Proof.
  intros Ht. destruct (delete_ok (at_key k) t Ht) as (n & t' & Hd & Ht').
  pose proof (delete_rows _ _ _ _ Hd) as [-> Hr].
  rewrite (filter_key _ _ (at_key_pk k)) in Hr.
  exists t'. split; [|by split]. unfold DeleteService, mbind, M_bind, attempt. rewrite Hd. cbn.
  by rewrite (count_key _ _ (at_key_pk k)).
Qed.

(** Saving a service stores it whole under its public protocol, host and port,
    whether or not there was one before (whose parameters are then gone), and reading
    it back gives it. *)
Theorem SaveService_stores t s :
  healthy t → pk_zero (service_key s) = false →
  ∃ t', SaveService s t = (Ret tt, t') ∧ healthy t' ∧
        rows t' = <[service_key s := s]> (rows t) ∧ GetService (service_key s) t' = Ret s.
Proof.
  intros Ht Hz. destruct (SaveService_row t s Ht Hz) as (t' & Hs & Ht' & Hr).
  exists t'. repeat (split; [done|]). by rewrite GetService_lookup, Hr, lookup_insert_eq.
Qed.

(** Deleting a service reports whether there was one, removes it and no other, and
    afterwards there is none to read. *)
Theorem DeleteService_removes t k :
  healthy t →
  ∃ t', DeleteService k t = (Ret (bool_decide (is_Some (rows t !! k))), t') ∧ healthy t' ∧
        rows t' = delete k (rows t) ∧ GetService k t' = Throw ErrServiceNotFound.
Proof.
  intros Ht. destruct (DeleteService_row t k Ht) as (t' & Hd & Ht' & Hr).
  exists t'. repeat (split; [done|]). by rewrite GetService_lookup, Hr, lookup_delete_eq.
Qed.

Lemma save_changed_row s t :
  healthy t → pk_zero (service_key s) = false →
  ∃ t', save_changed s t = (Ret true, t') ∧ healthy t' ∧ rows t' = <[service_key s := s]> (rows t).
Proof.
  intros Ht Hz. destruct (save_row s t Ht Hz (no_service_clash _ _)) as (t' & Hs & Ht' & Hr).
  exists t'. split; [|done]. unfold save_changed, mbind, M_bind, attempt. by rewrite Hs.
Qed.

Lemma same_param_refl ty v : same_param ty v (MkParam ty v) = true.
Proof. unfold same_param. cbn. by rewrite !bool_decide_eq_true_2. Qed.

Lemma filter_other_params ty v ps :
  existsb (same_param ty v) ps = false →
  List.filter (λ p, negb (same_param ty v p)) ps = ps.
Proof.
  induction ps as [|p ps IH]; [done|]. cbn. intros [Hp Hps]%orb_false_iff. rewrite Hp. cbn.
  by rewrite IH.
Qed.

(** The first row a parameter operation reads. *)
Lemma attempt_first t k s :
  healthy t → rows t !! k = Some s → attempt (query (First (at_key k))) t = (Ret (inr s), t).
Proof.
  intros Ht Hk. unfold attempt, query. by rewrite (first_key _ _ (at_key_pk k)), Hk by done.
Qed.

(** A parameter a service does not have is appended, and then refused a second time;
    removing it restores the service, and removing it again is refused. *)
Theorem AddParam_RemoveParam t k s ty v :
  healthy t → rows t !! k = Some s → pk_zero k = false →
  existsb (same_param ty v) (Params s) = false →
  ∃ t1 t2, AddParam k ty v t = (Ret true, t1) ∧
    rows t1 = <[k := set_Params (Params s ++ [MkParam ty v]) s]> (rows t) ∧
    AddParam k ty v t1 = (Ret false, t1) ∧
    RemoveParam k ty v t1 = (Ret true, t2) ∧ rows t2 = rows t ∧
    RemoveParam k ty v t2 = (Ret false, t2).
Proof.
  intros Ht Hk Hz Hnew. pose proof (rows_pk _ _ _ Hk) as Hpk. cbn in Hpk.
  set (s1 := set_Params (Params s ++ [MkParam ty v]) s).
  assert (service_key s1 = k) as Hk1 by done.
  destruct (save_changed_row s1 t Ht) as (t1 & Hs1 & Ht1 & Hr1); [by rewrite Hk1|].
  rewrite Hk1 in Hr1. assert (rows t1 !! k = Some s1) as Hl1 by by rewrite Hr1, lookup_insert_eq.
  assert (existsb (same_param ty v) (Params s1) = true) as Hin.
  { cbn. rewrite existsb_app. cbn. rewrite same_param_refl. by rewrite orb_true_r. }
  assert (set_Params (List.filter (λ p, negb (same_param ty v p)) (Params s1)) s1 = s) as Hback.
  { cbn. rewrite List.filter_app, filter_other_params by done. cbn. rewrite same_param_refl.
    cbn. rewrite app_nil_r. by destruct s. }
  destruct (save_changed_row s t1 Ht1) as (t2 & Hs2 & Ht2 & Hr2); [by rewrite Hpk|].
  rewrite Hpk in Hr2. assert (rows t2 !! k = Some s) as Hl2 by by rewrite Hr2, lookup_insert_eq.
  exists t1, t2. unfold AddParam, RemoveParam.
  rewrite (M_bind_Ret _ _ _ _ _ (attempt_first t k s Ht Hk)), Hnew.
  rewrite !(M_bind_Ret _ _ _ _ _ (attempt_first t1 k s1 Ht1 Hl1)), Hin, Hback.
  rewrite (M_bind_Ret _ _ _ _ _ (attempt_first t2 k s Ht2 Hl2)), Hnew.
  repeat (split; [done|]). split; [|done].
  rewrite Hr2, Hr1, insert_insert_eq. by apply insert_id.
Qed.
End repository_properties.

(** ** At work *)

Definition sample_service : PublicService :=
  MkPublicService None "tcp" "192.168.1.100" 8080 "tcp" "127.0.0.1" 8080
    [MkParam PublicServiceParamTypeCaddyFreeText "dial_timeout {args.0}"].

Definition services_table : Type := Table (Gorm := mem_gorm (K := ServiceKey) (T := PublicService)).
Lemma no_services_keyed : keyedb (∅ : gmap ServiceKey PublicService) = true.
Proof. vm_compute. reflexivity. Qed.
Definition no_services : services_table := exist _ (∅ : gmap ServiceKey PublicService) no_services_keyed.
Definition one_service : services_table := (SaveService sample_service no_services).2.

Lemma entry_balanced_witness :
  ∃ e, AsCaddyConfigEntry "123.123.123.123" sample_service = Ret e ∧ balanced e.
Proof.
  eexists. split; [vm_compute; reflexivity|].
  refine (entry_balanced "123.123.123.123" sample_service _ _ _); [|vm_compute; reflexivity].
  repeat split. constructor; [vm_compute; reflexivity|constructor].
Defined.

Lemma layer4_ignores_public_host_witness :
  AsCaddyConfigEntry "1.2.3.4" (set_PublicHost "db.example.com" sample_service)
  = AsCaddyConfigEntry "1.2.3.4" sample_service.
Proof.
  apply (layer4_ignores_public_host "1.2.3.4" sample_service "db.example.com");
    [left; reflexivity|discriminate|discriminate].
Defined.

Lemma SaveService_stores_witness :
  ∃ t', SaveService sample_service no_services = (Ret tt, t') ∧
        GetService ("tcp", "127.0.0.1", 8080) t' = Ret sample_service.
Proof.
  destruct (SaveService_stores no_services sample_service I eq_refl) as (t' & Hs & _ & _ & Hg).
  exact (ex_intro _ t' (conj Hs Hg)).
Defined.

Lemma DeleteService_removes_witness :
  ∃ t', DeleteService ("tcp", "127.0.0.1", 8080) one_service
        = (Ret (bool_decide (is_Some (rows one_service !! ("tcp", "127.0.0.1", 8080)))), t') ∧
        GetService ("tcp", "127.0.0.1", 8080) t' = Throw ErrServiceNotFound.
Proof.
  destruct (DeleteService_removes one_service ("tcp", "127.0.0.1", 8080) I)
    as (t' & Hd & _ & _ & Hg).
  exact (ex_intro _ t' (conj Hd Hg)).
Defined.

Lemma AddParam_RemoveParam_witness :
  ∃ t1 t2, AddParam ("tcp", "127.0.0.1", 8080) "x" "y" one_service = (Ret true, t1) ∧
           RemoveParam ("tcp", "127.0.0.1", 8080) "x" "y" t1 = (Ret true, t2) ∧
           rows t2 = rows one_service.
Proof.
  destruct (AddParam_RemoveParam one_service ("tcp", "127.0.0.1", 8080) sample_service "x" "y" I)
    as (t1 & t2 & H1 & _ & _ & H2 & Hr & _); [vm_compute; reflexivity..|].
  exact (ex_intro _ t1 (ex_intro _ t2 (conj H1 (conj H2 Hr)))).
Defined.

(** The entry the tests expect for this service names [tcp/127.0.0.1:8080]. *)
Example layer4_entry_listens_everywhere :
  ∃ e, AsCaddyConfigEntry "123.123.123.123" sample_service = Ret e ∧
       Contains e "tcp/0.0.0.0:8080 {" = true ∧ Contains e "127.0.0.1" = false.
Proof. eexists. split; [vm_compute; reflexivity|]. split; vm_compute; reflexivity. Qed.
