(* ===== verification/NodeConfigs.v ===== *)
(** * [internal/nodes/types]: the configuration files of a node

    The texts a gateway or a server writes for its resolver, its DNS server, its
    WireGuard interface and its reverse proxy, and [SaveConfigs], which writes them.
    The template engine ([raymond]) and the embedded templates are parameters. *)
From S2P Require Import Prelude GoStrings GoNet Mtls NodeTypes.
From S2P Require Import PublicServices.

(** ** Template helpers *)

(** The helper [ipsToDNS]: the addresses not in the ignored list, in a row. *)
Definition ipsToDNS (ipnets : list IPNetMarshable) (ignoreIps : string) (separator : ascii)
    : string :=
  let stringifiedIps := MapIPNetMarshablesToStrings ipnets false in
  let ignoredIps := Split separator ignoreIps in
  Join (List.filter (λ ip, negb (bool_decide (ip ∈ ignoredIps))) stringifiedIps) " ".

(** The helper [splitAndTakeN]; [n = 0] indexes before the first part.  Separators
    are one byte: the template that calls [ipsToDNS] gives a comma, and none calls this. *)
Definition splitAndTakeN (input : string) (separator : ascii) (n : Z) : Out string :=
  let parts := Split separator input in
  if Z.of_nat (length parts) <? n then Ret input
  else if n <? 1 then Panic "index out of range"
  else Ret (nth (Z.to_nat (n - 1)) parts "").

(** ** The files on disk *)

(** A disk: the files by path, and the paths [os.WriteFile] cannot write. *)
Record Disk : Type := MkDisk {
  disk_files : gmap string string;
  disk_broken : string → option string;
}.

(** [os.WriteFile(path, data, 0644)] *)
Definition WriteFile (path data : string) : M Disk unit := λ d,
  match disk_broken d path with
  | Some err => (Throw (Errorf err), d)
  | None => (Ret tt, MkDisk (<[path := data]> (disk_files d)) (disk_broken d))
  end.

(** [logger.Fatal]: prints and exits. *)
Definition Fatal {S A} (message : string) : M S A := λ s, (Exited message, s).

(** The paths of [config.Config], which the environment can override, and those of the
    embedded templates. *)
Record ConfigPaths : Type := MkConfigPaths {
  CoreDNSConfigPath : string;
  ResolvConfigPath : string;
  WireguardConfigPath : string;
  CaddyConfigPath : string;
}.
Definition ResolvConfigTemplatePath : string := "configs/resolv/resolv.hbs".
Definition CaddyConfigTemplatePath : string := "configs/caddy/caddyfile.hbs".
Definition CoreDNSConfigTemplatePath : string := "configs/coredns/corefile.hbs".

(** What a template is executed on. *)
Inductive TemplateData : Type :=
| NodeData (n : Node)
| CaddyData (n : Node) (Layer4PublicServices Layer7PublicServices : list string)
| Vars (vars : gmap string string).

(** [ReadFile] of the embedded [templates.Configs] and [templates.Scripts], whose paths differ;
    [raymond.Parse] and [tpl.Exec]. *)
Class Raymond : Type := {
  ReadTemplate : string → Out string;
  Template : Type;
  ParseTemplate : string → Out Template;
  ExecTemplate : Template → TemplateData → Out string;
}.

(** A pointer and an error of which only the pointer is looked at. *)
Definition or_nil {A} (o : Out A) : Out (option A) :=
  match o with
  | Ret a => Ret (Some a)
  | Throw _ => Ret None
  | Panic p => Panic p
  | Exited p => Exited p
  end.

Definition has_configs (n : Node) : bool :=
  bool_decide (node_Role n = NodeRoleGateway) || bool_decide (node_Role n = NodeRoleServer).

Section configs.
  Context `{R : Raymond} (paths : ConfigPaths).

Definition render (path : string) (data : TemplateData) : Out string :=
  template ← ReadTemplate path;
  tpl ← ParseTemplate template;
  ExecTemplate tpl data.

(** [n.GetFormattedResolvConfig()] *)
Definition GetFormattedResolvConfig (n : Node) : Out string :=
  if negb (has_configs n)
  then Throw (Errorf "only gateway and server nodes can have a resolv config")
  else render ResolvConfigTemplatePath (NodeData n).

(** [service.PublicProtocol == "tcp" || service.PublicProtocol == "udp"] *)
Definition is_layer4 (s : PublicService) : bool :=
  bool_decide (PublicProtocol s = "tcp") || bool_decide (PublicProtocol s = "udp").

(** The loop over the services: the entries of layer 4 and of layer 7. *)
Fixpoint caddy_entries (gatewayPublicIP : string) (services : list PublicService)
    (layer4 layer7 : list string) : Out (list string * list string) :=
  match services with
  | [] => Ret (layer4, layer7)
  | service :: services' =>
      entry ← AsCaddyConfigEntry gatewayPublicIP service;
      if is_layer4 service
      then caddy_entries gatewayPublicIP services' (layer4 ++ [entry]) layer7
      else caddy_entries gatewayPublicIP services' layer4 (layer7 ++ [entry])
  end.

(** [n.GetFormattedCaddyConfig(publicServices)] *)
Definition GetFormattedCaddyConfig (n : Node) (publicServices : list PublicService) : Out string :=
  if bool_decide (node_Role n = NodeRoleGateway) then
    template ← ReadTemplate CaddyConfigTemplatePath;
    tpl ← ParseTemplate template;
    '(layer4, layer7) ← caddy_entries (node_GatewayPublicIP n) publicServices [] [];
    ExecTemplate tpl (CaddyData n layer4 layer7)
  else Throw (Errorf "only gateway nodes can have a Caddy config").

(** [n.GetFormattedCoreDNSConfig()] *)
Definition GetFormattedCoreDNSConfig (n : Node) : Out string :=
  if bool_decide (node_Role n = NodeRoleClient)
  then Throw (Errorf "client nodes do not need a CoreDNS config")
  else render CoreDNSConfigTemplatePath (NodeData n).

(** One of the four stretches of [SaveConfigs]: write the text, or complain when it is
    missing and must not be. *)
Definition write_config (configsMustExist : bool) (path : string) (config : option string)
    (missing fatal : string) : M Disk unit :=
  match config with
  | Some text =>
      r ← attempt (WriteFile path text);
      match r with
      | inl err => Fatal (fatal +:+ error_text err)
      | inr _ => mret tt
      end
  | None => if configsMustExist then throw (Errorf missing) else mret tt
  end.

(** [n.SaveConfigs(publicServices, configsMustExist)] *)
Definition SaveConfigs (n : Node) (publicServices : list PublicService) (configsMustExist : bool)
    : M Disk unit :=
  if negb (has_configs n)
  then throw (Errorf "config saving is only relevant to gateway and server nodes")
  else
    wireguardConfig ← lift (or_nil (GetFormattedWireguardConfig n));
    resolvConfig ← lift (or_nil (GetFormattedResolvConfig n));
    caddyConfig ← lift (or_nil (GetFormattedCaddyConfig n publicServices));
    coreDNSConfig ← lift (or_nil (GetFormattedCoreDNSConfig n));
    _ ← write_config configsMustExist (CoreDNSConfigPath paths) coreDNSConfig
          "coreDNS can't be empty" "Failed to get formatted coreDNS config: ";
    _ ← write_config configsMustExist (ResolvConfigPath paths) resolvConfig
          "resolv can't be empty" "Failed to get formatted resolv config: ";
    _ ← write_config configsMustExist (WireguardConfigPath paths) wireguardConfig
          "wireguard can't be empty" "Failed to get formatted wireguard config: ";
    if bool_decide (node_Role n = NodeRoleGateway)
    then write_config configsMustExist (CaddyConfigPath paths) caddyConfig
           "caddy can't be empty" "Failed to get formatted caddy config: "
    else mret tt.
End configs.

(** ** Properties *)

(** A value or an error, and no panic. *)
Definition returns {A} (o : Out A) : Prop := (∃ a, o = Ret a) ∨ ∃ err, o = Throw err.
Lemma returns_Ret {A} (a : A) : returns (Ret a).
Proof. left. by exists a. Qed.
Lemma returns_Throw {A} err : returns (Throw (A := A) err).
Proof. right. by exists err. Qed.
Lemma returns_if {A} (b : bool) (x y : Out A) : returns x → returns y → returns (if b then x else y).
Proof. by destruct b. Qed.
Lemma returns_bind {A B} (o : Out A) (f : A → Out B) :
  returns o → (∀ a, returns (f a)) → returns (o ≫= f).
Proof. intros [[a ->]|[e ->]] Hf; [apply Hf|apply returns_Throw]. Qed.

Lemma AsCaddyConfigEntry_returns ip s : returns (AsCaddyConfigEntry ip s).
Proof.
  unfold AsCaddyConfigEntry, publicHostname. cbv zeta.
  repeat first [apply returns_Ret | apply returns_Throw | apply returns_if | apply returns_bind; [|intros]].
Qed.

Section properties.
  Context {R : Raymond} (paths : ConfigPaths).

Lemma caddy_entries_app ip e services l4 l7 :
  (∀ s, s ∈ services → AsCaddyConfigEntry ip s = Ret (e s)) →
  caddy_entries ip services l4 l7
  = Ret (l4 ++ map e (List.filter is_layer4 services),
         l7 ++ map e (List.filter (λ s, negb (is_layer4 s)) services)).
Proof.
  revert l4 l7. induction services as [|s services IH]; intros l4 l7 He; cbn.
  - by rewrite !app_nil_r.
  - rewrite He by left. cbn [mbind Out_bind].
    destruct (is_layer4 s); cbn [negb map]; rewrite IH by (intros; apply He; by right);
      by rewrite <- app_assoc.
Qed.

Lemma caddy_entries_fails ip services l4 l7 s err :
  s ∈ services → AsCaddyConfigEntry ip s = Throw err →
  ∃ e, caddy_entries ip services l4 l7 = Throw e.
Proof.
  revert l4 l7. induction services as [|s' services IH]; intros l4 l7; [by intros ?%elem_of_nil|].
  intros Hs He. cbn. destruct (AsCaddyConfigEntry_returns ip s') as [[x Hx]|[x Hx]];
    rewrite Hx; cbn [mbind Out_bind]; [|eauto].
  apply elem_of_cons in Hs as [->|Hs]; [congruence|].
  destruct (is_layer4 s'); by apply IH.
Qed.

(** The Caddyfile with all its entries, and without when one is missing. *)
Lemma GetFormattedCaddyConfig_all n services template tpl e :
  node_Role n = NodeRoleGateway →
  ReadTemplate CaddyConfigTemplatePath = Ret template → ParseTemplate template = Ret tpl →
  (∀ s, s ∈ services → AsCaddyConfigEntry (node_GatewayPublicIP n) s = Ret (e s)) →
  GetFormattedCaddyConfig n services
  = ExecTemplate tpl (CaddyData n (map e (List.filter is_layer4 services))
                        (map e (List.filter (λ s, negb (is_layer4 s)) services))).
Proof.
  intros Hr Ht Hp He. unfold GetFormattedCaddyConfig. rewrite bool_decide_eq_true_2, Ht by done.
  cbn [mbind Out_bind]. rewrite Hp. cbn [mbind Out_bind]. by rewrite (caddy_entries_app _ e).
Qed.

Lemma GetFormattedCaddyConfig_none n services template tpl s err :
  node_Role n = NodeRoleGateway →
  ReadTemplate CaddyConfigTemplatePath = Ret template → ParseTemplate template = Ret tpl →
  s ∈ services → AsCaddyConfigEntry (node_GatewayPublicIP n) s = Throw err →
  ∃ e, GetFormattedCaddyConfig n services = Throw e.
Proof.
  intros Hr Ht Hp Hs He. unfold GetFormattedCaddyConfig. rewrite bool_decide_eq_true_2, Ht by done.
  cbn [mbind Out_bind]. rewrite Hp. cbn [mbind Out_bind].
  destruct (caddy_entries_fails _ services [] [] s err Hs He) as [x ->]. by exists x.
Qed.

(** The Caddyfile of a gateway is made from the entries of all its services, the
    layer 4 ones and the others each in the order they are stored; if one service has
    no entry there is no Caddyfile at all. *)
Theorem GetFormattedCaddyConfig_entries n services template tpl :
  node_Role n = NodeRoleGateway →
  ReadTemplate CaddyConfigTemplatePath = Ret template → ParseTemplate template = Ret tpl →
  (∀ e, (∀ s, s ∈ services → AsCaddyConfigEntry (node_GatewayPublicIP n) s = Ret (e s)) →
    GetFormattedCaddyConfig n services
    = ExecTemplate tpl (CaddyData n (map e (List.filter is_layer4 services))
                          (map e (List.filter (λ s, negb (is_layer4 s)) services)))) ∧
  (∀ s err, s ∈ services → AsCaddyConfigEntry (node_GatewayPublicIP n) s = Throw err →
    ∃ e, GetFormattedCaddyConfig n services = Throw e).
Proof.
  intros Hr Ht Hp. split.
  - intros e He. by apply (GetFormattedCaddyConfig_all n services template tpl).
  - intros s err Hs He. by apply (GetFormattedCaddyConfig_none n services template tpl s err).
Qed.

(** A stretch of [SaveConfigs] on a writable path. *)
Lemma write_config_text must path text missing fatal d :
  disk_broken d path = None →
  write_config must path (Some text) missing fatal d
  = (Ret tt, MkDisk (<[path := text]> (disk_files d)) (disk_broken d)).
Proof. intros Hw. unfold write_config, mbind, M_bind, attempt, WriteFile. by rewrite Hw. Qed.

(** What [SaveConfigs] leaves on a writable disk, [caddy] being the Caddyfile if there is
    one and configurations need not exist. *)
Definition saved_files (n : Node) (r c : string) (caddy : option string) (files : gmap string string)
    : gmap string string :=
  let files := <[WireguardConfigPath paths := ToINI (node_WGConfig n)]>
    (<[ResolvConfigPath paths := r]> (<[CoreDNSConfigPath paths := c]> files)) in
  match caddy with Some y => <[CaddyConfigPath paths := y]> files | None => files end.

Lemma SaveConfigs_gateway n services d r c caddy :
  node_Role n = NodeRoleGateway →
  GetFormattedResolvConfig n = Ret r → GetFormattedCoreDNSConfig n = Ret c →
  or_nil (GetFormattedCaddyConfig n services) = Ret caddy → (∀ p, disk_broken d p = None) →
  SaveConfigs paths n services false d
  = (Ret tt, MkDisk (saved_files n r c caddy (disk_files d)) (disk_broken d)).
Proof.
  intros Hrole Hr Hd Hy Hw. unfold SaveConfigs, has_configs.
  rewrite (bool_decide_eq_true_2 (node_Role n = _)) by done. cbn [orb negb]. rewrite Hr, Hd, Hy.
  do 4 (erewrite M_bind_Ret by reflexivity).
  do 3 (erewrite M_bind_Ret by (apply write_config_text; apply Hw)).
  destruct caddy; [|done]. rewrite write_config_text; [done|apply Hw].
Qed.

(** With the templates rendered and the paths writable, a gateway gets its four files
    and a server the three without Caddy, and the WireGuard file is the INI text. *)
Theorem SaveConfigs_writes n services must d r c :
  has_configs n = true →
  GetFormattedResolvConfig n = Ret r → GetFormattedCoreDNSConfig n = Ret c →
  (∀ p, disk_broken d p = None) →
  let files := <[WireguardConfigPath paths := ToINI (node_WGConfig n)]>
    (<[ResolvConfigPath paths := r]> (<[CoreDNSConfigPath paths := c]> (disk_files d))) in
  (node_Role n = NodeRoleServer →
    SaveConfigs paths n services must d = (Ret tt, MkDisk files (disk_broken d))) ∧
  (∀ y, node_Role n = NodeRoleGateway → GetFormattedCaddyConfig n services = Ret y →
    SaveConfigs paths n services must d
    = (Ret tt, MkDisk (<[CaddyConfigPath paths := y]> files) (disk_broken d))).
Proof.
  intros Hc Hr Hd Hw files. unfold SaveConfigs. rewrite Hc, Hr, Hd. cbn [negb].
  split.
  - intros Hrole. assert (GetFormattedCaddyConfig n services
      = Throw (Errorf "only gateway nodes can have a Caddy config")) as ->.
    { unfold GetFormattedCaddyConfig. rewrite bool_decide_eq_false_2; [done|congruence]. }
    do 4 (erewrite M_bind_Ret by reflexivity).
    do 3 (erewrite M_bind_Ret by (apply write_config_text; apply Hw)).
    rewrite bool_decide_eq_false_2 by congruence. done.
  - intros y Hrole ->. do 4 (erewrite M_bind_Ret by reflexivity).
    do 3 (erewrite M_bind_Ret by (apply write_config_text; apply Hw)).
    rewrite bool_decide_eq_true_2 by done. rewrite write_config_text; [done|apply Hw].
Qed.

(** A single service without an entry freezes the Caddy file: when configurations
    need not exist, a gateway's [SaveConfigs] succeeds, and the file stays what it was. *)
Theorem SaveConfigs_bad_service n services d r c template tpl s err :
  node_Role n = NodeRoleGateway →
  GetFormattedResolvConfig n = Ret r → GetFormattedCoreDNSConfig n = Ret c →
  ReadTemplate CaddyConfigTemplatePath = Ret template → ParseTemplate template = Ret tpl →
  s ∈ services → AsCaddyConfigEntry (node_GatewayPublicIP n) s = Throw err →
  (∀ p, disk_broken d p = None) →
  CaddyConfigPath paths ∉ [WireguardConfigPath paths; ResolvConfigPath paths; CoreDNSConfigPath paths] →
  ∃ d', SaveConfigs paths n services false d = (Ret tt, d') ∧
        disk_files d' !! CaddyConfigPath paths = disk_files d !! CaddyConfigPath paths.
Proof.
  intros Hrole Hr Hd Ht Hp Hs He Hw Hdist.
  destruct (GetFormattedCaddyConfig_none n services template tpl s err) as [e Hent]; [done..|].
  eexists. split.
  - apply (SaveConfigs_gateway n services d r c None); try done. by rewrite Hent.
  - cbn. rewrite !elem_of_cons in Hdist. rewrite !lookup_insert_ne by naive_solver. done.
Qed.

(** Whatever happens, files other than the four are not touched. *)
Lemma write_config_elsewhere must path text missing fatal p v :
  p ≠ path →
  triple (λ d, disk_files d !! p = v) (write_config must path text missing fatal)
    (λ _ d, disk_files d !! p = v) (λ d, disk_files d !! p = v).
Proof.
  intros Hp d Hd. unfold write_config, mbind, M_bind, attempt, WriteFile, throw.
  destruct text as [text|]; [|by destruct must].
  destruct (disk_broken d path); cbn; [done|]. by rewrite lookup_insert_ne.
Qed.

(** Whatever its outcome, [SaveConfigs] leaves every file but the four alone, a server
    leaves the Caddy file alone too, and any other node all files. *)
Theorem SaveConfigs_elsewhere n services must d o d' p :
  SaveConfigs paths n services must d = (o, d') →
  p ∉ [CoreDNSConfigPath paths; ResolvConfigPath paths; WireguardConfigPath paths] →
  (node_Role n = NodeRoleGateway → p ≠ CaddyConfigPath paths) →
  disk_files d' !! p = disk_files d !! p.
Proof.
  intros Hrun Hp Hcaddy. rewrite !not_elem_of_cons in Hp. destruct Hp as (Hp1 & Hp2 & Hp3 & _).
  set (v := disk_files d !! p). set (I := λ d : Disk, disk_files d !! p = v).
  refine (triple_any I _ I d o d' _ eq_refl Hrun).
  unfold SaveConfigs. destruct (negb (has_configs n)); [intros s Hs; exact Hs|].
  do 4 (eapply triple_bind with (Q := λ _, I); [by apply triple_lift|intros ?]).
  do 3 (eapply triple_bind with (Q := λ _, I); [by apply write_config_elsewhere|intros ?]).
  case_bool_decide; [apply write_config_elsewhere; auto|intros s Hs; exact Hs].
Qed.
End properties.

(** ** At work *)

(** An engine that prints the template's name and what it is given. *)
#[export] Instance toy_raymond : Raymond := {|
  ReadTemplate path := Ret path;
  Template := string;
  ParseTemplate s := Ret s;
  ExecTemplate tpl data :=
    match data with
    | NodeData n => Ret (tpl +:+ " " +:+ node_ID n)
    | CaddyData n l4 l7 => Ret (tpl +:+ Join (l4 ++ l7) newline)
    | Vars vars => Ret (tpl +:+ Join (map snd (map_to_list vars)) " ")
    end;
|}.

Definition sample_paths : ConfigPaths :=
  MkConfigPaths "/etc/coredns/Corefile" "/etc/resolv.conf" "/etc/wireguard/wg0.conf"
    "/etc/caddy/Caddyfile".
Definition sample_disk : Disk := MkDisk {[ "/etc/caddy/Caddyfile" := "old" ]} (λ _, None).
Definition sample_gateway : Node :=
  MkNode "gw" NodeRoleGateway true "k" "p" sample_config None None None "203.0.113.7" 4060
    None None None [].
(** A service that mixes the two layer 4 protocols. *)
Definition bad_service : PublicService :=
  MkPublicService None "udp" "10.0.0.2" 53 "tcp" "example.com" 53 [].

Lemma GetFormattedCaddyConfig_entries_witness :
  ∃ e, GetFormattedCaddyConfig sample_gateway [sample_service; bad_service] = Throw e.
Proof.
  refine (proj2 (GetFormattedCaddyConfig_entries sample_gateway [sample_service; bad_service]
    CaddyConfigTemplatePath CaddyConfigTemplatePath eq_refl eq_refl eq_refl) bad_service _ _ _).
  - right. left.
  - reflexivity.
Defined.

Lemma SaveConfigs_writes_witness :
  ∃ d, SaveConfigs sample_paths sample_gateway [] true sample_disk = (Ret tt, d).
Proof.
  eexists.
  refine (proj2 (SaveConfigs_writes sample_paths sample_gateway [] true sample_disk _ _
    eq_refl eq_refl eq_refl (λ _, eq_refl)) _ eq_refl _).
  reflexivity.
Defined.

Lemma SaveConfigs_bad_service_witness :
  ∃ d', SaveConfigs sample_paths sample_gateway [bad_service] false sample_disk = (Ret tt, d') ∧
        disk_files d' !! "/etc/caddy/Caddyfile" = Some "old".
Proof.
  refine (SaveConfigs_bad_service sample_paths sample_gateway [bad_service] sample_disk _ _
    CaddyConfigTemplatePath CaddyConfigTemplatePath bad_service _ eq_refl eq_refl eq_refl
    eq_refl eq_refl _ eq_refl (λ _, eq_refl) _).
  - left.
  - rewrite !not_elem_of_cons. repeat split; (discriminate || apply not_elem_of_nil).
Defined.

Lemma SaveConfigs_elsewhere_witness :
  disk_files (SaveConfigs sample_paths sample_gateway [] true sample_disk).2 !! "/etc/passwd"
  = disk_files sample_disk !! "/etc/passwd".
Proof.
  refine (SaveConfigs_elsewhere sample_paths sample_gateway [] true sample_disk _ _ "/etc/passwd"
    (surjective_pairing _) _ _).
  - rewrite !not_elem_of_cons. repeat split; (discriminate || apply not_elem_of_nil).
  - discriminate.
Defined.
