(* ===== verification/Config.v ===== *)
(** * [cmd/server/config/config.go]: the configuration

    What is read from the environment, with its defaults: where the database and the
    configuration files are. *)
From S2P Require Import Prelude GoStrings NodeTypes Gorm NodesRepo PublicServices NodeConfigs.

(** ** [path/filepath] *)

(** One element of a path after those on the stack, the last one first. *)
Definition clean_step (rooted : bool) (stack : list string) (e : string) : list string :=
  if bool_decide (e = "") || bool_decide (e = ".") then stack
  else if bool_decide (e = "..") then
    match stack with
    | top :: rest => if bool_decide (top = "..") then e :: stack else rest
    | [] => if rooted then [] else [e]
    end
  else e :: stack.
Definition is_rooted (path : string) : bool :=
  match path with String c _ => Ascii.eqb c "/" | EmptyString => false end.
Definition clean_stack (rooted : bool) (elems : list string) : list string :=
  fold_left (clean_step rooted) elems [].
(** [filepath.Clean(path)] *)
Definition Clean (path : string) : string :=
  let out := GoStrings.Join (rev (clean_stack (is_rooted path) (Split "/" path))) "/" in
  if is_rooted path then "/" +:+ out else if bool_decide (out = "") then "." else out.
(** [filepath.Join(elem...)] *)
Fixpoint filepath_Join (elem : list string) : string :=
  match elem with
  | [] => ""
  | e :: elem' => if bool_decide (e = "") then filepath_Join elem' else Clean (GoStrings.Join elem "/")
  end.

(** [filepath.Dir(path)] *)
Definition Dir (path : string) : string :=
  Clean match cut_last "/" path with Some (dir, _) => dir +:+ "/" | None => "" end.

(** ** The environment *)

Section environment.
  (** [os.Getenv], and [os.UserHomeDir] when it gives a directory *)
  Context (Getenv : string → string) (UserHomeDir : option string).

Definition GetEnv (key defaultValue : string) : string :=
  let value := Getenv key in if bool_decide (value = "") then defaultValue else value.
Definition getHomeDir : string := default "" UserHomeDir.
Definition getDefaultDatabasePath (fallback profile : string) : string :=
  if bool_decide (getHomeDir = "") then fallback
  else filepath_Join [getHomeDir; ".wireport"; profile; "wireport.db"].
Definition WireportProfile : string := GetEnv "WIREPORT_PROFILE" "default".
Definition DatabasePath : string :=
  GetEnv "DATABASE_PATH" (getDefaultDatabasePath "/app/wireport/wireport.db" WireportProfile).
Definition configured_paths : ConfigPaths :=
  MkConfigPaths (GetEnv "COREDNS_CONFIG_PATH" "/etc/coredns/Corefile")
    (GetEnv "RESOLV_CONFIG_PATH" "/etc/resolv.conf")
    (GetEnv "WIREGUARD_CONFIG_PATH" "/etc/wireguard/wg0.conf")
    (GetEnv "CADDY_CONFIG_PATH" "/etc/caddy/Caddyfile").
Definition DocumentationURL : string :=
  GetEnv "WIREPORT_DOCUMENTATION_URL" "https://github.com/MultionLabs/wireport".
End environment.

(** ** Properties *)

(** An element of a path that names something in its directory. *)
Definition plain (e : string) : bool :=
  lacks "/" e && negb (bool_decide (e = "")) && negb (bool_decide (e = "."))
  && negb (bool_decide (e = "..")).

Lemma Split_app_any sep a s : Split sep (a +:+ String sep s) = Split sep a ++ Split sep s.
Proof.
  induction a as [|c a IH]; str_simpl; cbn [Split]; [by rewrite Ascii.eqb_refl|].
  rewrite IH. destruct (Ascii.eqb c sep); [done|].
  destruct (Split sep a) as [|p ps] eqn:Ha; [by destruct (Split_ne_nil sep a)|done].
Qed.
Lemma Split_slash a s : Split "/" (a +:+ "/" +:+ s) = Split "/" a ++ Split "/" s.
Proof. apply Split_app_any. Qed.
Lemma Join_snoc l e sep : l ≠ [] → GoStrings.Join (l ++ [e]) sep = GoStrings.Join l sep +:+ sep +:+ e.
Proof.
  induction l as [|x l IH]; intros Hl; [done|]. destruct l as [|y l]; [done|].
  change (x +:+ sep +:+ GoStrings.Join ((y :: l) ++ [e]) sep
          = (x +:+ sep +:+ GoStrings.Join (y :: l) sep) +:+ sep +:+ e).
  rewrite IH by done. by rewrite !str_app_assoc.
Qed.
Lemma clean_step_plain rooted stack e : plain e = true → clean_step rooted stack e = e :: stack.
Proof.
  unfold plain, clean_step. rewrite !andb_true_iff, !negb_true_iff.
  intros [[[_ ->] ->] ->]. done.
Qed.
Lemma clean_stack_snoc rooted l e :
  plain e = true → clean_stack rooted (l ++ [e]) = e :: clean_stack rooted l.
Proof. intros He. unfold clean_stack. rewrite fold_left_app. by apply clean_step_plain. Qed.

(** A plain element at the end of a path that already ends in one. *)
Lemma Clean_snoc path d e :
  path ≠ "" → plain d = true → plain e = true →
  Clean (path +:+ "/" +:+ d +:+ "/" +:+ e) = Clean (path +:+ "/" +:+ d) +:+ "/" +:+ e.
Proof.
  intros Hp Hd He. unfold Clean.
  assert (∀ s, is_rooted (path +:+ s) = is_rooted path) as Hroot by by destruct path.
  rewrite !Hroot, !Split_slash.
  assert (∀ x, plain x = true → Split "/" x = [x]) as Hone.
  { intros x Hx. apply Split_lacks. unfold plain in Hx. by rewrite !andb_true_iff in Hx; destruct Hx as [[[]]]. }
  rewrite (Hone d Hd), (Hone e He), app_assoc, !clean_stack_snoc by done. cbn [rev].
  rewrite (Join_snoc _ e) by (by destruct (rev _)).
  set (out := GoStrings.Join (rev (clean_stack (is_rooted path) (Split "/" path)) ++ [d]) "/").
  assert (out ≠ "") as Hout.
  { subst out. destruct (rev _) as [|x l]; [intros E; cbn in E; by subst d|].
    rewrite Join_snoc by done. intros E. apply (f_equal String.length) in E. revert E.
    rewrite !str_app_length. cbn. lia. }
  destruct (is_rooted path); [by rewrite !str_app_assoc|]. rewrite !bool_decide_eq_false_2; [done|done|].
  intros E. apply Hout. by destruct out.
Qed.

(** Every profile has a database of its own: with a home directory, and no database
    named in the environment, the file is [wireport.db] in the directory of the profile in
    [.wireport], and two profiles that name a directory there never share it. *)
Theorem profiles_apart getenv1 getenv2 home :
  home ≠ "" → getenv1 "DATABASE_PATH" = "" → getenv2 "DATABASE_PATH" = "" →
  let profile1 := WireportProfile getenv1 in
  let profile2 := WireportProfile getenv2 in
  plain profile1 = true → plain profile2 = true →
  let base := filepath_Join [home; ".wireport"] in
  DatabasePath getenv1 (Some home) = base +:+ "/" +:+ profile1 +:+ "/wireport.db" ∧
  (DatabasePath getenv1 (Some home) = DatabasePath getenv2 (Some home) → profile1 = profile2).
Proof.
  intros Hh H1 H2 p1 p2 Hp1 Hp2 base.
  assert (∀ getenv, getenv "DATABASE_PATH" = "" → plain (WireportProfile getenv) = true →
    DatabasePath getenv (Some home) = base +:+ "/" +:+ WireportProfile getenv +:+ "/wireport.db") as Hpath.
  { intros getenv He Hp. unfold DatabasePath, GetEnv at 1. rewrite He. cbn [bool_decide].
    rewrite bool_decide_eq_true_2 by done. unfold getDefaultDatabasePath, getHomeDir, base.
    change (default "" (Some home)) with home. cbn [filepath_Join].
    rewrite !(bool_decide_eq_false_2 (home = "")) by done. cbn [GoStrings.Join].
    set (p := WireportProfile getenv) in *.
    pose proof (Clean_snoc home ".wireport" p Hh eq_refl Hp) as Hin.
    pose proof (Clean_snoc (home +:+ "/" +:+ ".wireport") p "wireport.db" ltac:(by destruct home)
      Hp eq_refl) as Hout.
    rewrite !str_app_assoc in Hout. rewrite Hout, Hin. by rewrite !str_app_assoc. }
  split; [by apply Hpath|]. rewrite !Hpath by done. intros E. apply str_app_inj_l, str_app_inj_l in E.
  by apply str_app_inj_r in E.
Qed.

(** ** At work *)

(** Two profiles of one user. *)
Definition environment (profile key : string) : string :=
  if bool_decide (key = "WIREPORT_PROFILE") then profile else "".
Lemma profiles_apart_witness :
  DatabasePath (environment "staging") (Some "/home/ann/")
  = "/home/ann/.wireport/staging/wireport.db".
Proof.
  exact (proj1 (profiles_apart (environment "staging") (environment "") "/home/ann/"
    ltac:(discriminate) eq_refl eq_refl eq_refl eq_refl)).
Defined.
(** A profile that is not an element of a path leaves the directory. *)
Example profile_outside :
  DatabasePath (environment "../..") (Some "/home/ann") = "/home/wireport.db".
Proof. vm_compute. reflexivity. Qed.
