(* ===== verification/Base64.v ===== *)
(** * [base64.StdEncoding]

    The encoding of bytes as text that keys, requests and responses travel in, from
    Go's standard library: [EncodeToString] and [DecodeString]. *)
From S2P Require Import Prelude GoStrings.

Definition is_byte (b : Z) : Prop := 0 ≤ b < 256.

Definition alphabet : string :=
  "ABCDEFGHIJKLMNOPQRSTUVWXYZabcdefghijklmnopqrstuvwxyz0123456789+/".

(** The digit of a 6-bit number, and the number of a digit. *)
Definition sextet_char (v : Z) : ascii :=
  match String.get (Z.to_nat v) alphabet with Some c => c | None => "="%char end.
Definition char_sextet (c : ascii) : option Z :=
  let z := code c in
  if (65 <=? z) && (z <=? 90) then Some (z - 65)
  else if (97 <=? z) && (z <=? 122) then Some (z - 71)
  else if (48 <=? z) && (z <=? 57) then Some (z + 4)
  else if z =? 43 then Some 62
  else if z =? 47 then Some 63
  else None.

(** Three bytes make four digits; one or two bytes at the end are padded with [=]. *)
Fixpoint EncodeToString (src : list Z) : string :=
  match src with
  | [] => EmptyString
  | [a] =>
      String (sextet_char (a / 4))
        (String (sextet_char (a mod 4 * 16)) "==")
  | [a; b] =>
      String (sextet_char (a / 4))
        (String (sextet_char (a mod 4 * 16 + b / 16))
          (String (sextet_char (b mod 16 * 4)) "="))
  | a :: b :: c :: src' =>
      String (sextet_char (a / 4))
        (String (sextet_char (a mod 4 * 16 + b / 16))
          (String (sextet_char (b mod 16 * 4 + c / 64))
            (String (sextet_char (c mod 64)) (EncodeToString src'))))
  end.

(** The decoder skips line ends wherever they are. *)
Definition is_line_end (c : ascii) : bool := (code c =? 10) || (code c =? 13).
Fixpoint drop_line_ends (s : string) : string :=
  match s with
  | EmptyString => EmptyString
  | String c s' => if is_line_end c then drop_line_ends s' else String c (drop_line_ends s')
  end.

(** Groups of four digits; only the last may be padded. *)
Fixpoint decode_quads (s : string) : option (list Z) :=
  match s with
  | EmptyString => Some []
  | String c1 (String c2 (String c3 (String c4 s'))) =>
      a ← char_sextet c1; b ← char_sextet c2;
      if Ascii.eqb c3 "=" then
        if Ascii.eqb c4 "=" && bool_decide (s' = EmptyString) then Some [a * 4 + b / 16] else None
      else
        c ← char_sextet c3;
        if Ascii.eqb c4 "=" then
          if bool_decide (s' = EmptyString)
          then Some [a * 4 + b / 16; b mod 16 * 16 + c / 4] else None
        else
          d ← char_sextet c4;
          rest ← decode_quads s';
          Some (a * 4 + b / 16 :: b mod 16 * 16 + c / 4 :: c mod 4 * 64 + d :: rest)
  | _ => None
  end.

(** [base64.StdEncoding.DecodeString(s)] *)
Definition DecodeString (s : string) : Out (list Z) :=
  match decode_quads (drop_line_ends s) with
  | Some bytes => Ret bytes
  | None => Throw (Errorf "illegal base64 data")
  end.

(** ** Lemmas *)

Lemma sextet_table v :
  0 ≤ v < 64 →
  char_sextet (sextet_char v) = Some v ∧ Ascii.eqb (sextet_char v) "=" = false ∧
  is_line_end (sextet_char v) = false.
Proof.
  intros Hv. assert (forallb (λ v, bool_decide (char_sextet (sextet_char v) = Some v) &&
    negb (Ascii.eqb (sextet_char v) "=") && negb (is_line_end (sextet_char v))) (seqZ 0 64) = true)
    as H by (vm_compute; reflexivity).
  rewrite forallb_forall in H. specialize (H v). rewrite !andb_true_iff, !negb_true_iff in H.
  destruct H as [[H1 H2] H3]; [apply list_elem_of_In, elem_of_seqZ; lia|].
  by apply bool_decide_eq_true_1 in H1.
Qed.

(** Induction three elements at a time. *)
Lemma triples_ind {A} (P : list A → Prop) :
  P [] → (∀ a, P [a]) → (∀ a b, P [a; b]) → (∀ a b c l, P l → P (a :: b :: c :: l)) →
  ∀ l, P l.
Proof.
  intros H0 H1 H2 H3. fix IH 1.
  intros [|a [|b [|c l]]]; [exact H0|exact (H1 a)|exact (H2 a b)|apply H3, IH].
Qed.

Lemma digit_lo a : is_byte a → 0 ≤ a / 4 < 64.
Proof. unfold is_byte. intros. Z.div_mod_to_equations. lia. Qed.
Lemma digit_pad2 a : 0 ≤ a mod 4 * 16 < 64.
Proof. Z.div_mod_to_equations. lia. Qed.
Lemma digit_mid a b : is_byte b → 0 ≤ a mod 4 * 16 + b / 16 < 64.
Proof. unfold is_byte. intros. Z.div_mod_to_equations. lia. Qed.
Lemma digit_pad1 b : 0 ≤ b mod 16 * 4 < 64.
Proof. Z.div_mod_to_equations. lia. Qed.
Lemma digit_hi b c : is_byte c → 0 ≤ b mod 16 * 4 + c / 64 < 64.
Proof. unfold is_byte. intros. Z.div_mod_to_equations. lia. Qed.
Lemma digit_last c : 0 ≤ c mod 64 < 64.
Proof. apply Z.mod_pos_bound. lia. Qed.

(** The bytes put together again. *)
Lemma byte_1 a b : is_byte b → a / 4 * 4 + (a mod 4 * 16 + b / 16) / 16 = a.
Proof. unfold is_byte. intros. Z.div_mod_to_equations. lia. Qed.
Lemma byte_1_pad a : a / 4 * 4 + a mod 4 * 16 / 16 = a.
Proof. Z.div_mod_to_equations. lia. Qed.
Lemma byte_2 a b c : is_byte b → is_byte c →
  (a mod 4 * 16 + b / 16) mod 16 * 16 + (b mod 16 * 4 + c / 64) / 4 = b.
Proof. unfold is_byte. intros. Z.div_mod_to_equations. lia. Qed.
Lemma byte_2_pad a b : is_byte b → (a mod 4 * 16 + b / 16) mod 16 * 16 + b mod 16 * 4 / 4 = b.
Proof. unfold is_byte. intros. Z.div_mod_to_equations. lia. Qed.
Lemma byte_3 b c : is_byte c → (b mod 16 * 4 + c / 64) mod 4 * 64 + c mod 64 = c.
Proof. unfold is_byte. intros. Z.div_mod_to_equations. lia. Qed.

Lemma drop_line_ends_digit v s :
  0 ≤ v < 64 →
  drop_line_ends (String (sextet_char v) s) = String (sextet_char v) (drop_line_ends s).
Proof. intros Hv. cbn [drop_line_ends]. by destruct (sextet_table v Hv) as (_ & _ & ->). Qed.

Ltac digit_range :=
  first [ by apply digit_lo | apply digit_pad2 | by apply digit_mid | apply digit_pad1
        | by apply digit_hi | apply digit_last ].

Lemma encode_no_line_ends l :
  Forall is_byte l → drop_line_ends (EncodeToString l) = EncodeToString l.
Proof.
  induction l as [|a|a b|a b c l IH] using triples_ind; intros Hl;
    rewrite ?Forall_cons in Hl; cbn [EncodeToString]; [done|..];
    destruct_and?; rewrite !drop_line_ends_digit by digit_range; [done|done|].
  by rewrite IH.
Qed.

(** Reading back one digit. *)
Ltac read_digit v :=
  let H := fresh in
  assert (0 ≤ v < 64) as H by digit_range;
  let Hc := fresh in let He := fresh in
  destruct (sextet_table v H) as (Hc & He & _);
  rewrite ?Hc, ?He; clear H Hc He; cbn [mbind option_bind].

Lemma DecodeString_EncodeToString l :
  Forall is_byte l → DecodeString (EncodeToString l) = Ret l.
Proof.
  intros Hl. unfold DecodeString. rewrite encode_no_line_ends by done.
  enough (decode_quads (EncodeToString l) = Some l) as -> by done.
  induction l as [|a|a b|a b c l IH] using triples_ind;
    rewrite ?Forall_cons in Hl; cbn [EncodeToString decode_quads]; [done|..]; destruct_and?.
  - read_digit (a / 4). read_digit (a mod 4 * 16). cbn. by rewrite byte_1_pad.
  - read_digit (a / 4). read_digit (a mod 4 * 16 + b / 16). read_digit (b mod 16 * 4).
    cbn. by rewrite byte_1, byte_2_pad.
  - read_digit (a / 4). read_digit (a mod 4 * 16 + b / 16).
    read_digit (b mod 16 * 4 + c / 64). read_digit (c mod 64).
    rewrite IH by done. cbn [mbind option_bind]. by rewrite byte_1, byte_2, byte_3.
Qed.
