(* ===== verification/Aes.v ===== *)
(** * [internal/encryption/aes]: encrypted requests and responses

    CBC mode, the padding and the request and response forms are the source's and
    Go's.  The block cipher under them ([crypto/aes]), the JSON form of the payloads
    and the network are interfaces. *)
From S2P Require Import Prelude GoStrings Base64.

Definition ErrInvalidPadding : error := Sentinel "ErrInvalidPadding" "invalid padding".
Definition ErrInvalidPaddingSize : error := Sentinel "ErrInvalidPaddingSize" "invalid padding size".
Definition ErrCiphertextTooShort : error := Sentinel "ErrCiphertextTooShort" "ciphertext too short".
Definition ErrInvalidBlockSize : error :=
  Sentinel "ErrInvalidBlockSize" "ciphertext is not a multiple of block size".
Definition ErrDecodeEncryptionKey : error :=
  Sentinel "ErrDecodeEncryptionKey" "failed to decode encryption key".
Definition ErrMarshalPayload : error := Sentinel "ErrMarshalPayload" "failed to marshal payload".
Definition ErrEncryptPayload : error := Sentinel "ErrEncryptPayload" "failed to encrypt payload".
Definition ErrMarshalRequestBody : error :=
  Sentinel "ErrMarshalRequestBody" "failed to marshal request body".
Definition ErrSendRequest : error := Sentinel "ErrSendRequest" "failed to send request".
Definition ErrReadResponse : error := Sentinel "ErrReadResponse" "failed to read response body".
Definition ErrUnmarshalResponse : error :=
  Sentinel "ErrUnmarshalResponse" "failed to unmarshal response body".
Definition ErrDecodeResponse : error :=
  Sentinel "ErrDecodeResponse" "failed to decode decrypted response payload".
Definition ErrDecryptResponse : error := Sentinel "ErrDecryptResponse" "failed to decrypt response".
Definition ErrUnmarshalDecrypted : error :=
  Sentinel "ErrUnmarshalDecrypted" "failed to unmarshal decrypted response".

(** [fmt.Errorf("%w: %w", s, err)] around an error, if there is one. *)
Definition wrap {A} (s : error) (o : Out A) : Out A :=
  match o with
  | Throw err => Throw (Joined (error_text s +:+ ": " +:+ error_text err) s err)
  | _ => o
  end.
(** [fmt.Errorf("<text>: %w", err)] *)
Definition annotate {A} (text : string) (o : Out A) : Out A :=
  match o with
  | Throw err => Throw (Wrapped (text +:+ ": " +:+ error_text err) err)
  | _ => o
  end.

Definition BlockSize : Z := 16.

(** [crypto/aes]: a cipher for a key, and its two directions on one block. *)
Class BlockCipher : Type := {
  Cipher : Type;
  NewCipher : list Z → Out Cipher;
  EncryptBlock : Cipher → list Z → list Z;
  DecryptBlock : Cipher → list Z → list Z;
}.

Definition block (b : list Z) : Prop := length b = 16%nat ∧ Forall is_byte b.

Class BlockCipherLaws `(B : BlockCipher) : Prop := {
  encrypt_block c b : block b → block (EncryptBlock c b);
  decrypt_encrypt_block c b : block b → DecryptBlock c (EncryptBlock c b) = b;
}.

(** [encoding/json] for one type. *)
Class Json (A : Type) : Type := {
  json_Marshal : A → Out (list Z);
  json_Unmarshal : list Z → Out A;
}.
(** Its round trip, for the values that it keeps whole: it replaces what is not UTF-8 in
    a string, so that [plain] asks at least for [ValidString]. *)
Class JsonLaws {A : Type} `{Json A} (plain : A → bool) : Prop := {
  json_round_trip x b :
    plain x = true → json_Marshal x = Ret b → json_Unmarshal b = Ret x ∧ Forall is_byte b;
}.

Record EncryptedRequestDTO : Type := MkRequestDTO { req_SyncID : string; req_Payload : string }.
Record EncryptedResponseDTO : Type := MkResponseDTO { resp_SyncID : string; resp_Payload : string }.

(** ** Padding *)

(** [pad(data, blockSize)] *)
Definition pad (data : list Z) (blockSize : Z) : list Z :=
  let padding := blockSize - Z.of_nat (length data) mod blockSize in
  data ++ replicate (Z.to_nat padding) padding.

(** [unpad(data)]: the last byte says how much to drop; the dropped bytes are not
    looked at. *)
Definition unpad (data : list Z) : Out (list Z) :=
  match last data with
  | None => Throw ErrInvalidPaddingSize
  | Some padding =>
      if (Z.of_nat (length data) <? padding) || (padding =? 0)
      then Throw ErrInvalidPadding
      else Ret (take (length data - Z.to_nat padding) data)
  end.

(** ** CBC mode *)

Definition xor_block (a b : list Z) : list Z := zip_with Z.lxor a b.

(** The blocks of a text; [fuel] bounds their number. *)
Fixpoint blocks (fuel : nat) (data : list Z) : list (list Z) :=
  match fuel, data with
  | S f, _ :: _ => take 16 data :: blocks f (drop 16 data)
  | _, _ => []
  end.
Definition blocks_of (data : list Z) : list (list Z) := blocks (length data) data.

Section modes.
  Context `{B : BlockCipher}.

(** [cipher.NewCBCEncrypter(block, iv).CryptBlocks] and the decrypter's. *)
Fixpoint cbc_encrypt (c : Cipher) (prev : list Z) (bs : list (list Z)) : list Z :=
  match bs with
  | [] => []
  | b :: bs' => let e := EncryptBlock c (xor_block b prev) in e ++ cbc_encrypt c e bs'
  end.
Fixpoint cbc_decrypt (c : Cipher) (prev : list Z) (bs : list (list Z)) : list Z :=
  match bs with
  | [] => []
  | b :: bs' => xor_block (DecryptBlock c b) prev ++ cbc_decrypt c b bs'
  end.

(** [EncryptAES(plainText, aesKey)]; [iv] is what [rand.Reader] gives. *)
Definition EncryptAES (iv : Out (list Z)) (plainText aesKey : list Z) : Out (list Z) :=
  c ← annotate "create cipher" (NewCipher aesKey);
  let plainText := pad plainText BlockSize in
  iv ← annotate "generate IV" iv;
  mret (iv ++ cbc_encrypt c iv (blocks_of plainText)).

(** [DecryptAES(cipherText, aesKey)] *)
Definition DecryptAES (cipherText aesKey : list Z) : Out (list Z) :=
  c ← annotate "create cipher" (NewCipher aesKey);
  if Z.of_nat (length cipherText) <? BlockSize then Throw ErrCiphertextTooShort
  else
    let iv := take 16 cipherText in
    let cipherText := drop 16 cipherText in
    if negb (Z.of_nat (length cipherText) mod BlockSize =? 0) then Throw ErrInvalidBlockSize
    else unpad (cbc_decrypt c iv (blocks_of cipherText)).

(** [GenerateAESKey()]: 32 bytes of [rand.Read]. *)
Definition GenerateAESKey (random : nat → Out (list Z)) : Out (list Z) :=
  annotate "generate random aes key" (random 32%nat).

(** ** Requests and responses *)

Section exchange.
  Context `{JQ : Json EncryptedRequestDTO} `{JR : Json EncryptedResponseDTO}.

(** [EncryptedAPIRequest]: [post] is the client's [Post], whose error is one thing and
    reading the body another. *)
Definition EncryptedAPIRequest {P RT} `{Json P} `{Json RT} (iv : Out (list Z))
    (post : string → list Z → Out (Out (list Z))) (url : string) (payload : P)
    (syncID encryptionKeyBase64 : string) : Out RT :=
  encryptionKey ← wrap ErrDecodeEncryptionKey (DecodeString encryptionKeyBase64);
  requestPayloadJSON ← wrap ErrMarshalPayload (json_Marshal payload);
  encryptedRequestPayload ← wrap ErrEncryptPayload (EncryptAES iv requestPayloadJSON encryptionKey);
  let requestBody := MkRequestDTO syncID (EncodeToString encryptedRequestPayload) in
  requestBodyJSON ← wrap ErrMarshalRequestBody (json_Marshal requestBody);
  resp ← wrap ErrSendRequest (post url requestBodyJSON);
  responseBody ← wrap ErrReadResponse resp;
  response ← wrap ErrUnmarshalResponse (json_Unmarshal (A := EncryptedResponseDTO) responseBody);
  encryptedResponsePayloadBytes ← wrap ErrDecodeResponse (DecodeString (resp_Payload response));
  decryptedResponsePayloadBytes ←
    wrap ErrDecryptResponse (DecryptAES encryptedResponsePayloadBytes encryptionKey);
  wrap ErrUnmarshalDecrypted (json_Unmarshal decryptedResponsePayloadBytes).

(** [DecryptRequest] *)
Definition DecryptRequest {RT} `{Json RT} (encryptedRequest : EncryptedRequestDTO)
    (encryptionKeyBase64 : string) : Out RT :=
  encryptedRequestPayload ← wrap ErrDecodeResponse (DecodeString (req_Payload encryptedRequest));
  encryptionKey ← wrap ErrDecodeEncryptionKey (DecodeString encryptionKeyBase64);
  decryptedRequestPayloadJSON ←
    wrap ErrDecryptResponse (DecryptAES encryptedRequestPayload encryptionKey);
  wrap ErrUnmarshalDecrypted (json_Unmarshal decryptedRequestPayloadJSON).

(** [EncryptResponse] *)
Definition EncryptResponse {P} `{Json P} (iv : Out (list Z)) (response : P)
    (syncID encryptionKeyBase64 : string) : Out EncryptedResponseDTO :=
  encryptionKey ← wrap ErrDecodeEncryptionKey (DecodeString encryptionKeyBase64);
  responsePayloadJSON ← wrap ErrMarshalPayload (json_Marshal response);
  encryptedResponsePayload ←
    wrap ErrEncryptPayload (EncryptAES iv responsePayloadJSON encryptionKey);
  mret (MkResponseDTO syncID (EncodeToString encryptedResponsePayload)).
End exchange.
End modes.

(** ** Lemmas *)

Lemma lxor_byte a b : is_byte a → is_byte b → is_byte (Z.lxor a b).
Proof.
  unfold is_byte. intros Ha Hb.
  assert (0 ≤ Z.lxor a b) as Hn by (apply Z.lxor_nonneg; lia). split; [done|].
  destruct (decide (Z.lxor a b = 0)) as [->|]; [lia|]. change 256 with (2 ^ 8).
  apply Z.log2_lt_pow2; [lia|]. eapply Z.le_lt_trans; [apply Z.log2_lxor; lia|].
  apply Z.max_lub_lt; (destruct (decide (0 < a)), (decide (0 < b)));
    rewrite ?(Z.log2_nonpos a), ?(Z.log2_nonpos b) by lia; try lia;
    apply Z.log2_lt_pow2; lia.
Qed.

Lemma xor_block_length a b : length a = length b → length (xor_block a b) = length a.
Proof. intros H. unfold xor_block. rewrite length_zip_with. lia. Qed.

Lemma xor_block_ok a b : block a → block b → block (xor_block a b).
Proof.
  intros [Ha Hab] [Hb Hbb]. split; [rewrite xor_block_length; congruence|].
  clear Ha Hb. revert b Hbb. induction Hab as [|x a Hx _ IH]; intros [|y b] Hb; cbn;
    [constructor..|]. apply Forall_cons in Hb as [Hy Hb]. constructor; [by apply lxor_byte|auto].
Qed.

Lemma xor_block_twice a b : length a = length b → xor_block (xor_block a b) b = a.
Proof.
  revert b. induction a as [|x a IH]; intros [|y b]; cbn; try done.
  intros [= H]. unfold xor_block in *. rewrite IH by done.
  by rewrite Z.lxor_assoc, Z.lxor_nilpotent, Z.lxor_0_r.
Qed.

(** A text of whole blocks, and its blocks. *)
Lemma blocks_concat bs fuel :
  Forall (λ b, length b = 16%nat) bs → (length bs ≤ fuel)%nat → blocks fuel (concat bs) = bs.
Proof.
  intros Hbs. revert fuel. induction Hbs as [|b bs Hb _ IH]; intros fuel Hf;
    [by destruct fuel|].
  destruct fuel as [|fuel]; [cbn in Hf; lia|]. cbn in Hf. cbn [concat blocks].
  destruct (b ++ concat bs) as [|x l] eqn:E; [by destruct b|]. rewrite <- E.
  rewrite take_app_length', drop_app_length', IH by (done || lia). done.
Qed.

Lemma length_concat_blocks bs :
  Forall (λ b : list Z, length b = 16%nat) bs → length (concat bs) = (16 * length bs)%nat.
Proof. induction 1 as [|b bs Hb _ IH]; [done|]. cbn [concat]. rewrite length_app. cbn. lia. Qed.

Lemma blocks_of_concat bs :
  Forall (λ b, length b = 16%nat) bs → blocks_of (concat bs) = bs.
Proof.
  intros H. apply blocks_concat; [done|]. rewrite length_concat_blocks by done. lia.
Qed.

Lemma whole_blocks k data :
  length data = (16 * k)%nat → Forall is_byte data →
  ∃ bs, data = concat bs ∧ Forall block bs.
Proof.
  revert data. induction k as [|k IH]; intros data Hl Hb.
  - destruct data; [|cbn in Hl; lia]. by exists [].
  - destruct (IH (drop 16 data)) as (bs & Hbs & Hok).
    + rewrite length_drop. lia.
    + by apply Forall_drop.
    + exists (take 16 data :: bs). cbn [concat]. rewrite <- Hbs, take_drop. split; [done|].
      constructor; [|done]. split; [rewrite length_take; lia|by apply Forall_take].
Qed.

Lemma block_length bs : Forall block bs → Forall (λ b, length b = 16%nat) bs.
Proof. intros H. eapply Forall_impl; [exact H|]. by intros b []. Qed.

Lemma pad_length data : ∃ k, length (pad data 16) = (16 * S k)%nat.
Proof.
  unfold pad. rewrite length_app, length_replicate.
  exists (Z.to_nat (Z.of_nat (length data) / 16)). Z.div_mod_to_equations. lia.
Qed.

Lemma pad_bytes data : Forall is_byte data → Forall is_byte (pad data 16).
Proof.
  intros H. unfold pad. apply Forall_app. split; [done|]. apply Forall_replicate.
  unfold is_byte. Z.div_mod_to_equations. lia.
Qed.

Lemma unpad_pad_any data blockSize :
  1 ≤ blockSize ≤ 255 → unpad (pad data blockSize) = Ret data.
Proof.
  intros Hb. unfold unpad, pad. set (p := blockSize - Z.of_nat (length data) mod blockSize).
  assert (1 ≤ p ≤ blockSize) as Hp.
  { subst p. pose proof (Z.mod_pos_bound (Z.of_nat (length data)) blockSize). lia. }
  replace (Z.to_nat p) with (S (Z.to_nat (p - 1))) by lia.
  rewrite replicate_S_end, app_assoc, last_snoc, !length_app, length_replicate. cbn [length].
  destruct (Z.ltb_spec (Z.of_nat (length data + Z.to_nat (p - 1) + 1)) p); [lia|].
  destruct (Z.eqb_spec p 0); [lia|]. cbn [orb]. f_equal.
  rewrite <- app_assoc. rewrite take_app_le by lia. apply take_ge. lia.
Qed.

Section mode_properties.
  Context {B : BlockCipher} {BL : BlockCipherLaws B}.

Lemma cbc_encrypt_blocks c prev bs :
  block prev → Forall block bs →
  ∃ es, cbc_encrypt c prev bs = concat es ∧ Forall block es ∧ length es = length bs ∧
        cbc_decrypt c prev es = concat bs.
Proof.
  intros Hp Hbs. revert prev Hp. induction Hbs as [|b bs Hb _ IH]; intros prev Hp; [by exists []|].
  pose proof (encrypt_block c _ (xor_block_ok b prev Hb Hp)) as He.
  destruct (IH _ He) as (es & Henc & Hes & Hlen & Hdec).
  exists (EncryptBlock c (xor_block b prev) :: es).
  cbn [cbc_encrypt cbc_decrypt concat length]. rewrite Henc, Hdec. split; [done|].
  split; [by constructor|]. split; [by rewrite Hlen|].
  rewrite decrypt_encrypt_block by by apply xor_block_ok.
  rewrite xor_block_twice; [done|]. destruct Hb, Hp. congruence.
Qed.

Lemma DecryptAES_EncryptAES iv plain key c :
  block iv → Forall is_byte plain → NewCipher key = Ret c →
  ∃ e, EncryptAES (Ret iv) plain key = Ret e ∧ Forall is_byte e ∧ DecryptAES e key = Ret plain.
Proof.
  intros Hiv Hplain Hc. destruct (pad_length plain) as [k Hk].
  destruct (whole_blocks (S k) (pad plain 16) Hk (pad_bytes _ Hplain)) as (bs & Hbs & Hok).
  destruct (cbc_encrypt_blocks c iv bs Hiv Hok) as (es & Henc & Hes & Hlen & Hdec).
  assert (blocks_of (pad plain BlockSize) = bs) as Hblocks.
  { unfold BlockSize. rewrite Hbs. by apply blocks_of_concat, block_length. }
  exists (iv ++ concat es). split; [|split].
  - unfold EncryptAES. rewrite Hc. cbn. rewrite Hblocks, Henc. done.
  - apply Forall_app. split; [apply Hiv|]. clear -Hes.
    induction Hes as [|b bs [_ Hb] _ IH]; cbn; [constructor|by apply Forall_app].
  - unfold DecryptAES. rewrite Hc. cbn [annotate mbind Out_bind]. destruct Hiv as [Hl _].
    rewrite length_app, Hl. destruct (Z.ltb_spec (Z.of_nat (16 + length (concat es))) BlockSize) as [Hlt|_];
      [unfold BlockSize in Hlt; lia|].
    rewrite take_app_length', drop_app_length' by done.
    assert (Z.of_nat (length (concat es)) mod BlockSize = 0) as ->.
    { rewrite length_concat_blocks by by apply block_length. unfold BlockSize.
      rewrite Nat2Z.inj_mul, Z.mul_comm. by apply Z.mod_mul. }
    cbn [Z.eqb negb]. rewrite blocks_of_concat by by apply block_length.
    rewrite Hdec, <- Hbs. by apply (unpad_pad_any plain 16).
Qed.
End mode_properties.

(** ** Properties *)

Section properties.
  Context {B : BlockCipher} {BL : BlockCipherLaws B}.

(** Under one key, what is encrypted decrypts to itself, whatever the text and the
    initial vector. *)
Theorem AES_round_trip iv plain key c :
  block iv → Forall is_byte plain → NewCipher key = Ret c →
  ∃ e, EncryptAES (Ret iv) plain key = Ret e ∧ DecryptAES e key = Ret plain.
Proof.
  intros Hiv Hp Hc. destruct (DecryptAES_EncryptAES iv plain key c Hiv Hp Hc) as (e & ? & _ & ?).
  by exists e.
Qed.

(** With a good key a ciphertext is refused for its length in three ways, told apart,
    and otherwise decrypts or has a bad padding byte: [DecryptAES] never panics. *)
Theorem DecryptAES_outcomes data key c :
  NewCipher key = Ret c →
  let n := Z.of_nat (length data) in
  (n < 16 → DecryptAES data key = Throw ErrCiphertextTooShort) ∧
  (16 ≤ n → n mod 16 ≠ 0 → DecryptAES data key = Throw ErrInvalidBlockSize) ∧
  (n = 16 → DecryptAES data key = Throw ErrInvalidPaddingSize) ∧
  (16 < n → n mod 16 = 0 → ∃ r, DecryptAES data key = r ∧
    (r = Throw ErrInvalidPaddingSize ∨ r = Throw ErrInvalidPadding ∨ ∃ plain, r = Ret plain)).
Proof.
  intros Hc n. subst n. unfold DecryptAES. rewrite Hc. cbn [annotate mbind Out_bind].
  rewrite length_drop. split; [|split; [|split]].
  - intros H. by destruct (Z.ltb_spec (Z.of_nat (length data)) BlockSize); [|unfold BlockSize in *; lia].
  - intros H Hm. destruct (Z.ltb_spec (Z.of_nat (length data)) BlockSize); [unfold BlockSize in *; lia|].
    destruct (Z.eqb_spec (Z.of_nat (length data - 16) mod BlockSize) 0) as [E|]; [|done].
    exfalso. apply Hm. unfold BlockSize in E. Z.div_mod_to_equations. lia.
  - intros H. destruct (Z.ltb_spec (Z.of_nat (length data)) BlockSize); [unfold BlockSize in *; lia|].
    replace (length data - 16)%nat with 0%nat by lia. cbn [Z.of_nat Z.modulo Z.eqb negb].
    rewrite drop_ge by lia. done.
  - intros H Hm. eexists. split; [done|].
    destruct (Z.ltb_spec (Z.of_nat (length data)) BlockSize); [unfold BlockSize in *; lia|].
    destruct (Z.eqb_spec (Z.of_nat (length data - 16) mod BlockSize) 0) as [|E].
    + cbn [negb]. unfold unpad. destruct (last _); [|by left]. destruct (_ || _); eauto.
    + exfalso. apply E. unfold BlockSize. Z.div_mod_to_equations. lia.
Qed.

End properties.

(** [unpad] does not look at the padding it drops: any text whose last byte names a
    length that is there is accepted, longer than a block or not. *)
Theorem unpad_unchecked data padding :
  1 ≤ padding ≤ Z.of_nat (length data) + 1 →
  unpad (data ++ [padding]) = Ret (take (length data + 1 - Z.to_nat padding) data).
Proof.
  intros Hp. unfold unpad. rewrite last_snoc, length_app. cbn [length].
  destruct (Z.ltb_spec (Z.of_nat (length data + 1)) padding); [lia|].
  destruct (Z.eqb_spec padding 0); [lia|]. cbn [orb]. f_equal.
  apply take_app_le. lia.
Qed.

(** ** At work *)

(** A cipher that turns blocks round, for keys of the three sizes of AES. *)
#[export] Instance toy_cipher : BlockCipher := {|
  Cipher := list Z;
  NewCipher key :=
    if bool_decide (length key ∈ [16%nat; 24%nat; 32%nat]) then Ret key
    else Throw (Errorf "crypto/aes: invalid key size");
  EncryptBlock _ b := reverse b;
  DecryptBlock _ b := reverse b;
|}.

#[export] Instance toy_cipher_laws : BlockCipherLaws toy_cipher.
Proof.
  split; cbn.
  - intros _ b [Hl Hb]. split; [by rewrite length_reverse|].
    by rewrite reverse_Permutation.
  - intros _ b _. apply reverse_involutive.
Qed.

Definition bytes_of (s : string) : list Z := map code (list_ascii_of_string s).
Definition text_of (b : list Z) : string := string_of_list_ascii (map chr b).

Lemma text_of_bytes_of s : text_of (bytes_of s) = s.
Proof.
  unfold text_of, bytes_of. rewrite map_map.
  rewrite (map_ext _ (λ c, c)), map_id; [apply string_of_list_ascii_of_string|].
  intros c. unfold chr, code. by rewrite N2Z.id, ascii_N_embedding.
Qed.

Lemma bytes_of_bytes s : Forall is_byte (bytes_of s).
Proof. apply Forall_forall. intros x (c & -> & _)%list_elem_of_fmap. apply code_range. Qed.

(** A form for pairs of texts: the first one doubled up with its end marked. *)
Definition pair_bytes (a b : string) : list Z :=
  flat_map (λ x, [1; x]) (bytes_of a) ++ 0 :: bytes_of b.
Fixpoint pair_texts (l : list Z) (acc : list Z) : option (string * string) :=
  match l with
  | 1 :: x :: l' => pair_texts l' (acc ++ [x])
  | 0 :: l' => Some (text_of acc, text_of l')
  | _ => None
  end.

Lemma pair_texts_bytes a b : pair_texts (pair_bytes a b) [] = Some (a, b).
Proof.
  unfold pair_bytes. rewrite <- (text_of_bytes_of a) at 2.
  assert (∀ l acc, pair_texts (flat_map (λ x, [1; x]) l ++ 0 :: bytes_of b) acc
    = Some (text_of (acc ++ l), b)) as H.
  { induction l as [|x l IH]; intros acc; cbn.
    - by rewrite text_of_bytes_of, app_nil_r.
    - rewrite IH, <- app_assoc. done. }
  apply H.
Qed.

Lemma pair_bytes_bytes a b : Forall is_byte (pair_bytes a b).
Proof.
  unfold pair_bytes. apply Forall_app. split; [|constructor; [by unfold is_byte|apply bytes_of_bytes]].
  pose proof (bytes_of_bytes a) as H. induction H as [|x l Hx _ IH]; cbn; [constructor|].
  constructor; [by unfold is_byte|]. by constructor.
Qed.

#[export] Instance toy_json_text : Json string := {|
  json_Marshal s := Ret (bytes_of s);
  json_Unmarshal b := Ret (text_of b);
|}.
#[export] Instance toy_json_request : Json EncryptedRequestDTO := {|
  json_Marshal d := Ret (pair_bytes (req_SyncID d) (req_Payload d));
  json_Unmarshal b :=
    match pair_texts b [] with
    | Some (a, c) => Ret (MkRequestDTO a c) | None => Throw (Errorf "invalid character") end;
|}.
#[export] Instance toy_json_response : Json EncryptedResponseDTO := {|
  json_Marshal d := Ret (pair_bytes (resp_SyncID d) (resp_Payload d));
  json_Unmarshal b :=
    match pair_texts b [] with
    | Some (a, c) => Ret (MkResponseDTO a c) | None => Throw (Errorf "invalid character") end;
|}.

Lemma toy_json_text_back (s : string) : json_Unmarshal (bytes_of s) = Ret s.
Proof. cbn. by rewrite text_of_bytes_of. Qed.
Lemma toy_json_response_back d :
  json_Unmarshal (A := EncryptedResponseDTO) (pair_bytes (resp_SyncID d) (resp_Payload d)) = Ret d.
Proof. cbn -[pair_texts pair_bytes]. rewrite pair_texts_bytes. by destruct d. Qed.

Definition sample_key : list Z := bytes_of "0123456789abcdef".
Definition sample_iv : list Z := replicate 16 7.

Lemma sample_iv_block : block sample_iv.
Proof. split; [done|]. apply Forall_replicate. by unfold is_byte. Qed.

Lemma AES_round_trip_witness :
  ∃ e, EncryptAES (Ret sample_iv) (bytes_of "Hello, World!") sample_key = Ret e ∧
       DecryptAES e sample_key = Ret (bytes_of "Hello, World!").
Proof.
  exact (AES_round_trip sample_iv (bytes_of "Hello, World!") sample_key sample_key
    sample_iv_block (bytes_of_bytes _) eq_refl).
Defined.

Lemma DecryptAES_outcomes_witness :
  DecryptAES (replicate 16 0) sample_key = Throw ErrInvalidPaddingSize.
Proof.
  exact (proj1 (proj2 (proj2 (DecryptAES_outcomes (replicate 16 0) sample_key sample_key eq_refl)))
    eq_refl).
Defined.

(** A gateway that answers [hello!], sealed, to whatever it is sent. *)
Definition sealed_hello : EncryptedResponseDTO :=
  match EncryptResponse (Ret sample_iv) "hello!" "id-2" (EncodeToString sample_key) with
  | Ret d => d | _ => MkResponseDTO "" "" end.

Lemma unpad_unchecked_witness : unpad ([65; 66; 99; 98] ++ [3]) = Ret [65; 66].
Proof. refine (unpad_unchecked [65; 66; 99; 98] 3 _). cbn. lia. Defined.
