(* ===== verification/JoinStore.v ===== *)
(** * [internal/jointokens] and [internal/joinrequests]: what a join starts from

    The gateway's own join token, the requests it keeps for the nodes it expects, and
    the text in which a request travels to its node. *)
From S2P Require Import Prelude GoStrings GoNet Mtls NodeTypes Gorm.
From S2P Require Import Base64 Aes.

(** ** Join tokens *)

Record JoinToken : Type := MkJoinToken { jt_Token : string; jt_CreatedAt : Z }.

#[export] Instance JoinToken_model : Model string JoinToken := {|
  pk := jt_Token;
  pk_zero t := bool_decide (t = "");
  clash _ _ := false;
  on_create t := t;
  pk_on_create _ := eq_refl;
|}.

Section jointokens.
  Context `{G : Gorm string JoinToken}.

(** [r.Create(token)], [r.GetLast()] and [r.DeleteAll()] *)
Definition CreateToken (token : string) (now : Z) : M Table JoinToken :=
  Create (MkJoinToken token now).
Definition GetLastToken (db : Table) : Out JoinToken := FirstDesc jt_CreatedAt db.
Definition DeleteAllTokens : M Table unit := _ ← Delete (λ _, true); mret tt.
End jointokens.

(** ** Join requests *)

Record JoinRequest : Type := MkJoinRequest {
  jr_ID : string;
  jr_EncryptionKeyBase64 : string;
  jr_ClientCertBundle : FullClientBundle;
  jr_DockerSubnet : option string;
  jr_GatewayHost : string;
  jr_GatewayPort : Z;
  jr_Role : NodeRole;
  jr_CreatedAt : Z;
}.

#[export] Instance JoinRequest_model : Model string JoinRequest := {|
  pk := jr_ID;
  pk_zero id := bool_decide (id = "");
  clash _ _ := false;
  on_create r := r;
  pk_on_create _ := eq_refl;
|}.

Section text_form.
  Context `{J : Json JoinRequest}.

(** [c.ToBase64()] and [c.FromBase64(base64String)] on a fresh request. *)
Definition ToBase64 (c : JoinRequest) : Out string :=
  val ← json_Marshal c;
  mret (EncodeToString val).
Definition FromBase64 (base64String : string) : Out JoinRequest :=
  decoded ← DecodeString base64String;
  json_Unmarshal decoded.
End text_form.

Section joinrequests.
  Context `{G : Gorm string JoinRequest}.

Definition request_id (id : string) (r : JoinRequest) : bool := bool_decide (jr_ID r = id).
Definition for_server (r : JoinRequest) : bool := bool_decide (jr_Role r = NodeRoleServer).

(** [r.Create(..)]: [random] is what [rand.Read] gives for a number of bytes. *)
Definition CreateRequest (random : nat → Out (list Z)) (now : Z) (id gatewayHost : string)
    (gatewayPort : Z) (dockerSubnet : option string) (role : NodeRole)
    (clientCertBundle : FullClientBundle) : M Table JoinRequest :=
  encryptionKey ← lift (GenerateAESKey random);
  Create (MkJoinRequest id (EncodeToString encryptionKey) clientCertBundle dockerSubnet
            gatewayHost gatewayPort role now).

(** [r.Get(id)] and [r.Delete(id)] *)
Definition GetRequest (id : string) (db : Table) : Out JoinRequest := First (request_id id) db.
Definition DeleteRequest (id : string) : M Table unit := _ ← Delete (request_id id); mret tt.

(** [r.CountAll()] and [r.CountServerJoinRequests()]: an error reads as none. *)
Definition CountAllRequests (db : Table) : Out Z := or_zero 0 (Count (λ _, true) db).
Definition CountServerJoinRequests (db : Table) : Out Z := or_zero 0 (Count for_server db).
End joinrequests.

(** ** Properties *)

(** The strings of a request as they travel, and the requests that travel well: their
    strings are UTF-8, their port is one and their role one of the four. *)
Definition request_texts (r : JoinRequest) : list string :=
  let cb := jr_ClientCertBundle r in
  [jr_ID r; jr_EncryptionKeyBase64 r; CertPEM (cb_RootCA cb); KeyPEM (cb_RootCA cb);
   CertPEM (cb_Client cb); KeyPEM (cb_Client cb); default "" (jr_DockerSubnet r); jr_GatewayHost r].
Definition plain_request (r : JoinRequest) : bool :=
  forallb ValidString (request_texts r) && (0 <=? jr_GatewayPort r) && (jr_GatewayPort r <? 65536) &&
  match jr_Role r with NodeRoleOther _ => false | _ => true end.

Lemma JoinRequest_text `{J : Json JoinRequest} `{!JsonLaws plain_request} r s :
  plain_request r = true → ToBase64 r = Ret s → FromBase64 s = Ret r.
Proof.
  unfold ToBase64, FromBase64. intros Hr (b & Hb & H)%bind_Ret_inv. injection H as <-.
  apply (json_round_trip _ _ Hr) in Hb as [Hu Hbytes]. by rewrite DecodeString_EncodeToString.
Qed.

(** A join request whose strings are UTF-8 survives the text it travels in, and so two such
    requests with one text are the same request. *)
Theorem JoinRequest_round_trip `{J : Json JoinRequest} `{!JsonLaws plain_request} r s :
  plain_request r = true → ToBase64 r = Ret s →
  FromBase64 s = Ret r ∧ ∀ r', plain_request r' = true → ToBase64 r' = Ret s → r' = r.
Proof.
  intros Hp Hr. apply (JoinRequest_text _ _ Hp) in Hr. split; [done|].
  intros r' Hp' Hr'%JoinRequest_text; [congruence|done].
Qed.

Section token_properties.
  Context {G : Gorm string JoinToken} {L : GormLaws string JoinToken}.

(** A token made after all others is the last one. *)
Lemma last_created t token now :
  healthy t → rows t !! token = None →
  (∀ k x, rows t !! k = Some x → jt_CreatedAt x < now) →
  ∃ t', CreateToken token now t = (Ret (MkJoinToken token now), t') ∧ healthy t' ∧
    GetLastToken t' = Ret (MkJoinToken token now).
Proof.
  intros Ht Hfresh Hnew. set (x := MkJoinToken token now).
  destruct (create_ok x t Ht Hfresh) as (t' & Hc & Ht'); [by intros ? ? _ _|].
  pose proof (create_rows _ _ _ _ Hc) as (_ & _ & Hr). cbn in Hr.
  exists t'. split; [done|]. split; [done|].
  unfold GetLastToken. destruct (first_desc_ok jt_CreatedAt t' Ht') as [[y Hy]|Hn].
  - rewrite Hy. apply first_desc_row in Hy as [Hy Hmax]. f_equal.
    assert (rows t' !! token = Some x) as Hx by by rewrite Hr, lookup_insert_eq.
    rewrite Hr in Hy. apply lookup_insert_Some in Hy as [[_ <-]|[_ Hy]]; [done|].
    apply Hnew in Hy. apply Hmax in Hx. cbn in Hx. lia.
  - apply first_desc_none in Hn. rewrite Hr in Hn. by apply insert_non_empty in Hn.
Qed.

(** A token made after all others is the last one; after [DeleteAll] there is none. *)
Theorem tokens_last t token now :
  healthy t → rows t !! token = None →
  (∀ k x, rows t !! k = Some x → jt_CreatedAt x < now) →
  ∃ t' t'', CreateToken token now t = (Ret (MkJoinToken token now), t') ∧
    GetLastToken t' = Ret (MkJoinToken token now) ∧
    DeleteAllTokens t' = (Ret tt, t'') ∧ GetLastToken t'' = Throw ErrRecordNotFound.
Proof.
  intros Ht Hfresh Hnew. destruct (last_created _ _ _ Ht Hfresh Hnew) as (t' & Hc & Ht' & Hlast).
  destruct (delete_ok (λ _, true) t' Ht') as (n & t'' & Hd & Ht'').
  pose proof (delete_rows _ _ _ _ Hd) as [_ Hr''].
  assert (rows t'' = ∅) as Hempty.
  { rewrite Hr''. apply map_eq. intros k. rewrite lookup_empty.
    apply map_lookup_filter_None_2. by right. }
  exists t', t''. split; [done|]. split; [done|]. split.
  - unfold DeleteAllTokens. by rewrite (M_bind_Ret _ _ _ _ _ Hd).
  - unfold GetLastToken. destruct (first_desc_ok jt_CreatedAt t'' Ht'') as [[y Hy]|]; [|done].
    apply first_desc_row in Hy as [Hy _]. by rewrite Hempty, lookup_empty in Hy.
Qed.
End token_properties.

Section request_properties.
  Context {G : Gorm string JoinRequest} {L : GormLaws string JoinRequest}.

Lemma request_id_pk id r : request_id id r = bool_decide (pk r = id).
Proof. reflexivity. Qed.

Lemma CreateRequest_row t random now id host port subnet role cb key :
  healthy t → rows t !! id = None → random 32%nat = Ret key →
  let r := MkJoinRequest id (EncodeToString key) cb subnet host port role now in
  ∃ t', CreateRequest random now id host port subnet role cb t = (Ret r, t') ∧ healthy t' ∧
        rows t' = <[id := r]> (rows t).
Proof.
  intros Ht Hfresh Hkey r. destruct (create_ok r t Ht Hfresh) as (t' & Hc & Ht'); [by intros ? ? _ _|].
  pose proof (create_rows _ _ _ _ Hc) as (_ & _ & Hr). cbn in Hr, Hc.
  exists t'. split; [|done]. unfold CreateRequest, GenerateAESKey. rewrite Hkey. exact Hc.
Qed.

(** A request is stored with the key drawn for it, is found under its identifier, and
    after its deletion is not; a second request under one identifier is refused. *)
Theorem request_lifecycle t random now id host port subnet role cb key :
  healthy t → rows t !! id = None → random 32%nat = Ret key →
  ∃ t' t'' e, let r := MkJoinRequest id (EncodeToString key) cb subnet host port role now in
    CreateRequest random now id host port subnet role cb t = (Ret r, t') ∧
    GetRequest id t' = Ret r ∧
    CreateRequest random now id host port subnet role cb t' = (Throw e, t') ∧
    DeleteRequest id t' = (Ret tt, t'') ∧ GetRequest id t'' = Throw ErrRecordNotFound ∧
    rows t'' = rows t.
Proof.
  intros Ht Hfresh Hkey. set (r := MkJoinRequest id (EncodeToString key) cb subnet host port role now).
  destruct (CreateRequest_row t random now id host port subnet role cb key Ht Hfresh Hkey)
    as (t' & Hc & Ht' & Hr). fold r in Hc, Hr.
  assert (rows t' !! id = Some r) as Hin by by rewrite Hr, lookup_insert_eq.
  destruct (create_clash r t' Ht') as [e He]; [cbn; by rewrite Hin|].
  destruct (delete_ok (request_id id) t' Ht') as (n & t'' & Hd & Ht'').
  pose proof (delete_rows _ _ _ _ Hd) as [_ Hr''].
  rewrite (filter_key _ _ (request_id_pk id)) in Hr''.
  assert (rows t'' = rows t) as Hback.
  { rewrite Hr'', Hr. by apply delete_insert_id. }
  assert (lift (GenerateAESKey random) t' = (Ret key, t')) as Hl'
    by (apply lift_Ret; unfold GenerateAESKey; by rewrite Hkey).
  exists t', t'', e. split; [|split; [|split; [|split; [|split]]]].
  - exact Hc.
  - unfold GetRequest. by rewrite (first_key _ _ (request_id_pk id)), Hin.
  - unfold CreateRequest. by rewrite (M_bind_Ret _ _ _ _ _ Hl').
  - unfold DeleteRequest. by rewrite (M_bind_Ret _ _ _ _ _ Hd).
  - unfold GetRequest. by rewrite (first_key _ _ (request_id_pk id)), Hback, Hfresh.
  - done.
Qed.
End request_properties.

(** ** At work *)

#[export] Instance JoinRequest_eq_dec : EqDecision JoinRequest.
Proof. solve_decision. Defined.

(** A coder that knows one value, written as the byte [42]. *)
Definition one_value_json {A} `{EqDecision A} (x : A) : Json A := {|
  json_Marshal y :=
    if bool_decide (y = x) then Ret [42] else Throw (Errorf "json: unsupported value");
  json_Unmarshal b :=
    if bool_decide (b = [42]) then Ret x else Throw (Errorf "invalid character");
|}.
Lemma one_value_json_laws {A} `{EqDecision A} (x : A) plain : @JsonLaws A (one_value_json x) plain.
Proof.
  split. cbn. intros y b _. case_bool_decide; intros [= <-]. subst.
  split; [by case_bool_decide|]. by repeat constructor.
Qed.

Definition sample_request : JoinRequest :=
  MkJoinRequest "r-1" "a2V5" (MkClientBundle (MkPEMBundle "ca" "") (MkPEMBundle "c" "k") 0)
    None "203.0.113.7" 4060 NodeRoleClient 0.

Lemma JoinRequest_round_trip_witness :
  @FromBase64 (one_value_json sample_request) "Kg==" = Ret sample_request.
Proof.
  refine (proj1 (@JoinRequest_round_trip (one_value_json sample_request)
    (one_value_json_laws sample_request _) sample_request "Kg==" _ _)); vm_compute; reflexivity.
Defined.

Definition token_table : Type := Table (Gorm := mem_gorm (K := string) (T := JoinToken)).
Lemma no_tokens_keyed : keyedb (∅ : gmap string JoinToken) = true.
Proof. vm_compute. reflexivity. Qed.
Definition no_tokens : token_table := exist _ (∅ : gmap string JoinToken) no_tokens_keyed.

Lemma tokens_last_witness :
  ∃ t', CreateToken "tok" 5 no_tokens = (Ret (MkJoinToken "tok" 5), t') ∧
        GetLastToken t' = Ret (MkJoinToken "tok" 5).
Proof.
  destruct (tokens_last no_tokens "tok" 5 I eq_refl) as (t' & t'' & Hc & Hg & _).
  - intros k x. vm_compute. discriminate.
  - exact (ex_intro _ t' (conj Hc Hg)).
Defined.

Definition request_table : Type := Table (Gorm := mem_gorm (K := string) (T := JoinRequest)).
Lemma no_requests_keyed : keyedb (∅ : gmap string JoinRequest) = true.
Proof. vm_compute. reflexivity. Qed.
Definition no_requests : request_table := exist _ (∅ : gmap string JoinRequest) no_requests_keyed.

Lemma request_lifecycle_witness :
  ∃ t' t'', GetRequest "r-1" t' = Ret (sample_request) ∧
            DeleteRequest "r-1" t' = (Ret tt, t'') ∧
            GetRequest "r-1" t'' = Throw ErrRecordNotFound.
Proof.
  destruct (request_lifecycle no_requests (λ _, Ret [107; 101; 121]) 0 "r-1" "203.0.113.7" 4060
    None NodeRoleClient (jr_ClientCertBundle sample_request) [107; 101; 121] I eq_refl eq_refl)
    as (t' & t'' & e & _ & Hg & _ & Hd & Hn & _).
  exact (ex_intro _ t' (ex_intro _ t'' (conj Hg (conj Hd Hn)))).
Defined.
