(* ===== verification/CommandTypes.v ===== *)
(** * [internal/commands/types]: what the commands exchange over HTTP

    The request and response bodies of the gateway's control API.  Their JSON form is
    [encoding/json]'s and is asked for where it is used, as an instance of [Json]. *)
From S2P Require Import Prelude GoStrings GoNet NodeTypes PublicServices.

Record ExecRequestDTO : Type := MkExecRequest { er_Command : string; er_Args : list string }.
Record ExecResponseDTO : Type := MkExecResponse { Stdout : string; Stderr : string }.

(** Servers and clients *)
Record ServerNewRequestDTO : Type := MkServerNewRequest {
  snr_Force : bool; snr_Quiet : bool; snr_DockerSubnet : string }.
Record ServerRemoveRequestDTO : Type := MkServerRemoveRequest { srr_NodeID : string }.
Record ClientNewRequestDTO : Type := MkClientNewRequest {
  cnr_JoinRequest : bool; cnr_Quiet : bool; cnr_Wait : bool }.
Record ClientListRequestDTO : Type := MkClientListRequest {}.
Record ServerListRequestDTO : Type := MkServerListRequest {}.

(** Services and their parameters *)
Record ServicePublishRequestDTO : Type := MkServicePublishRequest {
  spr_LocalProtocol : string; spr_LocalHost : string; spr_LocalPort : Z;
  spr_PublicProtocol : string; spr_PublicHost : string; spr_PublicPort : Z }.
Record ServiceUnpublishRequestDTO : Type := MkServiceUnpublishRequest {
  sur_PublicProtocol : string; sur_PublicHost : string; sur_PublicPort : Z }.
Record ServiceParamNewRequestDTO : Type := MkServiceParamNewRequest {
  spn_PublicProtocol : string; spn_PublicHost : string; spn_PublicPort : Z;
  spn_ParamType : PublicServiceParamType; spn_ParamValue : string }.
Record ServiceParamRemoveRequestDTO : Type := MkServiceParamRemoveRequest {
  sprm_PublicProtocol : string; sprm_PublicHost : string; sprm_PublicPort : Z;
  sprm_ParamType : PublicServiceParamType; sprm_ParamValue : string }.
Record ServiceParamListRequestDTO : Type := MkServiceParamListRequest {
  spl_PublicProtocol : string; spl_PublicHost : string; spl_PublicPort : Z }.
Record ServiceListRequestDTO : Type := MkServiceListRequest {
  slr_Exec : ExecResponseDTO; slr_Services : list PublicService }.

(** Joining *)
Record JoinRequestDTO : Type := MkJoinRequestDTO { jq_JoinToken : string }.
Record JoinResponseDTO : Type := MkJoinResponseDTO { jp_NodeConfig : option Node }.

Record ServerListResponseDTO : Type := MkServerListResponse {
  sl_Exec : ExecResponseDTO; ServerNodesCount : Z }.

(** A node's own configuration and its labels *)
Record NodeConfigRequestDTO : Type := MkNodeConfigRequest {}.
Record NodeConfigResponseDTO : Type := MkNodeConfigResponse {
  nc_Exec : ExecResponseDTO; nc_NodeConfig : option Node }.
Record NodeLabelAddRequestDTO : Type := MkNodeLabelAddRequest {
  nla_NodeIP : string; nla_Label : string }.
Record NodeLabelRemoveRequestDTO : Type := MkNodeLabelRemoveRequest {
  nlr_NodeIP : string; nlr_Label : string }.

#[export] Instance ExecResponseDTO_eq_dec : EqDecision ExecResponseDTO.
Proof. solve_decision. Defined.
#[export] Instance JoinRequestDTO_eq_dec : EqDecision JoinRequestDTO.
Proof. solve_decision. Defined.
#[export] Instance JoinResponseDTO_eq_dec : EqDecision JoinResponseDTO.
Proof. solve_decision. Defined.
