(* ===== verification/JoinClient.v ===== *)
(** * [internal/joinrequests]: asking the gateway to let a node in

    The client's retry loop ([api.go]) and the text it prints when the loop gives up
    ([join_error.go]).  The network is a parameter: what the n-th post to a URL,
    of a content type and a body, gives. *)
From S2P Require Import Prelude GoStrings GoNet NodeTypes PublicServices.
From S2P Require Import Aes CommandTypes JoinStore.

(** ** Network errors *)

(** One link of an error's [Unwrap] chain, as far as [errors.As] is asked about it: a
    [syscall.Errno], a value with a [Timeout] method and its answer, a [*net.DNSError],
    a [*net.OpError]. *)
Record ErrLink : Type := MkLink {
  link_errno : option Z;
  link_Timeout : option bool;
  link_DNSError : bool;
  link_OpError : bool;
}.
Record NetError : Type := MkNetError { net_text : string; net_chain : list ErrLink }.

Definition plain_link : ErrLink := MkLink None None false false.

(** [errors.New] and [fmt.Errorf] with and without [%w]. *)
Definition net_error (text : string) : NetError := MkNetError text [plain_link].
Definition net_wrap (prefix : string) (e : NetError) : NetError :=
  MkNetError (prefix +:+ net_text e) (plain_link :: net_chain e).

(** The first link that has what is asked for. *)
Fixpoint errors_As {A} (ask : ErrLink → option A) (chain : list ErrLink) : option A :=
  match chain with
  | [] => None
  | l :: chain' => match ask l with Some a => Some a | None => errors_As ask chain' end
  end.

(** Linux's numbers. *)
Definition ENETUNREACH : Z := 101.
Definition ETIMEDOUT : Z := 110.
Definition ECONNREFUSED : Z := 111.
Definition EHOSTUNREACH : Z := 113.

Definition flag (b : bool) : option unit := if b then Some tt else None.

(** [isRetryableError(err)] *)
Definition isRetryableError (err : NetError) : bool :=
  match errors_As link_errno (net_chain err) with
  | Some errno => bool_decide (errno ∈ [ECONNREFUSED; ENETUNREACH; EHOSTUNREACH; ETIMEDOUT])
  | None => false
  end ||
  match errors_As link_Timeout (net_chain err) with Some b => b | None => false end ||
  match errors_As (λ l, flag (link_DNSError l)) (net_chain err) with
  | Some _ => true | None => false end.

(** ** The retry loop *)

(** A 64-bit signed result. *)
Definition int64_wrap (z : Z) : Z := (z + 2 ^ 63) mod 2 ^ 64 - 2 ^ 63.

(** [calculateBackoffDelay(attempt, baseDelay, maxDelay)], in nanoseconds. *)
Definition calculateBackoffDelay (attempt baseDelay maxDelay : Z) : Out Z :=
  if attempt - 1 <? 0 then Panic "negative shift amount"
  else
    let delay := int64_wrap (baseDelay * int64_wrap (Z.shiftl 1 (attempt - 1))) in
    Ret (if maxDelay <? delay then maxDelay else delay).

Definition Second : Z := 1000000000.
Definition maxRetries : Z := 5.
Definition baseDelay : Z := 1 * Second.
Definition maxDelay : Z := 10 * Second.

(** ** Finding the gateway *)

(** The dialer's own resolver asks these, then what the system says. *)
Definition dnsServers : list string := ["8.8.8.8:53"; "1.1.1.1:53"; "208.67.222.222:53"].
Definition dnsResolverTimeout : Z := 10 * Second.

(** The [Dial] of the resolver: [DialContext timeout network address] is one try of a
    [net.Dialer] with that timeout. *)
Definition resolver_Dial {Conn} (DialContext : Z → string → string → NetError + Conn)
    (network address : string) : NetError + Conn :=
  foldr (λ dnsServer otherwise,
    match DialContext dnsResolverTimeout "udp" dnsServer with
    | inr conn => inr conn
    | inl _ => otherwise
    end) (DialContext dnsResolverTimeout network address) dnsServers.

(** It fails only if nothing answers, with the error of the system's own resolver; what it
    gives otherwise is the first in the list that can be dialled. *)
Lemma resolver_Dial_first {Conn} (DialContext : Z → string → string → NetError + Conn) network address :
  (∃ before dnsServer after conn, dnsServers = before ++ dnsServer :: after ∧
     (∀ s, s ∈ before → ∃ err, DialContext dnsResolverTimeout "udp" s = inl err) ∧
     DialContext dnsResolverTimeout "udp" dnsServer = inr conn ∧
     resolver_Dial DialContext network address = inr conn) ∨
  ((∀ s, s ∈ dnsServers → ∃ err, DialContext dnsResolverTimeout "udp" s = inl err) ∧
     resolver_Dial DialContext network address = DialContext dnsResolverTimeout network address).
Proof.
  unfold resolver_Dial. induction dnsServers as [|s l IH]; cbn.
  { right. split; [|done]. by intros s ?%elem_of_nil. }
  destruct (DialContext dnsResolverTimeout "udp" s) as [err|conn] eqn:E.
  - destruct IH as [(before & d & after & conn & -> & Hb & Hd & Hr)|[Hall Hr]].
    + left. exists (s :: before), d, after, conn. split; [done|]. split; [|done].
      intros x [-> |Hx]%elem_of_cons; eauto.
    + right. split; [|done]. intros x [-> |Hx]%elem_of_cons; eauto.
  - left. exists [], s, l, conn. split; [done|]. split; [|done]. by intros x ?%elem_of_nil.
Qed.

(** What [client.Post] and [io.ReadAll] give. *)
Inductive PostResult : Type :=
| SendError (err : NetError)
| ReadError (err : NetError)
| Response (StatusCode : Z) (body : list Z).

(** What the loop leaves behind: the posts and the delays slept, in order. *)
Record JoinState : Type := MkJoinState {
  js_posts : list (string * list Z);
  js_sleeps : list Z;
}.

(** A call whose error is looked at where it happens. *)
Definition checked {S A} (o : Out A) : M S (error + A) := attempt (lift o).

Section join.
  Context `{JQ : Json JoinRequestDTO} `{JP : Json JoinResponseDTO}.
  (** what [client.Post(url, contentType, body)] gives the n-th time, from 0, and the texts
      of two clock readings *)
  Context (net : string → string → list Z → nat → PostResult) (first_attempt now : string).

Definition Post (url : string) (payload : list Z) : M JoinState PostResult := λ s,
  (Ret (net url "application/json" payload (length (js_posts s))), MkJoinState (js_posts s ++ [(url, payload)]) (js_sleeps s)).
Definition Sleep (d : Z) : M JoinState unit := λ s,
  (Ret tt, MkJoinState (js_posts s) (js_sleeps s ++ [d])).

(** The error after the loop; a nil [lastErr] prints as [%!w(<nil>)]. *)
Definition join_failed (lastErr : option NetError) : NetError :=
  let prefix := "failed to join after " +:+ Itoa maxRetries +:+ " attempts, first attempt at " +:+
                first_attempt +:+ ", now " +:+ now +:+ ", last error: " in
  match lastErr with
  | Some e => net_wrap prefix e
  | None => net_error (prefix +:+ "%!w(<nil>)")
  end.

(** [delay := calculateBackoffDelay(..); time.Sleep(delay); continue] *)
Definition wait_and {A} (attempt : Z) (continue : M JoinState A) : M JoinState A :=
  delay ← lift (calculateBackoffDelay attempt baseDelay maxDelay);
  _ ← Sleep delay;
  continue.

(** The iterations that remain. *)
Fixpoint join_loop (url : string) (payload : JoinRequestDTO) (remaining : nat) (attempt : Z)
    (lastErr : option NetError) : M JoinState (NetError + JoinResponseDTO) :=
  match remaining with
  | O => mret (inl (join_failed lastErr))
  | S remaining' =>
      let continue e := join_loop url payload remaining' (attempt + 1) (Some e) in
      m ← checked (json_Marshal payload);
      match m with
      | inl err => mret (inl (net_wrap "failed to marshal payload: " (net_error (error_text err))))
      | inr requestPayloadJSON =>
          resp ← Post url requestPayloadJSON;
          match resp with
          | SendError err =>
              let lastErr := net_wrap "failed to send request: " err in
              if negb (isRetryableError err) then mret (inl (join_failed (Some lastErr)))
              else if attempt =? maxRetries then mret (inl (join_failed (Some lastErr)))
              else wait_and attempt (continue lastErr)
          | ReadError err =>
              let lastErr := net_wrap "failed to read response body: " err in
              if negb (isRetryableError err) then mret (inl (join_failed (Some lastErr)))
              else if attempt =? maxRetries then mret (inl (join_failed (Some lastErr)))
              else wait_and attempt (continue lastErr)
          | Response StatusCode responseBody =>
              if negb (StatusCode =? 200) then
                let lastErr := net_error ("request failed with status " +:+ Itoa StatusCode +:+
                                          ": " +:+ text_of responseBody) in
                if attempt =? maxRetries then mret (inl (join_failed (Some lastErr)))
                else wait_and attempt (continue lastErr)
              else
                u ← checked (json_Unmarshal responseBody);
                match u with
                | inl err =>
                    let lastErr := net_wrap "failed to unmarshal response: "
                                     (net_error (error_text err)) in
                    if attempt =? maxRetries then mret (inl (join_failed (Some lastErr)))
                    else wait_and attempt (continue lastErr)
                | inr joinResponse => mret (inr joinResponse)
                end
          end
      end
  end.

(** [s.Join(joinToken, gatewayAddress)] *)
Definition JoinGateway (joinToken gatewayAddress : string)
    : M JoinState (NetError + JoinResponseDTO) :=
  join_loop ("https://" +:+ gatewayAddress +:+ "/commands/join") (MkJoinRequestDTO joinToken)
    (Z.to_nat maxRetries) 1 None.
End join.

(** ** Explaining a failure *)

Definition containsAny (s : string) (subs : list string) : bool := existsb (Contains s) subs.

(** What follows the first [*net.OpError]. *)
Fixpoint after_OpError (chain : list ErrLink) : option (list ErrLink) :=
  match chain with
  | [] => None
  | l :: chain' => if link_OpError l then Some chain' else after_OpError chain'
  end.

(** [isSyscallErr(err, codes...)]; the recursive call is on a shorter chain, so the
    chain's length is fuel enough. *)
Fixpoint isSyscallErr_in (fuel : nat) (chain : list ErrLink) (codes : list Z) : bool :=
  match errors_As link_errno chain with
  | Some errno => bool_decide (errno ∈ codes)
  | None =>
      match after_OpError chain, fuel with
      | Some inner, S fuel' => isSyscallErr_in fuel' inner codes
      | _, _ => false
      end
  end.
Definition isSyscallErr (err : NetError) (codes : list Z) : bool :=
  isSyscallErr_in (length (net_chain err)) (net_chain err) codes.

Definition ControlServerPort : Z := 4060.
Definition WGPublicPort : Z := 51820.
Definition portStr (port : Z) : string := Itoa port.

(** The diagnoses of [diagnoseJoinError], each followed by an empty line. *)
Definition diagnosis_refused : string :=
  "Diagnosis: nothing is accepting connections on the gateway control port. " +:+
  "Ensure the gateway container is running, then check firewalls on both hosts: " +:+
  "outbound TCP " +:+ portStr ControlServerPort +:+ " from the server and " +:+
  "inbound TCP " +:+ portStr ControlServerPort +:+ " on the gateway." +:+ newline +:+ newline.
Definition diagnosis_timeout : string :=
  "Diagnosis: the connection to the gateway timed out. This usually means a firewall (on the server host, gateway host, or a cloud security group) is dropping traffic. " +:+
  "Verify outbound rules on this server and inbound rules on the gateway for the ports listed below." +:+ newline +:+ newline.
Definition diagnosis_unreachable : string :=
  "Diagnosis: the network route to the gateway is unreachable. Check routing, security groups, and host firewalls on both sides." +:+ newline +:+ newline.
Definition diagnosis_no_host : string :=
  "Diagnosis: the gateway hostname could not be resolved. Verify DNS and that the gateway public IP/hostname in the join token is correct." +:+ newline +:+ newline.
Definition diagnosis_tls : string :=
  "Diagnosis: TLS handshake with the gateway failed. If you recently reinstalled the gateway, generate a new join token and bootstrap the server again." +:+ newline +:+ newline.
Definition diagnosis_other : string :=
  "Diagnosis: could not complete the join handshake with the gateway. Check gateway availability and firewall rules on both the server and gateway hosts." +:+ newline +:+ newline.

(** [diagnoseJoinError(err)] *)
Definition diagnoseJoinError (err : NetError) : string :=
  let lower := ToLower (net_text err) in
  if containsAny lower ["connection refused"; "connect: connection refused"]
  then diagnosis_refused
  else if containsAny lower
            ["i/o timeout"; "context deadline exceeded"; "connection timed out"; "timeout"]
  then diagnosis_timeout
  else if isSyscallErr err [ENETUNREACH; EHOSTUNREACH] then diagnosis_unreachable
  else if containsAny lower ["no such host"; "name or service not known"]
  then diagnosis_no_host
  else if containsAny lower ["tls:"; "x509:"; "certificate"] then diagnosis_tls
  else diagnosis_other.

(** [ConnectivityRequirementsText()] *)
Definition ConnectivityRequirementsText : string :=
  "Check firewall rules on BOTH the server and gateway hosts (and any cloud security groups):"
  +:+ newline +:+ newline +:+
  "Server host:" +:+ newline +:+
  "  - Outbound TCP " +:+ Itoa ControlServerPort +:+ " → gateway (join / control API)" +:+ newline +:+
  "  - Outbound UDP " +:+ Itoa WGPublicPort +:+ " → gateway (WireGuard tunnel)" +:+ newline +:+
  newline +:+
  "Gateway host:" +:+ newline +:+
  "  - Inbound TCP " +:+ Itoa ControlServerPort +:+ " from the server (join / control API)" +:+ newline +:+
  "  - Inbound UDP " +:+ Itoa WGPublicPort +:+ " (WireGuard; also 80/tcp and 443/tcp for published services)" +:+ newline +:+
  newline +:+
  "If the gateway and server run on the same machine, both sets of rules apply on that host." +:+
  newline +:+ newline.

(** [FormatJoinError(err, gatewayAddress)]; a nil error has no text. *)
Definition FormatJoinError (DocumentationURL : string) (err : option NetError)
    (gatewayAddress : string) : string :=
  match err with
  | None => ""
  | Some e =>
      "Failed to reach the wireport gateway at " +:+ gatewayAddress +:+ "." +:+ newline +:+
      "Underlying error: " +:+ net_text e +:+ newline +:+ newline +:+
      diagnoseJoinError e +:+
      ConnectivityRequirementsText +:+
      "Full port and firewall requirements: " +:+ DocumentationURL +:+ newline +:+ newline +:+
      "After fixing firewall rules, the server container will retry joining automatically — a container restart is not required." +:+ newline
  end.

(** ** Properties *)

Lemma int64_wrap_small z : - 2 ^ 63 ≤ z < 2 ^ 63 → int64_wrap z = z.
Proof. intros H. unfold int64_wrap. rewrite Z.mod_small by lia. lia. Qed.

(** As long as nothing overflows the delay doubles up to the cap. *)
Lemma calculateBackoffDelay_min attempt base cap :
  1 ≤ attempt → 0 < base → base * 2 ^ (attempt - 1) < 2 ^ 63 →
  calculateBackoffDelay attempt base cap = Ret ((base * 2 ^ (attempt - 1)) `min` cap).
Proof.
  intros Ha Hb Hs. unfold calculateBackoffDelay. destruct (Z.ltb_spec (attempt - 1) 0); [lia|].
  rewrite Z.shiftl_mul_pow2, Z.mul_1_l by lia.
  assert (0 < 2 ^ (attempt - 1)) by (apply Z.pow_pos_nonneg; lia).
  rewrite (int64_wrap_small (2 ^ (attempt - 1))) by nia.
  rewrite int64_wrap_small by nia. f_equal.
  destruct (Z.ltb_spec cap (base * 2 ^ (attempt - 1))); lia.
Qed.

Section join_properties.
  Context {JQ : Json JoinRequestDTO} {JP : Json JoinResponseDTO}.
  Context (net : string → string → list Z → nat → PostResult) (first_attempt now : string).
  (** [json.Unmarshal] gives a value or an error. *)
  Hypothesis unmarshal_ends : ∀ b,
    (∃ d : JoinResponseDTO, json_Unmarshal b = Ret d) ∨
    (∃ e, json_Unmarshal (A := JoinResponseDTO) b = Throw e).

(** What one attempt means to the loop. *)
Inductive Verdict : Type :=
| Done (d : JoinResponseDTO)
| Stop (e : NetError)
| Again (e : NetError).

Definition retry_or_stop (prefix : string) (err : NetError) : Verdict :=
  if isRetryableError err then Again (net_wrap prefix err) else Stop (net_wrap prefix err).
Definition verdict (r : PostResult) : Verdict :=
  match r with
  | SendError err => retry_or_stop "failed to send request: " err
  | ReadError err => retry_or_stop "failed to read response body: " err
  | Response status body =>
      if status =? 200 then
        match json_Unmarshal body with
        | Ret d => Done d
        | Throw err => Again (net_wrap "failed to unmarshal response: " (net_error (error_text err)))
        | _ => Stop (net_error "")
        end
      else Again (net_error ("request failed with status " +:+ Itoa status +:+ ": " +:+
                             text_of body))
  end.
Definition outcome (v : Verdict) : NetError + JoinResponseDTO :=
  match v with
  | Done d => inr d
  | Stop e | Again e => inl (join_failed first_attempt now (Some e))
  end.

(** The n-th post of one body to one URL. *)
Definition nth_post (url : string) (payload : list Z) (n : nat) : PostResult :=
  net url "application/json" payload n.

Lemma join_loop_step url p r n last payload st :
  json_Marshal p = Ret payload →
  join_loop net first_attempt now url p (S r) n last st =
  let st' := MkJoinState (js_posts st ++ [(url, payload)]) (js_sleeps st) in
  let v := verdict (nth_post url payload (length (js_posts st))) in
  match v with
  | Again e =>
      if n =? maxRetries then (Ret (outcome v), st')
      else wait_and n (join_loop net first_attempt now url p r (n + 1) (Some e)) st'
  | _ => (Ret (outcome v), st')
  end.
Proof.
  intros Hp. cbn [join_loop]. unfold checked at 1. rewrite Hp.
  erewrite M_bind_Ret by reflexivity. cbn beta iota zeta.
  erewrite M_bind_Ret by reflexivity. unfold verdict, nth_post.
  destruct (net url "application/json" payload (length (js_posts st))) as [err|err|status body]; cbn beta iota zeta.
  - unfold retry_or_stop. destruct (isRetryableError err); cbn [negb]; by destruct (n =? maxRetries).
  - unfold retry_or_stop. destruct (isRetryableError err); cbn [negb]; by destruct (n =? maxRetries).
  - destruct (status =? 200); cbn [negb]; [|by destruct (n =? maxRetries)].
    destruct (unmarshal_ends body) as [[d Hd]|[e He]].
    + unfold checked. rewrite Hd. by erewrite M_bind_Ret by reflexivity.
    + unfold checked. rewrite He. erewrite M_bind_Ret by reflexivity. by destruct (n =? maxRetries).
Qed.

Definition backoff : list Z := [1 * Second; 2 * Second; 4 * Second; 8 * Second].

(** Before the fifth attempt the loop goes on after the delay of its turn. *)
Lemma wait_and_next {A} (m : nat) (c : M JoinState A) posts :
  (m < 4)%nat →
  wait_and (Z.of_nat m + 1) c (MkJoinState posts (take m backoff))
  = c (MkJoinState posts (take (S m) backoff)).
Proof. intros Hm. do 4 (destruct m as [|m]; [reflexivity|]). lia. Qed.

Lemma join_loop_from url p payload r m last :
  json_Marshal p = Ret payload → (S r + m = 5)%nat →
  ∃ k : nat, (m ≤ k < 5)%nat ∧
    (∀ i, (m ≤ i < k)%nat → ∃ e, verdict (nth_post url payload i) = Again e) ∧
    (k = 4%nat ∨ ∀ e, verdict (nth_post url payload k) ≠ Again e) ∧
    join_loop net first_attempt now url p (S r) (Z.of_nat m + 1) last
      (MkJoinState (replicate m (url, payload)) (take m backoff))
    = (Ret (outcome (verdict (nth_post url payload k))),
       MkJoinState (replicate (S k) (url, payload)) (take k backoff)).
Proof.
  intros Hp. revert m last. induction r as [|r IH]; intros m last Hr.
  all: rewrite (join_loop_step url p _ _ last payload) by done.
  all: cbn [js_posts js_sleeps]; rewrite length_replicate, <- replicate_S_end.
  all: destruct (verdict (nth_post url payload m)) as [d|e|e] eqn:Hv;
    try (exists m; rewrite Hv; split; [lia|]; split; [lia|]; split; [right; congruence|done]).
  - assert (m = 4%nat) as -> by lia. exists 4%nat. rewrite Hv.
    split; [lia|]. split; [lia|]. split; [by left|done].
  - destruct (Z.eqb_spec (Z.of_nat m + 1) maxRetries) as [E|_]; [unfold maxRetries in E; lia|].
    rewrite wait_and_next by lia. destruct (IH (S m) (Some e)) as (k & Hk & Ha & Hl & Hrun); [lia|].
    replace (Z.of_nat m + 1 + 1) with (Z.of_nat (S m) + 1) by lia. rewrite Hrun.
    exists k. split; [lia|]. split; [|done]. intros i Hi.
    destruct (decide (i = m)) as [->|]; [by exists e|]. apply Ha. lia.
Qed.

(** C30: [Join] always ends, after one to five posts of the same request: with the answer of
    the first attempt that gives one, with the error of the first that is not worth
    retrying, or with that of the fifth; between attempts it sleeps 1, 2, 4 and 8 seconds. *)
Theorem Join_settles joinToken gatewayAddress payload :
  json_Marshal (MkJoinRequestDTO joinToken) = Ret payload →
  let url := "https://" +:+ gatewayAddress +:+ "/commands/join" in
  let posted i := net url "application/json" payload i in
  ∃ k : nat, (k < 5)%nat ∧
    (∀ i, (i < k)%nat → ∃ e, verdict (posted i) = Again e) ∧
    (k = 4%nat ∨ ∀ e, verdict (posted k) ≠ Again e) ∧
    JoinGateway net first_attempt now joinToken gatewayAddress (MkJoinState [] [])
    = (Ret (outcome (verdict (posted k))),
       MkJoinState (replicate (S k) (url, payload)) (take k backoff)).
Proof.
  intros Hp url posted.
  destruct (join_loop_from ("https://" +:+ gatewayAddress +:+ "/commands/join")
    (MkJoinRequestDTO joinToken) payload 4 0 None Hp eq_refl) as (k & Hk & Ha & Hl & Hrun).
  exists k. split; [lia|]. split; [intros i Hi; apply Ha; lia|]. by split.
Qed.
End join_properties.

(** The branch for [*net.OpError] never finds what [errors.As] did not. *)
Lemma after_OpError_errno chain inner :
  after_OpError chain = Some inner → errors_As link_errno chain = None →
  errors_As link_errno inner = None.
Proof.
  induction chain as [|l chain IH]; [done|]. cbn. destruct (link_errno l); [done|].
  destruct (link_OpError l); [by intros [= <-]|done].
Qed.

Lemma isSyscallErr_As err codes :
  isSyscallErr err codes =
  match errors_As link_errno (net_chain err) with
  | Some errno => bool_decide (errno ∈ codes)
  | None => false
  end.
Proof.
  unfold isSyscallErr. generalize (net_chain err) (length (net_chain err)). intros chain fuel.
  revert chain. induction fuel as [|fuel IH]; intros chain; cbn [isSyscallErr_in];
    destruct (errors_As link_errno chain) eqn:E; try done.
  - by destruct (after_OpError chain).
  - destruct (after_OpError chain) eqn:Ho; [|done].
    by rewrite IH, (after_OpError_errno chain).
Qed.

Lemma ToLower_step a s :
  ToLower (String a s) = String (lower_ascii a) (ToLower s) ∨
  (∃ b s2, s = String b s2 ∧ code b = 176 ∧ ToLower (String a s) = String "i" (ToLower s2)) ∨
  (∃ b c s3, s = String b (String c s3) ∧ code b = 132 ∧ code c = 170 ∧
     ToLower (String a s) = String "k" (ToLower s3)).
Proof.
  destruct s as [|b s]; [by left|]. cbn [ToLower].
  destruct (Z.eqb_spec (code a) 196), (Z.eqb_spec (code b) 176); cbn [andb].
  1: right; left; by exists b, s.
  all: destruct s as [|c s]; [by left|];
    destruct (Z.eqb_spec (code a) 226), (Z.eqb_spec (code b) 132), (Z.eqb_spec (code c) 170);
    cbn [andb]; try (by left).
  all: right; right; by exists b, c, s.
Qed.

Lemma ToLower_tail p c s :
  code c < 128 → ∃ l, ToLower (p +:+ String c s) = l +:+ ToLower (String c s).
Proof.
  intros Hc. remember (String.length p) as n eqn:Hn. revert p Hn.
  induction n as [n IH] using lt_wf_ind. intros p ->.
  destruct p as [|a p]; [by exists ""|]. rewrite str_app_cons.
  destruct (ToLower_step a (p +:+ String c s))
    as [E|[(b & s2 & E' & Hb & E)|(b & d & s3 & E' & Hb & Hd & E)]]; rewrite E.
  - destruct (IH (String.length p)) with (p := p) as [l Hl]; [cbn; lia|done|].
    exists (String (lower_ascii a) l). by rewrite Hl.
  - destruct p as [|b' p]; cbn in E'; injection E' as -> <-; [lia|].
    destruct (IH (String.length p)) with (p := p) as [l Hl]; [cbn; lia|done|].
    exists (String "i" l). by rewrite Hl.
  - destruct p as [|b' p]; cbn in E'; injection E' as -> E'; [lia|].
    destruct p as [|d' p]; cbn in E'; injection E' as -> <-; [lia|].
    destruct (IH (String.length p)) with (p := p) as [l Hl]; [cbn; lia|done|].
    exists (String "k" l). by rewrite Hl.
Qed.

Lemma Contains_app_r l s x : Contains s x = true → Contains (l +:+ s) x = true.
Proof.
  intros Hs. induction l as [|a l IH]; [done|]. rewrite str_app_cons. cbn [Contains].
  by rewrite IH, orb_true_r.
Qed.

(** What the lowered text of an error contains is still there when it is wrapped. *)
Lemma Contains_wrapped p s x :
  Contains (ToLower s) x = true → Contains (ToLower (p +:+ ": " +:+ s)) x = true.
Proof.
  intros Hs. change (": " +:+ s) with (String ":" (String " " s)).
  destruct (ToLower_tail p ":" (String " " s)) as [l ->]; [by vm_compute|].
  apply Contains_app_r.
  assert (ToLower (String ":" (String " " s)) = String ":" (String " " (ToLower s))) as ->.
  { destruct s as [|a [|b s]]; reflexivity. }
  cbn [Contains]. by rewrite Hs, !orb_true_r.
Qed.

(** When nothing listens on the gateway's control port a join posts five times, waits
    15 seconds in all, and the text it ends with quotes the last error and gives the
    diagnosis for a refused connection. *)
Theorem Join_refused {JQ : Json JoinRequestDTO} {JP : Json JoinResponseDTO}
    net first_attempt now joinToken gatewayAddress payload refused :
  (∀ b, (∃ d : JoinResponseDTO, json_Unmarshal b = Ret d) ∨
        (∃ e, json_Unmarshal (A := JoinResponseDTO) b = Throw e)) →
  json_Marshal (MkJoinRequestDTO joinToken) = Ret payload →
  (∀ url contentType body i, net url contentType body i = SendError (refused i)) →
  (∀ i, isRetryableError (refused i) = true ∧
        Contains (ToLower (net_text (refused i))) "connection refused" = true) →
  ∃ e st before,
    JoinGateway net first_attempt now joinToken gatewayAddress (MkJoinState [] []) = (Ret (inl e), st) ∧
    length (js_posts st) = 5%nat ∧ foldr Z.add 0 (js_sleeps st) = 15 * Second ∧
    net_text e = before +:+ net_text (refused 4%nat) ∧ diagnoseJoinError e = diagnosis_refused.
Proof.
  intros Hu Hp Hnet Hr. destruct (join_loop_from net first_attempt now Hu
    ("https://" +:+ gatewayAddress +:+ "/commands/join")
    (MkJoinRequestDTO joinToken) payload 4 0 None Hp eq_refl) as (k & Hk & Ha & Hl & Hrun).
  assert (∀ i, verdict (nth_post net ("https://" +:+ gatewayAddress +:+ "/commands/join") payload i)
    = Again (net_wrap "failed to send request: " (refused i))) as Hv.
  { intros i. unfold nth_post. rewrite Hnet. destruct (Hr i) as (Hret & _). cbn. unfold retry_or_stop. by rewrite Hret. }
  destruct Hl as [->|Hl]; [|by destruct (Hl _ (Hv k))]. rewrite Hv in Hrun. cbn [outcome] in Hrun.
  set (prefix := "failed to join after " +:+ Itoa maxRetries +:+ " attempts, first attempt at " +:+
                 first_attempt +:+ ", now " +:+ now +:+ ", last error: ") in Hrun.
  set (e := join_failed _ _ _) in Hrun. destruct (Hr 4%nat) as (_ & Hc).
  assert (net_text e = prefix +:+ "failed to send request" +:+ ": " +:+ net_text (refused 4%nat))
    as Htext by reflexivity.
  exists e, (MkJoinState (replicate 5 ("https://" +:+ gatewayAddress +:+ "/commands/join", payload))
               (take 4 backoff)), (prefix +:+ "failed to send request: ").
  split; [exact Hrun|]. split; [done|]. split; [done|]. split.
  - rewrite Htext, str_app_assoc. reflexivity.
  - unfold diagnoseJoinError, containsAny. cbn [existsb].
    rewrite Htext, <- str_app_assoc, Contains_wrapped by exact Hc. done.
Qed.

(** ** At work *)

Definition refused_error : NetError :=
  MkNetError "Post: dial tcp 203.0.113.7:4060: connect: connection refused"
    [MkLink None (Some false) false false; MkLink None (Some false) false true;
     plain_link; MkLink (Some ECONNREFUSED) (Some false) false false].

Definition token_json : Json JoinRequestDTO := one_value_json (MkJoinRequestDTO "t").
Definition answer_json : Json JoinResponseDTO := one_value_json (MkJoinResponseDTO None).

Lemma answer_json_ends b :
  (∃ d, @json_Unmarshal _ answer_json b = Ret d) ∨ (∃ e, @json_Unmarshal _ answer_json b = Throw e).
Proof. cbn. case_bool_decide; eauto. Qed.

(** Two refusals, then an answer. *)
Definition third_time (_ _ : string) (_ : list Z) (n : nat) : PostResult :=
  if (n <? 2)%nat then SendError refused_error else Response 200 [42].

Lemma Join_settles_witness :
  ∃ k : nat, (k < 5)%nat ∧
    JoinGateway (JQ := token_json) (JP := answer_json) third_time "" "" "t" "gw:4060"
      (MkJoinState [] [])
    = (Ret (outcome "" "" (verdict (JP := answer_json) (third_time "" "" [] k))),
       MkJoinState (replicate (S k) ("https://gw:4060/commands/join", [42])) (take k backoff)).
Proof.
  destruct (@Join_settles token_json answer_json third_time "" "" answer_json_ends "t" "gw:4060"
    [42] eq_refl) as (k & Hk & _ & _ & Hrun).
  exact (ex_intro _ k (conj Hk Hrun)).
Defined.

Example third_time_joins :
  JoinGateway (JQ := token_json) (JP := answer_json) third_time "" "" "t" "gw:4060" (MkJoinState [] [])
  = (Ret (inr (MkJoinResponseDTO None)),
     MkJoinState (replicate 3 ("https://gw:4060/commands/join", [42])) [1 * Second; 2 * Second]).
Proof. vm_compute. reflexivity. Qed.

Lemma Join_refused_witness :
  ∃ e st, JoinGateway (JQ := token_json) (JP := answer_json) (λ _ _ _ _, SendError refused_error) "" ""
            "t" "gw:4060" (MkJoinState [] []) = (Ret (inl e), st) ∧
          diagnoseJoinError e = diagnosis_refused.
Proof.
  destruct (@Join_refused token_json answer_json (λ _ _ _ _, SendError refused_error) "" "" "t"
    "gw:4060" [42] (λ _, refused_error) answer_json_ends eq_refl (λ _ _ _ _, eq_refl)) as (e & st & _ & Hrun & _ & _ & _ & Hd).
  - intros i. split; vm_compute; reflexivity.
  - exact (ex_intro _ e (ex_intro _ st (conj Hrun Hd))).
Defined.
