(* ===== verification/Addresses.v ===== *)
(** * Addresses given on the command line and in container labels

    [ParseAddress] of [internal/utils/service.go] reads the address of a service, its
    [GetPublicIP] the answer to the question for one's own address, and
    [parseSSHURL] of [cmd/server/commands/utils.go] that of a machine reached over ssh. *)
From S2P Require Import Prelude GoStrings NodeTypes PublicServices Url.

(** The port a protocol has when none is given. *)
Definition default_port (protocol : string) : option string :=
  if bool_decide (protocol = "http") then Some "80"
  else if bool_decide (protocol = "https") then Some "443"
  else None.

(** [ParseAddress(addr)] *)
Definition ParseAddress (addr : string) : Out (string * string * Z) :=
  let addr := TrimSpace addr in
  if bool_decide (addr = "") then Throw (Errorf "valid host value is required")
  else
    u ← Parse addr;
        let protocolString := Scheme u in
        if bool_decide (protocolString = "") then Throw (Errorf "protocol is required")
        else
          let protocol := ToLower protocolString in
          if negb (bool_decide (protocol ∈ protocols)) then Throw (Errorf "unsupported protocol")
          else
            let '(hostname, portString) := splitHostPort (Host u) in
            if bool_decide (hostname = "") then Throw (Errorf "host is required")
            else
              portString ← (if bool_decide (portString = "")
                            then match default_port protocol with
                                 | Some p => Ret p
                                 | None => Throw (Errorf "port is required for layer 4 services")
                                 end
                            else Ret portString);
              match Atoi portString with
              | Some portInt =>
                  if (portInt <? 1) || (65535 <? portInt) then Throw (Errorf "invalid port")
                  else Ret (protocol, hostname, portInt)
              | None => Throw (Errorf "invalid port")
              end.

(** [GetPublicIP()]: what the service at [https://ipinfo.io/ip] answers, or why there is no
    answer, or none that can be read. *)
Definition GetPublicIP (answer : error + (error + string)) : Out string :=
  match answer with
  | inl err =>
      Throw (Wrapped ("failed to get node public ip (required for gateway setup): " +:+ error_text err) err)
  | inr (inl err) =>
      Throw (Wrapped ("failed to read node public ip (required for gateway setup): " +:+ error_text err) err)
  | inr (inr publicIP) => Ret publicIP
  end.

(** The two halves of [parseSSHURL(sshURL)]: what comes before the colon with the port, and
    the user and the host in it. *)
Definition url_and_port (sshURL : string) : Out (string * Z) :=
  if lacks ":" sshURL then Ret (sshURL, 22)
  else
    match Split ":" sshURL with
    | [url; portStr] =>
        if bool_decide (portStr = "") then Ret (url, 22)
        else
          match ParseUint portStr 32 with
          | None => Throw (Errorf ("invalid port number: " +:+ portStr))
          | Some parsedPort =>
              if 65535 <? parsedPort
              then Throw (Errorf "port number must be between 0 and 65535")
              else Ret (url, parsedPort)
          end
    | _ => Throw (Errorf ("invalid SSH URL format: " +:+ sshURL))
    end.
Definition user_and_host (sshURL : string) : Out (string * string) :=
  if lacks "@" sshURL
  then Throw (Errorf "username is required in SSH URL format: username@hostname[:port]")
  else
    match Split "@" sshURL with
    | [username; hostname] =>
        if bool_decide (username = "") then Throw (Errorf "username cannot be empty")
        else if bool_decide (hostname = "") then Throw (Errorf "hostname cannot be empty")
        else Ret (username, hostname)
    | _ => Throw (Errorf ("invalid SSH URL format: " +:+ sshURL))
    end.
Definition parseSSHURL (sshURL : string) : Out (string * string * Z) :=
  '(url, port) ← url_and_port sshURL;
  '(username, hostname) ← user_and_host url;
  Ret (username, hostname, port).

(** ** Properties *)

(** *** Services *)

Lemma ParseAddress_ends addr : ends (ParseAddress addr).
Proof. unfold ParseAddress. cbn zeta. by_ends. Qed.
#[export] Hint Resolve ParseAddress_ends : ends.

Lemma ParseAddress_inv addr protocol host port :
  ParseAddress addr = Ret (protocol, host, port) →
  protocol ∈ protocols ∧ host ≠ "" ∧ 1 ≤ port ≤ 65535 ∧
  ∃ u p, Parse (TrimSpace addr) = Ret u ∧ splitHostPort (Url.Host u) = (host, p).
Proof.
  unfold ParseAddress. case_bool_decide; [done|]. intros (u & Hu & Hrun)%bind_Ret_inv. revert Hrun.
  case_bool_decide; [done|]. destruct (bool_decide_reflect (ToLower (Scheme u) ∈ protocols)); [|done].
  cbn [negb]. destruct (splitHostPort (Url.Host u)) as [h p] eqn:Hs. case_bool_decide; [done|].
  intros (ps & _ & Hrun)%bind_Ret_inv. destruct (Atoi ps) as [n|]; [|done].
  destruct (Z.ltb_spec n 1), (Z.ltb_spec 65535 n); cbn in Hrun; try done.
  injection Hrun as <- <- <-. eauto 10.
Qed.
(** An address that is accepted names one of the four protocols, a host, and a port that
    is one: between 1 and 65535, whatever was written. *)
Theorem ParseAddress_valid addr protocol host port :
  ParseAddress addr = Ret (protocol, host, port) →
  protocol ∈ protocols ∧ host ≠ "" ∧ 1 ≤ port ≤ 65535.
Proof. intros (? & ? & ? & _)%ParseAddress_inv. auto. Qed.

Lemma protocols_plain protocol : protocol ∈ protocols →
  ToLower protocol = protocol ∧ protocol ≠ "" ∧ str_all plain protocol = true.
Proof. intros Hp. repeat (apply elem_of_cons in Hp as [->|Hp]; [done|]). by apply elem_of_nil in Hp. Qed.

(** What is left to do once the URL is read. *)
Lemma ParseAddress_parsed addr protocol Host host port :
  trimmed addr → addr ≠ "" → protocol ∈ protocols → host ≠ "" →
  Parse addr = Ret (MkURL protocol "" None Host "" "" false false "" "" "") →
  splitHostPort Host = (host, port) →
  ParseAddress addr =
    (portString ← (if bool_decide (port = "")
                   then match default_port protocol with
                        | Some p => Ret p
                        | None => Throw (Errorf "port is required for layer 4 services")
                        end
                   else Ret port);
     match Atoi portString with
     | Some portInt => if (portInt <? 1) || (65535 <? portInt) then Throw (Errorf "invalid port")
                       else Ret (protocol, host, portInt)
     | None => Throw (Errorf "invalid port")
     end).
Proof.
  intros Htrim Hne Hp Hh Hu Hs. destruct (protocols_plain _ Hp) as (Hl & Hpne & _).
  unfold ParseAddress. rewrite TrimSpace_trimmed by done.
  rewrite (bool_decide_eq_false_2 (addr = "")), Hu by done. cbn [mbind Out_bind Scheme Url.Host].
  rewrite (bool_decide_eq_false_2 (protocol = "")), Hl, (bool_decide_eq_true_2 (protocol ∈ _)) by done.
  cbn [negb]. rewrite Hs. by rewrite (bool_decide_eq_false_2 (host = "")).
Qed.

(** A service's address as the program prints it. *)
Definition printed (protocol host : string) (port : Z) : string :=
  protocol +:+ "://" +:+ host +:+ ":" +:+ Itoa port.
Lemma protocol_app_ne protocol rest : protocol ∈ protocols → protocol +:+ rest ≠ "".
Proof. intros (_ & Hne & _)%protocols_plain. by destruct protocol. Qed.
Lemma printed_trimmed protocol host port :
  protocol ∈ protocols → 1 ≤ port → trimmed (printed protocol host port) ∧ printed protocol host port ≠ "".
Proof.
  intros Hp Hport. pose proof (protocol_app_ne _ ("://" +:+ host +:+ ":" +:+ Itoa port) Hp) as Hne.
  split; [|exact Hne]. destruct (protocols_plain _ Hp) as (_ & Hpne & Hpp).
  unfold printed. rewrite <- (str_app_assoc host), <- (str_app_assoc "://").
  apply trimmed_between; [done|apply Itoa_ne|done|apply Itoa_plain; lia].
Qed.

Lemma printed_reads protocol host port :
  protocol ∈ protocols → 1 ≤ port ≤ 65535 → readable protocol host →
  ParseAddress (printed protocol host port) = Ret (protocol, host, port).
Proof.
  intros Hp Hport Hh. assert (str_all is_digit (Itoa port) = true) as Hd by (apply Itoa_digits; lia).
  destruct (printed_trimmed protocol host port) as [Htrim Hne]; [done|lia|].
  erewrite ParseAddress_parsed; [|done|done|done|apply Hh|by apply Parse_host_port|
    apply splitHostPort_plain; [by apply authority_no_bracket, Hh|done]].
  rewrite (bool_decide_eq_false_2 (Itoa port = "")) by apply Itoa_ne. cbn [mbind Out_bind].
  rewrite Atoi_Itoa by (unfold int64_min, int64_max; lia).
  destruct (Z.ltb_spec port 1), (Z.ltb_spec 65535 port); try lia. done.
Qed.
Lemma default_ports protocol host :
  protocol ∈ protocols → host ≠ "" → str_all authority_char host = true → lacks ":" host = true →
  str_all plain host = true →
  ParseAddress (protocol +:+ "://" +:+ host) =
    (if bool_decide (protocol = "http") then Ret (protocol, host, 80)
     else if bool_decide (protocol = "https") then Ret (protocol, host, 443)
     else Throw (Errorf "port is required for layer 4 services")).
Proof.
  intros Hp Hne Hh Hc Hpl.
  erewrite ParseAddress_parsed; [|split; apply str_all_plain_start; [|rewrite str_all_rev]
    |by apply protocol_app_ne|done|done|by apply Parse_host
    |by apply splitHostPort_alone; [apply authority_no_bracket|]].
  - unfold default_port. by repeat case_bool_decide.
  - destruct (protocols_plain _ Hp) as (_ & _ & Hpp). by rewrite !str_all_app, Hpp, Hpl.
  - destruct (protocols_plain _ Hp) as (_ & _ & Hpp). by rewrite !str_all_app, Hpp, Hpl.
Qed.
(** An address that was accepted is made of what can be read back, if it holds no percent
    sign: but for a host with colons under a protocol of the web. *)
Lemma accepted_host addr protocol host port :
  ParseAddress addr = Ret (protocol, host, port) → lacks "%" host = true →
  str_all authority_char host = true.
Proof. intros (_ & _ & _ & u & p & Hu & Hs)%ParseAddress_inv. by apply (Parse_read _ _ _ _ Hu Hs). Qed.

(** C38: what the program prints as a service's address, protocol://host:port, reads back as
    that service, for every host of bytes that a host may be written with (IPv6 addresses and
    other texts with colons only under tcp and udp); and a host of printable ASCII without a
    port and without colons has the port of its protocol for http and https and is refused for
    tcp and udp.  So every address that was accepted reads back once it is printed, if its
    host holds no percent sign, with one exception: an IPv6 address under http and https is
    accepted in brackets and printed without them, and what is printed is refused.  (A percent sign
    is that of an IPv6 zone or of an escape %25, and is printed as it is.) *)
Theorem ParseAddress_round_trip protocol host port :
  protocol ∈ protocols → 1 ≤ port ≤ 65535 →
  (readable protocol host → ParseAddress (printed protocol host port) = Ret (protocol, host, port)) ∧
  (readable protocol host → lacks ":" host = true → str_all plain host = true →
   ParseAddress (protocol +:+ "://" +:+ host) =
     (if bool_decide (protocol = "http") then Ret (protocol, host, 80)
      else if bool_decide (protocol = "https") then Ret (protocol, host, 443)
      else Throw (Errorf "port is required for layer 4 services"))) ∧
  (∀ addr, ParseAddress addr = Ret (protocol, host, port) → lacks "%" host = true →
     ParseAddress (printed protocol host port) = Ret (protocol, host, port) ∨
     web protocol = true ∧ lacks ":" host = false ∧
     ∃ e, ParseAddress (printed protocol host port) = Throw e).
Proof.
  intros Hp Hport. split; [by apply printed_reads|]. split.
  - intros [? ? ?] ? ?. by apply default_ports.
  - intros addr Hacc Hz. pose proof (accepted_host _ _ _ _ Hacc Hz) as Hb.
    destruct (ParseAddress_inv _ _ _ _ Hacc) as (_ & Hne & _).
    destruct (web protocol) eqn:Hw;
      [|left; apply printed_reads; [done|done|split; [done|done|by rewrite Hw]]].
    destruct (lacks ":" host) eqn:Hc; [left; by apply printed_reads; [| |split]|].
    right. split; [done|]. split; [done|].
    destruct (printed_trimmed protocol host port) as [Htrim Hpne]; [done|lia|].
    assert (str_all is_digit (Itoa port) = true) as Hd by (apply Itoa_digits; lia).
    destruct (Parse_web_colon _ _ _ Hp Hw Hb Hc Hd) as [e He]. exists e.
    unfold ParseAddress. rewrite TrimSpace_trimmed, bool_decide_eq_false_2 by done.
    change (Parse (printed protocol host port) = Throw e) in He. by rewrite He.
Qed.

(** *** Machines *)

Lemma Split_two sep s a b :
  Split sep s = [a; b] → s = a +:+ String sep b ∧ lacks sep a = true ∧ lacks sep b = true.
Proof.
  intros E. pose proof (Join_Split sep s) as Hj. pose proof (Split_parts_lack sep s) as Hl.
  rewrite E in Hj, Hl. cbn in Hj. split; [by rewrite <- Hj|].
  apply Forall_cons in Hl as [Ha Hl]. by apply Forall_cons in Hl as [Hb _].
Qed.
Lemma Split_two_of sep a b :
  lacks sep a = true → lacks sep b = true → Split sep (a +:+ String sep b) = [a; b].
Proof. intros Ha Hb. by rewrite Split_app, Split_lacks. Qed.

(** A name of a user or of a machine. *)
Definition ssh_name (s : string) : Prop := s ≠ "" ∧ lacks ":" s = true ∧ lacks "@" s = true.

Lemma parse_digits_all s : ∀ v n, parse_digits s v = Some n → str_all is_digit s = true.
Proof.
  induction s as [|c s IH]; [done|]. intros v n. cbn. destruct (is_digit c); [|done].
  cbn. apply IH.
Qed.
Lemma parse_nat_all s n : parse_nat s = Some n → str_all is_digit s = true.
Proof. destruct s; [done|]. apply parse_digits_all. Qed.

Lemma user_and_host_Ret url user host :
  user_and_host url = Ret (user, host) ↔
  url = user +:+ String "@" host ∧ user ≠ "" ∧ host ≠ "" ∧ lacks "@" user = true ∧
  lacks "@" host = true.
Proof.
  unfold user_and_host. split.
  - destruct (lacks "@" url); [done|]. destruct (Split "@" url) as [|u [|h [|? ?]]] eqn:E; try done.
    repeat (case_bool_decide; [done|]). intros [= <- <-].
    apply Split_two in E as (-> & ? & ?). auto.
  - intros (-> & Hu & Hh & Lu & Lh). rewrite Split_two_of by done.
    assert (lacks "@" (user +:+ String "@" host) = false) as -> by (by rewrite lacks_app, Lu).
    by rewrite !bool_decide_eq_false_2 by done.
Qed.

(** What comes before the colon, and the port. *)
Inductive with_port (url : string) : string → Z → Prop :=
| no_port : with_port url url 22
| empty_port : with_port url (url +:+ ":") 22
| some_port ds port : parse_nat ds = Some port → port ≤ 65535 →
    with_port url (url +:+ String ":" ds) port.

Lemma url_and_port_Ret s url port :
  url_and_port s = Ret (url, port) ↔ lacks ":" url = true ∧ with_port url s port.
Proof.
  unfold url_and_port. split.
  - destruct (lacks ":" s) eqn:Es; [intros [= <- <-]; split; [done|constructor]|].
    destruct (Split ":" s) as [|u [|ds [|? ?]]] eqn:E; try done.
    apply Split_two in E as (-> & Cu & Cd). case_bool_decide as Hds.
    + subst ds. intros [= <- <-]. split; [done|constructor].
    + unfold ParseUint. destruct (parse_nat ds) as [n|] eqn:En; [|done]. cbn.
      destruct (n <? 2 ^ 32); [|done]. destruct (Z.ltb_spec 65535 n); [done|].
      intros [= <- <-]. split; [done|by constructor].
  - intros [Cu [| |ds port' Hp Hmax]]; [by rewrite Cu|..].
    all: rewrite lacks_app, Cu; cbn [andb lacks str_all Ascii.eqb negb].
    + change ":" with (String ":" ""). by rewrite Split_two_of.
    + rewrite Split_two_of by (done || by apply digit_lacks, (parse_nat_all _ _ Hp)).
      rewrite bool_decide_eq_false_2 by (by intros ->). unfold ParseUint. rewrite Hp. cbn [mbind option_bind].
      rewrite (proj2 (Z.ltb_lt port' (2 ^ 32))) by lia. by destruct (Z.ltb_spec 65535 port'); [lia|].
Qed.

Lemma parse_digits_le s : ∀ v n, parse_digits s v = Some n → v ≤ n ∨ v < 0.
Proof.
  induction s as [|c s IH]; intros v n; cbn; [intros [= ->]; lia|].
  destruct (is_digit c) eqn:Hd; [|done]. intros Hp%IH. unfold is_digit in Hd. lia.
Qed.
Lemma parseSSHURL_Ret s user host port :
  parseSSHURL s = Ret (user, host, port) → user ≠ "" ∧ host ≠ "" ∧ 0 ≤ port ≤ 65535.
Proof.
  unfold parseSSHURL. intros ([url p] & Hu & ([u h] & Hn & [= -> -> ->])%bind_Ret_inv)%bind_Ret_inv.
  apply user_and_host_Ret in Hn as (_ & ? & ? & _). apply url_and_port_Ret in Hu as [_ Hp].
  split; [done|]. split; [done|]. destruct Hp as [| |ds p Hp Hmax]; [lia..|].
  destruct ds; [done|]. apply parse_digits_le in Hp. lia.
Qed.

(** C39: a machine's text is accepted exactly if it is user@host, neither of them empty or with
    a colon or an at-sign in it, and after it nothing, a colon, or a colon and a number up to
    65535; without a number the port is 22. *)
Theorem parseSSHURL_accepts s user host port :
  parseSSHURL s = Ret (user, host, port) ↔ ssh_name user ∧ ssh_name host ∧ with_port (user +:+ String "@" host) s port.
Proof.
  unfold parseSSHURL. split.
  - intros ([url p] & Hu & ([u h] & Hn & [= -> -> ->])%bind_Ret_inv)%bind_Ret_inv.
    apply user_and_host_Ret in Hn as (-> & Hu0 & Hh0 & Lu & Lh).
    apply url_and_port_Ret in Hu as [Cuh Hp]. rewrite lacks_app in Cuh.
    apply andb_true_iff in Cuh as [Cu Ch]. by repeat split.
  - intros ((Hu & Cu & Lu) & (Hh & Ch & Lh) & Hp).
    rewrite (proj2 (url_and_port_Ret s (user +:+ String "@" host) port)).
    + cbn [mbind Out_bind]. by rewrite (proj2 (user_and_host_Ret _ user host)).
    + split; [|done]. by rewrite lacks_app, Cu.
Qed.

(** ** At work *)

(** A name with an underscore; a name without a port; and an IPv6 address, which is accepted in
    brackets and not as it is printed. *)
Lemma ParseAddress_round_trip_witness :
  ParseAddress "https://demo_1.example.com:443" = Ret ("https", "demo_1.example.com", 443) ∧
  ParseAddress "http://demo.example.com" = Ret ("http", "demo.example.com", 80) ∧
  ParseAddress "http://[fe80::1]:80" = Ret ("http", "fe80::1", 80) ∧
  ∃ e, ParseAddress "http://fe80::1:80" = Throw e.
Proof.
  split; [|split; [|split; [vm_compute; reflexivity|]]].
  - refine (proj1 (ParseAddress_round_trip "https" "demo_1.example.com" 443 _ _) _).
    + apply (bool_decide_unpack _). reflexivity.
    + lia.
    + split; [discriminate|vm_compute; reflexivity|reflexivity].
  - refine (proj1 (proj2 (ParseAddress_round_trip "http" "demo.example.com" 8080 _ _)) _ _ _).
    + apply (bool_decide_unpack _). reflexivity.
    + lia.
    + split; [discriminate|vm_compute; reflexivity|reflexivity].
    + reflexivity.
    + reflexivity.
  - destruct (proj2 (proj2 (ParseAddress_round_trip "http" "fe80::1" 80 ltac:(apply (bool_decide_unpack _); reflexivity)
      ltac:(lia))) "http://[fe80::1]:80") as [E|(_ & _ & He)]; [vm_compute; reflexivity..| |exact He].
    exfalso. vm_compute in E. discriminate E.
Defined.

(** A layer 7 address without a port. *)
Lemma ParseAddress_valid_witness :
  ParseAddress " http://10.0.0.2 " = Ret ("http", "10.0.0.2", 80) ∧ 80 ≤ 65535.
Proof.
  assert (ParseAddress " http://10.0.0.2 " = Ret ("http", "10.0.0.2", 80)) as E by (vm_compute; reflexivity).
  split; [exact E|]. exact (proj2 (proj2 (proj2 (ParseAddress_valid _ _ _ _ E)))).
Defined.

(** What is written around the host and the port is dropped without a word. *)
Example ParseAddress_drops :
  ParseAddress "HTTPS://ann@demo.example.com:8443/docs?q=1#top" = Ret ("https", "demo.example.com", 8443) ∧
  ParseAddress "tcp://[fe80::1%25en0]:5432" = Ret ("tcp", "fe80::1%en0", 5432).
Proof. vm_compute. done. Qed.
Example ParseAddress_refuses :
  ParseAddress "10.0.0.2:80" = Throw (Wrapped ("parse " +:+ GoFormat.Quote "10.0.0.2:80" +:+
    ": first path segment in URL cannot contain colon")
    (Errorf "first path segment in URL cannot contain colon")) ∧
  ParseAddress "http://a:b:1" ≠ Ret ("http", "a:b", 1) ∧
  ParseAddress "tcp://a:b:1" = Ret ("tcp", "a:b", 1).
Proof. vm_compute. split; [done|]. split; [discriminate|done]. Qed.
