(* ===== verification/NetworkApps.v ===== *)
(** * [internal/networkapps]: restarting the network applications

    [RestartNetworkApps], and the scheduler behind [ScheduleNetworkAppsRestart] as a
    step relation: callers and the one worker goroutine, interleaved in any way. *)
From S2P Require Import Prelude GoStrings GoNet NodeTypes PublicServices NodeConfigs.

(** ** The restart sequence *)

Definition WireguardRestartCommand : string :=
  "(/usr/bin/wg-quick down wg0 2>/dev/null || true) && /usr/bin/wg-quick up wg0".
Definition CoreDNSRestartCommand : string := "/usr/bin/pkill -TERM coredns 2>/dev/null || true".
(** [fmt.Sprintf(config.Config.CaddyRestartCommand, path)] *)
Definition CaddyRestartCommand (path : string) : string :=
  "/usr/bin/caddy reload --config " +:+ path +:+ " --adapter caddyfile".

(** The machine: its disk, and the shell commands run so far. *)
Record Host : Type := MkHost { host_disk : Disk; host_ran : list string }.

Section restart.
  (** [sh n c]: the error of the command [c], if it is the [n]-th one run and fails *)
  Context (paths : ConfigPaths) (sh : nat → string → option string).

(** [exec.Command("/bin/sh", "-c", c).Run()] *)
Definition RunShell (c : string) : M Host unit := λ h,
  (match sh (length (host_ran h)) c with
   | Some err => Throw (Errorf err)
   | None => Ret tt
   end, MkHost (host_disk h) (host_ran h ++ [c])).

(** [!os.IsNotExist(err)] after [os.Stat(path)] *)
Definition present (path : string) (d : Disk) : bool := bool_decide (is_Some (disk_files d !! path)).

Definition restart_app (restart : bool) (path c failure : string) : M Host unit :=
  if restart then
    h ← get;
    if present path (host_disk h) then
      r ← attempt (RunShell c);
      match r with
      | inl err => throw (Errorf (failure +:+ error_text err))
      | inr _ => mret tt
      end
    else mret tt
  else mret tt.

(** [RestartNetworkApps(restartWireguard, restartCoreDNS, restartCaddy)] *)
Definition RestartNetworkApps (restartWireguard restartCoreDNS restartCaddy : bool)
    : M Host unit :=
  _ ← restart_app restartWireguard (WireguardConfigPath paths) WireguardRestartCommand
        "failed to restart wireguard: ";
  _ ← restart_app restartCoreDNS (CoreDNSConfigPath paths) CoreDNSRestartCommand
        "failed to restart coredns: ";
  restart_app restartCaddy (CaddyConfigPath paths) (CaddyRestartCommand (CaddyConfigPath paths))
    "failed to restart caddy: ".
End restart.

(** ** The scheduler *)

(** The arguments of a call: the delay and what to restart. *)
Definition RestartArgs : Type := Z * bool * bool * bool.

(** Where the worker is in its loop body. *)
Inductive Worker : Type :=
| Receiving
| Locking
| Deciding
| Sleeping
| Restarting
| Clearing.

(** What an observer sees: a call handed in its request, the applications restarted. *)
Inductive Event : Type :=
| Scheduled
| Restarted (args : RestartArgs).

(** The package's variables; [sched_first] is what the worker's closure captured,
    [None] before [networkAppsRestartOnce] ran; [sched_callers] counts the calls
    between [Do] and the send. *)
Record Sched : Type := MkSched {
  sched_first : option RestartArgs;
  sched_pending : bool;
  sched_callers : nat;
  sched_mutex : bool;
  sched_restarting : bool;
  sched_worker : Worker;
  sched_log : list Event;
}.
#[export] Instance Worker_eq_dec : EqDecision Worker.
Proof. solve_decision. Defined.

Definition sched_init : Sched := MkSched None false 0 false false Receiving [].

(** [networkAppsRestartOnce.Do(..)] *)
Definition schedule_once (args : RestartArgs) (s : Sched) : Sched :=
  MkSched (Some (default args (sched_first s))) (sched_pending s) (S (sched_callers s))
    (sched_mutex s) (sched_restarting s) (sched_worker s) (sched_log s).

(** The [select]: the channel holds one request at most. *)
Definition schedule_send (s : Sched) : option Sched :=
  match sched_callers s with
  | O => None
  | S n => Some (MkSched (sched_first s) true n (sched_mutex s) (sched_restarting s)
                   (sched_worker s) (sched_log s ++ [Scheduled]))
  end.

(** The worker's next step, if it has one. *)
Definition worker_step (s : Sched) : option Sched :=
  let at_ worker pending mutex restarting log :=
    Some (MkSched (sched_first s) pending (sched_callers s) mutex restarting worker log) in
  let '(MkSched first pending _ mutex restarting worker log) := s in
  match first, worker with
  | None, _ => None
  | Some _, Receiving => if pending then at_ Locking false mutex restarting log else None
  | Some _, Locking => if mutex then None else at_ Deciding pending true restarting log
  | Some _, Deciding =>
      if restarting then at_ Receiving pending false restarting log
      else at_ Sleeping pending false true log
  | Some _, Sleeping => at_ Restarting pending mutex restarting log
  | Some args, Restarting => at_ Clearing pending mutex restarting (log ++ [Restarted args])
  | Some _, Clearing => at_ Receiving pending mutex false log
  end.

Inductive sched_step : Sched → Sched → Prop :=
| step_once args s : sched_step s (schedule_once args s)
| step_send s s' : schedule_send s = Some s' → sched_step s s'
| step_worker s s' : worker_step s = Some s' → sched_step s s'.

Definition sched_reachable : Sched → Prop := rtc sched_step sched_init.

(** ** Properties *)

Section restart_properties.
  Context (paths : ConfigPaths) (sh : nat → string → option string).

(** The commands a restart is to run: those asked for whose configuration is there. *)
Definition planned (restartWireguard restartCoreDNS restartCaddy : bool) (d : Disk)
    : list (string * string) :=
  (if restartWireguard && present (WireguardConfigPath paths) d
   then [(WireguardRestartCommand, "failed to restart wireguard: ")] else []) ++
  (if restartCoreDNS && present (CoreDNSConfigPath paths) d
   then [(CoreDNSRestartCommand, "failed to restart coredns: ")] else []) ++
  (if restartCaddy && present (CaddyConfigPath paths) d
   then [(CaddyRestartCommand (CaddyConfigPath paths), "failed to restart caddy: ")] else []).

(** How running commands in order ends, from the [n]-th on: all of them, or up to and
    including the first that fails. *)
Inductive runs_to (n : nat) : list (string * string) → list string → Out unit → Prop :=
| runs_none : runs_to n [] [] (Ret tt)
| runs_fail c failure err cs :
    sh n c = Some err → runs_to n ((c, failure) :: cs) [c] (Throw (Errorf (failure +:+ err)))
| runs_next c failure cs ran o :
    sh n c = None → runs_to (S n) cs ran o → runs_to n ((c, failure) :: cs) (c :: ran) o.

Lemma restart_app_runs restart path c failure h k plan :
  (∀ h', host_disk h' = host_disk h → ∃ ran o,
     k h' = (o, MkHost (host_disk h') (host_ran h' ++ ran)) ∧
     runs_to (length (host_ran h')) plan ran o) →
  ∃ ran o,
    (restart_app sh restart path c failure ≫= λ _, k) h
    = (o, MkHost (host_disk h) (host_ran h ++ ran)) ∧
    runs_to (length (host_ran h))
      ((if restart && present path (host_disk h) then [(c, failure)] else []) ++ plan) ran o.
Proof.
  intros Hk. unfold restart_app. destruct restart; cbn [andb]; [|by apply Hk].
  destruct (present path (host_disk h)) eqn:Hp.
  - unfold mbind, M_bind, get, attempt, RunShell. rewrite Hp.
    destruct (sh (length (host_ran h)) c) as [err|] eqn:Hs.
    + exists [c], (Throw (Errorf (failure +:+ err))). split; [done|]. by constructor.
    + destruct (Hk (MkHost (host_disk h) (host_ran h ++ [c]))) as (ran & o & Hr & Hruns); [done|].
      exists (c :: ran), o. unfold mret, M_ret. rewrite Hr. cbn. rewrite <- app_assoc.
      split; [done|]. constructor; [done|]. cbn in Hruns. rewrite length_app in Hruns. cbn in Hruns.
      by rewrite Nat.add_1_r in Hruns.
  - unfold mbind, M_bind, get. rewrite Hp. by apply Hk.
Qed.

(** A restart runs exactly the commands of the applications asked for whose
    configuration file is there, in the order WireGuard, CoreDNS, Caddy, up to the first
    that fails, whose error it reports; it leaves the disk alone. *)
Theorem RestartNetworkApps_runs wg dns caddy h :
  ∃ ran o,
    RestartNetworkApps paths sh wg dns caddy h = (o, MkHost (host_disk h) (host_ran h ++ ran)) ∧
    runs_to (length (host_ran h)) (planned wg dns caddy (host_disk h)) ran o.
Proof.
  unfold RestartNetworkApps, planned.
  apply restart_app_runs. intros h1 Hd1. rewrite <- Hd1.
  apply restart_app_runs. intros h2 Hd2. rewrite <- Hd2.
  destruct (restart_app_runs caddy (CaddyConfigPath paths)
    (CaddyRestartCommand (CaddyConfigPath paths)) "failed to restart caddy: " h2 (mret tt : M Host unit) [])
    as (ran & o & Hr & Hruns).
  { intros h' _. exists [], (Ret tt). rewrite app_nil_r. split; [by destruct h'|constructor]. }
  exists ran, o. rewrite app_nil_r in Hruns. split; [|done]. rewrite <- Hr.
  unfold mbind, M_bind. by destruct (restart_app _ _ _ _ _ _) as [[[]|e|p|p] s].
Qed.

(** A computation that leaves the disk alone and neither panics nor exits. *)
Definition only_runs (c : M Host unit) : Prop := ∀ h, ∃ o ran,
  c h = (o, MkHost (host_disk h) ran) ∧ (o = Ret tt ∨ ∃ e, o = Throw e).

Lemma only_runs_bind c k : only_runs c → only_runs k → only_runs (_ ← c; k).
Proof.
  intros Hc Hk h. destruct (Hc h) as (o & ran & Hrun & [->|[e ->]]); unfold mbind, M_bind; rewrite Hrun.
  - destruct (Hk (MkHost (host_disk h) ran)) as (o & ran' & -> & Ho). by exists o, ran'.
  - exists (Throw e), ran. eauto.
Qed.
Lemma only_runs_app restart path c failure : only_runs (restart_app sh restart path c failure).
Proof.
  intros h. destruct h as [d ran]. unfold restart_app. destruct restart; [|by exists (Ret tt), ran; auto].
  unfold mbind, M_bind, get, attempt, RunShell. destruct (present path _); [|by exists (Ret tt), ran; auto].
  cbn [host_disk host_ran]. destruct (sh (length ran) c); do 2 eexists; (split; [reflexivity|]); eauto.
Qed.
Lemma RestartNetworkApps_only_runs wg dns caddy : only_runs (RestartNetworkApps paths sh wg dns caddy).
Proof. repeat apply only_runs_bind; apply only_runs_app. Qed.
End restart_properties.

(** The last thing in the log is a request not yet served. *)
Definition unserved (log : list Event) : bool :=
  foldl (λ _ e, match e with Scheduled => true | Restarted _ => false end) false log.

Lemma unserved_snoc log e :
  unserved (log ++ [e]) = match e with Scheduled => true | Restarted _ => false end.
Proof. unfold unserved. by rewrite foldl_app. Qed.

Lemma served_spec log l1 l2 :
  unserved log = false → log = l1 ++ Scheduled :: l2 → ∃ args, Restarted args ∈ l2.
Proof.
  revert log l1. induction l2 as [|e l2 IH] using rev_ind; intros log l1 Hu ->.
  - by rewrite unserved_snoc in Hu.
  - rewrite app_comm_cons, app_assoc, unserved_snoc in Hu. destruct e; [done|]. exists args. set_solver.
Qed.

(** What holds of the scheduler's variables at any time. *)
Definition busy (w : Worker) : bool :=
  bool_decide (w ∈ [Sleeping; Restarting; Clearing]).
Definition before_restart (w : Worker) : bool :=
  bool_decide (w ∈ [Locking; Deciding; Sleeping; Restarting]).
Record sched_inv (s : Sched) : Prop := {
  inv_flag : sched_restarting s = busy (sched_worker s);
  inv_mutex : sched_mutex s = bool_decide (sched_worker s = Deciding);
  inv_started : sched_first s = None → sched_callers s = 0%nat ∧ sched_pending s = false ∧
                                       sched_worker s = Receiving ∧ sched_log s = [];
  inv_args : ∀ args, Restarted args ∈ sched_log s → sched_first s = Some args;
  inv_served : unserved (sched_log s) = true →
               sched_pending s = true ∨ before_restart (sched_worker s) = true;
}.

Lemma sched_inv_init : sched_inv sched_init.
Proof. split; cbn; try done. by intros args ?%elem_of_nil. Qed.

Lemma sched_inv_step s s' : sched_step s s' → sched_inv s → sched_inv s'.
Proof.
  intros Hstep [Hf Hm Hs Ha Hu].
  destruct Hstep as [args s|s s' Hsend|s s' Hwork];
    destruct s as [first pending callers mutex restarting worker log]; cbn in *.
  - split; cbn; try done. intros a Hin. by rewrite (Ha a Hin).
  - destruct callers as [|n]; [done|]. injection Hsend as <-. split; cbn; try done.
    + intros Hn. by destruct (Hs Hn).
    + intros a [Hin|Hin%list_elem_of_singleton]%elem_of_app; [by apply Ha|done].
    + by left.
  - destruct first as [args|]; [|done]. subst.
    destruct worker; [destruct pending; [|done]| | | | | ]; cbn in Hwork;
      injection Hwork as <-; (split; cbn; try done); try (by intros; right).
    + intros a [Hin|Hin%list_elem_of_singleton]%elem_of_app; [by apply Ha|congruence].
    + by rewrite unserved_snoc.
Qed.

Lemma sched_inv_reachable s : sched_reachable s → sched_inv s.
Proof.
  revert s. apply (rtc_ind_r sched_inv sched_init); [apply sched_inv_init|].
  intros y z _ Hstep Hy. by eapply sched_inv_step.
Qed.

(** The worker waits and nothing is in the channel. *)
Definition quiet (s : Sched) : bool :=
  bool_decide (sched_worker s = Receiving) && negb (sched_pending s).

Lemma quiet_served s :
  sched_inv s → quiet s = true →
  ∀ l1 l2, sched_log s = l1 ++ Scheduled :: l2 → ∃ args, Restarted args ∈ l2.
Proof.
  intros [Hf Hm Hs Ha Hu] [Hw%bool_decide_eq_true_1 Hp%negb_true_iff]%andb_true_iff l1 l2 Hl.
  apply (served_spec _ _ _) in Hl; [done|]. destruct (unserved (sched_log s)) eqn:E; [|done].
  destruct (Hu eq_refl) as [Hp'|Hb]; [congruence|]. by rewrite Hw in Hb.
Qed.

(** C28: however calls and the worker interleave, a restart is never refused by the flag or
    blocked by the mutex; when the worker is at rest every call so far was followed by a
    restart; and all restarts use the delay and the choice of the very first call. *)
Theorem scheduler_serves s :
  sched_reachable s →
  (sched_worker s = Deciding → sched_restarting s = false) ∧
  (sched_worker s = Locking → sched_mutex s = false) ∧
  (quiet s = true → ∀ l1 l2, sched_log s = l1 ++ Scheduled :: l2 →
     ∃ args, Restarted args ∈ l2) ∧
  (∀ args, Restarted args ∈ sched_log s → sched_first s = Some args).
Proof.
  intros Hr. pose proof (sched_inv_reachable s Hr) as Hinv.
  split; [|split; [|split; [by apply quiet_served|apply (inv_args s Hinv)]]]; intros Hw.
  - by rewrite (inv_flag s Hinv), Hw.
  - by rewrite (inv_mutex s Hinv), Hw.
Qed.

(** The worker alone, for a number of steps or until it waits. *)
Fixpoint worker_run (fuel : nat) (s : Sched) : Sched :=
  match fuel with
  | O => s
  | S f => match worker_step s with Some s' => worker_run f s' | None => s end
  end.

Lemma worker_run_reachable fuel s : sched_reachable s → sched_reachable (worker_run fuel s).
Proof.
  revert s. induction fuel as [|f IH]; intros s Hr; [done|]. cbn.
  destruct (worker_step s) eqn:E; [|done]. apply IH. eapply rtc_r; [exact Hr|by constructor].
Qed.

Lemma worker_run_log fuel s : ∃ l, sched_log (worker_run fuel s) = sched_log s ++ l.
Proof.
  revert s. induction fuel as [|f IH]; intros s; [exists []; by rewrite app_nil_r|]. cbn.
  destruct (worker_step s) as [s'|] eqn:E; [|exists []; by rewrite app_nil_r].
  destruct (IH s') as [l ->].
  assert (∃ l', sched_log s' = sched_log s ++ l') as [l' ->];
    [|exists (l' ++ l); by rewrite app_assoc].
  destruct s as [[args|] pending callers mutex restarting worker log]; [|done].
  destruct worker, pending, mutex, restarting; cbn in E; try done; injection E as <-; cbn;
    (exists []; by rewrite app_nil_r) || by exists [Restarted args].
Qed.

Lemma worker_run_quiet s : sched_inv s → quiet (worker_run 12 s) = true.
Proof.
  intros [Hf Hm Hs _ _]. destruct s as [first pending callers mutex restarting worker log].
  cbn in *. subst. destruct first as [args|]; [by destruct pending, worker|].
  by destruct (Hs eq_refl) as (_ & -> & -> & _).
Qed.

(** C29: left alone the worker comes to rest within twelve steps, and then every request
    handed in before was followed by a restart. *)
Theorem scheduler_settles s l1 l2 :
  sched_reachable s → sched_log s = l1 ++ Scheduled :: l2 →
  quiet (worker_run 12 s) = true ∧
  ∃ l3, sched_log (worker_run 12 s) = l1 ++ Scheduled :: l3 ∧ ∃ args, Restarted args ∈ l3.
Proof.
  intros Hr Hl. pose proof (worker_run_quiet s (sched_inv_reachable s Hr)) as Hq.
  split; [done|]. destruct (worker_run_log 12 s) as [l Hlog].
  rewrite Hl, <- app_assoc in Hlog. exists (l2 ++ l). split; [exact Hlog|].
  refine (quiet_served _ _ Hq _ _ Hlog). apply sched_inv_reachable. by apply worker_run_reachable.
Qed.

(** ** At work *)

(** A gateway whose Caddy does not reload. *)
Definition sample_host : Host :=
  MkHost (MkDisk {[ "/etc/caddy/Caddyfile" := ""; "/etc/wireguard/wg0.conf" := "" ]} (λ _, None)) [].
Definition caddy_fails (n : nat) (c : string) : option string :=
  if HasPrefix c "/usr/bin/caddy" then Some "exit status 1" else None.

Example restart_sample :
  RestartNetworkApps sample_paths caddy_fails true true true sample_host
  = (Throw (Errorf "failed to restart caddy: exit status 1"),
     MkHost (host_disk sample_host)
       [WireguardRestartCommand; CaddyRestartCommand "/etc/caddy/Caddyfile"]).
Proof. vm_compute. reflexivity. Qed.

(** Two calls; the worker takes the first request before the second is handed in. *)
Definition first_args : RestartArgs := (10, false, true, true).
Definition one_call : Sched :=
  default sched_init (schedule_send (schedule_once first_args sched_init)).
Definition two_calls : Sched :=
  default sched_init (schedule_send (schedule_once (20, true, true, true) (worker_run 1 one_call))).

Lemma one_call_reachable : sched_reachable one_call.
Proof.
  eapply rtc_l; [apply (step_once first_args)|].
  apply rtc_once. apply (step_send _ one_call). reflexivity.
Qed.
Lemma two_calls_reachable : sched_reachable two_calls.
Proof.
  refine (transitivity (R := rtc sched_step) (worker_run_reachable 1 one_call one_call_reachable) _).
  eapply rtc_l; [apply (step_once (20, true, true, true))|].
  apply rtc_once. apply (step_send _ two_calls). reflexivity.
Qed.

Lemma scheduler_serves_witness :
  (Restarted first_args ∈ sched_log (worker_run 12 two_calls)) ∧
  sched_first (worker_run 12 two_calls) = Some first_args.
Proof.
  assert (Restarted first_args ∈ sched_log (worker_run 12 two_calls)) as Hin.
  { assert (sched_log (worker_run 12 two_calls)
      = [Scheduled; Scheduled; Restarted first_args; Restarted first_args]) as ->
      by (vm_compute; reflexivity).
    apply list_elem_of_further, list_elem_of_further, list_elem_of_here. }
  exact (conj Hin (proj2 (proj2 (proj2 (scheduler_serves (worker_run 12 two_calls)
    (worker_run_reachable 12 two_calls two_calls_reachable)))) first_args Hin)).
Defined.

Lemma scheduler_settles_witness :
  quiet (worker_run 12 two_calls) = true.
Proof.
  exact (proj1 (scheduler_settles two_calls [Scheduled] [] two_calls_reachable eq_refl)).
Defined.

Example two_calls_log :
  sched_log (worker_run 12 two_calls)
  = [Scheduled; Scheduled; Restarted first_args; Restarted first_args].
Proof. vm_compute. reflexivity. Qed.
