(* ===== verification/Docker.v ===== *)
(** * [internal/dockerutils]: the docker network of a server

    The network a server's containers share, and its attachment to them.  The docker
    daemon is a parameter: what it answers to a call may depend in any way on the calls
    before it, which are the state of these operations. *)
From S2P Require Import Prelude GoStrings GoNet GoFormat NodeTypes.

Definition DockerNetworkName : string := "wireport-net".
Definition DockerNetworkDriver : string := "bridge".
Definition WireportGatewayContainerName : string := "wireport-gateway".

(** ** [netip.ParsePrefix] *)

Definition prefix_error {A} (s msg : string) : Out A :=
  Throw (Errorf ("netip.ParsePrefix(" +:+ Quote s +:+ "): " +:+ msg)).

(** [netip.ParsePrefix(s)]: the address, 4 or 16 bytes, and the prefix length.  The
    library's reasons for refusing an address are one here. *)
Definition ParsePrefix (s : string) : Out (IP * Z) :=
  match cut_last "/" s with
  | None => prefix_error s "no '/'"
  | Some (a, bits) =>
      match ParseIP a with
      | [] => prefix_error s ("ParseAddr(" +:+ Quote a +:+ "): unable to parse IP")
      | ip =>
          let v4 := bool_decide (first_mark a = Some "."%char) in
          let padded := (1 <? String.length bits)%nat &&
            match bits with
            | String c _ => negb ((49 <=? code c) && (code c <=? 57))
            | EmptyString => false
            end in
          if padded then prefix_error s ("bad bits after slash: " +:+ Quote bits)
          else
            match Atoi bits with
            | None => prefix_error s ("bad bits after slash: " +:+ Quote bits)
            | Some n =>
                if (n <? 0) || ((if v4 then 32 else 128) <? n)
                then prefix_error s "prefix length out of range"
                else Ret (if v4 then To4 ip else ip, n)
            end
      end
  end.

(** ** The daemon *)

(** An entry of [ContainerList]: the identifier, the names, and the networks the
    container is in, [None] without [NetworkSettings]. *)
Record Container : Type := MkContainer {
  ctr_ID : string;
  ctr_Names : list string;
  ctr_Networks : option (list string);
}.
(** An answer of [ContainerInspect]: [in_Labels] is [None] without a [Config]. *)
Record Inspect : Type := MkInspect {
  in_Name : string;
  in_Networks : option (list string);
  in_Labels : option (gmap string string);
}.

(** The calls, each with what it is given. *)
Inductive DockerCall : Type :=
| NewClient
| NetworkInspect (name : string)
| NetworkCreate (name driver : string) (subnet : IP * Z)
| NetworkRemove (name : string)
| ContainerInspect (id : string)
| ContainerList
| NetworkConnect (name container : string)
| NetworkDisconnect (name container : string).

(** What the operating system and the daemon answer after a history of calls, and how
    the client library classifies the daemon's errors. *)
Record Daemon : Type := MkDaemon {
  Hostname : error + string;
  does : list DockerCall → DockerCall → option error;
  inspects : list DockerCall → string → error + Inspect;
  lists : list DockerCall → error + list Container;
  IsConflict : error → bool;
  IsPermissionDenied : error → bool;
  IsNotFound : error → bool;
}.

Section docker.
  Context (daemon : Daemon).

(** A call, which is remembered. *)
Definition answer {A} (r : error + A) : Out A :=
  match r with inl err => Throw err | inr a => Ret a end.
Definition call {A} (c : DockerCall) (reply : list DockerCall → error + A) : M (list DockerCall) A :=
  λ h, (answer (reply h), h ++ [c]).
Definition do_call (c : DockerCall) : M (list DockerCall) unit :=
  call c (λ h, match does daemon h c with Some err => inl err | None => inr tt end).
Definition inspect_container (id : string) : M (list DockerCall) Inspect :=
  call (ContainerInspect id) (λ h, inspects daemon h id).
Definition list_containers : M (list DockerCall) (list Container) := call ContainerList (lists daemon).

(** [getRunningContainerID], [getContainerName] and [getRunningContainerName] *)
Definition getRunningContainerID : Out string := answer (Hostname daemon).
Definition getContainerName (containerID : string) : M (list DockerCall) string :=
  _ ← do_call NewClient;
  i ← inspect_container containerID;
  mret (TrimPrefix (in_Name i) "/").
Definition getRunningContainerName : M (list DockerCall) string :=
  containerID ← lift getRunningContainerID;
  getContainerName containerID.

(** [EnsureDockerNetworkExistsAndAttached(dockerSubnet)] *)
Definition EnsureDockerNetworkExistsAndAttached (dockerSubnet : IPNetMarshable)
    : M (list DockerCall) unit :=
  _ ← do_call NewClient;
  subnetPrefix ← lift (ParsePrefix (IPNet_String dockerSubnet));
  r ← attempt (do_call (NetworkInspect DockerNetworkName));
  _ ← match r with
      | inl err =>
          if Contains (error_text err) "not found"
          then do_call (NetworkCreate DockerNetworkName DockerNetworkDriver subnetPrefix)
          else throw err
      | inr _ => mret tt
      end;
  containerName ← getRunningContainerName;
  i ← inspect_container containerName;
  if bool_decide (DockerNetworkName ∈ default [] (in_Networks i)) then mret tt
  else do_call (NetworkConnect DockerNetworkName containerName).

Definition is_gateway_container (c : Container) : bool :=
  bool_decide ("/" +:+ WireportGatewayContainerName ∈ ctr_Names c).
Definition in_network (c : Container) : bool :=
  match ctr_Networks c with Some ns => bool_decide (DockerNetworkName ∈ ns) | None => false end.

(** The errors of a connection that are passed over. *)
Definition skip_connect (err : error) : bool :=
  Contains (error_text err) "conflicts with existing route" ||
  Contains (error_text err) "cannot program address" ||
  IsConflict daemon err || IsPermissionDenied daemon err.
Definition skip_disconnect (err : error) : bool :=
  IsNotFound daemon err || IsPermissionDenied daemon err || IsConflict daemon err.

(** The log line after a connection reads [ctr.Names[0]]. *)
Definition log_name (c : Container) : M (list DockerCall) unit :=
  match ctr_Names c with
  | [] => lift (Panic "index out of range: ctr.Names")
  | _ => mret tt
  end.

(** The bodies of the loops over the containers. *)
Definition attach_one (c : Container) : M (list DockerCall) unit :=
  if is_gateway_container c then mret tt
  else if in_network c then mret tt
  else
    r ← attempt (do_call (NetworkConnect DockerNetworkName (ctr_ID c)));
    match r with
    | inl err => if skip_connect err then mret tt else throw err
    | inr _ => log_name c
    end.
Definition detach_one (c : Container) : M (list DockerCall) unit :=
  if match ctr_Networks c with Some _ => negb (in_network c) | None => false end then mret tt
  else
    r ← attempt (do_call (NetworkDisconnect DockerNetworkName (ctr_ID c)));
    match r with
    | inl err => if skip_disconnect err then mret tt else throw err
    | inr _ => log_name c
    end.

(** [EnsureDockerNetworkIsAttachedToAllContainers()] *)
Definition EnsureDockerNetworkIsAttachedToAllContainers : M (list DockerCall) unit :=
  _ ← do_call NewClient;
  items ← list_containers;
  foreach attach_one items.

(** [DetachDockerNetworkFromAllContainers()] *)
Definition DetachDockerNetworkFromAllContainers : M (list DockerCall) unit :=
  _ ← do_call NewClient;
  items ← list_containers;
  foreach detach_one items.

(** [RemoveDockerNetwork()] *)
Definition RemoveDockerNetwork : M (list DockerCall) unit :=
  _ ← do_call NewClient;
  r ← attempt (do_call (NetworkInspect DockerNetworkName));
  match r with
  | inl err => if Contains (error_text err) "not found" then mret tt else throw err
  | inr _ => do_call (NetworkRemove DockerNetworkName)
  end.

(** The labels of a container without any are the nil map, which reads as empty. *)
Definition labels_of (i : Inspect) : gmap string string := default ∅ (in_Labels i).

(** The loop of [ListAllContainerLabels]: a container that cannot be inspected is left out. *)
Fixpoint container_labels (items : list Container) (acc : gmap string (gmap string string))
    : M (list DockerCall) (gmap string (gmap string string)) :=
  match items with
  | [] => mret acc
  | c :: items' =>
      match ctr_Names c with
      | [] => lift (Panic "index out of range: ctr.Names")
      | name :: _ =>
          r ← attempt (inspect_container (ctr_ID c));
          match r with
          | inl _ => container_labels items' acc
          | inr i => container_labels items' (<[TrimPrefix name "/" := labels_of i]> acc)
          end
      end
  end.

(** [ListAllContainerLabels()] *)
Definition ListAllContainerLabels : M (list DockerCall) (gmap string (gmap string string)) :=
  _ ← do_call NewClient;
  items ← list_containers;
  container_labels items ∅.
End docker.

(** ** Properties *)

Section properties.
  Context (daemon : Daemon).

Lemma do_call_run h c :
  do_call daemon c h
  = (match does daemon h c with Some err => Throw err | None => Ret tt end, h ++ [c]).
Proof. unfold do_call, call. by destruct (does daemon h c). Qed.
Lemma do_call_ok h c : does daemon h c = None → do_call daemon c h = (Ret tt, h ++ [c]).
Proof. intros Hd. by rewrite do_call_run, Hd. Qed.

(** The containers a server attaches: all that are listed but the gateway and those that
    are in the network already. *)
Definition to_attach (c : Container) : bool := negb (is_gateway_container c) && negb (in_network c).
Definition connection (c : Container) : DockerCall := NetworkConnect DockerNetworkName (ctr_ID c).
Definition named (c : Container) : Prop := ctr_Names c ≠ [].

Lemma attach_one_skips c h : to_attach c = false → attach_one daemon c h = (Ret tt, h).
Proof.
  unfold to_attach, attach_one. destruct (is_gateway_container c), (in_network c); done.
Qed.

Lemma attach_one_runs c h :
  named c → to_attach c = true →
  attach_one daemon c h
  = (match does daemon h (connection c) with
     | Some err => if skip_connect daemon err then Ret tt else Throw err
     | None => Ret tt
     end, h ++ [connection c]).
Proof.
  unfold to_attach, attach_one. intros Hn [->%negb_true_iff ->%negb_true_iff]%andb_true_iff.
  unfold mbind, M_bind, attempt. rewrite do_call_run. fold (connection c).
  destruct (does daemon h (connection c)) as [err|].
  - destruct (skip_connect daemon err); done.
  - unfold named in Hn. unfold log_name. destruct (ctr_Names c); done.
Qed.

(** The loop connects a prefix of the containers to attach: all of them, or those up to
    the first whose connection fails for good. *)
Lemma attach_loop items h :
  Forall named items →
  ∃ pre o, foreach (attach_one daemon) items h = (o, h ++ map connection pre) ∧
    pre `prefix_of` List.filter to_attach items ∧
    (o = Ret tt ∧ pre = List.filter to_attach items ∨
     ∃ before c err, o = Throw err ∧ pre = before ++ [c] ∧
       does daemon (h ++ map connection before) (connection c) = Some err ∧
       skip_connect daemon err = false).
Proof.
  intros Hn. revert h. induction Hn as [|c items Hc Hn IH]; intros h; cbn [foreach List.filter].
  { exists [], (Ret tt). cbn. rewrite app_nil_r. split; [done|]. split; [done|by left]. }
  destruct (to_attach c) eqn:Ht.
  2: { rewrite (M_bind_Ret _ _ _ _ _ (attach_one_skips c h Ht)). apply IH. }
  pose proof (attach_one_runs c h Hc Ht) as Hrun.
  destruct (does daemon h (connection c)) as [err|] eqn:Hd; [destruct (skip_connect daemon err) eqn:Hs|].
  2: { exists [c], (Throw err). rewrite (M_bind_Throw _ _ _ _ _ Hrun). split; [done|].
       split; [by exists (List.filter to_attach items)|]. right. exists [], c, err. cbn.
       by rewrite app_nil_r. }
  all: rewrite (M_bind_Ret _ _ _ _ _ Hrun); destruct (IH (h ++ [connection c])) as (pre & o & Ho & Hp & Hcase);
    exists (c :: pre), o; rewrite Ho, <- app_assoc; split; [done|]; split; [by apply prefix_cons|];
    destruct Hcase as [[-> ->]|(b & d & e & -> & -> & He & Hse)]; [by left|right; exists (c :: b), d, e];
    cbn; by rewrite <- app_assoc in He.
Qed.

(** A server connects to its docker network exactly the listed containers that are
    neither the gateway nor in it yet, one call each in the order of the list; it
    passes over conflicts and refusals, and stops at the first other failure. *)
Theorem attach_all_calls h items :
  does daemon h NewClient = None → lists daemon (h ++ [NewClient]) = inr items →
  Forall named items →
  ∃ pre o, EnsureDockerNetworkIsAttachedToAllContainers daemon h
           = (o, h ++ [NewClient; ContainerList] ++ map connection pre) ∧
    pre `prefix_of` List.filter to_attach items ∧
    (o = Ret tt ∧ pre = List.filter to_attach items ∨
     ∃ before c err, o = Throw err ∧ pre = before ++ [c] ∧ skip_connect daemon err = false ∧
       does daemon (h ++ [NewClient; ContainerList] ++ map connection before) (connection c)
       = Some err).
Proof.
  intros Hc Hl Hn. unfold EnsureDockerNetworkIsAttachedToAllContainers.
  rewrite (M_bind_Ret _ _ _ _ _ (do_call_ok _ _ Hc)).
  rewrite (M_bind_Ret _ _ _ items ((h ++ [NewClient]) ++ [ContainerList]));
    [|unfold list_containers, call; by rewrite Hl].
  rewrite <- (app_assoc h). cbn [app].
  destruct (attach_loop items (h ++ [NewClient; ContainerList]) Hn) as (pre & o & Ho & Hp & Hcase).
  exists pre, o. rewrite <- app_assoc in Ho. split; [exact Ho|]. split; [exact Hp|].
  destruct Hcase as [?|(b & c & e & -> & -> & He & Hs)]; [by left|right].
  exists b, c, e. rewrite <- app_assoc in He. done.
Qed.

(** What docker promises of connections: the list tells who is connected, a connection
    that succeeds connects that container, and neither disconnects anybody. *)
Record connects (connected : list DockerCall → string → bool) : Prop := {
  con_lists h items c :
    lists daemon h = inr items → c ∈ items → in_network c = connected (h ++ [ContainerList]) (ctr_ID c);
  con_done h c :
    does daemon h (connection c) = None → connected (h ++ [connection c]) (ctr_ID c) = true;
  con_stays h c i : connected h i = true → connected (h ++ [connection c]) i = true;
}.

Lemma connects_stay connected l h i :
  connects connected → connected h i = true → connected (h ++ map connection l) i = true.
Proof.
  intros Hcon. revert h. induction l as [|c l IH]; intros h Hi; cbn; [by rewrite app_nil_r|].
  change (connection c :: map connection l) with ([connection c] ++ map connection l).
  rewrite app_assoc. apply IH. by apply (con_stays _ Hcon).
Qed.

(** What becomes of a container: it is the gateway, connected, or refused for good. *)
Definition seen_to (connected : list DockerCall → string → bool) (h : list DockerCall) (c : Container)
    : Prop :=
  is_gateway_container c = true ∨ connected h (ctr_ID c) = true ∨
  ∃ h' err, does daemon h' (connection c) = Some err ∧ skip_connect daemon err = true.

Lemma attach_one_seen connected c h :
  connects connected → named c →
  (in_network c = true → connected h (ctr_ID c) = true) →
  ∃ pre o, attach_one daemon c h = (o, h ++ map connection pre) ∧
    (o = Ret tt → seen_to connected (h ++ map connection pre) c).
Proof.
  intros Hcon Hn Hin. destruct (to_attach c) eqn:Ht.
  - rewrite (attach_one_runs _ _ Hn Ht). exists [c].
    destruct (does daemon h (connection c)) as [err|] eqn:Hd.
    + eexists. split; [reflexivity|]. destruct (skip_connect daemon err) eqn:Hs; [|done].
      intros _. right; right. by exists h, err.
    + eexists. split; [reflexivity|]. intros _. right; left. by apply (con_done _ Hcon).
  - rewrite (attach_one_skips _ _ Ht). exists [], (Ret tt). cbn. rewrite app_nil_r.
    split; [done|]. intros _. unfold to_attach in Ht.
    destruct (is_gateway_container c) eqn:Hg; [by left|]. right; left. apply Hin.
    by destruct (in_network c).
Qed.

Lemma attach_loop_seen connected items h h' :
  connects connected → Forall named items →
  Forall (λ c, in_network c = true → connected h (ctr_ID c) = true) items →
  foreach (attach_one daemon) items h = (Ret tt, h') → Forall (seen_to connected h') items.
Proof.
  intros Hcon Hn Hin. revert h Hin. induction Hn as [|c items Hc Hn IH]; intros h Hin; cbn [foreach];
    [by constructor|]. inversion_clear Hin as [|? ? Hinc Hins].
  destruct (attach_one_seen connected c h Hcon Hc Hinc) as (pre & o & Ho & Hseen).
  intros ([] & h1 & Hone & Hrest)%M_bind_Ret_inv. rewrite Ho in Hone. injection Hone as -> <-.
  assert (Forall (λ c, in_network c = true → connected (h ++ map connection pre) (ctr_ID c) = true) items)
    as Hins'.
  { eapply Forall_impl; [exact Hins|]. intros d Hd Hi. apply connects_stay; auto. }
  constructor; [|by eapply IH].
  destruct (attach_loop items (h ++ map connection pre) Hn) as (pre' & o' & Ho' & _ & _).
  rewrite Hrest in Ho'. injection Ho' as _ ->.
  destruct (Hseen eq_refl) as [Hg|[Hi|Hr]]; [by left| |by right; right].
  right; left. by apply connects_stay.
Qed.

(** When attaching the network to all containers succeeds, every container that was
    listed is the gateway, is connected, or was refused with a conflict that the loop
    may pass over. *)
Theorem attach_all_attached connected h items h' :
  connects connected → Forall named items → lists daemon (h ++ [NewClient]) = inr items →
  EnsureDockerNetworkIsAttachedToAllContainers daemon h = (Ret tt, h') →
  ∀ c, c ∈ items → seen_to connected h' c.
Proof.
  intros Hcon Hn Hl. unfold EnsureDockerNetworkIsAttachedToAllContainers.
  intros ([] & h1 & Hnew & Hrun)%M_bind_Ret_inv.
  rewrite do_call_run in Hnew. injection Hnew as _ <-.
  apply M_bind_Ret_inv in Hrun as (items' & h2 & Hlist & Hrun).
  unfold list_containers, call in Hlist. rewrite Hl in Hlist. injection Hlist as <- <-.
  apply Forall_forall. eapply attach_loop_seen; [exact Hcon|exact Hn| |exact Hrun].
  apply Forall_forall. intros c Hc Hi. by rewrite <- (con_lists _ Hcon _ _ _ Hl Hc).
Qed.

Lemma first_mark_dotted a b c d : byte_val a → first_mark (dotted a b c d) = Some "."%char.
Proof.
  intros Ha. unfold dotted. rewrite first_mark_digits by (apply Itoa_digits; unfold byte_val in *; lia).
  rewrite !str_app_cons, !str_app_nil_l. cbn [first_mark]. by rewrite Ascii.eqb_refl.
Qed.

(** The subnet a network is created with is the node's. *)
Lemma ParsePrefix_v4 n : v4_net n → ∃ ones, net_Mask n = CIDRMask32 ones ∧
  ParsePrefix (IPNet_String n) = Ret (To4 (net_IP n), ones).
Proof.
  destruct n as [ip mask]. intros [(a & b & c & d & Hip & Ha & Hb & Hc & Hd) (ones & Ho & Hm)].
  cbn [net_IP net_Mask] in Hip, Hm. subst ip mask.
  cbn [net_IP net_Mask]. exists ones. split; [done|]. rewrite IPNet_String_v4 by done.
  unfold ParsePrefix. rewrite str_app_cons, str_app_nil_l.
  rewrite cut_last_app by (apply Itoa_lacks; [done|lia]).
  rewrite ParseIP_dotted, first_mark_dotted by (done || apply Ha).
  rewrite Atoi_Itoa by (unfold int64_min, int64_max; lia). rewrite bool_decide_eq_true_2 by done.
  assert (((1 <? String.length (Itoa ones))%nat && match Itoa ones with
    | String c _ => negb ((49 <=? code c) && (code c <=? 57)) | EmptyString => false end) = false) as ->.
  { refine (proj1 (negb_true_iff _) (forallb_range (λ z, negb ((1 <? String.length (Itoa z))%nat &&
      match Itoa z with String c _ => negb ((49 <=? code c) && (code c <=? 57)) | EmptyString => false end))
      33 _ ones _)); [by vm_compute|lia]. }
  destruct (Z.ltb_spec ones 0), (Z.ltb_spec 32 ones); try lia. reflexivity.
Qed.

Lemma do_call_Ret_inv c h u h' :
  do_call daemon c h = (Ret u, h') → does daemon h c = None ∧ h' = h ++ [c].
Proof. rewrite do_call_run. destruct (does daemon h c); [done|]. by intros [= _ <-]. Qed.
Lemma inspect_Ret_inv id h i h' :
  inspect_container daemon id h = (Ret i, h') →
  inspects daemon h id = inr i ∧ h' = h ++ [ContainerInspect id].
Proof. unfold inspect_container, call. destruct (inspects daemon h id); cbn; [done|]. by intros [= -> <-]. Qed.

(** The network as a join needs it: made with the node's subnet if docker did not know it,
    and the own container in it. *)
Definition made_with (subnet : IPNetMarshable) (ones : Z) (h : list DockerCall) : list DockerCall :=
  match does daemon h (NetworkInspect DockerNetworkName) with
  | Some _ => [NetworkCreate DockerNetworkName DockerNetworkDriver (To4 (net_IP subnet), ones)]
  | None => []
  end.

(** When it succeeds, [EnsureDockerNetworkExistsAndAttached] has made the network with
    the node's own subnet, just if docker did not find it, and has connected the
    container it runs in, just if that was not connected yet; it has changed nothing
    else. *)
Theorem network_exists_attached subnet h u h' :
  v4_net subnet → EnsureDockerNetworkExistsAndAttached daemon subnet h = (Ret u, h') →
  ∃ ones host i i', net_Mask subnet = CIDRMask32 ones ∧ Hostname daemon = inr host ∧
    let h1 := h ++ [NewClient] in
    let h2 := h1 ++ [NetworkInspect DockerNetworkName] ++ made_with subnet ones h1 in
    let name := TrimPrefix (in_Name i) "/" in
    let h3 := h2 ++ [NewClient; ContainerInspect host] in
    inspects daemon (h2 ++ [NewClient]) host = inr i ∧ inspects daemon h3 name = inr i' ∧
    h' = h3 ++ [ContainerInspect name] ++
         (if bool_decide (DockerNetworkName ∈ default [] (in_Networks i')) then []
          else [NetworkConnect DockerNetworkName name]).
Proof.
  intros Hv4. destruct (ParsePrefix_v4 subnet Hv4) as (ones & Hmask & Hprefix).
  unfold EnsureDockerNetworkExistsAndAttached.
  intros ([] & h1 & [_ ->]%do_call_Ret_inv & Hrun)%M_bind_Ret_inv.
  rewrite Hprefix in Hrun. rewrite (M_bind_Ret _ _ _ _ _ (eq_refl : lift (Ret _) _ = (Ret _, _))) in Hrun.
  apply M_bind_Ret_inv in Hrun as (r & h2 & Hr & Hrun).
  apply M_bind_Ret_inv in Hrun as ([] & h3 & Hmade & Hrun).
  assert (h3 = (h ++ [NewClient]) ++ [NetworkInspect DockerNetworkName] ++
               made_with subnet ones (h ++ [NewClient])) as ->.
  { unfold attempt in Hr. rewrite do_call_run in Hr. unfold made_with.
    destruct (does daemon _ (NetworkInspect DockerNetworkName)) as [err|]; injection Hr as <- <-.
    - destruct (Contains (error_text err) "not found"); [|done].
      apply do_call_Ret_inv in Hmade as [_ ->]. by rewrite <- app_assoc.
    - by injection Hmade as <-. }
  clear Hr Hmade. apply M_bind_Ret_inv in Hrun as (name & h4 & Hname & Hrun).
  unfold getRunningContainerName, getRunningContainerID in Hname.
  destruct (Hostname daemon) as [e|host] eqn:Hhost; cbn [answer] in Hname; [done|].
  rewrite (M_bind_Ret _ _ _ _ _ (eq_refl : lift (Ret _) _ = (Ret _, _))) in Hname.
  unfold getContainerName in Hname.
  apply M_bind_Ret_inv in Hname as ([] & h5 & [_ ->]%do_call_Ret_inv & Hname).
  apply M_bind_Ret_inv in Hname as (i & h6 & [Hi ->]%inspect_Ret_inv & [= <- <-]).
  apply M_bind_Ret_inv in Hrun as (i' & h7 & [Hi' ->]%inspect_Ret_inv & Hlast).
  exists ones, host, i, i'. split; [done|]. split; [done|]. cbn zeta.
  split; [exact Hi|]. rewrite <- (app_assoc _ [NewClient]) in Hi', Hlast. split; [exact Hi'|].
  rewrite (app_assoc _ [ContainerInspect _]). case_bool_decide.
  - injection Hlast as <-. by rewrite app_nil_r.
  - by apply do_call_Ret_inv in Hlast as [_ ->].
Qed.
End properties.

(** ** At work *)

#[export] Instance DockerCall_eq_dec : EqDecision DockerCall.
Proof. solve_decision. Defined.

(** A daemon that does as it is told, with three containers, one of them connected. *)
Definition demo_connected (h : list DockerCall) (id : string) : bool :=
  bool_decide (NetworkConnect DockerNetworkName id ∈ h) || bool_decide (id = "3").
Definition demo_networks (h : list DockerCall) (id : string) : option (list string) :=
  Some (if demo_connected h id then ["bridge"; DockerNetworkName] else ["bridge"]).
Definition demo_containers (h : list DockerCall) : list Container :=
  [MkContainer "1" ["/wireport-gateway"] (demo_networks h "1");
   MkContainer "2" ["/web"] (demo_networks h "2");
   MkContainer "3" ["/db"] (demo_networks h "3")].
Definition demo_daemon : Daemon := {|
  Hostname := inr "2";
  does h c :=
    match c with
    | NetworkInspect n =>
        if existsb (λ c, match c with NetworkCreate m _ _ => bool_decide (m = n) | _ => false end) h
        then None else Some (Errorf "network wireport-net not found")
    | _ => None
    end;
  inspects h id := inr (MkInspect "/web" (demo_networks h "2") None);
  lists h := inr (demo_containers h);
  IsConflict _ := false; IsPermissionDenied _ := false; IsNotFound _ := false |}.

Lemma demo_named h : Forall named (demo_containers h).
Proof. repeat constructor; done. Qed.

Lemma demo_connects : connects demo_daemon demo_connected.
Proof.
  assert (∀ h c, c ∈ demo_containers h → in_network c = demo_connected h (ctr_ID c)) as Hin.
  { intros h c. unfold demo_containers. rewrite !elem_of_cons, elem_of_nil.
    intros [->|[->|[->|[]]]];
      unfold in_network, demo_networks; cbn [ctr_ID ctr_Networks];
      destruct (demo_connected h _); by vm_compute. }
  split.
  - intros h items c Hl Hc. injection Hl as <-. rewrite (Hin h c Hc). unfold demo_connected. f_equal.
    apply bool_decide_ext. rewrite elem_of_app, list_elem_of_singleton. naive_solver.
  - intros h c _. unfold demo_connected. rewrite bool_decide_eq_true_2; [done|]. set_solver.
  - intros h c i. unfold demo_connected. rewrite !orb_true_iff, !bool_decide_eq_true. set_solver.
Qed.

Lemma attach_all_calls_witness :
  EnsureDockerNetworkIsAttachedToAllContainers demo_daemon []
  = (Ret tt, [NewClient; ContainerList; NetworkConnect DockerNetworkName "2"]).
Proof.
  destruct (attach_all_calls demo_daemon [] (demo_containers [NewClient]) eq_refl eq_refl
    (demo_named _)) as (pre & o & Hrun & _ & Hcase).
  destruct Hcase as [[-> ->]|(before & c & err & _ & _ & _ & Herr)].
  - rewrite Hrun. reflexivity.
  - exact (match eq_ind None (λ o, match o with None => True | Some _ => False end) I _ Herr with end).
Defined.

Lemma attach_all_attached_witness :
  seen_to demo_daemon demo_connected
    (EnsureDockerNetworkIsAttachedToAllContainers demo_daemon []).2
    (MkContainer "2" ["/web"] (Some ["bridge"])).
Proof.
  exact (attach_all_attached demo_daemon demo_connected [] (demo_containers [NewClient]) _
    demo_connects (demo_named _) eq_refl eq_refl _
    (list_elem_of_further _ _ _ (list_elem_of_here _ _))).
Defined.

Definition demo_subnet : IPNetMarshable := MkIPNet (IPv4 172 20 0 0) (CIDRMask32 16).
Lemma demo_subnet_v4 : v4_net demo_subnet.
Proof.
  split; [|exists 16; split; [lia|reflexivity]].
  exists 172, 20, 0, 0. unfold byte_val. repeat split; lia.
Qed.

Lemma network_exists_attached_witness :
  (EnsureDockerNetworkExistsAndAttached demo_daemon demo_subnet []).2
  = [NewClient; NetworkInspect "wireport-net";
     NetworkCreate "wireport-net" "bridge" ([172; 20; 0; 0], 16);
     NewClient; ContainerInspect "2"; ContainerInspect "web"; NetworkConnect "wireport-net" "web"] ∧
  ∃ ones, net_Mask demo_subnet = CIDRMask32 ones.
Proof.
  destruct (network_exists_attached demo_daemon demo_subnet [] tt
    (EnsureDockerNetworkExistsAndAttached demo_daemon demo_subnet []).2 demo_subnet_v4)
    as (ones & _ & _ & _ & Hm & _).
  - vm_compute. reflexivity.
  - refine (conj _ (ex_intro _ ones Hm)). vm_compute. reflexivity.
Defined.
