(* ===== verification/Ssh.v ===== *)
(** * [internal/ssh]: installing and asking wireport on other machines

    The service that runs commands on a machine over ssh.  The ssh library, the network
    and the machine at the other end are parameters: what a command gives may depend in
    any way on the commands run before it, which are the state of these operations. *)
From S2P Require Import Prelude GoStrings GoNet GoFormat NodeTypes PublicServices.
From S2P Require Import NodeConfigs Aes JoinClient Docker.

(** ** Names and errors *)

Definition WireportServerContainerName : string := "wireport-server".
Definition WireportGatewayContainerImage : string := "ghcr.io/multionlabs/wireport".
Definition WireportServerContainerImage : string := "ghcr.io/multionlabs/wireport".
Definition UpGatewayScriptTemplatePath : string := "scripts/up/gateway.hbs".
Definition UpServerScriptTemplatePath : string := "scripts/up/server.hbs".
Definition DownGatewayScriptTemplatePath : string := "scripts/down/gateway.hbs".
Definition DownServerScriptTemplatePath : string := "scripts/down/server.hbs".
Definition UpgradeGatewayScriptTemplatePath : string := "scripts/upgrade/gateway.hbs".
Definition UpgradeServerScriptTemplatePath : string := "scripts/upgrade/server.hbs".
Definition NewClientScriptTemplatePath : string := "scripts/new/client.hbs".

Definition ErrNoAuthMethodProvided : error :=
  Sentinel "ErrNoAuthMethodProvided" "no valid authentication method provided".
Definition ErrSSHConnectionNotEstablished : error :=
  Sentinel "ErrSSHConnectionNotEstablished" "SSH connection not established".
Definition ErrFailedToCreateAuth : error := Sentinel "ErrFailedToCreateAuth" "failed to create auth".
Definition ErrFailedToCreateSSHClient : error :=
  Sentinel "ErrFailedToCreateSSHClient" "failed to create SSH client".
Definition ErrFailedToTestSSHConnection : error :=
  Sentinel "ErrFailedToTestSSHConnection" "failed to test SSH connection".
Definition ErrFailedToGetDockerVersion : error :=
  Sentinel "ErrFailedToGetDockerVersion" "failed to get Docker version".
Definition ErrFailedToGetContainerStatus : error :=
  Sentinel "ErrFailedToGetContainerStatus" "failed to get container status".
Definition ErrFailedToGetNetworkStatus : error :=
  Sentinel "ErrFailedToGetNetworkStatus" "failed to get network status".

(** [fmt.Errorf("%w: %v", sentinel, err)] *)
Definition because (sentinel err : error) : error :=
  Wrapped (error_text sentinel +:+ ": " +:+ error_text err) sentinel.

(** ** Credentials and the library *)

Record Credentials : Type := MkCredentials {
  cred_Host : string;
  cred_Port : Z;
  cred_Username : string;
  cred_Password : string;
  cred_PrivateKeyPath : string;
  cred_PrivateKeyData : list Z;
  cred_Passphrase : string;
}.
Record CommandResult : Type := MkCommandResult {
  cr_Stdout : string;
  cr_Stderr : string;
  cr_ExitCode : Z;
  cr_Error : option error;
}.

(** How [cmd.Run()] ends: well, with the command's own exit status, or otherwise. *)
Inductive RunEnd : Type :=
| RanWell
| RanExit (status : Z) (err : error)
| RanBroken (err : error).
(** What comes of a command: no command at all, or its two streams and its end. *)
Inductive RunResult : Type :=
| NoCommand (err : error)
| Ran (stdout stderr : string) (end_ : RunEnd).

Class SshLib : Type := {
  Signer : Type;
  ReadKeyFile : string → error + list Z;
  ParsePrivateKey : list Z → error + Signer;
  ParsePrivateKeyWithPassphrase : list Z → string → error + Signer;
  DialTimeout : string → option error;
  NewClientConn : string → string → (Signer + string) → option error;
  TestSession : string → option error;
  RemoteRun : list (string * string) → string → string → RunResult;
}.

(** The commands run so far, each with the machine it ran on, and the lines printed to the
    process's own standard output. *)
Record Remote : Type := MkRemote {
  rm_ran : list (string * string);
  rm_console : list string;
}.
Definition Println (line : string) : M Remote unit := λ r,
  (Ret tt, MkRemote (rm_ran r) (rm_console r ++ [line])).

(** [net.JoinHostPort(host, port)] *)
Definition JoinHostPort (host port : string) : string :=
  if negb (lacks ":" host) then "[" +:+ host +:+ "]:" +:+ port
  else host +:+ ":" +:+ port.
Definition host_port (c : Credentials) : string := JoinHostPort (cred_Host c) (Itoa (cred_Port c)).

Section ssh.
  Context `{SL : SshLib} `{R : Raymond}.

(** The service: [None] is one that is not connected. *)
Definition Service : Type := option Credentials.
Definition NewService : Service := None.

(** The authentication method of [Connect]: a key file, a key or a password, in this order.
    [inl] is a password. *)
Definition parse_key (keyBytes : list Z) (passphrase : string) : Out Signer :=
  match (if bool_decide (passphrase = "") then ParsePrivateKey keyBytes
         else ParsePrivateKeyWithPassphrase keyBytes passphrase) with
  | inl err => Throw (because ErrFailedToCreateAuth err)
  | inr signer => Ret signer
  end.
Definition auth_method (creds : Credentials) : Out (Signer + string) :=
  if negb (bool_decide (cred_PrivateKeyPath creds = "")) then
    match ReadKeyFile (cred_PrivateKeyPath creds) with
    | inl err => Throw (because ErrFailedToCreateAuth err)
    | inr keyBytes => s ← parse_key keyBytes (cred_Passphrase creds); mret (inl s)
    end
  else if negb (bool_decide (cred_PrivateKeyData creds = [])) then
    s ← parse_key (cred_PrivateKeyData creds) (cred_Passphrase creds); mret (inl s)
  else if negb (bool_decide (cred_Password creds = "")) then Ret (inr (cred_Password creds))
  else Throw ErrNoAuthMethodProvided.

Definition or_because (sentinel : error) (o : option error) : Out unit :=
  match o with Some err => Throw (because sentinel err) | None => Ret tt end.

(** [s.Connect(creds)]: the connected service. *)
Definition Connect (creds : Credentials) : Out Service :=
  authMethod ← auth_method creds;
  let hostPort := host_port creds in
  _ ← or_because ErrFailedToCreateSSHClient (DialTimeout hostPort);
  _ ← or_because ErrFailedToCreateSSHClient (NewClientConn hostPort (cred_Username creds) authMethod);
  _ ← or_because ErrFailedToTestSSHConnection (TestSession hostPort);
  mret (Some creds).

Section commands.
  Context (s : Service).

(** [s.executeCommand(command)] *)
Definition executeRemote (command : string) : M Remote CommandResult :=
  match s with
  | None => throw ErrSSHConnectionNotEstablished
  | Some creds => λ r,
      match RemoteRun (rm_ran r) (host_port creds) command with
      | NoCommand err =>
          (Throw (Wrapped ("failed to create command: " +:+ error_text err) err), r)
      | Ran stdout stderr end_ =>
          (Ret (let out := TrimSpace stdout in let err := TrimSpace stderr in
                match end_ with
                | RanWell => MkCommandResult out err 0 None
                | RanExit status e => MkCommandResult out err status (Some e)
                | RanBroken e => MkCommandResult out err (-1) (Some e)
                end),
           MkRemote (rm_ran r ++ [(host_port creds, command)]) (rm_console r))
      end
  end.

(** A command of which only the success counts. *)
Definition succeeds (command : string) : M Remote bool :=
  result ← executeRemote command;
  mret (cr_ExitCode result =? 0).
Definition IsDockerInstalled : M Remote bool := succeeds "which docker".
Definition IsDockerAccessible : M Remote bool := succeeds "docker ps".

(** A command whose output is the answer. *)
Definition output_or (failure : error) (command : string) : M Remote string :=
  result ← executeRemote command;
  if cr_ExitCode result =? 0 then mret (cr_Stdout result) else throw failure.
Definition GetDockerVersion : M Remote string :=
  output_or ErrFailedToGetDockerVersion "docker --version".
Definition status_command (name : string) : string :=
  "docker ps -a --filter name=^/" +:+ name +:+ "$ --format '{{.Status}}'".
Definition GetWireportContainerStatus : M Remote string :=
  output_or ErrFailedToGetContainerStatus (status_command WireportGatewayContainerName).
Definition GetWireportServerContainerStatus : M Remote string :=
  output_or ErrFailedToGetContainerStatus (status_command WireportServerContainerName).
Definition GetWireportNetworkStatus : M Remote string :=
  output_or ErrFailedToGetNetworkStatus
    ("docker network ls --filter name=^" +:+ DockerNetworkName +:+ "$ --format '{{.Name}}'").

(** [s.IsWireportGatewayContainerRunning()] and [s.IsWireportServerContainerRunning()] *)
Definition names_command (name : string) : string :=
  "docker ps --filter name=^/" +:+ name +:+ "$ --format '{{.Names}}'".
Definition is_running (name : string) : M Remote bool :=
  dockerInstalled ← IsDockerInstalled;
  if negb dockerInstalled then mret false
  else
    dockerAccessible ← IsDockerAccessible;
    if negb dockerAccessible then mret false
    else
      result ← executeRemote (names_command name);
      mret (negb (negb (cr_ExitCode result =? 0) || bool_decide (TrimSpace (cr_Stdout result) = ""))).
Definition IsWireportGatewayContainerRunning : M Remote bool := is_running WireportGatewayContainerName.
Definition IsWireportServerContainerRunning : M Remote bool := is_running WireportServerContainerName.

(** A script from its template, run at the other end: its result if it succeeds. *)
Definition run_script (path : string) (vars : gmap string string) (failure : string)
    : M Remote CommandResult :=
  script ← lift (render path (Vars vars));
  cmdResult ← executeRemote script;
  if cr_ExitCode cmdResult =? 0 then mret cmdResult
  else throw (Errorf (failure +:+ cr_Stderr cmdResult)).

Definition gateway_vars (image : string) : gmap string string :=
  {[ "wireportGatewayContainerName" := WireportGatewayContainerName;
     "wireportGatewayContainerImage" := image ]}.
Definition server_vars (image : string) : gmap string string :=
  {[ "wireportServerContainerName" := WireportServerContainerName;
     "wireportServerContainerImage" := image ]}.

(** [s.createClientJoinToken()] *)
Definition createClientJoinToken : M Remote string :=
  cmdResult ← run_script NewClientScriptTemplatePath
    {[ "wireportGatewayContainerName" := WireportGatewayContainerName ]}
    "failed to create client on the gateway: ";
  mret (TrimSpace (cr_Stdout cmdResult)).

(** [s.InstallWireportGateway(image, imageTag)] *)
Definition InstallWireportGateway (image imageTag : string) : M Remote (bool * option string) :=
  isRunning ← IsWireportGatewayContainerRunning;
  if (isRunning : bool) then
    _ ← Println "wireport gateway container is already running, skipping installation";
    mret (true, None)
  else
    _ ← run_script UpGatewayScriptTemplatePath (gateway_vars (image +:+ ":" +:+ imageTag))
          "failed to install wireport: ";
    clientJoinToken ← createClientJoinToken;
    mret (true, Some clientJoinToken).

(** [s.InstallWireportServer(serverJoinToken, image, imageTag)] *)
Definition InstallWireportServer (serverJoinToken image imageTag : string) : M Remote bool :=
  isRunning ← IsWireportServerContainerRunning;
  if (isRunning : bool) then
    _ ← Println "wireport server container is already running, skipping installation";
    mret true
  else
    _ ← run_script UpServerScriptTemplatePath
          (<["serverJoinToken" := serverJoinToken]> (server_vars (image +:+ ":" +:+ imageTag)))
          "failed to install wireport server: ";
    mret true.

(** [s.TeardownWireportServer()] and the like *)
Definition TeardownWireportServer : M Remote bool :=
  _ ← run_script DownServerScriptTemplatePath (server_vars WireportServerContainerImage)
        "failed to stop wireport server: ";
  mret true.
Definition TeardownWireportGateway : M Remote bool :=
  _ ← run_script DownGatewayScriptTemplatePath (gateway_vars WireportGatewayContainerImage)
        "failed to teardown wireport gateway: ";
  mret true.
Definition UpgradeWireportGateway (image imageTag : string) : M Remote bool :=
  _ ← run_script UpgradeGatewayScriptTemplatePath (gateway_vars (image +:+ ":" +:+ imageTag))
        "failed to upgrade wireport gateway: ";
  mret true.
Definition UpgradeWireportServer (image imageTag : string) : M Remote bool :=
  _ ← run_script UpgradeServerScriptTemplatePath (server_vars (image +:+ ":" +:+ imageTag))
        "failed to upgrade wireport server: ";
  mret true.

(** The loop of [s.WaitForWireportServerJoined(timeout)]: [elapsed i] is the time from the
    start to the loop's [i]-th look at the clock. *)
Definition joined_check (paths : ConfigPaths) : string :=
  "docker exec " +:+ WireportServerContainerName +:+ " sh -c 'test -f " +:+
  WireguardConfigPath paths +:+ " && test -f " +:+ CoreDNSConfigPath paths +:+ "'".
Definition pollInterval : Z := 5 * Second.
Fixpoint wait_joined (paths : ConfigPaths) (elapsed : nat → Z) (timeout : Z) (fuel i : nat)
    : M Remote bool :=
  match fuel with
  | O => mret false
  | S f =>
      if elapsed i <? timeout then
        result ← executeRemote (joined_check paths);
        if cr_ExitCode result =? 0 then mret true
        else wait_joined paths elapsed timeout f (S i)
      else mret false
  end.

(** Each round sleeps for [pollInterval]: this many rounds outlast the timeout. *)
Definition poll_rounds (timeout : Z) : nat := Z.to_nat (timeout / pollInterval + 1).
Definition WaitForWireportServerJoined (paths : ConfigPaths) (elapsed : nat → Z) (timeout : Z)
    : M Remote bool :=
  wait_joined paths elapsed timeout (poll_rounds timeout) 0.
End commands.
End ssh.

(** ** Properties *)

Section properties.
  Context {SL : SshLib} {R : Raymond} (creds : Credentials).

(** The result of a command at the other end after the commands in [ran]. *)
Definition result_of (r : RunResult) : Out CommandResult :=
  match r with
  | NoCommand err => Throw (Wrapped ("failed to create command: " +:+ error_text err) err)
  | Ran stdout stderr e =>
      Ret match e with
          | RanWell => MkCommandResult (TrimSpace stdout) (TrimSpace stderr) 0 None
          | RanExit status err => MkCommandResult (TrimSpace stdout) (TrimSpace stderr) status (Some err)
          | RanBroken err => MkCommandResult (TrimSpace stdout) (TrimSpace stderr) (-1) (Some err)
          end
  end.

Lemma executeRemote_Ran c r stdout stderr e :
  RemoteRun (rm_ran r) (host_port creds) c = Ran stdout stderr e →
  executeRemote (Some creds) c r
  = (result_of (Ran stdout stderr e), MkRemote (rm_ran r ++ [(host_port creds, c)]) (rm_console r)).
Proof. intros Hr. unfold executeRemote. rewrite Hr. by destruct e. Qed.

Lemma executeRemote_NoCommand c r err :
  RemoteRun (rm_ran r) (host_port creds) c = NoCommand err →
  executeRemote (Some creds) c r = (result_of (NoCommand err), r).
Proof. intros Hr. unfold executeRemote. by rewrite Hr. Qed.

(** A clock that goes on by at least the time slept between two looks. *)
Definition ticking (elapsed : nat → Z) : Prop :=
  0 ≤ elapsed 0%nat ∧ ∀ i, elapsed i + pollInterval ≤ elapsed (S i).

Lemma ticking_grows elapsed i : ticking elapsed → Z.of_nat i * pollInterval ≤ elapsed i.
Proof.
  intros [H0 Hs]. induction i as [|i IH]; [lia|]. specialize (Hs i). lia.
Qed.

Lemma rounds_outlast elapsed timeout i :
  ticking elapsed → 0 ≤ timeout → (poll_rounds timeout ≤ i)%nat → (elapsed i <? timeout) = false.
Proof.
  intros Ht H0 Hi. apply Z.ltb_ge. etransitivity; [|by apply ticking_grows].
  unfold poll_rounds, pollInterval, Second in *.
  change (5 * 1000000000) with 5000000000 in *.
  pose proof (Z_div_mod_eq_full timeout 5000000000).
  pose proof (Z.mod_pos_bound timeout 5000000000 eq_refl). lia.
Qed.

Lemma wait_joined_more paths elapsed timeout f i extra r :
  ticking elapsed → 0 ≤ timeout → (poll_rounds timeout ≤ f + i)%nat →
  wait_joined (Some creds) paths elapsed timeout (f + extra) i r
  = wait_joined (Some creds) paths elapsed timeout f i r.
Proof.
  intros Ht H0. revert i r. induction f as [|f IH]; intros i r Hf; cbn [wait_joined Nat.add].
  - destruct extra as [|extra]; [done|]. cbn [wait_joined]. by rewrite rounds_outlast by (done || lia).
  - destruct (elapsed i <? timeout); [|done]. unfold mbind, M_bind.
    destruct (executeRemote _ _ r) as [[c|e|p|p] r1]; try done.
    destruct (cr_ExitCode c =? 0); [done|]. apply IH. lia.
Qed.

(** What the loop runs: its check, again and again. *)
Lemma wait_joined_runs paths elapsed timeout f i r :
  ∃ k o, wait_joined (Some creds) paths elapsed timeout f i r
         = (o, MkRemote (rm_ran r ++ replicate k (host_port creds, joined_check paths)) (rm_console r)) ∧
    (k ≤ f)%nat ∧
    (o = Ret true → ∃ j out err, k = S j ∧ elapsed (i + j)%nat < timeout ∧
      RemoteRun (rm_ran r ++ replicate j (host_port creds, joined_check paths)) (host_port creds)
        (joined_check paths) = Ran out err RanWell ∨
      ∃ e, k = S j ∧ elapsed (i + j)%nat < timeout ∧
      RemoteRun (rm_ran r ++ replicate j (host_port creds, joined_check paths)) (host_port creds)
        (joined_check paths) = Ran out err (RanExit 0 e)).
Proof.
  revert i r. induction f as [|f IH]; intros i r; cbn [wait_joined].
  { exists 0%nat, (Ret false). destruct r. cbn. rewrite app_nil_r. split; [done|]; split; [lia|done]. }
  destruct (Z.ltb_spec (elapsed i) timeout) as [Hi|Hi].
  2: { exists 0%nat, (Ret false). destruct r. cbn. rewrite app_nil_r. split; [done|]; split; [lia|done]. }
  unfold mbind, M_bind. destruct (RemoteRun (rm_ran r) (host_port creds) (joined_check paths))
    as [err|out err e] eqn:Hr.
  { rewrite (executeRemote_NoCommand _ _ _ Hr). cbn. exists 0%nat. eexists.
    destruct r. cbn. rewrite app_nil_r. split; [done|]; split; [lia|done]. }
  rewrite (executeRemote_Ran _ _ _ _ _ Hr). cbn [result_of].
  destruct (cr_ExitCode _ =? 0) eqn:Hx.
  - exists 1%nat, (Ret true). split; [done|]. split; [lia|]. intros _. exists 0%nat, out, err.
    rewrite Nat.add_0_r. cbn [replicate]. rewrite app_nil_r. destruct e as [|st e|e]; cbn in Hx.
    + by left.
    + right. exists e. apply Z.eqb_eq in Hx as ->. done.
    + done.
  - destruct (IH (S i) (MkRemote (rm_ran r ++ [(host_port creds, joined_check paths)]) (rm_console r)))
      as (k & o & -> & Hk & Ho). cbn [rm_ran rm_console] in *.
    exists (S k), o. rewrite <- app_assoc. split; [done|]. split; [lia|]. intros Hret.
    destruct (Ho Hret) as (j & out' & err' & [(-> & Hj & Hc)|(e' & -> & Hj & Hc)]);
      exists (S j), out', err'; rewrite Nat.add_succ_r; cbn [replicate];
      rewrite <- app_assoc in Hc; [left|right; exists e']; done.
Qed.

(** The wait for a server to join ends: with a clock that goes on while the loop sleeps,
    more rounds than [poll_rounds] change nothing, so that at most 37 checks are made in
    three minutes; it runs nothing but its check, and answers yes only after a check
    made in time that succeeded. *)
Theorem wait_ends paths elapsed timeout r :
  ticking elapsed → 0 ≤ timeout →
  (∀ extra, wait_joined (Some creds) paths elapsed timeout (poll_rounds timeout + extra) 0 r
            = WaitForWireportServerJoined (Some creds) paths elapsed timeout r) ∧
  ∃ k o, WaitForWireportServerJoined (Some creds) paths elapsed timeout r
         = (o, MkRemote (rm_ran r ++ replicate k (host_port creds, joined_check paths)) (rm_console r)) ∧
    (k ≤ poll_rounds timeout)%nat ∧
    (o = Ret true → ∃ j out err end_, k = S j ∧ elapsed j < timeout ∧
      RemoteRun (rm_ran r ++ replicate j (host_port creds, joined_check paths)) (host_port creds)
        (joined_check paths) = Ran out err end_ ∧ (end_ = RanWell ∨ ∃ e, end_ = RanExit 0 e)).
Proof.
  intros Ht H0. split; [intros extra; apply wait_joined_more; (done || lia)|].
  destruct (wait_joined_runs paths elapsed timeout (poll_rounds timeout) 0 r) as (k & o & Hrun & Hk & Ho).
  exists k, o. split; [exact Hrun|]. split; [done|]. intros Hret.
  destruct (Ho Hret) as (j & out & err & [(-> & Hj & Hc)|(e & -> & Hj & Hc)]);
    exists j, out, err; [exists RanWell|exists (RanExit 0 e)]; eauto 10.
Qed.
(** A command that succeeds after those in [ran], with what it writes. *)
Definition success (ran : list (string * string)) (c out err : string) : Prop :=
  ∃ e, RemoteRun ran (host_port creds) c = Ran out err e ∧ (e = RanWell ∨ ∃ x, e = RanExit 0 x).
Definition here (c : string) : string * string := (host_port creds, c).

Lemma executeRemote_inv c r res r' :
  executeRemote (Some creds) c r = (Ret res, r') →
  r' = MkRemote (rm_ran r ++ [here c]) (rm_console r) ∧
  ∃ out err, cr_Stdout res = TrimSpace out ∧ cr_Stderr res = TrimSpace err ∧
    ((cr_ExitCode res =? 0) = true → success (rm_ran r) c out err).
Proof.
  destruct (RemoteRun (rm_ran r) (host_port creds) c) as [err|out err e] eqn:Hr.
  { rewrite (executeRemote_NoCommand _ _ _ Hr). discriminate. }
  rewrite (executeRemote_Ran _ _ _ _ _ Hr). cbn [result_of]. intros [= <- <-].
  split; [done|]. exists out, err. unfold success.
  destruct e as [|st x|x]; cbn; (split; [done|]; split; [done|]); intros Hx;
    [by eauto| |done]. apply Z.eqb_eq in Hx as ->. eauto 6.
Qed.

Lemma run_script_inv path vars failure r res r' :
  run_script (Some creds) path vars failure r = (Ret res, r') →
  ∃ script out err, render path (Vars vars) = Ret script ∧
    r' = MkRemote (rm_ran r ++ [here script]) (rm_console r) ∧
    success (rm_ran r) script out err ∧ cr_Stdout res = TrimSpace out.
Proof.
  unfold run_script. intros (script & r1 & [= Hs <-] & Hrun)%M_bind_Ret_inv.
  apply M_bind_Ret_inv in Hrun as (x & r2 & (-> & out & err & Ho & _ & Hok)%executeRemote_inv & Hrun).
  destruct (cr_ExitCode x =? 0); [|discriminate]. injection Hrun as <- <-.
  exists script, out, err. auto.
Qed.

(** How a command that has run ended. *)
Definition exit_code (e : RunEnd) : Z :=
  match e with RanWell => 0 | RanExit status _ => status | RanBroken _ => -1 end.

(** A command is not sent, or runs, and then its exit code is what the code looks at. *)
Lemma executeRemote_cases c r :
  (∃ err, RemoteRun (rm_ran r) (host_port creds) c = NoCommand err ∧
     executeRemote (Some creds) c r = (Throw (Wrapped ("failed to create command: " +:+ error_text err) err), r)) ∨
  (∃ out err e x, RemoteRun (rm_ran r) (host_port creds) c = Ran out err e ∧
     executeRemote (Some creds) c r
     = (Ret (MkCommandResult (TrimSpace out) (TrimSpace err) (exit_code e) x),
        MkRemote (rm_ran r ++ [here c]) (rm_console r))).
Proof.
  destruct (RemoteRun (rm_ran r) (host_port creds) c) as [err|out err e] eqn:Hr.
  - left. exists err. split; [done|]. by rewrite (executeRemote_NoCommand _ _ _ Hr).
  - right. rewrite (executeRemote_Ran _ _ _ _ _ Hr). destruct e; do 4 eexists; done.
Qed.

(** The three questions of [is_running], and what they show after the commands in [ran]:
    [None] when one cannot be asked; no when docker is not there or not to be had; and
    otherwise what the list of names says. *)
Definition docker_questions : list string := ["which docker"; "docker ps"].
Definition questions (name : string) : list string := docker_questions ++ [names_command name].
Fixpoint answered_well (ran : list (string * string)) (asked : list string) : Prop :=
  match asked with
  | [] => True
  | q :: asked' =>
      (∃ out err e, RemoteRun ran (host_port creds) q = Ran out err e ∧ exit_code e = 0) ∧
      answered_well (ran ++ [here q]) asked'
  end.
Inductive seen_running (name : string) (ran : list (string * string))
    : option bool → list string → Prop :=
| unasked asked q err :
    asked ++ [q] `prefix_of` questions name → answered_well ran asked →
    RemoteRun (ran ++ map here asked) (host_port creds) q = NoCommand err →
    seen_running name ran None asked
| no_docker asked q out err e :
    asked ++ [q] `prefix_of` docker_questions → answered_well ran asked →
    RemoteRun (ran ++ map here asked) (host_port creds) q = Ran out err e → exit_code e ≠ 0 →
    seen_running name ran (Some false) (asked ++ [q])
| names_listed out err e :
    answered_well ran docker_questions →
    RemoteRun (ran ++ map here docker_questions) (host_port creds) (names_command name) = Ran out err e →
    seen_running name ran
      (Some ((exit_code e =? 0) && negb (bool_decide (TrimSpace (TrimSpace out) = ""))))
      (questions name).

Lemma succeeds_cases c r :
  (∃ err, RemoteRun (rm_ran r) (host_port creds) c = NoCommand err ∧
     succeeds (Some creds) c r = (Throw (Wrapped ("failed to create command: " +:+ error_text err) err), r)) ∨
  (∃ out err e, RemoteRun (rm_ran r) (host_port creds) c = Ran out err e ∧
     succeeds (Some creds) c r
     = (Ret (exit_code e =? 0), MkRemote (rm_ran r ++ [here c]) (rm_console r))).
Proof.
  unfold succeeds, mbind, M_bind.
  destruct (executeRemote_cases c r) as [(err & Hr & ->)|(out & err & e & x & Hr & ->)]; eauto 10.
Qed.

Lemma is_running_spec name r o r' :
  is_running (Some creds) name r = (o, r') →
  ∃ verdict asked, seen_running name (rm_ran r) verdict asked ∧
    r' = MkRemote (rm_ran r ++ map here asked) (rm_console r) ∧
    match verdict with Some b => o = Ret b | None => ∀ b, o ≠ Ret b end.
Proof.
  destruct r as [ran con]. unfold is_running, mbind, M_bind. cbn [rm_ran rm_console].
  destruct (succeeds_cases "which docker" (MkRemote ran con)) as [(err & Hr & E)|(out & err & e & Hr & E)];
    unfold IsDockerInstalled; rewrite E; cbn [rm_ran rm_console] in *; clear E.
  { intros [= <- <-]. exists None, []. cbn [map]. rewrite app_nil_r. split; [|by split].
    apply (unasked _ _ [] "which docker" err); [by exists ["docker ps"; names_command name]|done|]. cbn. by rewrite app_nil_r. }
  destruct (Z.eqb_spec (exit_code e) 0) as [H1|H1]; cbn [negb].
  2: { intros [= <- <-]. exists (Some false), ["which docker"]. split; [|by split].
       apply (no_docker _ _ [] "which docker" out err e); [by exists ["docker ps"]|done| |done].
       cbn. by rewrite app_nil_r. }
  assert (answered_well ran ["which docker"]) as Hw1
    by (split; [by exists out, err, e|done]).
  destruct (succeeds_cases "docker ps" (MkRemote (ran ++ [here "which docker"]) con))
    as [(err2 & Hr2 & E)|(out2 & err2 & e2 & Hr2 & E)];
    unfold IsDockerAccessible; rewrite E; cbn [rm_ran rm_console] in *; clear E.
  { intros [= <- <-]. exists None, ["which docker"]. split; [|by split].
    apply (unasked _ _ ["which docker"] "docker ps" err2); [by exists [names_command name]|done|done]. }
  rewrite <- app_assoc. cbn [app].
  destruct (Z.eqb_spec (exit_code e2) 0) as [H2|H2]; cbn [negb].
  2: { intros [= <- <-]. exists (Some false), docker_questions. split; [|by split].
       by apply (no_docker _ _ ["which docker"] "docker ps" out2 err2 e2); [exists []|..]. }
  assert (answered_well ran docker_questions) as Hw2
    by (split; [by exists out, err, e|]; split; [by exists out2, err2, e2|done]).
  destruct (executeRemote_cases (names_command name)
    (MkRemote (ran ++ [here "which docker"; here "docker ps"]) con))
    as [(err3 & Hr3 & E)|(out3 & err3 & e3 & x & Hr3 & E)]; rewrite E; cbn [rm_ran rm_console] in *; clear E.
  { intros [= <- <-]. exists None, docker_questions. split; [|by split].
    apply (unasked _ _ docker_questions (names_command name) err3); [by exists []|done|done]. }
  rewrite <- app_assoc. intros [= <- <-]. eexists _, (questions name).
  split; [by eapply (names_listed _ _ out3 err3 e3)|]. split; [done|].
  cbn [cr_ExitCode cr_Stdout]. by rewrite negb_orb, negb_involutive.
Qed.

(** A script at the other end: its output if it is rendered, sent and ends well. *)
Inductive script_ends (path : string) (vars : gmap string string) (failure : string)
    (ran : list (string * string)) : Out string → list string → Prop :=
| not_rendered o :
    render path (Vars vars) = o → (∀ s, o ≠ Ret s) → script_ends path vars failure ran o []
| not_sent script err :
    render path (Vars vars) = Ret script → RemoteRun ran (host_port creds) script = NoCommand err →
    script_ends path vars failure ran
      (Throw (Wrapped ("failed to create command: " +:+ error_text err) err)) []
| ended_badly script out err e :
    render path (Vars vars) = Ret script → RemoteRun ran (host_port creds) script = Ran out err e →
    exit_code e ≠ 0 →
    script_ends path vars failure ran (Throw (Errorf (failure +:+ TrimSpace err))) [script]
| ended_well script out err e :
    render path (Vars vars) = Ret script → RemoteRun ran (host_port creds) script = Ran out err e →
    exit_code e = 0 → script_ends path vars failure ran (Ret (TrimSpace out)) [script].

Lemma run_script_spec path vars failure r o r' :
  run_script (Some creds) path vars failure r = (o, r') →
  ∃ out script, script_ends path vars failure (rm_ran r) out script ∧
    r' = MkRemote (rm_ran r ++ map here script) (rm_console r) ∧
    out = (res ← o; mret (cr_Stdout res)).
Proof.
  destruct r as [ran con]. unfold run_script, mbind, M_bind, lift. cbn [rm_ran rm_console].
  destruct (render path (Vars vars)) as [script|e|p|p] eqn:Hrender.
  2-4: intros [= <- <-]; eexists _, []; cbn [map]; rewrite app_nil_r;
    (split; [by apply (not_rendered _ _ _ _ _ Hrender)|by split]).
  destruct (executeRemote_cases script (MkRemote ran con)) as [(err & Hr & E)|(out & err & e & x & Hr & E)];
    rewrite E; cbn [rm_ran rm_console cr_ExitCode] in *; clear E.
  { intros [= <- <-]. eexists _, []. cbn [map]. rewrite app_nil_r.
    split; [by eapply not_sent|by split]. }
  destruct (Z.eqb_spec (exit_code e) 0) as [He|He]; intros [= <- <-]; eexists _, [script];
    (split; [|by split]); [by eapply ended_well|by eapply ended_badly].
Qed.

End properties.

(** ** At work *)

(** A machine with docker on which a server joins after the second check, and whose scripts
    print a token. *)
#[export] Instance toy_ssh : SshLib := {|
  Signer := list Z;
  ReadKeyFile _ := inl (Errorf "no such file");
  ParsePrivateKey b := inr b;
  ParsePrivateKeyWithPassphrase b _ := inr b;
  DialTimeout _ := None;
  NewClientConn _ _ _ := None;
  TestSession _ := None;
  RemoteRun ran _ c :=
    if bool_decide (c = names_command WireportGatewayContainerName) then Ran "" "" RanWell
    else if (length ran <? 2)%nat then Ran "" "" (RanExit 1 (Errorf "exit status 1"))
    else Ran (" token" +:+ newline) "" RanWell;
|}.
Definition sample_creds : Credentials := MkCredentials "203.0.113.7" 22 "root" "pw" "" [] "".

Lemma wait_ends_witness :
  WaitForWireportServerJoined (Some sample_creds) sample_paths (λ i, Z.of_nat i * (5 * Second))
    (3 * 60 * Second) (MkRemote [] [])
  = wait_joined (Some sample_creds) sample_paths (λ i, Z.of_nat i * (5 * Second)) (3 * 60 * Second)
      (poll_rounds (3 * 60 * Second) + 5) 0 (MkRemote [] []).
Proof.
  symmetry. refine (proj1 (wait_ends sample_creds sample_paths (λ i, Z.of_nat i * (5 * Second))
    (3 * 60 * Second) (MkRemote [] []) _ _) 5%nat).
  - split; [done|]. intros i. unfold pollInterval. lia.
  - done.
Defined.

