(* ===== verification/World.v ===== *)
(** * The state the commands work on

    The four tables of the database, the machine the command runs on (its disk, its shell
    and its docker daemon), the machines it reaches over ssh, and the two streams a command
    writes to; and the ways the operations of the other components act on their part of it. *)
From S2P Require Import Prelude GoStrings GoNet Mtls NodeTypes Gorm.
From S2P Require Import NodesRepo PublicServices NodeConfigs JoinStore NetworkApps.
From S2P Require Import Docker Ssh.

(** Nothing run over ssh yet. *)
Definition no_remote : Remote := MkRemote [] [].

Section world.
  Context `{GN : Gorm string Node} `{GS : Gorm ServiceKey PublicService}
    `{GR : Gorm string JoinRequest} `{GT : Gorm string JoinToken}.

Record World : Type := MkWorld {
  w_nodes : Table (Gorm := GN);
  w_services : Table (Gorm := GS);
  w_requests : Table (Gorm := GR);
  w_tokens : Table (Gorm := GT);
  w_host : Host;
  w_out : string;
  w_err : string;
  w_scheduled : list RestartArgs;
  w_docker : list DockerCall;
  w_remote : Remote;
}.

Definition with_nodes (t : Table (Gorm := GN)) (w : World) : World :=
  MkWorld t (w_services w) (w_requests w) (w_tokens w) (w_host w) (w_out w) (w_err w)
    (w_scheduled w) (w_docker w) (w_remote w).
Definition with_services (t : Table (Gorm := GS)) (w : World) : World :=
  MkWorld (w_nodes w) t (w_requests w) (w_tokens w) (w_host w) (w_out w) (w_err w)
    (w_scheduled w) (w_docker w) (w_remote w).
Definition with_requests (t : Table (Gorm := GR)) (w : World) : World :=
  MkWorld (w_nodes w) (w_services w) t (w_tokens w) (w_host w) (w_out w) (w_err w)
    (w_scheduled w) (w_docker w) (w_remote w).
Definition with_tokens (t : Table (Gorm := GT)) (w : World) : World :=
  MkWorld (w_nodes w) (w_services w) (w_requests w) t (w_host w) (w_out w) (w_err w)
    (w_scheduled w) (w_docker w) (w_remote w).
Definition with_host (h : Host) (w : World) : World :=
  MkWorld (w_nodes w) (w_services w) (w_requests w) (w_tokens w) h (w_out w) (w_err w)
    (w_scheduled w) (w_docker w) (w_remote w).
Definition with_disk (d : Disk) (w : World) : World := with_host (MkHost d (host_ran (w_host w))) w.
Definition with_text (out err : string) (w : World) : World :=
  MkWorld (w_nodes w) (w_services w) (w_requests w) (w_tokens w) (w_host w) out err (w_scheduled w)
    (w_docker w) (w_remote w).

Definition with_docker (h : list DockerCall) (w : World) : World :=
  MkWorld (w_nodes w) (w_services w) (w_requests w) (w_tokens w) (w_host w) (w_out w) (w_err w)
    (w_scheduled w) h (w_remote w).
Definition with_remote (r : Remote) (w : World) : World :=
  MkWorld (w_nodes w) (w_services w) (w_requests w) (w_tokens w) (w_host w) (w_out w) (w_err w)
    (w_scheduled w) (w_docker w) r.

(** A component's operation on its part of the world. *)
Definition on_part {S A} (part : World → S) (with_part : S → World → World) (c : M S A)
    : M World A := λ w, let '(o, s) := c (part w) in (o, with_part s w).
Definition on_nodes {A} : M (Table (Gorm := GN)) A → M World A := on_part w_nodes with_nodes.
Definition on_services {A} : M (Table (Gorm := GS)) A → M World A :=
  on_part w_services with_services.
Definition on_requests {A} : M (Table (Gorm := GR)) A → M World A :=
  on_part w_requests with_requests.
Definition on_tokens {A} : M (Table (Gorm := GT)) A → M World A := on_part w_tokens with_tokens.
Definition on_host {A} : M Host A → M World A := on_part w_host with_host.
Definition on_disk {A} : M Disk A → M World A := on_part (λ w, host_disk (w_host w)) with_disk.

Definition on_docker {A} : M (list DockerCall) A → M World A := on_part w_docker with_docker.
Definition on_remote {A} : M Remote A → M World A := on_part w_remote with_remote.

(** [networkapps.ScheduleNetworkAppsRestart(..)]: the calls so far, for the scheduler of
    [NetworkApps.v]. *)
Definition ScheduleNetworkAppsRestart (args : RestartArgs) : M World unit := λ w,
  (Ret tt, MkWorld (w_nodes w) (w_services w) (w_requests w) (w_tokens w) (w_host w) (w_out w)
             (w_err w) (w_scheduled w ++ [args]) (w_docker w) (w_remote w)).

(** [fmt.Fprintf(stdOut, ..)] and [fmt.Fprintf(errOut, ..)] *)
Definition print_out (s : string) : M World unit := λ w,
  (Ret tt, with_text (w_out w +:+ s) (w_err w) w).
Definition print_err (s : string) : M World unit := λ w,
  (Ret tt, with_text (w_out w) (w_err w +:+ s) w).

(** [x, err := c(); if err != nil { fmt.Fprintf(errOut, complaint, err); return }] *)
Definition or_complain {A} (complaint : string) (c : M World A) (k : A → M World unit)
    : M World unit :=
  r ← attempt c;
  match r with
  | inl err => print_err (complaint +:+ error_text err +:+ newline)
  | inr a => k a
  end.

(** Runs a command on two fresh buffers, and gives what it wrote. *)
Definition buffered {A} (c : M World A) : M World ((error + A) * string * string) :=
  w ← get;
  _ ← put (with_text "" "" w);
  r ← attempt c;
  w' ← get;
  _ ← put (with_text (w_out w) (w_err w) w');
  mret (r, w_out w', w_err w').

(** ** Running these *)

Lemma on_part_Ret {S A} (part : World → S) with_part (c : M S A) w a s :
  c (part w) = (Ret a, s) → on_part part with_part c w = (Ret a, with_part s w).
Proof. intros Hrun. unfold on_part. by rewrite Hrun. Qed.
Lemma on_part_Throw {S A} (part : World → S) with_part (c : M S A) w e s :
  c (part w) = (Throw e, s) → on_part part with_part c w = (Throw e, with_part s w).
Proof. intros Hrun. unfold on_part. by rewrite Hrun. Qed.

Lemma or_complain_Ret {A} complaint (c : M World A) k w a w' :
  c w = (Ret a, w') → or_complain complaint c k w = k a w'.
Proof. intros Hrun. unfold or_complain, mbind, M_bind, attempt. by rewrite Hrun. Qed.
Lemma or_complain_Throw {A} complaint (c : M World A) k w e w' :
  c w = (Throw e, w') →
  or_complain complaint c k w = print_err (complaint +:+ error_text e +:+ newline) w'.
Proof. intros Hrun. unfold or_complain, mbind, M_bind, attempt. by rewrite Hrun. Qed.

Lemma with_nodes_same (w : World) : with_nodes (w_nodes w) w = w.
Proof. by destruct w. Qed.
Lemma with_requests_same (w : World) : with_requests (w_requests w) w = w.
Proof. by destruct w. Qed.

(** ** What only prints *)

(** [c] does nothing but write [text.1] on the first stream and [text.2] on the second. *)
Definition prints (c : M World unit) (text : string * string) : Prop :=
  ∀ w, c w = (Ret tt, with_text (w_out w +:+ text.1) (w_err w +:+ text.2) w).

Definition say (a b : string * string) : string * string := (a.1 +:+ b.1, a.2 +:+ b.2).
(** One thing said after the other. *)
Definition say_all (l : list (string * string)) : string * string := foldr say ("", "") l.

Lemma say_all_app l k : say_all (l ++ k) = say (say_all l) (say_all k).
Proof.
  induction l as [|a l IH].
  - unfold say. rewrite !str_app_nil_l. apply surjective_pairing.
  - change (say a (say_all (l ++ k)) = say (say a (say_all l)) (say_all k)). rewrite IH.
    unfold say. cbn. by rewrite !str_app_assoc.
Qed.

Lemma say_nothing a : say ("", "") a = a.
Proof. apply symmetry, surjective_pairing. Qed.
Lemma say_assoc a b c : say (say a b) c = say a (say b c).
Proof. unfold say. cbn. by rewrite !str_app_assoc. Qed.

Lemma prints_out s : prints (print_out s) (s, "").
Proof. intros w. unfold print_out. cbn. by rewrite str_app_nil_r. Qed.
Lemma prints_err s : prints (print_err s) ("", s).
Proof. intros w. unfold print_err. cbn. by rewrite str_app_nil_r. Qed.
Lemma prints_nothing : prints (mret tt) ("", "").
Proof. intros w. cbn. rewrite !str_app_nil_r. by destruct w. Qed.
Lemma prints_bind c k a b : prints c a → prints k b → prints (_ ← c; k) (say a b).
Proof.
  intros Hc Hk w. rewrite (M_bind_Ret _ _ _ _ _ (Hc w)), Hk. unfold with_text, say. cbn.
  by rewrite !str_app_assoc.
Qed.
Lemma prints_foreach {A} (f : A → M World unit) (text : A → string * string) l :
  (∀ x, prints (f x) (text x)) → prints (foreach f l) (say_all (map text l)).
Proof.
  intros Hf. induction l as [|x l IH]; cbn [foreach map say_all foldr]; [apply prints_nothing|].
  by apply prints_bind.
Qed.

(** ** What a computation preserves *)

Definition preserves {A} (I : World → Prop) (c : M World A) : Prop := triple I c (λ _, I) I.

(** A condition that does not look at the two streams. *)
Class TextFree (I : World → Prop) : Prop :=
  text_free : ∀ w out err, I w → I (with_text out err w).

Section preservation.
  Context (I : World → Prop).

Lemma preserves_ret {A} (a : A) : preserves I (mret a).
Proof. intros w Hw. exact Hw. Qed.
Lemma preserves_throw {A} e : preserves I (throw (A := A) e).
Proof. intros w Hw. exact Hw. Qed.
Lemma preserves_lift {A} (o : Out A) : preserves I (lift o).
Proof. by apply triple_lift. Qed.
Lemma preserves_bind {A B} (c : M World A) (f : A → M World B) :
  preserves I c → (∀ a, preserves I (f a)) → preserves I (c ≫= f).
Proof. intros Hc Hf. eapply triple_bind; [exact Hc|intros a; apply Hf]. Qed.
Lemma preserves_attempt {A} (c : M World A) : preserves I c → preserves I (attempt c).
Proof. intros Hc w Hw. specialize (Hc w Hw). unfold attempt. by destruct (c w) as [[] w']. Qed.
Lemma preserves_query_nodes {A} (f : Table (Gorm := GN) → Out A) : preserves I (on_nodes (query f)).
Proof.
  intros w Hw. unfold on_nodes, on_part, query. rewrite with_nodes_same. by destruct (f (w_nodes w)).
Qed.

Lemma preserves_foreach {A} (f : A → M World unit) l :
  (∀ x, preserves I (f x)) → preserves I (foreach f l).
Proof. intros Hf. induction l; cbn [foreach]; [apply preserves_ret|by apply preserves_bind]. Qed.

Context {HI : TextFree I}.
Lemma preserves_out s : preserves I (print_out s).
Proof. intros w Hw. by apply text_free. Qed.
Lemma preserves_err s : preserves I (print_err s).
Proof. intros w Hw. by apply text_free. Qed.
Lemma preserves_complain {A} complaint (c : M World A) k :
  preserves I c → (∀ a, preserves I (k a)) → preserves I (or_complain complaint c k).
Proof.
  intros Hc Hk. apply preserves_bind; [by apply preserves_attempt|].
  intros [err|a]; [apply preserves_err|apply Hk].
Qed.
End preservation.

Lemma triple_complain {A} P complaint (c : M World A) Q k I :
  TextFree I → triple P c Q I → (∀ a, triple (Q a) (k a) (λ _, I) I) →
  triple P (or_complain complaint c k) (λ _, I) I.
Proof.
  intros HI Hc Hk. eapply triple_bind with
    (Q := λ r w, match r with inl _ => I w | inr a => Q a w end).
  - intros w Hw. specialize (Hc w Hw). unfold attempt. by destruct (c w) as [[] w'].
  - intros [err|a]; [|apply Hk]. intros w Hw. by apply HI.
Qed.
End world.
Create HintDb preserves.
#[export] Hint Resolve preserves_ret preserves_throw preserves_lift preserves_bind
  preserves_attempt preserves_query_nodes preserves_out preserves_err preserves_complain preserves_foreach : preserves.

(** [%s://%s:%d] *)
Definition address (protocol host : string) (port : Z) : string :=
  protocol +:+ "://" +:+ host +:+ ":" +:+ Itoa port.
