(* ===== verification/DockerSocket.v ===== *)
(** * [internal/dockersocket]: the docker socket of a server, published or not

    The service that gives access to the docker daemon over TCP runs while the node has the
    label for it.  Whether it is enabled and whether it runs are answers of the machine,
    which may depend on the commands run on it so far. *)
From S2P Require Import Prelude GoStrings GoFormat NodeTypes Gorm NodesRepo.
From S2P Require Import PublicServices NodeConfigs JoinStore NetworkApps NodesDemo World.

Definition PublishDockerSocketScriptTemplatePath : string := "scripts/publish/docker-socket.hbs".
Definition UnpublishDockerSocketScriptTemplatePath : string := "scripts/unpublish/docker-socket.hbs".
Definition RunitServiceDir : string := "/etc/service".
Definition RunitServiceDisabledDir : string := "/etc/service-disabled".
Definition DockerSocketServiceName : string := "socat-docker-socket".
Definition DockerSocketTCPPort : string := "2375".

(** [servicePath()] and [disabledPath()] *)
Definition servicePath : string := RunitServiceDir +:+ "/" +:+ DockerSocketServiceName.
Definition disabledPath : string := RunitServiceDisabledDir +:+ "/" +:+ DockerSocketServiceName.

(** [templateVars()] *)
Definition templateVars : gmap string string :=
  {[ "dockerSocketServicePath" := servicePath;
     "dockerSocketDisabledPath" := disabledPath;
     "dockerSocketServiceName" := DockerSocketServiceName;
     "dockerSocketTCPPort" := DockerSocketTCPPort;
     "runitServiceDir" := RunitServiceDir;
     "runitServiceDisabledDir" := RunitServiceDisabledDir ]}.

(** What [os.Stat] of the service's directory and [pgrep] say after the commands run. *)
Record SocketState : Type := MkSocketState {
  isServiceEnabled : list string → bool;
  isSocatRunning : list string → bool;
}.

Section dockersocket.
  Context `{GN : Gorm string Node} `{GS : Gorm ServiceKey PublicService}
    `{GR : Gorm string JoinRequest} `{GT : Gorm string JoinToken} `{R : Raymond}.
  Context (sh : nat → string → option string) (sock : SocketState).

(** [renderScript(templatePath)] and [runScript(script)] *)
Definition renderScript (templatePath : string) : Out string := render templatePath (Vars templateVars).
Definition runScript (script : string) : M Host unit := RunShell sh script.

(** [publish()] and [unpublish()] *)
Definition publish : M Host unit :=
  script ← lift (renderScript PublishDockerSocketScriptTemplatePath);
  runScript script.
Definition unpublish : M Host unit :=
  script ← lift (renderScript UnpublishDockerSocketScriptTemplatePath);
  runScript script.

(** [if err := c(); err != nil { complain; return }; say done] *)
Definition or_fail (failure success : string) (c : M Host unit) : M World unit :=
  r ← attempt (on_host c);
  match r with
  | inl err => print_err (failure +:+ error_text err +:+ newline)
  | inr _ => print_out success
  end.

(** [ReconcileWithLabels(labels, stdOut, errOut)] *)
Definition ReconcileWithLabels (labels : list string) : M World unit :=
  w ← get;
  let wantPublished := bool_decide (DockerSocketPublishedLabel ∈ labels) in
  let enabled := isServiceEnabled sock (host_ran (w_host w)) in
  let running := isSocatRunning sock (host_ran (w_host w)) in
  if wantPublished then
    if enabled && running then mret tt
    else
      _ ← print_out ("Enabling docker socket TCP gateway (label " +:+ Quote DockerSocketPublishedLabel
                     +:+ " present)" +:+ newline);
      or_fail "Failed to enable docker socket TCP gateway: "
        ("Docker socket TCP gateway enabled" +:+ newline) publish
  else if negb enabled && negb running then mret tt
  else
    _ ← print_out ("Disabling docker socket TCP gateway (label " +:+ Quote DockerSocketPublishedLabel
                   +:+ " absent)" +:+ newline);
    or_fail "Failed to disable docker socket TCP gateway: "
      ("Docker socket TCP gateway disabled" +:+ newline) unpublish.
End dockersocket.

(** ** Properties *)

Section properties.
  Context {GN : Gorm string Node} {GS : Gorm ServiceKey PublicService}
    {GR : Gorm string JoinRequest} {GT : Gorm string JoinToken} {R : Raymond}.
  Context (sh : nat → string → option string) (sock : SocketState).

(** The socket is as the labels say. *)
Definition in_line (labels : list string) (w : World) : Prop :=
  let want := bool_decide (DockerSocketPublishedLabel ∈ labels) in
  isServiceEnabled sock (host_ran (w_host w)) = want ∧ isSocatRunning sock (host_ran (w_host w)) = want.

Lemma or_fail_run failure success path w :
  or_fail failure success (script ← lift (renderScript path); runScript sh script) w =
  match renderScript path with
  | Ret script =>
      (Ret tt, let w' := with_host (MkHost (host_disk (w_host w)) (host_ran (w_host w) ++ [script])) w in
       match sh (length (host_ran (w_host w))) script with
       | Some err => with_text (w_out w) (w_err w +:+ failure +:+ err +:+ newline) w'
       | None => with_text (w_out w +:+ success) (w_err w) w'
       end)
  | Throw err => (Ret tt, with_text (w_out w) (w_err w +:+ failure +:+ error_text err +:+ newline) w)
  | Panic p => (Panic p, w)
  | Exited p => (Exited p, w)
  end.
Proof.
  unfold or_fail, attempt, on_host, on_part, mbind, M_bind, lift.
  destruct (renderScript path) as [script|err|p|p]; try by destruct w.
  unfold runScript, RunShell. by destruct (sh _ script).
Qed.

(** C27: what a round does about the docker socket, by its label.  When the service is enabled
    and runs, with the label, or neither, without it, nothing is done.  In every other case,
    the two between included, that is announced and exactly one script is run once, the one
    of the label's side with the program's values filled in; its error is told, and so is a
    script that cannot be rendered, of which nothing is run.  Nothing else changes.  (What
    the scripts do to the service is not modelled.) *)
Theorem ReconcileWithLabels_acts labels w :
  let run := ReconcileWithLabels sh sock labels w in
  let want := bool_decide (DockerSocketPublishedLabel ∈ labels) in
  let ran := host_ran (w_host w) in
  let path := if want then PublishDockerSocketScriptTemplatePath
              else UnpublishDockerSocketScriptTemplatePath in
  let verb := if want then "enable" else "disable" in
  let announced := w_out w +:+ (if want then "Enabling" else "Disabling") +:+
    " docker socket TCP gateway (label " +:+ Quote DockerSocketPublishedLabel +:+
    (if want then " present)" else " absent)") +:+ newline in
  let failed err := w_err w +:+ "Failed to " +:+ verb +:+ " docker socket TCP gateway: " +:+ err +:+ newline in
  (in_line labels w → run = (Ret tt, w)) ∧
  (¬ in_line labels w → ∀ script, render path (Vars templateVars) = Ret script →
     let acted := with_host (MkHost (host_disk (w_host w)) (ran ++ [script])) w in
     (sh (length ran) script = None →
        run = (Ret tt, with_text (announced +:+ "Docker socket TCP gateway " +:+ verb +:+ "d" +:+ newline)
                         (w_err w) acted)) ∧
     (∀ err, sh (length ran) script = Some err → run = (Ret tt, with_text announced (failed err) acted))) ∧
  (¬ in_line labels w → ∀ err, render path (Vars templateVars) = Throw err →
     run = (Ret tt, with_text announced (failed (error_text err)) w)).
Proof.
  intros run want ran path verb announced failed. split.
  { unfold in_line, run, ReconcileWithLabels, mbind, M_bind, get. cbn zeta. intros [He Hr].
    rewrite He, Hr. by case_bool_decide. }
  assert (¬ in_line labels w →
    run = or_fail ("Failed to " +:+ verb +:+ " docker socket TCP gateway: ")
            ("Docker socket TCP gateway " +:+ verb +:+ "d" +:+ newline)
            (script ← lift (renderScript path); runScript sh script)
            (with_text announced (w_err w) w)) as Hrun.
  { unfold in_line. fold want ran. intros Hout.
    unfold run, ReconcileWithLabels, mbind at 1, M_bind at 1, get. cbn zeta. fold want ran.
    unfold verb, path, announced. destruct want;
      destruct (isServiceEnabled sock ran), (isSocatRunning sock ran); try naive_solver; reflexivity. }
  split; intros Hout; rewrite (Hrun Hout), or_fail_run; unfold renderScript.
  - intros script ->. split; [intros Hsh|intros err Hsh]; cbn [w_host with_text]; fold ran; rewrite Hsh; [done|].
    unfold failed. by rewrite !str_app_assoc.
  - intros err ->. unfold failed. cbn. by rewrite !str_app_assoc.
Qed.
End properties.

(** ** At work *)

(** A machine on which the last of the two scripts decides. *)
Definition up_script : string :=
  PublishDockerSocketScriptTemplatePath +:+ Join (map snd (map_to_list templateVars)) " ".
Definition down_script : string :=
  UnpublishDockerSocketScriptTemplatePath +:+ Join (map snd (map_to_list templateVars)) " ".
Definition last_script (ran : list string) : bool := bool_decide (last ran = Some up_script).
Definition demo_socket : SocketState := MkSocketState last_script last_script.

Definition bare_world : World :=
  MkWorld (demo_empty) no_services no_requests no_tokens (MkHost sample_disk []) "" "" [] [] no_remote.

Lemma ReconcileWithLabels_acts_witness :
  host_ran (w_host (ReconcileWithLabels (R := toy_raymond) (λ _ _, None) demo_socket
    [DockerSocketPublishedLabel] bare_world).2) = [up_script].
Proof.
  destruct (ReconcileWithLabels_acts (R := toy_raymond) (λ _ _, None) demo_socket
    [DockerSocketPublishedLabel] bare_world) as (_ & Hacts & _).
  destruct (Hacts ltac:(intros [He _]; vm_compute in He; discriminate He) up_script
    ltac:(vm_compute; reflexivity)) as [Hok _].
  rewrite (Hok eq_refl). reflexivity.
Defined.
