(* ===== verification/LocalJoin.v ===== *)
(** * [internal/commands/local_join.go]: joining a network

    What a node does with a join token: it asks the gateway, stores the node it gets as its
    own, and sets itself up for its role. *)
From S2P Require Import Prelude GoStrings GoNet Mtls NodeTypes Gorm.
From S2P Require Import NodesRepo PublicServices NodeConfigs JoinStore NetworkApps.
From S2P Require Import NodesDemo Aes CommandTypes JoinClient Docker World.

(** What is around a node that joins: its daemon, and what the [n]-th post to a gateway over
    a TLS configuration gives. *)
Record JoinEnv : Type := MkJoinEnv {
  je_daemon : Daemon;
  je_posts : TLSConfig → string → string → list Z → nat → PostResult;
  je_first_attempt : string;
  je_now : string;
  je_DocumentationURL : string;
}.

Section join.
  Context `{GN : Gorm string Node} `{GS : Gorm ServiceKey PublicService}
    `{GR : Gorm string JoinRequest} `{GT : Gorm string JoinToken} `{R : Raymond} `{X : X509}
    `{JQ : Json JoinRequest} `{JD : Json JoinRequestDTO} `{JP : Json JoinResponseDTO}.
  Context (paths : ConfigPaths) (sh : nat → string → option string) (env : JoinEnv).

(** [fmt.Fprintf(errOut, complaint); return false] *)
Definition refuse (complaint : string) : M World bool := _ ← print_err complaint; mret false.

(** [x, err := c(); if err != nil { fmt.Fprintf(errOut, complaint, err); return false }] *)
Definition or_refuse {A} (complaint : string) (c : M World A) (k : A → M World bool) : M World bool :=
  r ← attempt c;
  match r with
  | inl err => refuse (complaint +:+ error_text err +:+ newline)
  | inr a => k a
  end.

(** [NewAPIService(&bundle)], which panics on a bundle without a TLS configuration; its
    [client] is what the posts are made with. *)
Record HttpClient : Type := MkHttpClient {
  dialer_Timeout : Z;
  dialer_KeepAlive : Z;
  TLSClientConfig : TLSConfig;
  MaxIdleConns : Z;
  IdleConnTimeout : Z;
  TLSHandshakeTimeout : Z;
  ExpectContinueTimeout : Z;
  RequestTimeout : Z;
}.
Record APIService : Type := MkAPIService { api_client : HttpClient; api_clientCertBundle : FullClientBundle }.
Definition NewAPIService (clientCertBundle : FullClientBundle) : Out APIService :=
  match GetClientTLSConfig clientCertBundle with
  | Ret tlsConfig =>
      Ret (MkAPIService (MkHttpClient (10 * Second) (10 * Second) tlsConfig 10 (30 * Second)
                           (10 * Second) (1 * Second) (30 * Second)) clientCertBundle)
  | Throw err => Panic (error_text err)
  | Panic why => Panic why
  | Exited why => Exited why
  end.
(** [NewAPIService(&bundle).Join(joinToken, gatewayAddress)] *)
Definition ask_gateway (joinToken gatewayAddress : string) (bundle : FullClientBundle)
    : Out (NetError + JoinResponseDTO) :=
  service ← NewAPIService bundle;
  (JoinGateway (je_posts env (TLSClientConfig (api_client service)))
     (je_first_attempt env) (je_now env) joinToken gatewayAddress (MkJoinState [] [])).1.

(** The cases of the switch over the new node's role. *)
Definition set_up_server (currentNode : Node) : M World bool :=
  _ ← print_out ("Setting up server node (configs and network)" +:+ newline);
  match node_DockerSubnet currentNode with
  | None => refuse ("Failed to get docker subnet from node config" +:+ newline)
  | Some subnet =>
      or_refuse "Failed to parse docker subnet: "
        (lift (ParseIPNetMarshable (IPNet_String subnet) true)) (λ dockerSubnet,
      or_refuse ("Failed to ensure docker network " +:+ DockerNetworkName +:+ " with subnet " +:+
                 IPNet_String dockerSubnet +:+ " exists and is attached: ")
        (on_docker (EnsureDockerNetworkExistsAndAttached (je_daemon env) dockerSubnet)) (λ _,
      or_refuse "Failed to save node configs: " (on_disk (SaveConfigs paths currentNode [] true)) (λ _,
      _ ← print_out ("Successfully saved node config to the database" +:+ newline);
      r ← attempt (on_host (RestartNetworkApps paths sh true true false));
      _ ← match r with
          | inl err =>
              print_err ("Joined successfully but failed to signal network service restart: " +:+
                         error_text err +:+ newline +:+
                         "Runit will still start WireGuard and CoreDNS once configs are in place" +:+
                         newline)
          | inr _ => print_out ("Signaled WireGuard and CoreDNS restart" +:+ newline)
          end;
      mret true)))
  end.
Definition set_up_client (currentNode : Node) : M World bool :=
  or_refuse "Failed to get wireguard config: " (lift (GetFormattedWireguardConfig currentNode))
    (λ wireguardConfig,
  _ ← print_out (newline +:+ wireguardConfig +:+ newline);
  _ ← print_err (newline +:+ "⤵ wireport WireGuard config has been dumped" +:+ newline +:+ newline);
  mret true).
Definition set_up (currentNode : Node) : M World bool :=
  match node_Role currentNode with
  | NodeRoleServer => set_up_server currentNode
  | NodeRoleClient => set_up_client currentNode
  | role => refuse ("Invalid node role: " +:+ role_text role +:+ newline)
  end.

(** [s.Join(stdOut, errOut, joinToken)] *)
Definition Join (joinToken : string) : M World bool :=
  or_refuse "Failed to parse join request: " (lift (FromBase64 joinToken)) (λ joinRequest,
  let gatewayAddress := jr_GatewayHost joinRequest +:+ ":" +:+ Itoa (jr_GatewayPort joinRequest) in
  response ← lift (ask_gateway joinToken gatewayAddress (jr_ClientCertBundle joinRequest));
  match response with
  | inl err => refuse (FormatJoinError (je_DocumentationURL env) (Some err) gatewayAddress)
  | inr (MkJoinResponseDTO None) =>
      refuse ("Failed to get node config from join response" +:+ newline)
  | inr (MkJoinResponseDTO (Some node)) =>
      let currentNode := set_IsCurrentNode true node in
      or_refuse "Failed to save node config: " (on_nodes (SaveNode currentNode)) (λ _,
      set_up currentNode)
  end).
End join.

(** ** Properties *)

Section properties.
  Context {GN : Gorm string Node} {LN : GormLaws string Node} {GS : Gorm ServiceKey PublicService}
    {GR : Gorm string JoinRequest} {GT : Gorm string JoinToken} {R : Raymond} {X : X509}
    {JQ : Json JoinRequest} {JD : Json JoinRequestDTO}
    {JP : Json JoinResponseDTO}.
  Context (paths : ConfigPaths) (sh : nat → string → option string) (env : JoinEnv).

Lemma or_refuse_Ret {A} complaint (c : M World A) k w a w' :
  c w = (Ret a, w') → or_refuse complaint c k w = k a w'.
Proof. intros Hrun. unfold or_refuse, mbind, M_bind, attempt. by rewrite Hrun. Qed.
Lemma or_refuse_Throw {A} complaint (c : M World A) k w e w' :
  c w = (Throw e, w') →
  or_refuse complaint c k w
  = (Ret false, with_text (w_out w') (w_err w' +:+ complaint +:+ error_text e +:+ newline) w').
Proof. intros Hrun. unfold or_refuse, mbind, M_bind, attempt. by rewrite Hrun. Qed.

(** A gateway that answers the first post. *)
Lemma ask_gateway_first token address bundle tls payload body answer :
  GetClientTLSConfig bundle = Ret tls → json_Marshal (MkJoinRequestDTO token) = Ret payload →
  je_posts env tls ("https://" +:+ address +:+ "/commands/join") "application/json" payload 0%nat
    = Response 200 body →
  json_Unmarshal body = Ret answer →
  ask_gateway env token address bundle = Ret (inr answer).
Proof.
  intros Htls Hp Hpost Hbody. unfold ask_gateway, NewAPIService, JoinGateway. rewrite Htls.
  cbn [mbind Out_bind api_client TLSClientConfig].
  change (Z.to_nat maxRetries) with 5%nat. cbn [join_loop].
  unfold checked, attempt, lift, mbind, M_bind, mret, M_ret, Post. rewrite Hp.
  cbn [js_posts length]. rewrite Hpost. cbn [Z.eqb negb]. by rewrite Hbody.
Qed.

(** The node a token leads to, as it is stored. *)
Definition given (token : string) (jr : JoinRequest) (n : Node) : Prop :=
  FromBase64 token = Ret jr ∧
  ask_gateway env token (jr_GatewayHost jr +:+ ":" +:+ Itoa (jr_GatewayPort jr))
    (jr_ClientCertBundle jr) = Ret (inr (MkJoinResponseDTO (Some n))).

Lemma Join_given token jr n w :
  given token jr n →
  Join paths sh env token w
  = or_refuse "Failed to save node config: " (on_nodes (SaveNode (set_IsCurrentNode true n)))
      (λ _, set_up paths sh env (set_IsCurrentNode true n)) w.
Proof.
  intros [Htok Hask]. unfold Join. erewrite or_refuse_Ret by (apply lift_Ret; exact Htok).
  cbn zeta beta. erewrite M_bind_Ret by (unfold lift; by rewrite Hask). done.
Qed.
(** The new node's row. *)
Lemma saved_row n w :
  healthy (w_nodes w) → node_ID n ≠ "" → no_clash (rows (w_nodes w)) (set_IsCurrentNode true n) →
  ∃ t, on_nodes (SaveNode (set_IsCurrentNode true n)) w = (Ret tt, with_nodes t w) ∧ healthy t ∧
    rows t = <[node_ID n := set_IsCurrentNode true n]> (rows (w_nodes w)).
Proof.
  intros Hh Hid Hc. destruct (save_row (set_IsCurrentNode true n) (w_nodes w)) as (t & Hs & Ht & Hr);
    [done|by apply bool_decide_eq_false_2|done|].
  exists t. split; [|done]. apply on_part_Ret. unfold SaveNode. by rewrite (M_bind_Ret _ _ _ _ _ Hs).
Qed.

(** A server sets itself up; whatever comes of it, its database stays. *)
Definition same_nodes (t : Table (Gorm := GN)) (w : World) : Prop := w_nodes w = t.
#[local] Instance same_nodes_free t : TextFree (same_nodes t).
Proof. by intros w out err Hw. Qed.
Lemma preserves_refuse {A} I {HI : TextFree I} complaint (c : M World A) k :
  preserves I c → (∀ a, preserves I (k a)) → preserves I (or_refuse complaint c k).
Proof.
  intros Hc Hk. apply preserves_bind; [by apply preserves_attempt|].
  intros [err|a]; [apply preserves_bind; auto with preserves typeclass_instances|apply Hk].
Qed.
Lemma set_up_nodes t n : preserves (same_nodes t) (set_up paths sh env n).
Proof.
  assert (∀ S (part : World → S) with_part A (c : M S A),
    (∀ s w, w_nodes (with_part s w) = w_nodes w) → preserves (same_nodes t) (on_part part with_part c))
    as Hpart.
  { intros S part with_part A c Hs w Hw. unfold on_part, same_nodes.
    destruct (c (part w)) as [[] s]; cbn; by rewrite Hs. }
  unfold set_up, set_up_server, set_up_client, refuse.
  repeat first
    [ apply Hpart; done
    | apply preserves_refuse; [apply _| |intros ?]
    | apply preserves_bind; [|intros ?]
    | apply preserves_attempt
    | progress auto with preserves typeclass_instances
    | case_match ].
Qed.

Lemma set_up_server_runs n d w o calls :
  node_Role n = NodeRoleServer → node_DockerSubnet n = Some d → v4_net d →
  EnsureDockerNetworkExistsAndAttached (je_daemon env) d (w_docker w) = (o, calls) →
  (∀ e, o = Throw e → ∃ w', set_up paths sh env n w = (Ret false, w') ∧
     w_nodes w' = w_nodes w ∧ w_host w' = w_host w ∧ w_docker w' = calls) ∧
  (∀ disk, o = Ret tt → SaveConfigs paths n [] true (host_disk (w_host w)) = (Ret tt, disk) →
     ∃ w', set_up paths sh env n w = (Ret true, w') ∧
     w_nodes w' = w_nodes w ∧ host_disk (w_host w') = disk ∧ w_docker w' = calls).
Proof.
  intros Hrole Hsub Hd Hdocker.
  set (w1 := with_text (w_out w +:+ "Setting up server node (configs and network)" +:+ newline)
               (w_err w) w).
  assert (∀ k, (_ ← print_out ("Setting up server node (configs and network)" +:+ newline); k)
               w = (k : M World bool) w1) as Hsay by done.
  unfold set_up. rewrite Hrole. unfold set_up_server. rewrite Hsub, Hsay. clear Hsay.
  erewrite or_refuse_Ret by (apply lift_Ret, ParseIPNetMarshable_String; exact Hd). cbn beta.
  split.
  - intros e ->. erewrite or_refuse_Throw by (apply on_part_Throw; exact Hdocker).
    eexists. split; [reflexivity|]. done.
  - intros disk -> Hdisk. erewrite or_refuse_Ret by (apply on_part_Ret; exact Hdocker). cbn beta.
    erewrite or_refuse_Ret by (apply on_part_Ret; exact Hdisk). cbn beta.
    erewrite M_bind_Ret by reflexivity.
    destruct (RestartNetworkApps_only_runs paths sh true true false
      (MkHost disk (host_ran (w_host w)))) as (r & ran & Hrestart & [->|[e ->]]);
      (erewrite M_bind_Ret by (unfold attempt, on_host, on_part; cbn -[RestartNetworkApps];
         rewrite Hrestart; reflexivity)); eexists; (split; [reflexivity|]); done.
Qed.

(** The node a fresh machine is given is its only one, whatever comes of setting it up. *)
Lemma Join_fresh token jr n w :
  given token jr n → healthy (w_nodes w) → rows (w_nodes w) = ∅ → node_ID n ≠ "" →
  let here := set_IsCurrentNode true n in
  ∃ o w', Join paths sh env token w = (o, w') ∧ rows (w_nodes w') = {[ node_ID n := here ]} ∧
    (node_Role n = NodeRoleClient → o = Ret true ∧
       w_out w' = w_out w +:+ newline +:+ ToINI (node_WGConfig n) +:+ newline) ∧
    (∀ d calls disk, node_Role n = NodeRoleServer → node_DockerSubnet n = Some d → v4_net d →
       EnsureDockerNetworkExistsAndAttached (je_daemon env) d (w_docker w) = (Ret tt, calls) →
       SaveConfigs paths here [] true (host_disk (w_host w)) = (Ret tt, disk) →
       o = Ret true ∧ host_disk (w_host w') = disk ∧ w_docker w' = calls).
Proof.
  intros Hgiven Hh Hempty Hid here. destruct (saved_row n w Hh Hid) as (t & Hsave & _ & Hrow).
  { intros k y Hy. by rewrite Hempty, lookup_empty in Hy. }
  rewrite (Join_given _ _ _ _ Hgiven), (or_refuse_Ret _ _ _ _ _ _ Hsave). fold here.
  destruct (set_up paths sh env here (with_nodes t w)) as [o w'] eqn:Hup.
  exists o, w'. split; [done|]. split; [|split].
  - assert (same_nodes t (with_nodes t w)) as Hsame by done.
    pose proof (triple_any _ _ _ _ _ _ (set_up_nodes t here) Hsame Hup) as ->.
    by rewrite Hrow, Hempty.
  - intros Hc. unfold set_up in Hup. cbn [node_Role here set_IsCurrentNode] in Hup.
    rewrite Hc in Hup. by injection Hup as <- <-.
  - intros d calls disk Hs Hsub Hd Hdocker Hdisk.
    destruct (set_up_server_runs here d (with_nodes t w) (Ret tt) calls) as [_ Hdone]; [done..|].
    destruct (Hdone disk eq_refl Hdisk) as (w2 & Hrun & _ & Hw2).
    rewrite Hrun in Hup. injection Hup as <- <-. by split.
Qed.

(** C19: a server that the gateway has let in stores its node before it sets itself up: when
    the docker network cannot be had the join is reported as failed although the node is
    this machine's from now on; when it can be had and the files are written the join
    succeeds, with or without the restart of the network services. *)
Theorem Join_server token jr n d w o calls :
  given token jr n → node_Role n = NodeRoleServer → node_DockerSubnet n = Some d → v4_net d →
  healthy (w_nodes w) → node_ID n ≠ "" → no_clash (rows (w_nodes w)) (set_IsCurrentNode true n) →
  EnsureDockerNetworkExistsAndAttached (je_daemon env) d (w_docker w) = (o, calls) →
  (∀ e, o = Throw e → ∃ w', Join paths sh env token w = (Ret false, w') ∧
     rows (w_nodes w') = <[node_ID n := set_IsCurrentNode true n]> (rows (w_nodes w)) ∧
     w_host w' = w_host w ∧ w_docker w' = calls) ∧
  (∀ disk, o = Ret tt →
     SaveConfigs paths (set_IsCurrentNode true n) [] true (host_disk (w_host w)) = (Ret tt, disk) →
     ∃ w', Join paths sh env token w = (Ret true, w') ∧
     rows (w_nodes w') = <[node_ID n := set_IsCurrentNode true n]> (rows (w_nodes w)) ∧
     host_disk (w_host w') = disk ∧ w_docker w' = calls).
Proof.
  intros Hgiven Hrole Hsub Hd Hh Hid Hc Hdocker.
  destruct (saved_row n w Hh Hid Hc) as (t & Hsave & _ & Hrows).
  rewrite (Join_given _ _ _ _ Hgiven), (or_refuse_Ret _ _ _ _ _ _ Hsave).
  destruct (set_up_server_runs (set_IsCurrentNode true n) d (with_nodes t w) o calls) as [Hf Ht];
    [done..|].
  split; [intros e He; destruct (Hf e He) as (w' & Hrun & Hn & Hw)
         |intros disk Ho Hs; destruct (Ht disk Ho Hs) as (w' & Hrun & Hn & Hw)];
    exists w'; (split; [exact Hrun|]); rewrite Hn; by split.
Qed.
End properties.

(** ** At work *)

(** A fresh machine with the gateway's token for it; the gateway answers with [n]. *)
Definition fresh_world : World :=
  MkWorld demo_empty no_services no_requests no_tokens (MkHost sample_disk []) "" "" [] [] no_remote.
Definition answering : JoinEnv :=
  MkJoinEnv demo_daemon (λ _ _ _ _ _, Response 200 [42]) "t0" "t1" "https://github.com/MultionLabs/wireport".
Definition joining_server : Node := demo_node "s1" demo_server.

Lemma joining_server_given :
  given (JQ := one_value_json sample_request) (JD := one_value_json (MkJoinRequestDTO "Kg=="))
    (JP := one_value_json (MkJoinResponseDTO (Some joining_server))) answering "Kg==" sample_request
    joining_server.
Proof. split; vm_compute; reflexivity. Qed.

Lemma Join_server_witness :
  ∃ w', Join (R := toy_raymond) (JQ := one_value_json sample_request)
          (JD := one_value_json (MkJoinRequestDTO "Kg=="))
          (JP := one_value_json (MkJoinResponseDTO (Some joining_server))) sample_paths (λ _ _, None)
          answering "Kg==" fresh_world = (Ret true, w') ∧
        rows (w_nodes w') !! "s1" = Some (set_IsCurrentNode true joining_server).
Proof.
  destruct (@Join_server _ _ _ _ _ toy_raymond _ (one_value_json sample_request)
    (one_value_json (MkJoinRequestDTO "Kg=="))
    (one_value_json (MkJoinResponseDTO (Some joining_server))) sample_paths (λ _ _, None) answering
    "Kg==" sample_request joining_server demo_subnet fresh_world (Ret tt)
    (EnsureDockerNetworkExistsAndAttached demo_daemon demo_subnet []).2 joining_server_given)
    as [_ Hok].
  - vm_compute. reflexivity.
  - vm_compute. reflexivity.
  - exact demo_subnet_v4.
  - exact I.
  - vm_compute. discriminate.
  - intros k y Hy. vm_compute in Hy. discriminate Hy.
  - apply run_outcome. vm_compute. reflexivity.
  - destruct (Hok (SaveConfigs (R := toy_raymond) sample_paths (set_IsCurrentNode true joining_server)
      [] true sample_disk).2 eq_refl) as (w' & Hrun & Hrows & _).
    { apply run_outcome. vm_compute. reflexivity. }
    exists w'. split; [exact Hrun|]. rewrite Hrows. exact (lookup_insert_eq _ _ _).
Defined.
