(* ===== verification/LocalService.v ===== *)
(** * [internal/commands/local_service.go]: publishing services on the gateway *)
From S2P Require Import Prelude GoStrings GoNet Mtls NodeTypes Gorm.
From S2P Require Import NodesRepo PublicServices NodeConfigs JoinStore NetworkApps.
From S2P Require Import NodesNetwork NodesRefresh NodesDemo World.

Section local_service.
  Context `{GN : Gorm string Node} `{GS : Gorm ServiceKey PublicService}
    `{GR : Gorm string JoinRequest} `{GT : Gorm string JoinToken} `{R : Raymond}.
  Context (paths : ConfigPaths) (sh : nat → string → option string).

Definition ruler : string := Repeat "=" 80 +:+ newline.

(** The stretch the four changing commands share: the gateway node, all services, its
    configuration files, Caddy; [k] prints the good news. *)
Definition apply_services (k : M World unit) : M World unit :=
  or_complain "Error getting gateway node: " (on_nodes (query GetGatewayNode)) (λ gatewayNode,
  or_complain "Failed to list services: " (on_services (query GetAllServices)) (λ publicServices,
  or_complain "Error saving gateway node configs: "
    (match gatewayNode with
     | Some n => on_disk (SaveConfigs paths n publicServices false)
     | None => lift (Panic "nil pointer dereference: gatewayNode")
     end) (λ _,
  or_complain "Error restarting services: "
    (on_host (RestartNetworkApps paths sh false false true)) (λ _, k)))).

Definition published_text (localProtocol localHost : string) (localPort : Z)
    (publicProtocol publicHost : string) (publicPort : Z) : string :=
  "✅ Service " +:+ address localProtocol localHost localPort +:+
  " is now published on" +:+ newline +:+ newline +:+ tab +:+ tab +:+
  address publicProtocol publicHost publicPort +:+ newline +:+ newline +:+ newline.

(** [s.ServicePublish(..)] *)
Definition ServicePublish (requestFromNodeID : option string)
    (localProtocol localHost : string) (localPort : Z)
    (publicProtocol publicHost : string) (publicPort : Z) : M World unit :=
  or_complain "Error creating public service: "
    (on_services (SaveService (MkPublicService requestFromNodeID localProtocol localHost localPort
                                 publicProtocol publicHost publicPort []))) (λ _,
  apply_services
    (print_out (published_text localProtocol localHost localPort publicProtocol publicHost
                  publicPort))).

(** [s.ServiceUnpublish(..)] *)
Definition ServiceUnpublish (publicProtocol publicHost : string) (publicPort : Z) : M World unit :=
  serviceDeleted ← on_services (DeleteService (publicProtocol, publicHost, publicPort));
  if serviceDeleted : bool then
    apply_services
      (print_out ("✅ Service " +:+ address publicProtocol publicHost publicPort +:+
                  " is now unpublished" +:+ newline))
  else
    print_out ("❌ Service " +:+ address publicProtocol publicHost publicPort +:+
               " was not found or was already unpublished earliner" +:+ newline).

Definition service_line (service : PublicService) : string :=
  address (PublicProtocol service) (PublicHost service) (PublicPort service) +:+ tab +:+ "->" +:+
  tab +:+ address (LocalProtocol service) (LocalHost service) (LocalPort service) +:+ newline.

(** [s.ServiceList(..)] *)
Definition ServiceList : M World unit :=
  or_complain "Failed to list services: " (on_services (query GetAllServices)) (λ services,
  _ ← print_out ("PUBLIC" +:+ tab +:+ "->" +:+ tab +:+ "LOCAL" +:+ newline);
  _ ← print_out ruler;
  if bool_decide (services = [])
  then print_out ("No services are published on the gateway." +:+ newline +:+
                  "Use 'wireport service publish' to publish a new service." +:+ newline)
  else foreach (λ service, print_out (service_line service)) services).

(** [s.ServiceParamNew(..)] and [s.ServiceParamRemove(..)] *)
Definition ServiceParamNew (publicProtocol publicHost : string) (publicPort : Z)
    (paramType : PublicServiceParamType) (paramValue : string) : M World unit :=
  added ← on_services (AddParam (publicProtocol, publicHost, publicPort) paramType paramValue);
  if added : bool then
    apply_services
      (print_out ("✅ Parameter '" +:+ paramValue +:+ "' successfully added to service " +:+
                  address publicProtocol publicHost publicPort +:+ newline))
  else
    print_out ("❌ Parameter '" +:+ paramValue +:+ "' was not added to service " +:+
               address publicProtocol publicHost publicPort +:+ " (probably already exists)" +:+
               newline).
Definition ServiceParamRemove (publicProtocol publicHost : string) (publicPort : Z)
    (paramType : PublicServiceParamType) (paramValue : string) : M World unit :=
  removed ← on_services (RemoveParam (publicProtocol, publicHost, publicPort) paramType paramValue);
  if removed : bool then
    apply_services
      (print_out ("✅ Parameter '" +:+ paramValue +:+ "' successfully removed from service " +:+
                  address publicProtocol publicHost publicPort +:+ newline))
  else
    print_out ("❌ Parameter '" +:+ paramValue +:+ "' was not removed from service " +:+
               address publicProtocol publicHost publicPort +:+ " (probably not found)" +:+
               newline).

(** [s.ServiceParamList(..)] *)
Definition ServiceParamList (publicProtocol publicHost : string) (publicPort : Z) : M World unit :=
  or_complain "Error getting service: "
    (on_services (query (GetService (publicProtocol, publicHost, publicPort)))) (λ service,
  _ ← print_out ("SERVICE PARAMS: " +:+ address (PublicProtocol service) (PublicHost service)
                   (PublicPort service) +:+ newline);
  _ ← print_out ruler;
  _ ← (if bool_decide (Params service = [])
       then print_out ("No params are set for this service" +:+ newline +:+
                       "Use 'wireport service param new' to add a new param." +:+ newline)
       else foreach (λ param, print_out (ParamValue param +:+ newline)) (Params service));
  print_out newline).
End local_service.

(** ** Properties *)

Section properties.
  Context {GN : Gorm string Node} {LN : GormLaws string Node}
    {GS : Gorm ServiceKey PublicService} {LS : GormLaws ServiceKey PublicService}
    {GR : Gorm string JoinRequest} {GT : Gorm string JoinToken} {R : Raymond}.
  Context (paths : ConfigPaths) (sh : nat → string → option string).

(** A gateway [gw] in working order: its tables and disk do what they are asked, its
    templates render, and the shell commands succeed. *)
Record working (w : World) (gw : Node) (tpl : Template) (resolv coredns : string) : Prop := {
  wk_network : ok (w_nodes w);
  wk_nodes : healthy (w_nodes w);
  wk_gateway : is_gateway_of (w_nodes w) gw;
  wk_services : healthy (w_services w);
  wk_resolv : GetFormattedResolvConfig gw = Ret resolv;
  wk_coredns : GetFormattedCoreDNSConfig gw = Ret coredns;
  wk_template : ∃ text, ReadTemplate CaddyConfigTemplatePath = Ret text ∧ ParseTemplate text = Ret tpl;
  wk_renders : ∀ l4 l7, ∃ y, ExecTemplate tpl (CaddyData gw l4 l7) = Ret y;
  wk_disk : ∀ p, disk_broken (host_disk (w_host w)) p = None;
  wk_shell : ∀ n c, sh n c = None;
}.

Lemma GetAllServices_all (t : Table (Gorm := GS)) :
  healthy t → ∃ l, GetAllServices t = Ret l ∧ l ≡ₚ values (rows t).
Proof.
  intros Ht. destruct (find_ok (λ _, true) t Ht) as [l Hl]. exists l. unfold GetAllServices.
  rewrite Hl. split; [done|]. apply find_rows in Hl. rewrite Hl.
  enough (∀ xs : list PublicService, List.filter (λ _, true) xs = xs) as Hall by by rewrite Hall.
  induction xs as [|x xs IH]; cbn; congruence.
Qed.

(** The world after the gateway's files are written and Caddy is reloaded. *)
Definition applied (w : World) (gw : Node) (resolv coredns : string) (caddy : option string)
    : World :=
  let files := saved_files paths gw resolv coredns caddy (disk_files (host_disk (w_host w))) in
  with_host
    (MkHost (MkDisk files (disk_broken (host_disk (w_host w))))
       (host_ran (w_host w) ++
        if bool_decide (is_Some (files !! CaddyConfigPath paths))
        then [CaddyRestartCommand (CaddyConfigPath paths)] else [])) w.

Lemma reload_caddy h :
  (∀ n c, sh n c = None) →
  RestartNetworkApps paths sh false false true h
  = (Ret tt, MkHost (host_disk h)
       (host_ran h ++ if present (CaddyConfigPath paths) (host_disk h)
                      then [CaddyRestartCommand (CaddyConfigPath paths)] else [])).
Proof.
  intros Hsh. destruct h as [d ran]. unfold RestartNetworkApps, restart_app.
  unfold mbind, M_bind, mret, M_ret, get, attempt, RunShell. cbn [host_disk host_ran].
  destruct (present _ d); [by rewrite Hsh|by rewrite app_nil_r].
Qed.

Lemma apply_services_runs w gw tpl resolv coredns k :
  working w gw tpl resolv coredns →
  ∃ l, l ≡ₚ values (rows (w_services w)) ∧
    ∀ caddy, or_nil (GetFormattedCaddyConfig gw l) = Ret caddy →
      apply_services paths sh k w = k (applied w gw resolv coredns caddy).
Proof.
  intros Hw. destruct (GetAllServices_all (w_services w)) as (l & Hl & Hperm);
    [apply Hw|].
  exists l. split; [done|]. intros caddy Hc. unfold apply_services.
  erewrite or_complain_Ret; [|apply on_part_Ret, query_Ret; unfold GetGatewayNode;
    by rewrite (first_gateway _ gw) by apply Hw].
  erewrite or_complain_Ret by (apply on_part_Ret, query_Ret; exact Hl).
  erewrite or_complain_Ret; [|apply on_part_Ret;
    apply (SaveConfigs_gateway paths gw l (host_disk (w_host w)) resolv coredns caddy);
    [apply (wk_gateway _ _ _ _ _ Hw)|apply Hw|apply Hw|exact Hc|apply Hw]].
  erewrite or_complain_Ret by (apply on_part_Ret, reload_caddy; apply Hw).
  by destruct w.
Qed.

Lemma working_services w gw tpl resolv coredns t :
  working w gw tpl resolv coredns → healthy t → working (with_services t w) gw tpl resolv coredns.
Proof. intros [] Ht. by split. Qed.

(** The Caddyfile on disk is the template's text for the entries of these services, in
    some order. *)
Definition caddy_serves (gw : Node) (tpl : Template) (e : PublicService → string)
    (services : gmap ServiceKey PublicService) (files : gmap string string) : Prop :=
  ∃ l y, l ≡ₚ values services ∧ files !! CaddyConfigPath paths = Some y ∧
    ExecTemplate tpl (CaddyData gw (map e (List.filter is_layer4 l))
                        (map e (List.filter (λ s, negb (is_layer4 s)) l))) = Ret y.

(** The end of a changing command: when all stored services have entries the Caddyfile
    serves them and Caddy is reloaded. *)
Lemma apply_services_serves w gw tpl resolv coredns k e :
  working w gw tpl resolv coredns →
  (∀ key s, rows (w_services w) !! key = Some s →
    AsCaddyConfigEntry (node_GatewayPublicIP gw) s = Ret (e s)) →
  ∃ w', apply_services paths sh k w = k w' ∧ working w' gw tpl resolv coredns ∧
    w_services w' = w_services w ∧
    caddy_serves gw tpl e (rows (w_services w)) (disk_files (host_disk (w_host w'))) ∧
    host_ran (w_host w') = host_ran (w_host w) ++ [CaddyRestartCommand (CaddyConfigPath paths)] ∧
    w_out w' = w_out w ∧ w_err w' = w_err w.
Proof.
  intros Hw He. destruct (apply_services_runs w gw tpl resolv coredns k Hw) as (l & Hl & Hrun).
  destruct (wk_template _ _ _ _ _ Hw) as (text & Ht & Hp).
  assert (∀ s, s ∈ l → AsCaddyConfigEntry (node_GatewayPublicIP gw) s = Ret (e s)) as Hent.
  { intros s Hs. rewrite Hl in Hs. apply elem_of_values in Hs as [key Hs]. by eapply He. }
  pose proof (GetFormattedCaddyConfig_all gw l text tpl e (proj2 (wk_gateway _ _ _ _ _ Hw)) Ht Hp
    Hent) as Hc.
  destruct (wk_renders _ _ _ _ _ Hw (map e (List.filter is_layer4 l))
    (map e (List.filter (λ s, negb (is_layer4 s)) l))) as [y Hy].
  rewrite Hy in Hc. exists (applied w gw resolv coredns (Some y)).
  assert (saved_files paths gw resolv coredns (Some y) (disk_files (host_disk (w_host w)))
    !! CaddyConfigPath paths = Some y) as Hfile by apply lookup_insert_eq.
  split; [apply Hrun; by rewrite Hc|]. split; [destruct Hw; by split|]. split; [done|].
  split; [by exists l, y|]. split; [|done]. cbn -[saved_files].
  by rewrite bool_decide_eq_true_2 by by rewrite Hfile.
Qed.

(** C20: on a working gateway, publishing a service stores it, rewrites the Caddyfile from
    the entries of all services, reloads Caddy once and says so, as long as every
    service has an entry. *)
Theorem ServicePublish_publishes w gw tpl resolv coredns e by_ lp lh lport pp ph pport :
  let service := MkPublicService by_ lp lh lport pp ph pport [] in
  let services := <[(pp, ph, pport) := service]> (rows (w_services w)) in
  working w gw tpl resolv coredns → pk_zero (pp, ph, pport) = false →
  (∀ key s, services !! key = Some s →
    AsCaddyConfigEntry (node_GatewayPublicIP gw) s = Ret (e s)) →
  ∃ w', ServicePublish paths sh by_ lp lh lport pp ph pport w = (Ret tt, w') ∧
    working w' gw tpl resolv coredns ∧ rows (w_services w') = services ∧
    caddy_serves gw tpl e services (disk_files (host_disk (w_host w'))) ∧
    host_ran (w_host w') = host_ran (w_host w) ++ [CaddyRestartCommand (CaddyConfigPath paths)] ∧
    w_out w' = w_out w +:+ published_text lp lh lport pp ph pport ∧ w_err w' = w_err w.
Proof.
  intros service services Hw Hz He. unfold ServicePublish. fold service.
  destruct (SaveService_row (w_services w) service (wk_services _ _ _ _ _ Hw) Hz)
    as (t & Hs & Ht & Hr).
  erewrite or_complain_Ret by (apply on_part_Ret; exact Hs). cbn beta.
  set (k := print_out _).
  destruct (apply_services_serves (with_services t w) gw tpl resolv coredns k e)
    as (w1 & Hrun & Hw1 & Hsv & Hc & Hran & Ho & Herr);
    [by apply working_services|cbn; rewrite Hr; exact He|].
  rewrite Hrun. eexists. split; [reflexivity|]. cbn in Hsv, Hc, Hran, Ho, Herr.
  rewrite Hr in Hc. split; [destruct Hw1; by split|]. cbn. rewrite Hsv, Ho, Herr. done.
Qed.

(** Unpublishing a service removes it, rewrites the Caddyfile from the entries of the
    services that are left and reloads Caddy; of a service that is not there it says so
    and changes nothing. *)
Theorem ServiceUnpublish_removes w gw tpl resolv coredns e pp ph pport :
  let services := delete (pp, ph, pport) (rows (w_services w)) in
  working w gw tpl resolv coredns →
  (∀ key s, services !! key = Some s →
    AsCaddyConfigEntry (node_GatewayPublicIP gw) s = Ret (e s)) →
  ∃ w', ServiceUnpublish paths sh pp ph pport w = (Ret tt, w') ∧
    working w' gw tpl resolv coredns ∧ rows (w_services w') = services ∧ w_err w' = w_err w ∧
    (is_Some (rows (w_services w) !! (pp, ph, pport)) →
      caddy_serves gw tpl e services (disk_files (host_disk (w_host w'))) ∧
      host_ran (w_host w')
      = host_ran (w_host w) ++ [CaddyRestartCommand (CaddyConfigPath paths)]) ∧
    (rows (w_services w) !! (pp, ph, pport) = None → w_host w' = w_host w).
Proof.
  intros services Hw He. unfold ServiceUnpublish.
  destruct (DeleteService_row (w_services w) (pp, ph, pport) (wk_services _ _ _ _ _ Hw))
    as (t & Hd & Ht & Hr).
  erewrite M_bind_Ret by (apply on_part_Ret; exact Hd). case_bool_decide as Hin; cbn beta iota.
  - set (k := print_out _).
    destruct (apply_services_serves (with_services t w) gw tpl resolv coredns k e)
      as (w1 & Hrun & Hw1 & Hsv & Hc & Hran & Ho & Herr);
      [by apply working_services|cbn; rewrite Hr; exact He|].
    rewrite Hrun. eexists. split; [reflexivity|]. cbn in Hsv, Hc, Hran, Ho, Herr.
    rewrite Hr in Hc. split; [destruct Hw1; by split|]. cbn. rewrite Hsv, Herr.
    repeat (split; [done|]). intros Hn. by apply eq_None_not_Some in Hn.
  - eexists. split; [reflexivity|]. cbn. split; [destruct Hw; by split|].
    repeat (split; [done|]). done.
Qed.

(** A service without a Caddy entry is published all the same: it is stored, the
    success message is printed and nothing is complained of, but the Caddyfile keeps its
    old text, whatever other services there are. *)
Theorem ServicePublish_without_entry w gw tpl resolv coredns by_ lp lh lport pp ph pport err :
  let service := MkPublicService by_ lp lh lport pp ph pport [] in
  working w gw tpl resolv coredns → pk_zero (pp, ph, pport) = false →
  AsCaddyConfigEntry (node_GatewayPublicIP gw) service = Throw err →
  CaddyConfigPath paths ∉ [WireguardConfigPath paths; ResolvConfigPath paths; CoreDNSConfigPath paths] →
  ∃ w', ServicePublish paths sh by_ lp lh lport pp ph pport w = (Ret tt, w') ∧
    rows (w_services w') = <[(pp, ph, pport) := service]> (rows (w_services w)) ∧
    disk_files (host_disk (w_host w')) !! CaddyConfigPath paths
    = disk_files (host_disk (w_host w)) !! CaddyConfigPath paths ∧
    w_out w' = w_out w +:+ published_text lp lh lport pp ph pport ∧ w_err w' = w_err w.
Proof.
  intros service Hw Hz He Hpath. unfold ServicePublish. fold service.
  destruct (SaveService_row (w_services w) service (wk_services _ _ _ _ _ Hw) Hz)
    as (t & Hs & Ht & Hr).
  erewrite or_complain_Ret by (apply on_part_Ret; exact Hs). cbn beta.
  destruct (apply_services_runs (with_services t w) gw tpl resolv coredns
    (print_out (published_text lp lh lport pp ph pport))) as (l & Hl & Hrun);
    [by apply working_services|].
  destruct (wk_template _ _ _ _ _ Hw) as (text & Hrd & Hp).
  destruct (GetFormattedCaddyConfig_none gw l text tpl service err
    (proj2 (wk_gateway _ _ _ _ _ Hw)) Hrd Hp) as [e Hnone]; [|done|].
  { rewrite Hl. apply elem_of_values. exists (pp, ph, pport). cbn [with_services w_services].
    by rewrite Hr, lookup_insert_eq. }
  rewrite (Hrun None) by by rewrite Hnone.
  eexists. split; [reflexivity|]. cbn. repeat split; try done.
  rewrite !elem_of_cons in Hpath. by rewrite !lookup_insert_ne by naive_solver.
Qed.
End properties.

(** ** At work *)

(** The demo gateway with one published service. *)
Definition demo_gateway_node : Node := demo_node "gw" demo_gateway.
Definition demo_world : World :=
  MkWorld demo_gateway one_service no_requests no_tokens (MkHost sample_disk []) "" "" [] [] no_remote.

Lemma demo_working :
  working (λ _ _, None) demo_world demo_gateway_node CaddyConfigTemplatePath
    "configs/resolv/resolv.hbs gw" "configs/coredns/corefile.hbs gw".
Proof.
  split.
  - exact demo_gateway_ok.
  - exact I.
  - split; vm_compute; reflexivity.
  - exact I.
  - vm_compute. reflexivity.
  - vm_compute. reflexivity.
  - exact (ex_intro _ CaddyConfigTemplatePath (conj eq_refl eq_refl)).
  - intros l4 l7. exact (ex_intro _ _ eq_refl).
  - exact (λ _, eq_refl).
  - exact (λ _ _, eq_refl).
Qed.

(** The entries of the services the gateway has, of one to come, and of no other. *)
Definition web_service : PublicService :=
  MkPublicService (Some "s1") "http" "web" 80 "https" "example.com" 443 [].
Definition entry_of (s : PublicService) : string :=
  match AsCaddyConfigEntry (node_GatewayPublicIP demo_gateway_node) s with Ret e => e | _ => "" end.

Lemma demo_entries (m : gmap ServiceKey PublicService) :
  forallb (λ s, match AsCaddyConfigEntry (node_GatewayPublicIP demo_gateway_node) s with
                | Ret _ => true | _ => false end) (values m) = true →
  ∀ key s, m !! key = Some s →
    AsCaddyConfigEntry (node_GatewayPublicIP demo_gateway_node) s = Ret (entry_of s).
Proof.
  intros Hall key s Hs. rewrite forallb_forall in Hall.
  specialize (Hall s). unfold entry_of. destruct (AsCaddyConfigEntry _ s); [done|..];
    (assert (false = true); [|done]); apply Hall, list_elem_of_In, elem_of_values; by exists key.
Qed.

Lemma ServicePublish_publishes_witness :
  ∃ w', ServicePublish sample_paths (λ _ _, None) (Some "s1") "http" "web" 80 "https" "example.com"
          443 demo_world = (Ret tt, w') ∧
        rows (w_services w') !! ("https", "example.com", 443) = Some web_service ∧
        host_ran (w_host w') = [CaddyRestartCommand "/etc/caddy/Caddyfile"].
Proof.
  destruct (ServicePublish_publishes (R := toy_raymond) sample_paths (λ _ _, None) demo_world demo_gateway_node
    CaddyConfigTemplatePath _ _ entry_of (Some "s1") "http" "web" 80 "https" "example.com" 443
    demo_working eq_refl) as (w' & Hrun & _ & Hr & _ & Hran & _).
  - apply demo_entries. vm_compute. reflexivity.
  - refine (ex_intro _ w' (conj Hrun (conj _ Hran))). rewrite Hr. exact (lookup_insert_eq _ _ _).
Defined.

Lemma ServiceUnpublish_removes_witness :
  ∃ w', ServiceUnpublish sample_paths (λ _ _, None) "tcp" "127.0.0.1" 8080 demo_world = (Ret tt, w') ∧
        host_ran (w_host w') = [CaddyRestartCommand "/etc/caddy/Caddyfile"].
Proof.
  destruct (ServiceUnpublish_removes (R := toy_raymond) sample_paths (λ _ _, None) demo_world demo_gateway_node
    CaddyConfigTemplatePath _ _ entry_of "tcp" "127.0.0.1" 8080 demo_working)
    as (w' & Hrun & _ & _ & _ & Hthere & _).
  - apply demo_entries. vm_compute. reflexivity.
  - refine (ex_intro _ w' (conj Hrun (proj2 (Hthere _)))).
    exists sample_service. vm_compute. reflexivity.
Defined.

Lemma ServicePublish_without_entry_witness :
  ∃ w', ServicePublish sample_paths (λ _ _, None) None "udp" "10.0.0.2" 53 "tcp" "example.com" 53
          demo_world = (Ret tt, w') ∧
        disk_files (host_disk (w_host w')) !! "/etc/caddy/Caddyfile" = Some "old" ∧
        w_err w' = "".
Proof.
  destruct (ServicePublish_without_entry (R := toy_raymond) sample_paths (λ _ _, None) demo_world demo_gateway_node
    CaddyConfigTemplatePath _ _ None "udp" "10.0.0.2" 53 "tcp" "example.com" 53
    (Errorf "for layer 4, local protocol and public protocol must be the same (udp -> udp or tcp -> tcp)")
    demo_working eq_refl eq_refl) as (w' & Hrun & _ & Hf & _ & Herr).
  - rewrite !not_elem_of_cons. repeat split; (discriminate || apply not_elem_of_nil).
  - exact (ex_intro _ w' (conj Hrun (conj Hf Herr))).
Defined.
