(* ===== verification/LocalNodes.v ===== *)
(** * [internal/commands]: the commands on servers and clients that run on the gateway

    [local_server.go] and [local_client.go] as far as they work on the database: the new
    server, the new client, the lists and the labels. *)
From S2P Require Import Prelude GoStrings GoNet Mtls NodeTypes Gorm.
From S2P Require Import NodesRepo PublicServices NodeConfigs JoinStore NetworkApps.
From S2P Require Import NodesNetwork NodesRefresh NodesDemo.
From S2P Require Import Base64 Aes GoFormat JoinClient World LocalService.

(** What a command that creates something draws from outside: [CreateServer]'s needs,
    the random bytes of a request's key, and the time. *)
Record CommandEnv : Type := MkCommandEnv {
  ce_create : CreateEnv;
  ce_random : nat → Out (list Z);
  ce_now : Z;
}.

Section local_nodes.
  Context `{GN : Gorm string Node} `{GS : Gorm ServiceKey PublicService}
    `{GR : Gorm string JoinRequest} `{GT : Gorm string JoinToken} `{R : Raymond}
    `{JQ : Json JoinRequest} `{X : X509}.
  Context (paths : ConfigPaths) (sh : nat → string → option string).

(** A new join request for a node of this role: a client certificate under a new name,
    the gateway with it saved, the request stored and put into words. *)
Definition new_join_request (env : CommandEnv) (gatewayNode : Node) (role : NodeRole)
    (dockerSubnet : option string) (k : string → M World unit) : M World unit :=
  let joinRequestID := env_uuid (ce_create env) in
  match node_GatewayCertBundle gatewayNode with
  | None => lift (Panic "nil pointer dereference: GatewayCertBundle")
  | Some b =>
      or_complain "Failed to add client to gateway cert bundle: "
        (lift (AddClient (env_seed (ce_create env)) (env_clock (ce_create env) 0%nat)
                 (MkOptions joinRequestID CertExpiry [] []) b)) (λ b',
      let gatewayNode := set_GatewayCertBundle (Some b') gatewayNode in
      or_complain "Failed to save gateway node: " (on_nodes (SaveNode gatewayNode)) (λ _,
      or_complain "Failed to get client cert bundle: "
        (lift (GetClientBundlePublic joinRequestID b')) (λ clientCertBundle,
      match node_WGPublicIP gatewayNode with
      | None => lift (Panic "nil pointer dereference: WGPublicIP")
      | Some host =>
          or_complain "Failed to create join request: "
            (on_requests (CreateRequest (ce_random env) (ce_now env) joinRequestID host
                            ControlServerPort dockerSubnet role clientCertBundle)) (λ joinRequest,
          or_complain "Failed to encode join request: " (lift (ToBase64 joinRequest)) k)
      end)))
  end.

(** The node at once, or an invitation for it. *)
Definition create_or_invite (env : CommandEnv) (forceServerCreation quietServerCreation : bool)
    (dockerSubnetPtr : option string) : M World unit :=
  if forceServerCreation then
    or_complain "Failed to create server node: "
      (on_nodes (CreateServer (ce_create env) dockerSubnetPtr)) (λ _,
    if quietServerCreation then mret tt
    else print_out ("Server node created" +:+ newline))
  else
    or_complain "Failed to get gateway node: " (on_nodes (query GetGatewayNode))
      (λ gatewayNode,
    match gatewayNode with
    | None => lift (Panic "nil pointer dereference: gatewayNode")
    | Some gatewayNode =>
        new_join_request env gatewayNode NodeRoleServer dockerSubnetPtr (λ joinRequestBase64,
          if quietServerCreation then print_out (joinRequestBase64 +:+ newline)
          else print_out ("✅ Server created, execute the command below on the server to join the network:" +:+
                 newline +:+ newline +:+ "wireport join " +:+ joinRequestBase64 +:+ newline))
    end).

(** [s.ServerNew(..)] *)
Definition ServerNew (env : CommandEnv) (forceServerCreation quietServerCreation : bool)
    (dockerSubnet : string) : M World unit :=
  or_complain "Failed to count available Docker subnets: "
    (on_nodes (query TotalAndAvailableDockerSubnets))
    (λ '(totalDockerSubnets, availableDockerSubnets),
  totalServerRoleJoinRequests ← on_requests (query CountServerJoinRequests);
  if (availableDockerSubnets <=? 0) || (availableDockerSubnets <=? totalServerRoleJoinRequests)
  then print_err ("No Docker subnets available. Please delete some server nodes (total used: " +:+
         Itoa totalDockerSubnets +:+ ") or server join-requests (total used: " +:+
         Itoa totalServerRoleJoinRequests +:+ ") to free up some subnets." +:+ newline)
  else
    or_complain "Failed to count available WireGuard clients: "
      (on_nodes (query TotalAvailableWireguardClients))
      (λ '(totalWireguardClients, availableWireguardClients),
    totalJoinRequests ← on_requests (query CountAllRequests);
    if (availableWireguardClients <=? 0) || (availableWireguardClients <=? totalJoinRequests)
    then print_err ("No WireGuard clients available. Please delete some client/server nodes (total used: " +:+
           Itoa totalWireguardClients +:+ ") or client/server join-requests (total used: " +:+
           Itoa totalJoinRequests +:+ ") to free up some clients." +:+ newline)
    else
      let create := create_or_invite env forceServerCreation quietServerCreation in
      if bool_decide (dockerSubnet = "") then create None
      else
        or_complain "Failed to parse Docker subnet: "
          (lift (ParseIPNetMarshable dockerSubnet true)) (λ parsedDockerSubnet,
        free ← on_nodes (query (IsDockerSubnetAvailable parsedDockerSubnet));
        if negb free
        then print_err ("Docker subnet " +:+ dockerSubnet +:+ " is already in use" +:+ newline)
        else
          _ ← (if quietServerCreation then mret tt
               else print_out ("Using custom Docker subnet: " +:+ dockerSubnet +:+ newline));
          create (Some dockerSubnet)))).

(** [s.ServerRemove(..)] *)
Definition ServerRemove (serverNodeID : string) : M World unit :=
  or_complain ("Failed to remove server node '" +:+ serverNodeID +:+ "': ")
    (on_nodes (DeleteServer serverNodeID)) (λ _,
  print_out ("Server node '" +:+ serverNodeID +:+ "' removed successfully" +:+ newline)).

(** The star behind the requesting node's own address. *)
Definition own_star (requestFromNodeID : option string) (n : Node) : string :=
  match requestFromNodeID with
  | Some id => if bool_decide (node_ID n = id) then "*" else ""
  | None => ""
  end.
Definition node_address (n : Node) : string := IPNet_String (if_Address (wg_Interface (node_WGConfig n))).

Definition server_line (requestFromNodeID : option string) (n : Node) : string :=
  let labels := Join (node_Labels n) ", " in
  pad_right 24 (node_address n +:+ own_star requestFromNodeID n) +:+ " " +:+
  (if bool_decide (labels = "") then "-" else labels) +:+ newline.

(** [s.ServerList(..)] and [s.ClientList(..)] *)
Definition ServerList (requestFromNodeID : option string) : M World unit :=
  or_complain "Error getting nodes: " (on_nodes (query (GetNodesByRole NodeRoleServer)))
    (λ serverNodes,
  _ ← print_out ("SERVER PRIVATE IP       LABELS" +:+ newline);
  _ ← print_out ruler;
  if bool_decide (serverNodes = [])
  then print_out ("No servers are registered on this gateway." +:+ newline +:+
                  "Use 'wireport server new' command to create a new server node join request." +:+
                  newline)
  else foreach (λ n, print_out (server_line requestFromNodeID n)) serverNodes).
Definition ClientList (requestFromNodeID : option string) : M World unit :=
  or_complain "Error getting nodes: " (on_nodes (query (GetNodesByRole NodeRoleClient)))
    (λ clientNodes,
  _ ← print_out ("CLIENT PRIVATE IP" +:+ newline);
  _ ← print_out ruler;
  if bool_decide (clientNodes = [])
  then print_out ("No clients are registered on this gateway" +:+ newline)
  else foreach (λ n, print_out (node_address n +:+ own_star requestFromNodeID n +:+ newline))
         clientNodes).

(** The node a label command is about, or the complaint that there is none. *)
Definition with_server_at (nodeIP : string) (k : Node → M World unit) : M World unit :=
  r ← attempt (on_nodes (query (GetServerByWGPrivateIP nodeIP)));
  match r with
  | inl err =>
      if errors_Is err ErrRecordNotFound
      then print_err ("No server node found with IP " +:+ Quote nodeIP +:+ newline)
      else print_err ("failed to resolve server node: " +:+ error_text err +:+ newline)
  | inr node => k node
  end.

(** [s.NodeLabelAdd(..)] and [s.NodeLabelRemove(..)] *)
Definition NodeLabelAdd (nodeIP label : string) : M World unit :=
  with_server_at nodeIP (λ node,
  or_complain "failed to add label: " (on_nodes (AddLabelToNode (node_ID node) label)) (λ _,
  print_out ("Added label " +:+ Quote label +:+ " to server node " +:+
             Quote (IPToString (node_wg_ip node)) +:+ newline))).
Definition NodeLabelRemove (nodeIP label : string) : M World unit :=
  with_server_at nodeIP (λ node,
  or_complain "failed to remove label: " (on_nodes (RemoveLabelFromNode (node_ID node) label)) (λ _,
  print_out ("Removed label " +:+ Quote label +:+ " from server node " +:+
             Quote (IPToString (node_wg_ip node)) +:+ newline))).

(** The wait for the gateway to come up: a try after each of the seconds left;
    [meanwhile i] is what other processes do to the world in the [i]-th second. *)
Fixpoint wait_for_node (meanwhile : nat → World → World) (quiet : bool) (left_ i : nat) (err : error)
    : M World (error + Node) :=
  match left_ with
  | O => mret (inl err)
  | S left' =>
      w ← get;
      _ ← put (meanwhile i w);
      r ← attempt (on_nodes (query GetCurrentNode));
      match r with
      | inl err => wait_for_node meanwhile quiet left' (S i) err
      | inr n =>
          _ ← (if quiet then mret tt
               else print_out ("Current node found, creating client" +:+ newline));
          mret (inr n)
      end
  end.

(** What [s.ClientNew(..)] does on the gateway: a join request, or a client at once. *)
Definition ClientNew_gateway (env : CommandEnv) (joinRequestClientCreation quietClientCreation : bool)
    (currentNode : Node) : M World unit :=
  or_complain "Failed to count available wireguard clients: "
    (on_nodes (query TotalAvailableWireguardClients))
    (λ '(totalWireguardClients, availableWireguardClients),
  totalJoinRequests ← on_requests (query CountAllRequests);
  if (availableWireguardClients <=? 0) || (availableWireguardClients <=? totalJoinRequests)
  then print_err ("No available wireguard client slots. Please delete some client/server nodes (total used: " +:+
         Itoa totalWireguardClients +:+ ") or client/server join-requests (total used: " +:+
         Itoa totalJoinRequests +:+ ") to free up some wireguard client slots." +:+ newline)
  else if joinRequestClientCreation then
    new_join_request env currentNode NodeRoleClient None (λ joinRequestBase64,
      if quietClientCreation then print_out (joinRequestBase64 +:+ newline)
      else print_out ("New client created, use the following command to connect to the network:" +:+
             newline +:+ newline +:+ "wireport join " +:+ joinRequestBase64 +:+ newline))
  else
    or_complain "Failed to create client: " (on_nodes (CreateClient (ce_create env))) (λ clientNode,
    or_complain "Failed to list services: " (on_services (query GetAllServices)) (λ publicServices,
    or_complain "Failed to get a fresh current node instance after creating client: "
      (on_nodes (query GetCurrentNode)) (λ currentNode,
    or_complain "Failed to save gateway configs: "
      (on_disk (SaveConfigs paths currentNode publicServices false)) (λ _,
    r ← attempt (on_host (RestartNetworkApps paths sh true false false));
    _ ← match r with
        | inl err => print_err ("Failed to restart services: " +:+ error_text err +:+ newline)
        | inr _ => mret tt
        end;
    wireguardConfig ← lift (GetFormattedWireguardConfig clientNode);
    _ ← (if quietClientCreation then mret tt
         else
           _ ← print_out ("# New wireport client has been successfully created!" +:+ newline);
           print_out ("# Use the WireGuard config below on your client device to connect to the wireport network:" +:+
                      newline +:+ newline));
    print_out (wireguardConfig +:+ newline)))))).

(** [s.ClientNew(..)] *)
Definition ClientNew (meanwhile : nat → World → World) (env : CommandEnv)
    (joinRequestClientCreation quietClientCreation waitClientCreation : bool) : M World unit :=
  let go_on (currentNode : Node) : M World unit :=
    if bool_decide (node_Role currentNode = NodeRoleGateway)
    then ClientNew_gateway env joinRequestClientCreation quietClientCreation currentNode
    else mret tt in
  r ← attempt (on_nodes (query GetCurrentNode));
  match r with
  | inr currentNode => go_on currentNode
  | inl err =>
      if negb waitClientCreation
      then print_err ("Current node not found, skipping client creation" +:+ newline)
      else
        r' ← wait_for_node meanwhile quietClientCreation 10 0 err;
        match r' with
        | inr currentNode => go_on currentNode
        | inl err =>
            print_err ("Failed to get current node after waiting and multiple retries: " +:+
                       error_text err +:+ newline)
        end
  end.
End local_nodes.

(** ** Properties *)

Section properties.
  Context {GN : Gorm string Node} {LN : GormLaws string Node} {GS : Gorm ServiceKey PublicService}
    {GR : Gorm string JoinRequest} {LR : GormLaws string JoinRequest} {GT : Gorm string JoinToken}
    {JQ : Json JoinRequest} {LQ : JsonLaws plain_request} {X : X509}.

(** A gateway that can hand out a join request under the name drawn for it. *)
Record can_invite (w : World) (env : CommandEnv) (gw : Node) (b' : FullGatewayBundle)
    (cb : FullClientBundle) (host : string) (key : list Z) : Prop := {
  ci_network : ok (w_nodes w);
  ci_nodes : healthy (w_nodes w);
  ci_gateway : is_gateway_of (w_nodes w) gw;
  ci_certificate : ∃ b, node_GatewayCertBundle gw = Some b ∧
    AddClient (env_seed (ce_create env)) (env_clock (ce_create env) 0%nat)
      (client_options (ce_create env)) b = Ret b';
  ci_bundle : GetClientBundlePublic (env_uuid (ce_create env)) b' = Ret cb;
  ci_host : node_WGPublicIP gw = Some host;
  ci_requests : healthy (w_requests w);
  ci_fresh : rows (w_requests w) !! env_uuid (ce_create env) = None;
  ci_key : ce_random env 32%nat = Ret key;
}.

(** The request it hands out. *)
Definition invitation (env : CommandEnv) (cb : FullClientBundle) (host : string) (key : list Z)
    (role : NodeRole) (subnet : option string) : JoinRequest :=
  MkJoinRequest (env_uuid (ce_create env)) (EncodeToString key) cb subnet host ControlServerPort
    role (ce_now env).

Lemma new_join_request_runs w env gw b' cb host key role subnet text k :
  can_invite w env gw b' cb host key →
  ToBase64 (invitation env cb host key role subnet) = Ret text →
  ∃ tn tr, new_join_request env gw role subnet k w = k text (with_requests tr (with_nodes tn w)) ∧
    healthy tn ∧ healthy tr ∧
    rows tn = <[node_ID gw := set_GatewayCertBundle (Some b') gw]> (rows (w_nodes w)) ∧
    rows tr = <[env_uuid (ce_create env) := invitation env cb host key role subnet]>
                (rows (w_requests w)).
Proof.
  intros [Hok Hn Hgw (b & Hb & Hadd) Hcb Hhost Hr Hfresh Hkey] Htext.
  destruct (save_known (w_nodes w) (set_GatewayCertBundle (Some b') gw)) as (m & tn & Hs & Htn & Hrn & _);
    [done|done|exact (cores_lookup _ _ _ (proj1 Hgw))|].
  destruct (CreateRequest_row (w_requests w) (ce_random env) (ce_now env) (env_uuid (ce_create env))
    host ControlServerPort subnet role cb key Hr Hfresh Hkey) as (tr & Hc & Htr & Hrr).
  exists tn, tr. split; [|done]. unfold new_join_request. rewrite Hb.
  unfold client_options in Hadd.
  erewrite or_complain_Ret by (apply lift_Ret; exact Hadd).
  erewrite or_complain_Ret.
  2: { apply on_part_Ret. unfold SaveNode. by rewrite (M_bind_Ret _ _ _ _ _ Hs). }
  erewrite or_complain_Ret by (apply lift_Ret; exact Hcb).
  cbn [set_GatewayCertBundle node_WGPublicIP]. rewrite Hhost.
  erewrite or_complain_Ret by (apply on_part_Ret; exact Hc).
  by erewrite or_complain_Ret by (apply lift_Ret; exact Htext).
Qed.

(** What has been printed does not matter to what can be handed out. *)
Lemma can_invite_text w env gw b' cb host key out err :
  can_invite w env gw b' cb host key → can_invite (with_text out err w) env gw b' cb host key.
Proof. by intros [? ? ? ? ? ? ? ? ?]. Qed.

(** What is said of a subnet that is asked for, and of the token. *)
Definition says_subnet (quiet : bool) (dockerSubnet : string) : string :=
  if quiet || bool_decide (dockerSubnet = "") then ""
  else "Using custom Docker subnet: " +:+ dockerSubnet +:+ newline.
Definition says_token (quiet : bool) (text : string) : string :=
  if quiet then text +:+ newline
  else "✅ Server created, execute the command below on the server to join the network:" +:+
       newline +:+ newline +:+ "wireport join " +:+ text +:+ newline.

(** The last steps, once everything has been counted. *)
Lemma create_or_invite_runs w env gw b' cb host key quiet subnet text :
  can_invite w env gw b' cb host key →
  ToBase64 (invitation env cb host key NodeRoleServer subnet) = Ret text →
  ∃ tn tr, create_or_invite env false quiet subnet w
    = (Ret tt, with_text (w_out w +:+ says_token quiet text) (w_err w)
                 (with_requests tr (with_nodes tn w))) ∧
    healthy tn ∧ healthy tr ∧
    rows tn = <[node_ID gw := set_GatewayCertBundle (Some b') gw]> (rows (w_nodes w)) ∧
    rows tr = <[env_uuid (ce_create env) := invitation env cb host key NodeRoleServer subnet]>
                (rows (w_requests w)).
Proof.
  intros Hcan Htext.
  destruct (new_join_request_runs w env gw b' cb host key NodeRoleServer subnet text
    (λ joinRequestBase64, if quiet then print_out (joinRequestBase64 +:+ newline)
       else print_out ("✅ Server created, execute the command below on the server to join the network:" +:+
              newline +:+ newline +:+ "wireport join " +:+ joinRequestBase64 +:+ newline)) Hcan Htext)
    as (tn & tr & Hrun & Hrest).
  exists tn, tr. split; [|exact Hrest]. unfold create_or_invite.
  erewrite or_complain_Ret; [|apply on_part_Ret, query_Ret; unfold GetGatewayNode;
    by rewrite (first_gateway _ gw) by apply Hcan].
  cbn beta iota. destruct w as [n sv rq tk h o e sch]. etrans; [exact Hrun|by destruct quiet].
Qed.

(** C21: [wireport server new] without [--force], quiet or not, on a gateway with subnets and
    addresses to spare, and with no subnet or one that reads as a subnet and is nobody's: it
    prints one token, bare when quiet, which reads back as the request that is now stored
    under a fresh name, for a server, with that subnet, and with a certificate of that name
    but without the authority's key; the gateway's own row gets the certificate.  Nothing
    else is changed: not the other nodes and requests, the services, the tokens, the files,
    the scheduled restarts, the docker network or a remote machine.  (Of the JSON form it is
    used that requests whose strings are UTF-8 come back.) *)
Theorem ServerNew_hands_out w env gw b' cb host key quiet subnet text used subnets s nodes slots c :
  let asked := if bool_decide (subnet = "") then None else Some subnet in
  let r := invitation env cb host key NodeRoleServer asked in
  can_invite w env gw b' cb host key → plain_request r = true → ToBase64 r = Ret text →
  (subnet = "" ∨ ∃ d, ParseIPNetMarshable subnet true = Ret d ∧
     IsDockerSubnetAvailable d (w_nodes w) = Ret true) →
  TotalAndAvailableDockerSubnets (w_nodes w) = Ret (used, subnets) →
  CountServerJoinRequests (w_requests w) = Ret s → 0 ≤ s < subnets →
  TotalAvailableWireguardClients (w_nodes w) = Ret (nodes, slots) →
  CountAllRequests (w_requests w) = Ret c → 0 ≤ c < slots →
  ∃ tn tr, ServerNew env false quiet subnet w
    = (Ret tt, with_text (w_out w +:+ says_subnet quiet subnet +:+ says_token quiet text) (w_err w)
                 (with_requests tr (with_nodes tn w))) ∧
    FromBase64 text = Ret r ∧ KeyPEM (cb_RootCA (jr_ClientCertBundle r)) = "" ∧
    rows tr = <[env_uuid (ce_create env) := r]> (rows (w_requests w)) ∧
    rows tn = <[node_ID gw := set_GatewayCertBundle (Some b') gw]> (rows (w_nodes w)).
Proof.
  intros asked r Hcan Hplain Htext Hsubnet Hsub Hs Hs' Hslots Hc Hc'.
  assert (FromBase64 text = Ret r) as Hback by by apply JoinRequest_text.
  assert (KeyPEM (cb_RootCA cb) = "") as Hkey.
  { pose proof (ci_bundle _ _ _ _ _ _ _ Hcan) as Hcb. unfold GetClientBundlePublic in Hcb.
    destruct (client_of _ _); [|done]. by injection Hcb as <-. }
  set (w1 := with_text (w_out w +:+ says_subnet quiet subnet) (w_err w) w).
  destruct (create_or_invite_runs w1 env gw b' cb host key quiet asked text
    (can_invite_text _ _ _ _ _ _ _ _ _ Hcan) Htext) as (tn & tr & Hrun & _ & _ & Hrn & Hrr).
  exists tn, tr. split; [|done].
  trans (create_or_invite env false quiet asked w1).
  2: { rewrite Hrun. destruct w as [? ? ? ? ? o]. cbn. by rewrite str_app_assoc. }
  unfold ServerNew. erewrite or_complain_Ret by (apply on_part_Ret, query_Ret; exact Hsub).
  cbn beta iota. erewrite M_bind_Ret by (apply on_part_Ret, query_Ret; exact Hs).
  rewrite (proj2 (Z.leb_gt subnets 0)), (proj2 (Z.leb_gt subnets s)) by lia. cbn [orb].
  erewrite or_complain_Ret by (apply on_part_Ret, query_Ret; exact Hslots).
  cbn beta iota. erewrite M_bind_Ret by (apply on_part_Ret, query_Ret; exact Hc).
  rewrite (proj2 (Z.leb_gt slots 0)), (proj2 (Z.leb_gt slots c)) by lia. cbn [orb].
  unfold asked, w1, says_subnet. clear Hrun. case_bool_decide as Hempty.
  - rewrite orb_true_r, str_app_nil_r. by destruct w.
  - destruct Hsubnet as [?|(d & Hd & Hfree)]; [done|].
    erewrite or_complain_Ret by (apply lift_Ret; exact Hd). cbn beta.
    erewrite M_bind_Ret by (apply on_part_Ret, query_Ret; exact Hfree). cbn [negb].
    destruct quiet; cbn [orb]; [rewrite str_app_nil_r|]; by destruct w.
Qed.

(** [wireport server new] gives out no more than there is: when the join requests
    already open for servers would use up the free subnets, or all open requests the free
    addresses, it says so and changes nothing, forced or not. *)
Theorem ServerNew_refuses w env force quiet subnet used subnets s nodes slots c :
  TotalAndAvailableDockerSubnets (w_nodes w) = Ret (used, subnets) →
  CountServerJoinRequests (w_requests w) = Ret s → 0 ≤ s →
  TotalAvailableWireguardClients (w_nodes w) = Ret (nodes, slots) →
  CountAllRequests (w_requests w) = Ret c → 0 ≤ c →
  subnets ≤ s ∨ slots ≤ c →
  ∃ complaint, complaint ≠ "" ∧
    ServerNew env force quiet subnet w
    = (Ret tt, with_text (w_out w) (w_err w +:+ complaint) w).
Proof.
  intros Hsub Hs Hs0 Hslots Hc Hc0 Hfull. unfold ServerNew.
  destruct w as [n sv rq tk h o e sch]. cbn in *.
  erewrite or_complain_Ret by (apply on_part_Ret, query_Ret; exact Hsub).
  cbn beta iota. erewrite M_bind_Ret by (apply on_part_Ret, query_Ret; exact Hs).
  destruct ((subnets <=? 0) || (subnets <=? s)) eqn:Eg; [by eexists; split; [|reflexivity]|].
  apply orb_false_iff in Eg as [_ Eg%Z.leb_gt].
  erewrite or_complain_Ret by (apply on_part_Ret, query_Ret; exact Hslots).
  cbn beta iota. erewrite M_bind_Ret by (apply on_part_Ret, query_Ret; exact Hc).
  rewrite (proj2 (Z.leb_le slots c)), orb_true_r by lia. by eexists; split; [|reflexivity].
Qed.
End properties.

(** ** At work *)

(** The demo gateway hands out its first request. *)
Definition demo_command_env : CommandEnv :=
  MkCommandEnv (demo_env "r-1" 40) (λ _, Ret [107; 101; 121]) 9.
Definition demo_invited_bundle : FullGatewayBundle :=
  match node_GatewayCertBundle demo_gateway_node with
  | Some b =>
      match AddClient 40 0 (client_options (ce_create demo_command_env)) b with
      | Ret b' => b' | _ => b end
  | None => MkGatewayBundle no_pem no_pem None 0
  end.
Definition demo_client_bundle : FullClientBundle :=
  match GetClientBundlePublic "r-1" demo_invited_bundle with
  | Ret cb => cb | _ => MkClientBundle no_pem no_pem 0 end.
Definition demo_invitation : JoinRequest :=
  invitation demo_command_env demo_client_bundle "203.0.113.7" [107; 101; 121] NodeRoleServer None.

Lemma demo_can_invite :
  can_invite demo_world demo_command_env demo_gateway_node demo_invited_bundle demo_client_bundle
    "203.0.113.7" [107; 101; 121].
Proof.
  split.
  - exact demo_gateway_ok.
  - exact I.
  - split; vm_compute; reflexivity.
  - eexists. split; vm_compute; reflexivity.
  - vm_compute. reflexivity.
  - vm_compute. reflexivity.
  - exact I.
  - vm_compute. reflexivity.
  - reflexivity.
Qed.

Definition demo_invitation_to (subnet : string) : JoinRequest :=
  invitation demo_command_env demo_client_bundle "203.0.113.7" [107; 101; 121] NodeRoleServer
    (Some subnet).
Lemma ServerNew_hands_out_witness :
  ∃ w', ServerNew (JQ := one_value_json (demo_invitation_to "172.20.0.0/16")) demo_command_env false
          false "172.20.0.0/16" demo_world = (Ret tt, w') ∧
    w_services w' = w_services demo_world ∧
    rows (w_requests w') !! "r-1" = Some (demo_invitation_to "172.20.0.0/16").
Proof.
  destruct (@ServerNew_hands_out _ _ _ _ _ _ (one_value_json (demo_invitation_to "172.20.0.0/16"))
    (one_value_json_laws (demo_invitation_to "172.20.0.0/16") _) _ demo_world demo_command_env
    demo_gateway_node demo_invited_bundle demo_client_bundle "203.0.113.7" [107; 101; 121] false
    "172.20.0.0/16" "Kg==" 1 11 0 1 253 0 demo_can_invite)
    as (tn & tr & Hrun & _ & _ & Hr & _).
  1-2, 4-5, 7-8: vm_compute; reflexivity.
  2-3: split; [discriminate|reflexivity].
  1: right; eexists; split; vm_compute; reflexivity.
  refine (ex_intro _ _ (conj Hrun (conj eq_refl _))).
  cbn [w_requests with_text with_requests with_nodes]. rewrite Hr. exact (lookup_insert_eq _ _ _).
Defined.

(** The network in which every address is taken. *)
Definition full_world : World :=
  MkWorld demo_full one_service no_requests no_tokens (MkHost sample_disk []) "" "" [] [] no_remote.
Lemma ServerNew_refuses_witness :
  ∃ complaint, complaint ≠ "" ∧
    ServerNew (JQ := one_value_json demo_invitation) demo_command_env false true "" full_world
    = (Ret tt, with_text "" complaint full_world).
Proof.
  refine (@ServerNew_refuses _ _ _ _ (one_value_json demo_invitation) _ full_world
    demo_command_env false true "" 1 11 0 254 0 0 _ _ _ _ _ _ _).
  all: try (vm_compute; reflexivity).
  all: try discriminate.
  right. discriminate.
Defined.
