(* ===== verification/ApiCommands.v ===== *)
(** * [internal/commands/api_commands_service.go]: commands sent to the gateway

    A node that is not the gateway sends its commands over HTTP with its client
    certificate.  The transport is a parameter. *)
From S2P Require Import Prelude GoStrings GoNet Mtls NodeTypes PublicServices.
From S2P Require Import Aes GoFormat CommandTypes.

Record APICommandsService : Type := MkAPI {
  api_Host : string;
  api_Port : Z;
  api_ClientCertBundle : option FullClientBundle;
}.

(** What [http.NewRequest], [client.Do] and [io.ReadAll] make of a request. *)
Inductive HttpResult : Type :=
| NoRequest (err : string)
| NoResponse (err : string)
| NoBody (err : string)
| HttpResponse (StatusCode : Z) (body : list Z).

(** The transport: the client's TLS side, the URL and the request body. *)
Definition Transport : Type := TLSConfig → string → list Z → HttpResult.

(** [fmt.Errorf("<text>: %v", err)] *)
Definition explain {A} (text : string) (o : Out A) : Out A :=
  match o with
  | Throw e => Throw (Errorf (text +:+ ": " +:+ error_text e))
  | _ => o
  end.

Section api.
  Context `{X : X509} (http : Transport).

(** [makeSecureRequestWithResponse]; the method is always POST. *)
Definition makeSecureRequestWithResponse {RequestType ResponseType : Type}
    `{Json RequestType} `{Json ResponseType} (api : APICommandsService) (endpoint : string)
    (request : RequestType) : Out ResponseType :=
  requestBody ← explain "failed to marshal request body" (json_Marshal request);
  tlsConfig ← match api_ClientCertBundle api with
              | Some b => explain "failed to get client TLS config" (GetClientTLSConfig b)
              | None => Panic "nil pointer dereference: ClientCertBundle"
              end;
  let url := "https://" +:+ api_Host api +:+ ":" +:+ Itoa (api_Port api) +:+ endpoint in
  match http tlsConfig url requestBody with
  | NoRequest err => Throw (Errorf ("failed to create request: " +:+ err))
  | NoResponse err => Throw (Errorf ("failed to execute request: " +:+ err))
  | NoBody err => Throw (Errorf ("failed to read response body: " +:+ err))
  | HttpResponse StatusCode responseBody =>
      if (StatusCode <? 200) || (300 <=? StatusCode)
      then Throw (Errorf ("request failed with status " +:+ Itoa StatusCode +:+ ": " +:+
                          text_of responseBody))
      else if bool_decide (responseBody = [])
      then Throw (Errorf ("empty response body with status " +:+ Itoa StatusCode))
      else explain ("failed to unmarshal response body (status " +:+ Itoa StatusCode +:+ ", body=" +:+
                    Quote (text_of responseBody) +:+ ")") (json_Unmarshal responseBody)
  end.
End api.

(** The JSON forms the API needs. *)
Class ApiJson : Type := {
  json_exec : Json ExecResponseDTO;
  json_server_new : Json ServerNewRequestDTO;
  json_server_remove : Json ServerRemoveRequestDTO;
  json_client_new : Json ClientNewRequestDTO;
  json_client_list : Json ClientListRequestDTO;
  json_server_list : Json ServerListRequestDTO;
  json_server_list_response : Json ServerListResponseDTO;
  json_label_add : Json NodeLabelAddRequestDTO;
  json_label_remove : Json NodeLabelRemoveRequestDTO;
  json_node_config : Json NodeConfigRequestDTO;
  json_node_config_response : Json NodeConfigResponseDTO;
  json_service_publish : Json ServicePublishRequestDTO;
  json_service_unpublish : Json ServiceUnpublishRequestDTO;
  json_service_list : Json ServiceListRequestDTO;
  json_param_new : Json ServiceParamNewRequestDTO;
  json_param_remove : Json ServiceParamRemoveRequestDTO;
  json_param_list : Json ServiceParamListRequestDTO;
}.
#[export] Existing Instances json_exec json_server_new json_server_remove json_client_new
  json_client_list json_server_list json_server_list_response json_label_add json_label_remove
  json_node_config json_node_config_response json_service_publish json_service_unpublish
  json_service_list json_param_new json_param_remove json_param_list.

Module Api.
Section methods.
  Context `{X : X509} `{AJ : ApiJson} (http : Transport) (a : APICommandsService).

Definition ServerNew (force quiet : bool) (dockerSubnet : string) : Out ExecResponseDTO :=
  makeSecureRequestWithResponse http a "/commands/server/new"
    (MkServerNewRequest force quiet dockerSubnet).
Definition ServerRemove (nodeID : string) : Out ExecResponseDTO :=
  makeSecureRequestWithResponse http a "/commands/server/remove" (MkServerRemoveRequest nodeID).
Definition ClientNew (force quiet wait : bool) : Out ExecResponseDTO :=
  makeSecureRequestWithResponse http a "/commands/client/new" (MkClientNewRequest force quiet wait).
Definition ClientList : Out ExecResponseDTO :=
  makeSecureRequestWithResponse http a "/commands/client/list" MkClientListRequest.
Definition ServerList : Out ServerListResponseDTO :=
  makeSecureRequestWithResponse http a "/commands/server/list" MkServerListRequest.
Definition NodeLabelAdd (nodeIP label : string) : Out ExecResponseDTO :=
  makeSecureRequestWithResponse http a "/commands/node/label/add" (MkNodeLabelAddRequest nodeIP label).
Definition NodeLabelRemove (nodeIP label : string) : Out ExecResponseDTO :=
  makeSecureRequestWithResponse http a "/commands/node/label/remove"
    (MkNodeLabelRemoveRequest nodeIP label).
Definition NodeConfig : Out NodeConfigResponseDTO :=
  makeSecureRequestWithResponse http a "/commands/node/config" MkNodeConfigRequest.
Definition ServicePublish (localProtocol localHost : string) (localPort : Z)
    (publicProtocol publicHost : string) (publicPort : Z) : Out ExecResponseDTO :=
  makeSecureRequestWithResponse http a "/commands/service/publish"
    (MkServicePublishRequest localProtocol localHost localPort publicProtocol publicHost publicPort).
Definition ServiceUnpublish (publicProtocol publicHost : string) (publicPort : Z)
    : Out ExecResponseDTO :=
  makeSecureRequestWithResponse http a "/commands/service/unpublish"
    (MkServiceUnpublishRequest publicProtocol publicHost publicPort).
Definition ServiceList : Out ServiceListRequestDTO :=
  makeSecureRequestWithResponse http a "/commands/service/list"
    (MkServiceListRequest (MkExecResponse "" "") []).
Definition ServiceParamNew (publicProtocol publicHost : string) (publicPort : Z)
    (paramType : PublicServiceParamType) (paramValue : string) : Out ExecResponseDTO :=
  makeSecureRequestWithResponse http a "/commands/service/params/new"
    (MkServiceParamNewRequest publicProtocol publicHost publicPort paramType paramValue).
Definition ServiceParamRemove (publicProtocol publicHost : string) (publicPort : Z)
    (paramType : PublicServiceParamType) (paramValue : string) : Out ExecResponseDTO :=
  makeSecureRequestWithResponse http a "/commands/service/params/remove"
    (MkServiceParamRemoveRequest publicProtocol publicHost publicPort paramType paramValue).
Definition ServiceParamList (publicProtocol publicHost : string) (publicPort : Z)
    : Out ExecResponseDTO :=
  makeSecureRequestWithResponse http a "/commands/service/params/list"
    (MkServiceParamListRequest publicProtocol publicHost publicPort).
End methods.
End Api.
