(* ===== verification/Commands.v ===== *)
(** * [internal/commands/service.go]: who may run which command, and where it runs

    [executeCommand] looks up the node's own role, refuses the command or runs the handler
    of the first group the role is in: on the gateway the local operation, on a client or
    server a request to the gateway. *)
From S2P Require Import Prelude GoStrings GoNet Mtls NodeTypes Gorm.
From S2P Require Import NodesRepo PublicServices NodeConfigs JoinStore NetworkApps.
From S2P Require Import NodesDemo Aes CommandTypes World LocalService LocalNodes ApiCommands.

Section roles.
  Context `{GN : Gorm string Node} `{GS : Gorm ServiceKey PublicService}
    `{GR : Gorm string JoinRequest} `{GT : Gorm string JoinToken}.

(** [RoleHandler] and [RoleGroup] *)
Definition RoleHandler : Type :=
  option Node → option APICommandsService → M World (option ExecResponseDTO).
Record RoleGroup : Type := MkRoleGroup { Roles : list NodeRole; Handler : RoleHandler }.

(** [s.isRoleAllowed(currentNode, allowedRoles)] *)
Definition isRoleAllowed (currentNode : option Node) (allowedRoles : list NodeRole) : bool :=
  match currentNode with
  | None => bool_decide (NodeRoleEmpty ∈ allowedRoles)
  | Some n => bool_decide (node_Role n ∈ allowedRoles)
  end.

(** [s.printRoleError(..)] *)
Definition role_error (currentNodeRole : NodeRole) (allowedRoles : list NodeRole) : string :=
  "❌  Command is only allowed for roles: " +:+ Join (map role_text allowedRoles) ", " +:+ newline +:+
  "👤 Current role: " +:+ role_text currentNodeRole +:+ newline +:+ newline +:+
  "To execute this command on behalf of:" +:+ newline +:+
  "- client: 'wireport gateway up' OR 'wireport join <client-join-token>'" +:+ newline +:+
  "- server: 'wireport gateway up' + 'wireport server up' + SSH to server container" +:+ newline +:+
  "- gateway: 'wireport gateway up' + SSH to gateway container" +:+ newline +:+
  "- empty: 'wireport gateway down' (WARNING: destroys all data)" +:+ newline.
Definition printRoleError (currentNodeRole : NodeRole) (allowedRoles : list NodeRole)
    : M World unit := print_err (role_error currentNodeRole allowedRoles).

(** What is printed of a handler's outcome. *)
Definition finish (r : error + option ExecResponseDTO) : M World unit :=
  match r with
  | inl err => print_err (error_text err +:+ newline)
  | inr (Some dto) =>
      _ ← (if (0 <? String.length (Stderr dto))%nat
           then print_err (Stderr dto +:+ newline) else mret tt);
      print_out (Stdout dto +:+ newline)
  | inr None => mret tt
  end.

(** The loop over the groups. *)
Fixpoint run_group (currentNode : option Node) (api : option APICommandsService) (role : NodeRole)
    (allowedRoles : list NodeRole) (groups : list RoleGroup) : M World unit :=
  match groups with
  | [] => printRoleError role allowedRoles
  | group :: groups' =>
      if bool_decide (role ∈ Roles group) then
        r ← attempt (Handler group currentNode api);
        finish r
      else run_group currentNode api role allowedRoles groups'
  end.

Definition role_of (currentNode : option Node) : NodeRole :=
  match currentNode with None => NodeRoleEmpty | Some n => node_Role n end.
Definition api_of (currentNode : option Node) : option APICommandsService :=
  (λ n, MkAPI (node_GatewayPublicIP n) (node_GatewayPublicPort n) (node_ClientCertBundle n))
    <$> currentNode.

(** [s.executeCommand(stdOut, errOut, roleGroups)] *)
Definition executeCommand (roleGroups : list RoleGroup) : M World unit :=
  r ← attempt (on_nodes (query GetCurrentNode));
  let go_on (currentNode : option Node) : M World unit :=
    let allowedRoles := flat_map Roles roleGroups in
    let roleToExecute := role_of currentNode in
    if negb (isRoleAllowed currentNode allowedRoles)
    then printRoleError roleToExecute allowedRoles
    else run_group currentNode (api_of currentNode) roleToExecute allowedRoles roleGroups in
  match r with
  | inl err =>
      if errors_Is err ErrRecordNotFound then go_on None
      else print_err ("Error: " +:+ error_text err +:+ newline)
  | inr n => go_on (Some n)
  end.

(** A handler that runs a local operation, and one that asks the gateway. *)
Definition locally (c : M World unit) : RoleHandler := λ _ _, _ ← c; mret None.
Definition remotely (ask : APICommandsService → Out ExecResponseDTO) : RoleHandler := λ _ api,
  match api with
  | Some a => dto ← lift (ask a); mret (Some dto)
  | None => lift (Panic "nil pointer dereference: api")
  end.
End roles.

Module Cmd.
Section commands.
  Context `{GN : Gorm string Node} `{GS : Gorm ServiceKey PublicService}
    `{GR : Gorm string JoinRequest} `{GT : Gorm string JoinToken} `{R : Raymond} `{X : X509}
    `{JQ : Json JoinRequest} `{AJ : ApiJson}.
  Context (paths : ConfigPaths) (sh : nat → string → option string) (http : Transport).

(** Servers *)
Definition ServerNew (env : CommandEnv) (force quiet : bool) (dockerSubnet : string) : M World unit :=
  executeCommand
    [MkRoleGroup [NodeRoleGateway] (locally (LocalNodes.ServerNew env force quiet dockerSubnet));
     MkRoleGroup [NodeRoleClient] (remotely (λ a, Api.ServerNew http a force quiet dockerSubnet))].
Definition ServerRemove (serverNodeID : string) : M World unit :=
  executeCommand
    [MkRoleGroup [NodeRoleServer] (remotely (λ a, Api.ServerRemove http a serverNodeID));
     MkRoleGroup [NodeRoleGateway] (locally (LocalNodes.ServerRemove serverNodeID))].
Definition ServerList (requestFromNodeID : option string) : M World unit :=
  executeCommand
    [MkRoleGroup [NodeRoleGateway] (locally (LocalNodes.ServerList requestFromNodeID));
     MkRoleGroup [NodeRoleClient] (remotely (λ a, r ← Api.ServerList http a; mret (sl_Exec r)))].
Definition NodeLabelAdd (nodeIP label : string) : M World unit :=
  executeCommand
    [MkRoleGroup [NodeRoleGateway] (locally (LocalNodes.NodeLabelAdd nodeIP label));
     MkRoleGroup [NodeRoleClient] (remotely (λ a, Api.NodeLabelAdd http a nodeIP label))].
Definition NodeLabelRemove (nodeIP label : string) : M World unit :=
  executeCommand
    [MkRoleGroup [NodeRoleGateway] (locally (LocalNodes.NodeLabelRemove nodeIP label));
     MkRoleGroup [NodeRoleClient] (remotely (λ a, Api.NodeLabelRemove http a nodeIP label))].

(** Clients *)
Definition ClientNew (meanwhile : nat → World → World) (env : CommandEnv)
    (joinRequest quiet wait : bool) : M World unit :=
  executeCommand
    [MkRoleGroup [NodeRoleGateway; NodeRoleEmpty]
       (locally (LocalNodes.ClientNew paths sh meanwhile env joinRequest quiet wait));
     MkRoleGroup [NodeRoleClient] (remotely (λ a, Api.ClientNew http a joinRequest quiet wait))].
Definition ClientList (requestFromNodeID : option string) : M World unit :=
  executeCommand
    [MkRoleGroup [NodeRoleGateway] (locally (LocalNodes.ClientList requestFromNodeID));
     MkRoleGroup [NodeRoleClient] (remotely (Api.ClientList http))].

(** Services and their parameters *)
Definition ServicePublish (requestFromNodeID : option string) (localProtocol localHost : string)
    (localPort : Z) (publicProtocol publicHost : string) (publicPort : Z) : M World unit :=
  executeCommand
    [MkRoleGroup [NodeRoleGateway]
       (locally (LocalService.ServicePublish paths sh requestFromNodeID localProtocol localHost
                   localPort publicProtocol publicHost publicPort));
     MkRoleGroup [NodeRoleClient]
       (remotely (λ a, Api.ServicePublish http a localProtocol localHost localPort publicProtocol
                         publicHost publicPort))].
Definition ServiceUnpublish (publicProtocol publicHost : string) (publicPort : Z) : M World unit :=
  executeCommand
    [MkRoleGroup [NodeRoleGateway]
       (locally (LocalService.ServiceUnpublish paths sh publicProtocol publicHost publicPort));
     MkRoleGroup [NodeRoleClient]
       (remotely (λ a, Api.ServiceUnpublish http a publicProtocol publicHost publicPort))].
Definition ServiceList : M World unit :=
  executeCommand
    [MkRoleGroup [NodeRoleGateway] (locally LocalService.ServiceList);
     MkRoleGroup [NodeRoleClient] (remotely (λ a, r ← Api.ServiceList http a; mret (slr_Exec r)))].
Definition ServiceParamNew (publicProtocol publicHost : string) (publicPort : Z)
    (paramType : PublicServiceParamType) (paramValue : string) : M World unit :=
  executeCommand
    [MkRoleGroup [NodeRoleGateway]
       (locally (LocalService.ServiceParamNew paths sh publicProtocol publicHost publicPort
                   paramType paramValue));
     MkRoleGroup [NodeRoleClient]
       (remotely (λ a, Api.ServiceParamNew http a publicProtocol publicHost publicPort paramType
                         paramValue))].
Definition ServiceParamRemove (publicProtocol publicHost : string) (publicPort : Z)
    (paramType : PublicServiceParamType) (paramValue : string) : M World unit :=
  executeCommand
    [MkRoleGroup [NodeRoleGateway]
       (locally (LocalService.ServiceParamRemove paths sh publicProtocol publicHost publicPort
                   paramType paramValue));
     MkRoleGroup [NodeRoleClient]
       (remotely (λ a, Api.ServiceParamRemove http a publicProtocol publicHost publicPort paramType
                         paramValue))].
Definition ServiceParamList (publicProtocol publicHost : string) (publicPort : Z) : M World unit :=
  executeCommand
    [MkRoleGroup [NodeRoleGateway]
       (locally (LocalService.ServiceParamList publicProtocol publicHost publicPort));
     MkRoleGroup [NodeRoleClient]
       (remotely (λ a, Api.ServiceParamList http a publicProtocol publicHost publicPort))].
End commands.
End Cmd.

(** ** Properties *)

Section properties.
  Context {GN : Gorm string Node} {GS : Gorm ServiceKey PublicService}
    {GR : Gorm string JoinRequest} {GT : Gorm string JoinToken}.

(** The node the command runs on, as the code sees it: a database without a current node
    is a node of the role [empty]. *)
Definition current_node (w : World) (cn : option Node) : Prop :=
  match cn with
  | Some n => GetCurrentNode (w_nodes w) = Ret n
  | None => ∃ e, GetCurrentNode (w_nodes w) = Throw e ∧ errors_Is e ErrRecordNotFound = true
  end.

Lemma isRoleAllowed_role cn roles : isRoleAllowed cn roles = bool_decide (role_of cn ∈ roles).
Proof. by destruct cn. Qed.

(** [executeCommand] once the node is known. *)
Lemma executeCommand_known groups w cn :
  current_node w cn →
  executeCommand groups w
  = (if bool_decide (role_of cn ∈ flat_map Roles groups)
     then run_group cn (api_of cn) (role_of cn) (flat_map Roles groups) groups
     else printRoleError (role_of cn) (flat_map Roles groups)) w.
Proof.
  intros Hcn. unfold executeCommand. destruct cn as [n|].
  - erewrite M_bind_Ret; [|unfold attempt, on_nodes, on_part, query; by rewrite Hcn].
    rewrite with_nodes_same. cbn zeta. rewrite isRoleAllowed_role. by case_bool_decide.
  - destruct Hcn as (e & Hcn & Hnf).
    erewrite M_bind_Ret; [|unfold attempt, on_nodes, on_part, query; by rewrite Hcn].
    rewrite with_nodes_same. cbn zeta. rewrite Hnf, isRoleAllowed_role. by case_bool_decide.
Qed.

Lemma run_group_first cn api role allowed before g after w :
  role ∈ Roles g → Forall (λ h, role ∉ Roles h) before →
  run_group cn api role allowed (before ++ g :: after) w
  = (r ← attempt (Handler g cn api); finish r) w.
Proof.
  intros Hg Hb. induction Hb as [|h before Hh _ IH]; cbn [app run_group].
  - by rewrite bool_decide_eq_true_2.
  - by rewrite bool_decide_eq_false_2.
Qed.

(** C14: a command runs the handler of the first group its node's role is in; a role in no
    group gets the list of the roles allowed and nothing is changed; and when the own role
    cannot be read, other than for want of a record, nothing is run. *)
Theorem executeCommand_runs groups w :
  (∀ e, GetCurrentNode (w_nodes w) = Throw e → errors_Is e ErrRecordNotFound = false →
    executeCommand groups w
    = (Ret tt, with_text (w_out w) (w_err w +:+ "Error: " +:+ error_text e +:+ newline) w)) ∧
  (∀ cn, current_node w cn → (∀ g, g ∈ groups → role_of cn ∉ Roles g) →
    executeCommand groups w
    = (Ret tt, with_text (w_out w)
                 (w_err w +:+ role_error (role_of cn) (flat_map Roles groups)) w)) ∧
  (∀ cn before g after, current_node w cn → groups = before ++ g :: after →
    role_of cn ∈ Roles g → Forall (λ h, role_of cn ∉ Roles h) before →
    executeCommand groups w = (r ← attempt (Handler g cn (api_of cn)); finish r) w).
Proof.
  split; [|split].
  - intros e He Hnf. unfold executeCommand.
    erewrite M_bind_Ret; [|unfold attempt, on_nodes, on_part, query; by rewrite He].
    rewrite with_nodes_same. cbn zeta. by rewrite Hnf.
  - intros cn Hcn Hno. rewrite (executeCommand_known _ _ _ Hcn).
    rewrite bool_decide_eq_false_2; [done|].
    intros (g & Hg & Hin)%list_elem_of_In%in_flat_map. apply list_elem_of_In in Hg, Hin.
    by apply (Hno g).
  - intros cn before g after Hcn -> Hg Hb. rewrite (executeCommand_known _ _ _ Hcn).
    rewrite bool_decide_eq_true_2; [by apply run_group_first|].
    apply list_elem_of_In, in_flat_map. exists g. rewrite <- !list_elem_of_In. set_solver.
Qed.

(** ** Commands that only talk *)

(** A world that differs from [w0] in its two streams only. *)
Definition only_text (w0 w : World) : Prop := ∃ out err, w = with_text out err w0.
#[export] Instance only_text_free w0 : TextFree (only_text w0).
Proof. intros w out err (out' & err' & ->). by exists out, err. Qed.

Section preserved.
  Context (I : World → Prop) {HI : TextFree I}.

Lemma preserves_finish r : preserves I (finish r).
Proof. destruct r as [err|[dto|]]; cbn; [auto with preserves| |auto with preserves].
  apply preserves_bind; [case_match|]; auto with preserves.
Qed.
Lemma preserves_remotely ask cn api : preserves I (remotely ask cn api).
Proof. destruct api as [a|]; cbn; auto with preserves. Qed.
Lemma preserves_locally c cn api : preserves I c → preserves I (locally c cn api).
Proof. intros Hc. apply preserves_bind; auto with preserves. Qed.

(** What the handlers of the node's role lead to from [P] the command leads to. *)
Lemma run_group_triple (P : World → Prop) cn api role allowed groups :
  (∀ w, P w → I w) →
  (∀ g, g ∈ groups → role ∈ Roles g → triple P (Handler g cn api) (λ _, I) I) →
  triple P (run_group cn api role allowed groups) (λ _, I) I.
Proof.
  intros HP. induction groups as [|g groups IH]; intros Hg; cbn [run_group];
    [by intros w Hw%HP; apply preserves_err|].
  case_bool_decide; [|apply IH; intros; apply Hg; set_solver].
  apply (triple_bind _ _ _ (λ _, I)); [|intros; apply preserves_finish].
  intros w Hw. assert (triple P (Handler g cn api) (λ _, I) I) as Hrun by (apply Hg; set_solver).
  specialize (Hrun w Hw). unfold attempt. by destruct (Handler g cn api w) as [[] w'].
Qed.
Lemma executeCommand_triple (P : World → Prop) groups :
  (∀ w, P w → I w) →
  (∀ g cn api, g ∈ groups → triple P (Handler g cn api) (λ _, I) I) →
  triple P (executeCommand groups) (λ _, I) I.
Proof.
  intros HP Hg. apply (triple_bind _ _ _ (λ _, P)).
  { intros w Hw. unfold attempt, on_nodes, on_part, query. rewrite with_nodes_same.
    destruct (GetCurrentNode (w_nodes w)); auto. }
  assert (∀ cn : option Node, triple P
    (if negb (isRoleAllowed cn (flat_map Roles groups))
     then printRoleError (role_of cn) (flat_map Roles groups)
     else run_group cn (api_of cn) (role_of cn) (flat_map Roles groups) groups) (λ _, I) I) as Hgo.
  { intros cn. case_match; [by intros w Hw%HP; apply preserves_err|]. apply run_group_triple; auto. }
  intros [err|n]; cbn zeta; [|apply Hgo].
  case_match; [apply Hgo|by intros w Hw%HP; apply preserves_err].
Qed.

(** What they preserve it preserves. *)
Lemma run_group_preserves cn api role allowed groups :
  (∀ g, g ∈ groups → role ∈ Roles g → preserves I (Handler g cn api)) →
  preserves I (run_group cn api role allowed groups).
Proof. by apply run_group_triple. Qed.
Lemma executeCommand_preserves groups :
  (∀ g cn api, g ∈ groups → preserves I (Handler g cn api)) → preserves I (executeCommand groups).
Proof. by apply executeCommand_triple. Qed.
End preserved.

(** A command whose handlers for the node it runs on only print only prints, and so it does
    when its node cannot be read. *)
Lemma executeCommand_talks groups w :
  (∀ cn g, current_node w cn → g ∈ groups → role_of cn ∈ Roles g →
     preserves (only_text w) (Handler g cn (api_of cn))) →
  ∀ o w', executeCommand groups w = (o, w') → only_text w w'.
Proof.
  intros Hg o w' Hrun. assert (only_text w w) as Hw by (exists (w_out w), (w_err w); by destruct w).
  assert (∀ cn, current_node w cn → only_text w w') as Hknown.
  { intros cn Hcn. rewrite (executeCommand_known _ _ _ Hcn) in Hrun.
    refine (triple_any (only_text w) _ (only_text w) _ _ _ _ Hw Hrun).
    case_bool_decide; [|apply (preserves_err (only_text w))].
    apply run_group_preserves; [apply _|]. intros g Hin Hr. by apply Hg. }
  destruct (GetCurrentNode (w_nodes w)) as [n|e|p|p] eqn:E; [by apply (Hknown (Some n))| |..].
  - destruct (errors_Is e ErrRecordNotFound) eqn:Hnf; [apply (Hknown None); by exists e|].
    unfold executeCommand, attempt, on_nodes, on_part, query, mbind, M_bind in Hrun.
    rewrite E, with_nodes_same in Hrun. cbn zeta in Hrun. rewrite Hnf in Hrun.
    injection Hrun as <- <-. by apply only_text_free.
  - unfold executeCommand, attempt, on_nodes, on_part, query, mbind, M_bind in Hrun.
    rewrite E, with_nodes_same in Hrun. by injection Hrun as <- <-.
  - unfold executeCommand, attempt, on_nodes, on_part, query, mbind, M_bind in Hrun.
    rewrite E, with_nodes_same in Hrun. by injection Hrun as <- <-.
Qed.
End properties.
#[export] Hint Resolve preserves_finish preserves_remotely preserves_locally : preserves.

(** A command line that works on the network's database, with what it draws from outside. *)
Inductive Invocation `{GN : Gorm string Node} `{GS : Gorm ServiceKey PublicService}
    `{GR : Gorm string JoinRequest} `{GT : Gorm string JoinToken} : Type :=
| ServerNew (env : CommandEnv) (force quiet : bool) (dockerSubnet : string)
| ServerRemove (serverNodeID : string)
| ServerList (requestFromNodeID : option string)
| NodeLabelAdd (nodeIP label : string)
| NodeLabelRemove (nodeIP label : string)
| ClientNew (meanwhile : nat → World → World) (env : CommandEnv) (joinRequest quiet wait : bool)
| ClientList (requestFromNodeID : option string)
| ServicePublish (requestFromNodeID : option string) (localProtocol localHost : string)
    (localPort : Z) (publicProtocol publicHost : string) (publicPort : Z)
| ServiceUnpublish (publicProtocol publicHost : string) (publicPort : Z)
| ServiceList
| ServiceParamNew (publicProtocol publicHost : string) (publicPort : Z)
    (paramType : PublicServiceParamType) (paramValue : string)
| ServiceParamRemove (publicProtocol publicHost : string) (publicPort : Z)
    (paramType : PublicServiceParamType) (paramValue : string)
| ServiceParamList (publicProtocol publicHost : string) (publicPort : Z).

Section safety.
  Context {GN : Gorm string Node} {GS : Gorm ServiceKey PublicService}
    {GR : Gorm string JoinRequest} {GT : Gorm string JoinToken} {R : Raymond} {X : X509}
    {JQ : Json JoinRequest} {AJ : ApiJson}.
  Context (paths : ConfigPaths) (sh : nat → string → option string) (http : Transport).

Definition run_command (c : Invocation) : M World unit :=
  match c with
  | ServerNew env force quiet dockerSubnet => Cmd.ServerNew http env force quiet dockerSubnet
  | ServerRemove id => Cmd.ServerRemove http id
  | ServerList from => Cmd.ServerList http from
  | NodeLabelAdd ip label => Cmd.NodeLabelAdd http ip label
  | NodeLabelRemove ip label => Cmd.NodeLabelRemove http ip label
  | ClientNew meanwhile env jr quiet wait =>
      Cmd.ClientNew paths sh http meanwhile env jr quiet wait
  | ClientList from => Cmd.ClientList http from
  | ServicePublish from lp lh lport pp ph pport =>
      Cmd.ServicePublish paths sh http from lp lh lport pp ph pport
  | ServiceUnpublish pp ph pport => Cmd.ServiceUnpublish paths sh http pp ph pport
  | ServiceList => Cmd.ServiceList http
  | ServiceParamNew pp ph pport ty v => Cmd.ServiceParamNew paths sh http pp ph pport ty v
  | ServiceParamRemove pp ph pport ty v => Cmd.ServiceParamRemove paths sh http pp ph pport ty v
  | ServiceParamList pp ph pport => Cmd.ServiceParamList http pp ph pport
  end.

Definition is_ClientNew (c : Invocation) : bool :=
  match c with ClientNew _ _ _ _ _ => true | _ => false end.

(** C13: of the thirteen commands on the network's database ([Invocation]: those for servers,
    clients, labels, services and their parameters) only the gateway's change anything: where
    the current node is not read as a gateway, because it is another one, there is none or it
    cannot be read, they leave the whole world as it was but for what they print, whatever
    the gateway answers.  [client new] where the role is empty, as where there is no current node yet, is the one
    exception.  (Joining, starting, and taking machines up and down are not among them.) *)
Theorem only_the_gateway_changes c w o w' :
  (∀ n, GetCurrentNode (w_nodes w) = Ret n → node_Role n ≠ NodeRoleGateway) →
  (is_ClientNew c = true → ∀ cn, current_node w cn → role_of cn ≠ NodeRoleEmpty) →
  run_command c w = (o, w') →
  ∃ out err, w' = with_text out err w.
Proof.
  intros Hgw Hnew Hrun. change (only_text w w').
  destruct c; cbn [run_command] in Hrun; refine (executeCommand_talks _ _ _ _ _ Hrun);
    intros cn g Hcn Hg Hrole;
    assert (role_of cn ≠ NodeRoleGateway) as Hcn' by (destruct cn; [by apply Hgw|done]);
    repeat (apply elem_of_cons in Hg as [->|Hg]);
    try (by apply elem_of_nil in Hg); cbn [Roles Handler] in *; auto with preserves typeclass_instances;
    exfalso; rewrite ?elem_of_cons, elem_of_nil in Hrole; try specialize (Hnew eq_refl cn Hcn);
    intuition congruence.
Qed.
End safety.

(** ** At work *)

(** No coder is needed where nothing is sent. *)
Definition no_json {A} : Json A :=
  {| json_Marshal _ := Throw (Errorf "json: unsupported type");
     json_Unmarshal _ := Throw (Errorf "invalid character") |}.
Definition no_api_json : ApiJson :=
  Build_ApiJson no_json no_json no_json no_json no_json no_json no_json no_json no_json no_json
    no_json no_json no_json no_json no_json no_json no_json.
Definition no_network : Transport := λ _ _ _, NoResponse "connection refused".

(** A client's own database: itself. *)
Definition client_node : Node :=
  MkNode "c1" NodeRoleClient true "k" "p" sample_config None None None "203.0.113.7" 4060
    None (Some (MkClientBundle no_pem no_pem 0)) None [].
Lemma client_rows_keyed : keyedb ({[ "c1" := client_node ]} : gmap string Node) = true.
Proof. vm_compute. reflexivity. Qed.
Definition client_world : World :=
  MkWorld (exist _ ({[ "c1" := client_node ]} : gmap string Node) client_rows_keyed : demo_table)
    no_services no_requests no_tokens (MkHost sample_disk []) "" "" [] [] no_remote.

(** A client is refused what only a gateway or a server may do. *)
Lemma executeCommand_runs_witness :
  executeCommand [MkRoleGroup [NodeRoleServer; NodeRoleGateway] (locally (print_out "done"))]
    client_world
  = (Ret tt, with_text "" (role_error NodeRoleClient [NodeRoleServer; NodeRoleGateway]) client_world).
Proof.
  refine (proj1 (proj2 (executeCommand_runs _ client_world)) (Some client_node) eq_refl _).
  intros g Hg. apply elem_of_cons in Hg as [->|Hg]; [|by apply elem_of_nil in Hg].
  cbn. rewrite !elem_of_cons, elem_of_nil. intuition discriminate.
Defined.

Lemma only_the_gateway_changes_witness :
  w_services (run_command (R := toy_raymond) (JQ := no_json) (AJ := no_api_json) sample_paths
    (λ _ _, None) no_network (ServiceUnpublish "tcp" "0.0.0.0" 80) client_world).2 = no_services.
Proof.
  destruct (@only_the_gateway_changes _ _ _ _ toy_raymond _ no_json no_api_json
    sample_paths (λ _ _, None) no_network (ServiceUnpublish "tcp" "0.0.0.0" 80) client_world
    _ _ (λ n H, ltac:(injection H as <-; discriminate)) ltac:(discriminate) (surjective_pairing _))
    as (out & err & E).
  rewrite E. reflexivity.
Defined.
