(* ===== verification/Reconcile.v ===== *)
(** * [internal/commands/local_server.go]: services declared by container labels

    A server's round: attach the docker network to its containers, bring the services the
    gateway publishes for it in line with their labels, and fetch its own labels.  A Go map
    is ranged over in any order: [order] is the one that is taken. *)
From S2P Require Import Prelude GoStrings GoNet Mtls NodeTypes Gorm.
From S2P Require Import NodesRepo PublicServices NodeConfigs JoinStore NetworkApps.
From S2P Require Import NodesDemo CommandTypes Addresses Docker World DockerSocket.
From S2P Require Import Aes JoinClient LocalJoin LocalService ApiCommands Commands.

Definition wireportServiceLocalLabel : string := "wireport.service.local".
Definition wireportServicePublicLabel : string := "wireport.service.public".

Definition Labels : Type := gmap string string.
(** An order to range over the containers in. *)
Definition LabelOrder : Type := gmap string Labels → list (string * Labels).
(** [containerLabels[key]]: a key that is not there reads as empty. *)
Definition label (key : string) (labels : Labels) : string := default "" (labels !! key).

(** ** The plan *)

(** [filterServicesPublishedByNode(all, nodeID)] *)
Definition filterServicesPublishedByNode (all : list PublicService) (nodeID : string)
    : list PublicService :=
  List.filter (λ svc, bool_decide (PublishedByNodeID svc = Some nodeID)) all.

(** The services to unpublish: their container is gone or has lost a label. *)
Definition missingLabels (labelsByContainerName : gmap string Labels) (service : PublicService) : bool :=
  match labelsByContainerName !! LocalHost service with
  | None => true
  | Some labels =>
      bool_decide (label wireportServiceLocalLabel labels = "") ||
      bool_decide (label wireportServicePublicLabel labels = "")
  end.
Definition servicesToUnpublish (labelsByContainerName : gmap string Labels)
    (publishedHere : list PublicService) : list PublicService :=
  List.filter (missingLabels labelsByContainerName) publishedHere.

(** What is made of a container's labels: nothing, a message on one of the two streams, or
    a service to publish. *)
Inductive Candidate : Type :=
| Ignored
| Complained (text : string)
| Mentioned (text : string)
| Wanted (service : PublicService).

Definition alreadyPublished (publishedHere : list PublicService) (containerName : string) : bool :=
  existsb (λ svc, bool_decide (LocalHost svc = containerName)) publishedHere.

Definition candidate (nodeID : string) (publishedHere : list PublicService)
    (container : string * Labels) : Candidate :=
  let '(containerName, containerLabels) := container in
  if alreadyPublished publishedHere containerName then Ignored
  else
    let localAddress := label wireportServiceLocalLabel containerLabels in
    let publicAddress := label wireportServicePublicLabel containerLabels in
    if bool_decide (localAddress = "") || bool_decide (publicAddress = "") then Ignored
    else
      match ParseAddress localAddress with
      | Ret (localProtocol, localHost, localPort) =>
          if negb (bool_decide (localHost = containerName))
          then Mentioned ("Can not publish service " +:+ containerName +:+ ": local host " +:+
                          localHost +:+ " does not match container name " +:+ containerName +:+
                          " - the service definition is not valid, skipping" +:+ newline)
          else
            match ParseAddress publicAddress with
            | Ret (publicProtocol, publicHost, publicPort) =>
                Wanted (MkPublicService (Some nodeID) localProtocol localHost localPort
                          publicProtocol publicHost publicPort [])
            | Throw err =>
                Complained ("Can not publish service " +:+ containerName +:+
                            ": failed to parse public address: " +:+ error_text err +:+ newline)
            | _ => Ignored
            end
      | Throw err =>
          Complained ("Can not publish service " +:+ containerName +:+
                      ": failed to parse local address: " +:+ error_text err +:+ newline)
      | _ => Ignored
      end.
Definition wanted (c : Candidate) : option PublicService :=
  match c with Wanted s => Some s | _ => None end.
Definition servicesToPublish (nodeID : string) (publishedHere : list PublicService)
    (containers : list (string * Labels)) : list PublicService :=
  omap (λ c, wanted (candidate nodeID publishedHere c)) containers.

(** ** The round *)

Section round.
  Context `{GN : Gorm string Node} `{GS : Gorm ServiceKey PublicService}
    `{GR : Gorm string JoinRequest} `{GT : Gorm string JoinToken} `{R : Raymond} `{X : X509}
    `{AJ : ApiJson}.
  Context (daemon : Daemon) (sh : nat → string → option string) (sock : SocketState).
  Context (http : Transport) (order : LabelOrder).

(** [ensureDockerNetworkIsAttachedToAllContainers(stdOut, errOut)] *)
Definition ensureDockerNetworkIsAttachedToAllContainers : M World unit :=
  _ ← print_out ("Ensuring docker network is attached to all containers" +:+ newline);
  or_complain "Failed to ensure docker network is attached to all containers: "
    (on_docker (EnsureDockerNetworkIsAttachedToAllContainers daemon)) (λ _,
  print_out ("Docker network is attached to all containers" +:+ newline)).

Definition local_address (s : PublicService) : string := address (LocalProtocol s) (LocalHost s) (LocalPort s).
Definition public_address (s : PublicService) : string :=
  address (PublicProtocol s) (PublicHost s) (PublicPort s).

(** The bodies of the two loops over the gateway. *)
Definition unpublish_one (api : APICommandsService) (service : PublicService) : M World unit :=
  or_complain ("Failed to unpublish service " +:+ public_address service +:+ ": ")
    (lift (Api.ServiceUnpublish http api (PublicProtocol service) (PublicHost service)
             (PublicPort service))) (λ _,
  print_out ("Unpublished service " +:+ public_address service +:+ newline)).
Definition publish_one (api : APICommandsService) (service : PublicService) : M World unit :=
  r ← attempt (lift (Api.ServicePublish http api (LocalProtocol service) (LocalHost service)
                       (LocalPort service) (PublicProtocol service) (PublicHost service)
                       (PublicPort service)));
  let failed (err : string) :=
    print_err ("Failed to publish service " +:+ local_address service +:+ ": -> " +:+
               public_address service +:+ ": " +:+ err +:+ newline) in
  match r with
  | inl err => failed (error_text err)
  | inr publicationResult =>
      if negb (bool_decide (Stderr publicationResult = "")) then failed "<nil>"
      else print_out ("Published service " +:+ local_address service +:+ " -> " +:+
                      public_address service +:+ newline)
  end.

Definition tell (c : Candidate) : M World unit :=
  match c with
  | Complained text => print_err text
  | Mentioned text => print_out text
  | _ => mret tt
  end.

(** [reconcileGatewayServicesWithDockerLabels(api, currentNode, stdOut, errOut)] *)
Definition reconcileGatewayServicesWithDockerLabels (api : APICommandsService) (currentNode : Node)
    : M World unit :=
  or_complain "Failed to get services: " (lift (Api.ServiceList http api)) (λ serviceList,
  let services := slr_Services serviceList in
  _ ← print_out ("Retrieved " +:+ Itoa (Z.of_nat (length services)) +:+
                 " services from gateway node" +:+ newline);
  or_complain "Failed to list all container labels: " (on_docker (ListAllContainerLabels daemon))
    (λ labelsByContainerName,
  _ ← print_out ("Retrieved labels for " +:+ Itoa (Z.of_nat (size labelsByContainerName)) +:+
                 " containers" +:+ newline);
  let publishedHere := filterServicesPublishedByNode services (node_ID currentNode) in
  _ ← print_out ("Retrieved " +:+ Itoa (Z.of_nat (length publishedHere)) +:+
                 " services published by current node" +:+ newline);
  let unpublished := servicesToUnpublish labelsByContainerName publishedHere in
  _ ← foreach (λ service, print_out ("Service " +:+ local_address service +:+
         " is published by the node, but labels are not set anymore - to be unpublished" +:+
         newline)) unpublished;
  let containers := order labelsByContainerName in
  _ ← foreach (λ c, tell (candidate (node_ID currentNode) publishedHere c)) containers;
  _ ← foreach (unpublish_one api) unpublished;
  foreach (publish_one api) (servicesToPublish (node_ID currentNode) publishedHere containers))).

(** [refreshNodeConfig(localCommandsService, apiCommandsService, currentNode, ..)] *)
Definition refreshNodeConfig (api : APICommandsService) (currentNode : Node) : M World unit :=
  or_complain "Failed to get node config: " (lift (Api.NodeConfig http api)) (λ response,
  match nc_NodeConfig response with
  | None => print_err ("Failed to get node config: <nil>" +:+ newline)
  | Some nodeConfig =>
      if negb (bool_decide (node_ID nodeConfig = node_ID currentNode))
      then print_err ("Node config mismatch: " +:+ node_ID nodeConfig +:+ " != " +:+
                      node_ID currentNode +:+ newline)
      else
        or_complain "Failed to update node config: "
          (on_nodes (UpdateLabels (node_ID nodeConfig) (node_Labels nodeConfig))) (λ _,
        _ ← print_out ("Node config updated successfully" +:+ newline);
        ReconcileWithLabels sh sock (node_Labels nodeConfig))
  end).

(** One turn of the loop of [ServerStart]; it then sleeps for 30 seconds. *)
Definition server_round (api : APICommandsService) : M World unit :=
  or_complain "Failed to get current node: " (on_nodes (query GetCurrentNode)) (λ currentNode,
  _ ← ensureDockerNetworkIsAttachedToAllContainers;
  _ ← reconcileGatewayServicesWithDockerLabels api currentNode;
  refreshNodeConfig api currentNode).

(** [s.ServerStart(apiCommandsService, ..)], as far as its first [rounds] turns. *)
Definition ServerStart (paths : ConfigPaths) (api : APICommandsService) (rounds : nat) : M World unit :=
  _ ← print_out ("Starting wireport server" +:+ newline);
  or_complain "Failed to get current node: " (on_nodes (query GetCurrentNode)) (λ currentNode,
  or_complain "Failed to save server node configs: " (on_disk (SaveConfigs paths currentNode [] true))
    (λ _,
  _ ← print_out ("Server node configs saved to the disk successfully" +:+ newline);
  foreach (λ _, server_round api) (replicate rounds tt))).
End round.

(** ** Properties of the plan *)

Section plan_properties.
  Context (order : LabelOrder) (nodeID : string).
  Hypothesis order_all : ∀ m, order m ≡ₚ map_to_list m.

Lemma alreadyPublished_spec published name :
  alreadyPublished published name = true ↔ ∃ s, s ∈ published ∧ LocalHost s = name.
Proof.
  unfold alreadyPublished. rewrite existsb_exists. split.
  - intros (s & Hs & Hh%bool_decide_eq_true_1). exists s. by rewrite list_elem_of_In.
  - intros (s & Hs & Hh). exists s. rewrite <- list_elem_of_In. split; [done|].
    by apply bool_decide_eq_true_2.
Qed.

(** A container whose labels declare the service [s]. *)
Definition declares (name : string) (labels : Labels) (s : PublicService) : Prop :=
  label wireportServiceLocalLabel labels ≠ "" ∧ label wireportServicePublicLabel labels ≠ "" ∧
  ParseAddress (label wireportServiceLocalLabel labels) = Ret (LocalProtocol s, LocalHost s, LocalPort s) ∧
  ParseAddress (label wireportServicePublicLabel labels)
    = Ret (PublicProtocol s, PublicHost s, PublicPort s) ∧
  LocalHost s = name ∧ PublishedByNodeID s = Some nodeID ∧ Params s = [].

Lemma wanted_spec published name labels s :
  wanted (candidate nodeID published (name, labels)) = Some s ↔
  alreadyPublished published name = false ∧ declares name labels s.
Proof.
  unfold candidate, declares. split.
  - destruct (alreadyPublished published name); [done|].
    destruct (bool_decide_reflect (label wireportServiceLocalLabel labels = "")); [done|].
    destruct (bool_decide_reflect (label wireportServicePublicLabel labels = "")); [done|]. cbn [orb].
    destruct (ParseAddress (label wireportServiceLocalLabel labels)) as [[[lp lh] lport]|e|p1|p2]; try done.
    destruct (bool_decide_reflect (lh = name)); [|done]. cbn [negb].
    destruct (ParseAddress (label wireportServicePublicLabel labels)) as [[[pp ph] pport]|e1|p1|p2]; try done.
    by intros [= <-].
  - intros (-> & Hl & Hp & El & Ep & Hh & Hid & Hps). rewrite !bool_decide_eq_false_2 by done.
    cbn [orb]. rewrite El, (bool_decide_eq_true_2 _ Hh). cbn [negb]. rewrite Ep. cbn [wanted].
    by destruct s; cbn in *; subst.
Qed.

Lemma servicesToPublish_spec m published s :
  s ∈ servicesToPublish nodeID published (order m) ↔
  ∃ name labels, m !! name = Some labels ∧ alreadyPublished published name = false ∧
    declares name labels s.
Proof.
  unfold servicesToPublish. rewrite list_elem_of_omap. split.
  - intros ([name labels] & Hin & Hw). rewrite order_all, elem_of_map_to_list in Hin.
    apply wanted_spec in Hw. eauto.
  - intros (name & labels & Hm & Hw). exists (name, labels).
    rewrite order_all, elem_of_map_to_list, wanted_spec. done.
Qed.

Lemma missingLabels_declares m name labels s :
  m !! name = Some labels → declares name labels s → missingLabels m s = false.
Proof.
  intros Hm (Hl & Hp & _ & _ & <- & _). unfold missingLabels. rewrite Hm.
  by rewrite !bool_decide_eq_false_2.
Qed.
Lemma missingLabels_false m s :
  missingLabels m s = false ↔ ∃ labels, m !! LocalHost s = Some labels ∧
    label wireportServiceLocalLabel labels ≠ "" ∧ label wireportServicePublicLabel labels ≠ "".
Proof.
  unfold missingLabels. split.
  - destruct (m !! LocalHost s) as [labels|]; [|done].
    rewrite orb_false_iff, !bool_decide_eq_false. eauto.
  - intros (labels & -> & ? & ?). by rewrite !bool_decide_eq_false_2.
Qed.

Lemma servicesToUnpublish_spec m services s :
  s ∈ servicesToUnpublish m (filterServicesPublishedByNode services nodeID) ↔
  s ∈ services ∧ PublishedByNodeID s = Some nodeID ∧
  ¬ ∃ labels, m !! LocalHost s = Some labels ∧
      label wireportServiceLocalLabel labels ≠ "" ∧ label wireportServicePublicLabel labels ≠ "".
Proof.
  unfold servicesToUnpublish, filterServicesPublishedByNode.
  rewrite list_elem_of_In, !filter_In, <- list_elem_of_In, bool_decide_eq_true.
  rewrite <- missingLabels_false, not_false_iff_true. tauto.
Qed.

Lemma filter_sublist {A} (p : A → bool) l : List.filter p l `sublist_of` l.
Proof. induction l as [|x l IH]; cbn; [constructor|]. by destruct (p x); constructor. Qed.

(** Each container is looked at once. *)
Lemma servicesToPublish_NoDup m published :
  NoDup (LocalHost <$> servicesToPublish nodeID published (order m)).
Proof.
  assert (NoDup (order m).*1) as Hnd by (rewrite order_all; apply NoDup_fst_map_to_list).
  unfold servicesToPublish. induction (order m) as [|[name labels] l IH]; cbn [omap list_omap]; [constructor|].
  apply NoDup_cons in Hnd as [Hname Hnd]. specialize (IH Hnd).
  destruct (wanted (candidate nodeID published (name, labels))) as [s|] eqn:Hw; [|done].
  cbn. apply NoDup_cons. split; [|done]. intros Hin. apply Hname.
  apply list_elem_of_fmap in Hin as (s' & Hh & ([name' labels'] & Hin & Hw')%list_elem_of_omap).
  apply wanted_spec in Hw as (_ & _ & _ & _ & _ & E & _).
  apply wanted_spec in Hw' as (_ & _ & _ & _ & _ & E' & _).
  apply list_elem_of_fmap. exists (name', labels'). split; [cbn; congruence|done].
Qed.
End plan_properties.

(** ** What a round says and asks *)

Section said.
  Context {GN : Gorm string Node} {GS : Gorm ServiceKey PublicService}
    {GR : Gorm string JoinRequest} {GT : Gorm string JoinToken} {X : X509} {AJ : ApiJson}.
  Context (daemon : Daemon) (http : Transport) (order : LabelOrder) (api : APICommandsService).

(** What is said of a service that is to go, of a container, and of the gateway's answers. *)
Definition says_gone (s : PublicService) : string * string :=
  ("Service " +:+ local_address s +:+
   " is published by the node, but labels are not set anymore - to be unpublished" +:+ newline, "").
Definition says_of (c : Candidate) : string * string :=
  match c with
  | Complained text => ("", text)
  | Mentioned text => (text, "")
  | _ => ("", "")
  end.
Definition asks_unpublish (s : PublicService) : Out ExecResponseDTO :=
  Api.ServiceUnpublish http api (PublicProtocol s) (PublicHost s) (PublicPort s).
Definition asks_publish (s : PublicService) : Out ExecResponseDTO :=
  Api.ServicePublish http api (LocalProtocol s) (LocalHost s) (LocalPort s) (PublicProtocol s)
    (PublicHost s) (PublicPort s).
Definition says_unpublished (s : PublicService) : string * string :=
  match asks_unpublish s with
  | Throw err =>
      ("", "Failed to unpublish service " +:+ public_address s +:+ ": " +:+ error_text err +:+ newline)
  | _ => ("Unpublished service " +:+ public_address s +:+ newline, "")
  end.
Definition says_published (s : PublicService) : string * string :=
  let failed why := ("", "Failed to publish service " +:+ local_address s +:+ ": -> " +:+
                         public_address s +:+ ": " +:+ why +:+ newline) in
  match asks_publish s with
  | Throw err => failed (error_text err)
  | Ret r =>
      if bool_decide (Stderr r = "")
      then ("Published service " +:+ local_address s +:+ " -> " +:+ public_address s +:+ newline, "")
      else failed "<nil>"
  | _ => ("", "")
  end.

Lemma tell_prints c : prints (tell c) (says_of c).
Proof. destruct c; [apply prints_nothing|apply prints_err|apply prints_out|apply prints_nothing]. Qed.
Lemma unpublish_prints s : ends (asks_unpublish s) → prints (unpublish_one http api s) (says_unpublished s).
Proof.
  unfold says_unpublished, unpublish_one, asks_unpublish. intros [[a E]|[e E]] w; rewrite E.
  - erewrite or_complain_Ret by reflexivity. apply prints_out.
  - erewrite or_complain_Throw by reflexivity. rewrite prints_err. by rewrite !str_app_assoc.
Qed.
Lemma publish_prints s : ends (asks_publish s) → prints (publish_one http api s) (says_published s).
Proof.
  unfold says_published, publish_one, asks_publish. intros [[a E]|[e E]] w; rewrite E.
  - erewrite M_bind_Ret by reflexivity. cbn beta zeta iota.
    case_bool_decide; [apply prints_out|apply prints_err].
  - erewrite M_bind_Ret by reflexivity. apply prints_err.
Qed.

(** C16: the whole of [reconcileGatewayServicesWithDockerLabels].  A list of services or of
    labels that cannot be had ends it with a complaint.  Otherwise it asks the gateway to
    unpublish, in the order of its list, exactly the services that are published by this
    node and whose container is gone or has lost one of its two labels, and then to publish
    exactly the services declared by the labels of a container for which this node
    publishes none, each container once, in the order the map is ranged over; it says how each
    call went, and goes on after one that fails.  A service whose container has both labels
    stays as it is, whatever addresses these say now.  It changes nothing else but the
    docker calls made to read the labels.  ([order] is any order of the map's keys; of the
    calls it is assumed that they give a value or an error.) *)
Theorem reconcile_runs n w :
  (∀ m, order m ≡ₚ map_to_list m) →
  (∀ s, ends (asks_unpublish s) ∧ ends (asks_publish s)) →
  let run := reconcileGatewayServicesWithDockerLabels daemon http order api n in
  (∀ e, Api.ServiceList http api = Throw e → run w =
     (Ret tt, with_text (w_out w) (w_err w +:+ "Failed to get services: " +:+ error_text e +:+ newline) w)) ∧
  (∀ list, Api.ServiceList http api = Ret list →
     let services := slr_Services list in
     let retrieved := "Retrieved " +:+ Itoa (Z.of_nat (length services)) +:+
                      " services from gateway node" +:+ newline in
     (∀ e calls, ListAllContainerLabels daemon (w_docker w) = (Throw e, calls) →
        run w = (Ret tt, with_text (w_out w +:+ retrieved)
                  (w_err w +:+ "Failed to list all container labels: " +:+ error_text e +:+ newline)
                  (with_docker calls w))) ∧
     (∀ m calls, ListAllContainerLabels daemon (w_docker w) = (Ret m, calls) →
        let here s := s ∈ services ∧ PublishedByNodeID s = Some (node_ID n) in
        ∃ published gone new,
          (∀ s, s ∈ published ↔ here s) ∧
          gone `sublist_of` services ∧
          (∀ s, s ∈ gone ↔ here s ∧ ¬ ∃ labels, m !! LocalHost s = Some labels ∧
             label wireportServiceLocalLabel labels ≠ "" ∧
             label wireportServicePublicLabel labels ≠ "") ∧
          NoDup (LocalHost <$> new) ∧
          (∀ s, s ∈ new ↔ ∃ name labels, m !! name = Some labels ∧
             (¬ ∃ s', here s' ∧ LocalHost s' = name) ∧ declares (node_ID n) name labels s) ∧
          let text := say_all
            ([(retrieved, "");
              ("Retrieved labels for " +:+ Itoa (Z.of_nat (size m)) +:+ " containers" +:+ newline, "");
              ("Retrieved " +:+ Itoa (Z.of_nat (length published)) +:+
               " services published by current node" +:+ newline, "")] ++
             map says_gone gone ++
             map (λ c, says_of (candidate (node_ID n) published c)) (order m) ++
             map says_unpublished gone ++ map says_published new) in
          run w = (Ret tt, with_text (w_out w +:+ text.1) (w_err w +:+ text.2) (with_docker calls w)))).
Proof.
  intros Horder Hends run. split.
  { intros e He. unfold run, reconcileGatewayServicesWithDockerLabels.
    by erewrite or_complain_Throw by (unfold lift; by rewrite He). }
  intros list Hlist services retrieved. split.
  { intros e calls Hl. unfold run, reconcileGatewayServicesWithDockerLabels.
    erewrite or_complain_Ret by by apply lift_Ret. cbn zeta. erewrite M_bind_Ret by reflexivity.
    by erewrite or_complain_Throw by (apply on_part_Throw; exact Hl). }
  intros m calls Hl here.
  set (published := filterServicesPublishedByNode services (node_ID n)).
  set (gone := servicesToUnpublish m published).
  set (new := servicesToPublish (node_ID n) published (order m)).
  assert (∀ s, s ∈ published ↔ here s) as Hpub.
  { intros s. unfold published, filterServicesPublishedByNode, here.
    by rewrite list_elem_of_In, filter_In, <- list_elem_of_In, bool_decide_eq_true. }
  exists published, gone, new. split; [exact Hpub|]. split.
  { unfold gone, published, servicesToUnpublish, filterServicesPublishedByNode.
    etrans; apply filter_sublist. }
  split. { intros s. unfold gone, published. rewrite servicesToUnpublish_spec. unfold here. tauto. }
  split; [by apply servicesToPublish_NoDup|]. split.
  { intros s. unfold new. rewrite servicesToPublish_spec by done.
    assert (∀ name, alreadyPublished published name = false ↔ ¬ ∃ s', here s' ∧ LocalHost s' = name)
      as Hno.
    { intros name. rewrite <- not_true_iff_false, alreadyPublished_spec.
      split; intros Hn (s' & Hs' & Hh); apply Hn; exists s'; by apply Hpub in Hs' || (split; [by apply Hpub|done]). }
    by setoid_rewrite Hno. }
  intros text. unfold run, reconcileGatewayServicesWithDockerLabels.
  erewrite or_complain_Ret by by apply lift_Ret. cbn zeta. fold services.
  erewrite M_bind_Ret by apply prints_out.
  erewrite or_complain_Ret by (apply on_part_Ret; exact Hl). cbn beta. fold published gone new.
  match goal with |- ?prog _ = _ => assert (prints prog (say_all
    ([("Retrieved labels for " +:+ Itoa (Z.of_nat (size m)) +:+ " containers" +:+ newline, "");
      ("Retrieved " +:+ Itoa (Z.of_nat (length published)) +:+
       " services published by current node" +:+ newline, "")] ++
     map says_gone gone ++
     map (λ c, says_of (candidate (node_ID n) published c)) (order m) ++
     map says_unpublished gone ++ map says_published new))) as Hrest end.
  { rewrite !say_all_app. unfold say_all at 1. cbn [foldr]. rewrite !say_assoc, say_nothing.
    apply prints_bind; [apply prints_out|]. apply prints_bind; [apply prints_out|].
    apply prints_bind; [apply prints_foreach; intros s; apply prints_out|].
    apply prints_bind; [apply prints_foreach; intros c; apply tell_prints|].
    apply prints_bind; apply prints_foreach; intros s;
      [apply unpublish_prints|apply publish_prints]; apply Hends. }
  rewrite Hrest.
  match type of Hrest with prints _ ?t => change text with (say (retrieved, "") t); generalize t end.
  intros [o e]. unfold with_docker, with_text, say. cbn. by rewrite str_app_nil_r, str_app_assoc.
Qed.
End said.

(** ** What a round changes *)

Section round_properties.
  Context {GN : Gorm string Node} {LN : GormLaws string Node} {GS : Gorm ServiceKey PublicService}
    {GR : Gorm string JoinRequest} {GT : Gorm string JoinToken} {R : Raymond} {X : X509}
    {AJ : ApiJson}.
  Context (daemon : Daemon) (sh : nat → string → option string) (sock : SocketState).
  Context (http : Transport) (order : LabelOrder).

(** The four tables are those of [w0]. *)
Definition same_tables (w0 w : World) : Prop :=
  w_nodes w = w_nodes w0 ∧ w_services w = w_services w0 ∧ w_requests w = w_requests w0 ∧
  w_tokens w = w_tokens w0.
#[export] Instance same_tables_free w0 : TextFree (same_tables w0).
Proof. by intros w out err Hw. Qed.

Lemma same_tables_part {S A} (part : World → S) with_part (c : M S A) w0 :
  (∀ s w, same_tables w (with_part s w)) → preserves (same_tables w0) (on_part part with_part c).
Proof.
  intros Hp w (Hn & Hs & Hr & Ht). unfold on_part.
  destruct (c (part w)) as [o s]; destruct (Hp s w) as (En & Es & Er & Et);
    destruct o; unfold same_tables; rewrite En, Es, Er, Et; done.
Qed.
Lemma same_tables_docker {A} (c : M (list DockerCall) A) w0 : preserves (same_tables w0) (on_docker c).
Proof. by apply same_tables_part. Qed.
Lemma same_tables_host {A} (c : M Host A) w0 : preserves (same_tables w0) (on_host c).
Proof. by apply same_tables_part. Qed.

(** The tables of [w0], but for the labels of its current node. *)
Definition labelled (w0 w : World) : Prop :=
  w_services w = w_services w0 ∧ w_requests w = w_requests w0 ∧ w_tokens w = w_tokens w0 ∧
  (w_nodes w = w_nodes w0 ∨
   ∃ n labels, GetCurrentNode (w_nodes w0) = Ret n ∧
     rows (w_nodes w) = (λ x, if has_id (node_ID n) x then set_Labels labels x else x)
                          <$> rows (w_nodes w0)).
#[export] Instance labelled_free w0 : TextFree (labelled w0).
Proof. by intros w out err Hw. Qed.
Lemma same_labelled w0 w : same_tables w0 w → labelled w0 w.
Proof. intros (Hn & Hs & Hr & Ht). repeat split; auto. Qed.

Lemma labelled_host {A} (c : M Host A) w0 : preserves (labelled w0) (on_host c).
Proof. intros w Hw. unfold on_host, on_part. by destruct (c (w_host w)) as [[] h]. Qed.
Lemma labelled_reconcile labels w0 : preserves (labelled w0) (ReconcileWithLabels sh sock labels).
Proof.
  assert (∀ f s c, preserves (labelled w0) (or_fail f s c)) as Hf.
  { intros f s c. apply preserves_bind; [apply preserves_attempt, labelled_host|].
    intros [e|u]; auto with preserves typeclass_instances. }
  apply preserves_bind; [by intros w Hw|]. intros w. cbn zeta.
  repeat case_match; auto with preserves; apply preserves_bind; auto with preserves typeclass_instances.
Qed.

(** Labels are only ever written to the current node's row. *)
Lemma labels_of_current n labels w0 :
  GetCurrentNode (w_nodes w0) = Ret n →
  triple (same_tables w0) (on_nodes (UpdateLabels (node_ID n) labels)) (λ _, labelled w0) (labelled w0).
Proof.
  intros Hn w (En & Es & Er & Et). unfold on_nodes, on_part. rewrite En.
  destruct (UpdateLabels (node_ID n) labels (w_nodes w0)) as [o t'] eqn:Hu.
  assert (w_nodes w0 = t' ∨ rows t' = (λ x, if has_id (node_ID n) x then set_Labels labels x else x)
                          <$> rows (w_nodes w0)) as Hrows.
  { unfold UpdateLabels in Hu. destruct o as [[]|e|p|p].
    - right. apply transaction_commit in Hu. unfold updateNodeLabels in Hu.
      apply M_bind_Ret_inv in Hu as (k & t1 & Hup & Hrun). apply update_rows in Hup as [_ Hr]; [|done].
      destruct (k =? 0); [done|]. by injection Hrun as <-.
    - left. symmetry. by eapply transaction_fail.
    - left. symmetry. by eapply transaction_fail.
    - left. symmetry. by eapply transaction_fail. }
  assert (labelled w0 (with_nodes t' w)) as Hl; [|by destruct o].
  repeat split; [done..|]. destruct Hrows as [->|Hr]; [by left|right; eauto].
Qed.

Lemma ensure_tables w0 :
  preserves (same_tables w0) (ensureDockerNetworkIsAttachedToAllContainers daemon).
Proof.
  apply preserves_bind; [auto with preserves typeclass_instances|]. intros [].
  apply preserves_complain; [apply _|apply same_tables_docker|]. auto with preserves typeclass_instances.
Qed.

Lemma reconcile_tables api n w0 :
  preserves (same_tables w0) (reconcileGatewayServicesWithDockerLabels daemon http order api n).
Proof.
  apply preserves_complain; [apply _|auto with preserves|]. intros l. cbn zeta.
  apply preserves_bind; [auto with preserves typeclass_instances|]. intros [].
  apply preserves_complain; [apply _|apply same_tables_docker|]. intros m.
  do 3 (apply preserves_bind; [solve [auto with preserves typeclass_instances]|intros []]).
  apply preserves_bind; [|intros []; apply preserves_bind; [|intros []]].
  - apply preserves_foreach. intros c. destruct (candidate _ _ c); cbn [tell];
      auto with preserves typeclass_instances.
  - apply preserves_foreach. intros s. apply preserves_complain; auto with preserves typeclass_instances.
  - apply preserves_foreach. intros s. apply preserves_bind; [auto with preserves|].
    intros [e|r]; cbn beta zeta; [|case_match]; auto with preserves typeclass_instances.
Qed.

Lemma refresh_labels api n w0 :
  GetCurrentNode (w_nodes w0) = Ret n →
  triple (same_tables w0) (refreshNodeConfig sh sock http api n) (λ _, labelled w0) (labelled w0).
Proof.
  intros Hn.
  assert (∀ text, triple (same_tables w0) (print_err text) (λ _, labelled w0) (labelled w0)) as Herr.
  { intros text w Hw. by apply labelled_free, same_labelled. }
  eapply (triple_complain _ _ _ (λ _, same_tables w0)); [apply _| |].
  { apply triple_lift; [done|]. intros w Hw. by apply same_labelled. }
  intros r. destruct (nc_NodeConfig r) as [c|]; [|apply Herr].
  destruct (bool_decide_reflect (node_ID c = node_ID n)) as [->|]; cbn [negb]; [|apply Herr].
  eapply (triple_complain _ _ _ (λ _, labelled w0)); [apply _|by apply labels_of_current|].
  intros []. apply preserves_bind; [auto with preserves typeclass_instances|intros []].
  apply labelled_reconcile.
Qed.

(** C17: a server's round changes nothing in its database but the labels of its own node: the
    services, requests and tokens stay, and so does every other node and every other part
    of this one, whatever the gateway, the docker daemon and the scripts do. *)
Theorem server_round_labels api w o w' :
  server_round daemon sh sock http order api w = (o, w') → labelled w w'.
Proof.
  intros Hrun. refine (triple_any (same_tables w) _ (labelled w) _ _ _ _ _ Hrun); [|by repeat split].
  eapply (triple_complain _ _ _ (λ n w1, same_tables w w1 ∧ GetCurrentNode (w_nodes w) = Ret n));
    [apply _| |].
  { intros w1 Hw1. unfold on_nodes, on_part, query. rewrite with_nodes_same.
    destruct (GetCurrentNode (w_nodes w1)) as [n|e|p|p] eqn:E; try by apply same_labelled.
    split; [done|]. by rewrite (proj1 Hw1) in E. }
  intros n w1 [Hw1 Hn]. revert w1 Hw1.
  eapply triple_bind with (Q := λ _, same_tables w);
    [eapply triple_conseq; [apply ensure_tables|done|done|apply same_labelled]|]. intros [].
  eapply triple_bind with (Q := λ _, same_tables w);
    [eapply triple_conseq; [apply reconcile_tables|done|done|apply same_labelled]|]. intros [].
  by apply refresh_labels.
Qed.
End round_properties.
#[export] Hint Resolve same_tables_docker same_tables_host labelled_reconcile : preserves.

(** ** At work *)

(** A container that declares a service, and one that has lost its labels. *)
Definition web_labels : Labels :=
  {[ wireportServiceLocalLabel := "http://web:8080";
     wireportServicePublicLabel := "https://demo.example.com" ]}.
Definition demo_labels : gmap string Labels := {[ "web" := web_labels; "db" := ∅ ]}.
Definition db_service : PublicService :=
  MkPublicService (Some "s1") "tcp" "db" 5432 "tcp" "203.0.113.7" 32420 [].
Definition web_service : PublicService :=
  MkPublicService (Some "s1") "http" "web" 8080 "https" "demo.example.com" 443 [].

(** A gateway that lists the service of [db] and answers every call, and a daemon that runs
    [web] and [db]. *)
Definition listing_json : ApiJson :=
  let said {A} (x : A) : Json A := {| json_Marshal _ := Ret [42]; json_Unmarshal _ := Ret x |} in
  Build_ApiJson (said (MkExecResponse "" "")) no_json no_json no_json no_json no_json no_json no_json
    no_json no_json no_json (said (MkServicePublishRequest "" "" 0 "" "" 0))
    (said (MkServiceUnpublishRequest "" "" 0))
    (said (MkServiceListRequest (MkExecResponse "" "") [db_service])) no_json no_json no_json.
Definition answering_gateway : Transport := λ _ _ _, HttpResponse 200 [42].
Definition labelled_daemon : Daemon := {|
  Hostname := inr "2"; does _ _ := None;
  inspects _ id := inr (MkInspect "" None (if bool_decide (id = "2") then Some web_labels else None));
  lists h := inr (demo_containers h);
  IsConflict _ := false; IsPermissionDenied _ := false; IsNotFound _ := false |}.
Definition gateway_api : APICommandsService :=
  MkAPI "203.0.113.7" 4060 (Some (jr_ClientCertBundle sample_request)).

Lemma listing_answers s :
  ends (asks_unpublish (AJ := listing_json) answering_gateway gateway_api s) ∧
  ends (asks_publish (AJ := listing_json) answering_gateway gateway_api s).
Proof. split; left; eexists; vm_compute; reflexivity. Qed.
Lemma listing_listed :
  Api.ServiceList (AJ := listing_json) answering_gateway gateway_api
  = Ret (MkServiceListRequest (MkExecResponse "" "") [db_service]).
Proof. vm_compute. reflexivity. Qed.
Lemma listing_labels :
  ListAllContainerLabels labelled_daemon []
  = (Ret {[ "wireport-gateway" := ∅; "web" := web_labels; "db" := ∅ ]},
     (ListAllContainerLabels labelled_daemon []).2).
Proof. apply run_outcome. vm_compute. reflexivity. Qed.

(** The service of [db] has lost its labels and goes; that of [web] is new. *)
Lemma reconcile_runs_witness :
  let w' := (reconcileGatewayServicesWithDockerLabels (AJ := listing_json) labelled_daemon
    answering_gateway map_to_list gateway_api joining_server fresh_world).2 in
  w_nodes w' = w_nodes fresh_world ∧ w_err w' = "" ∧
  w_out w' = "Retrieved 1 services from gateway node" +:+ newline +:+
    "Retrieved labels for 3 containers" +:+ newline +:+
    "Retrieved 1 services published by current node" +:+ newline +:+
    "Service tcp://db:5432 is published by the node, but labels are not set anymore - to be unpublished" +:+
    newline +:+ "Unpublished service tcp://203.0.113.7:32420" +:+ newline +:+
    "Published service http://web:8080 -> https://demo.example.com:443" +:+ newline.
Proof.
  destruct (@reconcile_runs _ _ _ _ _ listing_json labelled_daemon answering_gateway map_to_list
    gateway_api joining_server fresh_world (λ _, reflexivity _) listing_answers) as [_ Hlist].
  destruct (Hlist _ listing_listed) as [_ Hm].
  destruct (Hm _ _ listing_labels) as (published & gone & new & _ & _ & _ & _ & _ & Hrun).
  split; [rewrite Hrun; reflexivity|]. split; vm_compute; reflexivity.
Defined.

(** The server of the demo network asks the gateway, which has a label for it. *)
Definition labelled_server : Node := set_Labels [DockerSocketPublishedLabel] joining_server.
#[export] Instance NodeConfigRequestDTO_eq_dec : EqDecision NodeConfigRequestDTO.
Proof. solve_decision. Defined.
#[export] Instance NodeConfigResponseDTO_eq_dec : EqDecision NodeConfigResponseDTO.
Proof. solve_decision. Defined.
Definition config_json : ApiJson :=
  Build_ApiJson no_json no_json no_json no_json no_json no_json no_json no_json no_json
    (one_value_json MkNodeConfigRequest)
    (one_value_json (MkNodeConfigResponse (MkExecResponse "" "") (Some labelled_server)))
    no_json no_json no_json no_json no_json no_json.
Definition config_gateway : Transport := λ _ url _,
  if bool_decide (url = "https://203.0.113.7:4060/commands/node/config")
  then HttpResponse 200 [42] else NoResponse "EOF".
Definition server_row : Node := set_IsCurrentNode true joining_server.
Lemma server_row_keyed : keyedb ({[ "s1" := server_row ]} : gmap string Node) = true.
Proof. vm_compute. reflexivity. Qed.
Definition server_world : World :=
  with_nodes (exist _ ({[ "s1" := server_row ]} : gmap string Node) server_row_keyed : demo_table)
    fresh_world.

Lemma server_round_labels_witness :
  let w' := (server_round (R := toy_raymond) (AJ := config_json) demo_daemon
    (λ _ _, None) demo_socket config_gateway map_to_list
    (MkAPI "203.0.113.7" 4060 (Some (jr_ClientCertBundle sample_request))) server_world).2 in
  labelled server_world w' ∧ rows (w_nodes w') !! "s1" = Some (set_Labels [DockerSocketPublishedLabel] server_row).
Proof.
  split; [|vm_compute; reflexivity].
  exact (@server_round_labels _ _ _ _ _ toy_raymond _ config_json demo_daemon (λ _ _, None)
    demo_socket config_gateway map_to_list
    (MkAPI "203.0.113.7" 4060 (Some (jr_ClientCertBundle sample_request))) server_world _ _
    (surjective_pairing _)).
Defined.
