(* ===== verification/Machines.v ===== *)
(** * Gateways and servers over ssh

    The operations of [internal/commands/local_gateway.go] and of
    [internal/commands/local_server.go] that bring a machine into the network, take it out,
    upgrade it and look at it, and the start of a gateway. *)
From S2P Require Import Prelude GoStrings GoNet Mtls NodeTypes Gorm.
From S2P Require Import NodesRepo PublicServices NodeConfigs JoinStore NetworkApps.
From S2P Require Import NodesDemo Aes CommandTypes JoinClient Docker Ssh.
From S2P Require Import World LocalJoin LocalService LocalNodes ApiCommands Commands.

(** [   Status: <text>] and what follows an error. *)
Definition status (text : string) : string := "   Status: " +:+ text +:+ newline.
Definition error_lines (err : error) : string :=
  "   Error:  " +:+ error_text err +:+ newline +:+ newline.
Definition hint (text : string) : string := "   💡 " +:+ text +:+ newline.
Definition para (text : string) : string := text +:+ newline +:+ newline.

(** [   <who>: <user>@<host>:<port>] *)
Definition login (creds : Credentials) : string :=
  cred_Username creds +:+ "@" +:+ cred_Host creds +:+ ":" +:+ Itoa (cred_Port creds).
Definition machine (who : string) (creds : Credentials) : string :=
  "   " +:+ who +:+ ": " +:+ login creds +:+ newline.

Section machines.
  Context `{GN : Gorm string Node} `{GS : Gorm ServiceKey PublicService}
    `{GR : Gorm string JoinRequest} `{GT : Gorm string JoinToken} `{R : Raymond} `{X : X509}
    `{SL : SshLib} `{JQ : Json JoinRequest} `{JD : Json JoinRequestDTO} `{JP : Json JoinResponseDTO}
    `{AJ : ApiJson}.
  Context (paths : ConfigPaths) (sh : nat → string → option string) (env : JoinEnv) (http : Transport).

Section report.
  (** where the report is printed *)
  Context (say : string → M World unit).

(** [x, err := c(); if err != nil { report it; return }] *)
Definition or_report {A} (failure : string) (c : M World A) (k : A → M World unit) : M World unit :=
  r ← attempt c;
  match r with
  | inl err => say (failure +:+ error_lines err)
  | inr a => k a
  end.

(** The connection every command starts with. *)
Definition connected (title who : string) (creds : Credentials) (k : Service → M World unit)
    : M World unit :=
  _ ← say (title +:+ machine who creds);
  or_report (status "❌ Failed") (lift (Connect creds)) (λ s,
  _ ← say (para "   Status: ✅ Connected");
  k s).

(** The checks for docker, up to the one for the container. *)
Definition docker_checks (s : Service) (k : M World unit) : M World unit :=
  _ ← say ("🐳 Docker Installation" +:+ newline);
  or_report (status "❌ Check Failed") (on_remote (IsDockerInstalled s)) (λ dockerInstalled,
  if negb dockerInstalled
  then say (para "   Status: ❌ Not Installed" +:+
            para "💡 Install Docker to continue with wireport setup.")
  else
    _ ← say (status "✅ Installed");
    v ← attempt (on_remote (GetDockerVersion s));
    _ ← match v with
        | inr dockerVersion => say ("   Version: " +:+ dockerVersion +:+ newline)
        | inl _ => mret tt
        end;
    _ ← say "   Permissions: ";
    or_report ("❌ Check Failed" +:+ newline) (on_remote (IsDockerAccessible s)) (λ dockerAccessible,
    if negb dockerAccessible
    then say ("❌ User lacks permissions" +:+ newline +:+ para "💡 Add user to docker group.")
    else
      _ ← say ("✅ User has access" +:+ newline +:+ newline);
      k)).

(** The container's state, and its details if there are any. *)
Definition container_checks (title advice : string) (isRunning : M Remote bool)
    (getStatus : M Remote string) (k : M World unit) : M World unit :=
  _ ← say (title +:+ newline);
  or_report (status "❌ Check Failed") (on_remote isRunning) (λ isRunning,
  _ ← say (status (if isRunning : bool then "✅ Running" else "❌ Not Running"));
  d ← attempt (on_remote getStatus);
  _ ← match d with
      | inr containerStatus =>
          if negb (bool_decide (containerStatus = ""))
          then say ("   Details: " +:+ containerStatus +:+ newline) else mret tt
      | inl _ => mret tt
      end;
  _ ← (if isRunning then mret tt else say advice);
  _ ← say newline;
  k).
End report.

(** [s.GatewayStatus(creds, stdOut)] *)
Definition GatewayStatus (creds : Credentials) : M World unit :=
  connected print_out
    ("🔍 Checking wireport Gateway Status" +:+ newline +:+
     para "================================" +:+ "📡 SSH Connection" +:+ newline)
    "Gateway" creds (λ s,
  docker_checks print_out s
    (container_checks print_out "🚀 wireport Gateway Status"
       (hint ("Run 'wireport gateway up " +:+ login creds +:+
              "' to bootstrap wireport gateway and start it."))
       (IsWireportGatewayContainerRunning s) (GetWireportContainerStatus s)
       (print_out ("✨ Gateway Status check completed successfully!" +:+ newline)))).

(** [s.ServerStatus(creds, stdOut)] *)
Definition ServerStatus (creds : Credentials) : M World unit :=
  connected print_out
    ("🔍 Checking wireport Server Status" +:+ newline +:+
     para "==================================" +:+ "📡 SSH Connection" +:+ newline)
    "Server" creds (λ s,
  docker_checks print_out s
    (container_checks print_out "🚀 wireport Server Status"
       (hint ("Run 'wireport server up " +:+ login creds +:+
              "' to bootstrap wireport server and start it."))
       (IsWireportServerContainerRunning s) (GetWireportServerContainerStatus s)
       (_ ← print_out ("🌐 wireport Docker Network" +:+ newline);
        or_report print_out (status "❌ Check Failed") (on_remote (GetWireportNetworkStatus s))
          (λ networkStatus,
        _ ← (if negb (bool_decide (networkStatus = ""))
             then print_out ("   Network: ✅ '" +:+ TrimSpace networkStatus +:+ "' exists" +:+ newline)
             else print_out ("   Network: ❌ " +:+ DockerNetworkName +:+ " not found" +:+ newline +:+
                             "💡 Network will be created when wireport server starts." +:+ newline));
        print_out (newline +:+ "✨ Server Status check completed successfully!" +:+ newline))))).

(** [clientJoinToken[:20]] *)
Definition first_20 (s : string) : Out string :=
  if (String.length s <? 20)%nat then Panic "slice bounds out of range [:20]"
  else Ret (String.substring 0 20 s).

(** [s.GatewayUp(creds, image, imageTag, stdOut, errOut)]; its report goes to [errOut]. *)
Definition GatewayUp (creds : Credentials) (image imageTag : string) : M World unit :=
  connected print_err
    ("🚀 wireport Gateway Bootstrapping" +:+ newline +:+ para "=================================" +:+
     "📡 Connecting to gateway..." +:+ newline) "Gateway" creds (λ s,
  _ ← print_err ("🔍 Checking current status..." +:+ newline);
  or_report print_err (status "❌ Check Failed") (on_remote (IsWireportGatewayContainerRunning s))
    (λ isRunning,
  if isRunning : bool
  then print_err (status "✅ Already Running" +:+
         para "   💡 wireport gateway container is already running on this gateway and bootstrapping is not required.")
  else
    _ ← print_err (status "❌ Not Running" +:+ para "   💡 Proceeding with installation..." +:+
                   "📦 Installing wireport gateway..." +:+ newline +:+ machine "Gateway" creds);
    or_report print_err (status "❌ Installation Failed")
      (on_remote (InstallWireportGateway s image imageTag)) (λ '(_, clientJoinToken),
    _ ← print_err (para "   Status: ✅ Installation Completed" +:+
                   "✅ Verifying installation..." +:+ newline);
    or_report print_err (status "❌ Verification Failed")
      (on_remote (IsWireportGatewayContainerRunning s)) (λ installationConfirmed,
    _ ← (if installationConfirmed : bool
         then print_err (status "✅ Verified Successfully, Running" +:+
                para "   🎉 wireport has been successfully installed and started on the gateway!")
         else print_err (status "❌ Verified Failed" +:+
                para "   💡 wireport container was not found running after installation."));
    _ ← match clientJoinToken with
        | Some token =>
            shown ← lift (first_20 token);
            _ ← print_err ("   🔑 Applying Client Join Token: " +:+ shown +:+ "..." +:+ newline);
            _ ← Join paths sh env token;
            print_err (para "   ✅ Client Join Token Applied")
        | None => mret tt
        end;
    print_err ("✨ Gateway Bootstrapping completed successfully!" +:+ newline))))).

(** [s.GatewayDown(creds, ..)]: the remote execution, and the check in front of it. *)
Definition gateway_down_over_ssh (creds : option Credentials) : M World unit :=
  match creds with
  | None => print_err ("Error: SSH credentials are required" +:+ newline)
  | Some creds =>
      connected print_out
        ("🚀 wireport Gateway Teardown" +:+ newline +:+ para "============================" +:+
         "📡 Connecting to gateway..." +:+ newline) "Gateway" creds (λ s,
      or_report print_out (status "❌ Check Failed") (on_remote (IsWireportGatewayContainerRunning s))
        (λ isRunning,
      if negb isRunning
      then print_out (status "❌ Not Running" +:+
                      para "   💡 wireport gateway is not running, teardown is not required")
      else
        _ ← print_out ("🛑 Gateway node Teardown" +:+ newline +:+ machine "Gateway" creds);
        or_report print_out (status "❌ Teardown Failed") (on_remote (TeardownWireportGateway s))
          (λ success,
        if negb success
        then print_out (status "❌ Teardown Failed" +:+ para "   Error:  <nil>")
        else
          _ ← print_out (para "   Status: ✅ Teardown Completed" +:+
                         "🔄 Resetting local state..." +:+ newline);
          or_report print_out (status "❌ Failed") (on_nodes DeleteAll) (λ _,
          print_out (para "   Status: ✅ Completed" +:+
                     "✨ Gateway Teardown completed successfully!" +:+ newline)))))
  end.
Definition GatewayDown (creds : option Credentials) : M World unit :=
  r ← attempt (on_nodes (query GetCurrentNode));
  if match r with inr n => bool_decide (node_Role n = NodeRoleGateway) | inl _ => false end
  then mret tt
  else gateway_down_over_ssh creds.

(** The end of [s.GatewayUpgrade] and [s.ServerUpgrade]. *)
Definition upgraded (what : string) (success : bool) : string :=
  if success
  then status "✅ Upgraded Successfully" +:+
       para ("   🎉 wireport " +:+ what +:+ " node has been successfully upgraded!")
  else status "❌ Failed" +:+
       para "   💡 Upgrade process completed but may not have been successful.".
Definition GatewayUpgrade (creds : Credentials) (image imageTag : string) : M World unit :=
  connected print_out
    ("🔄 wireport Gateway Upgrade" +:+ newline +:+ para "===========================" +:+
     "📡 Connecting to gateway..." +:+ newline) "Gateway" creds (λ s,
  _ ← print_out ("🔄 Upgrading wireport gateway..." +:+ newline +:+ machine "Gateway" creds);
  or_report print_out (status "❌ Failed") (on_remote (UpgradeWireportGateway s image imageTag))
    (λ success,
  print_out (upgraded "gateway" success +:+ "✨ Gateway Upgrade completed!" +:+ newline))).
Definition ServerUpgrade (creds : Credentials) (image imageTag : string) : M World unit :=
  connected print_out
    ("🔄 wireport Server Upgrade" +:+ newline +:+ para "==========================" +:+
     "📡 Connecting to server..." +:+ newline) "Server" creds (λ s,
  _ ← print_out ("🔄 Upgrading wireport server..." +:+ newline +:+ machine "Server" creds);
  or_report print_out (status "❌ Failed") (on_remote (UpgradeWireportServer s image imageTag))
    (λ success,
  print_out (upgraded "server" success +:+ "✨ Server Upgrade completed!" +:+ newline))).

(** [s.ServerUp(creds, ..)]: the token comes from the command [server new]; [elapsed] are the
    times at which the wait for the server looks at the clock. *)
Definition ServerUp (cenv : CommandEnv) (elapsed : nat → Z) (creds : Credentials)
    (image imageTag dockerSubnet : string) : M World unit :=
  connected print_out
    ("🚀 wireport Server Bootstrapping" +:+ newline +:+ para "================================" +:+
     "📡 Connecting to server..." +:+ newline) "Server" creds (λ s,
  '(_, stdOutWriter, errOutWriter) ← buffered (Cmd.ServerNew http cenv false true dockerSubnet);
  if (0 <? String.length errOutWriter)%nat || (String.length stdOutWriter =? 0)%nat then
    _ ← print_err (errOutWriter +:+ newline);
    print_out (stdOutWriter +:+ newline +:+
               "❌ Failed to connect server node to the wireport network" +:+ newline)
  else
    let serverJoinToken := stdOutWriter in
    _ ← print_out ("📦 Installing wireport server..." +:+ newline +:+ machine "Server" creds);
    or_report print_out (status "❌ Connection Failed")
      (on_remote (InstallWireportServer s serverJoinToken image imageTag)) (λ _,
    _ ← print_out (para "   Status: ✅ Connection Completed" +:+
                   "✅ Verifying installation..." +:+ newline);
    or_report print_out (status "❌ Verification Failed")
      (on_remote (IsWireportServerContainerRunning s)) (λ installationConfirmed,
    if negb installationConfirmed
    then print_out (status "❌ Verification Failed" +:+
           para ("   💡 Server node container was not found running after installation. Check logs on the server: docker logs "
                 +:+ WireportServerContainerName))
    else
      _ ← print_out (
        "   Container: ✅ Running" +:+ newline +:+
        "   Waiting for server to join the wireport network (up to 3 minutes)..." +:+ newline +:+
        hint "If this takes too long:" +:+
        "      - Check firewalls on the server host (outbound) AND the gateway host (inbound)" +:+ newline +:+
        "      - Firewall setup details: " +:+ je_DocumentationURL env +:+ newline +:+
        para ("      - If firewalls look correct, inspect server container logs: docker logs -f "
              +:+ WireportServerContainerName));
      or_report print_out (status "❌ Verification Failed")
        (on_remote (WaitForWireportServerJoined s paths elapsed (3 * 60 * Second))) (λ joined,
      if joined : bool
      then print_out (
        "   Network: ✅ Joined successfully" +:+ newline +:+
        para "   🎉 Server has been successfully installed and connected to the wireport network!" +:+
        "✨ Server Bootstrapping completed successfully!" +:+ newline)
      else
        _ ← print_out (
          para "   Network: ❌ Not joined yet" +:+
          "   The server container is running but could not reach the gateway to complete setup." +:+ newline +:+
          para "   Common causes: gateway not reachable, or firewall rules on the server (outbound) or gateway (inbound)." +:+
          ConnectivityRequirementsText +:+
          para ("   More detail: " +:+ je_DocumentationURL env) +:+
          "   After opening ports, the server will retry joining automatically — no container restart needed." +:+ newline +:+
          para ("   Monitor progress: docker logs -f " +:+ WireportServerContainerName));
        print_err ("Server bootstrap incomplete: container is running but the server has not joined the wireport network yet"
                   +:+ newline))))).

(** [s.ServerDown(creds, ..)] *)
Definition ServerDown (creds : option Credentials) : M World unit :=
  or_complain "Error getting current node: " (on_nodes (query GetCurrentNode)) (λ currentNode,
  if bool_decide (node_Role currentNode = NodeRoleServer) then
    or_complain "Error detaching docker network: "
      (on_docker (DetachDockerNetworkFromAllContainers (je_daemon env))) (λ _,
    or_complain "Error removing docker network: " (on_docker (RemoveDockerNetwork (je_daemon env)))
      (λ _, mret tt))
  else
    match creds with
    | None => print_err ("Error: SSH credentials are required" +:+ newline)
    | Some creds =>
        connected print_out
          ("🚀 wireport Server Teardown" +:+ newline +:+ para "===========================" +:+
           "📡 Connecting to server..." +:+ newline) "Server" creds (λ s,
        or_report print_out (status "❌ Check Failed") (on_remote (IsWireportServerContainerRunning s))
          (λ isRunning,
        if negb isRunning
        then print_out (status "❌ Not Running" +:+ para "   💡 wireport server is not running")
        else
          _ ← print_out ("🛑 Server node Teardown" +:+ newline +:+ machine "Server" creds);
          or_report print_out (status "❌ Teardown Failed") (on_remote (TeardownWireportServer s)) (λ _,
          print_out (para "   Status: ✅ Teardown Completed" +:+
                     "✨ Server Teardown completed successfully!" +:+ newline))))
    end).

(** The rest of [GatewayStart] once the gateway has its certificates; [serves] is the error
    the control server ends with. The goroutine that runs the server has a variable in
    common with what is modelled here, the error, and is taken to run when everything else
    is done; [Startup.v] has the two run at the same time. *)
Definition start_gateway (serves : TLSConfig → string) (gatewayPublicIP : string)
    (gatewayStartConfigureOnly : bool) (gatewayNode : Node) (b : FullGatewayBundle) : M World unit :=
  or_complain "Failed to list services: " (on_services (query GetAllServices)) (λ publicServices,
  or_complain "Failed to save configs: "
    (on_disk (SaveConfigs paths gatewayNode publicServices true)) (λ _,
  if gatewayStartConfigureOnly
  then print_out ("wireport has been configured on the gateway: " +:+ gatewayPublicIP +:+ newline)
  else
    _ ← print_out ("wireport server has started with mTLS on gateway: " +:+ gatewayPublicIP +:+
                   newline);
    match GetServerTLSConfig b with
    | Ret tls => print_err ("Server error: " +:+ serves tls +:+ newline)
    | Throw err =>
        print_err ("Server error: Failed to get TLS config for the gateway control server: " +:+
                   error_text err +:+ newline)
    | Panic why => lift (Panic why)
    | Exited why => lift (Exited why)
    end)).

(** [s.GatewayStart(gatewayPublicIP, ..)] *)
Definition GatewayStart (create : CreateEnv) (serves : TLSConfig → string) (gatewayPublicIP : string)
    (gatewayStartConfigureOnly : bool) : M World unit :=
  or_complain "wireport gateway node start failed: "
    (on_nodes (EnsureGatewayNode create (ParseIP gatewayPublicIP) WGPublicPort gatewayPublicIP
                 ControlServerPort)) (λ gatewayNode,
  match node_GatewayCertBundle gatewayNode with
  | None => print_err ("wireport gateway node start failed: no gateway cert bundle found" +:+ newline)
  | Some b => start_gateway serves gatewayPublicIP gatewayStartConfigureOnly gatewayNode b
  end).
End machines.

(** ** Properties *)

Section properties.
  Context {GN : Gorm string Node} {LN : GormLaws string Node} {GS : Gorm ServiceKey PublicService}
    {GR : Gorm string JoinRequest} {GT : Gorm string JoinToken} {R : Raymond} {X : X509}
    {SL : SshLib} {JQ : Json JoinRequest} {JD : Json JoinRequestDTO} {JP : Json JoinResponseDTO}.

Lemma or_report_Ret {A} say failure (c : M World A) k w a w' :
  c w = (Ret a, w') → or_report say failure c k w = k a w'.
Proof. intros Hrun. unfold or_report, mbind, M_bind, attempt. by rewrite Hrun. Qed.

(** A step of a report ends it, having changed what the step changed, or goes on. *)
Lemma or_report_inv {A} failure (c : M World A) k w o w' :
  or_report print_out failure c k w = (o, w') →
  (∃ out w1, (∀ a, (c w).1 ≠ Ret a) ∧ (c w).2 = w1 ∧ w' = with_text out (w_err w1) w1) ∨
  ∃ a w1, c w = (Ret a, w1) ∧ k a w1 = (o, w').
Proof.
  unfold or_report, mbind, M_bind, attempt. destruct (c w) as [[a|e|p|p] w1]; cbn [fst snd].
  - eauto.
  - intros [= _ <-]. left. do 2 eexists. split; [done|]. split; [reflexivity|done].
  - intros [= _ <-]. left. exists (w_out w1), w1. split; [done|]. split; [done|by destruct w1].
  - intros [= _ <-]. left. exists (w_out w1), w1. split; [done|]. split; [done|by destruct w1].
Qed.

Lemma remote_nodes {A} (c : M Remote A) w o w' :
  on_remote c w = (o, w') → w_nodes w' = w_nodes w ∧ c (w_remote w) = (o, w_remote w').
Proof. unfold on_remote, on_part. destruct (c (w_remote w)) as [o1 r]. by intros [= <- <-]. Qed.

Lemma remote_left {A} (c : M Remote A) w : w_nodes (on_remote c w).2 = w_nodes w.
Proof. unfold on_remote, on_part. by destruct (c (w_remote w)). Qed.

Lemma connected_inv title who creds k w o w' :
  connected print_out title who creds k w = (o, w') →
  (w_nodes w' = w_nodes w) ∨
  ∃ s w1, Connect creds = Ret s ∧ w_nodes w1 = w_nodes w ∧ w_remote w1 = w_remote w ∧ k s w1 = (o, w').
Proof.
  unfold connected. erewrite M_bind_Ret by reflexivity.
  intros [(out & w1 & _ & Hw & ->)|(s & w1 & Hc & Hrun)]%or_report_inv.
  - left. rewrite <- Hw. unfold lift. reflexivity.
  - right. unfold lift in Hc. injection Hc as Hc <-. erewrite M_bind_Ret in Hrun by reflexivity.
    exists s. eexists. split; [exact Hc|]. split; [|split; [|exact Hrun]]; done.
Qed.

(** A database is emptied over ssh only. *)
Lemma over_ssh_wipes creds w o w' :
  gateway_down_over_ssh creds w = (o, w') →
  w_nodes w' = w_nodes w ∨
  ∃ c before script out err, creds = Some c ∧
    render DownGatewayScriptTemplatePath (Vars (gateway_vars WireportGatewayContainerImage)) = Ret script ∧
    IsWireportGatewayContainerRunning (Some c) (w_remote w) = (Ret true, before) ∧
    success c (rm_ran before) script out err ∧
    rm_ran (w_remote w') = rm_ran before ++ [here c script] ∧
    (DeleteAll (w_nodes w)).2 = w_nodes w'.
Proof.
  unfold gateway_down_over_ssh. intros Hrun.
  destruct creds as [c|]; [|injection Hrun as _ <-; by left].
  apply connected_inv in Hrun as [|(s & w1 & Hs & Ew & Er & Hrun)]; [by left|].
  assert (s = Some c) as ->.
  { unfold Connect in Hs. repeat (apply bind_Ret_inv in Hs as (? & _ & Hs)). by injection Hs. }
  apply or_report_inv in Hrun as [(out & w2 & _ & E2 & ->)|(b & w2 & Hb & Hrun)].
  { left. cbn [w_nodes with_text]. by rewrite <- E2, remote_left. }
  apply remote_nodes in Hb as [En2 Hb]. destruct b; cbn [negb] in Hrun.
  2: { injection Hrun as _ <-. left. cbn [w_nodes with_text]. congruence. }
  erewrite M_bind_Ret in Hrun by reflexivity.
  apply or_report_inv in Hrun as [(out & w3 & _ & E3 & ->)|(ok & w3 & Hok & Hrun)].
  { left. cbn [w_nodes with_text]. rewrite <- E3, remote_left. cbn [w_nodes with_text]. congruence. }
  apply remote_nodes in Hok as [En3 Hok]. cbn [w_remote with_text w_nodes] in *.
  unfold TeardownWireportGateway in Hok.
  apply M_bind_Ret_inv in Hok as (res & r3 & Hscript & [= <- Hr3]).
  apply run_script_inv in Hscript as (script & out & err & Hrender & -> & Hsucc & _).
  cbn [negb] in Hrun. erewrite M_bind_Ret in Hrun by reflexivity.
  assert (w_remote w' = w_remote w3 ∧ (DeleteAll (w_nodes w3)).2 = w_nodes w') as [Er3 Hdel].
  { apply or_report_inv in Hrun as [(out' & w4 & _ & E4 & ->)|(u & w4 & Hu & Hrun)].
    - rewrite <- E4. unfold on_nodes, on_part. cbn. by destruct (DeleteAll _) as [? ?].
    - injection Hrun as _ <-. unfold on_nodes, on_part in Hu. cbn in Hu.
      destruct (DeleteAll (w_nodes w3)) as [o1 t]. by injection Hu as _ <-. }
  right. exists c, (w_remote w2), script, out, err. rewrite <- Er.
  split; [done|]. split; [done|]. split; [exact Hb|]. split; [done|].
  split; [by rewrite Er3, <- Hr3|]. rewrite <- Hdel. f_equal. f_equal. congruence.
Qed.

(** C25: tearing a gateway down forgets nothing too early.  On a node that is read as a gateway
    [GatewayDown] does nothing at all.  Otherwise a database is emptied only over ssh to a
    machine whose gateway container was running, and after the script that removes it has
    succeeded there.  "Otherwise" is a node of another role, and also one that cannot be
    read: the error is not looked at, so that a gateway whose look-up fails is no
    exception. *)
Theorem GatewayDown_wipes creds w o w' :
  GatewayDown creds w = (o, w') →
  (∀ n, GetCurrentNode (w_nodes w) = Ret n → node_Role n = NodeRoleGateway → w' = w) ∧
  (w_nodes w' = w_nodes w ∨
  ((∃ n, GetCurrentNode (w_nodes w) = Ret n ∧ node_Role n ≠ NodeRoleGateway) ∨
   (∃ e, GetCurrentNode (w_nodes w) = Throw e)) ∧
  ∃ c before script out err, creds = Some c ∧
    render DownGatewayScriptTemplatePath (Vars (gateway_vars WireportGatewayContainerImage)) = Ret script ∧
    IsWireportGatewayContainerRunning (Some c) (w_remote w) = (Ret true, before) ∧
    success c (rm_ran before) script out err ∧
    rm_ran (w_remote w') = rm_ran before ++ [here c script] ∧
    (DeleteAll (w_nodes w)).2 = w_nodes w').
Proof.
  unfold GatewayDown. intros Hrun.
  assert (attempt (on_nodes (query GetCurrentNode)) w
    = match GetCurrentNode (w_nodes w) with
      | Ret n => (Ret (inr n), w) | Throw e => (Ret (inl e), w)
      | Panic p => (Panic p, w) | Exited p => (Exited p, w)
      end) as Hcur.
  { unfold attempt, on_nodes, on_part, query. rewrite with_nodes_same.
    by destruct (GetCurrentNode (w_nodes w)). }
  unfold mbind at 1, M_bind at 1 in Hrun. rewrite Hcur in Hrun. clear Hcur.
  split.
  { intros n E Hrole. rewrite E, bool_decide_eq_true_2 in Hrun by done. by injection Hrun. }
  destruct (GetCurrentNode (w_nodes w)) as [n|e|p|p] eqn:E; [..|injection Hrun as _ <-; by left|
    injection Hrun as _ <-; by left].
  - case_bool_decide; [injection Hrun as _ <-; by left|].
    apply over_ssh_wipes in Hrun as [|Hwiped]; [by left|right]. split; [eauto|exact Hwiped].
  - apply over_ssh_wipes in Hrun as [|Hwiped]; [by left|right]. split; [eauto|exact Hwiped].
Qed.

(** The end of bringing a gateway up does not look at how it went: once the gateway hands
    out a client token, a token shorter than 20 characters ends the program before the
    join, and after any other the token is reported as applied and the bootstrapping as
    completed, whether or not the join that was made succeeded. *)
Theorem GatewayUp_reports paths sh env creds image tag w s r1 r2 r3 ok token confirmed :
  Connect creds = Ret s →
  IsWireportGatewayContainerRunning s (w_remote w) = (Ret false, r1) →
  InstallWireportGateway s image tag r1 = (Ret (ok, Some token), r2) →
  IsWireportGatewayContainerRunning s r2 = (Ret confirmed, r3) →
  ∃ w1, w_nodes w1 = w_nodes w ∧ w_remote w1 = r3 ∧
    ((String.length token < 20)%nat →
       GatewayUp paths sh env creds image tag w = (Panic "slice bounds out of range [:20]", w1)) ∧
    ((20 <= String.length token)%nat → ∃ w2, w_nodes w2 = w_nodes w ∧
       ∀ joined w3, Join paths sh env token w2 = (Ret joined, w3) →
       GatewayUp paths sh env creds image tag w
       = (Ret tt, with_text (w_out w3) (w_err w3 +:+ para "   ✅ Client Join Token Applied" +:+
            "✨ Gateway Bootstrapping completed successfully!" +:+ newline) w3)).
Proof.
  intros Hc H1 H2 H3. unfold GatewayUp, connected.
  erewrite M_bind_Ret by reflexivity. erewrite or_report_Ret by (apply lift_Ret; exact Hc). cbn beta.
  do 2 erewrite M_bind_Ret by reflexivity. erewrite or_report_Ret by (apply on_part_Ret; exact H1). cbn beta iota.
  erewrite M_bind_Ret by reflexivity. erewrite or_report_Ret by (apply on_part_Ret; exact H2). cbn beta iota.
  erewrite M_bind_Ret by reflexivity. erewrite or_report_Ret by (apply on_part_Ret; exact H3). cbn beta iota.
  assert (∀ x y : string, (if confirmed then print_err x else print_err y : M World unit)
    = print_err (if confirmed then x else y)) as -> by by destruct confirmed.
  erewrite M_bind_Ret by reflexivity. unfold first_20.
  destruct (Nat.ltb_spec (String.length token) 20) as [Hlt|Hge].
  - eexists. split; [|split; [|split; [intros _; reflexivity|lia]]]; done.
  - eexists (with_remote r3 w). split; [done|]. split; [done|]. split; [lia|]. intros _.
    eexists. split; [|intros joined w3 Hjoin].
    2: { erewrite M_bind_Ret.
         2: { erewrite M_bind_Ret by reflexivity. erewrite M_bind_Ret by reflexivity.
              erewrite M_bind_Ret by exact Hjoin. reflexivity. }
         unfold print_err. cbn [w_out w_err with_text]. by rewrite str_app_assoc. }
    done.
Qed.
End properties.

(** ** At work *)

(** Machines on which every command succeeds and prints [x], and a client that takes its
    gateway down. *)
Definition easy_ssh (x : string) : SshLib := {|
  Signer := list Z;
  ReadKeyFile _ := inl (Errorf "no such file");
  ParsePrivateKey b := inr b;
  ParsePrivateKeyWithPassphrase b _ := inr b;
  DialTimeout _ := None;
  NewClientConn _ _ _ := None;
  TestSession _ := None;
  RemoteRun _ _ _ := Ran x "" RanWell;
|}.
Definition downed : World :=
  (GatewayDown (R := toy_raymond) (SL := easy_ssh "x") (Some sample_creds) client_world).2.

Lemma GatewayDown_wipes_witness :
  w_nodes downed = w_nodes client_world ∨
  ∃ script, last (rm_ran (w_remote downed)) = Some (here sample_creds script).
Proof.
  destruct (@GatewayDown_wipes _ _ _ _ toy_raymond (easy_ssh "x") (Some sample_creds) client_world _ _
    (surjective_pairing _)) as [_ [E|(_ & c & before & script & out & err & Ec & _ & _ & _ & Eran & _)]];
    [left; exact E|right].
  injection Ec as <-. exists script. unfold downed. rewrite Eran. exact (last_snoc _ _).
Defined.
Lemma downed_empty : rows (w_nodes downed) = ∅ ∧ length (rm_ran (w_remote downed)) = 4%nat.
Proof. split; vm_compute; reflexivity. Qed.

(** A gateway that hands out a short token. *)
Lemma GatewayUp_reports_witness :
  ∃ w1, GatewayUp (R := toy_raymond) (SL := toy_ssh) (JQ := one_value_json sample_request)
          (JD := one_value_json (MkJoinRequestDTO "Kg==")) (JP := no_json) sample_paths (λ _ _, None)
          answering sample_creds "wireport" "1"
          (with_remote (MkRemote [("h", "a"); ("h", "b")] []) fresh_world)
        = (Panic "slice bounds out of range [:20]", w1) ∧ w_nodes w1 = w_nodes fresh_world.
Proof.
  pose (start := MkRemote [("h", "a"); ("h", "b")] []).
  pose (s := Some sample_creds).
  pose (r1 := (IsWireportGatewayContainerRunning (SL := toy_ssh) s start).2).
  pose (r2 := (InstallWireportGateway (SL := toy_ssh) (R := toy_raymond) s "wireport" "1" r1).2).
  destruct (@GatewayUp_reports _ _ _ _ toy_raymond _ toy_ssh (one_value_json sample_request)
    (one_value_json (MkJoinRequestDTO "Kg==")) no_json sample_paths (λ _ _, None) answering sample_creds
    "wireport" "1" (with_remote start fresh_world) s r1 r2
    (IsWireportGatewayContainerRunning (SL := toy_ssh) s r2).2 true "token" false)
    as (w1 & Hn & _ & Hshort & _).
  - reflexivity.
  - apply run_outcome. vm_compute. reflexivity.
  - apply run_outcome. vm_compute. reflexivity.
  - apply run_outcome. vm_compute. reflexivity.
  - exists w1. split; [apply Hshort; vm_compute; lia|exact Hn].
Defined.
