(* ===== verification/Startup.v ===== *)
(** * A gateway starts: the goroutine of [GatewayStart]

    [GatewayStart] in [commands/local_gateway.go] runs its control server in a goroutine
    that assigns to the error variable of the function around it.  Here the two run as
    threads over that variable and the channel between them; taken in turn they are
    [start_gateway] of [Machines.v], at the same time they are not. *)
From S2P Require Import Prelude Threads GoStrings GoNet Mtls NodeTypes Gorm.
From S2P Require Import NodesRepo PublicServices NodeConfigs JoinStore NetworkApps.
From S2P Require Import NodesDemo JoinClient World LocalService LocalNodes Machines.

(** The variable [err] and the channel [serverError]; a [nil] can be sent, too. *)
Section state.
  Context {GN : Gorm string Node} {GS : Gorm ServiceKey PublicService}
    {GR : Gorm string JoinRequest} {GT : Gorm string JoinToken}.
Record Startup : Type := MkStartup {
  su_world : World;
  su_err : option error;
  su_chan : list (option error);
}.
End state.

Section startup.
  Context {GN : Gorm string Node} {GS : Gorm ServiceKey PublicService}
    {GR : Gorm string JoinRequest} {GT : Gorm string JoinToken} {R : Raymond} {X : X509}.
  Context (paths : ConfigPaths).
  (** the error the server ends with; it always ends with one *)
  Context (serves : option TLSConfig → string) (gatewayPublicIP : string).

(** [x, err = f()]: what [f] gives, or nothing, and its error in the variable. *)
Definition assign {A} (c : M World A) : M Startup (option A) := λ s,
  match c (su_world s) with
  | (Ret a, w) => (Ret (Some a), MkStartup w None (su_chan s))
  | (Throw e, w) => (Ret None, MkStartup w (Some e) (su_chan s))
  | (Panic p, w) => (Panic p, MkStartup w (su_err s) (su_chan s))
  | (Exited p, w) => (Exited p, MkStartup w (su_err s) (su_chan s))
  end.
(** [err != nil] *)
Definition failed : M Startup bool := λ s, (Ret (negb (isNone (su_err s))), s).
(** [%v] of the variable *)
Definition err_text (e : option error) : string :=
  match e with Some e => error_text e | None => "<nil>" end.
Definition on_world {A} (c : M World A) : M Startup A := λ s,
  let '(o, w) := c (su_world s) in (o, MkStartup w (su_err s) (su_chan s)).
Definition complain (complaint : string) : M Startup unit := λ s,
  on_world (print_err (complaint +:+ err_text (su_err s) +:+ newline)) s.
Definition send (f : option error → option error) : M Startup unit := λ s,
  (Ret tt, MkStartup (su_world s) (su_err s) (su_chan s ++ [f (su_err s)])).

(** The function itself, once the gateway has its certificates; it ends with whether it
    goes on to wait for the channel. *)
Definition start_thread (gatewayNode : Node) : Thread Startup bool :=
  publicServices ← atomic (assign (on_services (query GetAllServices)));
  no_services ← atomic failed;
  if no_services : bool then _ ← atomic (complain "Failed to list services: "); mret false
  else
    _ ← atomic (assign (on_disk (SaveConfigs paths gatewayNode (default [] publicServices) true)));
    no_configs ← atomic failed;
    if no_configs : bool then _ ← atomic (complain "Failed to save configs: "); mret false
    else
      _ ← atomic (on_world (print_out ("wireport server has started with mTLS on gateway: " +:+
                                       gatewayPublicIP +:+ newline)));
      mret true.

(** The goroutine *)
Definition server_thread (b : FullGatewayBundle) : Thread Startup bool :=
  tlsConfig ← atomic (assign (lift (GetServerTLSConfig b)));
  no_config ← atomic failed;
  if no_config : bool then
    _ ← atomic (send (λ e, Some (Errorf
      ("Failed to get TLS config for the gateway control server: " +:+ err_text e))));
    mret false
  else
    _ ← atomic (assign (throw (A := unit) (Errorf (serves tlsConfig))));
    ended ← atomic failed;
    if ended : bool then _ ← atomic (send id); mret false else mret false.

(** [if err := <-serverError; err != nil]; nothing to receive is a wait for ever. *)
Definition receive (s : Startup) : option World :=
  match su_chan s with
  | [] => None
  | None :: _ => Some (su_world s)
  | Some e :: _ => Some (print_err ("Server error: " +:+ error_text e +:+ newline) (su_world s)).2
  end.

(** First the one, then the other. *)
Definition in_turn (gatewayNode : Node) (b : FullGatewayBundle) (w : World)
    : option (Out unit * World) :=
  match run (start_thread gatewayNode) (MkStartup w None []) with
  | (Ret false, s) => Some (Ret tt, su_world s)
  | (Ret true, s) =>
      match run (server_thread b) s with
      | (Ret _, s') => w' ← receive s'; mret (Ret tt, w')
      | (Throw e, s') => Some (Throw e, su_world s')
      | (Panic p, s') => Some (Panic p, su_world s')
      | (Exited p, s') => Some (Exited p, su_world s')
      end
  | (Throw e, s) => Some (Throw e, su_world s)
  | (Panic p, s) => Some (Panic p, su_world s)
  | (Exited p, s) => Some (Exited p, su_world s)
  end.

(** Taken in turn they are what [Machines.v] has for them. *)
Lemma startup_in_turn gatewayNode b w :
  in_turn gatewayNode b w
  = Some (start_gateway paths (λ tls, serves (Some tls)) gatewayPublicIP false gatewayNode b w).
Proof.
  unfold in_turn, start_gateway, or_complain, start_thread, mbind, M_bind, attempt, Thread_bind.
  cbn [run atomic catch]. unfold assign at 1. cbn [su_world].
  destruct (on_services (query GetAllServices) w) as [[services|e|p|p] w1]; cbn; [|reflexivity..].
  unfold assign. cbn [su_world].
  destruct (on_disk (SaveConfigs paths gatewayNode services true) w1) as [[u|e|p|p] w2]; cbn;
    [|reflexivity..].
  destruct (GetServerTLSConfig b) as [tls|e|p|p]; reflexivity.
Qed.

(** *** At the same time *)

(** A gateway that has everything for its start: its services can be read, its files written
    and its certificates used. *)
Record can_start (w : World) (gatewayNode : Node) (b : FullGatewayBundle)
    (services : list PublicService) (disk : Disk) (tls : TLSConfig) : Prop := {
  st_services : on_services (query GetAllServices) w = (Ret services, w);
  st_files : on_disk (SaveConfigs paths gatewayNode services true) w = (Ret tt, with_disk disk w);
  st_tls : GetServerTLSConfig b = Ret tls;
}.
(** The world once the function has written the files and said that the server has started. *)
Definition says_started (disk : Disk) (w : World) : World :=
  (print_out ("wireport server has started with mTLS on gateway: " +:+ gatewayPublicIP +:+ newline)
     (with_disk disk w)).2.

(** The function is thread 0, the goroutine thread 1. *)
Definition starting (w : World) (gatewayNode : Node) (b : FullGatewayBundle) : Startup * list (Thread Startup bool) :=
  (MkStartup w None [], [start_thread gatewayNode; server_thread b]).
Notation together := (rtc (pool_step (λ _ _ : Startup, False))).

Lemma assign_Ret {A} (c : M World A) w e ch a w' :
  c w = (Ret a, w') → assign c (MkStartup w e ch) = (Ret (Some a), MkStartup w' None ch).
Proof. intros Hc. unfold assign. cbn. by rewrite Hc. Qed.

(** The next action of the [i]-th thread, by a fact about it or by what it is. *)
Ltac turn_by i H := eapply rtc_l; [eapply (PoolAct _ i); [reflexivity|exact H]|cbn].
Ltac turn i := eapply rtc_l; [eapply (PoolAct _ i); [reflexivity|reflexivity]|cbn].

(** C24: [GatewayStart] and its goroutine share one error variable.  On every gateway that
    could start, and whatever error its control server then ends with: the function can say
    that the server has started and wait for ever, with no error printed and nothing sent to
    it; or that error is reported as a failure to list the services, which were listed, and
    the gateway's files are not written.  Each is one way to take turns; one after the
    other, the function first, they report the server's error. *)
Theorem start_races w gatewayNode b services disk tls :
  can_start w gatewayNode b services disk tls →
  (∃ s, together (starting w gatewayNode b) (s, [Ended (Ret true); Ended (Ret false)]) ∧
     receive s = None ∧ su_world s = says_started disk w) ∧
  (∃ s t, together (starting w gatewayNode b) (s, [Ended (Ret false); t]) ∧
     su_world s = (print_err ("Failed to list services: " +:+ serves (Some tls) +:+ newline) w).2) ∧
  in_turn gatewayNode b w
  = Some (Ret tt, (print_err ("Server error: " +:+ serves (Some tls) +:+ newline) (says_started disk w)).2).
Proof.
  intros [Hs Hf Ht].
  assert (lift (GetServerTLSConfig b) w = (Ret tls, w)) as Htls by by rewrite Ht.
  split; [|split].
  - eexists. split.
    + unfold starting. unfold start_thread, server_thread. cbn.
      turn_by 1%nat (assign_Ret _ _ None [] _ _ Htls). turn 1%nat. turn 1%nat.
      turn_by 0%nat (assign_Ret _ _ (Some (Errorf (serves (Some tls)))) [] _ _ Hs). turn 1%nat. turn 0%nat.
      turn_by 0%nat (assign_Ret _ _ None [] _ _ Hf). turn 0%nat. turn 0%nat. apply rtc_refl.
    + split; reflexivity.
  - eexists _, _. split.
    + unfold starting. unfold start_thread, server_thread. cbn.
      turn_by 0%nat (assign_Ret _ _ None [] _ _ Hs).
      turn_by 1%nat (assign_Ret _ _ None [] _ _ Htls). turn 1%nat. turn 1%nat.
      turn 0%nat. turn 0%nat. apply rtc_refl.
    + reflexivity.
  - rewrite startup_in_turn. unfold start_gateway.
    rewrite (or_complain_Ret _ _ _ _ _ _ Hs), (or_complain_Ret _ _ _ _ _ _ Hf), Ht. reflexivity.
Qed.
End startup.

(** ** At work *)

Definition demo_bundle : FullGatewayBundle :=
  default (MkGatewayBundle no_pem no_pem None 0) (node_GatewayCertBundle (demo_node "gw" demo_gateway)).
Definition starting_world : World :=
  MkWorld demo_gateway one_service no_requests no_tokens (MkHost sample_disk []) "" "" [] [] no_remote.
Definition port_taken (_ : option TLSConfig) : string := "listen tcp :4060: bind: address already in use".
(** The demo gateway on a machine whose port is taken already. *)
Definition saving : M Disk unit :=
  SaveConfigs (R := toy_raymond) sample_paths (demo_node "gw" demo_gateway) (values (rows one_service)) true.
Lemma demo_can_start : ∃ tls,
  can_start (R := toy_raymond) sample_paths starting_world (demo_node "gw" demo_gateway) demo_bundle
    (values (rows one_service)) (saving (host_disk (w_host starting_world))).2 tls.
Proof.
  assert (GetAllServices (w_services starting_world) = Ret (values (rows one_service))) as Hlist by (vm_compute; reflexivity).
  eexists. split; [exact (on_part_Ret _ _ _ _ _ _ (query_Ret _ _ _ Hlist))| |vm_compute; reflexivity].
  assert ((saving (host_disk (w_host starting_world))).1 = Ret tt) as Hsave by (vm_compute; reflexivity).
  unfold on_disk, on_part. fold saving. by rewrite (run_outcome _ _ _ Hsave).
Qed.
Lemma start_races_witness :
  ∃ s, rtc (pool_step (λ _ _, False))
      (starting (R := toy_raymond) sample_paths port_taken "203.0.113.7" starting_world
         (demo_node "gw" demo_gateway) demo_bundle) (s, [Ended (Ret true); Ended (Ret false)]) ∧
    receive s = None ∧ w_err (su_world s) = "" ∧
    w_out (su_world s) = "wireport server has started with mTLS on gateway: 203.0.113.7" +:+ newline.
Proof.
  destruct demo_can_start as [tls Hcan].
  destruct (start_races (R := toy_raymond) sample_paths port_taken "203.0.113.7" _ _ _ _ _ _ Hcan)
    as [(s & Hsteps & Hwait & Hw) _].
  exists s. split; [exact Hsteps|]. split; [exact Hwait|]. rewrite Hw. split; reflexivity.
Defined.
