(* ===== verification/Lifecycle.v ===== *)
(** * [internal/commands/service.go]: the commands on machines, and who may run them

    The commands of [Machines.v], [LocalJoin.v] and [Reconcile.v] as [executeCommand] runs
    them for the node's role, and the start of a server, which joins first if it has to. *)
From S2P Require Import Prelude GoStrings GoNet Mtls NodeTypes Gorm.
From S2P Require Import NodesRepo PublicServices NodeConfigs JoinStore NetworkApps.
From S2P Require Import NodesDemo Aes CommandTypes JoinClient Addresses Docker Ssh.
From S2P Require Import World DockerSocket LocalJoin LocalService LocalNodes ApiCommands.
From S2P Require Import Commands Reconcile Machines.

Module Life.
Section lifecycle.
  Context `{GN : Gorm string Node} `{GS : Gorm ServiceKey PublicService}
    `{GR : Gorm string JoinRequest} `{GT : Gorm string JoinToken} `{R : Raymond} `{X : X509}
    `{SL : SshLib} `{JQ : Json JoinRequest} `{JD : Json JoinRequestDTO} `{JP : Json JoinResponseDTO}
    `{AJ : ApiJson}.
  Context (paths : ConfigPaths) (sh : nat → string → option string) (env : JoinEnv) (http : Transport).

(** Gateways *)
Definition GatewayStart (create : CreateEnv) (serves : TLSConfig → string) (gatewayPublicIP : string)
    (gatewayStartConfigureOnly : bool) : M World unit :=
  executeCommand
    [MkRoleGroup [NodeRoleGateway; NodeRoleEmpty]
       (locally (Machines.GatewayStart paths create serves gatewayPublicIP gatewayStartConfigureOnly))].
Definition GatewayUp (creds : Credentials) (image imageTag : string) : M World unit :=
  executeCommand
    [MkRoleGroup [NodeRoleEmpty] (locally (Machines.GatewayUp paths sh env creds image imageTag))].

Definition no_servers_left (n : Node) (api : option APICommandsService) : M World unit :=
  if bool_decide (node_Role n = NodeRoleClient) then
    match api with
    | None => lift (Panic "nil pointer dereference: api")
    | Some a =>
        serverListResult ← lift (Api.ServerList http a);
        if 0 <? ServerNodesCount serverListResult
        then throw (Errorf ("❌ Cannot tear down gateway node with active server nodes (" +:+
                            Itoa (ServerNodesCount serverListResult) +:+
                            "), please tear down all server nodes first"))
        else mret tt
    end
  else mret tt.
Definition GatewayDown (creds : option Credentials) : M World unit :=
  executeCommand
    [MkRoleGroup [NodeRoleGateway; NodeRoleClient] (λ currentNode api,
       match currentNode with
       | None => throw (Errorf "current node is required to tear down gateway node")
       | Some n =>
           _ ← no_servers_left n api;
           _ ← Machines.GatewayDown creds;
           mret None
       end)].
Definition GatewayUpgrade (creds : Credentials) (image imageTag : string) : M World unit :=
  executeCommand [MkRoleGroup [NodeRoleClient] (locally (Machines.GatewayUpgrade creds image imageTag))].

(** Servers *)
Definition ServerUp (cenv : CommandEnv) (elapsed : nat → Z) (creds : Credentials)
    (image imageTag dockerSubnet : string) : M World unit :=
  executeCommand
    [MkRoleGroup [NodeRoleClient]
       (locally (Machines.ServerUp paths env http cenv elapsed creds image imageTag dockerSubnet))].
Definition ServerDown (creds : option Credentials) : M World unit :=
  executeCommand
    [MkRoleGroup [NodeRoleClient] (locally (Machines.ServerDown env creds));
     MkRoleGroup [NodeRoleServer] (λ currentNode api,
       match currentNode with
       | None => throw (Errorf "current node is required to tear down server node")
       | Some n =>
           _ ← Machines.ServerDown env creds;
           remotely (λ a, Api.ServerRemove http a (node_ID n)) currentNode api
       end)].
Definition ServerUpgrade (creds : Credentials) (image imageTag : string) : M World unit :=
  executeCommand [MkRoleGroup [NodeRoleClient] (locally (Machines.ServerUpgrade creds image imageTag))].

(** Joining *)
Definition Join (joinToken : string) : M World unit :=
  executeCommand [MkRoleGroup [NodeRoleEmpty] (locally (_ ← LocalJoin.Join paths sh env joinToken; mret tt))].
End lifecycle.

(** ** The start of a server *)

Section start.
  Context `{GN : Gorm string Node} `{GS : Gorm ServiceKey PublicService}
    `{GR : Gorm string JoinRequest} `{GT : Gorm string JoinToken} `{R : Raymond} `{X : X509}
    `{JQ : Json JoinRequest} `{JD : Json JoinRequestDTO} `{JP : Json JoinResponseDTO}
    `{AJ : ApiJson}.
  Context (paths : ConfigPaths) (sh : nat → string → option string) (sock : SocketState).
  Context (http : Transport) (order : LabelOrder).
  (** the surroundings of the [i]-th attempt *)
  Context (env : nat → JoinEnv).

Definition ruler_80 : string := Repeat "=" 80 +:+ newline.

(** The loop that tries to join: whether it has joined after this many attempts. *)
Fixpoint join_until (attempts i : nat) : M World bool :=
  match attempts with
  | O => mret false
  | S attempts' =>
      _ ← print_out ("Attempting to join wireport network using a stored join token" +:+ newline);
      r ← attempt (on_tokens (query GetLastToken));
      match r with
      | inl err => throw (Errorf ("failed to get last join token: " +:+ error_text err))
      | inr joinToken =>
          joined ← LocalJoin.Join paths sh (env i) (jt_Token joinToken);
          if joined : bool then mret true
          else
            _ ← print_err (ruler_80 +:+ "Join failed. Retrying in 30s..." +:+ newline +:+
                  "To use a new join token instead, run on your client machine: 'wireport server down ...' and bootstrap the server again with 'wireport server up ...'"
                  +:+ newline +:+ ruler_80);
            join_until attempts' (S i)
      end
  end.

(** The handler for a node without a role; [again] is the command itself. *)
Definition join_and_start (attempts : nat) (again : M World unit) : M World (option ExecResponseDTO) :=
  joined ← join_until attempts 0;
  if negb joined then mret None
  else
    d ← attempt (on_tokens DeleteAllTokens);
    match d with
    | inl err => throw (Errorf ("failed to clean up join tokens: " +:+ error_text err))
    | inr _ =>
        r ← attempt (on_nodes (query GetCurrentNode));
        match r with
        | inl err => throw (Errorf ("failed to get current node after joining wireport network: " +:+
                                    error_text err))
        | inr _ =>
            _ ← print_out ("Server node joined wireport network successfully" +:+ newline);
            _ ← again;
            mret None
        end
    end.

(** [s.ServerStart(stdOut, errOut)], as far as its first [attempts] attempts to join and the
    first [rounds] turns of the server's loop; [depth] bounds the calls to itself. *)
Fixpoint ServerStart (depth attempts rounds : nat) : M World unit :=
  match depth with
  | O => mret tt
  | S depth' =>
      executeCommand
        [MkRoleGroup [NodeRoleEmpty] (λ _ _,
           join_and_start attempts (ServerStart depth' attempts rounds));
         MkRoleGroup [NodeRoleServer] (λ _ api,
           match api with
           | None => lift (Panic "nil pointer dereference: api")
           | Some a =>
               _ ← Reconcile.ServerStart (je_daemon (env 0%nat)) sh sock http order paths a rounds;
               mret None
           end)]
  end.
End start.
End Life.

(** ** Properties *)

Section properties.
  Context {GN : Gorm string Node} {GS : Gorm ServiceKey PublicService}
    {GR : Gorm string JoinRequest} {GT : Gorm string JoinToken} {R : Raymond} {X : X509}
    {JQ : Json JoinRequest} {JD : Json JoinRequestDTO} {JP : Json JoinResponseDTO}
    {AJ : ApiJson}.
  Context (paths : ConfigPaths) (sh : nat → string → option string) (sock : SocketState).
  Context (http : Transport) (order : LabelOrder) (env : nat → JoinEnv).

(** ** The attempts of one start *)

Definition attempting (w : World) : World :=
  with_text (w_out w +:+ "Attempting to join wireport network using a stored join token" +:+ newline)
    (w_err w) w.
Definition join_retry_text : string :=
  Life.ruler_80 +:+ "Join failed. Retrying in 30s..." +:+ newline +:+
  "To use a new join token instead, run on your client machine: 'wireport server down ...' and bootstrap the server again with 'wireport server up ...'"
  +:+ newline +:+ Life.ruler_80.
Definition retrying (w : World) : World := with_text (w_out w) (w_err w +:+ join_retry_text) w.

(** The [i]-th attempt of a start in [w0] begins in [w]: the ones before it were made, each
    with the last token that was stored, and have failed. *)
Inductive attempt_begins (w0 : World) : nat → World → Prop :=
| first_attempt : attempt_begins w0 0 w0
| next_attempt i w jt w1 :
    attempt_begins w0 i w → GetLastToken (w_tokens w) = Ret jt →
    LocalJoin.Join paths sh (env i) (jt_Token jt) (attempting w) = (Ret false, w1) →
    attempt_begins w0 (S i) (retrying w1).

(** One of the first [n] attempts of the start in [w0] has joined. *)
Definition has_joined (w0 : World) (n : nat) : Prop :=
  ∃ i w jt w1, (i < n)%nat ∧ attempt_begins w0 i w ∧ GetLastToken (w_tokens w0) = Ret jt ∧
    LocalJoin.Join paths sh (env i) (jt_Token jt) (attempting w) = (Ret true, w1).

(** ** What leaves the tokens alone *)

Context (joined : Prop) (t0 : Table (Gorm := GT)).

Definition token_kept (w : World) : Prop := joined ∨ w_tokens w = t0.
#[export] Instance token_kept_free : TextFree token_kept.
Proof. by intros w out err Hw. Qed.

Lemma token_kept_part {S A} (part : World → S) with_part (c : M S A) :
  (∀ s w, w_tokens (with_part s w) = w_tokens w) → preserves token_kept (on_part part with_part c).
Proof.
  intros Hp w Hw. unfold on_part, token_kept in *. destruct (c (part w)) as [[] s]; by rewrite Hp.
Qed.
Lemma token_kept_refuse {A} complaint (c : M World A) k :
  preserves token_kept c → (∀ a, preserves token_kept (k a)) →
  preserves token_kept (or_refuse complaint c k).
Proof.
  intros Hc Hk. apply preserves_bind; [by apply preserves_attempt|].
  intros [e|a]; [|apply Hk]. apply preserves_bind; auto with preserves typeclass_instances.
Qed.
Ltac keeps_token_with more :=
  repeat first
    [ progress intros
    | more
    | apply token_kept_refuse
    | apply token_kept_part; by intros
    | apply preserves_complain; [apply _|..]
    | apply preserves_foreach
    | apply preserves_bind
    | apply preserves_attempt
    | solve [auto with preserves typeclass_instances]
    | match goal with |- preserves _ (match ?x with _ => _ end) => destruct x end ].
Ltac keeps_token := keeps_token_with fail.

Lemma reconcile_keeps_token labels : preserves token_kept (ReconcileWithLabels sh sock labels).
Proof.
  apply preserves_bind; [by intros w Hw|]. intros w. cbn zeta. unfold or_fail, on_host. keeps_token.
Qed.
Lemma round_keeps_token daemon api :
  preserves token_kept (server_round daemon sh sock http order api).
Proof.
  unfold server_round, ensureDockerNetworkIsAttachedToAllContainers,
    reconcileGatewayServicesWithDockerLabels, refreshNodeConfig, unpublish_one, publish_one, tell,
    on_nodes, on_docker.
  keeps_token_with ltac:(apply reconcile_keeps_token).
Qed.
Lemma server_keeps_token daemon api rounds :
  preserves token_kept (Reconcile.ServerStart daemon sh sock http order paths api rounds).
Proof.
  unfold ServerStart, on_nodes, on_disk. keeps_token_with ltac:(apply round_keeps_token).
Qed.

Lemma Join_keeps_token e token : preserves token_kept (LocalJoin.Join paths sh e token).
Proof.
  unfold LocalJoin.Join, set_up, set_up_server, set_up_client, refuse, on_nodes, on_docker, on_disk, on_host.
  keeps_token.
Qed.

End properties.

Section start_properties.
  Context {GN : Gorm string Node} {GS : Gorm ServiceKey PublicService}
    {GR : Gorm string JoinRequest} {GT : Gorm string JoinToken} {R : Raymond} {X : X509}
    {JQ : Json JoinRequest} {JD : Json JoinRequestDTO} {JP : Json JoinResponseDTO}
    {AJ : ApiJson}.
  Context (paths : ConfigPaths) (sh : nat → string → option string) (sock : SocketState).
  Context (http : Transport) (order : LabelOrder) (env : nat → JoinEnv).

Lemma Join_tokens e token w o w' :
  LocalJoin.Join paths sh e token w = (o, w') → w_tokens w' = w_tokens w.
Proof.
  intros Hrun. assert (token_kept False (w_tokens w) w') as [[]|H]; [|exact H].
  exact (triple_any _ _ _ _ _ _ (Join_keeps_token paths sh False (w_tokens w) e token)
    (or_intror eq_refl) Hrun).
Qed.

(** A loop that says that it has joined has; otherwise the tokens are as they were. *)
Lemma join_until_token w0 attempts i w o w' :
  attempt_begins paths sh env w0 i w → w_tokens w = w_tokens w0 →
  Life.join_until paths sh env attempts i w = (o, w') →
  w_tokens w' = w_tokens w0 ∧ (o = Ret true → has_joined paths sh env w0 (i + attempts)).
Proof.
  revert i w. induction attempts as [|attempts IH]; intros i w Hb Hw Hrun; cbn [Life.join_until] in Hrun.
  { by injection Hrun as <- <-. }
  unfold mbind at 1, M_bind at 1 in Hrun. cbn [print_out] in Hrun. fold (attempting w) in Hrun.
  unfold mbind at 1, M_bind at 1, attempt, on_tokens, on_part, query in Hrun.
  assert (with_tokens (w_tokens (attempting w)) (attempting w) = attempting w) as Hid by done.
  destruct (GetLastToken (w_tokens (attempting w))) as [jt|e|p|p] eqn:E; rewrite Hid in Hrun;
    try by injection Hrun as <- <-.
  unfold mbind at 1, M_bind at 1 in Hrun.
  destruct (LocalJoin.Join paths sh (env i) (jt_Token jt) (attempting w)) as [[b|e|p|p] w1] eqn:Hj;
    pose proof (Join_tokens _ _ _ _ _ Hj) as Ht; try by injection Hrun as <- <-; rewrite Ht.
  change (w_tokens (attempting w)) with (w_tokens w) in *. rewrite Hw in Ht, E. destruct b.
  - injection Hrun as <- <-. split; [done|]. intros _. exists i, w, jt, w1.
    split; [lia|]. by split.
  - replace (i + S attempts)%nat with (S i + attempts)%nat by lia.
    apply (IH (S i) (retrying w1)); [|exact Ht|exact Hrun].
    eapply next_attempt; [exact Hb|by rewrite Hw|exact Hj].
Qed.

Lemma join_and_start_token w attempts again :
  triple (λ w1, w1 = w) (Life.join_and_start paths sh env attempts again)
    (λ _, token_kept (has_joined paths sh env w attempts) (w_tokens w))
    (token_kept (has_joined paths sh env w attempts) (w_tokens w)).
Proof.
  intros w1 ->. unfold Life.join_and_start, mbind at 1, M_bind at 1.
  destruct (Life.join_until paths sh env attempts 0 w) as [o w2] eqn:Hrun.
  apply (join_until_token w attempts 0 w o w2 (first_attempt _ _ _ w) eq_refl) in Hrun as [Ht Hj].
  destruct o as [[|]|e|p|p]; cbn [negb]; try by right.
  specialize (Hj eq_refl). cbn [Nat.add] in Hj.
  match goal with |- match ?run with _ => _ end => destruct run as [[] w3] end; by left.
Qed.

(** C18: the token a server was bootstrapped with is not given up before it has served: if a
    start, however often it tries and whatever goes wrong, has changed the stored tokens,
    then one of its own attempts, after the ones before it had failed, has joined with the
    last of the tokens. *)
Theorem ServerStart_keeps_token depth attempts rounds w o w' :
  Life.ServerStart paths sh sock http order env depth attempts rounds w = (o, w') →
  w_tokens w' = w_tokens w ∨ has_joined paths sh env w attempts.
Proof.
  intros Hrun. set (I := token_kept (has_joined paths sh env w attempts) (w_tokens w)).
  enough (triple (λ w1, w1 = w) (Life.ServerStart paths sh sock http order env depth attempts rounds)
            (λ _, I) I) as Hp.
  { assert (I w') as [|]; [|auto..].
    exact (triple_any (λ w1, w1 = w) _ I _ _ _ Hp eq_refl Hrun). }
  destruct depth as [|depth]; cbn [Life.ServerStart]; [intros w1 ->; by right|].
  apply executeCommand_triple; [apply _|intros w1 Hw1; right; by rewrite Hw1|].
  intros g cn api Hg. repeat (apply elem_of_cons in Hg as [->|Hg]); [..|by apply elem_of_nil in Hg];
    cbn [Handler]; [by apply join_and_start_token|].
  eapply triple_conseq with (P' := I) (Q' := λ _, I) (E' := I);
    [|intros w1 ->; by right|done|done].
  match goal with |- triple I ?c _ _ => change (preserves I c) end.
  destruct api as [a|]; [|auto with preserves].
  apply preserves_bind; [apply server_keeps_token|auto with preserves].
Qed.
End start_properties.

(** ** At work *)

(** A server whose gateway does not answer, with the token it was bootstrapped with. *)
Definition bootstrap_token : JoinToken := MkJoinToken "Kg==" 5.
Lemma bootstrap_keyed : keyedb ({[ "Kg==" := bootstrap_token ]} : gmap string JoinToken) = true.
Proof. vm_compute. reflexivity. Qed.
Definition bootstrapped : token_table := exist _ _ bootstrap_keyed.
Definition waiting_world : World := with_tokens bootstrapped fresh_world.
Definition unanswered (_ : nat) : JoinEnv :=
  MkJoinEnv demo_daemon (λ _ _ _ _ _, SendError refused_error) "t0" "t1" "https://github.com/MultionLabs/wireport".
Definition start_waiting : Out unit * World :=
  Life.ServerStart (R := toy_raymond) (AJ := config_json)
    (JQ := one_value_json sample_request) (JD := one_value_json (MkJoinRequestDTO "Kg=="))
    (JP := no_json) sample_paths (λ _ _, None) demo_socket config_gateway map_to_list unanswered 2 3 1
    waiting_world.

Lemma ServerStart_keeps_token_witness :
  w_tokens start_waiting.2 = bootstrapped ∨
  has_joined (JQ := one_value_json sample_request) (JD := one_value_json (MkJoinRequestDTO "Kg=="))
    (R := toy_raymond) (JP := no_json) sample_paths (λ _ _, None) unanswered waiting_world 3.
Proof.
  exact (@ServerStart_keeps_token _ _ _ _ toy_raymond _ (one_value_json sample_request)
    (one_value_json (MkJoinRequestDTO "Kg==")) no_json config_json sample_paths (λ _ _, None)
    demo_socket config_gateway map_to_list unanswered 2 3 1 waiting_world _ _
    (surjective_pairing _)).
Defined.
Lemma still_waiting : start_waiting.1 = Ret tt ∧ rows (w_tokens start_waiting.2) !! "Kg==" = Some bootstrap_token.
Proof. split; vm_compute; reflexivity. Qed.
