(* ===== verification/Routes.v ===== *)
(** * [internal/commands/routes.go]: the gateway's control API

    The checks every request passes, the routes that run commands for other nodes, and the
    join route, which makes a node of a join token. *)
From S2P Require Import Prelude GoStrings GoNet Mtls NodeTypes Gorm.
From S2P Require Import NodesRepo PublicServices NodeConfigs JoinStore NetworkApps.
From S2P Require Import NodesNetwork NodesRefresh NodesDemo Aes CommandTypes JoinClient.
From S2P Require Import World LocalService LocalNodes ApiCommands Commands.

(** ** Requests and replies *)

(** [rq_TLS] is [None] without TLS, else the common names of the peer's certificates. *)
Record Request : Type := MkRequest {
  rq_TLS : option (list string);
  rq_Method : string;
  rq_ContentType : string;
  rq_Path : string;
  rq_Body : list Z;
}.

(** [http.Error(w, text, code)], or a JSON body with its status. *)
Inductive Reply : Type :=
| ErrorReply (StatusCode : Z) (text : string)
| JsonReply (StatusCode : Z) (body : list Z).

Definition StatusBadRequest : Z := 400.
Definition StatusInternalServerError : Z := 500.

(** [json.NewDecoder(body).Decode]: it stops after the first JSON value. *)
Class JsonDecode (A : Type) : Type := json_Decode : list Z → Out A.

(** [validateRequest(w, r, operation, requestFromNodeID)]: the reply that refuses it. *)
Definition validateRequest (r : Request) (requestFromNodeID : string) : option Reply :=
  if isNone (rq_TLS r) then Some (ErrorReply StatusBadRequest "")
  else if negb (bool_decide (rq_Method r = "POST"))
          || negb (bool_decide (rq_ContentType r = "application/json"))
  then Some (ErrorReply StatusBadRequest "")
  else if bool_decide (requestFromNodeID = "") then Some (ErrorReply StatusBadRequest "")
  else None.

Section handlers.
  Context `{GN : Gorm string Node} `{GS : Gorm ServiceKey PublicService}
    `{GR : Gorm string JoinRequest} `{GT : Gorm string JoinToken}.

(** The response without a [customResponsePacker]. *)
Definition exec_response (stdOut errOut : string) : ExecResponseDTO :=
  MkExecResponse (TrimSpace stdOut) (TrimSpace errOut).
Definition default_packer (_ : string) (stdOut errOut : string) : M World ExecResponseDTO :=
  mret (exec_response stdOut errOut).

(** [handleRequestWithBody(w, r, handler, customResponsePacker)] *)
Definition handleRequestWithBody {T Resp : Type} `{JT : JsonDecode T} `{JE : Json Resp} (r : Request)
    (handler : string → T → M World unit)
    (packer : string → string → string → M World Resp) : M World Reply :=
  match rq_TLS r with
  | None => lift (Panic "nil pointer dereference: r.TLS")
  | Some [] => lift (Panic "index out of range: r.TLS.PeerCertificates")
  | Some (requestFromNodeID :: _) =>
      match validateRequest r requestFromNodeID with
      | Some reply => mret reply
      | None =>
          d ← checked (json_Decode (rq_Body r));
          match d with
          | inl _ => mret (ErrorReply StatusBadRequest "")
          | inr requestDTO =>
              '(res, stdOut, errOut) ← buffered (handler requestFromNodeID requestDTO);
              match res with
              | inl _ => mret (ErrorReply StatusBadRequest "")
              | inr _ =>
                  p ← attempt (packer requestFromNodeID stdOut errOut);
                  match p with
                  | inl _ => mret (ErrorReply StatusInternalServerError "")
                  | inr response =>
                      e ← checked (json_Marshal response);
                      match e with
                      | inl _ => mret (ErrorReply StatusInternalServerError "")
                      | inr body => mret (JsonReply 200 (body ++ [10]))
                      end
                  end
              end
          end
      end
  end.
End handlers.

(** ** The join route *)

Definition ErrFailedToCreateServerNode : error :=
  Sentinel "ErrFailedToCreateServerNode" "failed to create server node".

Section join_route.
  Context `{GN : Gorm string Node} `{GS : Gorm ServiceKey PublicService}
    `{GR : Gorm string JoinRequest} `{GT : Gorm string JoinToken} `{R : Raymond} `{X : X509}
    `{JQ : Json JoinRequest} `{JD : JsonDecode JoinRequestDTO} `{JP : Json JoinResponseDTO}.
  Context (paths : ConfigPaths) (sh : nat → string → option string).

(** [if err != nil { http.Error(w, "", http.StatusBadRequest); return }] *)
Definition or_bad_request {A} (c : M World A) (k : A → M World Reply) : M World Reply :=
  r ← attempt c;
  match r with
  | inl _ => mret (ErrorReply StatusBadRequest "")
  | inr a => k a
  end.

(** After the node is created: the gateway's files, and its bundle without the request's
    own certificate. *)
Definition settle_gateway (requestID : string) (k : M World Reply) : M World Reply :=
  or_bad_request (on_nodes (query GetGatewayNode)) (λ gatewayNode,
  match gatewayNode with
  | None => mret (ErrorReply StatusBadRequest "")
  | Some gatewayNode =>
      or_bad_request (on_services (query GetAllServices)) (λ publicServices,
      or_bad_request (on_disk (SaveConfigs paths gatewayNode publicServices false)) (λ _,
      match node_GatewayCertBundle gatewayNode with
      | None => lift (Panic "nil pointer dereference: GatewayCertBundle")
      | Some b =>
          or_bad_request
            (on_nodes (SaveNode (set_GatewayCertBundle (Some (RemoveClient requestID b)) gatewayNode)))
            (λ _, k)
      end))
  end).

(** The end of the handler: the request is deleted and the node sent. *)
Definition answer_join (requestID : string) (node : Node) : M World Reply :=
  or_bad_request (on_requests (DeleteRequest requestID)) (λ _,
  e ← checked (json_Marshal (MkJoinResponseDTO (Some node)));
  match e with
  | inl _ => mret (ErrorReply 200 "")
  | inr body => mret (JsonReply 200 (body ++ [10]))
  end).

(** The handler of [/commands/join]. *)
Definition join_handler (env : CreateEnv) (r : Request) : M World Reply :=
  match rq_TLS r with
  | None => mret (ErrorReply StatusBadRequest "")
  | Some _ =>
      if negb (bool_decide (rq_Method r = "POST")) then mret (ErrorReply StatusBadRequest "")
      else
        d ← checked (json_Decode (rq_Body r));
        match d with
        | inl err => mret (ErrorReply StatusBadRequest (error_text err))
        | inr joinRequestDto =>
            let token := jq_JoinToken joinRequestDto in
            or_bad_request (lift (FromBase64 token)) (λ decryptedJoinRequest,
            or_bad_request (on_requests (query (GetRequest (jr_ID decryptedJoinRequest))))
              (λ joinRequestFromDB,
            or_bad_request (lift (ToBase64 joinRequestFromDB)) (λ joinRequestFromDBBase64,
            if negb (bool_decide (token = joinRequestFromDBBase64))
            then mret (ErrorReply StatusBadRequest "")
            else
              match jr_Role joinRequestFromDB with
              | NodeRoleServer =>
                  or_bad_request
                    (on_nodes (CreateServer env (jr_DockerSubnet decryptedJoinRequest)))
                    (λ serverNode,
                  settle_gateway (jr_ID joinRequestFromDB)
                    (_ ← attempt (on_host (RestartNetworkApps paths sh true false false));
                     _ ← ScheduleNetworkAppsRestart (10 * Second, false, true, true);
                     answer_join (jr_ID decryptedJoinRequest) serverNode))
              | NodeRoleClient =>
                  or_bad_request (on_nodes (CreateClient env)) (λ clientNode,
                  settle_gateway (jr_ID joinRequestFromDB)
                    (or_bad_request (on_host (RestartNetworkApps paths sh true false false)) (λ _,
                     answer_join (jr_ID decryptedJoinRequest) clientNode)))
              | _ => mret (ErrorReply StatusBadRequest "")
              end)))
        end
  end.
End join_route.

(** ** The routes *)

(** What the request bodies are decoded with. *)
Class ApiDecode : Type := {
  decode_server_new : JsonDecode ServerNewRequestDTO;
  decode_server_remove : JsonDecode ServerRemoveRequestDTO;
  decode_server_list : JsonDecode ServerListRequestDTO;
  decode_label_add : JsonDecode NodeLabelAddRequestDTO;
  decode_label_remove : JsonDecode NodeLabelRemoveRequestDTO;
  decode_client_new : JsonDecode ClientNewRequestDTO;
  decode_client_list : JsonDecode ClientListRequestDTO;
  decode_service_publish : JsonDecode ServicePublishRequestDTO;
  decode_service_unpublish : JsonDecode ServiceUnpublishRequestDTO;
  decode_service_list : JsonDecode ServiceListRequestDTO;
  decode_param_new : JsonDecode ServiceParamNewRequestDTO;
  decode_param_remove : JsonDecode ServiceParamRemoveRequestDTO;
  decode_param_list : JsonDecode ServiceParamListRequestDTO;
  decode_node_config : JsonDecode NodeConfigRequestDTO;
  decode_join : JsonDecode JoinRequestDTO;
}.
#[export] Existing Instances decode_server_new decode_server_remove decode_server_list
  decode_label_add decode_label_remove decode_client_new decode_client_list
  decode_service_publish decode_service_unpublish decode_service_list decode_param_new
  decode_param_remove decode_param_list decode_node_config decode_join.

Section routes.
  Context `{GN : Gorm string Node} `{GS : Gorm ServiceKey PublicService}
    `{GR : Gorm string JoinRequest} `{GT : Gorm string JoinToken} `{R : Raymond} `{X : X509}
    `{JQ : Json JoinRequest} `{AJ : ApiJson} `{AD : ApiDecode} `{JP : Json JoinResponseDTO}.
  Context (paths : ConfigPaths) (sh : nat → string → option string) (http : Transport).
  (** what a creating command draws, and what happens while one waits *)
  Context (env : CommandEnv) (meanwhile : nat → World → World).

Definition server_remove_handler (requestFromNodeID : string) (req : ServerRemoveRequestDTO)
    : M World unit :=
  if bool_decide (srr_NodeID req = requestFromNodeID)
  then Cmd.ServerRemove http (srr_NodeID req)
  else throw ErrFailedToCreateServerNode.

Definition server_list_packer (_ : string) (stdOut errOut : string) : M World ServerListResponseDTO :=
  serversCount ← on_nodes (query (CountNodesByRole NodeRoleServer));
  mret (MkServerListResponse (exec_response stdOut errOut) serversCount).
Definition service_list_packer (_ : string) (stdOut errOut : string) : M World ServiceListRequestDTO :=
  services ← on_services (query GetAllServices);
  mret (MkServiceListRequest (exec_response stdOut errOut) services).
Definition node_config_packer (requestFromNodeID stdOut errOut : string)
    : M World NodeConfigResponseDTO :=
  nodeConfig ← on_nodes (query (GetByID requestFromNodeID));
  mret (MkNodeConfigResponse (exec_response stdOut errOut) (Some nodeConfig)).

(** The handlers [RegisterRoutes] registers, by path; the multiplexer answers any other. *)
Definition serve (r : Request) : M World Reply :=
  let path p := bool_decide (rq_Path r = p) in
  if path "/commands/server/new" then
    handleRequestWithBody r (λ _ (req : ServerNewRequestDTO),
      Cmd.ServerNew http env (snr_Force req) (snr_Quiet req) (snr_DockerSubnet req)) default_packer
  else if path "/commands/server/remove" then
    handleRequestWithBody r server_remove_handler default_packer
  else if path "/commands/server/list" then
    handleRequestWithBody r (λ id (_ : ServerListRequestDTO), Cmd.ServerList http (Some id))
      server_list_packer
  else if path "/commands/node/label/add" then
    handleRequestWithBody r (λ _ (req : NodeLabelAddRequestDTO),
      Cmd.NodeLabelAdd http (nla_NodeIP req) (nla_Label req)) default_packer
  else if path "/commands/node/label/remove" then
    handleRequestWithBody r (λ _ (req : NodeLabelRemoveRequestDTO),
      Cmd.NodeLabelRemove http (nlr_NodeIP req) (nlr_Label req)) default_packer
  else if path "/commands/client/new" then
    handleRequestWithBody r (λ _ (req : ClientNewRequestDTO),
      Cmd.ClientNew paths sh http meanwhile env (cnr_JoinRequest req) (cnr_Quiet req)
        (cnr_Wait req)) default_packer
  else if path "/commands/client/list" then
    handleRequestWithBody r (λ id (_ : ClientListRequestDTO), Cmd.ClientList http (Some id))
      default_packer
  else if path "/commands/service/publish" then
    handleRequestWithBody r (λ id (req : ServicePublishRequestDTO),
      Cmd.ServicePublish paths sh http (Some id) (spr_LocalProtocol req) (spr_LocalHost req)
        (spr_LocalPort req) (spr_PublicProtocol req) (spr_PublicHost req) (spr_PublicPort req))
      default_packer
  else if path "/commands/service/unpublish" then
    handleRequestWithBody r (λ _ (req : ServiceUnpublishRequestDTO),
      Cmd.ServiceUnpublish paths sh http (sur_PublicProtocol req) (sur_PublicHost req)
        (sur_PublicPort req)) default_packer
  else if path "/commands/service/list" then
    handleRequestWithBody r (λ _ (_ : ServiceListRequestDTO), Cmd.ServiceList http)
      service_list_packer
  else if path "/commands/service/params/new" then
    handleRequestWithBody r (λ _ (req : ServiceParamNewRequestDTO),
      Cmd.ServiceParamNew paths sh http (spn_PublicProtocol req) (spn_PublicHost req)
        (spn_PublicPort req) (spn_ParamType req) (spn_ParamValue req)) default_packer
  else if path "/commands/service/params/remove" then
    handleRequestWithBody r (λ _ (req : ServiceParamRemoveRequestDTO),
      Cmd.ServiceParamRemove paths sh http (sprm_PublicProtocol req) (sprm_PublicHost req)
        (sprm_PublicPort req) (sprm_ParamType req) (sprm_ParamValue req)) default_packer
  else if path "/commands/service/params/list" then
    handleRequestWithBody r (λ _ (req : ServiceParamListRequestDTO),
      Cmd.ServiceParamList http (spl_PublicProtocol req) (spl_PublicHost req)
        (spl_PublicPort req)) default_packer
  else if path "/commands/node/config" then
    handleRequestWithBody r (λ _ (_ : NodeConfigRequestDTO), mret tt) node_config_packer
  else if path "/commands/join" then join_handler paths sh (ce_create env) r
  else mret (ErrorReply 404 "404 page not found").
End routes.

(** ** Properties *)

Section properties.
  Context {GN : Gorm string Node} {LN : GormLaws string Node}
    {GS : Gorm ServiceKey PublicService} {LS : GormLaws ServiceKey PublicService}
    {GR : Gorm string JoinRequest} {LR : GormLaws string JoinRequest} {GT : Gorm string JoinToken}
    {R : Raymond} {X : X509} {JQ : Json JoinRequest} {JD : JsonDecode JoinRequestDTO}
    {JP : Json JoinResponseDTO}.
  Context (paths : ConfigPaths) (sh : nat → string → option string).

Lemma or_bad_request_Ret {A} (c : M World A) k w a w' :
  c w = (Ret a, w') → or_bad_request c k w = k a w'.
Proof. intros Hrun. unfold or_bad_request, mbind, M_bind, attempt. by rewrite Hrun. Qed.
Lemma or_bad_request_Throw {A} (c : M World A) k w e w' :
  c w = (Throw e, w') → or_bad_request c k w = (Ret (ErrorReply StatusBadRequest ""), w').
Proof. intros Hrun. unfold or_bad_request, mbind, M_bind, attempt. by rewrite Hrun. Qed.

(** A step that looks at the world without changing it either goes on or ends there. *)
Lemma or_bad_request_looks {A} (c : M World A) k w o w' :
  (c w).2 = w → or_bad_request c k w = (o, w') →
  w' = w ∨ ∃ a, c w = (Ret a, w) ∧ k a w = (o, w').
Proof.
  unfold or_bad_request, mbind, M_bind, attempt. destruct (c w) as [[a|e|p|p] w1]; cbn;
    intros ->; cbn; unfold mret, M_ret; intros Hrun; [right; by exists a|left; congruence..].
Qed.

(** What lets a request in: TLS, POST, and a token that is letter by letter the text of a
    request that is stored, for a client or a server. *)
Definition admitted (w : World) (r : Request) : Prop :=
  rq_TLS r ≠ None ∧ rq_Method r = "POST" ∧
  ∃ dto jr, json_Decode (rq_Body r) = Ret dto ∧
    rows (w_requests w) !! jr_ID jr = Some jr ∧ ToBase64 jr = Ret (jq_JoinToken dto) ∧
    (jr_Role jr = NodeRoleServer ∨ jr_Role jr = NodeRoleClient).

(** C7: the join route lets nobody in without an invitation: unless the request is
    admitted, it changes nothing at all. *)
Theorem join_needs_invitation env r w o w' :
  join_handler paths sh env r w = (o, w') → w' = w ∨ admitted w r.
Proof.
  unfold join_handler, admitted. destruct (rq_TLS r) as [cns|]; [|intros [= _ <-]; by left].
  case_bool_decide as Hm; cbn [negb]; [|intros [= _ <-]; by left].
  destruct (json_Decode (rq_Body r)) as [dto|e|p|p] eqn:Hd;
    unfold mbind at 1, M_bind at 1, checked, attempt at 1, lift at 1;
    [|intros [= _ <-]; by left..].
  intros [->|(jr & _ & Hrun)]%or_bad_request_looks; [by left| |done].
  apply or_bad_request_looks in Hrun as [->|(db & Hdb & Hrun)];
    [by left| |unfold on_requests, on_part, query; cbn; apply with_requests_same].
  apply or_bad_request_looks in Hrun as [->|(text & Ht & Hrun)]; [by left| |done].
  case_bool_decide as Htok; cbn [negb] in Hrun; [|injection Hrun as _ <-; by left].
  unfold on_requests, on_part, query in Hdb. injection Hdb as Hdb _.
  apply first_row in Hdb as [Hdb _]. injection Ht as Ht.
  destruct (jr_Role db) eqn:Hrole; try (injection Hrun as _ <-; by left); right;
    (split; [done|]); (split; [done|]); exists dto, db; rewrite Htok; auto.
Qed.

(** A gateway whose files can be rewritten after a node has joined. *)
Record can_settle (w : World) (gw : Node) (b : FullGatewayBundle) (resolv coredns : string)
    : Prop := {
  cs_network : ok (w_nodes w);
  cs_nodes : healthy (w_nodes w);
  cs_gateway : is_gateway_of (w_nodes w) gw;
  cs_bundle : node_GatewayCertBundle gw = Some b;
  cs_services : healthy (w_services w);
  cs_resolv : GetFormattedResolvConfig gw = Ret resolv;
  cs_coredns : GetFormattedCoreDNSConfig gw = Ret coredns;
  cs_caddy : ∀ l, ∃ caddy, or_nil (GetFormattedCaddyConfig gw l) = Ret caddy;
  cs_disk : ∀ p, disk_broken (host_disk (w_host w)) p = None;
}.

Definition settled_disk (w : World) (gw : Node) (resolv coredns : string) (caddy : option string)
    : Disk :=
  MkDisk (saved_files paths gw resolv coredns caddy (disk_files (host_disk (w_host w))))
    (disk_broken (host_disk (w_host w))).

Lemma settle_gateway_runs w gw b resolv coredns id k :
  can_settle w gw b resolv coredns →
  ∃ t caddy,
    settle_gateway paths id k w
    = k (with_nodes t (with_disk (settled_disk w gw resolv coredns caddy) w)) ∧
    rows t = <[node_ID gw := set_GatewayCertBundle (Some (RemoveClient id b)) gw]>
               (rows (w_nodes w)).
Proof.
  intros [Hok Hn Hgw Hb Hs Hr Hc Hcaddy Hd].
  destruct (GetAllServices_all (w_services w) Hs) as (l & Hl & _).
  destruct (Hcaddy l) as [caddy Hy].
  set (gw' := set_GatewayCertBundle (Some (RemoveClient id b)) gw).
  destruct (save_known (w_nodes w) gw') as (m & t & Hsave & Ht & Hrows & _);
    [done|done|exact (cores_lookup _ _ _ (proj1 Hgw))|].
  exists t, caddy. split; [|done]. unfold settle_gateway.
  erewrite or_bad_request_Ret; [|apply on_part_Ret, query_Ret; unfold GetGatewayNode;
    by rewrite (first_gateway _ gw)].
  cbn beta iota. erewrite or_bad_request_Ret by (apply on_part_Ret, query_Ret; exact Hl).
  cbn beta. erewrite or_bad_request_Ret; [|apply on_part_Ret;
    apply (SaveConfigs_gateway paths gw l _ resolv coredns caddy); [apply Hgw|done..]].
  cbn beta. rewrite Hb. erewrite or_bad_request_Ret.
  2: { apply on_part_Ret. unfold SaveNode. fold gw'. by rewrite (M_bind_Ret _ _ _ _ _ Hsave). }
  by destruct w.
Qed.

(** WireGuard's configuration is there to be reloaded. *)
Lemma restart_wireguard w gw resolv coredns caddy ran :
  let h := MkHost (settled_disk w gw resolv coredns caddy) ran in
  RestartNetworkApps paths sh true false false h
  = (match sh (length ran) WireguardRestartCommand with
     | Some err => Throw (Errorf ("failed to restart wireguard: " +:+ err))
     | None => Ret tt
     end, MkHost (host_disk h) (ran ++ [WireguardRestartCommand])).
Proof.
  cbn zeta. unfold RestartNetworkApps, restart_app. cbn [host_disk].
  assert (present (WireguardConfigPath paths) (settled_disk w gw resolv coredns caddy) = true) as Hp.
  { unfold present, settled_disk, saved_files. cbn [disk_files]. apply bool_decide_eq_true_2.
    destruct caddy as [y|]; [|by rewrite lookup_insert_eq].
    destruct (decide (CaddyConfigPath paths = WireguardConfigPath paths)) as [->|];
      [by rewrite lookup_insert_eq|by rewrite lookup_insert_ne, lookup_insert_eq]. }
  unfold mbind, M_bind, get, attempt, RunShell, mret, M_ret, throw. cbn [host_disk host_ran].
  rewrite Hp. cbn [host_disk host_ran]. by destruct (sh (length ran) WireguardRestartCommand).
Qed.

(** An invited node's request, up to the gateway's last restart: the node is created as the
    invitation says. *)
Definition create_invited (env : CreateEnv) (jr : JoinRequest) : M (Table (Gorm := GN)) Node :=
  match jr_Role jr with
  | NodeRoleServer => CreateServer env (jr_DockerSubnet jr)
  | _ => CreateClient env
  end.
Record invited (w : World) (env : CreateEnv) (r : Request) (jr : JoinRequest) (n : Node)
    (t : Table (Gorm := GN)) : Prop := {
  inv_tls : rq_TLS r ≠ None;
  inv_post : rq_Method r = "POST";
  inv_body : ∃ dto, json_Decode (rq_Body r) = Ret dto ∧ ToBase64 jr = Ret (jq_JoinToken dto) ∧
    FromBase64 (jq_JoinToken dto) = Ret jr;
  inv_role : jr_Role jr = NodeRoleServer ∨ jr_Role jr = NodeRoleClient;
  inv_requests : healthy (w_requests w);
  inv_stored : rows (w_requests w) !! jr_ID jr = Some jr;
  inv_created : create_invited env jr (w_nodes w) = (Ret n, t);
}.

(** The end of the handler: for a server the restart of WireGuard may fail, and CoreDNS and
    Caddy are restarted later; for a client it may not. *)
Definition scheduled_for (role : NodeRole) : list RestartArgs :=
  match role with NodeRoleServer => [(10 * Second, false, true, true)] | _ => [] end.
Definition with_scheduled (args : list RestartArgs) (w : World) : World :=
  MkWorld (w_nodes w) (w_services w) (w_requests w) (w_tokens w) (w_host w) (w_out w) (w_err w)
    (w_scheduled w ++ args) (w_docker w) (w_remote w).
Definition finish_join (jr : JoinRequest) (n : Node) : M World Reply :=
  match jr_Role jr with
  | NodeRoleServer =>
      _ ← attempt (on_host (RestartNetworkApps paths sh true false false));
      _ ← ScheduleNetworkAppsRestart (10 * Second, false, true, true);
      answer_join (jr_ID jr) n
  | _ =>
      or_bad_request (on_host (RestartNetworkApps paths sh true false false)) (λ _,
      answer_join (jr_ID jr) n)
  end.

Lemma join_runs env r w jr n t :
  invited w env r jr n t →
  join_handler paths sh env r w
  = settle_gateway paths (jr_ID jr) (finish_join jr n) (with_nodes t w).
Proof.
  intros [Htls Hpost (dto & Hdto & Htok & Hfrom) Hrole Hreq Hin Hcreate]. unfold join_handler.
  destruct (rq_TLS r) as [cns|]; [|done]. rewrite bool_decide_eq_true_2 by done. cbn [negb].
  erewrite M_bind_Ret by (unfold checked, attempt, lift; by rewrite Hdto). cbn beta iota zeta.
  erewrite or_bad_request_Ret by (apply lift_Ret; exact Hfrom). cbn beta.
  erewrite or_bad_request_Ret; [|apply on_part_Ret, query_Ret; unfold GetRequest;
    by rewrite (first_key _ _ (request_id_pk _)), Hin].
  cbn beta. erewrite or_bad_request_Ret by (apply lift_Ret; exact Htok). cbn beta.
  rewrite bool_decide_eq_true_2 by done. cbn [negb]. unfold create_invited in Hcreate.
  unfold finish_join. destruct Hrole as [Hrole|Hrole]; rewrite Hrole in Hcreate |- *;
    (erewrite or_bad_request_Ret by (apply on_part_Ret; cbn; exact Hcreate)); by destruct w.
Qed.

(** The same, past the last restart of WireGuard. *)
Lemma join_settles env r w jr n t gw b resolv coredns :
  invited w env r jr n t → can_settle (with_nodes t w) gw b resolv coredns →
  ∃ t' caddy, rows t' = <[node_ID gw := set_GatewayCertBundle (Some (RemoveClient (jr_ID jr) b)) gw]>
                          (rows t) ∧
    let w1 := with_nodes t' (with_disk (settled_disk (with_nodes t w) gw resolv coredns caddy)
                (with_nodes t w)) in
    let h := MkHost (settled_disk (with_nodes t w) gw resolv coredns caddy)
               (host_ran (w_host w) ++ [WireguardRestartCommand]) in
    let restarted := sh (length (host_ran (w_host w))) WireguardRestartCommand in
    (jr_Role jr = NodeRoleServer ∨ restarted = None → join_handler paths sh env r w
     = answer_join (jr_ID jr) n (with_scheduled (scheduled_for (jr_Role jr)) (with_host h w1))) ∧
    (∀ err, jr_Role jr = NodeRoleClient → restarted = Some err → join_handler paths sh env r w
     = (Ret (ErrorReply StatusBadRequest ""), with_host h w1)).
Proof.
  intros Hinv Hset. rewrite (join_runs _ _ _ _ _ _ Hinv).
  destruct (settle_gateway_runs (with_nodes t w) gw b resolv coredns (jr_ID jr) (finish_join jr n)
    Hset) as (t' & caddy & -> & Hrows).
  exists t', caddy. split; [exact Hrows|]. cbn zeta.
  unfold finish_join, or_bad_request, attempt, on_host, on_part.
  destruct (inv_role _ _ _ _ _ _ Hinv) as [-> | ->]; unfold mbind, M_bind;
    cbn [w_host with_nodes with_disk with_host host_ran host_disk]; rewrite restart_wireguard.
  - split; [|done]. intros _. by destruct (sh _ WireguardRestartCommand).
  - split; [|by intros err _ ->]. intros [?|E]; [done|]. rewrite E.
    unfold with_scheduled, scheduled_for. by rewrite app_nil_r.
Qed.

(** The answer uses the invitation up. *)
Lemma answer_join_runs id n body w :
  healthy (w_requests w) → json_Marshal (MkJoinResponseDTO (Some n)) = Ret body →
  ∃ tr, answer_join id n w = (Ret (JsonReply 200 (body ++ [10])), with_requests tr w) ∧
    rows tr = delete id (rows (w_requests w)).
Proof.
  intros Hh Hbody. destruct (delete_ok (request_id id) (w_requests w) Hh) as (m & tr & Hd & _).
  pose proof (delete_rows _ _ _ _ Hd) as [_ Hr]. exists tr. unfold answer_join.
  erewrite or_bad_request_Ret.
  2: { apply on_part_Ret. unfold DeleteRequest. by rewrite (M_bind_Ret _ _ _ _ _ Hd). }
  cbn beta. erewrite M_bind_Ret by (unfold checked, attempt, lift; by rewrite Hbody).
  split; [done|]. by rewrite Hr, (filter_key _ _ (request_id_pk _)).
Qed.

(** C8: what becomes of an invited node that joins.  Its row is created, the gateway drops the
    invitation's own certificate, its files are rewritten and WireGuard is restarted on it.
    A server, whatever becomes of that restart, and a client when it works are answered with
    the node, and the invitation is used up; for a server CoreDNS and Caddy are to be
    restarted ten seconds later.  A client whose restart fails is answered 400 without the
    node and keeps its invitation, although its row stays.  Nothing else changes. *)
Theorem join_joins env r w jr n t gw b resolv coredns body :
  invited w env r jr n t → can_settle (with_nodes t w) gw b resolv coredns →
  json_Marshal (MkJoinResponseDTO (Some n)) = Ret body →
  ∃ t' caddy,
    rows t' = <[node_ID gw := set_GatewayCertBundle (Some (RemoveClient (jr_ID jr) b)) gw]> (rows t) ∧
    let h := MkHost (settled_disk (with_nodes t w) gw resolv coredns caddy)
               (host_ran (w_host w) ++ [WireguardRestartCommand]) in
    let restarted := sh (length (host_ran (w_host w))) WireguardRestartCommand in
    (jr_Role jr = NodeRoleServer ∨ restarted = None →
       ∃ tr, rows tr = delete (jr_ID jr) (rows (w_requests w)) ∧
         join_handler paths sh env r w
         = (Ret (JsonReply 200 (body ++ [10])),
            with_requests tr (with_scheduled (scheduled_for (jr_Role jr))
              (with_host h (with_nodes t' w))))) ∧
    (∀ err, jr_Role jr = NodeRoleClient → restarted = Some err →
       join_handler paths sh env r w
       = (Ret (ErrorReply StatusBadRequest ""), with_host h (with_nodes t' w))).
Proof.
  intros Hinv Hset Hbody.
  destruct (join_settles _ _ _ _ _ _ _ _ _ _ Hinv Hset) as (t' & caddy & Hrows & Hgo & Hfail).
  exists t', caddy. split; [exact Hrows|]. cbn zeta in *. split.
  - intros Hrole. specialize (Hgo Hrole).
    edestruct (answer_join_runs (jr_ID jr) n body) as (tr & Hans & Hr); [|exact Hbody|].
    2: { rewrite Hans in Hgo. exists tr. split; [exact Hr|exact Hgo]. }
    exact (inv_requests _ _ _ _ _ _ Hinv).
  - intros err Hrole Herr. exact (Hfail err Hrole Herr).
Qed.

(** Joining is not one step: when the last restart of WireGuard fails the client is told
    to try again, but its node has been created and its invitation is still good, so that
    the same request is invited again and creates another node. *)
Theorem join_client_repeats env r w jr n t gw b resolv coredns err :
  invited w env r jr n t → jr_Role jr = NodeRoleClient →
  can_settle (with_nodes t w) gw b resolv coredns →
  (∀ i, sh i WireguardRestartCommand = Some err) →
  ∃ w', join_handler paths sh env r w = (Ret (ErrorReply StatusBadRequest ""), w') ∧
    rows (w_nodes w')
    = <[node_ID gw := set_GatewayCertBundle (Some (RemoveClient (jr_ID jr) b)) gw]> (rows t) ∧
    w_requests w' = w_requests w ∧
    ∀ env' n' t', CreateClient env' (w_nodes w') = (Ret n', t') → invited w' env' r jr n' t'.
Proof.
  intros Hinv Hrole Hset Hsh.
  destruct (join_settles _ _ _ _ _ _ _ _ _ _ Hinv Hset) as (t' & caddy & Hrows & _ & Hrun).
  eexists. split; [by eapply Hrun|]. split; [exact Hrows|]. split; [done|].
  intros env' n' u Hcreate. destruct Hinv. split; try done. unfold create_invited. by rewrite Hrole.
Qed.
End properties.

Section removal.
  Context {GN : Gorm string Node} {LN : GormLaws string Node}
    {GS : Gorm ServiceKey PublicService} {GR : Gorm string JoinRequest}
    {GT : Gorm string JoinToken} {X : X509} {AJ : ApiJson} {JD : JsonDecode ServerRemoveRequestDTO}.
  Context (http : Transport).

(** The row of [k] is still [v]. *)
Definition keeps_row (k : string) (v : option Node) (w : World) : Prop :=
  rows (w_nodes w) !! k = v.
#[export] Instance keeps_row_free k v : TextFree (keeps_row k v).
Proof. by intros w out err Hw. Qed.

Lemma preserves_buffered {A} I (c : M World A) :
  TextFree I → preserves I c → preserves I (buffered c).
Proof.
  intros HI Hc. unfold buffered. intros w Hw. unfold mbind, M_bind, get, put.
  pose proof (preserves_attempt I c Hc (with_text "" "" w) (HI _ _ _ Hw)) as Ha.
  destruct (attempt c (with_text "" "" w)) as [[a|e|p|p] w']; [by apply HI|done..].
Qed.

Lemma DeleteServer_row k v id :
  k ≠ id → triple (λ t, rows t !! k = v) (DeleteServer id) (λ _ t, rows t !! k = v)
             (λ t, rows t !! k = v).
Proof.
  intros Hk. unfold DeleteServer. eapply triple_bind with (Q := λ _ t, rows t !! k = v);
    [|by intros m t Ht].
  apply triple_delete; [|done]. intros _ t t' Ht ->. rewrite <- Ht.
  destruct (rows t !! k) as [n|] eqn:E.
  - apply map_lookup_filter_Some_2; [done|]. cbn. apply rows_pk in E. cbn in E. unfold has_id.
    rewrite bool_decide_eq_false_2 by congruence. done.
  - apply map_lookup_filter_None_2. by left.
Qed.

Lemma Cmd_ServerRemove_row k v id :
  k ≠ id → preserves (keeps_row k v) (Cmd.ServerRemove http id).
Proof.
  intros Hk. apply executeCommand_preserves; [apply _|]. intros g cn api Hg.
  repeat (apply elem_of_cons in Hg as [->|Hg]); [| |by apply elem_of_nil in Hg]; cbn [Handler].
  - apply preserves_remotely.
  - apply preserves_locally. apply preserves_complain; [apply _| |intros; apply preserves_out, _].
    intros w Hw. pose proof (DeleteServer_row k v id Hk (w_nodes w) Hw) as Hd.
    unfold on_nodes, on_part. by destruct (DeleteServer id (w_nodes w)) as [[] t].
Qed.

(** C15: whatever a node asks of [/commands/server/remove] and whatever becomes of the
    request, no node but the one its certificate names is removed or changed. *)
Theorem server_remove_only_itself r w o w' k :
  handleRequestWithBody r (server_remove_handler http) default_packer w = (o, w') →
  (∀ cns, rq_TLS r ≠ Some (k :: cns)) →
  rows (w_nodes w') !! k = rows (w_nodes w) !! k.
Proof.
  intros Hrun Hk. set (v := rows (w_nodes w) !! k).
  refine (triple_any (keeps_row k v) _ (keeps_row k v) _ _ _ _ eq_refl Hrun).
  unfold handleRequestWithBody. destruct (rq_TLS r) as [[|cn cns]|];
    [by apply preserves_lift| |by apply preserves_lift].
  destruct (validateRequest r cn); [by apply preserves_ret|].
  apply preserves_bind; [by apply preserves_attempt, preserves_lift|].
  intros [e|req]; [by apply preserves_ret|]. apply preserves_bind.
  - apply preserves_buffered; [apply _|]. unfold server_remove_handler.
    case_bool_decide as Hid; [|by apply preserves_throw].
    apply Cmd_ServerRemove_row. rewrite Hid. intros ->. by apply (Hk cns).
  - intros [[[e|u] out] err]; [by apply preserves_ret|].
    apply preserves_bind; [by apply preserves_attempt, preserves_ret|].
    intros [e|dto]; [by apply preserves_ret|].
    apply preserves_bind; [by apply preserves_attempt, preserves_lift|].
    by intros [e|body]; apply preserves_ret.
Qed.
End removal.

(** ** At work *)

Lemma caddy_entries_returns ip services l4 l7 :
  (∃ r, caddy_entries ip services l4 l7 = Ret r) ∨ (∃ e, caddy_entries ip services l4 l7 = Throw e).
Proof.
  revert l4 l7. induction services as [|s services IH]; intros l4 l7; cbn; [eauto|].
  destruct (AsCaddyConfigEntry_returns ip s) as [[e He]|[e He]]; rewrite He; cbn; [|eauto].
  destruct (is_layer4 s); apply IH.
Qed.
Lemma toy_caddy n l : ∃ caddy, or_nil (GetFormattedCaddyConfig (R := toy_raymond) n l) = Ret caddy.
Proof.
  unfold GetFormattedCaddyConfig. case_bool_decide; [|cbn; eauto]. cbn.
  destruct (caddy_entries_returns (node_GatewayPublicIP n) l [] []) as [[[l4 l7] Hr]|[e Hr]];
    rewrite Hr; cbn; eauto.
Qed.

(** The demo gateway, an invitation to it, and the invited node's request. *)
Definition invitation (role : NodeRole) : JoinRequest :=
  MkJoinRequest "r-1" "a2V5" (jr_ClientCertBundle sample_request) None "203.0.113.7" 4060 role 0.
Lemma invited_keyed role : keyedb ({[ "r-1" := invitation role ]} : gmap string JoinRequest) = true.
Proof. vm_compute. reflexivity. Qed.
Definition inviting_world (role : NodeRole) : World :=
  MkWorld demo_gateway one_service
    (exist _ ({[ "r-1" := invitation role ]} : gmap string JoinRequest) (invited_keyed role)
      : request_table)
    no_tokens (MkHost sample_disk []) "" "" [] [] no_remote.
Definition join_post : Request :=
  MkRequest (Some ["r-1"]) "POST" "application/json" "/commands/join" [].
Definition token_decode : JsonDecode JoinRequestDTO := λ _, Ret (MkJoinRequestDTO "Kg==").

Definition joined_table (role : NodeRole) : demo_table :=
  (create_invited (demo_env "n1" 20) (invitation role) demo_gateway).2.
Definition joined_node (role : NodeRole) : Node := demo_node "n1" (joined_table role).
Definition joined_gateway (role : NodeRole) : Node := demo_node "gw" (joined_table role).
Definition joined_bundle (role : NodeRole) : FullGatewayBundle :=
  default (MkGatewayBundle no_pem no_pem None 0) (node_GatewayCertBundle (joined_gateway role)).

Lemma joined_ok role : ok (joined_table role).
Proof.
  unfold joined_table, create_invited. cbn [jr_Role jr_DockerSubnet invitation].
  pose proof demo_gateway_ok as Hok. destruct role;
    (eapply triple_any; [|exact Hok|apply surjective_pairing]);
    first [by apply (CreateServer_ok (demo_env "n1" 20))|by apply (CreateClient_ok (demo_env "n1" 20))].
Qed.

Lemma sample_invited role :
  role = NodeRoleServer ∨ role = NodeRoleClient →
  invited (JQ := one_value_json (invitation role)) (JD := token_decode) (inviting_world role)
    (demo_env "n1" 20) join_post (invitation role) (joined_node role) (joined_table role).
Proof.
  intros Hrole. split.
  - discriminate.
  - reflexivity.
  - exists (MkJoinRequestDTO "Kg=="). by destruct Hrole as [-> | ->]; vm_compute.
  - exact Hrole.
  - exact I.
  - reflexivity.
  - by destruct Hrole as [-> | ->]; vm_compute.
Qed.

Lemma sample_can_settle role :
  role = NodeRoleServer ∨ role = NodeRoleClient →
  can_settle (R := toy_raymond) (with_nodes (joined_table role) (inviting_world role))
    (joined_gateway role) (joined_bundle role) "configs/resolv/resolv.hbs gw"
    "configs/coredns/corefile.hbs gw".
Proof.
  intros Hrole. split.
  - exact (joined_ok role).
  - exact I.
  - destruct Hrole as [-> | ->]; split; by vm_compute.
  - by destruct Hrole as [-> | ->]; vm_compute.
  - exact I.
  - by destruct Hrole as [-> | ->]; vm_compute.
  - by destruct Hrole as [-> | ->]; vm_compute.
  - exact (toy_caddy (joined_gateway role)).
  - exact (λ _, eq_refl).
Qed.

(** A shell in which WireGuard cannot be restarted: a server gets in all the same, a client
    is turned away with its invitation still good. *)
Definition wg_fails (_ : nat) (c : string) : option string :=
  if bool_decide (c = WireguardRestartCommand) then Some "exit status 1" else None.

Lemma join_joins_witness :
  (∃ w', join_handler (JQ := one_value_json (invitation NodeRoleServer)) (JD := token_decode)
          (JP := one_value_json (MkJoinResponseDTO (Some (joined_node NodeRoleServer))))
          sample_paths wg_fails (demo_env "n1" 20) join_post (inviting_world NodeRoleServer)
        = (Ret (JsonReply 200 [42; 10]), w') ∧
        rows (w_requests w') !! "r-1" = None ∧ w_scheduled w' = [(10000000000, false, true, true)]) ∧
  (join_handler (JQ := one_value_json (invitation NodeRoleClient)) (JD := token_decode)
     (JP := one_value_json (MkJoinResponseDTO (Some (joined_node NodeRoleClient))))
     sample_paths wg_fails (demo_env "n1" 20) join_post (inviting_world NodeRoleClient)).1
  = Ret (ErrorReply 400 "").
Proof.
  assert (∀ x : JoinResponseDTO, @json_Marshal _ (one_value_json x) x = Ret [42]) as Hx.
  { intros x. cbn. by rewrite bool_decide_eq_true_2. }
  pose proof (λ role (Hrole : role = NodeRoleServer ∨ role = NodeRoleClient),
    @join_joins _ _ _ _ _ _ _ toy_raymond _ (one_value_json (invitation role))
      token_decode (one_value_json (MkJoinResponseDTO (Some (joined_node role)))) sample_paths
      wg_fails (demo_env "n1" 20) join_post
      (inviting_world role) (invitation role) (joined_node role) (joined_table role)
      (joined_gateway role) (joined_bundle role) _ _ [42]
      (sample_invited role Hrole) (sample_can_settle role Hrole) (Hx _)) as Hall.
  split.
  - destruct (Hall NodeRoleServer (or_introl eq_refl)) as (t' & caddy & _ & Hgo & _).
    destruct (Hgo (or_introl eq_refl)) as (tr & Hr & Hrun).
    refine (ex_intro _ _ (conj Hrun (conj _ eq_refl))).
    cbn [w_requests with_requests]. rewrite Hr. exact (lookup_delete_eq _ _).
  - destruct (Hall NodeRoleClient (or_intror eq_refl)) as (t' & caddy & _ & _ & Hfail).
    exact (f_equal fst (Hfail "exit status 1" eq_refl eq_refl)).
Defined.

Lemma join_client_repeats_witness :
  ∃ w', join_handler (JQ := one_value_json (invitation NodeRoleClient)) (JD := token_decode)
          (JP := one_value_json (MkJoinResponseDTO None)) sample_paths
          wg_fails (demo_env "n1" 20) join_post (inviting_world NodeRoleClient)
        = (Ret (ErrorReply 400 ""), w') ∧
        w_requests w' = w_requests (inviting_world NodeRoleClient).
Proof.
  pose (role := NodeRoleClient). assert (role = NodeRoleServer ∨ role = NodeRoleClient) as Hrole by auto.
  destruct (@join_client_repeats _ _ _ _ _ _ _ toy_raymond _ (one_value_json (invitation role))
    token_decode (one_value_json (MkJoinResponseDTO None)) sample_paths
    wg_fails (demo_env "n1" 20) join_post
    (inviting_world role) (invitation role) (joined_node role) (joined_table role)
    (joined_gateway role) (joined_bundle role) _ _ "exit status 1"
    (sample_invited role Hrole) eq_refl (sample_can_settle role Hrole) (λ _, eq_refl))
    as (w' & Hrun & _ & Hr & _).
  exact (ex_intro _ w' (conj Hrun Hr)).
Defined.

(** A token nobody gave out. *)
Lemma join_needs_invitation_witness :
  let r := MkRequest None "POST" "application/json" "/commands/join" [] in
  (join_handler (JQ := one_value_json sample_request) (JD := token_decode)
     (JP := one_value_json (MkJoinResponseDTO None)) sample_paths wg_fails (demo_env "n1" 20) r
     (inviting_world NodeRoleClient)).2 = inviting_world NodeRoleClient.
Proof.
  destruct (@join_needs_invitation _ _ _ _ _ toy_raymond _ (one_value_json sample_request)
    token_decode (one_value_json (MkJoinResponseDTO None)) sample_paths wg_fails (demo_env "n1" 20)
    (MkRequest None "POST" "application/json" "/commands/join" []) (inviting_world NodeRoleClient) _ _
    (surjective_pairing _)) as [E|[Htls _]]; [exact E|by destruct Htls].
Defined.

(** The client asks for the gateway to be removed. *)
Lemma server_remove_only_itself_witness :
  rows (w_nodes (handleRequestWithBody (JT := λ _, Ret (MkServerRemoveRequest "gw"))
    (JE := json_exec (ApiJson := no_api_json))
    join_post (server_remove_handler (AJ := no_api_json) no_network)
    (default_packer) demo_world).2) !! "gw" = rows (w_nodes demo_world) !! "gw".
Proof.
  refine (@server_remove_only_itself _ _ _ _ _ _ no_api_json (λ _, Ret (MkServerRemoveRequest "gw"))
    no_network join_post demo_world _ _ "gw" (surjective_pairing _) _).
  discriminate.
Defined.
