(* ===== verification/WorldNetwork.v ===== *)
(** * The network, whatever commands and requests come

    The invariant of [NodesNetwork.v] at the level of the whole gateway: its start, every
    command that is run on it and every request of the HTTP API, in any order and whatever
    fails on the way, leaves a network in the database. *)
From S2P Require Import Prelude GoStrings GoNet Mtls NodeTypes Gorm.
From S2P Require Import NodesRepo PublicServices NodeConfigs JoinStore NetworkApps.
From S2P Require Import NodesNetwork NodesDemo Aes JoinClient CommandTypes World.
From S2P Require Import LocalService LocalNodes ApiCommands Commands Routes.
From S2P Require Import Docker Ssh LocalJoin Machines Lifecycle.

Section network.
  Context {GN : Gorm string Node} {LN : GormLaws string Node} {GS : Gorm ServiceKey PublicService}
    {GR : Gorm string JoinRequest} {GT : Gorm string JoinToken} {R : Raymond} {X : X509}
    {JQ : Json JoinRequest} {AJ : ApiJson} {AD : ApiDecode} {JP : Json JoinResponseDTO}.
  Context (paths : ConfigPaths) (sh : nat → string → option string) (http : Transport).

(** The stored nodes are a network. *)
Definition net (w : World) : Prop := ok (w_nodes w).
#[export] Instance net_free : TextFree net.
Proof. by intros w out err Hw. Qed.

(** Operations on the nodes that keep the network, and operations on anything else. *)
Lemma net_on_nodes {A} (c : M (Table (Gorm := GN)) A) :
  triple ok c (λ _, ok) ok → preserves net (on_nodes c).
Proof.
  intros Hc w Hw. specialize (Hc (w_nodes w) Hw). unfold on_nodes, on_part.
  by destruct (c (w_nodes w)) as [[] t].
Qed.
Lemma net_on_part {S A} (part : World → S) with_part (c : M S A) :
  (∀ s w, w_nodes (with_part s w) = w_nodes w) → preserves net (on_part part with_part c).
Proof.
  intros Hp w Hw. unfold on_part. unfold net in *.
  destruct (c (part w)) as [[] s]; by rewrite Hp.
Qed.
Lemma net_on_services {A} (c : M (Table (Gorm := GS)) A) : preserves net (on_services c).
Proof. by apply net_on_part. Qed.
Lemma net_on_requests {A} (c : M (Table (Gorm := GR)) A) : preserves net (on_requests c).
Proof. by apply net_on_part. Qed.
Lemma net_on_host {A} (c : M Host A) : preserves net (on_host c).
Proof. by apply net_on_part. Qed.
Lemma net_on_disk {A} (c : M Disk A) : preserves net (on_disk c).
Proof. by apply net_on_part. Qed.
Lemma net_schedule args : preserves net (ScheduleNetworkAppsRestart args).
Proof. by intros w Hw. Qed.

Lemma net_query_requests {A} I (f : Table (Gorm := GR) → Out A) :
  preserves I (on_requests (query f)).
Proof.
  intros w Hw. unfold on_requests, on_part, query. rewrite with_requests_same.
  by destruct (f (w_requests w)).
Qed.

End network.
#[export] Hint Resolve net_on_nodes net_on_services net_on_requests net_on_host net_on_disk
  net_schedule net_query_requests : preserves.
#[export] Hint Resolve CreateServer_ok CreateClient_ok delete_ok_triple assignLabelToNode_ok
  removeLabelFromNode_ok : preserves.

(** Walks through a command: sequences, alternatives, and the operations of the hint
    database at the leaves; [keep_more] is for lemmas on whole stretches of code. *)
Ltac keep_more := fail.
Ltac keep :=
  repeat first
    [ progress intros
    | keep_more
    | apply preserves_complain; [apply _|..]
    | apply preserves_bind
    | apply preserves_attempt
    | solve [auto with preserves typeclass_instances]
    | match goal with |- preserves _ (match ?x with _ => _ end) => destruct x end ].

Section commands.
  Context {GN : Gorm string Node} {LN : GormLaws string Node} {GS : Gorm ServiceKey PublicService}
    {GR : Gorm string JoinRequest} {GT : Gorm string JoinToken} {R : Raymond} {X : X509}
    {JQ : Json JoinRequest} {AJ : ApiJson} {AD : ApiDecode} {JP : Json JoinResponseDTO}.
  Context (paths : ConfigPaths) (sh : nat → string → option string) (http : Transport).

(** ** The commands on servers and clients *)

(** A node that was read from the table, with the part of it that matters unchanged. *)
Definition stored (n : Node) (w : World) : Prop :=
  node_ID n ≠ "" ∧ cores (w_nodes w) !! node_ID n = Some (core n).
Definition net_with (n : Node) (w : World) : Prop := net w ∧ stored n w.
#[export] Instance net_with_free n : TextFree (net_with n).
Proof. by intros w out err Hw. Qed.

Lemma first_stored p w n : net w → First p (w_nodes w) = Ret n → stored n w.
Proof.
  intros Hw Hf. apply first_row in Hf as [Hf _]. apply cores_lookup in Hf. split; [|exact Hf].
  intros E. change (pk n) with (node_ID n) in Hf. rewrite E in Hf. by rewrite (net_named _ Hw) in Hf.
Qed.

(** From a stored node down to the network alone. *)
Lemma weaken_net n {A} (c : M World A) : preserves net c → triple (net_with n) c (λ _, net) net.
Proof. intros Hc. eapply triple_conseq; [apply Hc|by intros w []|done|done]. Qed.

Lemma net_gateway (Q : option Node → World → Prop) :
  (∀ w, net w → Q None w) → (∀ n w, net_with n w → Q (Some n) w) →
  triple net (on_nodes (query GetGatewayNode)) Q net.
Proof.
  intros HN HS w Hw. unfold on_nodes, on_part, query. rewrite with_nodes_same. unfold GetGatewayNode.
  destruct (First _ (w_nodes w)) as [n|e|p|p] eqn:E; [|case_bool_decide; auto|done..].
  apply HS. split; [done|]. by eapply first_stored.
Qed.

Lemma SaveNode_net n n' :
  core n' = core n → node_ID n' = node_ID n →
  triple (net_with n) (on_nodes (SaveNode n')) (λ _, net) net.
Proof.
  intros Hc Hid w [Hw [Hne Hin]]. unfold on_nodes, on_part.
  pose proof (SaveNode_ok n') as Hs. rewrite Hid, Hc in Hs. specialize (Hs Hne (w_nodes w) (conj Hw Hin)).
  by destruct (SaveNode n' (w_nodes w)) as [[] t].
Qed.

Lemma new_join_request_net env gw role subnet k :
  (∀ t, preserves net (k t)) →
  triple (net_with gw) (new_join_request env gw role subnet k) (λ _, net) net.
Proof.
  intros Hk. unfold new_join_request. destruct (node_GatewayCertBundle gw) as [b|];
    [|by apply weaken_net, preserves_lift].
  eapply (triple_complain _ _ _ (λ _, net_with gw)); [apply _|by apply triple_lift; [|intros w []]|].
  intros b'. eapply (triple_complain _ _ _ (λ _, net)); [apply _|by apply SaveNode_net|].
  intros m. change (preserves net (or_complain "Failed to get client cert bundle: "
    (lift (GetClientBundlePublic (env_uuid (ce_create env)) b')) (λ clientCertBundle : FullClientBundle,
      match node_WGPublicIP (set_GatewayCertBundle (Some b') gw) with
      | Some host =>
          or_complain "Failed to create join request: "
            (on_requests (CreateRequest (ce_random env) (ce_now env) (env_uuid (ce_create env)) host
               ControlServerPort subnet role clientCertBundle)) (λ joinRequest,
          or_complain "Failed to encode join request: " (lift (ToBase64 joinRequest)) k)
      | None => lift (Panic "nil pointer dereference: WGPublicIP")
      end))).
  keep.
Qed.

Lemma request_from_gateway_net env role subnet k :
  (∀ t, preserves net (k t)) →
  preserves net (or_complain "Failed to get gateway node: " (on_nodes (query GetGatewayNode))
    (λ gatewayNode, match gatewayNode with
     | None => lift (Panic "nil pointer dereference: gatewayNode")
     | Some gw => new_join_request env gw role subnet k
     end)).
Proof.
  intros Hk. eapply (triple_complain _ _ _ (λ g w, match g with None => net w | Some n => net_with n w end));
    [apply _|by apply net_gateway|].
  intros [gw|]; [by apply new_join_request_net|apply preserves_lift].
Qed.
End commands.
Ltac keep_more ::= apply request_from_gateway_net.

Section locals.
  Context {GN : Gorm string Node} {LN : GormLaws string Node} {GS : Gorm ServiceKey PublicService}
    {GR : Gorm string JoinRequest} {GT : Gorm string JoinToken} {R : Raymond} {X : X509}
    {JQ : Json JoinRequest} {AJ : ApiJson} {AD : ApiDecode} {JP : Json JoinResponseDTO}.
  Context (paths : ConfigPaths) (sh : nat → string → option string) (http : Transport).

Lemma ServerNew_net env force quiet subnet :
  env_uuid (ce_create env) ≠ "" → preserves net (LocalNodes.ServerNew env force quiet subnet).
Proof. intros Hid. unfold LocalNodes.ServerNew, create_or_invite. keep. Qed.
Lemma ServerRemove_net id : preserves net (LocalNodes.ServerRemove id).
Proof. unfold LocalNodes.ServerRemove, DeleteServer. keep. Qed.
Lemma ServerList_net from : preserves net (LocalNodes.ServerList from).
Proof. unfold LocalNodes.ServerList. keep. Qed.
Lemma ClientList_net from : preserves net (LocalNodes.ClientList from).
Proof. unfold LocalNodes.ClientList. keep. Qed.
Lemma NodeLabelAdd_net ip label : preserves net (LocalNodes.NodeLabelAdd ip label).
Proof. unfold LocalNodes.NodeLabelAdd, with_server_at, AddLabelToNode. keep. Qed.
Lemma NodeLabelRemove_net ip label : preserves net (LocalNodes.NodeLabelRemove ip label).
Proof. unfold LocalNodes.NodeLabelRemove, with_server_at, RemoveLabelFromNode. keep. Qed.

Lemma apply_services_net k : preserves net k → preserves net (apply_services paths sh k).
Proof. intros Hk. unfold apply_services. keep. Qed.
End locals.
#[export] Hint Resolve ServerNew_net ServerRemove_net ServerList_net ClientList_net NodeLabelAdd_net
  NodeLabelRemove_net : preserves.
Ltac keep_more ::= first [apply request_from_gateway_net | apply apply_services_net].

Section invariant.
  Context {GN : Gorm string Node} {LN : GormLaws string Node} {GS : Gorm ServiceKey PublicService}
    {GR : Gorm string JoinRequest} {GT : Gorm string JoinToken} {R : Raymond} {X : X509}
    {JQ : Json JoinRequest} {AJ : ApiJson} {AD : ApiDecode} {JP : Json JoinResponseDTO}.
  Context (paths : ConfigPaths) (sh : nat → string → option string) (http : Transport).

Lemma ServicePublish_net from lp lh lport pp ph pport :
  preserves net (LocalService.ServicePublish paths sh from lp lh lport pp ph pport).
Proof. unfold LocalService.ServicePublish. keep. Qed.
Lemma ServiceUnpublish_net pp ph pport :
  preserves net (LocalService.ServiceUnpublish paths sh pp ph pport).
Proof. unfold LocalService.ServiceUnpublish. keep. Qed.
Lemma ServiceList_net : preserves net LocalService.ServiceList.
Proof. unfold LocalService.ServiceList. keep. Qed.
Lemma ServiceParamNew_net pp ph pport ty v :
  preserves net (LocalService.ServiceParamNew paths sh pp ph pport ty v).
Proof. unfold LocalService.ServiceParamNew. keep. Qed.
Lemma ServiceParamRemove_net pp ph pport ty v :
  preserves net (LocalService.ServiceParamRemove paths sh pp ph pport ty v).
Proof. unfold LocalService.ServiceParamRemove. keep. Qed.
Lemma ServiceParamList_net pp ph pport : preserves net (LocalService.ServiceParamList pp ph pport).
Proof. unfold LocalService.ServiceParamList. keep. Qed.

(** A new client, on a node just read. *)
Lemma ClientNew_gateway_net env jr quiet n :
  env_uuid (ce_create env) ≠ "" →
  triple (net_with n) (ClientNew_gateway paths sh env jr quiet n) (λ _, net) net.
Proof.
  intros Hid. unfold ClientNew_gateway.
  eapply (triple_complain _ _ _ (λ _, net_with n)); [apply _| |].
  { eapply triple_conseq; [apply (preserves_query_nodes (net_with n))|done|done|by intros w []]. }
  intros [total available]. eapply triple_bind with (Q := λ _, net_with n).
  { eapply triple_conseq; [apply (net_query_requests (net_with n))|done|done|by intros w []]. }
  intros requests. case_match; [apply weaken_net; keep|].
  destruct jr; [|apply weaken_net; keep]. apply new_join_request_net. keep.
Qed.

Lemma current_node_net :
  triple net (attempt (on_nodes (query GetCurrentNode)))
    (λ r w, match r with inr n => net_with n w | inl _ => net w end) net.
Proof.
  intros w Hw. unfold attempt, on_nodes, on_part, query. rewrite with_nodes_same.
  unfold GetCurrentNode. destruct (First _ (w_nodes w)) as [n|e|p|p] eqn:E; try exact Hw.
  split; [exact Hw|]. by eapply first_stored.
Qed.

Lemma wait_for_node_net meanwhile quiet n i err :
  (∀ i w, net w → net (meanwhile i w)) →
  triple net (wait_for_node meanwhile quiet n i err)
    (λ r w, match r with inr n => net_with n w | inl _ => net w end) net.
Proof.
  intros Hm. revert i err. induction n as [|n IH]; intros i err; cbn [wait_for_node]; [by intros w Hw|].
  eapply triple_bind with (Q := λ w0 w, w0 = w ∧ net w); [by intros w Hw|]. intros w0.
  eapply triple_bind with (Q := λ _, net); [by intros w [-> Hw]; apply Hm|]. intros [].
  eapply triple_bind; [apply current_node_net|]. intros [err'|m]; [apply IH|].
  destruct quiet; [by intros w Hw|]. eapply triple_bind with (Q := λ _, net_with m);
    [|by intros [] w Hw]. eapply triple_conseq; [apply (preserves_out (net_with m))|done|done|by intros w []].
Qed.

Lemma ClientNew_net meanwhile env jr quiet wait :
  env_uuid (ce_create env) ≠ "" → (∀ i w, net w → net (meanwhile i w)) →
  preserves net (LocalNodes.ClientNew paths sh meanwhile env jr quiet wait).
Proof.
  intros Hid Hm. unfold LocalNodes.ClientNew. eapply triple_bind; [apply current_node_net|].
  assert (∀ n, triple (net_with n) (if bool_decide (node_Role n = NodeRoleGateway)
    then ClientNew_gateway paths sh env jr quiet n else mret tt) (λ _, net) net) as Hgo.
  { intros n. case_match; [by apply ClientNew_gateway_net|by intros w []]. }
  intros [err|n]; [|apply Hgo]. destruct wait; cbn [negb]; [|apply preserves_err; apply _].
  eapply triple_bind; [by apply wait_for_node_net|].
  intros [err'|n]; [apply preserves_err; apply _|apply Hgo].
Qed.
End invariant.
#[export] Hint Resolve ServicePublish_net ServiceUnpublish_net ServiceList_net ServiceParamNew_net
  ServiceParamRemove_net ServiceParamList_net ClientNew_net : preserves.

(** The handlers of a command's role groups, one by one. *)
Ltac each_handler :=
  apply executeCommand_preserves; [apply _|];
  let g := fresh "g" in let Hg := fresh "Hg" in
  intros g ? ? Hg; repeat (apply elem_of_cons in Hg as [->|Hg]); try (by apply elem_of_nil in Hg);
  cbn [Handler]; auto with preserves typeclass_instances.

Section reachable.
  Context {GN : Gorm string Node} {LN : GormLaws string Node} {GS : Gorm ServiceKey PublicService}
    {GR : Gorm string JoinRequest} {GT : Gorm string JoinToken} {R : Raymond} {X : X509}
    {JQ : Json JoinRequest} {AJ : ApiJson} {AD : ApiDecode} {JP : Json JoinResponseDTO}.
  Context (paths : ConfigPaths) (sh : nat → string → option string).

(** What a command draws from outside is usable: a name for the new node, and a wait in
    which other processes keep the network. *)
Definition usable (env : CommandEnv) (meanwhile : nat → World → World) : Prop :=
  env_uuid (ce_create env) ≠ "" ∧ ∀ i w, net w → net (meanwhile i w).
Definition usable_command (c : Invocation) : Prop :=
  match c with
  | ServerNew env _ _ _ => env_uuid (ce_create env) ≠ ""
  | ClientNew meanwhile env _ _ _ => usable env meanwhile
  | _ => True
  end.

Lemma run_command_net http c :
  usable_command c → preserves net (run_command paths sh http c).
Proof.
  intros Hc. destruct c; cbn [run_command usable_command] in *; try match type of Hc with usable _ _ => destruct Hc end; each_handler.
Qed.

(** ** Requests *)

Lemma or_bad_request_net {A} (c : M World A) k :
  preserves net c → (∀ a, preserves net (k a)) → preserves net (or_bad_request c k).
Proof.
  intros Hc Hk. apply preserves_bind; [by apply preserves_attempt|].
  intros [err|a]; [by intros w Hw|apply Hk].
Qed.

Lemma checked_net {A} (o : Out A) : preserves net (checked o).
Proof. intros w Hw. unfold checked, attempt, lift. by destruct o. Qed.

Lemma handleRequestWithBody_net {T Resp} `{JsonDecode T} `{Json Resp} r
    (handler : string → T → M World unit) (packer : string → string → string → M World Resp) :
  (∀ id t, preserves net (handler id t)) → (∀ id out err, preserves net (packer id out err)) →
  preserves net (handleRequestWithBody r handler packer).
Proof.
  intros Hh Hp. unfold handleRequestWithBody. destruct (rq_TLS r) as [[|cn cns]|]; [keep| |keep].
  destruct (validateRequest r cn); [keep|]. apply preserves_bind; [apply checked_net|].
  intros [err|t]; [keep|]. apply preserves_bind; [apply preserves_buffered; [apply _|apply Hh]|].
  intros [[[err|[]] out] err']; [keep|]. apply preserves_bind; [apply preserves_attempt, Hp|].
  intros [e|resp]; [keep|]. apply preserves_bind; [apply checked_net|]. keep.
Qed.

(** [or_bad_request] after a step that tells more than that the network is kept. *)
Lemma triple_bad_request {A} P Q (c : M World A) k :
  triple P c Q net → (∀ a, triple (Q a) (k a) (λ _, net) net) →
  triple P (or_bad_request c k) (λ _, net) net.
Proof.
  intros Hc Hk. eapply triple_bind with
    (Q := λ r w, match r with inl _ => net w | inr a => Q a w end).
  - intros w Hw. specialize (Hc w Hw). unfold attempt. by destruct (c w) as [[] w'].
  - intros [err|a]; [by intros w Hw|apply Hk].
Qed.

(** Operations on the services or the disk leave a stored node stored. *)
Lemma net_with_part {S A} n (part : World → S) with_part (c : M S A) :
  (∀ s w, w_nodes (with_part s w) = w_nodes w) →
  triple (net_with n) (on_part part with_part c) (λ _, net_with n) net.
Proof.
  intros Hp w [Hw Hs]. unfold on_part, net_with, stored, net in *.
  destruct (c (part w)) as [[] s]; by rewrite Hp.
Qed.

Lemma settle_gateway_net id k : preserves net k → preserves net (settle_gateway paths id k).
Proof.
  intros Hk. unfold settle_gateway.
  apply (triple_bad_request _ (λ g w, match g with None => net w | Some n => net_with n w end));
    [by apply net_gateway|].
  intros [gw|]; [|by intros w Hw].
  apply (triple_bad_request _ (λ _, net_with gw)); [by apply net_with_part|]. intros l.
  apply (triple_bad_request _ (λ _, net_with gw)); [by apply net_with_part|]. intros [].
  destruct (node_GatewayCertBundle gw) as [b|]; [|by intros w []].
  apply (triple_bad_request _ (λ _, net)); [by apply SaveNode_net|]. intros _. exact Hk.
Qed.

Lemma answer_join_net id n : preserves net (answer_join id n).
Proof.
  apply or_bad_request_net; [keep|]. intros _. apply preserves_bind; [apply checked_net|]. keep.
Qed.

Lemma join_handler_net env r :
  env_uuid env ≠ "" → preserves net (join_handler paths sh env r).
Proof.
  intros Hid. unfold join_handler. destruct (rq_TLS r); [|keep].
  case_match; [keep|]. apply preserves_bind; [apply checked_net|]. intros [err|dto]; [keep|].
  cbn zeta. apply or_bad_request_net; [keep|]. intros req.
  apply or_bad_request_net; [keep|]. intros db.
  apply or_bad_request_net; [keep|]. intros text. case_match; [keep|].
  destruct (jr_Role db); [keep| | |keep|keep].
  - apply or_bad_request_net; [keep|]. intros n. apply settle_gateway_net.
    apply or_bad_request_net; [keep|]. intros _. apply answer_join_net.
  - apply or_bad_request_net; [keep|]. intros n. apply settle_gateway_net.
    apply preserves_bind; [keep|]. intros _. apply preserves_bind; [keep|]. intros _.
    apply answer_join_net.
Qed.

Lemma server_remove_handler_net http id req :
  preserves net (server_remove_handler http id req).
Proof.
  unfold server_remove_handler. case_match; [|keep]. exact (run_command_net http (ServerRemove _) I).
Qed.

Lemma serve_net http env meanwhile r :
  usable env meanwhile → preserves net (serve paths sh http env meanwhile r).
Proof.
  intros [Hid Hm]. unfold serve. cbn zeta.
  repeat (case_match; [first [by apply join_handler_net | apply handleRequestWithBody_net;
    [intros id req; first [apply server_remove_handler_net | by intros w Hw | each_handler]
    |intros id out err; unfold default_packer, server_list_packer, service_list_packer,
       node_config_packer; keep]]|]).
  keep.
Qed.

(** ** Starting, and the machines *)

Context {SL : SshLib}.

Lemma net_on_remote {A} (c : M Remote A) : preserves net (on_remote c).
Proof. by apply net_on_part. Qed.
Lemma net_on_docker {A} (c : M (list DockerCall) A) : preserves net (on_docker c).
Proof. by apply net_on_part. Qed.
Lemma net_report {A} (say : string → M World unit) failure (c : M World A) k :
  (∀ text, preserves net (say text)) → preserves net c → (∀ a, preserves net (k a)) →
  preserves net (or_report say failure c k).
Proof.
  intros Hs Hc Hk. apply preserves_bind; [by apply preserves_attempt|]. intros [err|a]; [apply Hs|apply Hk].
Qed.

(** What runs on a gateway's machine beside the commands above. *)
Inductive MachineCommand : Type :=
| GatewayDowned (http : Transport) (creds : option Credentials)
| GatewayUpgraded (creds : Credentials) (image imageTag : string)
| ServerUpped (http : Transport) (cenv : CommandEnv) (elapsed : nat → Z) (creds : Credentials)
    (image imageTag dockerSubnet : string)
| ServerDowned (http : Transport) (creds : option Credentials)
| ServerUpgraded (creds : Credentials) (image imageTag : string).
Definition run_machine (jenv : JoinEnv) (c : MachineCommand) : M World unit :=
  match c with
  | GatewayDowned http creds => Life.GatewayDown http creds
  | GatewayUpgraded creds image imageTag => Life.GatewayUpgrade creds image imageTag
  | ServerUpped http cenv elapsed creds image imageTag subnet =>
      Life.ServerUp paths jenv http cenv elapsed creds image imageTag subnet
  | ServerDowned http creds => Life.ServerDown jenv http creds
  | ServerUpgraded creds image imageTag => Life.ServerUpgrade creds image imageTag
  end.
Definition usable_machine (c : MachineCommand) : Prop :=
  match c with
  | ServerUpped _ cenv _ _ _ _ _ => env_uuid (ce_create cenv) ≠ ""
  | _ => True
  end.

Ltac keep_machine :=
  repeat first
    [ progress intros
    | match goal with
      | |- preserves _ (or_report _ _ _ _) => apply net_report
      | |- preserves _ (or_complain _ _ _) => apply preserves_complain; [apply _|..]
      | |- preserves _ (on_remote _) => apply net_on_remote
      | |- preserves _ (on_docker _) => apply net_on_docker
      | |- preserves _ (on_nodes DeleteAll) => apply net_on_nodes, delete_ok_triple
      | |- preserves _ (locally _ _ _) => apply preserves_locally
      | |- preserves _ (buffered _) => apply preserves_buffered; [apply _|]
      | |- preserves _ (attempt _) => apply preserves_attempt
      | |- preserves _ (_ ≫= _) => apply preserves_bind
      | |- preserves _ (match ?x with _ => _ end) => destruct x
      end
    | solve [auto with preserves typeclass_instances] ].

Lemma run_machine_net jenv c : usable_machine c → preserves net (run_machine jenv c).
Proof.
  intros Hc. destruct c; cbn [run_machine usable_machine] in *; apply executeCommand_preserves; try apply _;
    intros g cn api Hg; repeat (apply elem_of_cons in Hg as [->|Hg]); try (by apply elem_of_nil in Hg);
    cbn [Handler].
  - destruct cn as [n|]; [|keep_machine]. unfold Life.no_servers_left, Machines.GatewayDown,
      gateway_down_over_ssh, connected. keep_machine.
  - unfold Machines.GatewayUpgrade, connected. keep_machine.
  - unfold Machines.ServerUp, connected. keep_machine.
    by apply (run_command_net http (ServerNew cenv false true dockerSubnet)).
  - unfold Machines.ServerDown, connected. keep_machine.
  - destruct cn as [n|]; [|keep_machine]. unfold Machines.ServerDown, connected. keep_machine.
  - unfold Machines.ServerUpgrade, connected. keep_machine.
Qed.

(** A gateway that starts makes its own node, if there is none yet. *)
Lemma GatewayStart_net create serves ip only :
  env_uuid create ≠ "" →
  preserves net (Life.GatewayStart paths create serves ip only).
Proof.
  intros Hid. apply executeCommand_preserves; [apply _..|].
  intros g cn api Hg. apply elem_of_cons in Hg as [->|Hg]; [|by apply elem_of_nil in Hg]. cbn [Handler].
  apply preserves_bind; [|by intros _ w].
  apply preserves_complain; [apply _|by apply net_on_nodes, EnsureGatewayNode_ok|].
  - intros n. destruct (node_GatewayCertBundle n) as [b|]; [|by apply preserves_err; apply _].
    apply preserves_complain; [apply _|keep|]. intros l. apply preserves_complain; [apply _|keep|]. intros [].
    keep.
Qed.


(** ** What can happen to a gateway *)

Inductive happening : Type :=
| Started (create : CreateEnv)
| MachineRun (c : MachineCommand)
| CommandRun (http : Transport) (c : Invocation)
| Asked (http : Transport) (env : CommandEnv) (meanwhile : nat → World → World) (r : Request).

Inductive happens (w w' : World) : happening → Prop :=
| happens_start create serves ip only o :
    env_uuid create ≠ "" →
    Life.GatewayStart paths create serves ip only w = (o, w') → happens w w' (Started create)
| happens_machine jenv c o :
    usable_machine c → run_machine jenv c w = (o, w') → happens w w' (MachineRun c)
| happens_command http c o :
    usable_command c → run_command paths sh http c w = (o, w') → happens w w' (CommandRun http c)
| happens_request http env meanwhile r o :
    usable env meanwhile → serve paths sh http env meanwhile r w = (o, w') →
    happens w w' (Asked http env meanwhile r).

(** C2: from an empty database on, whatever is started, whatever commands are run on a
    gateway and whatever requests it is sent, by anybody and in any order, with any of them
    failing anywhere (a failing look-up of the gateway at the start included), its database holds a network: one gateway, no address and no docker
    subnet twice. *)
Theorem network_kept w w' :
  rows (w_nodes w) = ∅ → rtc (λ w w', ∃ h, happens w w' h) w w' → net w'.
Proof.
  intros Hw Hs. assert (net w) as Hnet.
  { unfold net, ok, cores. rewrite Hw, fmap_empty. apply network_ok_empty. }
  clear Hw. induction Hs as [|w w1 w2 [h Hh] _ IH]; [done|]. apply IH. clear IH.
  destruct Hh as [create serves ip only o Hc Hrun|jenv c o Hc Hrun|http c o Hc Hrun|http env mean r o Hu Hrun].
  - by eapply triple_any; [by apply (GatewayStart_net create serves ip only)| |].
  - by eapply triple_any; [apply run_machine_net| |].
  - by eapply triple_any; [apply run_command_net| |].
  - by eapply triple_any; [apply serve_net| |].
Qed.
End reachable.

(** ** At work *)

(** A body that is never understood. *)
Definition no_decode {A} : JsonDecode A := λ _, Throw (Errorf "invalid character").
Definition no_api_decode : ApiDecode :=
  Build_ApiDecode no_decode no_decode no_decode no_decode no_decode no_decode no_decode no_decode
    no_decode no_decode no_decode no_decode no_decode no_decode no_decode.

(** An empty gateway is started, gets a request nobody can have sent, and a server is removed. *)
Definition after_start : World :=
  (Life.GatewayStart (R := toy_raymond) sample_paths (demo_env "gw" 0) (λ _, "closed") "203.0.113.7" true
     fresh_world).2.
Definition after_request : World :=
  (serve (R := toy_raymond) (JQ := no_json) (AJ := no_api_json) (AD := no_api_decode) (JP := no_json)
     sample_paths (λ _ _, None) no_network (MkCommandEnv (demo_env "c1" 20) (λ _, Ret []) 0)
     (λ _ w, w) (MkRequest (Some ["c1"]) "POST" "application/json" "/commands/server/remove" [])
     after_start).2.
Definition after_removal : World :=
  (run_command (R := toy_raymond) (JQ := no_json) (AJ := no_api_json) sample_paths (λ _ _, None)
     no_network (ServerRemove "s1") after_request).2.

Lemma network_kept_witness : net after_removal.
Proof.
  refine (@network_kept _ _ _ _ _ toy_raymond _ no_json no_api_json no_api_decode no_json sample_paths
    (λ _ _, None) toy_ssh fresh_world after_removal eq_refl
    (rtc_l _ _ after_start _ _ (rtc_l _ _ after_request _ _ (rtc_once _ _ _)))).
  - refine (ex_intro _ _ (happens_start _ _ _ _ (demo_env "gw" 0) (λ _, "closed") "203.0.113.7" true _ _
      (surjective_pairing _))). discriminate.
  - refine (ex_intro _ _ (happens_request _ _ _ _ no_network
      (MkCommandEnv (demo_env "c1" 20) (λ _, Ret []) 0) (λ _ w, w)
      (MkRequest (Some ["c1"]) "POST" "application/json" "/commands/server/remove" []) _ _
      (surjective_pairing _))).
    split; [discriminate|exact (λ _ _ H, H)].
  - exact (ex_intro _ _ (happens_command _ _ _ _ no_network (ServerRemove "s1") _ I
      (surjective_pairing _))).
Defined.
Lemma started_gateway : rows (w_nodes after_start) !! "gw" = rows demo_gateway !! "gw".
Proof. vm_compute. reflexivity. Qed.
