(* ===== verification/Capacity.v ===== *)
(** * Invitations and what is left to give

    A join request is a promise: who holds it is to find a WireGuard address, and a server a
    docker subnet.  [ServerNew] and [ClientNew] (commands/local_server.go, local_client.go)
    count what is stored before they hand one out, and the join route (commands/routes.go)
    turns one into a node.  Here is what these counts keep to across commands and requests. *)
From S2P Require Import Prelude GoStrings GoNet Mtls NodeTypes Gorm.
From S2P Require Import Terminal NodesRepo PublicServices NodeConfigs JoinStore NetworkApps.
From S2P Require Import NodesNetwork NodesRefresh NodesQueries NodesCreate NodesDemo Aes JoinClient CommandTypes World.
From S2P Require Import LocalService LocalNodes ApiCommands Commands Routes WorldNetwork.

(** ** Counting rows *)

Section tally.
  Context {K T : Type} `{Countable K}.

(** How many rows satisfy [p]. *)
Definition tally (p : T → bool) (m : gmap K T) : Z := Z.of_nat (length (List.filter p (values m))).

Lemma tally_empty p : tally p ∅ = 0.
Proof. unfold tally, values. by rewrite map_to_list_empty. Qed.
Lemma tally_insert p m k x :
  m !! k = None → tally p (<[k:=x]> m) = (if p x then 1 else 0) + tally p m.
Proof.
  intros Hk. unfold tally, values.
  rewrite (filter_Permutation p _ _ (fmap_Permutation snd _ _ (map_to_list_insert _ _ x Hk))).
  cbn. destruct (p x); cbn [length]; lia.
Qed.
Lemma tally_delete p m k x :
  m !! k = Some x → tally p (delete k m) = tally p m - (if p x then 1 else 0).
Proof.
  intros Hk. rewrite <- (insert_delete_id m k x Hk) at 2.
  rewrite tally_insert by apply lookup_delete_eq. lia.
Qed.
Lemma tally_nonneg p m : 0 ≤ tally p m.
Proof. unfold tally. lia. Qed.
Lemma tally_pos p m k x : m !! k = Some x → p x = true → 0 < tally p m.
Proof.
  intros Hk Hp. pose proof (tally_delete p m k x Hk) as Hd. rewrite Hp in Hd.
  pose proof (tally_nonneg p (delete k m)). lia.
Qed.
Lemma tally_le p q m : (∀ x, p x = true → q x = true) → tally p m ≤ tally q m.
Proof.
  intros Hpq. unfold tally. induction (values m) as [|x l IH]; [done|]. cbn.
  destruct (p x) eqn:Hp; [rewrite (Hpq x Hp); cbn; lia|]. destruct (q x); cbn [length]; lia.
Qed.
Lemma tally_all m : tally (λ _, true) m = Z.of_nat (size m).
Proof.
  unfold tally. rewrite <- (length_map_to_list m). unfold values. rewrite <- (length_fmap snd).
  f_equal. induction (_ <$> _); cbn; [done|]. by f_equal.
Qed.
End tally.
Lemma tally_subseteq {K T} `{Countable K} (p : T → bool) (m m' : gmap K T) :
  m' ⊆ m → tally p m' ≤ tally p m.
Proof.
  revert m. induction m' as [|k x m' Hk IH] using map_ind; intros m Hsub.
  { rewrite tally_empty. apply tally_nonneg. }
  assert (m !! k = Some x) as Hm by (eapply lookup_weaken; [apply lookup_insert_eq|done]).
  rewrite tally_insert by done. rewrite <- (insert_delete_id m k x Hm).
  rewrite tally_insert by apply lookup_delete_eq.
  enough (tally p m' ≤ tally p (delete k m)) by lia. apply IH.
  apply map_subseteq_spec. intros i y Hi. rewrite lookup_delete_ne by congruence.
  eapply lookup_weaken; [|exact Hsub]. rewrite lookup_insert_ne by congruence. done.
Qed.
Lemma tally_fmap {K A B} `{Countable K} (f : A → B) (p : B → bool) (m : gmap K A) :
  tally p (f <$> m) = tally (λ x, p (f x)) m.
Proof.
  induction m as [|k x m Hk IH] using map_ind; [by rewrite fmap_empty, !tally_empty|].
  rewrite fmap_insert, !tally_insert by (rewrite ?lookup_fmap, Hk; done). by rewrite IH.
Qed.

(** ** The books *)

Section books.
  Context {GN : Gorm string Node} {LN : GormLaws string Node} {GS : Gorm ServiceKey PublicService}
    {GR : Gorm string JoinRequest} {LR : GormLaws string JoinRequest} {GT : Gorm string JoinToken}
    {R : Raymond} {X : X509} {JQ : Json JoinRequest} {JD : JsonDecode JoinRequestDTO}
    {JP : Json JoinResponseDTO}.
  Context (paths : ConfigPaths) (sh : nat → string → option string).

Definition all_subnets : Z := dockerSubnetEnd - dockerSubnetStart + 1.
Definition all_addresses : Z := wgPrivateIPEnd - wgPrivateIPStart + 1.

(** The nodes that count as having a subnet, the server requests, all nodes, all requests. *)
Definition takes_subnet (a : NodeCore) : bool :=
  bool_decide (core_role a = NodeRoleServer) || bool_decide (core_role a = NodeRoleGateway).
Definition taken (w : World) : Z := tally takes_subnet (cores (w_nodes w)).
Definition promised (w : World) : Z := tally for_server (rows (w_requests w)).
Definition members (w : World) : Z := tally (λ _, true) (cores (w_nodes w)).
Definition open_requests (w : World) : Z := tally (λ _, true) (rows (w_requests w)).

(** The books balance, with [s] subnets and [c] addresses to spare. *)
Record spare (s c : Z) (w : World) : Prop := {
  spare_network : net w;
  spare_subnets : taken w + promised w + s ≤ all_subnets;
  spare_addresses : members w + open_requests w + c ≤ all_addresses;
}.
Definition balanced : World → Prop := spare 0 0.
#[export] Instance spare_free s c : TextFree (spare s c).
Proof. intros w out err [? ? ?]. by split. Qed.
#[export] Instance balanced_free : TextFree balanced.
Proof. apply spare_free. Qed.
Lemma spare_le s c s' c' w : s' ≤ s → c' ≤ c → spare s c w → spare s' c' w.
Proof. intros Hs Hc [? ? ?]. split; [done|lia..]. Qed.

(** What a node of a role needs. *)
Definition need (role : NodeRole) : Z := if bool_decide (role = NodeRoleServer) then 1 else 0.

(** *** What the counters say *)

Lemma TotalAndAvailable_taken t total available :
  TotalAndAvailableDockerSubnets t = Ret (total, available) →
  available = all_subnets - tally takes_subnet (cores t).
Proof.
  unfold TotalAndAvailableDockerSubnets. intros (l & Hl & E)%bind_Ret_inv. injection E as _ <-.
  apply find_rows, Permutation_length in Hl. rewrite Hl. unfold cores. rewrite tally_fmap. done.
Qed.
Lemma TotalAvailable_members t total available :
  TotalAvailableWireguardClients t = Ret (total, available) →
  available = all_addresses - tally (λ _, true) (cores t).
Proof.
  unfold TotalAvailableWireguardClients. intros (n & Hn & E)%bind_Ret_inv. injection E as _ <-.
  apply count_rows in Hn. rewrite Hn. unfold cores. rewrite tally_fmap. done.
Qed.

(** Parts of the world that are not in the books. *)
Lemma spare_part s c {S A} (part : World → S) with_part (o : M S A) :
  (∀ x w, w_nodes (with_part x w) = w_nodes w ∧ w_requests (with_part x w) = w_requests w) →
  preserves (spare s c) (on_part part with_part o).
Proof.
  intros Hp w [Hn Hs Hc]. unfold on_part. destruct (o (part w)) as [o' x].
  destruct (Hp x w) as [En Er].
  assert (spare s c (with_part x w)) as Hw.
  { split; [unfold net|unfold taken, promised|unfold members, open_requests]; rewrite En, ?Er; done. }
  by destruct o'.
Qed.
Lemma spare_query_nodes {A} s c (f : Table (Gorm := GN) → Out A) (Q : A → World → Prop) :
  (∀ a w, f (w_nodes w) = Ret a → spare s c w → Q a w) →
  triple (spare s c) (on_nodes (query f)) Q (spare s c).
Proof.
  intros HQ w Hw. unfold on_nodes, on_part, query. rewrite with_nodes_same.
  destruct (f (w_nodes w)) eqn:E; auto.
Qed.

(** *** Nodes that come *)

(** Nobody or one node of the role has come. *)
Definition grown (c : gmap string NodeCore) (id : string) (role : NodeRole) (t : Table (Gorm := GN)) : Prop :=
  network_ok (cores t) ∧
  (cores t = c ∨ ∃ a, c !! id = None ∧ core_role a = role ∧ cores t = <[id := a]> c).

Lemma create_grows env c (transaction : string → string → M (Table (Gorm := GN)) Node) role :
  network_ok c →
  (∀ priv pub, triple (λ t, cores t = c) (transaction priv pub)
     (joins c (env_uuid env) role) (λ t, cores t = c)) →
  triple (λ t, cores t = c)
    ('(priv, pub) ← lift (GenerateKeyPair (env_run env));
     node ← transaction priv pub; _ ← updateNodes; query (GetByID (node_ID node)))
    (λ _, grown c (env_uuid env) role) (grown c (env_uuid env) role).
Proof.
  intros Hc Ht. assert (∀ t, cores t = c → grown c (env_uuid env) role t) as Hsame.
  { intros t <-. split; [done|by left]. }
  eapply triple_bind with (Q := λ _ t, cores t = c); [by apply triple_lift; [|exact Hsame]|].
  intros [priv pub]. eapply triple_bind.
  { eapply triple_conseq; [apply Ht|done|done|exact Hsame]. }
  intros n t [Hid Hrole Hnew Hcores Hok]. cbn beta.
  pose proof (updateNodes_cores _ Hok t eq_refl) as Hu. unfold mbind, M_bind.
  destruct (updateNodes t) as [o t1]. assert (grown c (env_uuid env) role t1) as Hg.
  { assert (cores t1 = cores t) as E by (by destruct o). unfold grown. rewrite E. split; [done|].
    right. exists (core n). by rewrite Hcores. }
  destruct o; [|done..]. cbn. by destruct (GetByID (node_ID n) t1).
Qed.
Lemma CreateServer_grows env force c :
  network_ok c → env_uuid env ≠ "" →
  triple (λ t, cores t = c) (CreateServer env force)
    (λ _, grown c (env_uuid env) NodeRoleServer) (grown c (env_uuid env) NodeRoleServer).
Proof.
  intros Hc Hu. apply (create_grows env c (server_transaction env force)); [done|].
  intros. by apply server_transaction_joins.
Qed.
Lemma CreateClient_grows env c :
  network_ok c → env_uuid env ≠ "" →
  triple (λ t, cores t = c) (CreateClient env)
    (λ _, grown c (env_uuid env) NodeRoleClient) (grown c (env_uuid env) NodeRoleClient).
Proof.
  intros Hc Hu. apply (create_grows env c (client_transaction env)); [done|].
  intros. by apply client_transaction_joins.
Qed.

Lemma grown_spare role id s c t w :
  role = NodeRoleServer ∨ role = NodeRoleClient →
  grown (cores (w_nodes w)) id role t → spare s c w → spare (s - need role) (c - 1) (with_nodes t w).
Proof.
  intros Hrole [Hok Hg] [Hn Hs Hc]. split; [exact Hok|..]; unfold taken, promised, members, open_requests in *;
    cbn [w_nodes w_requests with_nodes].
  - destruct Hg as [->|(a & Hid & Ha & ->)]; [unfold need; case_bool_decide; lia|].
    rewrite tally_insert by done. assert ((if takes_subnet a then 1 else 0) = need role) as E; [|lia].
    unfold takes_subnet, need. rewrite Ha. by destruct Hrole as [-> | ->].
  - destruct Hg as [->|(a & Hid & Ha & ->)]; [lia|]. rewrite tally_insert by done. lia.
Qed.
Lemma spare_creates {A} (o : M (Table (Gorm := GN)) A) role id s c :
  role = NodeRoleServer ∨ role = NodeRoleClient →
  (∀ cs, network_ok cs → triple (λ t, cores t = cs) o (λ _, grown cs id role) (grown cs id role)) →
  triple (spare s c) (on_nodes o) (λ _, spare (s - need role) (c - 1)) (spare (s - need role) (c - 1)).
Proof.
  intros Hrole Ho w Hw. unfold on_nodes, on_part.
  specialize (Ho _ (spare_network _ _ _ Hw) (w_nodes w) eq_refl).
  destruct (o (w_nodes w)) as [o' t]. assert (spare (s - need role) (c - 1) (with_nodes t w)) as Hw'.
  { eapply grown_spare; [done| |done]. by destruct o'. }
  by destruct o'.
Qed.

(** *** Requests that come and go *)

Lemma spare_invites s c (random : nat → Out (list Z)) now id host port subnet role bundle :
  triple (spare s c) (on_requests (CreateRequest random now id host port subnet role bundle))
    (λ _, spare (s - need role) (c - 1)) (spare s c).
Proof.
  intros w [Hn Hs Hc]. unfold on_requests, on_part, CreateRequest, mbind, M_bind, lift.
  destruct (GenerateAESKey random) as [key|e|p|p]; [|by destruct w..].
  set (r := MkJoinRequest _ _ _ _ _ _ _ _). destruct (Create r (w_requests w)) as [[r'|e|p|p] t] eqn:Hr.
  2-4: rewrite (create_fail _ _ _ _ Hr) by done; by destruct w.
  apply create_rows in Hr as (-> & Hnone & Hrows).
  split; [done|..]; unfold taken, promised, members, open_requests in *;
    cbn [w_nodes w_requests with_requests]; rewrite Hrows, tally_insert by done.
  - change (for_server (on_create r)) with (bool_decide (role = NodeRoleServer)).
    fold (need role). lia.
  - lia.
Qed.

(** A request that is stored. *)
Definition holds (jr : JoinRequest) (id : string) (w : World) : Prop := rows (w_requests w) !! id = Some jr.
Lemma spare_uses_up s c jr id :
  triple (λ w, spare s c w ∧ holds jr id w) (on_requests (DeleteRequest id))
    (λ _, spare (s + need (jr_Role jr)) (c + 1)) (λ _, True).
Proof.
  intros w [[Hn Hs Hc] Hin]. unfold on_requests, on_part, DeleteRequest, mbind, M_bind.
  destruct (Delete (request_id id) (w_requests w)) as [[n|e|p|p] t] eqn:Hd; try done.
  apply delete_rows in Hd as [_ Hr]. rewrite (filter_key _ _ (request_id_pk _)) in Hr.
  split; [done|..]; unfold taken, promised, members, open_requests in *;
    cbn [w_nodes w_requests with_requests]; rewrite Hr, (tally_delete _ _ _ _ Hin).
  - change (if for_server jr then 1 else 0) with (need (jr_Role jr)). lia.
  - lia.
Qed.

(** ** Commands *)

(** The requests can be counted; a count that fails reads as none in the code. *)
Definition countable : Prop := ∀ p (t : Table (Gorm := GR)), ∃ n, Count p t = Ret n.

Lemma triple_pre {S A} (P P' : S → Prop) (c : M S A) Q E :
  (∀ s, P s → P' s) → triple P' c Q E → triple P c Q E.
Proof. intros HP Hc s Hs. by apply Hc, HP. Qed.
Lemma spare_goes_on {A} s c (o : M World A) :
  0 ≤ s → 0 ≤ c → preserves (spare s c) o → triple (spare s c) o (λ _, spare s c) balanced.
Proof. intros Hs Hc Ho. eapply triple_conseq; [apply Ho|..]; try done; intros; by apply (spare_le s c). Qed.
Lemma spare_counts s c p (f : Table (Gorm := GR) → Out Z) :
  countable → f = (λ t, or_zero 0 (Count p t)) →
  triple (spare s c) (on_requests (query f)) (λ n w, spare s c w ∧ n = tally p (rows (w_requests w))) (spare s c).
Proof.
  intros Hcount -> w Hw. unfold on_requests, on_part, query. rewrite with_requests_same.
  destruct (Hcount p (w_requests w)) as [n Hn]. rewrite Hn. split; [done|]. by apply count_rows in Hn.
Qed.

(** A gateway that was read, with room for what is to come. *)
Definition spare_with (gw : Node) (s c : Z) (w : World) : Prop := spare s c w ∧ stored gw w.
Lemma spare_saves gw gw' s c :
  core gw' = core gw → node_ID gw' = node_ID gw →
  triple (spare_with gw s c) (on_nodes (SaveNode gw')) (λ _, spare s c) (spare s c).
Proof.
  intros Hcore Hid w [[Hn Hs Hc] [Hne Hst]].
  assert (triple (λ t, cores t = cores (w_nodes w)) (SaveNode gw')
    (λ _ t, cores t = cores (w_nodes w)) (λ t, cores t = cores (w_nodes w))) as Hsave.
  { eapply triple_bind; [apply save_cores; [by rewrite Hcore, Hid|by rewrite Hid]|].
    by intros m t. }
  specialize (Hsave (w_nodes w) eq_refl). unfold on_nodes, on_part.
  destruct (SaveNode gw' (w_nodes w)) as [o t]. assert (cores t = cores (w_nodes w)) as E by (by destruct o).
  assert (spare s c (with_nodes t w)) as Hw.
  { split; [unfold net, ok; cbn; by rewrite E|..]; unfold taken, promised, members, open_requests;
      cbn [w_nodes w_requests with_nodes]; by rewrite E. }
  by destruct o.
Qed.

Lemma new_join_request_books env gw role subnet k :
  (∀ t, preserves balanced (k t)) →
  triple (spare_with gw (need role) 1) (new_join_request env gw role subnet k) (λ _, balanced) balanced.
Proof.
  intros Hk. assert (0 ≤ need role) as Hneed by (unfold need; case_bool_decide; lia).
  assert (∀ w, spare (need role) 1 w → balanced w) as Hle by (intros w; by apply spare_le).
  unfold new_join_request. destruct (node_GatewayCertBundle gw) as [b|];
    [|by apply triple_lift; [|intros w [Hw _]; auto]].
  eapply (triple_complain _ _ _ (λ _, spare_with gw (need role) 1)); [apply _|
    by apply triple_lift; [|intros w [Hw _]; auto]|]. intros b'.
  eapply (triple_complain _ _ _ (λ _, spare (need role) 1)); [apply _|
    by eapply triple_conseq; [apply (spare_saves gw)|..|exact Hle]|]. intros _.
  eapply (triple_complain _ _ _ (λ _, spare (need role) 1)); [apply _|by apply triple_lift|]. intros cb.
  destruct (node_WGPublicIP _) as [host|]; [|by apply triple_lift].
  eapply (triple_complain _ _ _ (λ _, balanced)); [apply _| |].
  { eapply triple_conseq; [apply (spare_invites (need role) 1)|done| |exact Hle].
    intros jr w Hw. eapply spare_le; [..|exact Hw]; lia. }
  intros jr. eapply (triple_complain _ _ _ (λ _, balanced)); [apply _|by apply triple_lift|]. apply Hk.
Qed.

(** The gateway that is found is stored. *)
Lemma spare_gateway s c :
  triple (spare s c) (on_nodes (query GetGatewayNode))
    (λ g w, match g with None => spare s c w | Some gw => spare_with gw s c w end) (spare s c).
Proof.
  apply spare_query_nodes. intros g w Hg Hw. destruct g as [gw|]; [|done]. split; [done|].
  unfold GetGatewayNode in Hg. destruct (First _ (w_nodes w)) as [n|e|p|p] eqn:E; [|by case_bool_decide|done..].
  injection Hg as <-. eapply first_stored; [apply Hw|done].
Qed.

(** The two checks before anything is handed out, each with what it makes sure of. *)
Lemma checked_subnets (k : Z → Z → Z → M World unit) complaint :
  countable →
  (∀ total available n, triple (λ w, spare 0 0 w ∧ available = all_subnets - taken w ∧ n = promised w)
     (k total available n) (λ _, balanced) balanced) →
  triple balanced
    (or_complain complaint (on_nodes (query TotalAndAvailableDockerSubnets)) (λ '(total, available),
     n ← on_requests (query CountServerJoinRequests); k total available n)) (λ _, balanced) balanced.
Proof.
  intros Hcount Hk.
  eapply (triple_complain _ _ _ (λ p w, spare 0 0 w ∧ p.2 = all_subnets - taken w)); [apply _| |].
  { apply spare_query_nodes. intros [total a] w Ha Hw. split; [done|]. by eapply TotalAndAvailable_taken. }
  intros [total available]. cbn [snd]. eapply triple_bind; [|intros n; apply Hk].
  intros w [Hw Ha]. pose proof (spare_counts 0 0 for_server CountServerJoinRequests Hcount eq_refl w Hw) as Hn.
  unfold on_requests, on_part, query in *. rewrite with_requests_same in *.
  destruct (CountServerJoinRequests (w_requests w)); [by destruct Hn as [_ ->]|done..].
Qed.
Lemma checked_addresses s (I : World → Prop) (k : Z → Z → Z → M World unit) complaint :
  countable → 0 ≤ s →
  (∀ total available n, triple (λ w, (spare s 0 w ∧ I w) ∧ available = all_addresses - members w ∧ n = open_requests w)
     (k total available n) (λ _, balanced) balanced) →
  triple (λ w, spare s 0 w ∧ I w)
    (or_complain complaint (on_nodes (query TotalAvailableWireguardClients)) (λ '(total, available),
     n ← on_requests (query CountAllRequests); k total available n)) (λ _, balanced) balanced.
Proof.
  intros Hcount Hs Hk. assert (∀ w, spare s 0 w → balanced w) as Hle by (intros w; by apply spare_le).
  eapply (triple_complain _ _ _ (λ p w, (spare s 0 w ∧ I w) ∧ p.2 = all_addresses - members w)); [apply _| |].
  { intros w [Hw HI]. unfold on_nodes, on_part, query. rewrite with_nodes_same.
    destruct (TotalAvailableWireguardClients (w_nodes w)) as [[total a]|e|p|p] eqn:E; [|by apply Hle..].
    split; [done|]. by eapply TotalAvailable_members. }
  intros [total available]. cbn [snd]. eapply triple_bind; [|intros n; apply Hk].
  intros w [[Hw HI] Ha]. pose proof (spare_counts s 0 (λ _, true) CountAllRequests Hcount eq_refl w Hw) as Hn.
  unfold on_requests, on_part, query in *. rewrite with_requests_same in *.
  destruct (CountAllRequests (w_requests w)); [by destruct Hn as [_ ->]|by apply Hle..].
Qed.
(** What is refused is not handed out; what is not refused has room. *)
Lemma refuse_or_go (P Q : World → Prop) (full : bool) text (go : M World unit) :
  (∀ w, P w → balanced w) → (∀ w, full = false → P w → Q w) →
  triple Q go (λ _, balanced) balanced →
  triple P (if full then print_err text else go) (λ _, balanced) balanced.
Proof.
  intros HP Hroom Hgo. destruct full; [apply (triple_pre P balanced); [exact HP|apply (preserves_err balanced)]|].
  eapply triple_pre; [|exact Hgo]. intros w. by apply Hroom.
Qed.

Lemma create_or_invite_books env force quiet sub :
  env_uuid (ce_create env) ≠ "" →
  triple (spare 1 1) (create_or_invite env force quiet sub) (λ _, balanced) balanced.
Proof.
  intros Hid. unfold create_or_invite. destruct force.
  - eapply (triple_complain _ _ _ (λ _, balanced)); [apply _| |intros n'; destruct quiet;
      [apply (preserves_ret balanced)|apply (preserves_out balanced)]].
    apply (spare_creates (CreateServer (ce_create env) sub) NodeRoleServer (env_uuid (ce_create env)) 1 1);
      [by left|]. intros cs Hcs. by apply CreateServer_grows.
  - eapply (triple_complain _ _ _ (λ g w, match g with None => spare 1 1 w | Some gw => spare_with gw 1 1 w end));
      [apply _| |].
    + eapply triple_conseq; [apply (spare_gateway 1 1)|done|done|intros w; by apply spare_le].
    + intros [gw|]; [|by apply triple_lift; [|intros w; apply spare_le]].
      apply (new_join_request_books env gw NodeRoleServer). intros t. destruct quiet; apply (preserves_out balanced).
Qed.
Lemma ServerNew_books env force quiet subnet :
  countable → env_uuid (ce_create env) ≠ "" →
  triple balanced (LocalNodes.ServerNew env force quiet subnet) (λ _, balanced) balanced.
Proof.
  intros Hcount Hid. unfold LocalNodes.ServerNew. apply checked_subnets; [done|].
  intros total available n. apply (refuse_or_go _ (spare 1 0)); [by intros w []|intros w Hn ([] & -> & ->); split; [done|lia..]|].
  apply (triple_pre _ (λ w, spare 1 0 w ∧ True)); [done|]. apply checked_addresses; [done..|].
  intros total' available' m.
  apply (refuse_or_go _ (spare 1 1)); [intros w [[Hw _] _]; revert Hw; by apply spare_le|
    intros w Hm ([[] _] & -> & ->); split; [done|lia..]|].
  cbn zeta.
  case_bool_decide; [by apply create_or_invite_books|].
  eapply (triple_complain _ _ _ (λ _, spare 1 1)); [apply _|by apply triple_lift; [|intros w; apply spare_le]|].
  intros d. eapply triple_bind with (Q := λ _, spare 1 1).
  { by apply spare_goes_on, preserves_query_nodes. }
  intros free. destruct (negb free); [eapply (triple_pre _ balanced); [intros w; by apply spare_le|apply (preserves_err balanced)]|].
  eapply triple_bind with (Q := λ _, spare 1 1); [|intros u; by apply create_or_invite_books].
  apply spare_goes_on; [done..|]. destruct quiet; [apply (preserves_ret (spare 1 1))|apply (preserves_out (spare 1 1))].
Qed.

(** What a command does besides leaves the books alone. *)
Lemma books_services {A} (o : M (Table (Gorm := GS)) A) : preserves balanced (on_services o).
Proof. by apply spare_part. Qed.
Lemma books_disk {A} (o : M Disk A) : preserves balanced (on_disk o).
Proof. by apply spare_part. Qed.
Lemma books_host {A} (o : M Host A) : preserves balanced (on_host o).
Proof. by apply spare_part. Qed.
#[local] Hint Resolve books_services books_disk books_host : preserves.

Lemma ClientNew_gateway_books env invite quiet currentNode :
  countable → env_uuid (ce_create env) ≠ "" →
  triple (λ w, balanced w ∧ stored currentNode w)
    (ClientNew_gateway paths sh env invite quiet currentNode) (λ _, balanced) balanced.
Proof.
  intros Hcount Hid. unfold ClientNew_gateway. apply checked_addresses; [done..|].
  intros total available n. apply (refuse_or_go _ (spare_with currentNode 0 1)); [by intros w [[Hw _] _]| |].
  { intros w Hn ([[] Hst] & -> & ->). split; [split; [done|lia..]|done]. }
  destruct invite.
  { apply (new_join_request_books env currentNode NodeRoleClient). intros t.
    destruct quiet; apply (preserves_out balanced). }
  eapply (triple_complain _ _ _ (λ _, balanced)); [apply _| |intros node; keep].
  apply (triple_pre _ (spare 0 1)); [by intros w []|].
  apply (spare_creates (CreateClient (ce_create env)) NodeRoleClient (env_uuid (ce_create env)) 0 1);
    [by right|]. intros cs Hcs. by apply CreateClient_grows.
Qed.
Lemma spare_current :
  triple balanced (on_nodes (query GetCurrentNode)) (λ n w, balanced w ∧ stored n w) balanced.
Proof.
  apply (spare_query_nodes 0 0). intros n w Hn Hw. split; [done|]. eapply first_stored; [apply Hw|exact Hn].
Qed.
Definition found (r : error + Node) (w : World) : Prop :=
  balanced w ∧ match r with inl _ => True | inr n => stored n w end.
Lemma attempt_current :
  triple balanced (attempt (on_nodes (query GetCurrentNode))) found balanced.
Proof.
  intros w Hw. pose proof (spare_current w Hw) as Hc. unfold attempt.
  by destruct (on_nodes (query GetCurrentNode) w) as [[n|e|p|p] w'].
Qed.
Lemma wait_for_node_books meanwhile quiet left_ i err :
  (∀ i w, balanced w → balanced (meanwhile i w)) →
  triple balanced (wait_for_node meanwhile quiet left_ i err) found balanced.
Proof.
  intros Hmean. revert i err. induction left_ as [|left_ IH]; intros i err; cbn [wait_for_node];
    [by intros w Hw|].
  enough (triple balanced (r ← attempt (on_nodes (query GetCurrentNode));
    match r with
    | inl err => wait_for_node meanwhile quiet left_ (S i) err
    | inr n => _ ← (if quiet then mret tt else print_out ("Current node found, creating client" +:+ newline));
               mret (inr n)
    end) found balanced) as Hrest.
  { intros w Hw. exact (Hrest (meanwhile i w) (Hmean i w Hw)). }
  eapply triple_bind; [apply attempt_current|]. intros [e|n].
  - apply (triple_pre _ balanced); [by intros w []|apply IH].
  - destruct quiet; intros w [[Hn Hs Hc] Hst]; by split.
Qed.
Lemma ClientNew_books meanwhile env invite quiet wait :
  countable → env_uuid (ce_create env) ≠ "" → (∀ i w, balanced w → balanced (meanwhile i w)) →
  triple balanced (LocalNodes.ClientNew paths sh meanwhile env invite quiet wait) (λ _, balanced) balanced.
Proof.
  intros Hcount Hid Hmean. unfold LocalNodes.ClientNew. cbn zeta.
  assert (∀ n, triple (found (inr n)) (if bool_decide (node_Role n = NodeRoleGateway)
    then ClientNew_gateway paths sh env invite quiet n else mret tt) (λ _, balanced) balanced) as Hgo.
  { intros n. case_bool_decide; [by apply ClientNew_gateway_books|by intros w []]. }
  assert (∀ e text, triple (found (inl e)) (print_err text) (λ _, balanced) balanced) as Hsay.
  { intros e text. apply (triple_pre _ balanced); [by intros w []|apply (preserves_err balanced)]. }
  eapply triple_bind; [apply attempt_current|]. intros [e|n]; [|apply Hgo].
  destruct (negb wait); [apply Hsay|]. apply (triple_pre _ balanced); [by intros w []|].
  eapply triple_bind; [by apply wait_for_node_books|]. intros [e'|n]; [apply Hsay|apply Hgo].
Qed.

(** ** Joining *)

(** The reply hands a node out only if the books balance. *)
Definition balanced_answer (reply : Reply) (w : World) : Prop :=
  ∀ code body, reply = JsonReply code body → balanced w.
Definition anything (w : World) : Prop := True.
Lemma answer_error code text P : triple P (mret (ErrorReply code text)) balanced_answer anything.
Proof. by intros w _ ? ?. Qed.
Lemma books_bad_request {A} P (c : M World A) Q (k : A → M World Reply) :
  triple P c Q anything → (∀ a, triple (Q a) (k a) balanced_answer anything) →
  triple P (or_bad_request c k) balanced_answer anything.
Proof.
  intros Hc Hk w Hw. specialize (Hc w Hw). unfold or_bad_request, mbind, M_bind, attempt.
  destruct (c w) as [[a|e|p|p] w']; [by apply Hk|by intros ? ?|done..].
Qed.

(** The books with a request that is still stored. *)
Definition holding (s c : Z) (jr : JoinRequest) (id : string) (w : World) : Prop :=
  spare s c w ∧ holds jr id w.
(** Operations that leave the requests alone. *)
Lemma holding_part {S A} (part : World → S) with_part (o : M S A) (P : World → Prop) (Q : A → World → Prop) jr id :
  (∀ x w, w_requests (with_part x w) = w_requests w) → triple P (on_part part with_part o) Q anything →
  triple (λ w, P w ∧ holds jr id w) (on_part part with_part o) (λ a w, Q a w ∧ holds jr id w) anything.
Proof.
  intros Hp Ho w [Hw Hh]. specialize (Ho w Hw). unfold on_part in *. destruct (o (part w)) as [[a|e|p|p] x]; [|done..].
  split; [done|]. unfold holds. by rewrite Hp.
Qed.
Lemma to_anything {A} P (c : M World A) Q E : triple P c Q E → triple P c Q anything.
Proof. intros Hc. by eapply triple_conseq. Qed.

Lemma settle_books s c jr id rid k :
  triple (holding s c jr id) k balanced_answer anything →
  triple (holding s c jr id) (settle_gateway paths rid k) balanced_answer anything.
Proof.
  intros Hk. unfold settle_gateway.
  eapply books_bad_request; [apply holding_part; [done|]; eapply to_anything, (spare_gateway s c)|].
  intros [gw|]; [|apply answer_error].
  eapply books_bad_request.
  { apply (holding_part _ _ _ (spare_with gw s c) (λ _, spare_with gw s c)); [done|].
    intros w [[Hn Hs Hc] Hst]. unfold on_part. by destruct (query GetAllServices (w_services w)) as [[] x]. }
  intros services. eapply books_bad_request.
  { apply (holding_part _ _ _ (spare_with gw s c) (λ _, spare_with gw s c)); [done|].
    intros w [[Hn Hs Hc] Hst]. unfold on_part. by destruct (SaveConfigs _ _ _ _ _) as [[] x]. }
  intros u. destruct (node_GatewayCertBundle gw) as [b|]; [|by apply triple_lift].
  eapply books_bad_request; [|intros u'; exact Hk].
  apply holding_part; [done|]. by eapply to_anything, spare_saves.
Qed.
Lemma answer_books s c jr id n :
  need (jr_Role jr) + s = 0 → c + 1 = 0 →
  triple (holding s c jr id) (answer_join id n) balanced_answer anything.
Proof.
  intros Hs Hc. unfold answer_join.
  eapply books_bad_request; [apply spare_uses_up|]. intros u w Hw.
  assert (balanced w) as Hb by (eapply spare_le; [..|exact Hw]; lia).
  unfold checked, attempt, lift, mbind, M_bind. destruct (json_Marshal _); [by intros ? ? _|by intros ? ?|done..].
Qed.
Lemma host_holding {A} (o : M Host A) s c jr id :
  triple (holding s c jr id) (on_host o) (λ _, holding s c jr id) (holding s c jr id).
Proof.
  intros w [[Hn Hs Hc] Hh]. unfold on_host, on_part. by destruct (o (w_host w)) as [[] h].
Qed.

Lemma join_books env r :
  env_uuid env ≠ "" → triple balanced (join_handler paths sh env r) balanced_answer anything.
Proof.
  intros Hid. unfold join_handler. destruct (rq_TLS r) as [cns|]; [|apply answer_error].
  case_bool_decide; cbn [negb]; [|apply answer_error].
  unfold checked. intros w Hw. unfold mbind at 1, M_bind at 1, attempt at 1, lift at 1.
  destruct (json_Decode (rq_Body r)) as [dto|e|p|p]; [|by intros ? ?|done..]. cbn zeta. revert w Hw.
  eapply (books_bad_request balanced _ (λ _, balanced)); [by apply triple_lift|]. intros jr.
  eapply (books_bad_request balanced _ (λ db, holding 0 0 db (jr_ID jr))).
  { intros w Hw. unfold on_requests, on_part, query. rewrite with_requests_same.
    destruct (GetRequest (jr_ID jr) (w_requests w)) as [db|e|p|p] eqn:E; [|done..]. split; [done|].
    apply first_row in E as [Hrow Hk]. apply bool_decide_eq_true_1 in Hk. change (pk db) with (jr_ID db) in Hrow.
    unfold holds. by rewrite <- Hk. }
  intros db. eapply (books_bad_request _ _ (λ _, holding 0 0 db (jr_ID jr))); [by apply triple_lift|].
  intros text. case_bool_decide; cbn [negb]; [|apply answer_error].
  destruct (jr_Role db) eqn:Hrole; try apply answer_error.
  - eapply books_bad_request.
    { apply holding_part; [done|]. eapply to_anything, (spare_creates _ NodeRoleClient (env_uuid env) 0 0); [by right|].
      intros cs Hcs. by apply CreateClient_grows. }
    intros n. apply settle_books. eapply books_bad_request; [eapply to_anything, host_holding|].
    intros u. apply answer_books; [by rewrite Hrole|done].
  - eapply books_bad_request.
    { apply holding_part; [done|]. eapply to_anything, (spare_creates _ NodeRoleServer (env_uuid env) 0 0); [by left|].
      intros cs Hcs. by apply CreateServer_grows. }
    intros n. apply settle_books. unfold anything.
    eapply triple_bind with (Q := λ _, holding (-1) (-1) db (jr_ID jr)).
    { intros w Hw. pose proof (host_holding (RestartNetworkApps paths sh true false false) (-1) (-1) db (jr_ID jr) w Hw) as Hh.
      unfold attempt. by destruct (on_host _ w) as [[] w']. }
    intros u. eapply triple_bind with (Q := λ _, holding (-1) (-1) db (jr_ID jr)).
    { intros w [[Hn Hs Hc] Hh]. by split. }
    intros u'. apply answer_books; [by rewrite Hrole|done].
Qed.

(** ** Whatever comes *)

(** Commands and requests on the gateway: an invitation or a node by command
    (a client without [--wait]), a node that
    joins and is told so, a server that is removed, and all that leaves nodes and requests
    as they are or has fewer of them. *)
Inductive booking (w w' : World) : Prop :=
| BookServer env force quiet subnet o :
    env_uuid (ce_create env) ≠ "" → LocalNodes.ServerNew env force quiet subnet w = (o, w') → booking w w'
| BookClient env invite quiet o :
    env_uuid (ce_create env) ≠ "" →
    LocalNodes.ClientNew paths sh (λ _ w, w) env invite quiet false w = (o, w') → booking w w'
| BookJoin env r code body :
    env_uuid env ≠ "" → join_handler paths sh env r w = (Ret (JsonReply code body), w') → booking w w'
| BookRemove id o : LocalNodes.ServerRemove id w = (o, w') → booking w w'
| BookElse :
    cores (w_nodes w') ⊆ cores (w_nodes w) → rows (w_requests w') ⊆ rows (w_requests w) → booking w w'.

Lemma fewer_balanced w w' :
  cores (w_nodes w') ⊆ cores (w_nodes w) → rows (w_requests w') ⊆ rows (w_requests w) → balanced w → balanced w'.
Proof.
  intros Hc Hr [Hn Hs Ha].
  pose proof (tally_subseteq takes_subnet _ _ Hc). pose proof (tally_subseteq (λ _, true) _ _ Hc).
  pose proof (tally_subseteq for_server _ _ Hr). pose proof (tally_subseteq (λ _, true) _ _ Hr).
  unfold taken, promised, members, open_requests in *.
  split; [by eapply network_ok_subseteq|..]; unfold taken, promised, members, open_requests; lia.
Qed.
Lemma remove_fewer id w o w' :
  LocalNodes.ServerRemove id w = (o, w') →
  cores (w_nodes w') ⊆ cores (w_nodes w) ∧ rows (w_requests w') ⊆ rows (w_requests w).
Proof.
  unfold LocalNodes.ServerRemove, or_complain, mbind, M_bind, attempt, on_nodes, on_part, DeleteServer, mbind, M_bind.
  destruct (Delete _ (w_nodes w)) as [[n|e|p|p] t] eqn:Hd; cbn; intros [= _ <-]; cbn; (split; [|done]);
    try by rewrite (delete_fail _ _ _ _ Hd).
  apply delete_rows in Hd as [_ Hr]. unfold cores. rewrite Hr. apply map_fmap_mono, map_filter_subseteq.
Qed.
Lemma booking_balanced w w' : countable → booking w w' → balanced w → balanced w'.
Proof.
  intros Hcount [env force quiet subnet o Hid Hrun|env invite quiet o Hid Hrun|env r code body Hid Hrun|id o Hrun|Hc Hr] Hw.
  - by eapply triple_any; [by eapply ServerNew_books| |].
  - by eapply triple_any; [by eapply (ClientNew_books (λ _ w, w))| |].
  - by eapply (triple_Ret _ _ _ _ _ _ _ (join_books env r Hid)).
  - apply remove_fewer in Hrun as [Hc Hr]. by eapply fewer_balanced.
  - by eapply fewer_balanced.
Qed.

(** A gateway that has just been started: one node, nothing promised. *)
Lemma fresh_balanced w :
  net w → size (cores (w_nodes w)) = 1%nat → rows (w_requests w) = ∅ → balanced w.
Proof.
  intros Hn Hone Hnone. pose proof (tally_le takes_subnet (λ _, true) (cores (w_nodes w))) as Hle.
  rewrite tally_all, Hone in Hle.
  split; [done|..]; unfold taken, promised, members, open_requests; rewrite Hnone, tally_empty.
  - transitivity 1; [|done]. rewrite !Z.add_0_r. by apply Hle.
  - rewrite tally_all, Hone. done.
Qed.

(** A subnet that is asked for is given unless a node has it. *)
Lemma choose_named (t : Table (Gorm := GN)) s d :
  healthy t → ParseIPNetMarshable s true = Ret d →
  choose_subnet (Some s) t = Ret d ∨
  choose_subnet (Some s) t = Throw (Errorf "docker subnet already in use") ∧
    ∃ k a e, cores t !! k = Some a ∧ core_subnet a = Some e ∧ IPNet_String e = IPNet_String d.
Proof.
  intros Ht Hd. unfold choose_subnet, IsDockerSubnetAvailable. rewrite Hd. cbn [mbind Out_bind].
  destruct (find_ok server_or_gateway t Ht) as [l Hl]. rewrite Hl. cbn [mbind Out_bind mret Out_ret].
  destruct (existsb (uses_subnet (IPNet_String d)) l) eqn:E; cbn [negb]; [right|by left].
  split; [done|]. apply existsb_exists in E as (n & Hn & Hu). apply list_elem_of_In in Hn.
  apply (find_elem _ _ _ _ Hl) in Hn as [Hn _]. unfold uses_subnet in Hu.
  destruct (node_DockerSubnet n) as [e|] eqn:He; [|done]. apply bool_decide_eq_true_1 in Hu.
  exists (pk n), (core n), e. split; [by apply cores_lookup|]. by split.
Qed.

(** C3: invitations that leave the choice of the subnet to the gateway fit, however many are
    open: as long as the requests can be counted ([countable]; an error would read as none)
    and the books balance at the start (as those of a fresh gateway do, [fresh_balanced]),
    they balance after any commands and any join requests that are answered, and who then
    holds a stored join request still finds a WireGuard address, and a server without a
    subnet of its own a docker subnet.  An invitation that names its subnet is no such
    promise: it gets it if nobody has joined with it meanwhile, and is refused otherwise
    (the commands look at the nodes only, so that one subnet can be promised twice). *)
Theorem invitations_fit w w' :
  countable → rtc booking w w' → balanced w →
  balanced w' ∧
  ∀ jr, rows (w_requests w') !! jr_ID jr = Some jr → healthy (w_nodes w') →
    (∃ n, GetNextAssignableWGPrivateIP (w_nodes w') = Ret (wg_ip n)) ∧
    (jr_Role jr = NodeRoleServer → jr_DockerSubnet jr = None →
       ∃ n, choose_subnet (jr_DockerSubnet jr) (w_nodes w') = Ret (docker_subnet n)) ∧
    (∀ s d, jr_DockerSubnet jr = Some s → ParseIPNetMarshable s true = Ret d →
       choose_subnet (jr_DockerSubnet jr) (w_nodes w') = Ret d ∨
       choose_subnet (jr_DockerSubnet jr) (w_nodes w') = Throw (Errorf "docker subnet already in use") ∧
         ∃ k a e, cores (w_nodes w') !! k = Some a ∧ core_subnet a = Some e ∧
           IPNet_String e = IPNet_String d).
Proof.
  intros Hcount Hsteps Hw. assert (balanced w') as Hw'.
  { induction Hsteps as [|w w1 w2 Hstep _ IH]; [done|]. apply IH. by eapply booking_balanced. }
  split; [done|]. intros jr Hjr Ht. destruct Hw' as [Hn Hs Hc]. split; [|split].
  - apply next_wg_ip_ok; [done|]. unfold members, open_requests, cores in Hc.
    pose proof (tally_pos (λ _, true) _ _ _ Hjr eq_refl) as Hpos.
    rewrite tally_fmap, tally_all in Hc. unfold all_addresses in Hc. lia.
  - intros Hrole ->. apply next_subnet_ok; [done|]. unfold taken, promised, cores in Hs.
    pose proof (tally_pos for_server _ _ _ Hjr) as Hpos. rewrite tally_fmap in Hs.
    rewrite Z.add_0_r in Hs. unfold tally at 1 in Hs.
    assert (for_server jr = true) as Hp%Hpos by (unfold for_server; by rewrite Hrole, bool_decide_eq_true_2).
    eapply Z.lt_le_trans; [|exact Hs]. apply Z.lt_add_pos_r. exact Hp.
  - intros s d -> Hd. by apply choose_named.
Qed.

(** ** A join that is refused half way *)

Lemma create_adds env c (transaction : string → string → M (Table (Gorm := GN)) Node) role :
  network_ok c →
  (∀ priv pub, triple (λ t, cores t = c) (transaction priv pub)
     (joins c (env_uuid env) role) (λ t, cores t = c)) →
  triple (λ t, cores t = c)
    ('(priv, pub) ← lift (GenerateKeyPair (env_run env));
     node ← transaction priv pub; _ ← updateNodes; query (GetByID (node_ID node)))
    (λ _ t, ∃ a, c !! env_uuid env = None ∧ core_role a = role ∧ cores t = <[env_uuid env := a]> c)
    (λ _, True).
Proof.
  intros Hc Ht. eapply triple_bind with (Q := λ _ t, cores t = c); [by apply triple_lift|].
  intros [priv pub]. eapply triple_bind; [by eapply triple_conseq; [apply Ht|..]|].
  intros n t [Hid Hrole Hnew Hcores Hok]. cbn beta.
  pose proof (updateNodes_cores _ Hok t eq_refl) as Hu. unfold mbind, M_bind.
  destruct (updateNodes t) as [[u|e|p|p] t1]; try done. unfold query.
  destruct (GetByID (node_ID n) t1); try done. exists (core n). by rewrite Hu, Hcores.
Qed.
Lemma CreateClient_adds env t n t' :
  ok t → env_uuid env ≠ "" → CreateClient env t = (Ret n, t') →
  ∃ a, cores t !! env_uuid env = None ∧ core_role a = NodeRoleClient ∧
    cores t' = <[env_uuid env := a]> (cores t).
Proof.
  intros Hok Hu Hrun.
  refine (triple_Ret _ _ _ _ t n t' (create_adds env (cores t) (client_transaction env) NodeRoleClient Hok _) eq_refl Hrun).
  intros. by apply client_transaction_joins.
Qed.

(** C22: a join that is refused spoils the books: when the last restart of WireGuard fails, the
    client is told to try again, and its node is in the network while its invitation is
    still open.  One address is spoken for twice, so that a gateway that has promised every
    address it has no longer balances. *)
Theorem refused_join_overbooks {LS : GormLaws ServiceKey PublicService} env r w jr n t gw b resolv coredns err :
  env_uuid env ≠ "" → ok (w_nodes w) →
  invited w env r jr n t → jr_Role jr = NodeRoleClient →
  can_settle (with_nodes t w) gw b resolv coredns →
  (∀ i, sh i WireguardRestartCommand = Some err) →
  ∃ w', join_handler paths sh env r w = (Ret (ErrorReply StatusBadRequest ""), w') ∧
    members w' = members w + 1 ∧ open_requests w' = open_requests w ∧
    taken w' = taken w ∧ promised w' = promised w ∧
    (members w + open_requests w = all_addresses → ¬ balanced w').
Proof.
  intros Hu Hok Hinv Hrole Hset Hsh.
  destruct (join_settles paths sh _ _ _ _ _ _ _ _ _ _ Hinv Hset) as (t' & caddy & Hrows & _ & Hrun).
  pose proof (inv_created _ _ _ _ _ _ Hinv) as Hcreate. unfold create_invited in Hcreate. rewrite Hrole in Hcreate.
  destruct (CreateClient_adds _ _ _ _ Hok Hu Hcreate) as (a & Hnew & Ha & Hcores).
  assert (cores t' = cores t) as Hsame.
  { unfold cores. rewrite Hrows, fmap_insert. apply insert_id. rewrite lookup_fmap.
    pose proof (proj1 (cs_gateway _ _ _ _ _ Hset)) as Hgw. cbn [w_nodes with_nodes] in Hgw. by rewrite Hgw. }
  eexists. split; [by eapply Hrun|].
  set (w' := with_host _ _). assert (w_nodes w' = t' ∧ w_requests w' = w_requests w) as [En Er] by done.
  clearbody w'. clear Hrun. unfold balanced, members, open_requests, taken, promised in *. rewrite En, Er, Hsame, Hcores.
  rewrite !tally_insert by done.
  assert (takes_subnet a = false) as -> by (unfold takes_subnet; by rewrite Ha).
  split; [lia|]. split; [done|]. split; [done|]. split; [done|].
  intros Hfull [_ _ Hc]. unfold members, open_requests in Hc. rewrite En, Er, Hsame, Hcores, tally_insert in Hc by done.
  cbn in Hc. lia.
Qed.
End books.

(** ** At work *)

Lemma demo_balanced : balanced demo_world.
Proof.
  apply fresh_balanced; [exact demo_gateway_ok|vm_compute; reflexivity|vm_compute; reflexivity].
Qed.
Lemma demo_countable : countable (GR := mem_gorm).
Proof. intros p t. by eexists. Qed.

(** A server is invited to the demo gateway. *)
Definition demo_after : World :=
  (LocalNodes.ServerNew (JQ := one_value_json demo_invitation) demo_command_env false true "" demo_world).2.

Lemma invitations_fit_witness :
  balanced demo_after ∧ size (rows (w_requests demo_after)) = 1%nat ∧
  ∃ n, choose_subnet None (w_nodes demo_after) = Ret (docker_subnet n).
Proof.
  destruct (@invitations_fit _ _ _ _ _ _ toy_raymond _ (one_value_json demo_invitation)
    token_decode (one_value_json (MkJoinResponseDTO None)) sample_paths (λ _ _, None) demo_world demo_after
    demo_countable
    (rtc_once _ _ (@BookServer _ _ _ _ toy_raymond _ (one_value_json demo_invitation) token_decode
       (one_value_json (MkJoinResponseDTO None)) sample_paths (λ _ _, None) demo_world demo_after
       demo_command_env false true "" _ ltac:(discriminate) (surjective_pairing _)))
    demo_balanced) as [Hb Hfit].
  split; [exact Hb|]. split; [vm_compute; reflexivity|].
  destruct (rows (w_requests demo_after) !! "r-1") as [jr|] eqn:Hjr; [|vm_compute in Hjr; discriminate].
  assert (jr_ID jr = "r-1" ∧ jr_Role jr = NodeRoleServer ∧ jr_DockerSubnet jr = None) as (Hid & Hrole & Hnone).
  { vm_compute in Hjr. injection Hjr as <-. repeat split. }
  destruct (Hfit jr ltac:(rewrite Hid; exact Hjr) I) as (_ & Hsub & _).
  rewrite <- Hnone. exact (Hsub Hrole Hnone).
Defined.

Lemma refused_join_overbooks_witness :
  ∃ w', join_handler (JQ := one_value_json (invitation NodeRoleClient)) (JD := token_decode)
          (JP := one_value_json (MkJoinResponseDTO None)) sample_paths
          wg_fails (demo_env "n1" 20) join_post (inviting_world NodeRoleClient)
        = (Ret (ErrorReply 400 ""), w') ∧
        members w' + open_requests w' = 3.
Proof.
  pose (role := NodeRoleClient). assert (role = NodeRoleServer ∨ role = NodeRoleClient) as Hrole by auto.
  destruct (@refused_join_overbooks _ _ _ _ _ _ toy_raymond _ (one_value_json (invitation role))
    token_decode (one_value_json (MkJoinResponseDTO None)) sample_paths
    wg_fails _ (demo_env "n1" 20) join_post
    (inviting_world role) (invitation role) (joined_node role) (joined_table role)
    (joined_gateway role) (joined_bundle role) _ _ "exit status 1" ltac:(discriminate) demo_gateway_ok
    (sample_invited role Hrole) eq_refl (sample_can_settle role Hrole) (λ _, eq_refl))
    as (w' & Hrun & Hm & Ho & _).
  refine (ex_intro _ w' (conj Hrun _)). rewrite Hm, Ho. vm_compute. reflexivity.
Defined.
