(* ===== verification/CommandTree.v ===== *)
(** * The commands and their flags: the declarations of [cmd/server/commands/]

    Which commands there are, what hangs under what, the flags of each and the package
    variables they are stored in.  The [init] functions and [RegisterCommands] are the
    statements they are made of, run in the order in which Go runs them.  What [cobra] and
    [pflag] do with the declarations is behind [Cobra], with what their documentation
    promises in [CobraLaws]. *)
From S2P Require Import Prelude GoStrings Ssh.

(** ** The variables *)

Inductive FlagVar : Set :=
| joinRequestClientCreation | quietClientCreation | waitClientCreation
| GatewayStartConfigureOnly | GatewaySSHKeyPassEmpty | GatewayDockerImage | GatewayDockerImageTag
| forceGatewayTeardown
| JoinPostponed
| forceServerCreation | quietServerCreation | dockerSubnet | ServerSSHKeyPassEmpty
| ServerDockerImage | ServerDockerImageTag | forceServerTeardown
| local | public | paramValue.
#[export] Instance FlagVar_eq_dec : EqDecision FlagVar.
Proof. solve_decision. Defined.

Inductive Value : Type := Bool (b : bool) | Text (s : string).
#[export] Instance Value_eq_dec : EqDecision Value.
Proof. solve_decision. Defined.
(** [Value.String()] *)
Definition value_text (v : Value) : string :=
  match v with Bool b => if b then "true" else "false" | Text s => s end.
Definition as_bool (v : Value) : bool := match v with Bool b => b | Text _ => false end.
Definition as_text (v : Value) : string := match v with Text s => s | Bool _ => "" end.
Definition same_kind (v v' : Value) : bool :=
  match v, v' with Bool _, Bool _ | Text _, Text _ => true | _, _ => false end.

Definition Globals : Type := FlagVar → Value.

(** ** The commands *)

Inductive Command : Set :=
| rootCmd
| GatewayCmd | StartGatewayCmd | StatusGatewayCmd | UpGatewayCmd | DownGatewayCmd | UpgradeGatewayCmd
| ServerCmd | NewServerCmd | StartServerCmd | StatusServerCmd | UpServerCmd | DownServerCmd
| ListServerCmd | UpgradeServerCmd | ServerLabelCmd | ServerLabelAddCmd | ServerLabelRemoveCmd
| ClientCmd | NewClientCmd | ListClientCmd
| JoinCmd
| ServiceCmd | ParamsServiceCmd | PublishServiceCmd | UnpublishServiceCmd | ListServiceCmd
| NewParamsServiceCmd | RemoveParamsServiceCmd | ListParamsServiceCmd.
#[export] Instance Command_eq_dec : EqDecision Command.
Proof. solve_decision. Defined.
Definition all_commands : list Command :=
  [rootCmd; GatewayCmd; StartGatewayCmd; StatusGatewayCmd; UpGatewayCmd; DownGatewayCmd;
   UpgradeGatewayCmd; ServerCmd; NewServerCmd; StartServerCmd; StatusServerCmd; UpServerCmd;
   DownServerCmd; ListServerCmd; UpgradeServerCmd; ServerLabelCmd; ServerLabelAddCmd;
   ServerLabelRemoveCmd; ClientCmd; NewClientCmd; ListClientCmd; JoinCmd; ServiceCmd;
   ParamsServiceCmd; PublishServiceCmd; UnpublishServiceCmd; ListServiceCmd; NewParamsServiceCmd;
   RemoveParamsServiceCmd; ListParamsServiceCmd].
Lemma all_commands_all c : c ∈ all_commands.
Proof. apply (bool_decide_eq_true_1 _). by destruct c. Qed.

(** [cobra.PositionalArgs]; a command that gives none takes any. *)
Inductive PositionalArgs : Set := AnyArgs | ExactArgs (n : nat) | MaximumNArgs (n : nat).
Definition accepts (a : PositionalArgs) (args : list string) : bool :=
  match a with
  | AnyArgs => true
  | ExactArgs n => bool_decide (length args = n)
  | MaximumNArgs n => bool_decide (length args ≤ n)%nat
  end.

(** [cobra.Command], without the long help text; [has_Run]: whether there is a [Run] function,
    which is in CommandLine. A command without one only holds commands. *)
Record Declaration : Type := MkDeclaration {
  Use : string;
  Short : string;
  Args : PositionalArgs;
  has_Run : bool;
}.
(** [main.go] *)
Definition decl_rootCmd : Declaration :=
  MkDeclaration "wireport" "Ingress proxy for exposing local services and remote Docker-based workloads to the Internet"
    AnyArgs false.
(** [gateway.go] *)
Definition decl_GatewayCmd : Declaration :=
  MkDeclaration "gateway" "wireport gateway commands"
    AnyArgs false.
Definition decl_StartGatewayCmd : Declaration :=
  MkDeclaration "start" "Start wireport in gateway mode"
    AnyArgs true.
Definition decl_StatusGatewayCmd : Declaration :=
  MkDeclaration "status [username@hostname[:port]]" "Check wireport gateway node status"
    (MaximumNArgs 1) true.
Definition decl_UpGatewayCmd : Declaration :=
  MkDeclaration "up username@hostname[:port]" "Bootstrap wireport gateway node"
    (ExactArgs 1) true.
Definition decl_DownGatewayCmd : Declaration :=
  MkDeclaration "down [username@hostname[:port]]" "Teardown wireport gateway node"
    (MaximumNArgs 1) true.
Definition decl_UpgradeGatewayCmd : Declaration :=
  MkDeclaration "upgrade [username@hostname[:port]]" "Upgrade wireport gateway node"
    (ExactArgs 1) true.
(** [server.go] *)
Definition decl_ServerCmd : Declaration :=
  MkDeclaration "server" "wireport server commands"
    AnyArgs false.
Definition decl_NewServerCmd : Declaration :=
  MkDeclaration "new" "Create a new join-request for connecting a server to wireport network"
    AnyArgs true.
Definition decl_StartServerCmd : Declaration :=
  MkDeclaration "start" "Start wireport in server mode"
    AnyArgs true.
Definition decl_StatusServerCmd : Declaration :=
  MkDeclaration "status username@hostname[:port]" "Check wireport server node status"
    (ExactArgs 1) true.
Definition decl_UpServerCmd : Declaration :=
  MkDeclaration "up username@hostname[:port]" "Bootstrap a wireport server node"
    (ExactArgs 1) true.
Definition decl_DownServerCmd : Declaration :=
  MkDeclaration "down username@hostname[:port]" "Teardown wireport server node"
    (MaximumNArgs 1) true.
Definition decl_ListServerCmd : Declaration :=
  MkDeclaration "list" "List all servers"
    AnyArgs true.
Definition decl_UpgradeServerCmd : Declaration :=
  MkDeclaration "upgrade username@hostname[:port]" "Upgrade a server"
    (ExactArgs 1) true.
Definition decl_ServerLabelCmd : Declaration :=
  MkDeclaration "label" "Add or remove labels on server nodes"
    AnyArgs false.
Definition decl_ServerLabelAddCmd : Declaration :=
  MkDeclaration "add NODE_IP LABEL" "Append a label to a server node if it is not already present"
    (ExactArgs 2) true.
Definition decl_ServerLabelRemoveCmd : Declaration :=
  MkDeclaration "remove NODE_IP LABEL" "Remove a label from a server node"
    (ExactArgs 2) true.
(** [client.go] *)
Definition decl_ClientCmd : Declaration :=
  MkDeclaration "client" "wireport client commands"
    AnyArgs false.
Definition decl_NewClientCmd : Declaration :=
  MkDeclaration "new" "Create a new client directly or a join-request (-j) for connecting a client to wireport network"
    AnyArgs true.
Definition decl_ListClientCmd : Declaration :=
  MkDeclaration "list" "List all clients"
    AnyArgs true.
(** [join.go] *)
Definition decl_JoinCmd : Declaration :=
  MkDeclaration "join" "Join the wireport network"
    AnyArgs true.
(** [service.go] *)
Definition decl_ServiceCmd : Declaration :=
  MkDeclaration "service" "Manage public services"
    AnyArgs false.
Definition decl_ParamsServiceCmd : Declaration :=
  MkDeclaration "params" "Manage params of the service"
    AnyArgs false.
Definition decl_PublishServiceCmd : Declaration :=
  MkDeclaration "publish" "Publish a new public service"
    AnyArgs true.
Definition decl_UnpublishServiceCmd : Declaration :=
  MkDeclaration "unpublish" "Unpublish a public service"
    AnyArgs true.
Definition decl_ListServiceCmd : Declaration :=
  MkDeclaration "list" "List all published services"
    AnyArgs true.
Definition decl_NewParamsServiceCmd : Declaration :=
  MkDeclaration "new" "Add a new parameter to a public service"
    AnyArgs true.
Definition decl_RemoveParamsServiceCmd : Declaration :=
  MkDeclaration "remove" "Remove a parameter from a public service"
    AnyArgs true.
Definition decl_ListParamsServiceCmd : Declaration :=
  MkDeclaration "list" "List all parameters of a public service"
    AnyArgs true.
Definition declaration (c : Command) : Declaration :=
  match c with
  | rootCmd => decl_rootCmd
  | GatewayCmd => decl_GatewayCmd
  | StartGatewayCmd => decl_StartGatewayCmd
  | StatusGatewayCmd => decl_StatusGatewayCmd
  | UpGatewayCmd => decl_UpGatewayCmd
  | DownGatewayCmd => decl_DownGatewayCmd
  | UpgradeGatewayCmd => decl_UpgradeGatewayCmd
  | ServerCmd => decl_ServerCmd
  | NewServerCmd => decl_NewServerCmd
  | StartServerCmd => decl_StartServerCmd
  | StatusServerCmd => decl_StatusServerCmd
  | UpServerCmd => decl_UpServerCmd
  | DownServerCmd => decl_DownServerCmd
  | ListServerCmd => decl_ListServerCmd
  | UpgradeServerCmd => decl_UpgradeServerCmd
  | ServerLabelCmd => decl_ServerLabelCmd
  | ServerLabelAddCmd => decl_ServerLabelAddCmd
  | ServerLabelRemoveCmd => decl_ServerLabelRemoveCmd
  | ClientCmd => decl_ClientCmd
  | NewClientCmd => decl_NewClientCmd
  | ListClientCmd => decl_ListClientCmd
  | JoinCmd => decl_JoinCmd
  | ServiceCmd => decl_ServiceCmd
  | ParamsServiceCmd => decl_ParamsServiceCmd
  | PublishServiceCmd => decl_PublishServiceCmd
  | UnpublishServiceCmd => decl_UnpublishServiceCmd
  | ListServiceCmd => decl_ListServiceCmd
  | NewParamsServiceCmd => decl_NewParamsServiceCmd
  | RemoveParamsServiceCmd => decl_RemoveParamsServiceCmd
  | ListParamsServiceCmd => decl_ListParamsServiceCmd
  end.
(** The name a command is called by: the first word of its usage line. *)
Definition Name (c : Command) : string := hd "" (Split " " (Use (declaration c))).
Definition Runnable (c : Command) : bool := has_Run (declaration c).

(** ** The flags *)

(** [BoolVarP], [BoolVar] (no shorthand), [StringVarP], [StringVar], and [String], which makes
    a variable of its own. *)
Inductive Flag : Type :=
| BoolVarP (p : FlagVar) (name shorthand : string) (value : bool)
| StringVarP (p : FlagVar) (name shorthand value : string)
| StringFlag (name value : string).
Definition BoolVar (p : FlagVar) (name : string) : bool → Flag := BoolVarP p name "".
Definition StringVar (p : FlagVar) (name : string) : string → Flag := StringVarP p name "".

Definition flag_name (f : Flag) : string :=
  match f with BoolVarP _ n _ _ | StringVarP _ n _ _ | StringFlag n _ => n end.
Definition flag_shorthand (f : Flag) : string :=
  match f with BoolVarP _ _ s _ | StringVarP _ _ s _ => s | StringFlag _ _ => "" end.
Definition flag_variable (f : Flag) : option FlagVar :=
  match f with BoolVarP p _ _ _ | StringVarP p _ _ _ => Some p | StringFlag _ _ => None end.
Definition flag_default (f : Flag) : Value :=
  match f with BoolVarP _ _ _ b => Bool b | StringVarP _ _ _ s | StringFlag _ s => Text s end.

(** ** Declarations *)

Inductive Statement : Type :=
| Flags (c : Command) (f : Flag)
| AddCommand (c child : Command).

Record Declared : Type := MkDeclared {
  flags_of : Command → list Flag;
  children : Command → list Command;
  globals : Globals;
}.

(** What a command line asks for.  [Runs]: the command found, the flags given with their
    values, the arguments left, and the variables as parsing leaves them. *)
Inductive Parsed : Type :=
| Shows (text : string)
| Fails (said : string) (err : error)
| Runs (c : Command) (given : string → option Value) (args : list string) (g : Globals).

(** [pflag], which a flag is declared to, and [cobra], which finds the command and has its
    flags parsed. *)
Class Cobra : Type := {
  declare_flag : Flag → Globals → Globals;
  parse : Declared → list string → Parsed;
}.

Definition update {A} (f : Command → list A) (c : Command) (x : A) : Command → list A :=
  λ c', if decide (c' = c) then f c' ++ [x] else f c'.
Definition exec `{Cobra} (d : Declared) (s : Statement) : Declared :=
  match s with
  | Flags c f => MkDeclared (update (flags_of d) c f) (children d) (declare_flag f (globals d))
  | AddCommand c child => MkDeclared (flags_of d) (update (children d) c child) (globals d)
  end.

(** ** What has to hold of declarations *)

(** What each command's flags are told apart by: their names, their shorthands, and the
    variables they are stored in. *)
Definition shorthands (fs : list Flag) : list string := filter (λ s, s ≠ "") (map flag_shorthand fs).
Definition flags_apart (fs : list Flag) : bool :=
  bool_decide (NoDup (map flag_name fs)) && bool_decide (NoDup (shorthands fs))
  && bool_decide (NoDup (omap flag_variable fs)).
Definition well_declared (d : Declared) : bool :=
  forallb (λ c, flags_apart (flags_of d c) && bool_decide (NoDup (map Name (children d c)))) all_commands.

(** What a flag of the command stands for: what is given, or else its own default. *)
Definition own_value (fs : list Flag) (given : string → option Value) (name : string) : option Value :=
  match List.find (λ f, bool_decide (flag_name f = name)) fs with
  | Some f => Some (default (flag_default f) (given name))
  | None => None
  end.

Inductive under (d : Declared) : Command → Command → Prop :=
| under_refl c : under d c c
| under_child c c' c'' : under d c c' → c'' ∈ children d c' → under d c c''.

(** What the two libraries promise. *)
Class CobraLaws `{Cobra} : Prop := {
  declare_own f v g : flag_variable f = Some v → declare_flag f g v = flag_default f;
  declare_other f v g : flag_variable f ≠ Some v → declare_flag f g v = g v;
  parse_runs d argv c given args g :
    well_declared d = true → parse d argv = Runs c given args g →
    under d rootCmd c ∧ Runnable c = true ∧ accepts (Args (declaration c)) args = true ∧
    (∀ name x, given name = Some x →
       ∃ f, f ∈ flags_of d c ∧ flag_name f = name ∧ same_kind x (flag_default f) = true) ∧
    (∀ f v, f ∈ flags_of d c → flag_variable f = Some v → g v = default (globals d v) (given (flag_name f))) ∧
    (∀ v, (∀ f, f ∈ flags_of d c → flag_variable f ≠ Some v) → g v = globals d v);
}.

(** ** The declarations *)

Section declarations.
  Context `{CB : Cobra}.
  (** [version.Version], which the build sets *)
  Context (Version : string).

(** The package's variables before any [init]. *)
Definition initial (v : FlagVar) : Value :=
  match v with
  | GatewayDockerImage => Text WireportGatewayContainerImage
  | ServerDockerImage => Text WireportServerContainerImage
  | GatewayDockerImageTag | ServerDockerImageTag => Text Version
  | dockerSubnet | local | public | paramValue => Text ""
  | _ => Bool false
  end.

(** [client.go] *)
Definition init_client : list Statement :=
  [Flags NewClientCmd (BoolVarP joinRequestClientCreation "join-request" "j" false);
   Flags NewClientCmd (BoolVarP quietClientCreation "quiet" "q" false);
   Flags NewClientCmd (BoolVarP waitClientCreation "wait" "w" false);
   AddCommand ClientCmd NewClientCmd;
   AddCommand ClientCmd ListClientCmd].
(** [gateway.go] *)
Definition init_gateway : list Statement :=
  [AddCommand GatewayCmd StartGatewayCmd;
   AddCommand GatewayCmd StatusGatewayCmd;
   AddCommand GatewayCmd UpGatewayCmd;
   AddCommand GatewayCmd DownGatewayCmd;
   AddCommand GatewayCmd UpgradeGatewayCmd;
   Flags StartGatewayCmd (BoolVar GatewayStartConfigureOnly "configure" false);
   Flags StatusGatewayCmd (StringFlag "ssh-key-path" "");
   Flags StatusGatewayCmd (BoolVar GatewaySSHKeyPassEmpty "ssh-key-pass-empty" false);
   Flags UpGatewayCmd (StringFlag "ssh-key-path" "");
   Flags UpGatewayCmd (BoolVar GatewaySSHKeyPassEmpty "ssh-key-pass-empty" false);
   Flags UpGatewayCmd (StringVar GatewayDockerImage "image" WireportGatewayContainerImage);
   Flags UpGatewayCmd (StringVar GatewayDockerImageTag "image-tag" Version);
   Flags DownGatewayCmd (StringFlag "ssh-key-path" "");
   Flags DownGatewayCmd (BoolVar GatewaySSHKeyPassEmpty "ssh-key-pass-empty" false);
   Flags DownGatewayCmd (BoolVarP forceGatewayTeardown "force" "f" false);
   Flags UpgradeGatewayCmd (StringFlag "ssh-key-path" "");
   Flags UpgradeGatewayCmd (BoolVar GatewaySSHKeyPassEmpty "ssh-key-pass-empty" false);
   Flags UpgradeGatewayCmd (StringVar GatewayDockerImage "image" WireportGatewayContainerImage);
   Flags UpgradeGatewayCmd (StringVar GatewayDockerImageTag "image-tag" Version)].
(** [join.go] *)
Definition init_join : list Statement := [Flags JoinCmd (BoolVar JoinPostponed "postponed" false)].
(** [server.go] *)
Definition init_server : list Statement :=
  [Flags NewServerCmd (BoolVarP forceServerCreation "force" "f" false);
   Flags NewServerCmd (StringVar dockerSubnet "docker-subnet" "");
   Flags NewServerCmd (BoolVarP quietServerCreation "quiet" "q" false);
   AddCommand ServerCmd NewServerCmd;
   AddCommand ServerCmd StartServerCmd;
   AddCommand ServerCmd StatusServerCmd;
   AddCommand ServerCmd UpServerCmd;
   AddCommand ServerCmd DownServerCmd;
   AddCommand ServerCmd ListServerCmd;
   AddCommand ServerCmd UpgradeServerCmd;
   AddCommand ServerLabelCmd ServerLabelAddCmd;
   AddCommand ServerLabelCmd ServerLabelRemoveCmd;
   AddCommand ServerCmd ServerLabelCmd;
   Flags StatusServerCmd (StringFlag "ssh-key-path" "");
   Flags StatusServerCmd (BoolVar ServerSSHKeyPassEmpty "ssh-key-pass-empty" false);
   Flags UpServerCmd (StringFlag "ssh-key-path" "");
   Flags UpServerCmd (BoolVar ServerSSHKeyPassEmpty "ssh-key-pass-empty" false);
   Flags UpServerCmd (StringVar dockerSubnet "docker-subnet" "");
   Flags UpServerCmd (StringVar ServerDockerImage "image" WireportServerContainerImage);
   Flags UpServerCmd (StringVar ServerDockerImageTag "image-tag" Version);
   Flags DownServerCmd (StringFlag "ssh-key-path" "");
   Flags DownServerCmd (BoolVar ServerSSHKeyPassEmpty "ssh-key-pass-empty" false);
   Flags DownServerCmd (BoolVarP forceServerTeardown "force" "f" false);
   Flags UpgradeServerCmd (StringFlag "ssh-key-path" "");
   Flags UpgradeServerCmd (BoolVar ServerSSHKeyPassEmpty "ssh-key-pass-empty" false);
   Flags UpgradeServerCmd (StringVar ServerDockerImage "image" WireportServerContainerImage);
   Flags UpgradeServerCmd (StringVar ServerDockerImageTag "image-tag" Version)].
(** [service.go] *)
Definition init_service : list Statement :=
  [Flags PublishServiceCmd (StringVarP local "local" "l" "");
   Flags PublishServiceCmd (StringVarP public "public" "p" "");
   Flags UnpublishServiceCmd (StringVarP public "public" "p" "");
   Flags NewParamsServiceCmd (StringVarP public "public" "p" "");
   Flags NewParamsServiceCmd (StringVar paramValue "param-value" "");
   Flags RemoveParamsServiceCmd (StringVarP public "public" "p" "");
   Flags RemoveParamsServiceCmd (StringVar paramValue "param-value" "");
   Flags ListParamsServiceCmd (StringVarP public "public" "p" "");
   AddCommand ParamsServiceCmd NewParamsServiceCmd;
   AddCommand ParamsServiceCmd RemoveParamsServiceCmd;
   AddCommand ParamsServiceCmd ListParamsServiceCmd;
   AddCommand ServiceCmd PublishServiceCmd;
   AddCommand ServiceCmd UnpublishServiceCmd;
   AddCommand ServiceCmd ParamsServiceCmd;
   AddCommand ServiceCmd ListServiceCmd].
(** [register.go] *)
Definition RegisterCommands : list Statement :=
  [AddCommand rootCmd GatewayCmd;
   AddCommand rootCmd ServerCmd;
   AddCommand rootCmd ClientCmd;
   AddCommand rootCmd JoinCmd;
   AddCommand rootCmd ServiceCmd].

(** The [init] functions of a package run in the order of its files. *)
Definition statements : list Statement :=
  init_client ++ init_gateway ++ init_join ++ init_server ++ init_service ++ RegisterCommands.
Definition undeclared : Declared := MkDeclared (λ _, []) (λ _, []) initial.
Definition declared : Declared := fold_left exec statements undeclared.
End declarations.

(** ** Properties *)

Section properties.
  Context `{CB : Cobra} {CL : CobraLaws} (Version : string).

(** The flags a list of statements declares. *)
Definition flags_in (ss : list Statement) : list Flag :=
  omap (λ s, match s with Flags _ f => Some f | AddCommand _ _ => None end) ss.

Lemma exec_globals v a ss d :
  (∀ f, f ∈ flags_in ss → flag_variable f = Some v → flag_default f = a) →
  globals d v = a → globals (fold_left exec ss d) v = a.
Proof.
  revert d. induction ss as [|[c f|c child] ss IH]; intros d Hall Hd; [done|..]; cbn [fold_left].
  - apply IH; [intros f' Hf'; apply Hall; cbn; by right|]. cbn.
    destruct (decide (flag_variable f = Some v)) as [E|E];
      [rewrite (declare_own _ _ _ E); by apply Hall; [left|]|by rewrite declare_other].
  - apply IH; [intros f' Hf'; by apply Hall|done].
Qed.
Lemma exec_flags c f ss d :
  f ∈ flags_of (fold_left exec ss d) c → f ∈ flags_of d c ∨ f ∈ flags_in ss.
Proof.
  revert d. induction ss as [|[c' f'|c' child] ss IH]; intros d Hf; [by left|..];
    apply IH in Hf as [Hf|Hf]; cbn in *; try by auto.
  - unfold update in Hf. destruct (decide (c = c')) as [->|]; [|by left].
    apply elem_of_app in Hf as [Hf| ->%list_elem_of_singleton]; [by left|right; by left].
  - right. by right.
Qed.

(** Whatever commands share a variable, each declares it with the value it starts with: no
    declaration changes a variable, in whatever order they run. *)
Lemma defaults_agree f v :
  f ∈ flags_in (statements Version) → flag_variable f = Some v → flag_default f = initial Version v.
Proof.
  intros Hf. assert (Forall (λ f, ∀ v, flag_variable f = Some v → flag_default f = initial Version v)
    (flags_in (statements Version))) as Hall.
  { repeat constructor; intros ? [= <-]; reflexivity. }
  by apply (proj1 (Forall_forall _ _) Hall f Hf v).
Qed.
Lemma declared_globals v : globals (declared Version) v = initial Version v.
Proof. apply exec_globals; [|done]. intros f. apply defaults_agree. Qed.
Lemma declared_flags c f : f ∈ flags_of (declared Version) c → f ∈ flags_in (statements Version).
Proof.
  unfold declared. intros Hf. apply exec_flags in Hf as [H|H]; [cbn in H; by apply elem_of_nil in H|exact H].
Qed.

Lemma declared_well : well_declared (declared Version) = true.
Proof. vm_compute. reflexivity. Qed.

(** In a list of flags that are told apart a name finds its flag. *)
Lemma NoDup_key fs f f' :
  NoDup (map flag_name fs) → f ∈ fs → f' ∈ fs → flag_name f = flag_name f' → f = f'.
Proof.
  induction fs as [|x fs IH]; cbn; intros Hnd Hf Hf' E; [by apply elem_of_nil in Hf|].
  apply NoDup_cons in Hnd as [Hx Hnd].
  assert (∀ y, y ∈ fs → flag_name x ≠ flag_name y) as Hno.
  { intros y Hy Exy. apply Hx. rewrite Exy. by apply list_elem_of_fmap_2. }
  apply elem_of_cons in Hf as [-> |Hf], Hf' as [-> |Hf']; [done| | |by apply IH].
  - by destruct (Hno f').
  - by destruct (Hno f).
Qed.
Lemma own_value_of fs given f :
  NoDup (map flag_name fs) → f ∈ fs →
  own_value fs given (flag_name f) = Some (default (flag_default f) (given (flag_name f))).
Proof.
  intros Hnd Hf. unfold own_value.
  destruct (List.find _ fs) as [f'|] eqn:E; [|exfalso].
  - apply List.find_some in E as [Hf' E]. apply bool_decide_eq_true_1 in E.
    apply list_elem_of_In in Hf'. by rewrite (NoDup_key fs f' f Hnd Hf' Hf E).
  - pose proof (List.find_none _ _ E f ltac:(by apply list_elem_of_In)) as H. cbv beta in H.
    by rewrite bool_decide_eq_true_2 in H.
Qed.

Lemma well_named d c : well_declared d = true → NoDup (map flag_name (flags_of d c)).
Proof.
  unfold well_declared. rewrite forallb_forall. intros Hw.
  specialize (Hw c (proj1 (list_elem_of_In _ _) (all_commands_all c))).
  unfold flags_apart in Hw. rewrite !andb_true_iff in Hw. destruct Hw as [[[Hw _] _] _].
  by apply bool_decide_eq_true_1 in Hw.
Qed.

(** The variable a command reads holds what its own flag stands for. *)
Lemma flag_reads argv c given args g f v :
  parse (declared Version) argv = Runs c given args g →
  f ∈ flags_of (declared Version) c → flag_variable f = Some v →
  own_value (flags_of (declared Version) c) given (flag_name f) = Some (g v).
Proof.
  intros Hp Hf Hv. destruct (parse_runs _ _ _ _ _ _ declared_well Hp) as (_ & _ & _ & _ & Hg & _).
  rewrite (Hg _ _ Hf Hv), declared_globals, <- (defaults_agree f v) by (done || by eapply declared_flags).
  apply own_value_of; [|exact Hf]. exact (well_named _ c declared_well).
Qed.

(** The flags of each command, in the order of their declarations. *)
Definition flag_table (c : Command) : list Flag :=
  let gateway_login := [StringFlag "ssh-key-path" ""; BoolVar GatewaySSHKeyPassEmpty "ssh-key-pass-empty" false] in
  let server_login := [StringFlag "ssh-key-path" ""; BoolVar ServerSSHKeyPassEmpty "ssh-key-pass-empty" false] in
  let gateway_image := [StringVar GatewayDockerImage "image" WireportGatewayContainerImage;
    StringVar GatewayDockerImageTag "image-tag" Version] in
  let server_image := [StringVar ServerDockerImage "image" WireportServerContainerImage;
    StringVar ServerDockerImageTag "image-tag" Version] in
  let address := [StringVarP public "public" "p" ""] in
  match c with
  | StartGatewayCmd => [BoolVar GatewayStartConfigureOnly "configure" false]
  | StatusGatewayCmd => gateway_login
  | UpGatewayCmd | UpgradeGatewayCmd => gateway_login ++ gateway_image
  | DownGatewayCmd => gateway_login ++ [BoolVarP forceGatewayTeardown "force" "f" false]
  | NewServerCmd =>
      [BoolVarP forceServerCreation "force" "f" false; StringVar dockerSubnet "docker-subnet" "";
       BoolVarP quietServerCreation "quiet" "q" false]
  | StatusServerCmd => server_login
  | UpServerCmd => server_login ++ [StringVar dockerSubnet "docker-subnet" ""] ++ server_image
  | DownServerCmd => server_login ++ [BoolVarP forceServerTeardown "force" "f" false]
  | UpgradeServerCmd => server_login ++ server_image
  | NewClientCmd =>
      [BoolVarP joinRequestClientCreation "join-request" "j" false;
       BoolVarP quietClientCreation "quiet" "q" false; BoolVarP waitClientCreation "wait" "w" false]
  | JoinCmd => [BoolVar JoinPostponed "postponed" false]
  | PublishServiceCmd => StringVarP local "local" "l" "" :: address
  | UnpublishServiceCmd | ListParamsServiceCmd => address
  | NewParamsServiceCmd | RemoveParamsServiceCmd => address ++ [StringVar paramValue "param-value" ""]
  | _ => []
  end.
Lemma flag_table_ok c : flags_of (declared Version) c = flag_table c.
Proof. destruct c; vm_compute; reflexivity. Qed.

(** Every command but the root hangs under exactly one other, and can be reached. *)
Definition all_children (d : Declared) : list Command := flat_map (children d) all_commands.
Lemma command_tree : Permutation (rootCmd :: all_children (declared Version)) all_commands.
Proof.
  apply NoDup_Permutation.
  - apply (bool_decide_eq_true_1 _). vm_compute. reflexivity.
  - apply (bool_decide_eq_true_1 _). vm_compute. reflexivity.
  - intros c. split; intros _; [apply all_commands_all|]. apply (bool_decide_eq_true_1 _). destruct c; vm_compute; reflexivity.
Qed.
Lemma child_under d c c' : c ∈ children d c' → under d rootCmd c' → under d rootCmd c.
Proof. intros Hc Hu. by eapply under_child. Qed.
Lemma all_reachable c : under (declared Version) rootCmd c.
Proof.
  assert (∀ c c', bool_decide (c ∈ children (declared Version) c') = true → under (declared Version) rootCmd c' →
    under (declared Version) rootCmd c) as Hstep.
  { intros c1 c2 H%bool_decide_eq_true_1. by apply child_under. }
  pose proof (under_refl (declared Version) rootCmd) as H0.
  assert (under (declared Version) rootCmd GatewayCmd) by (by apply (Hstep _ rootCmd)).
  assert (under (declared Version) rootCmd ServerCmd) by (by apply (Hstep _ rootCmd)).
  assert (under (declared Version) rootCmd ClientCmd) by (by apply (Hstep _ rootCmd)).
  assert (under (declared Version) rootCmd ServiceCmd) by (by apply (Hstep _ rootCmd)).
  assert (under (declared Version) rootCmd ServerLabelCmd) by (by apply (Hstep _ ServerCmd)).
  assert (under (declared Version) rootCmd ParamsServiceCmd) by (by apply (Hstep _ ServiceCmd)).
  destruct c; first [done|by apply (Hstep _ rootCmd)|by apply (Hstep _ GatewayCmd)
    |by apply (Hstep _ ServerCmd)|by apply (Hstep _ ClientCmd)|by apply (Hstep _ ServiceCmd)
    |by apply (Hstep _ ServerLabelCmd)|by apply (Hstep _ ParamsServiceCmd)].
Qed.
End properties.

(** ** A small [cobra] *)

(** Words that name commands, then words and [--flag], [--flag=value]. *)
Fixpoint descend (d : Declared) (c : Command) (argv : list string) : Command * list string :=
  match argv with
  | [] => (c, [])
  | a :: rest =>
      match List.find (λ c', bool_decide (Name c' = a)) (children d c) with
      | Some c' => descend d c' rest
      | None => (c, argv)
      end
  end.
Definition read_value (kind : Value) (text : option string) : option Value :=
  match kind, text with
  | Bool _, None => Some (Bool true)
  | Text _, Some s => Some (Text s)
  | _, _ => None
  end.
Definition read_flag (fs : list Flag) (a : string) : option (string * Value) :=
  let '(name, text) :=
    match cut_first "=" a with Some (n, v) => (n, Some v) | None => (a, None) end in
  f ← List.find (λ f, bool_decide (flag_name f = name)) fs;
  v ← read_value (flag_default f) text;
  Some (flag_name f, v).
Fixpoint read_words (fs : list Flag) (words : list string) : option (gmap string Value * list string) :=
  match words with
  | [] => Some (∅, [])
  | a :: rest =>
      '(given, args) ← read_words fs rest;
      match strip_prefix "--" a with
      | Some name => '(n, v) ← read_flag fs name; Some (<[n := v]> given, args)
      | None => Some (given, a :: args)
      end
  end.
Definition stored_in (fs : list Flag) (given : string → option Value) (g : Globals) : Globals := λ v,
  match List.find (λ f, bool_decide (flag_variable f = Some v)) fs with
  | Some f => default (g v) (given (flag_name f))
  | None => g v
  end.
Definition small_parse (d : Declared) (argv : list string) : Parsed :=
  let '(c, words) := descend d rootCmd argv in
  match read_words (flags_of d c) words with
  | Some (given, args) =>
      if Runnable c && accepts (Args (declaration c)) args
      then Runs c (λ n, given !! n) args (stored_in (flags_of d c) (λ n, given !! n) (globals d))
      else Fails "" (Errorf "wrong arguments")
  | None => Fails "" (Errorf "unknown flag")
  end.
#[export] Instance small_cobra : Cobra := {|
  declare_flag f g := λ v, if decide (flag_variable f = Some v) then flag_default f else g v;
  parse := small_parse;
|}.

Lemma descend_under d c argv : under d c (descend d c argv).1.
Proof.
  assert (∀ c1 c2 c3, under d c2 c3 → c2 ∈ children d c1 → under d c1 c3) as Hdown.
  { intros c1 c2 c3 Hu. revert c1. induction Hu as [c2|c2 c3 c4 Hu IH Hc]; intros c1 H1.
    - eapply under_child; [apply under_refl|done].
    - eapply under_child; [by apply IH|done]. }
  revert c. induction argv as [|a argv IH]; intros c; cbn; [apply under_refl|].
  destruct (List.find _ _) as [c'|] eqn:E; [|apply under_refl].
  apply List.find_some in E as [Hc' _]. eapply Hdown; [apply IH|by apply list_elem_of_In].
Qed.
Definition given_ok (fs : list Flag) (given : gmap string Value) : Prop :=
  ∀ name x, given !! name = Some x →
    ∃ f, f ∈ fs ∧ flag_name f = name ∧ same_kind x (flag_default f) = true.
Lemma read_flag_ok fs a n v :
  read_flag fs a = Some (n, v) → ∃ f, f ∈ fs ∧ flag_name f = n ∧ same_kind v (flag_default f) = true.
Proof.
  unfold read_flag. set (p := match cut_first _ _ with Some _ => _ | None => _ end). destruct p as [name text].
  destruct (List.find _ fs) as [f|] eqn:E; [|done]. apply List.find_some in E as [Hf _].
  cbn. destruct (read_value (flag_default f) text) as [v'|] eqn:Ev; [|done]. cbn. intros [= <- <-].
  exists f. split; [by apply list_elem_of_In|]. split; [done|].
  unfold read_value in Ev. by destruct (flag_default f), text; simplify_eq.
Qed.
Lemma read_words_ok fs words given args : read_words fs words = Some (given, args) → given_ok fs given.
Proof.
  revert given args. induction words as [|a words IH]; cbn [read_words]; intros given args;
    [intros E; simplify_eq; intros n x Hn; by rewrite lookup_empty in Hn|].
  destruct (read_words fs words) as [[given' args']|]; cbn [mbind option_bind]; [|done].
  specialize (IH given' args' eq_refl). destruct (strip_prefix "--" a) as [name|]; [|by intros E; simplify_eq].
  destruct (read_flag fs name) as [[n v]|] eqn:E; cbn; [|done]. intros E'; simplify_eq; intros m x Hm.
  destruct (decide (m = n)) as [->|Hne].
  - rewrite lookup_insert_eq in Hm. injection Hm as <-. by apply read_flag_ok in E.
  - rewrite lookup_insert_ne in Hm by done. by apply IH.
Qed.
Lemma find_flag fs f v :
  NoDup (omap flag_variable fs) → f ∈ fs → flag_variable f = Some v →
  List.find (λ f, bool_decide (flag_variable f = Some v)) fs = Some f.
Proof.
  induction fs as [|x fs IH]; cbn; intros Hnd Hf Hv; [by apply elem_of_nil in Hf|].
  apply elem_of_cons in Hf as [<- |Hf].
  - by rewrite bool_decide_eq_true_2.
  - case_bool_decide as Hx; [|apply IH; [destruct (flag_variable x); [by apply NoDup_cons in Hnd as [_ Hnd]|done]|done..]].
    rewrite Hx in Hnd. apply NoDup_cons in Hnd as [Hno _]. destruct Hno. apply list_elem_of_omap. by exists f.
Qed.
Lemma well_variables d c : well_declared d = true → NoDup (omap flag_variable (flags_of d c)).
Proof.
  unfold well_declared. rewrite forallb_forall. intros Hw.
  specialize (Hw c (proj1 (list_elem_of_In _ _) (all_commands_all c))).
  unfold flags_apart in Hw. rewrite !andb_true_iff in Hw. destruct Hw as [[_ Hw] _].
  by apply bool_decide_eq_true_1 in Hw.
Qed.
#[export] Instance small_cobra_laws : CobraLaws (H := small_cobra).
Proof.
  split; [intros f v g Hv; cbn; by rewrite decide_True|intros f v g Hv; cbn; by rewrite decide_False|].
  intros d argv c given args g Hw. cbn. unfold small_parse.
  pose proof (descend_under d rootCmd argv) as Hu. destruct (descend d rootCmd argv) as [c' words]. cbn in Hu.
  destruct (read_words (flags_of d c') words) as [[m args']|] eqn:E; [|done].
  destruct (Runnable c' && accepts (Args (declaration c')) args') eqn:Hr; [|done]. intros [= -> <- -> <-].
  apply andb_true_iff in Hr as [Hr Ha]. split; [done|]. split; [done|]. split; [done|].
  split; [by eapply read_words_ok|]. unfold stored_in. split.
  - intros f v Hf Hv. by rewrite (find_flag _ f v (well_variables d c Hw) Hf Hv).
  - intros v Hno. destruct (List.find _ _) as [f|] eqn:Ef; [|done].
    apply List.find_some in Ef as [Hf Hv]. apply bool_decide_eq_true_1 in Hv.
    destruct (Hno f); [by apply list_elem_of_In|done].
Qed.
