(* ===== verification/Remote.v ===== *)
(** * Commands over the wire

    A client's command, sent through the HTTP API to the gateway, does there what the same
    command run on the gateway itself does, and prints what that prints.  The two ends are
    [ApiCommands.v] and [Routes.v]; here they are put together. *)
From S2P Require Import Prelude GoStrings GoNet Mtls NodeTypes Gorm.
From S2P Require Import NodesRepo PublicServices NodeConfigs JoinStore NetworkApps.
From S2P Require Import NodesDemo Aes GoFormat JoinClient CommandTypes World.
From S2P Require Import LocalService LocalNodes ApiCommands Commands Routes WorldNetwork.

(** The wire: a POST to [base] reaches the gateway with the sender's certificate name; a
    handler that panics closes the connection. *)
Definition wire (base cn : string) (answer : Request → Out Reply) : Transport := λ _ url body,
  match strip_prefix base url with
  | None => NoResponse "no such host"
  | Some path =>
      match answer (MkRequest (Some [cn]) "POST" "application/json" path body) with
      | Ret (ErrorReply code text) => HttpResponse code (bytes_of (text +:+ newline))
      | Ret (JsonReply code reply) => HttpResponse code reply
      | _ => NoResponse "EOF"
      end
  end.

Definition base_of (n : Node) : string :=
  "https://" +:+ node_GatewayPublicIP n +:+ ":" +:+ Itoa (node_GatewayPublicPort n).

(** What a client prints of a response. *)
Definition told `{GN : Gorm string Node} `{GS : Gorm ServiceKey PublicService}
    `{GR : Gorm string JoinRequest} `{GT : Gorm string JoinToken} (dto : ExecResponseDTO) (w : World)
    : World :=
  with_text (w_out w +:+ Stdout dto +:+ newline)
    (if bool_decide (Stderr dto = "") then w_err w else w_err w +:+ Stderr dto +:+ newline) w.

Section wire.
  Context {GN : Gorm string Node} {GS : Gorm ServiceKey PublicService}
    {GR : Gorm string JoinRequest} {GT : Gorm string JoinToken} {R : Raymond} {X : X509}
    {JQ : Json JoinRequest} {AJ : ApiJson} {AD : ApiDecode} {JP : Json JoinResponseDTO}.
  (** the gateway's surroundings *)
  Context (paths : ConfigPaths) (sh : nat → string → option string) (http : Transport).
  Context (env : CommandEnv) (meanwhile : nat → World → World).

(** ** The two ends *)

Lemma finish_told dto w : finish (inr (Some dto)) w = (Ret tt, told dto w).
Proof.
  unfold finish, told. destruct (bool_decide_reflect (Stderr dto = "")) as [->|Hne].
  - by destruct w.
  - assert ((0 <? String.length (Stderr dto))%nat = true) as -> by by destruct (Stderr dto).
    by destruct w.
Qed.

Lemma asks_remotely before roles ask after w n dto :
  GetCurrentNode (w_nodes w) = Ret n → node_Role n ∈ roles →
  Forall (λ g, node_Role n ∉ Roles g) before →
  ask (MkAPI (node_GatewayPublicIP n) (node_GatewayPublicPort n) (node_ClientCertBundle n)) = Ret dto →
  executeCommand (before ++ MkRoleGroup roles (remotely ask) :: after) w = (Ret tt, told dto w).
Proof.
  intros Hn Hr Hb Hask. rewrite (executeCommand_known _ _ (Some n) Hn).
  rewrite bool_decide_eq_true_2.
  2: { apply list_elem_of_In, in_flat_map. exists (MkRoleGroup roles (remotely ask)).
       rewrite <- !list_elem_of_In. set_solver. }
  rewrite run_group_first by done. cbn [Handler]. unfold remotely, api_of. cbn [fmap option_fmap option_map].
  unfold mbind at 1, M_bind at 1, attempt. unfold mbind at 1, M_bind at 1, lift. rewrite Hask.
  apply finish_told.
Qed.

Lemma request_answered {Req Resp} `{Json Req} `{Json Resp} n cn answer endpoint (request : Req)
    (response : Resp) cb tls body reply :
  node_ClientCertBundle n = Some cb → GetClientTLSConfig cb = Ret tls →
  json_Marshal request = Ret body →
  answer (MkRequest (Some [cn]) "POST" "application/json" endpoint body) = Ret (JsonReply 200 (reply ++ [10])) →
  json_Unmarshal (reply ++ [10]) = Ret response →
  makeSecureRequestWithResponse (wire (base_of n) cn answer)
    (MkAPI (node_GatewayPublicIP n) (node_GatewayPublicPort n) (node_ClientCertBundle n)) endpoint request
  = Ret response.
Proof.
  intros Hcb Htls Hbody Hans Hresp. unfold makeSecureRequestWithResponse. rewrite Hbody, Hcb.
  cbn [api_ClientCertBundle api_Host api_Port explain mbind Out_bind]. rewrite Htls. cbn [explain mbind Out_bind].
  unfold wire, base_of. rewrite <- !str_app_assoc, strip_prefix_app, Hans.
  cbn [Z.ltb Z.leb Z.compare Pos.compare Pos.compare_cont orb].
  destruct (bool_decide_reflect (reply ++ [10] = [])) as [E|_]; [by destruct reply|].
  by rewrite Hresp.
Qed.

Lemma handler_answers {T Resp} `{JsonDecode T} `{Json Resp} cn path body dto
    (handler : string → T → M World unit) packer gw gw1 gw2 (response : Resp) reply :
  cn ≠ "" → json_Decode body = Ret dto →
  handler cn dto (with_text "" "" gw) = (Ret tt, gw1) →
  packer cn (w_out gw1) (w_err gw1) (with_text (w_out gw) (w_err gw) gw1) = (Ret response, gw2) →
  json_Marshal response = Ret reply →
  handleRequestWithBody (MkRequest (Some [cn]) "POST" "application/json" path body) handler packer gw
  = (Ret (JsonReply 200 (reply ++ [10])), gw2).
Proof.
  intros Hcn Hd Hh Hp Hm. unfold handleRequestWithBody. cbn [rq_TLS rq_Body].
  assert (validateRequest (MkRequest (Some [cn]) "POST" "application/json" path body) cn = None) as ->.
  { unfold validateRequest. cbn [isNone rq_TLS rq_Method rq_ContentType].
    by rewrite !bool_decide_eq_true_2, bool_decide_eq_false_2 by done. }
  erewrite M_bind_Ret by (unfold checked, attempt, lift; by rewrite Hd). cbn beta iota.
  erewrite M_bind_Ret.
  2: { unfold buffered, mbind, M_bind, get, put, attempt. rewrite Hh. reflexivity. }
  cbn beta iota. erewrite M_bind_Ret by (unfold attempt; by rewrite Hp). cbn beta iota.
  by erewrite M_bind_Ret by (unfold checked, attempt, lift; by rewrite Hm).
Qed.

(** ** One command *)

(** The command as the gateway runs it: with its own surroundings, and for the sender. *)
Definition as_seen (cn : string) (c : Invocation) : Invocation :=
  match c with
  | ServerNew _ force quiet subnet => ServerNew env force quiet subnet
  | ServerList _ => ServerList (Some cn)
  | ClientNew _ _ jr quiet wait => ClientNew meanwhile env jr quiet wait
  | ClientList _ => ClientList (Some cn)
  | ServicePublish _ lp lh lport pp ph pport => ServicePublish (Some cn) lp lh lport pp ph pport
  | c => c
  end.

(** Who may send it: clients; a server only its own removal. *)
Definition sends (n : Node) (cn : string) (c : Invocation) : Prop :=
  match c with
  | ServerRemove id => node_Role n = NodeRoleServer ∧ id = cn
  | _ => node_Role n = NodeRoleClient
  end.

Definition endpoint (c : Invocation) : string :=
  match c with
  | ServerNew _ _ _ _ => "/commands/server/new"
  | ServerRemove _ => "/commands/server/remove"
  | ServerList _ => "/commands/server/list"
  | NodeLabelAdd _ _ => "/commands/node/label/add"
  | NodeLabelRemove _ _ => "/commands/node/label/remove"
  | ClientNew _ _ _ _ _ => "/commands/client/new"
  | ClientList _ => "/commands/client/list"
  | ServicePublish _ _ _ _ _ _ _ => "/commands/service/publish"
  | ServiceUnpublish _ _ _ => "/commands/service/unpublish"
  | ServiceList => "/commands/service/list"
  | ServiceParamNew _ _ _ _ _ => "/commands/service/params/new"
  | ServiceParamRemove _ _ _ _ _ => "/commands/service/params/remove"
  | ServiceParamList _ _ _ => "/commands/service/params/list"
  end.

(** A value that gets through: from the sender's JSON to the receiver's value. *)
Definition reads {T} `{Json T} `{JsonDecode T} (request : T) (body : list Z) : Prop :=
  json_Marshal request = Ret body ∧ json_Decode body = Ret request.
Definition returns {T} `{Json T} (response : T) (reply : list Z) : Prop :=
  json_Marshal response = Ret reply ∧ json_Unmarshal (reply ++ [10]) = Ret response.

(** [body] is the command's request, and it gets through. *)
Definition asks (c : Invocation) (body : list Z) : Prop :=
  match c with
  | ServerNew _ force quiet subnet => reads (MkServerNewRequest force quiet subnet) body
  | ServerRemove id => reads (MkServerRemoveRequest id) body
  | ServerList _ => reads MkServerListRequest body
  | NodeLabelAdd ip label => reads (MkNodeLabelAddRequest ip label) body
  | NodeLabelRemove ip label => reads (MkNodeLabelRemoveRequest ip label) body
  | ClientNew _ _ jr quiet wait => reads (MkClientNewRequest jr quiet wait) body
  | ClientList _ => reads MkClientListRequest body
  | ServicePublish _ lp lh lport pp ph pport =>
      reads (MkServicePublishRequest lp lh lport pp ph pport) body
  | ServiceUnpublish pp ph pport => reads (MkServiceUnpublishRequest pp ph pport) body
  | ServiceList => reads (MkServiceListRequest (MkExecResponse "" "") []) body
  | ServiceParamNew pp ph pport ty v => reads (MkServiceParamNewRequest pp ph pport ty v) body
  | ServiceParamRemove pp ph pport ty v => reads (MkServiceParamRemoveRequest pp ph pport ty v) body
  | ServiceParamList pp ph pport => reads (MkServiceParamListRequest pp ph pport) body
  end.

(** [reply] is the response the gateway packs when the command left it as [gw]; the two
    lists come with a reading of a table. *)
Definition answers (c : Invocation) (gw : World) (reply : list Z) : Prop :=
  let said := exec_response (w_out gw) (w_err gw) in
  match c with
  | ServerList _ => ∃ k, CountNodesByRole NodeRoleServer (w_nodes gw) = Ret k ∧
                         returns (MkServerListResponse said k) reply
  | ServiceList => ∃ l, GetAllServices (w_services gw) = Ret l ∧
                        returns (MkServiceListRequest said l) reply
  | _ => returns said reply
  end.

Lemma with_services_same (w : World) : with_services (w_services w) w = w.
Proof. by destruct w. Qed.

(** The handler of a path, found among the routes. *)
Ltac find_route :=
  unfold serve; cbn [rq_Path]; cbn zeta;
  repeat (rewrite bool_decide_eq_false_2 by done); rewrite bool_decide_eq_true_2 by done.

(** The gateway's side: what a command's request does is what the command does. *)
Lemma served c cn body reply gw gw1 :
  cn ≠ "" → (∀ id, c = ServerRemove id → id = cn) →
  run_command paths sh http (as_seen cn c) (with_text "" "" gw) = (Ret tt, gw1) →
  asks c body → answers c gw1 reply →
  serve paths sh http env meanwhile
    (MkRequest (Some [cn]) "POST" "application/json" (endpoint c) body) gw
  = (Ret (JsonReply 200 (reply ++ [10])), with_text (w_out gw) (w_err gw) gw1).
Proof.
  intros Hcn Hown Hrun Hasks Hans.
  destruct c; cbn [as_seen asks answers endpoint run_command] in *; cbn zeta in Hans.
  all: try destruct Hans as (k & Hk & Hans); destruct Hasks as [_ Hd], Hans as [Hm _]; find_route.
  all: first
    [ (eapply handler_answers; [exact Hcn|exact Hd|exact Hrun|reflexivity|exact Hm])
    | (eapply handler_answers; [exact Hcn|exact Hd| |reflexivity|exact Hm])
    | (eapply handler_answers; [exact Hcn|exact Hd|exact Hrun| |exact Hm]) ].
  - unfold server_remove_handler. cbn [srr_NodeID]. rewrite bool_decide_eq_true_2 by by apply Hown.
    exact Hrun.
  - unfold server_list_packer. erewrite M_bind_Ret by (apply on_part_Ret, query_Ret; exact Hk).
    cbn beta. by rewrite with_nodes_same.
  - unfold service_list_packer. erewrite M_bind_Ret by (apply on_part_Ret, query_Ret; exact Hk).
    cbn beta. by rewrite with_services_same.
Qed.
(** The client's side: a command of a client, or a server's own removal, is its request. *)
Lemma asked http' n cn c body reply answer gw1 w paths' sh' :
  GetCurrentNode (w_nodes w) = Ret n → sends n cn c →
  (∃ cb tls, node_ClientCertBundle n = Some cb ∧ GetClientTLSConfig cb = Ret tls) →
  http' = wire (base_of n) cn answer →
  answer (MkRequest (Some [cn]) "POST" "application/json" (endpoint c) body)
    = Ret (JsonReply 200 (reply ++ [10])) →
  asks c body → answers c gw1 reply →
  run_command paths' sh' http' c w = (Ret tt, told (exec_response (w_out gw1) (w_err gw1)) w).
Proof.
  intros Hn Hsend (cb & tls & Hcb & Htls) -> Hans Hasks Hback.
  destruct c; cbn [asks answers endpoint run_command sends] in *; cbn zeta in Hback;
    try destruct Hback as (k & Hk & Hback); destruct Hasks as [Hm _], Hback as [_ Hu].
  all: first
    [ eapply (asks_remotely [_] [NodeRoleClient] _ [] w n)
    | eapply (asks_remotely [] [NodeRoleServer] _ [_] w n) ];
    [exact Hn
    |rewrite ?(proj1 Hsend), ?Hsend; by apply list_elem_of_singleton
    |repeat constructor; cbn; rewrite ?(proj1 Hsend), ?Hsend, ?elem_of_cons, elem_of_nil; intuition discriminate
    |].
  all: cbn beta; unfold Api.ServerNew, Api.ServerRemove, Api.ServerList, Api.NodeLabelAdd,
    Api.NodeLabelRemove, Api.ClientNew, Api.ClientList, Api.ServicePublish, Api.ServiceUnpublish,
    Api.ServiceList, Api.ServiceParamNew, Api.ServiceParamRemove, Api.ServiceParamList.
  all: by rewrite (request_answered n cn answer _ _ _ cb tls body reply Hcb Htls Hm Hans Hu).
Qed.

(** C6: a command sent to the gateway does what it does there: if the gateway itself, asked
    on the sender's behalf, runs it to the end, then the client that has a certificate and
    whose request and response survive JSON finds the gateway in exactly the state that run
    leaves, with the gateway's own streams untouched, and prints exactly what that run
    printed, trimmed; its own database, disk and shell stay as they are. *)
Theorem remote_as_local n cn c body reply gw gw1 w paths' sh' :
  GetCurrentNode (w_nodes w) = Ret n → sends n cn c → cn ≠ "" →
  (∃ cb tls, node_ClientCertBundle n = Some cb ∧ GetClientTLSConfig cb = Ret tls) →
  run_command paths sh http (as_seen cn c) (with_text "" "" gw) = (Ret tt, gw1) →
  asks c body → answers c gw1 reply →
  let request := MkRequest (Some [cn]) "POST" "application/json" (endpoint c) body in
  let net := wire (base_of n) cn (λ r, (serve paths sh http env meanwhile r gw).1) in
  serve paths sh http env meanwhile request gw
    = (Ret (JsonReply 200 (reply ++ [10])), with_text (w_out gw) (w_err gw) gw1) ∧
  run_command paths' sh' net c w = (Ret tt, told (exec_response (w_out gw1) (w_err gw1)) w).
Proof.
  intros Hn Hsend Hcn Htls Hrun Hasks Hback request net.
  assert (serve paths sh http env meanwhile request gw
    = (Ret (JsonReply 200 (reply ++ [10])), with_text (w_out gw) (w_err gw) gw1)) as Hserve.
  { eapply served; [exact Hcn| |exact Hrun|exact Hasks|exact Hback].
    intros id ->. exact (proj2 Hsend). }
  split; [exact Hserve|]. eapply asked; try done. cbn beta. fold request. by rewrite Hserve.
Qed.
End wire.

(** ** At work *)

(** A coder that knows one value, written as the byte [42] and a line break or not. *)
Definition line_json {A} `{EqDecision A} (x : A) : Json A := {|
  json_Marshal y :=
    if bool_decide (y = x) then Ret [42] else Throw (Errorf "json: unsupported value");
  json_Unmarshal b := if bool_decide (b = [42; 10]) then Ret x else Throw (Errorf "invalid character");
|}.

Definition label_request : NodeLabelAddRequestDTO := MkNodeLabelAddRequest "10.0.0.2" "web".
#[export] Instance NodeLabelAddRequestDTO_eq_dec : EqDecision NodeLabelAddRequestDTO.
Proof. solve_decision. Defined.
Definition label_said : string :=
  "Added label " +:+ Quote "web" +:+ " to server node " +:+ Quote "10.0.0.2".

(** Coders for that request and its response. *)
Definition label_json : ApiJson :=
  Build_ApiJson (line_json (MkExecResponse label_said "")) no_json no_json no_json no_json no_json
    no_json (line_json label_request) no_json no_json no_json no_json no_json no_json no_json
    no_json no_json.
Definition label_decode : ApiDecode :=
  Build_ApiDecode no_decode no_decode no_decode
    (λ b, if bool_decide (b = [42]) then Ret label_request else Throw (Errorf "invalid character"))
    no_decode no_decode no_decode no_decode no_decode no_decode no_decode no_decode no_decode
    no_decode no_decode.

(** The demo network's gateway, and its client with its own database. *)
Definition label_gateway : World := with_nodes demo_client demo_world.
Definition label_sender : Node :=
  MkNode "c1" NodeRoleClient true "k" "p" sample_config None None None "203.0.113.7" 4060
    None (Some (MkClientBundle (MkPEMBundle "ca" "") (MkPEMBundle "c" "k") 0)) None [].
Lemma label_sender_keyed : keyedb ({[ "c1" := label_sender ]} : gmap string Node) = true.
Proof. vm_compute. reflexivity. Qed.
Definition label_client : World :=
  with_nodes (exist _ ({[ "c1" := label_sender ]} : gmap string Node) label_sender_keyed : demo_table)
    client_world.
Definition label_env : CommandEnv := MkCommandEnv (demo_env "n1" 30) (λ _, Ret []) 0.

(** The client labels the server: it says so, as the gateway would have. *)
Lemma remote_as_local_witness :
  w_out (run_command (R := toy_raymond) (JQ := no_json) (AJ := label_json) sample_paths (λ _ _, None)
    (wire "https://203.0.113.7:4060" "c1" (λ r, (serve (R := toy_raymond) (JQ := no_json)
       (AJ := label_json) (AD := label_decode) (JP := no_json) sample_paths (λ _ _, None) no_network
       label_env (λ _ w, w) r label_gateway).1))
    (NodeLabelAdd "10.0.0.2" "web") label_client).2
  = label_said +:+ newline.
Proof.
  destruct (@remote_as_local _ _ _ _ toy_raymond _ no_json label_json label_decode no_json
    sample_paths (λ _ _, None) no_network label_env (λ _ w, w) label_sender "c1"
    (NodeLabelAdd "10.0.0.2" "web") [42] [42] label_gateway
    (run_command (R := toy_raymond) (JQ := no_json) (AJ := label_json) sample_paths (λ _ _, None)
       no_network (NodeLabelAdd "10.0.0.2" "web") (with_text "" "" label_gateway)).2
    label_client sample_paths (λ _ _, None)) as [_ E].
  - reflexivity.
  - reflexivity.
  - discriminate.
  - do 2 eexists. split; reflexivity.
  - apply run_outcome. vm_compute. reflexivity.
  - split; reflexivity.
  - split; vm_compute; reflexivity.
  - change (base_of label_sender) with "https://203.0.113.7:4060" in E. rewrite E. vm_compute.
    reflexivity.
Defined.
