(* ===== verification/Handshake.v ===== *)
(** * A node joins: both ends of the handshake

    The join route of [Routes.v] answers the request that [LocalJoin.v] makes of a token:
    afterwards the two databases hold the same node. *)
From S2P Require Import Prelude GoStrings GoNet Mtls NodeTypes Gorm.
From S2P Require Import NodesRepo PublicServices NodeConfigs JoinStore NetworkApps.
From S2P Require Import NodesNetwork NodesRefresh NodesCreate NodesDemo Aes CommandTypes.
From S2P Require Import JoinClient Docker World LocalJoin LocalService LocalNodes.
From S2P Require Import ApiCommands Commands Routes WorldNetwork Remote.

(** What a post gets of a reply; a handler that panics closes the connection. *)
Definition posted (o : Out Reply) : PostResult :=
  match o with
  | Ret (JsonReply code body) => Response code body
  | Ret (ErrorReply code text) => Response code (bytes_of (text +:+ newline))
  | _ => SendError (net_error "EOF")
  end.

Section handshake.
  Context {GN : Gorm string Node} {LN : GormLaws string Node}
    {GS : Gorm ServiceKey PublicService} {LS : GormLaws ServiceKey PublicService}
    {GR : Gorm string JoinRequest} {LR : GormLaws string JoinRequest} {GT : Gorm string JoinToken}
    {R : Raymond} {X : X509} {JQ : Json JoinRequest}
    {AJ : ApiJson} {AD : ApiDecode} {JD : Json JoinRequestDTO} {JP : Json JoinResponseDTO}.
  (** the gateway's surroundings, and the client's *)
  Context (paths : ConfigPaths) (sh : nat → string → option string) (http : Transport).
  Context (cenv : CommandEnv) (meanwhile : nat → World → World).
  Context (paths' : ConfigPaths) (sh' : nat → string → option string).

(** The request of a token. *)
Definition join_request (cn : string) (payload : list Z) : Request :=
  MkRequest (Some [cn]) "POST" "application/json" "/commands/join" payload.

(** The gateway after the same request has been sent to it [n] times. *)
Fixpoint asked_before (r : Request) (n : nat) (gw : World) : World :=
  match n with
  | O => gw
  | S n' => asked_before r n' (serve paths sh http cenv meanwhile r gw).2
  end.

(** A machine's surroundings when the gateway in the state [gw] listens at [base]: a post
    reaches it if it goes there under the TLS configuration of the certificate of [cn],
    and brings the path, the content type and the body that are posted. *)
Definition facing (daemon : Daemon) (base : string) (tls : TLSConfig) (cn : string) (gw : World)
    (t0 t1 doc : string) : JoinEnv :=
  MkJoinEnv daemon (λ config url contentType body n,
    if bool_decide (config = tls) then
      match strip_prefix base url with
      | None => SendError (net_error "no such host")
      | Some path =>
          let r := MkRequest (Some [cn]) "POST" contentType path body in
          posted (serve paths sh http cenv meanwhile r (asked_before r n gw)).1
      end
    else SendError (net_error "remote error: tls: bad certificate")) t0 t1 doc.

Lemma serve_join cn payload gw :
  serve paths sh http cenv meanwhile (join_request cn payload) gw
  = join_handler paths sh (ce_create cenv) (join_request cn payload) gw.
Proof. reflexivity. Qed.

(** The node that is made is found where it was put. *)
Lemma create_invited_stored env jr db n t :
  create_invited env jr db = (Ret n, t) → rows t !! node_ID n = Some n.
Proof.
  unfold create_invited, CreateServer, CreateClient. intros Hrun.
  assert (∃ id (db' : Table), (query (GetByID id) : M Table Node) db' = (Ret n, t)) as (id & db' & Hq).
  { revert Hrun. destruct (jr_Role jr);
      intros ([] & ? & _ & (? & ? & _ & (? & ? & _ & Hq)%M_bind_Ret_inv)%M_bind_Ret_inv)%M_bind_Ret_inv;
      eauto. }
  unfold query in Hq. injection Hq as Hq <-. by apply first_row in Hq as [Hq _].
Qed.

(** C5: the two ends of the handshake agree: the machine posts the token, under the
    certificate of its invitation, to the address the invitation names, and at the gateway
    that listens there (and only there, and takes nobody else's certificate) that is the
    request of an invited node: the gateway answers and stores the node, the token is used
    up, and the machine stores the same node as its own before it sets itself up; a client
    then prints its WireGuard configuration, and a server whose docker network can be had
    and whose files can be written is done.  The restart on the gateway works if the node
    is a client; of the JSON forms it is assumed that the answer comes back. *)
Theorem join_handshake cn token payload body jr n t gn b resolv coredns daemon t0 t1 doc
    (gw w : World) tls :
  let r := join_request cn payload in
  let here := set_IsCurrentNode true n in
  json_Marshal (MkJoinRequestDTO token) = Ret payload → FromBase64 token = Ret jr →
  GetClientTLSConfig (jr_ClientCertBundle jr) = Ret tls →
  invited gw (ce_create cenv) r jr n t → can_settle (with_nodes t gw) gn b resolv coredns →
  jr_GatewayHost jr = node_GatewayPublicIP gn → jr_GatewayPort jr = node_GatewayPublicPort gn →
  node_Role n = jr_Role jr →
  (jr_Role jr = NodeRoleServer ∨ sh (length (host_ran (w_host gw))) WireguardRestartCommand = None) →
  json_Marshal (MkJoinResponseDTO (Some n)) = Ret body →
  json_Unmarshal (body ++ [10]) = Ret (MkJoinResponseDTO (Some n)) →
  healthy (w_nodes w) → rows (w_nodes w) = ∅ →
  ∃ gw' o w',
    serve paths sh http cenv meanwhile r gw = (Ret (JsonReply 200 (body ++ [10])), gw') ∧
    Join paths' sh' (facing daemon (base_of gn) tls cn gw t0 t1 doc) token w = (o, w') ∧
    rows (w_nodes gw') !! node_ID n = Some n ∧ rows (w_nodes w') = {[ node_ID n := here ]} ∧
    rows (w_requests gw') !! jr_ID jr = None ∧
    w_scheduled gw' = w_scheduled gw ++ scheduled_for (jr_Role jr) ∧
    (jr_Role jr = NodeRoleClient → o = Ret true ∧
       w_out w' = w_out w +:+ newline +:+ ToINI (node_WGConfig n) +:+ newline) ∧
    (∀ d calls disk, jr_Role jr = NodeRoleServer → node_DockerSubnet n = Some d → v4_net d →
       EnsureDockerNetworkExistsAndAttached daemon d (w_docker w) = (Ret tt, calls) →
       SaveConfigs paths' here [] true (host_disk (w_host w)) = (Ret tt, disk) →
       o = Ret true ∧ host_disk (w_host w') = disk ∧ w_docker w' = calls).
Proof.
  intros r here Hpay Htok Htls Hinv Hset Hhost Hport Hrole Hsh Hbody Hback Hw Hempty.
  pose proof (create_invited_stored _ _ _ _ _ (inv_created _ _ _ _ _ _ Hinv)) as Hstored.
  assert (node_ID n ≠ node_ID gn) as Hne.
  { intros E. destruct (cs_gateway _ _ _ _ _ Hset) as [Hg Hgr]. cbn in Hg.
    destruct (inv_role _ _ _ _ _ _ Hinv); congruence. }
  assert (node_ID n ≠ "") as Hid.
  { intros E. pose proof (net_named _ (cs_network _ _ _ _ _ Hset)) as Hnone.
    apply cores_lookup in Hstored. cbn in Hnone. by rewrite E, Hnone in Hstored. }
  destruct (join_settles paths sh _ _ _ _ _ _ _ _ _ _ Hinv Hset) as (t' & caddy & Hrows & Hrun & _).
  cbn zeta in Hrun. specialize (Hrun ltac:(naive_solver)).
  edestruct (answer_join_runs (jr_ID jr) n body) as (tr & Hans & Hr); [|exact Hbody|].
  2: { rewrite Hans in Hrun. assert (serve paths sh http cenv meanwhile r gw = _) as Hserve by exact Hrun.
    assert (given (facing daemon (base_of gn) tls cn gw t0 t1 doc) token jr n) as Hgiven.
    { split; [done|]. eapply ask_gateway_first; [done..| |exact Hback].
      cbn [facing je_posts]. rewrite bool_decide_eq_true_2 by done.
      rewrite Hhost, Hport, <- (str_app_assoc "https://" _ "/commands/join").
      rewrite (strip_prefix_app (base_of gn)). change (MkRequest _ _ _ _ _) with r.
      cbn [asked_before]. by rewrite Hserve. }
    destruct (Join_fresh paths' sh' _ token jr n w Hgiven Hw Hempty Hid)
      as (o & w' & Hjoin & Hrow & Hdone). rewrite <- Hrole.
    eexists _, o, w'. split; [exact Hserve|]. split; [exact Hjoin|].
    split; [cbn; by rewrite Hrows, lookup_insert_ne|]. split; [exact Hrow|].
    split; [cbn; by rewrite Hr, lookup_delete_eq|]. split; [cbn; by rewrite Hrole|exact Hdone]. }
  exact (inv_requests _ _ _ _ _ _ Hinv).
Qed.
End handshake.

(** ** At work *)

(** The demo gateway's invitation to a server, taken up. *)
Definition hello : Request := join_request "r-1" [42].
Definition join_decode : ApiDecode :=
  Build_ApiDecode no_decode no_decode no_decode no_decode no_decode no_decode no_decode no_decode
    no_decode no_decode no_decode no_decode no_decode no_decode token_decode.
Definition hello_env : CommandEnv := MkCommandEnv (demo_env "n1" 20) (λ _, Ret []) 0.

Lemma hello_invited role :
  role = NodeRoleServer ∨ role = NodeRoleClient →
  invited (JQ := one_value_json (invitation role)) (JD := decode_join (ApiDecode := join_decode))
    (inviting_world role) (ce_create hello_env) hello (invitation role) (joined_node role)
    (joined_table role).
Proof. intros Hrole. destruct (sample_invited role Hrole). by split. Qed.

Lemma join_handshake_witness :
  let n := joined_node NodeRoleServer in
  let jr := invitation NodeRoleServer in
  ∃ w', Join (R := toy_raymond) (JQ := one_value_json jr)
          (JD := one_value_json (MkJoinRequestDTO "Kg==")) (JP := line_json (MkJoinResponseDTO (Some n)))
          sample_paths (λ _ _, None)
          (facing (R := toy_raymond) (JQ := one_value_json jr) (AJ := no_api_json)
             (AD := join_decode) (JP := line_json (MkJoinResponseDTO (Some n)))
             sample_paths wg_fails no_network hello_env (λ _ w, w) demo_daemon
             "https://203.0.113.7:4060" (MkTLSConfig [("c", "k")] [] ["ca"] false) "r-1"
             (inviting_world NodeRoleServer) "t0" "t1" "doc") "Kg==" fresh_world = (Ret true, w') ∧
        rows (w_nodes w') = {[ "n1" := set_IsCurrentNode true n ]}.
Proof.
  intros n jr. assert (NodeRoleServer = NodeRoleServer ∨ NodeRoleServer = NodeRoleClient) as Hrole by auto.
  destruct (@join_handshake _ _ _ _ _ _ _ toy_raymond _ (one_value_json jr) no_api_json join_decode
    (one_value_json (MkJoinRequestDTO "Kg==")) (line_json (MkJoinResponseDTO (Some n)))
    sample_paths wg_fails no_network hello_env (λ _ w, w) sample_paths (λ _ _, None)
    "r-1" "Kg==" [42] [42] jr n (joined_table NodeRoleServer) (joined_gateway NodeRoleServer)
    (joined_bundle NodeRoleServer) "configs/resolv/resolv.hbs gw" "configs/coredns/corefile.hbs gw"
    demo_daemon "t0" "t1" "doc" (inviting_world NodeRoleServer) fresh_world
    (MkTLSConfig [("c", "k")] [] ["ca"] false))
    as (gw' & o & w' & _ & Hjoin & _ & Hrow & _ & _ & _ & Hdone).
  - reflexivity.
  - vm_compute. reflexivity.
  - vm_compute. reflexivity.
  - exact (hello_invited _ Hrole).
  - exact (sample_can_settle _ Hrole).
  - vm_compute. reflexivity.
  - vm_compute. reflexivity.
  - vm_compute. reflexivity.
  - exact (or_introl eq_refl).
  - vm_compute. reflexivity.
  - vm_compute. reflexivity.
  - exact I.
  - vm_compute. reflexivity.
  - destruct (Hdone demo_subnet (EnsureDockerNetworkExistsAndAttached demo_daemon demo_subnet []).2
      (SaveConfigs (R := toy_raymond) sample_paths (set_IsCurrentNode true n) [] true sample_disk).2)
      as [Ho _].
    + reflexivity.
    + vm_compute. reflexivity.
    + exact demo_subnet_v4.
    + apply run_outcome. vm_compute. reflexivity.
    + apply run_outcome. vm_compute. reflexivity.
    + rewrite Ho in Hjoin. exact (ex_intro _ w' (conj Hjoin Hrow)).
Defined.
