(* ===== verification/Concurrent.v ===== *)
(** * Nodes that join at the same time

    [net/http] serves every request in a goroutine of its own.  The join handler of
    [Routes.v] as a thread: each call of a repository is one action, the transactions of
    [CreateServer], [CreateClient] and [updateNodes] included (the database is opened with
    [_txlock=immediate], so that they follow one another), and so is the writing of the
    gateway's files.  What holds however the requests take turns, and what does not. *)
From S2P Require Import Prelude Threads GoStrings GoNet Mtls NodeTypes Gorm Terminal.
From S2P Require Import NodesRepo PublicServices NodeConfigs JoinStore NetworkApps.
From S2P Require Import NodesNetwork NodesRefresh NodesDemo Aes CommandTypes JoinClient.
From S2P Require Import World LocalService LocalNodes ApiCommands Commands Routes.

Section join_thread.
  Context {GN : Gorm string Node} {GS : Gorm ServiceKey PublicService}
    {GR : Gorm string JoinRequest} {GT : Gorm string JoinToken} {R : Raymond} {X : X509}
    {JQ : Json JoinRequest} {JD : JsonDecode JoinRequestDTO} {JP : Json JoinResponseDTO}.
  Context (paths : ConfigPaths) (sh : nat → string → option string).
Notation Thread := (Thread World).

(** [CreateServer] and [CreateClient] *)
Definition create_thread (env : CreateEnv) (transaction : string → string → M (Table (Gorm := GN)) Node)
    : Thread Node :=
  '(priv, pub) ← (Ended (GenerateKeyPair (env_run env)) : Thread _);
  node ← atomic (on_nodes (transaction priv pub));
  _ ← atomic (on_nodes updateNodes);
  atomic (on_nodes (query (GetByID (node_ID node)))).

(** The handler of [/commands/join], action by action *)
Definition bad_request {A} (t : Thread A) (k : A → Thread Reply) : Thread Reply :=
  catch t (λ _, mret (ErrorReply StatusBadRequest "")) k.
Definition settle_thread (requestID : string) (k : Thread Reply) : Thread Reply :=
  bad_request (atomic (on_nodes (query GetGatewayNode))) (λ gatewayNode,
  match gatewayNode with
  | None => mret (ErrorReply StatusBadRequest "")
  | Some gatewayNode =>
      bad_request (atomic (on_services (query GetAllServices))) (λ publicServices,
      bad_request (atomic (on_disk (SaveConfigs paths gatewayNode publicServices false))) (λ _,
      match node_GatewayCertBundle gatewayNode with
      | None => Ended (Panic "nil pointer dereference: GatewayCertBundle")
      | Some b =>
          bad_request (atomic (on_nodes
            (SaveNode (set_GatewayCertBundle (Some (RemoveClient requestID b)) gatewayNode))))
            (λ _, k)
      end))
  end).
Definition answer_thread (requestID : string) (node : Node) : Thread Reply :=
  bad_request (atomic (on_requests (DeleteRequest requestID))) (λ _,
  catch (Ended (json_Marshal (MkJoinResponseDTO (Some node))) : Thread _)
    (λ _, mret (ErrorReply 200 "")) (λ body, mret (JsonReply 200 (body ++ [10])))).
Definition restart_wireguard_thread : Thread unit :=
  atomic (on_host (RestartNetworkApps paths sh true false false)).
Definition join_thread (env : CreateEnv) (r : Request) : Thread Reply :=
  match rq_TLS r with
  | None => mret (ErrorReply StatusBadRequest "")
  | Some _ =>
      if negb (bool_decide (rq_Method r = "POST")) then mret (ErrorReply StatusBadRequest "")
      else
        catch (Ended (json_Decode (rq_Body r)) : Thread _)
          (λ err, mret (ErrorReply StatusBadRequest (error_text err))) (λ joinRequestDto,
        let token := jq_JoinToken joinRequestDto in
        bad_request (Ended (FromBase64 token)) (λ decryptedJoinRequest,
        bad_request (atomic (on_requests (query (GetRequest (jr_ID decryptedJoinRequest)))))
          (λ joinRequestFromDB,
        bad_request (Ended (ToBase64 joinRequestFromDB)) (λ joinRequestFromDBBase64,
        if negb (bool_decide (token = joinRequestFromDBBase64))
        then mret (ErrorReply StatusBadRequest "")
        else
          match jr_Role joinRequestFromDB with
          | NodeRoleServer =>
              bad_request (create_thread env
                (server_transaction env (jr_DockerSubnet decryptedJoinRequest))) (λ serverNode,
              settle_thread (jr_ID joinRequestFromDB)
                (let scheduled :=
                   _ ← atomic (ScheduleNetworkAppsRestart (10 * Second, false, true, true));
                   answer_thread (jr_ID decryptedJoinRequest) serverNode in
                 catch restart_wireguard_thread (λ _, scheduled) (λ _, scheduled)))
          | NodeRoleClient =>
              bad_request (create_thread env (client_transaction env)) (λ clientNode,
              settle_thread (jr_ID joinRequestFromDB)
                (bad_request restart_wireguard_thread (λ _,
                 answer_thread (jr_ID decryptedJoinRequest) clientNode)))
          | _ => mret (ErrorReply StatusBadRequest "")
          end))))
  end.
End join_thread.

(** ** Alone: the thread is the handler *)

Section alone.
  Context {GN : Gorm string Node} {GS : Gorm ServiceKey PublicService}
    {GR : Gorm string JoinRequest} {GT : Gorm string JoinToken} {R : Raymond} {X : X509}
    {JQ : Json JoinRequest} {JD : JsonDecode JoinRequestDTO} {JP : Json JoinResponseDTO}.
  Context (paths : ConfigPaths) (sh : nat → string → option string).

Lemma run_bad_request {A} (t : Thread World A) c k k' :
  (∀ w, run t w = c w) → (∀ a w, run (k a) w = k' a w) →
  ∀ w, run (bad_request t k) w = or_bad_request c k' w.
Proof.
  intros Ht Hk. by apply run_catch_to.
Qed.
Lemma run_create env transaction w :
  run (create_thread env transaction) w
  = on_nodes ('(priv, pub) ← lift (GenerateKeyPair (env_run env));
              node ← transaction priv pub; _ ← updateNodes; query (GetByID (node_ID node))) w.
Proof.
  transitivity (('(priv, pub) ← lift (GenerateKeyPair (env_run env));
    node ← on_nodes (transaction priv pub); _ ← on_nodes updateNodes;
    on_nodes (query (GetByID (node_ID node)))) w).
  { revert w. apply run_bind; [done|]. intros [priv pub]. apply run_bind; [apply run_atomic|].
    intros node. apply run_bind; [apply run_atomic|]. intros u. apply run_atomic. }
  unfold on_nodes, on_part, mbind, M_bind, lift, query.
  destruct (GenerateKeyPair (env_run env)) as [[priv pub]| | |]; try by destruct w.
  destruct (transaction priv pub (w_nodes w)) as [[node| | |] t]; try done.
  cbn [w_nodes with_nodes]. by destruct (updateNodes t) as [[] t'].
Qed.

Lemma run_settle id k k' :
  (∀ w, run k w = k' w) → ∀ w, run (settle_thread paths id k) w = settle_gateway paths id k' w.
Proof.
  intros Hk. apply run_bad_request; [apply run_atomic|]. intros [gw|]; [|done].
  apply run_bad_request; [apply run_atomic|]. intros services.
  apply run_bad_request; [apply run_atomic|]. intros u. destruct (node_GatewayCertBundle gw); [|done].
  by apply run_bad_request; [apply run_atomic|].
Qed.
Lemma run_answer id n w : run (answer_thread id n) w = answer_join id n w.
Proof.
  revert w. apply run_bad_request; [apply run_atomic|]. intros u. by apply run_catch_to.
Qed.

(** The thread is the handler: if nothing comes in between, its actions are the handler
    of [/commands/join], on every request and with every failure. *)
Theorem join_thread_runs env r w :
  run (join_thread paths sh env r) w = join_handler paths sh env r w.
Proof.
  unfold join_thread, join_handler. destruct (rq_TLS r) as [cns|]; [|done].
  case_bool_decide; cbn [negb]; [|done]. revert w. apply run_catch_to; [done..|]. intros dto.
  cbn zeta. apply run_bad_request; [done|]. intros jr. apply run_bad_request; [apply run_atomic|].
  intros db. apply run_bad_request; [done|]. intros text. case_bool_decide; cbn [negb]; [|done].
  destruct (jr_Role db); try done.
  - apply run_bad_request; [apply run_create|]. intros n. apply run_settle.
    apply run_bad_request; [apply run_atomic|]. intros u. apply run_answer.
  - apply run_bad_request; [apply run_create|]. intros n. apply run_settle. intros w.
    assert (∀ w, run (_ ← atomic (ScheduleNetworkAppsRestart (10 * Second, false, true, true));
                      answer_thread (jr_ID jr) n) w
               = (_ ← ScheduleNetworkAppsRestart (10 * Second, false, true, true);
                  answer_join (jr_ID jr) n) w) as Hrest.
    { apply run_bind; [apply run_atomic|]. intros u. apply run_answer. }
    etransitivity; [apply (run_catch_to _ _ _ _ _ _ (run_atomic _) (λ _, Hrest) (λ _, Hrest))|].
    unfold mbind at 1 4, M_bind at 1 4. by destruct (attempt _ w) as [[[]| | |] w'].
Qed.
End alone.

(** ** Together: what every request can rely on *)

Section together.
  Context {GN : Gorm string Node} {LN : GormLaws string Node} {GS : Gorm ServiceKey PublicService}
    {GR : Gorm string JoinRequest} {GT : Gorm string JoinToken} {R : Raymond} {X : X509}
    {JQ : Json JoinRequest} {JD : JsonDecode JoinRequestDTO} {JP : Json JoinResponseDTO}.
  Context (paths : ConfigPaths) (sh : nat → string → option string).
  (** the nodes that others may remove meanwhile *)
  Context (removable : string → Prop).

(** What every action keeps to: a network stays one, and a node stays who it is. *)
Definition keeps (w w' : World) : Prop :=
  ok (w_nodes w) → ok (w_nodes w') ∧
  ∀ id a, cores (w_nodes w) !! id = Some a → ¬ removable id → cores (w_nodes w') !! id = Some a.
#[export] Instance keeps_preorder : PreOrder keeps.
Proof.
  split; [by intros w Hok|]. intros w1 w2 w3 H12 H23 Hok.
  destruct (H12 Hok) as [Hok2 Hc12], (H23 (proj1 (H12 Hok))) as [Hok3 Hc23]. auto.
Qed.
Lemma keeps_cores w w' : cores (w_nodes w') = cores (w_nodes w) → keeps w w'.
Proof. intros Hc. unfold keeps, ok. by rewrite Hc. Qed.
Lemma keeps_joins w t c id role n :
  cores (w_nodes w) = c → joins c id role n t → keeps w (with_nodes t w).
Proof.
  intros <- [_ _ Hnew Hc Hok] _. split; [exact Hok|]. intros k a Hk _. cbn. rewrite Hc.
  rewrite lookup_insert_ne; [done|]. intros ->. by rewrite Hnew in Hk.
Qed.

(** The network with its gateway, and the node a request has made. *)
Definition gateway_at (g : string) (w : World) : Prop :=
  ok (w_nodes w) ∧ ∃ a, cores (w_nodes w) !! g = Some a ∧ core_role a = NodeRoleGateway.
Definition made (g id : string) (n : Node) (w : World) : Prop :=
  gateway_at g w ∧ node_ID n = id ∧ (¬ removable id → cores (w_nodes w) !! id = Some (core n)).
Definition knows (g id : string) (n gw : Node) (w : World) : Prop :=
  made g id n w ∧ node_ID gw = g ∧ cores (w_nodes w) !! g = Some (core gw).

Section at_gateway.
Context (g : string) (Hg : ¬ removable g).

Lemma stable_gateway : stable keeps (gateway_at g).
Proof.
  intros w w' (Hok & a & Ha & Hr) Hk. destruct (Hk Hok) as [Hok' Hc]. split; [done|]. eauto.
Qed.
Lemma stable_made id n : stable keeps (made g id n).
Proof.
  intros w w' (Hgw & Hid & Hn) Hk. split; [by eapply stable_gateway|]. split; [done|].
  intros Hrem. destruct (Hk (proj1 Hgw)) as [_ Hc]. auto.
Qed.
Lemma stable_knows id n gw : stable keeps (knows g id n gw).
Proof.
  intros w w' (Hm & Hgw & Hc) Hk. split; [by eapply stable_made|]. split; [done|].
  destruct (Hk (proj1 (proj1 Hm))) as [_ Hkc]. auto.
Qed.

(** What a reply with a node means. *)
Definition handed (env : CreateEnv) (o : Out Reply) (w : World) : Prop :=
  ∀ code body, o = Ret (JsonReply code body) →
  ∃ n b, json_Marshal (MkJoinResponseDTO (Some n)) = Ret b ∧ body = b ++ [10] ∧
    node_ID n = env_uuid env ∧
    (¬ removable (env_uuid env) → cores (w_nodes w) !! env_uuid env = Some (core n)).
Lemma handed_error env code text w : handed env (Ret (ErrorReply code text)) w.
Proof. by intros ? ?. Qed.

(** Actions on anything but the nodes. *)
Lemma quiet_step {S A} (part : World → S) with_part (c : M S A) (P : World → Prop) w :
  (∀ s w, w_nodes (with_part s w) = w_nodes w) → stable keeps P → P w →
  keeps w (on_part part with_part c w).2 ∧ P (on_part part with_part c w).2.
Proof.
  intros Hp HP Hw. assert (keeps w (on_part part with_part c w).2) as Hk; [|split; [done|by eapply HP]].
  apply keeps_cores. unfold on_part. destruct (c (part w)) as [o s]. cbn. by rewrite Hp.
Qed.
Lemma quiet_bad_request {S A} (part : World → S) with_part (c : M S A) (P : World → Prop) env k w :
  (∀ s w, w_nodes (with_part s w) = w_nodes w) → stable keeps P →
  (∀ a w, P w → wp keeps (k a) (handed env) w) → P w →
  wp keeps (bad_request (atomic (on_part part with_part c)) k) (handed env) w.
Proof.
  intros Hp HP Hk Hw. unfold bad_request. eapply (wp_step _ _ _ _ P (λ _, P)); try done.
  - intros w1 Hw1. destruct (quiet_step part with_part c P w1 Hp HP Hw1). by split.
Qed.

Lemma answer_hands env id n w :
  made g (env_uuid env) n w → wp keeps (answer_thread id n) (handed env) w.
Proof.
  intros Hm. unfold answer_thread. eapply quiet_bad_request; [done|apply stable_made| |exact Hm].
  clear w Hm. intros u w (_ & Hid & Hn). cbn. destruct (json_Marshal _) as [b| | |] eqn:Hb; try by intros ? ?.
  intros code body [= <- <-]. by exists n, b.
Qed.
(** The gateway that is found is the one there is. *)
Lemma GetGatewayNode_at w gw :
  gateway_at g w → GetGatewayNode (w_nodes w) = Ret (Some gw) →
  node_ID gw = g ∧ cores (w_nodes w) !! g = Some (core gw).
Proof.
  intros (Hok & a & Ha & Hr) Hgw. unfold GetGatewayNode in Hgw.
  destruct (First _ _) as [n|e| |] eqn:Hf; try done; [injection Hgw as ->|by case_bool_decide].
  apply first_row in Hf as [Hrow Hrole]. apply cores_lookup in Hrow. change (pk gw) with (node_ID gw) in Hrow.
  apply bool_decide_eq_true_1 in Hrole. destruct (decide (node_ID gw = g)) as [<-|Hne]; [done|].
  destruct (net_apart _ Hok _ _ _ _ Hrow Ha Hne) as (_ & [] & _). by split.
Qed.
Lemma save_gateway_keeps id n gw b w :
  knows g id n gw w →
  keeps w (on_nodes (SaveNode (set_GatewayCertBundle b gw)) w).2.
Proof.
  intros (((Hok & _) & _) & Hgid & Hc). apply keeps_cores.
  assert (node_ID gw ≠ "") as Hid.
  { intros E. rewrite <- Hgid, E in Hc. by rewrite (net_named _ Hok) in Hc. }
  pose proof (save_cores (set_GatewayCertBundle b gw) (cores (w_nodes w))
    ltac:(cbn; by rewrite Hgid) Hid (w_nodes w) eq_refl) as Hs.
  unfold on_nodes, on_part, SaveNode, mbind, M_bind. by destruct (Save _ _) as [[] t].
Qed.

Lemma settle_hands env id n rid k w :
  (∀ w, made g id n w → wp keeps k (handed env) w) → made g id n w →
  wp keeps (settle_thread paths rid k) (handed env) w.
Proof.
  intros Hk Hm. unfold settle_thread, bad_request.
  eapply (wp_step keeps _ _ _ (made g id n)
    (λ gn w, made g id n w ∧ ∀ gw, gn = Some gw → knows g id n gw w)); try done.
  - intros w1 Hw1. unfold on_nodes, on_part, query. rewrite with_nodes_same. cbn.
    split; [reflexivity|]. intros gn Hgn. split; [done|]. intros gw ->. split; [done|].
    by apply GetGatewayNode_at; [apply Hw1|].
  - intros gn w1 w2 [H1 H2] Hw. split; [by eapply stable_made|].
    intros gw Hgw. eapply stable_knows; eauto.
  - intros [gw|] w1 [_ Hgw]; [|apply handed_error]. specialize (Hgw gw eq_refl).
    eapply quiet_bad_request; [done|apply stable_knows| |exact Hgw].
    clear w Hm w1 Hgw. intros services w Hw. eapply quiet_bad_request; [done|apply stable_knows| |exact Hw].
    clear w Hw. intros u w Hw. destruct (node_GatewayCertBundle gw) as [b|]; [|by intros ? ?].
    eapply (wp_step keeps _ _ _ (knows g id n gw) (λ _, made g id n)); try done.
    + intros w1 Hw1. pose proof (save_gateway_keeps id n gw (Some (RemoveClient rid b)) w1 Hw1) as Hs.
      split; [done|]. intros _ _. eapply stable_made; [apply Hw1|done].
    + intros _. apply stable_made.
Qed.
(** A node that is made is stored under its own identifier, and stays what it is. *)
Definition fails_to (Q : Out Node → World → Prop) : Prop :=
  (∀ e w, Q (Throw e) w) ∧ (∀ p w, Q (Panic p) w) ∧ (∀ p w, Q (Exited p) w).
Lemma create_makes env transaction role (Q : Out Node → World → Prop) w :
  (∀ priv pub c, network_ok c → triple (λ t, cores t = c) (transaction priv pub)
     (joins c (env_uuid env) role) (λ t, cores t = c)) →
  fails_to Q → (∀ n w, made g (env_uuid env) n w → Q (Ret n) w) →
  gateway_at g w → wp keeps (create_thread env transaction) Q w.
Proof.
  intros Htrans (HT & HP & HE) HQ Hw. unfold create_thread, mbind, Thread_bind.
  destruct (GenerateKeyPair (env_run env)) as [[priv pub]|e|p|p]; cbn [catch wp]; [|done..].
  eapply (wp_step keeps _ _ _ (gateway_at g) (made g (env_uuid env))); try done.
  - intros w1 Hw1. specialize (Htrans priv pub _ (proj1 Hw1) (w_nodes w1) eq_refl).
    unfold on_nodes, on_part. destruct (transaction priv pub (w_nodes w1)) as [[n|e|p|p] t]; cbn;
      (split; [|intros a Ha; try done]).
    1: by eapply keeps_joins.
    2-4: apply keeps_cores; exact Htrans.
    injection Ha as <-. assert (keeps w1 (with_nodes t w1)) as Hk by by eapply keeps_joins.
    destruct Htrans as [Hid _ _ Hc _]. split; [by eapply stable_gateway|]. split; [done|].
    intros _. cbn. rewrite Hc. apply lookup_insert_eq.
  - intros n. apply stable_made.
  - intros n w1 Hn.
    eapply (wp_step keeps _ _ _ (made g (env_uuid env) n) (λ _, made g (env_uuid env) n)); try done.
    + intros w2 Hw2. assert (keeps w2 (on_nodes updateNodes w2).2) as Hk.
      { apply keeps_cores. pose proof (updateNodes_cores _ (proj1 (proj1 Hw2)) (w_nodes w2) eq_refl) as Hu.
        unfold on_nodes, on_part. by destruct (updateNodes (w_nodes w2)) as [[] t]. }
      split; [done|]. intros _ _. by eapply stable_made.
    + intros _. apply stable_made.
    + intros _ w2 (Hgw & Hid & _). rewrite Hid. unfold atomic, on_nodes, on_part, query.
      cbn [wp]. rewrite with_nodes_same. split; [reflexivity|]. intros w3 H3.
      destruct (GetByID (env_uuid env) (w_nodes w2)) as [n3|e|p|p] eqn:Hget; [|done..].
      apply HQ. eapply stable_made; [|done]. split; [done|]. apply first_row in Hget as [Hrow Hp].
      apply bool_decide_eq_true_1 in Hp. split; [done|]. intros _. rewrite <- Hp.
      by apply cores_lookup.
Qed.

Lemma create_hands env transaction role k w :
  (∀ priv pub c, network_ok c → triple (λ t, cores t = c) (transaction priv pub)
     (joins c (env_uuid env) role) (λ t, cores t = c)) →
  (∀ n w, made g (env_uuid env) n w → wp keeps (k n) (handed env) w) →
  gateway_at g w → wp keeps (bad_request (create_thread env transaction) k) (handed env) w.
Proof.
  intros Htrans Hk Hw. apply wp_catch. eapply create_makes; [done| |exact Hk|exact Hw].
  split; [|split]; by intros.
Qed.

Lemma join_hands env r w :
  env_uuid env ≠ "" → gateway_at g w → wp keeps (join_thread paths sh env r) (handed env) w.
Proof.
  intros Huuid Hw. unfold join_thread. destruct (rq_TLS r) as [cns|]; [|apply handed_error].
  case_bool_decide; cbn [negb]; [|apply handed_error].
  destruct (json_Decode (rq_Body r)) as [dto| | |]; try by intros ? ?. cbn [catch]. cbn zeta.
  unfold bad_request at 1. destruct (FromBase64 (jq_JoinToken dto)) as [jr| | |]; try by intros ? ?.
  cbn [catch]. eapply quiet_bad_request; [done|apply stable_gateway| |exact Hw].
  clear w Hw. intros db w Hw. unfold bad_request at 1.
  destruct (ToBase64 db) as [text| | |]; try by intros ? ?. cbn [catch].
  case_bool_decide; cbn [negb]; [|apply handed_error].
  destruct (jr_Role db); try apply handed_error.
  - eapply create_hands; [by intros; apply client_transaction_joins| |exact Hw].
    clear w Hw. intros n w Hm. eapply settle_hands; [|exact Hm]. clear w Hm. intros w Hm.
    eapply quiet_bad_request; [done|apply stable_made| |exact Hm]. intros _. apply answer_hands.
  - eapply create_hands; [by intros; apply server_transaction_joins| |exact Hw].
    clear w Hw. intros n w Hm. eapply settle_hands; [|exact Hm]. clear w Hm. intros w Hm.
    assert (∀ w, made g (env_uuid env) n w →
      wp keeps (_ ← atomic (ScheduleNetworkAppsRestart (10 * Second, false, true, true));
                answer_thread (jr_ID jr) n) (handed env) w) as Hrest.
    { clear w Hm. intros w Hm. unfold mbind, Thread_bind.
      eapply (wp_step keeps _ _ _ (made g (env_uuid env) n) (λ _, made g (env_uuid env) n)); try done.
      - intros _. apply stable_made.
      - intros _. apply answer_hands. }
    apply wp_catch. unfold restart_wireguard_thread, atomic. cbn [wp].
    pose proof (quiet_step w_host with_host (RestartNetworkApps paths sh true false false)
      (made g (env_uuid env) n) w ltac:(done) (stable_made _ _) Hm) as [Hk Hm'].
    unfold on_host. destruct (on_part _ _ _ w) as [o w1]. cbn in Hk, Hm'. split; [done|].
    intros w2 H2. assert (made g (env_uuid env) n w2) as Hm2 by by eapply stable_made.
    destruct o; [by apply Hrest..|by intros ? ?|by intros ? ?].
Qed.
End at_gateway.
(** Calls of the repository by other requests and commands of the gateway; a saved node is
    one that was read before, so that it still is who it was, and only the servers that
    may be removed are. *)
Inductive other_call (t t' : Table (Gorm := GN)) : Prop :=
| OtherServer env force priv pub o :
    env_uuid env ≠ "" → server_transaction env force priv pub t = (o, t') → other_call t t'
| OtherClient env priv pub o :
    env_uuid env ≠ "" → client_transaction env priv pub t = (o, t') → other_call t t'
| OtherRefresh o : updateNodes t = (o, t') → other_call t t'
| OtherSave n o :
    cores t !! node_ID n = Some (core n) → SaveNode n t = (o, t') → other_call t t'
| OtherDelete id o : removable id → DeleteServer id t = (o, t') → other_call t t'
| OtherAddLabel id label o : AddLabelToNode id label t = (o, t') → other_call t t'
| OtherRemoveLabel id label o : RemoveLabelFromNode id label t = (o, t') → other_call t t'
| OtherLabels id labels o : UpdateLabels id labels t = (o, t') → other_call t t'.
Definition others (w w' : World) : Prop :=
  w_nodes w' = w_nodes w ∨ other_call (w_nodes w) (w_nodes w').

Lemma transaction_keeps id role (c : M (Table (Gorm := GN)) Node) w o t' :
  (network_ok (cores (w_nodes w)) → triple (λ t, cores t = cores (w_nodes w)) c
     (joins (cores (w_nodes w)) id role) (λ t, cores t = cores (w_nodes w))) →
  c (w_nodes w) = (o, t') → keeps w (with_nodes t' w).
Proof.
  intros Hc Hrun Hok. specialize (Hc Hok (w_nodes w) eq_refl). rewrite Hrun in Hc.
  destruct o; [by eapply keeps_joins|by apply keeps_cores..].
Qed.
Lemma same_cores_keep (c : M (Table (Gorm := GN)) unit) w o t' :
  same_cores c → c (w_nodes w) = (o, t') → keeps w (with_nodes t' w).
Proof.
  intros Hc Hrun. apply keeps_cores. specialize (Hc _ (w_nodes w) eq_refl). rewrite Hrun in Hc.
  by destruct o.
Qed.
Lemma delete_keeps id w o t' :
  removable id → DeleteServer id (w_nodes w) = (o, t') → keeps w (with_nodes t' w).
Proof.
  intros Hid Hrun Hok. split.
  { by eapply triple_any; [apply delete_ok_triple|exact Hok|exact Hrun]. }
  intros k a Ha Hk. revert Hrun.
  apply (triple_any (λ t, cores t !! k = Some a) _ (λ t, cores t !! k = Some a)); [|done].
  eapply triple_bind with (Q := λ _ t, cores t !! k = Some a); [|by intros _ t].
  apply triple_delete; [|done]. intros _ t t2 Ht Hr. apply cores_lookup_inv in Ht as (n & Hn & -> & Hnid).
  apply cores_lookup. rewrite Hr. apply map_lookup_filter_Some. split; [done|]. cbn.
  unfold has_id. rewrite bool_decide_eq_false_2; [done|]. congruence.
Qed.

Lemma others_keep w w' : others w w' → keeps w w'.
Proof.
  intros [Hsame|Hcall]; [by apply keeps_cores; rewrite Hsame|].
  assert (keeps w (with_nodes (w_nodes w') w) → keeps w w') as Hend by done. apply Hend.
  destruct Hcall as [env force priv pub o Hu Hrun|env priv pub o Hu Hrun|o Hrun|n o Hn Hrun
    |id o Hid Hrun|id label o Hrun|id label o Hrun|id labels o Hrun].
  - eapply transaction_keeps; [|exact Hrun]. intros. by apply server_transaction_joins.
  - eapply transaction_keeps; [|exact Hrun]. intros. by apply client_transaction_joins.
  - intros Hok. pose proof (updateNodes_cores _ Hok (w_nodes w) eq_refl) as Hu. rewrite Hrun in Hu.
    apply keeps_cores; [|done]. by destruct o.
  - intros Hok. assert (node_ID n ≠ "") as Hid.
    { intros E. by rewrite E, (net_named _ Hok) in Hn. }
    pose proof (save_cores n (cores (w_nodes w)) Hn Hid (w_nodes w) eq_refl) as Hs.
    unfold SaveNode, mbind, M_bind in Hrun. destruct (Save n (w_nodes w)) as [[] t]; injection Hrun as <- <-;
      by apply keeps_cores.
  - by eapply delete_keeps.
  - eapply same_cores_keep; [apply assignLabelToNode_cores|exact Hrun].
  - eapply same_cores_keep; [apply removeLabelFromNode_cores|exact Hrun].
  - eapply same_cores_keep; [apply UpdateLabels_cores|exact Hrun].
Qed.
(** Requests served at the same time, each with what its handler draws from outside. *)
Definition serve_all (jobs : list (CreateEnv * Request)) : list (Thread World Reply) :=
  (λ j, join_thread paths sh j.1 j.2) <$> jobs.

(** The reply hands the node out that is stored. *)
Definition hands_out (env : CreateEnv) (body : list Z) (n : Node) (w : World) : Prop :=
  ∃ b, json_Marshal (MkJoinResponseDTO (Some n)) = Ret b ∧ body = b ++ [10] ∧
    node_ID n = env_uuid env ∧ cores (w_nodes w) !! node_ID n = Some (core n).

(** C4: however many nodes join at the same time, in whatever order the actions of their
    requests and of everybody else come, and whatever fails: the nodes stay a network around
    the same gateway, every reply with a node hands out one that is stored, and no two
    replies hand out the same address or the same docker subnet. *)
Theorem joins_at_once jobs w w' ts g :
  gateway_at g w → ¬ removable g →
  Forall (λ j, env_uuid j.1 ≠ "") jobs → NoDup ((λ j, env_uuid j.1) <$> jobs) →
  rtc (pool_step others) (w, serve_all jobs) (w', ts) →
  gateway_at g w' ∧ keeps w w' ∧
  (∀ i j code body, jobs !! i = Some j → ¬ removable (env_uuid j.1) →
     ts !! i = Some (Ended (Ret (JsonReply code body))) → ∃ n, hands_out j.1 body n w') ∧
  (∀ i1 i2 j1 j2 b1 b2 n1 n2, i1 ≠ i2 → jobs !! i1 = Some j1 → jobs !! i2 = Some j2 →
     hands_out j1.1 b1 n1 w' → hands_out j2.1 b2 n2 w' → core_apart (core n1) (core n2)).
Proof.
  intros Hw Hg Hids Hdup Hsteps.
  destruct (pool_secure keeps others (λ i o w, ∀ j, jobs !! i = Some j → handed j.1 o w) w
    (serve_all jobs) w' ts) as [Hk Hend]; [exact others_keep| |exact Hsteps|].
  { intros i t Hi w1 Hw1. apply list_lookup_fmap_Some in Hi as (j & -> & Hj).
    eapply wp_mono; [|apply (join_hands g Hg j.1 j.2 w1); [by eapply Forall_lookup_1 in Hids|]].
    - intros o w2 Ho j' Hj'. rewrite Hj in Hj'. by injection Hj' as <-.
    - by eapply stable_gateway. }
  split; [by eapply stable_gateway|]. split; [done|]. split.
  - intros i j code body Hj Hrem Hi.
    destruct (Hend i _ Hi w' (reflexivity _) j Hj code body eq_refl) as (n & b & Hb & Hbody & Hn & Hc).
    exists n, b. rewrite Hn. auto.
  - intros i1 i2 j1 j2 b1 b2 n1 n2 Hne Hj1 Hj2 (? & _ & _ & Hid1 & Hc1) (? & _ & _ & Hid2 & Hc2).
    apply (net_apart _ (proj1 (Hk (proj1 Hw))) _ _ _ _ Hc1 Hc2). rewrite Hid1, Hid2. intros E.
    apply Hne. eapply (NoDup_lookup ((λ j, env_uuid j.1) <$> jobs)); [done| |].
    + by rewrite list_lookup_fmap, Hj1.
    + by rewrite list_lookup_fmap, Hj2, E.
Qed.
(** ** How long it takes *)

Lemma within_bad_request {A} n m (t : Thread World A) k :
  within n t → (∀ a, within m (k a)) → within (n + m) (bad_request t k).
Proof. intros Ht Hk. by apply within_catch. Qed.
Lemma within_create env transaction : within 3 (create_thread env transaction).
Proof.
  apply (within_catch 0 3); [done..|]. intros [priv pub]. apply (within_catch 1 2); [done..|].
  intros n. by apply (within_catch 1 1).
Qed.
Lemma within_settle id n k : within n k → within (4 + n) (settle_thread paths id k).
Proof.
  intros Hk. apply (within_bad_request 1 (3 + n)); [done|]. intros [gw|]; [|done].
  apply (within_bad_request 1 (2 + n)); [done|]. intros services.
  apply (within_bad_request 1 (1 + n)); [done|]. intros u. destruct (node_GatewayCertBundle gw); [|done].
  by apply (within_bad_request 1 n).
Qed.
Lemma within_answer id n : within 1 (answer_thread id n).
Proof. apply (within_bad_request 1 0); [done|]. intros u. by apply (within_catch 0 0). Qed.
Lemma within_join env r : within 11 (join_thread paths sh env r).
Proof.
  unfold join_thread. destruct (rq_TLS r); [|done]. case_bool_decide; [|done]. cbn [negb].
  apply (within_catch 0 11); [done..|]. intros dto. cbn zeta.
  apply (within_bad_request 0 11); [done|]. intros jr. apply (within_bad_request 1 10); [done|].
  intros db. apply (within_bad_request 0 10); [done|]. intros text. case_bool_decide; [|done].
  cbn [negb]. destruct (jr_Role db); try done;
    (apply (within_bad_request 3 7); [apply within_create|]; intros n; apply (within_settle _ 3)).
  - apply (within_more 2); [lia|]. apply (within_bad_request 1 1); [done|]. intros u. apply within_answer.
  - assert (within 2 (_ ← atomic (ScheduleNetworkAppsRestart (10 * Second, false, true, true));
                      answer_thread (jr_ID jr) n)) as Hrest.
    { apply (within_catch 1 1); [done..|]. intros u. apply within_answer. }
    by apply (within_catch 1 2).
Qed.

(** Requests that are left alone come to an end, however they take turns: [k] of them
    take at most [11 k] actions, and until each has its outcome there is one to take. *)
Theorem joins_end jobs w m x :
  nsteps (pool_step (λ _ _, False)) m (w, serve_all jobs) x →
  (m ≤ 11 * length jobs)%nat ∧ (Forall ended x.2 ∨ ∃ y, pool_step (λ _ _, False) x y).
Proof.
  intros Hsteps. split; [|apply pool_goes_on].
  rewrite <- (length_fmap (λ j, join_thread paths sh j.1 j.2) jobs).
  eapply pool_ends; [|exact Hsteps]. apply Forall_fmap, Forall_true. intros j. apply within_join.
Qed.
End together.

(** ** At work *)

(** A gateway with two invitations, and the requests of the two clients that have them. *)
Definition invitation_2 : JoinRequest :=
  MkJoinRequest "r-2" "a2V5" (jr_ClientCertBundle sample_request) None "203.0.113.7" 4060
    NodeRoleClient 0.
Definition two_requests : Json JoinRequest := {|
  json_Marshal r := Ret (if bool_decide (jr_ID r = "r-1") then [42] else [43]);
  json_Unmarshal b := if bool_decide (b = [42]) then Ret (invitation NodeRoleClient)
    else if bool_decide (b = [43]) then Ret invitation_2 else Throw (Errorf "invalid character");
|}.
Definition token_in_body : JsonDecode JoinRequestDTO := λ b,
  Ret (MkJoinRequestDTO (if bool_decide (b = [1]) then "Kg==" else "Kw==")).
Definition id_json : Json JoinResponseDTO := {|
  json_Marshal d := Ret (match jp_NodeConfig d with Some n => bytes_of (node_ID n) | None => [] end);
  json_Unmarshal _ := Throw (Errorf "invalid character");
|}.
Definition two_invited : gmap string JoinRequest :=
  {[ "r-1" := invitation NodeRoleClient; "r-2" := invitation_2 ]}.
Lemma two_invited_keyed : keyedb two_invited = true.
Proof. vm_compute. reflexivity. Qed.
Definition two_world : World :=
  MkWorld demo_gateway one_service (exist _ two_invited two_invited_keyed : request_table)
    no_tokens (MkHost sample_disk []) "" "" [] [] no_remote.
Definition post_of (body : list Z) : Request :=
  MkRequest (Some ["r-1"]) "POST" "application/json" "/commands/join" body.

Definition pool_of (jobs : list (CreateEnv * Request)) : World * list (Thread World Reply) :=
  (two_world, serve_all (R := toy_raymond) (JQ := two_requests) (JD := token_in_body) (JP := id_json)
                sample_paths (λ _ _, None) jobs).

(** The reply that hands out a node, in the toy JSON of these examples. *)
Definition handed_over (id : string) : Thread World Reply :=
  Ended (Ret (JsonReply 200 (bytes_of id ++ [10]))).

(** The first client's handler has read the gateway when the second client comes and goes. *)
Definition overtaken : World * list (Thread World Reply) :=
  schedule (replicate 5 0%nat ++ replicate 11 1%nat ++ replicate 6 0%nat)
    (pool_of [(demo_env "n1" 20, post_of [1]); (demo_env "n2" 30, post_of [2])]).
(** The same invitation posted twice; both handlers find it. *)
Definition posted_twice : World * list (Thread World Reply) :=
  schedule ([0; 1] ++ replicate 10 0 ++ replicate 10 1)%nat
    (pool_of [(demo_env "n1" 20, post_of [1]); (demo_env "n2" 30, post_of [1])]).

Definition stored (id : string) (w : World) : bool :=
  match rows (w_nodes w) !! id with Some _ => true | None => false end.

(** What the turns can spoil: a client that joins while another one's handler has read
    the gateway but not yet saved it is given its node, which is stored, but the stale
    gateway is written over it, so that the gateway, and its WireGuard file, do not have
    the client as a peer; and one invitation posted twice gives two nodes. *)
Example joins_interfere :
  (let w := overtaken.1 in
   let gw := demo_node "gw" (w_nodes w) in
   rtc (pool_step (λ _ _, False))
     (pool_of [(demo_env "n1" 20, post_of [1]); (demo_env "n2" 30, post_of [2])]) overtaken ∧
   overtaken.2 = [handed_over "n1"; handed_over "n2"] ∧ stored "n2" w = true ∧
   peer_of (demo_node "n1" (w_nodes w)) ∈ wg_Peers (node_WGConfig gw) ∧
   peer_of (demo_node "n2" (w_nodes w)) ∉ wg_Peers (node_WGConfig gw) ∧
   disk_files (host_disk (w_host w)) !! WireguardConfigPath sample_paths
     = Some (ToINI (node_WGConfig gw))) ∧
  (let w := posted_twice.1 in
   rtc (pool_step (λ _ _, False))
     (pool_of [(demo_env "n1" 20, post_of [1]); (demo_env "n2" 30, post_of [1])]) posted_twice ∧
   posted_twice.2 = [handed_over "n1"; handed_over "n2"] ∧
   stored "n1" w = true ∧ stored "n2" w = true).
Proof.
  split; cbn zeta.
  - split; [apply schedule_steps|]. split; [vm_cast_no_check (eq_refl overtaken.2)|].
    split; [vm_cast_no_check (eq_refl true)|].
    split; [refine (bool_decide_eq_true_1 _ _); vm_cast_no_check (eq_refl true)|].
    split; [refine (bool_decide_eq_false_1 _ _); vm_cast_no_check (eq_refl false)|].
    refine (bool_decide_eq_true_1 _ _). vm_cast_no_check (eq_refl true).
  - split; [apply schedule_steps|]. split; [vm_cast_no_check (eq_refl posted_twice.2)|].
    split; vm_cast_no_check (eq_refl true).
Qed.

Definition two_clients : list (CreateEnv * Request) :=
  [(demo_env "n1" 20, post_of [1]); (demo_env "n2" 30, post_of [2])].
Lemma two_world_gateway : gateway_at "gw" two_world.
Proof. split; [exact demo_gateway_ok|]. eexists. split; vm_compute; reflexivity. Qed.

(** The two clients get nodes of their own, the second one too. *)
Lemma joins_at_once_witness :
  ∃ n1 n2,
    hands_out (JP := id_json) (demo_env "n1" 20) (bytes_of "n1" ++ [10]) n1 overtaken.1 ∧
    hands_out (JP := id_json) (demo_env "n2" 30) (bytes_of "n2" ++ [10]) n2 overtaken.1 ∧
    core_apart (core n1) (core n2).
Proof.
  assert (rtc (pool_step (others (λ _, False))) (pool_of two_clients) (overtaken.1, overtaken.2))
    as Hsteps by (rewrite <- surjective_pairing; exact (schedule_steps _ _ _)).
  destruct (@joins_at_once _ _ _ _ _ toy_raymond _ two_requests token_in_body id_json sample_paths
    (λ _ _, None) (λ _, False) two_clients two_world overtaken.1 overtaken.2 "gw")
    as (_ & _ & Hhands & Happart).
  - exact two_world_gateway.
  - tauto.
  - repeat constructor; discriminate.
  - apply (bool_decide_unpack _). vm_compute. exact I.
  - exact Hsteps.
  - destruct (Hhands 0%nat (demo_env "n1" 20, post_of [1]) 200 (bytes_of "n1" ++ [10]))
      as [n1 H1]; [reflexivity|tauto|vm_cast_no_check (eq_refl (overtaken.2 !! 0%nat))|].
    destruct (Hhands 1%nat (demo_env "n2" 30, post_of [2]) 200 (bytes_of "n2" ++ [10]))
      as [n2 H2]; [reflexivity|tauto|vm_cast_no_check (eq_refl (overtaken.2 !! 1%nat))|].
    exists n1, n2. split; [exact H1|]. split; [exact H2|].
    exact (Happart 0%nat 1%nat _ _ _ _ n1 n2 ltac:(discriminate) eq_refl eq_refl H1 H2).
Defined.

(** The first action of the first client. *)
Lemma joins_end_witness :
  let x := act 0 (pool_of two_clients) in
  (1 ≤ 11 * length two_clients)%nat ∧ ∃ y, pool_step (λ _ _, False) x y.
Proof.
  assert (active 0 (pool_of two_clients) = true) as H0 by (vm_cast_no_check (eq_refl true)).
  destruct (@joins_end _ _ _ _ toy_raymond _ two_requests token_in_body id_json sample_paths
    (λ _ _, None) two_clients two_world 1 (act 0 (pool_of two_clients)))
    as [Hm [Hend|Hy]].
  - apply nsteps_once. exact (act_step _ 0 _ H0).
  - assert (active 1 (act 0 (pool_of two_clients)) = true) as H1 by (vm_cast_no_check (eq_refl true)).
    destruct (act 0 (pool_of two_clients)) as [s ts]. unfold active in H1. cbn in H1, Hend.
    destruct (ts !! 1%nat) as [t|] eqn:Ht; [|discriminate H1].
    destruct (Forall_lookup_1 _ _ _ _ Hend Ht) as [o ->]. discriminate H1.
  - exact (conj Hm Hy).
Defined.
