(* ===== verification/Invitations.v ===== *)
(** * Invitations handed out at the same time

    [ServerNew] (commands/local_server.go) as a thread: each query of a table and each change
    of one is an action, and the text goes to the request's own buffers, so that it is part
    of the outcome.  Alone it is the command of LocalNodes; any number of them on a gateway that
    has room for one more server can all count before the first of them stores. *)
From S2P Require Import Prelude Threads GoStrings GoNet Mtls NodeTypes Gorm Terminal.
From S2P Require Import NodesRepo PublicServices NodeConfigs JoinStore NetworkApps.
From S2P Require Import NodesNetwork NodesRefresh NodesDemo Aes CommandTypes JoinClient.
From S2P Require Import World LocalService LocalNodes ApiCommands Commands Routes Capacity Concurrent.

Section threads.
  Context {GN : Gorm string Node} {GS : Gorm ServiceKey PublicService}
    {GR : Gorm string JoinRequest} {GT : Gorm string JoinToken} {X : X509} {JQ : Json JoinRequest}.
Notation Thread := (Thread World).

(** What a command has written to [stdOut] and [errOut]. *)
Definition Text : Type := string * string.
(** [if err != nil { fmt.Fprintf(errOut, complaint, err); return }], after [said] *)
Definition complain_thread {A} (complaint said : string) (t : Thread A) (k : A → Thread Text) : Thread Text :=
  catch t (λ e, mret (said, complaint +:+ error_text e +:+ newline)) k.

Definition new_request_thread (env : CommandEnv) (gatewayNode : Node) (role : NodeRole)
    (dockerSubnet : option string) (said : string) (k : string → Thread Text) : Thread Text :=
  let joinRequestID := env_uuid (ce_create env) in
  match node_GatewayCertBundle gatewayNode with
  | None => Ended (Panic "nil pointer dereference: GatewayCertBundle")
  | Some b =>
      complain_thread "Failed to add client to gateway cert bundle: " said
        (Ended (AddClient (env_seed (ce_create env)) (env_clock (ce_create env) 0%nat)
                  (MkOptions joinRequestID CertExpiry [] []) b)) (λ b',
      let gatewayNode := set_GatewayCertBundle (Some b') gatewayNode in
      complain_thread "Failed to save gateway node: " said (atomic (on_nodes (SaveNode gatewayNode))) (λ _,
      complain_thread "Failed to get client cert bundle: " said
        (Ended (GetClientBundlePublic joinRequestID b')) (λ clientCertBundle,
      match node_WGPublicIP gatewayNode with
      | None => Ended (Panic "nil pointer dereference: WGPublicIP")
      | Some host =>
          complain_thread "Failed to create join request: " said
            (atomic (on_requests (CreateRequest (ce_random env) (ce_now env) joinRequestID host
                                    ControlServerPort dockerSubnet role clientCertBundle))) (λ joinRequest,
          complain_thread "Failed to encode join request: " said (Ended (ToBase64 joinRequest)) k)
      end)))
  end.
Definition create_or_invite_thread (env : CommandEnv) (forceServerCreation quietServerCreation : bool)
    (dockerSubnetPtr : option string) (said : string) : Thread Text :=
  if forceServerCreation then
    complain_thread "Failed to create server node: " said
      (create_thread (ce_create env) (server_transaction (ce_create env) dockerSubnetPtr)) (λ _,
    mret (said +:+ (if quietServerCreation then "" else "Server node created" +:+ newline), ""))
  else
    complain_thread "Failed to get gateway node: " said (atomic (on_nodes (query GetGatewayNode)))
      (λ gatewayNode,
    match gatewayNode with
    | None => Ended (Panic "nil pointer dereference: gatewayNode")
    | Some gatewayNode =>
        new_request_thread env gatewayNode NodeRoleServer dockerSubnetPtr said (λ joinRequestBase64,
          mret (said +:+ (if quietServerCreation then joinRequestBase64 +:+ newline
            else "✅ Server created, execute the command below on the server to join the network:" +:+
                 newline +:+ newline +:+ "wireport join " +:+ joinRequestBase64 +:+ newline), ""))
    end).
Definition server_new_thread (env : CommandEnv) (forceServerCreation quietServerCreation : bool)
    (dockerSubnet : string) : Thread Text :=
  complain_thread "Failed to count available Docker subnets: " ""
    (atomic (on_nodes (query TotalAndAvailableDockerSubnets)))
    (λ '(totalDockerSubnets, availableDockerSubnets),
  totalServerRoleJoinRequests ← atomic (on_requests (query CountServerJoinRequests));
  if (availableDockerSubnets <=? 0) || (availableDockerSubnets <=? totalServerRoleJoinRequests)
  then mret ("", "No Docker subnets available. Please delete some server nodes (total used: " +:+
         Itoa totalDockerSubnets +:+ ") or server join-requests (total used: " +:+
         Itoa totalServerRoleJoinRequests +:+ ") to free up some subnets." +:+ newline)
  else
    complain_thread "Failed to count available WireGuard clients: " ""
      (atomic (on_nodes (query TotalAvailableWireguardClients)))
      (λ '(totalWireguardClients, availableWireguardClients),
    totalJoinRequests ← atomic (on_requests (query CountAllRequests));
    if (availableWireguardClients <=? 0) || (availableWireguardClients <=? totalJoinRequests)
    then mret ("", "No WireGuard clients available. Please delete some client/server nodes (total used: " +:+
           Itoa totalWireguardClients +:+ ") or client/server join-requests (total used: " +:+
           Itoa totalJoinRequests +:+ ") to free up some clients." +:+ newline)
    else
      let create := create_or_invite_thread env forceServerCreation quietServerCreation in
      if bool_decide (dockerSubnet = "") then create None ""
      else
        complain_thread "Failed to parse Docker subnet: " ""
          (Ended (ParseIPNetMarshable dockerSubnet true)) (λ parsedDockerSubnet,
        free ← atomic (on_nodes (query (IsDockerSubnetAvailable parsedDockerSubnet)));
        if negb free
        then mret ("", "Docker subnet " +:+ dockerSubnet +:+ " is already in use" +:+ newline)
        else
          create (Some dockerSubnet)
            (if quietServerCreation then ""
             else "Using custom Docker subnet: " +:+ dockerSubnet +:+ newline)))).

(** ** Alone: the thread is the command *)

(** [c] does what the thread does, and writes what the thread says, of which [said] is
    written already. *)
Definition speaks (t : Thread Text) (said : string) (c : M World unit) : Prop :=
  ∀ w, match run t w with
       | (Ret (out, err), w') =>
           w_out w' = w_out w ∧ w_err w' = w_err w ∧
           c (with_text (w_out w +:+ said) (w_err w) w)
           = (Ret tt, with_text (w_out w +:+ out) (w_err w +:+ err) w')
       | (Throw e, w') => ∃ out err, c (with_text (w_out w +:+ said) (w_err w) w) = (Throw e, with_text out err w')
       | (Panic p, w') => ∃ out err, c (with_text (w_out w +:+ said) (w_err w) w) = (Panic p, with_text out err w')
       | (Exited p, w') => ∃ out err, c (with_text (w_out w +:+ said) (w_err w) w) = (Exited p, with_text out err w')
       end.

(** Operations that neither write nor look at what is written. *)
Definition textless {A} (c : M World A) : Prop :=
  ∀ w, w_out (c w).2 = w_out w ∧ w_err (c w).2 = w_err w ∧
    ∀ out err, c (with_text out err w) = ((c w).1, with_text out err (c w).2).
Lemma textless_part {S A} (part : World → S) with_part (c : M S A) :
  (∀ out err w, part (with_text out err w) = part w) →
  (∀ s out err w, with_part s (with_text out err w) = with_text out err (with_part s w)) →
  (∀ s w, w_out (with_part s w) = w_out w ∧ w_err (with_part s w) = w_err w) →
  textless (on_part part with_part c).
Proof.
  intros Hp Hw Ht w. unfold on_part. destruct (c (part w)) as [o s] eqn:E. destruct (Ht s w) as [Ho He].
  split; [done|]. split; [done|]. intros out err. by rewrite Hp, E, Hw.
Qed.
Lemma textless_nodes {A} (c : M (Table (Gorm := GN)) A) : textless (on_nodes c).
Proof. by apply textless_part. Qed.
Lemma textless_requests {A} (c : M (Table (Gorm := GR)) A) : textless (on_requests c).
Proof. by apply textless_part. Qed.
Lemma textless_lift {A} (o : Out A) : textless (lift o).
Proof. by intros w. Qed.

Lemma with_text_same w : with_text (w_out w) (w_err w) w = w.
Proof. by destruct w. Qed.
Lemma speaks_step {A} (t : Thread A) (c : M World A) (h : error → Thread Text) h' k k' said :
  (∀ w, run t w = c w) → textless c → (∀ e, speaks (h e) said (h' e)) → (∀ a, speaks (k a) said (k' a)) →
  speaks (catch t h k) said (r ← attempt c; match r with inl e => h' e | inr a => k' a end).
Proof.
  intros Ht Hc Hh Hk w. rewrite run_catch. unfold mbind, M_bind, attempt. rewrite Ht.
  destruct (Hc w) as (Ho & He & Ec). rewrite Ec. destruct (c w) as [[a|e|p|p] w']; cbn [fst snd] in *.
  - specialize (Hk a w'). by rewrite Ho, He in Hk.
  - specialize (Hh e w'). by rewrite Ho, He in Hh.
  - eauto.
  - eauto.
Qed.
Lemma speaks_err said text : speaks (mret (said, text)) said (print_err text).
Proof. intros w. by destruct w. Qed.
Lemma speaks_complain {A} complaint said (t : Thread A) (c : M World A) k k' :
  (∀ w, run t w = c w) → textless c → (∀ a, speaks (k a) said (k' a)) →
  speaks (complain_thread complaint said t k) said (or_complain complaint c k').
Proof. intros Ht Hc Hk. apply speaks_step; [done..| |done]. intros e. apply speaks_err. Qed.
Lemma speaks_bind {A} said (t : Thread A) (c : M World A) k k' :
  (∀ w, run t w = c w) → textless c → (∀ a, speaks (k a) said (k' a)) →
  speaks (t ≫= k) said (c ≫= k').
Proof.
  intros Ht Hc Hk w.
  assert (speaks (catch t (λ e, Ended (Throw e)) k) said
    (r ← attempt c; match r with inl e => throw e | inr a => k' a end)) as Hs.
  { apply speaks_step; [done..| |done]. intros e w1. cbn. eauto. }
  specialize (Hs w). unfold mbind at 1, Thread_bind.
  replace ((c ≫= k') (with_text (w_out w +:+ said) (w_err w) w))
    with ((r ← attempt c; match r with inl e => throw e | inr a => k' a end)
            (with_text (w_out w +:+ said) (w_err w) w)); [exact Hs|].
  unfold mbind, M_bind, attempt. by destruct (c _) as [[] ?].
Qed.
Lemma speaks_out said text : speaks (mret (said +:+ text, "")) said (print_out text).
Proof.
  intros w. split; [done|]. split; [done|]. destruct w as [n s r t h o e sc d rm]. unfold print_out, with_text.
  cbn [w_out w_err]. by rewrite str_app_nil_r, str_app_assoc.
Qed.
Lemma speaks_quiet said : speaks (mret (said +:+ "", "")) said (mret tt).
Proof.
  intros w. split; [done|]. split; [done|]. destruct w as [n s r t h o e sc d rm]. unfold with_text.
  cbn [w_out w_err]. by rewrite !str_app_nil_r.
Qed.
Lemma speaks_panic p said : speaks (Ended (Panic p)) said (lift (Panic p)).
Proof. intros w. cbn. eauto. Qed.

Lemma speaks_created env sub force quiet said :
  speaks (create_or_invite_thread env force quiet sub said) said (create_or_invite env force quiet sub).
Proof.
  unfold create_or_invite_thread, create_or_invite. destruct force.
  - apply speaks_complain; [apply run_create|apply textless_nodes|]. intros n.
    destruct quiet; [apply speaks_quiet|apply speaks_out].
  - apply speaks_complain; [apply run_atomic|apply textless_nodes|]. intros [gw|]; [|apply speaks_panic].
    unfold new_request_thread, new_join_request. cbn zeta.
    destruct (node_GatewayCertBundle gw) as [b|]; [|apply speaks_panic].
    apply speaks_complain; [done|apply textless_lift|]. intros b'.
    apply speaks_complain; [apply run_atomic|apply textless_nodes|]. intros u.
    apply speaks_complain; [done|apply textless_lift|]. intros cb.
    destruct (node_WGPublicIP _) as [host|]; [|apply speaks_panic].
    apply speaks_complain; [apply run_atomic|apply textless_requests|]. intros jr.
    apply speaks_complain; [done|apply textless_lift|]. intros text.
    destruct quiet; apply speaks_out.
Qed.

(** The thread is the command: if nothing comes in between, what it does to the tables is
    what [ServerNew] does, on every branch and with every failure, and what it says is what
    the command writes. *)
Theorem server_new_thread_runs env force quiet subnet w :
  let '(o, w') := run (server_new_thread env force quiet subnet) w in
  match o with
  | Ret (out, err) =>
      LocalNodes.ServerNew env force quiet subnet w
      = (Ret tt, with_text (w_out w +:+ out) (w_err w +:+ err) w')
  | Throw e => ∃ out err, LocalNodes.ServerNew env force quiet subnet w = (Throw e, with_text out err w')
  | Panic p => ∃ out err, LocalNodes.ServerNew env force quiet subnet w = (Panic p, with_text out err w')
  | Exited p => ∃ out err, LocalNodes.ServerNew env force quiet subnet w = (Exited p, with_text out err w')
  end.
Proof.
  assert (speaks (server_new_thread env force quiet subnet) "" (LocalNodes.ServerNew env force quiet subnet)) as Hs.
  { unfold server_new_thread, LocalNodes.ServerNew.
    apply speaks_complain; [apply run_atomic|apply textless_nodes|]. intros [total available].
    apply speaks_bind; [apply run_atomic|apply textless_requests|]. intros n.
    destruct (_ || _); [apply speaks_err|].
    apply speaks_complain; [apply run_atomic|apply textless_nodes|]. intros [total' available'].
    apply speaks_bind; [apply run_atomic|apply textless_requests|]. intros m.
    destruct (_ || _); [apply speaks_err|]. cbn zeta. case_bool_decide; [apply speaks_created|].
    apply speaks_complain; [done|apply textless_lift|]. intros d.
    apply speaks_bind; [apply run_atomic|apply textless_nodes|]. intros free.
    destruct (negb free); [apply speaks_err|]. intros w1. destruct quiet; cbn [String.append].
    - exact (speaks_created env (Some subnet) force true "" w1).
    - pose proof (speaks_created env (Some subnet) force false ("Using custom Docker subnet: " +:+ subnet +:+ newline) w1) as Hcr.
      unfold mbind, M_bind, print_out. cbn [w_out w_err with_text]. rewrite str_app_nil_r. exact Hcr. }
  specialize (Hs w). rewrite str_app_nil_r, with_text_same in Hs.
  destruct (run _ w) as [[[out err]|e|p|p] w']; [by destruct Hs as (_ & _ & ?)|done..].
Qed.
End threads.

(** ** Together: who counts before the others store *)

Section together.
  Context {GN : Gorm string Node} {LN : GormLaws string Node} {GS : Gorm ServiceKey PublicService}
    {GR : Gorm string JoinRequest} {LR : GormLaws string JoinRequest} {GT : Gorm string JoinToken}
    {X : X509} {JQ : Json JoinRequest}.
Notation id_of env := (env_uuid (ce_create env)).

Lemma moves_looks {S B} (part : World → S) with_part (f : S → Out B) w h (k : B → Thread World Text) b :
  f (part w) = Ret b → with_part (part w) w = w →
  moves (λ _ _, False) w (catch (atomic (on_part part with_part (query f))) h k) w (k b).
Proof. intros Hf Hw. apply moves_query. rewrite (on_part_Ret _ _ _ _ _ _ (query_Ret _ _ _ Hf)). by rewrite Hw. Qed.

(** Once everything has been counted, the thread hands its invitation out. *)
Lemma stores_alone w env gw b' cb host key quiet text :
  can_invite w env gw b' cb host key →
  ToBase64 (LocalNodes.invitation env cb host key NodeRoleServer None) = Ret text →
  ∃ tn tr, run (create_or_invite_thread env false quiet None "") w
    = (Ret (says_token quiet text, ""), with_requests tr (with_nodes tn w)) ∧
    healthy tn ∧ healthy tr ∧
    rows tn = <[node_ID gw := set_GatewayCertBundle (Some b') gw]> (rows (w_nodes w)) ∧
    rows tr = <[id_of env := LocalNodes.invitation env cb host key NodeRoleServer None]> (rows (w_requests w)).
Proof.
  intros Hcan Htext.
  destruct (create_or_invite_runs w env gw b' cb host key quiet None text Hcan Htext)
    as (tn & tr & Hrun & Hrest).
  exists tn, tr. split; [|exact Hrest]. pose proof (speaks_created env None false quiet "" w) as Hs.
  rewrite str_app_nil_r, with_text_same, Hrun in Hs.
  destruct (run _ w) as [[[out err]|e|p|p] w2]; [|by destruct Hs as (? & ? & ?)..].
  destruct Hs as (Ho & He & Heq). injection Heq as Hn Hsv Hr Ht Hh Hout Herr Hsch Hd Hrm.
  apply str_app_inj_l in Hout. rewrite <- (str_app_nil_r (w_err w)) in Herr at 1. apply str_app_inj_l in Herr.
  subst out err. destruct w, w2. cbn in *. by subst.
Qed.

(** The certificates of the invitations, one signed after the other, and the tokens. *)
Inductive signed (host : string) : FullGatewayBundle → list CommandEnv → list string → Prop :=
| signed_none b : signed host b [] []
| signed_next b b' cb key env envs text texts :
    AddClient (env_seed (ce_create env)) (env_clock (ce_create env) 0%nat)
      (client_options (ce_create env)) b = Ret b' →
    GetClientBundlePublic (id_of env) b' = Ret cb → ce_random env 32%nat = Ret key →
    ToBase64 (LocalNodes.invitation env cb host key NodeRoleServer None) = Ret text →
    signed host b' envs texts → signed host b (env :: envs) (text :: texts).

(** They store one after the other, and every one prints its token. *)
Lemma all_store quiet host envs : ∀ b texts gw w,
  signed host b envs texts →
  ok (w_nodes w) → healthy (w_nodes w) → is_gateway_of (w_nodes w) gw →
  node_GatewayCertBundle gw = Some b → node_WGPublicIP gw = Some host → healthy (w_requests w) →
  NoDup (map (λ env, id_of env) envs) → (∀ env, env ∈ envs → rows (w_requests w) !! id_of env = None) →
  ∃ w', (∀ before, rtc (pool_step (λ _ _, False))
      (w, before ++ map (λ env, create_or_invite_thread env false quiet None "") envs)
      (w', before ++ map (λ text, Ended (Ret (says_token quiet text, ""))) texts)) ∧
    promised w' = promised w + Z.of_nat (length envs) ∧ cores (w_nodes w') = cores (w_nodes w) ∧
    (∀ env, env ∈ envs → is_Some (rows (w_requests w') !! id_of env)) ∧
    (∀ id, is_Some (rows (w_requests w) !! id) → is_Some (rows (w_requests w') !! id)).
Proof.
  induction envs as [|env envs IH]; intros b texts gw w Hsigned Hok Hn Hgw Hb Hhost Hr Hnd Hfresh.
  { inversion Hsigned; subst. exists w. split; [done|]. split; [cbn; lia|]. split; [done|].
    split; [by intros env Hin%elem_of_nil|done]. }
  inversion Hsigned as [|? b' cb key ? ? text texts' Hadd Hcb Hkey Htext Hrest]; subst.
  apply NoDup_cons in Hnd as [Hnew Hnd].
  assert (can_invite w env gw b' cb host key) as Hcan.
  { split; try done; [by exists b|]. apply Hfresh. by left. }
  destruct (stores_alone w env gw b' cb host key quiet text Hcan Htext)
    as (tn & tr & Hrun & Htn & Htr & Hrn & Hrr).
  set (gw' := set_GatewayCertBundle (Some b') gw) in *.
  set (w1 := with_requests tr (with_nodes tn w)) in *.
  assert (cores tn = cores (w_nodes w)) as Hcores.
  { unfold cores. rewrite Hrn, fmap_insert. apply insert_id. exact (cores_lookup _ _ _ (proj1 Hgw)). }
  assert (is_gateway_of tn gw') as Hgw'.
  { split; [|exact (proj2 Hgw)]. rewrite Hrn. apply lookup_insert_eq. }
  destruct (IH b' texts' gw' w1 Hrest) as (w' & Hsteps & Hp & Hc & Hall & Hkept); try done.
  { change (ok tn). unfold ok. by rewrite Hcores. }
  { intros env' Hin. change (rows tr !! id_of env' = None). rewrite Hrr, lookup_insert_ne; [apply Hfresh; by right|].
    intros E. apply Hnew. rewrite E. apply list_elem_of_fmap. by exists env'. }
  exists w'. split; [|split; [|split; [|split]]].
  - intros before. etransitivity; [apply (moves_run _ _ _ _ _ Hrun)|].
    cbn [map]. rewrite !(cons_middle (Ended (Ret (says_token quiet text, "")))), !(app_assoc before). apply Hsteps.
  - rewrite Hp. change (promised w1) with (tally for_server (rows tr)). rewrite Hrr, tally_insert by (apply Hfresh; by left).
    cbn [length]. unfold promised. change (for_server (LocalNodes.invitation env cb host key NodeRoleServer None)) with true. lia.
  - rewrite Hc. exact Hcores.
  - intros env' [->|Hin]%elem_of_cons; [|by apply Hall]. apply Hkept. change (is_Some (rows tr !! id_of env)).
    rewrite Hrr. by rewrite lookup_insert_eq.
  - intros id Hid. apply Hkept. change (is_Some (rows tr !! id)). rewrite Hrr. by apply lookup_insert_is_Some'; right.
Qed.

(** C23: the count that keeps [wireport server new] within the subnets does not keep commands
    within them that run at the same time.  On any gateway that has room for one more server,
    any number of commands that all count before the first of them stores print a token each,
    and all their requests are stored: every one is promised a subnet, however few are left by the
    gateway's own count. (Taken in turn they are refused as soon as the requests use up the
    subnets.) *)
Theorem invitations_race w gw b host quiet envs texts used subnets s nodes slots c :
  ok (w_nodes w) → healthy (w_nodes w) → is_gateway_of (w_nodes w) gw →
  node_GatewayCertBundle gw = Some b → node_WGPublicIP gw = Some host → healthy (w_requests w) →
  NoDup (map (λ env, id_of env) envs) → (∀ env, env ∈ envs → rows (w_requests w) !! id_of env = None) →
  signed host b envs texts →
  TotalAndAvailableDockerSubnets (w_nodes w) = Ret (used, subnets) →
  CountServerJoinRequests (w_requests w) = Ret s → 0 ≤ s < subnets →
  TotalAvailableWireguardClients (w_nodes w) = Ret (nodes, slots) →
  CountAllRequests (w_requests w) = Ret c → 0 ≤ c < slots →
  ∃ w', rtc (pool_step (λ _ _, False))
      (w, map (λ env, server_new_thread env false quiet "") envs)
      (w', map (λ text, Ended (Ret (says_token quiet text, ""))) texts) ∧
    (∀ env, env ∈ envs → is_Some (rows (w_requests w') !! id_of env)) ∧
    taken w' + promised w' = taken w + promised w + Z.of_nat (length envs).
Proof.
  intros Hok Hn Hgw Hb Hhost Hr Hnd Hfresh Hsigned Hsub Hs Hs' Hslots Hc Hc'.
  destruct (all_store quiet host envs b texts gw w) as (w' & Hsteps & Hp & Hcores & Hall & _); [done..|].
  exists w'. split; [|split; [done|unfold taken; rewrite Hcores; lia]].
  etransitivity; [|exact (Hsteps [])]. apply moves_all. intros env _.
  eapply moves_trans; [apply moves_looks; [exact Hsub|apply with_nodes_same]|]. cbv beta iota.
  eapply moves_trans; [apply moves_looks; [exact Hs|apply with_requests_same]|]. cbv beta.
  rewrite (proj2 (Z.leb_gt subnets 0)), (proj2 (Z.leb_gt subnets s)) by lia. cbn [orb].
  eapply moves_trans; [apply moves_looks; [exact Hslots|apply with_nodes_same]|]. cbv beta iota.
  eapply moves_trans; [apply moves_looks; [exact Hc|apply with_requests_same]|]. cbv beta.
  rewrite (proj2 (Z.leb_gt slots 0)), (proj2 (Z.leb_gt slots c)) by lia. by intros before after.
Qed.
End together.

(** ** At work *)

(** The demo gateway with ten servers invited: room for one more. *)
Definition invited_ids : list string := map (λ i, "q-" +:+ Itoa (Z.of_nat i)) (seq 0 10).
Definition ten_invited : gmap string JoinRequest :=
  list_to_map (map (λ id, (id, MkJoinRequest id "a2V5" (jr_ClientCertBundle sample_request) None
                                 "203.0.113.7" 4060 NodeRoleServer 0)) invited_ids).
Lemma ten_invited_keyed : keyedb ten_invited = true.
Proof. vm_compute. reflexivity. Qed.
Definition crowded_world : World :=
  MkWorld demo_gateway one_service (exist _ ten_invited ten_invited_keyed : request_table)
    no_tokens (MkHost sample_disk []) "" "" [] [] no_remote.

Definition inviting_env (id : string) (seed : nat) : CommandEnv :=
  MkCommandEnv (demo_env id seed) (λ _, Ret [107; 101; 121]) 9.
Definition terse_json : Json JoinRequest := {|
  json_Marshal _ := Ret [42];
  json_Unmarshal _ := Throw (Errorf "invalid character");
|}.
Definition invited_thread (env : CommandEnv) : Thread World Text :=
  server_new_thread (JQ := terse_json) env false true "".
Definition token_printed : Thread World Text := Ended (Ret ("Kg==" +:+ newline, "")).

(** In turn the second of two commands is refused. *)
Example in_turn_refused :
  ∃ complaint, complaint ≠ "" ∧
    (schedule (replicate 7 0%nat ++ replicate 7 1%nat)
       (crowded_world, [invited_thread (inviting_env "r-1" 40); invited_thread (inviting_env "r-2" 50)])).2
    = [token_printed; Ended (Ret ("", complaint))].
Proof.
  exists ("No Docker subnets available. Please delete some server nodes (total used: 1) or server join-requests (total used: 11) to free up some subnets." +:+ newline).
  split; [discriminate|]. vm_cast_no_check (eq_refl [token_printed; Ended (Ret ("",
    ("No Docker subnets available. Please delete some server nodes (total used: 1) or server join-requests (total used: 11) to free up some subnets." +:+ newline)))]).
Qed.

(** At once both get their token, and one more subnet is promised than there is. *)
Lemma crowded_bundle : ∃ b, node_GatewayCertBundle demo_gateway_node = Some b ∧
  signed (JQ := terse_json) "203.0.113.7" b [inviting_env "r-1" 40; inviting_env "r-2" 50] ["Kg=="; "Kg=="].
Proof.
  eexists. split; [vm_compute; reflexivity|].
  eapply signed_next; [vm_compute; reflexivity..|]. eapply signed_next; [vm_compute; reflexivity..|].
  constructor.
Qed.
Lemma invitations_race_witness :
  ∃ w', rtc (pool_step (λ _ _, False))
      (crowded_world, [invited_thread (inviting_env "r-1" 40); invited_thread (inviting_env "r-2" 50)])
      (w', [token_printed; token_printed]) ∧
    taken w' + promised w' = all_subnets + 1.
Proof.
  destruct crowded_bundle as (b & Hb & Hsigned).
  destruct (@invitations_race _ _ _ _ _ _ _ terse_json crowded_world demo_gateway_node b "203.0.113.7" true
    [inviting_env "r-1" 40; inviting_env "r-2" 50] ["Kg=="; "Kg=="] 1 11 10 1 253 10)
    as (w' & Hsteps & _ & Hbooks).
  - exact demo_gateway_ok.
  - exact I.
  - split; vm_compute; reflexivity.
  - exact Hb.
  - vm_compute. reflexivity.
  - exact I.
  - apply (bool_decide_unpack _). vm_compute. reflexivity.
  - intros env [->|[->|[]%elem_of_nil]%elem_of_cons]%elem_of_cons; vm_compute; reflexivity.
  - exact Hsigned.
  - vm_compute. reflexivity.
  - vm_compute. reflexivity.
  - split; [discriminate|reflexivity].
  - vm_compute. reflexivity.
  - vm_compute. reflexivity.
  - split; [discriminate|reflexivity].
  - exists w'. split; [exact Hsteps|]. rewrite Hbooks. vm_compute. reflexivity.
Defined.
