(* ===== verification/Cli.v ===== *)
(** * The command line: [cmd/server/commands/]

    What each command does with its arguments and flags before it hands over to the commands
    service ([Commands.v], [Lifecycle.v]): the addresses and credentials it reads, the checks
    it makes, the questions it asks. A command here takes its flags as arguments; CommandLine
    says where they come from. What is typed at the
    terminal is an argument. [cmd.Printf] and [cmd.PrintErrf] both write to [stderr]. *)
From S2P Require Import Prelude GoStrings GoNet Mtls NodeTypes Gorm.
From S2P Require Import NodesRepo NodesQueries PublicServices NodeConfigs JoinStore NetworkApps.
From S2P Require Import NodesDemo Aes CommandTypes JoinClient Addresses Docker.
From S2P Require Import Ssh World DockerSocket LocalJoin LocalService LocalNodes.
From S2P Require Import ApiCommands Commands Reconcile Machines Lifecycle.

(** What [fmt.Scanln] and [term.ReadPassword] give: no command calls either twice. *)
Record Typed : Type := MkTyped {
  Scanln : error + string;
  ReadPassword : error + string;
}.

(** The flags [--ssh-key-path] and [--ssh-key-pass-empty]. *)
Record SshFlags : Type := MkSshFlags {
  ssh_key_path : string;
  ssh_key_pass_empty : bool;
}.

Section command_line.
  Context `{GN : Gorm string Node} `{GS : Gorm ServiceKey PublicService}
    `{GR : Gorm string JoinRequest} `{GT : Gorm string JoinToken} `{R : Raymond} `{X : X509}
    `{SL : SshLib} `{JQ : Json JoinRequest} `{JD : Json JoinRequestDTO} `{JP : Json JoinResponseDTO}
    `{AJ : ApiJson}.
  Context (paths : ConfigPaths) (sh : nat → string → option string) (http : Transport).
  Context (typed : Typed).

(** [readPasswordSecurely(prompt, stdOut, errOut, promptToErr)] *)
Definition readPasswordSecurely (prompt : string) (promptToErr : bool) : M World string :=
  let say := if promptToErr then print_err else print_out in
  _ ← say prompt;
  _ ← say newline;
  match ReadPassword typed with
  | inl err => throw err
  | inr bytePassword => mret bytePassword
  end.

Definition errWrongArgs : string :=
  "wrong arguments; use positional argument to specify the SSH credentials (username@hostname[:port])".

(** Without a positional argument: the gateway's address, and the user name asked for. *)
Definition gateway_login (promptToErr : bool) : M World (string * string * Z) :=
  r ← attempt (on_nodes (query GetGatewayNode));
  match r with
  | inl err => throw (Errorf ("failed to get gateway node from database: " +:+ error_text err +:+ ": " +:+ errWrongArgs))
  | inr None => throw (Errorf ("no gateway node found in database: " +:+ errWrongArgs))
  | inr (Some gatewayNode) =>
      if bool_decide (node_GatewayPublicIP gatewayNode = "")
      then throw (Errorf ("gateway node public IP is not set: " +:+ errWrongArgs))
      else
        let say := if promptToErr then print_err else print_out in
        _ ← say ("🔍 Using the bootstrapped gateway node: " +:+ node_GatewayPublicIP gatewayNode +:+ newline);
        _ ← say "👤 Enter SSH username: ";
        match Scanln typed with
        | inl err => throw (Errorf ("failed to read SSH username: " +:+ error_text err))
        | inr username =>
            if bool_decide (username = "") then throw (Errorf "SSH username is required")
            else mret (username, node_GatewayPublicIP gatewayNode, 22)
        end
  end.

(** The key or the password the login is made with. *)
Definition authentication (flags : SshFlags) (promptToErr : bool) : M World (string * string * string) :=
  if bool_decide (ssh_key_path flags = "") then
    r ← attempt (readPasswordSecurely "🔒 Enter SSH password: " promptToErr);
    match r with
    | inl err => throw (Errorf ("failed to read password: " +:+ error_text err))
    | inr password => mret ("", "", password)
    end
  else if ssh_key_pass_empty flags then mret (ssh_key_path flags, "", "")
  else
    r ← attempt (readPasswordSecurely "🔒 Enter SSH key passphrase (leave empty if none): " promptToErr);
    mret (ssh_key_path flags, match r with inr passphrase => passphrase | inl _ => "" end, "").

(** [buildSSHCredentials(cmd, args, useGatewayNodeIfNoArgs, promptToErr, sshKeyPassSkip)] *)
Definition buildSSHCredentials (flags : SshFlags) (args : list string)
    (useGatewayNodeIfNoArgs promptToErr : bool) : M World Credentials :=
  '(username, host, port) ←
    match args with
    | url :: _ =>
        match parseSSHURL url with
        | Throw err => throw (Errorf ("failed to parse SSH URL '" +:+ url +:+ "': " +:+ error_text err))
        | o => lift o
        end
    | [] =>
        if negb useGatewayNodeIfNoArgs then throw (Errorf errWrongArgs)
        else gateway_login promptToErr
    end;
  if bool_decide (host = "")
  then throw (Errorf "SSH host is required. Use positional argument (username@hostname[:port])")
  else if bool_decide (username = "")
  then throw (Errorf "SSH username is required. Use positional argument (username@hostname[:port])")
  else
    '(keyPath, passphrase, password) ← authentication flags promptToErr;
    if bool_decide (keyPath = "") && bool_decide (password = "")
    then throw (Errorf "SSH authentication is required. Use --ssh-key-path flag or provide password interactively")
    else mret (MkCredentials host port username password keyPath [] passphrase).

(** Credentials, or the end of the command. *)
Definition or_fail_with {A} : M World A → (A → M World unit) → M World unit := or_complain "❌ Error: ".

(** The question before a machine is wiped. *)
Definition confirmed (force : bool) (machine : string) (k : M World unit) : M World unit :=
  if force then k
  else
    _ ← print_err ("🔴 WARNING: This command will destroy all wireport data and configuration on the " +:+
          machine +:+ " node." +:+ newline +:+ "Are you sure you want to continue? (y/n): ");
    match Scanln typed with
    | inl err => print_err ("❌ Error: " +:+ error_text err +:+ newline)
    | inr confirm =>
        if bool_decide (confirm = "y") then k else print_err ("❌ Aborted" +:+ newline)
    end.
Definition maybe_credentials (flags : SshFlags) (args : list string) (useGateway : bool)
    (k : option Credentials → M World unit) : M World unit :=
  match args with
  | [] => k None
  | _ => or_fail_with (buildSSHCredentials flags args useGateway false) (λ creds, k (Some creds))
  end.
End command_line.

Module Cli.
Section commands.
  Context `{GN : Gorm string Node} `{GS : Gorm ServiceKey PublicService}
    `{GR : Gorm string JoinRequest} `{GT : Gorm string JoinToken} `{R : Raymond} `{X : X509}
    `{SL : SshLib} `{JQ : Json JoinRequest} `{JD : Json JoinRequestDTO} `{JP : Json JoinResponseDTO}
    `{AJ : ApiJson}.
  Context (paths : ConfigPaths) (sh : nat → string → option string) (http : Transport).
  Context (typed : Typed) (env : JoinEnv).

(** [gateway.go] *)
Definition GatewayStart (create : CreateEnv) (serves : TLSConfig → string)
    (publicIP : error + (error + string)) (configureOnly : bool) : M World unit :=
  or_complain "Error: " (lift (GetPublicIP publicIP)) (λ gatewayPublicIP,
  Life.GatewayStart paths create serves gatewayPublicIP configureOnly).
Definition GatewayStatus (flags : SshFlags) (args : list string) : M World unit :=
  or_fail_with (buildSSHCredentials typed flags args true false) Machines.GatewayStatus.
Definition GatewayUp (flags : SshFlags) (args : list string) (image imageTag : string) : M World unit :=
  or_fail_with (buildSSHCredentials typed flags args true true)
    (λ creds, Life.GatewayUp paths sh env creds image imageTag).
Definition GatewayDown (flags : SshFlags) (force : bool) (args : list string) : M World unit :=
  confirmed typed force "gateway" (maybe_credentials typed flags args true (Life.GatewayDown http)).
Definition GatewayUpgrade (flags : SshFlags) (args : list string) (image imageTag : string) : M World unit :=
  or_fail_with (buildSSHCredentials typed flags args true false)
    (λ creds, Life.GatewayUpgrade creds image imageTag).

(** [server.go] *)
Definition ServerNew (cenv : CommandEnv) (force quiet : bool) (dockerSubnet : string) : M World unit :=
  Cmd.ServerNew http cenv force quiet dockerSubnet.
Definition ServerStart (sock : SocketState) (order : LabelOrder) (tries : nat → JoinEnv)
    (depth attempts rounds : nat) : M World unit :=
  Life.ServerStart paths sh sock http order tries depth attempts rounds.
Definition ServerList : M World unit := Cmd.ServerList http None.
Definition ServerStatus (flags : SshFlags) (args : list string) : M World unit :=
  or_fail_with (buildSSHCredentials typed flags args false false) Machines.ServerStatus.
Definition ServerUp (cenv : CommandEnv) (elapsed : nat → Z) (flags : SshFlags) (args : list string)
    (image imageTag dockerSubnet : string) : M World unit :=
  or_fail_with (buildSSHCredentials typed flags args false false) (λ creds,
  let up := Life.ServerUp paths env http cenv elapsed creds image imageTag dockerSubnet in
  if bool_decide (dockerSubnet = "") then up
  else or_complain "❌ Failed to parse Docker subnet: " (lift (ParseIPNetMarshable dockerSubnet true)) (λ _, up)).
Definition ServerDown (flags : SshFlags) (force : bool) (args : list string) : M World unit :=
  confirmed typed force "server" (maybe_credentials typed flags args false (Life.ServerDown env http)).
Definition ServerUpgrade (flags : SshFlags) (args : list string) (image imageTag : string) : M World unit :=
  or_fail_with (buildSSHCredentials typed flags args false false)
    (λ creds, Life.ServerUpgrade creds image imageTag).
Definition validateNodeIPAndLabel (nodeIP label : string) : Out unit :=
  if bool_decide (TrimSpace nodeIP = "") || bool_decide (TrimSpace label = "")
  then Throw (Errorf "node IP and label must be non-empty")
  else Ret tt.
Definition ServerLabelAdd (nodeIP label : string) : M World unit :=
  or_fail_with (lift (validateNodeIPAndLabel nodeIP label)) (λ _, Cmd.NodeLabelAdd http nodeIP label).
Definition ServerLabelRemove (nodeIP label : string) : M World unit :=
  or_fail_with (lift (validateNodeIPAndLabel nodeIP label)) (λ _, Cmd.NodeLabelRemove http nodeIP label).

(** [client.go] *)
Definition ClientNew (meanwhile : nat → World → World) (cenv : CommandEnv)
    (joinRequest quiet wait : bool) : M World unit :=
  Cmd.ClientNew paths sh http meanwhile cenv joinRequest quiet wait.
Definition ClientList : M World unit := Cmd.ClientList http None.

(** [join.go] *)
Definition Join (postponed : bool) (now : Z) (args : list string) : M World unit :=
  match args with
  | [joinToken] =>
      if bool_decide (joinToken = "") then print_err ("Provide a join token" +:+ newline)
      else if postponed
      then or_complain "Failed to create join token: " (on_tokens (CreateToken joinToken now)) (λ _,
             print_err ("Join token has been saved and will be applied on the next server start" +:+ newline))
      else Life.Join paths sh env joinToken
  | _ => print_err ("Provide a join token" +:+ newline)
  end.

(** [service.go] *)
Definition parsed (which addr : string) (k : string → string → Z → M World unit) : M World unit :=
  or_complain ("❌ Error: " +:+ which +:+ " address parsing failed: ") (lift (ParseAddress addr))
    (λ '(protocol, host, port), k protocol host port).

(** A layer 4 service is published under its own protocol. *)
Definition mixed_layers (localProtocol publicProtocol : string) : bool :=
  (bool_decide (localProtocol = "tcp") && negb (bool_decide (publicProtocol = "tcp"))) ||
  (bool_decide (localProtocol = "udp") && negb (bool_decide (publicProtocol = "udp"))).

Definition ServicePublish (local public : string) : M World unit :=
  parsed "local" local (λ localProtocol localHost localPort,
  parsed "public" public (λ publicProtocol publicHost publicPort,
  if publicPort =? ControlServerPort
  then print_err ("❌ Error: port " +:+ Itoa ControlServerPort +:+ " is reserved for wireport control plane and cannot be used for publishing services" +:+ newline)
  else if mixed_layers localProtocol publicProtocol
  then print_err ("❌ Error: local protocol and public protocol must be the same for layer 4 services (tcp -> tcp or udp -> udp)" +:+ newline)
  else
    or_complain "❌ Error: failed to get current node: " (on_nodes (query GetCurrentNode)) (λ currentNode,
    Cmd.ServicePublish paths sh http (Some (node_ID currentNode)) localProtocol localHost localPort
      publicProtocol publicHost publicPort))).
Definition ServiceList : M World unit := Cmd.ServiceList http.
Definition ServiceUnpublish (public : string) : M World unit :=
  parsed "public" public (Cmd.ServiceUnpublish paths sh http).
Definition ServiceParamNew (public paramValue : string) : M World unit :=
  parsed "public" public (λ publicProtocol publicHost publicPort,
  Cmd.ServiceParamNew paths sh http publicProtocol publicHost publicPort
    PublicServiceParamTypeCaddyFreeText paramValue).
Definition ServiceParamRemove (public paramValue : string) : M World unit :=
  or_complain "Error parsing public address: " (lift (ParseAddress public))
    (λ '(publicProtocol, publicHost, publicPort),
  Cmd.ServiceParamRemove paths sh http publicProtocol publicHost publicPort
    PublicServiceParamTypeCaddyFreeText paramValue).
Definition ServiceParamList (public : string) : M World unit :=
  parsed "public" public (Cmd.ServiceParamList http).
End commands.
End Cli.

(** ** Properties *)

(** What a login has to have. *)
Record complete (c : Credentials) : Prop := {
  has_host : cred_Host c ≠ "";
  has_user : cred_Username c ≠ "";
  has_port : 0 ≤ cred_Port c ≤ 65535;
  has_key_or_password : cred_PrivateKeyPath c ≠ "" ∨ cred_Password c ≠ "";
}.

Section properties.
  Context {GN : Gorm string Node} {GS : Gorm ServiceKey PublicService}
    {GR : Gorm string JoinRequest} {GT : Gorm string JoinToken} {R : Raymond} {X : X509}
    {SL : SshLib} {JQ : Json JoinRequest} {JD : Json JoinRequestDTO} {JP : Json JoinResponseDTO}
    {AJ : ApiJson} {LT : GormLaws string JoinToken}.
  Context (paths : ConfigPaths) (sh : nat → string → option string) (http : Transport).
  Context (typed : Typed).

Ltac only_talks :=
  repeat first
    [ progress intros
    | apply preserves_bind
    | apply preserves_attempt
    | apply (preserves_ret _) | apply (preserves_throw _) | apply (preserves_lift _)
    | apply preserves_query_nodes
    | apply preserves_out; apply _ | apply preserves_err; apply _
    | match goal with
      | |- preserves _ (match ?x with _ => _ end) => destruct x
      | |- preserves _ ((if ?b then _ else _) _) => destruct b
      end ].

Lemma login_talks toErr w0 : preserves (only_text w0) (gateway_login typed toErr).
Proof. unfold gateway_login. cbn zeta. only_talks. Qed.
Lemma authentication_talks flags toErr w0 : preserves (only_text w0) (authentication typed flags toErr).
Proof. unfold authentication, readPasswordSecurely. cbn zeta. only_talks. Qed.

Lemma gateway_login_Ret toErr w user host port w' :
  gateway_login typed toErr w = (Ret (user, host, port), w') → port = 22.
Proof.
  unfold gateway_login. intros (r & w1 & _ & H)%M_bind_Ret_inv. destruct r as [e|[n|]]; [done| |done].
  case_bool_decide; [done|]. cbn zeta in H.
  apply M_bind_Ret_inv in H as ([] & w2 & _ & H). apply M_bind_Ret_inv in H as ([] & w3 & _ & H).
  destruct (Scanln typed); [done|]. case_bool_decide; [done|]. by injection H.
Qed.

(** C35: whatever is typed and whatever the database holds, the credentials a command goes on
    with are complete: a host, a user, a port, and a key or a password; and asking for them
    has only written to the terminal. *)
Theorem buildSSHCredentials_complete flags args useGateway toErr w o w' :
  buildSSHCredentials typed flags args useGateway toErr w = (o, w') →
  only_text w w' ∧ ∀ c, o = Ret c → complete c.
Proof.
  intros Hrun. split.
  - refine (triple_any (only_text w) _ (only_text w) _ _ _ _ _ Hrun);
      [|by exists (w_out w), (w_err w); destruct w].
    pose proof (λ toErr, login_talks toErr w). pose proof (λ flags toErr, authentication_talks flags toErr w).
    unfold buildSSHCredentials. only_talks; auto.
  - intros c ->. unfold buildSSHCredentials in Hrun.
    apply M_bind_Ret_inv in Hrun as ([[user host] port] & w1 & Hlogin & Hrun).
    case_bool_decide as Hhost; [done|]. case_bool_decide as Huser; [done|].
    apply M_bind_Ret_inv in Hrun as ([[key pass] password] & w2 & _ & Hrun).
    destruct (bool_decide_reflect (key = "")) as [->|Hkey], (bool_decide_reflect (password = "")) as [->|Hpw];
      cbn in Hrun; try done; injection Hrun as <- <-.
    all: split; cbn; auto.
    all: destruct args as [|url args]; [destruct useGateway; [|done]; apply gateway_login_Ret in Hlogin; lia|].
    all: destruct (parseSSHURL url) as [[[u h] p]|e|e|e] eqn:E; try done; injection Hlogin as -> -> -> _.
    all: by apply parseSSHURL_Ret in E as (_ & _ & ?).
Qed.

(** What may be published. *)
Record publishable (local public lp lh : string) (lport : Z) (pp ph : string) (pport : Z) : Prop := {
  local_parsed : ParseAddress local = Ret (lp, lh, lport);
  public_parsed : ParseAddress public = Ret (pp, ph, pport);
  not_control_port : pport ≠ ControlServerPort;
  same_layer : lp = "tcp" ∨ lp = "udp" → pp = lp;
}.

Lemma mixed_layers_spec lp pp : Cli.mixed_layers lp pp = false ↔ (lp = "tcp" ∨ lp = "udp" → pp = lp).
Proof.
  unfold Cli.mixed_layers. rewrite orb_false_iff, !andb_false_iff, !negb_false_iff, !bool_decide_eq_true,
    !bool_decide_eq_false.
  destruct (decide (lp = "tcp")), (decide (lp = "udp")); intuition congruence.
Qed.
Lemma parsed_Ret which addr (k : string → string → Z → M World unit) protocol host port w :
  ParseAddress addr = Ret (protocol, host, port) → Cli.parsed which addr k w = k protocol host port w.
Proof. intros H. unfold Cli.parsed. by rewrite (or_complain_Ret _ _ _ _ _ _ (lift_Ret _ w _ H)). Qed.

Lemma on_part_text {S A} (part : World → S) with_part (c : M S A) w e :
  c (part w) = (Throw e, part w) → with_part (part w) w = w → on_part part with_part c w = (Throw e, w).
Proof. intros Hc Hw. rewrite (on_part_Throw _ _ _ _ _ _ Hc). by rewrite Hw. Qed.

(** Why addresses are not published, and what is said of it: an address that cannot be read,
    the local one first; the gateway's own port; a layer 4 service under another protocol. *)
Inductive complaint (local public : string) : string → Prop :=
| local_unread e : ParseAddress local = Throw e →
    complaint local public ("❌ Error: local address parsing failed: " +:+ error_text e)
| public_unread l e : ParseAddress local = Ret l → ParseAddress public = Throw e →
    complaint local public ("❌ Error: public address parsing failed: " +:+ error_text e)
| control_port l pp ph : ParseAddress local = Ret l → ParseAddress public = Ret (pp, ph, ControlServerPort) →
    complaint local public ("❌ Error: port " +:+ Itoa ControlServerPort +:+
      " is reserved for wireport control plane and cannot be used for publishing services")
| layers_mixed lp lh lport pp ph pport :
    ParseAddress local = Ret (lp, lh, lport) → ParseAddress public = Ret (pp, ph, pport) →
    pport ≠ ControlServerPort → lp = "tcp" ∨ lp = "udp" → pp ≠ lp →
    complaint local public
      "❌ Error: local protocol and public protocol must be the same for layer 4 services (tcp -> tcp or udp -> udp)".

Lemma parsed_Throw which addr (k : string → string → Z → M World unit) e w :
  ParseAddress addr = Throw e →
  Cli.parsed which addr k w = print_err ("❌ Error: " +:+ which +:+ " address parsing failed: " +:+ error_text e +:+ newline) w.
Proof. intros H. unfold Cli.parsed. rewrite H. by rewrite (or_complain_Throw _ (lift (Throw e)) _ w e w eq_refl), !str_app_assoc. Qed.
Lemma publishable_or_not local public :
  (∃ lp lh lport pp ph pport, publishable local public lp lh lport pp ph pport) ∨
  ∃ text, complaint local public text.
Proof.
  destruct (ParseAddress_ends local) as [[[[lp lh] lport] Hl]|[e He]]; [|right; eexists; by apply local_unread].
  destruct (ParseAddress_ends public) as [[[[pp ph] pport] Hp]|[e He]]; [|right; eexists; by eapply public_unread].
  destruct (decide (pport = ControlServerPort)) as [->|Hc]; [right; eexists; by eapply control_port|].
  destruct (Cli.mixed_layers lp pp) eqn:Hm.
  - right. eexists. unfold Cli.mixed_layers in Hm.
    apply (layers_mixed _ _ lp lh lport pp ph pport); try done.
    all: apply orb_true_iff in Hm as [[<-%bool_decide_eq_true Hm]%andb_true_iff|[<-%bool_decide_eq_true Hm]%andb_true_iff].
    all: rewrite negb_true_iff, bool_decide_eq_false in Hm; auto.
  - left. exists lp, lh, lport, pp, ph, pport. split; [done..|]. by apply mixed_layers_spec.
Qed.

(** C34: [wireport service publish] hands over to the service exactly the addresses that
    parse, with a public port that is not the gateway's own, and a layer 4 service only
    under its own protocol, in the name of the current node; when that node cannot be read it
    says so and publishes nothing.  Any other two addresses are answered with their
    complaint: one line on the error stream, and nothing else of the world has changed. *)
Theorem publish_checked local public w :
  let run := Cli.ServicePublish paths sh http local public w in
  let refused text := (Ret tt, with_text (w_out w) (w_err w +:+ text +:+ newline) w) in
  (∀ lp lh lport pp ph pport, publishable local public lp lh lport pp ph pport →
     (∀ n, GetCurrentNode (w_nodes w) = Ret n →
        run = Cmd.ServicePublish paths sh http (Some (node_ID n)) lp lh lport pp ph pport w) ∧
     (∀ e, GetCurrentNode (w_nodes w) = Throw e →
        run = refused ("❌ Error: failed to get current node: " +:+ error_text e))) ∧
  (∀ text, complaint local public text → run = refused text) ∧
  ((∃ lp lh lport pp ph pport, publishable local public lp lh lport pp ph pport) ∨
   ∃ text, complaint local public text).
Proof.
  intros run refused. subst run refused. unfold Cli.ServicePublish. split; [|split; [|apply publishable_or_not]].
  - intros lp lh lport pp ph pport [Hl Hp Hc Hm].
    rewrite (parsed_Ret _ _ _ _ _ _ _ Hl), (parsed_Ret _ _ _ _ _ _ _ Hp).
    destruct (Z.eqb_spec pport ControlServerPort) as [?|_]; [done|].
    rewrite (proj2 (mixed_layers_spec lp pp) Hm). split.
    + intros n Hn. erewrite or_complain_Ret; [|apply on_part_Ret, query_Ret, Hn]. by rewrite with_nodes_same.
    + intros e He. erewrite or_complain_Throw; [by rewrite <- str_app_assoc|].
      apply on_part_text; [unfold query; by rewrite He|apply with_nodes_same].
  - intros text [e He|[[lp lh] lport] e Hl He|[[lp lh] lport] pp ph Hl Hp|lp lh lport pp ph pport Hl Hp Hc Hlp Hm].
    + by rewrite (parsed_Throw _ _ _ _ _ He).
    + by rewrite (parsed_Ret _ _ _ _ _ _ _ Hl), (parsed_Throw _ _ _ _ _ He).
    + by rewrite (parsed_Ret _ _ _ _ _ _ _ Hl), (parsed_Ret _ _ _ _ _ _ _ Hp).
    + rewrite (parsed_Ret _ _ _ _ _ _ _ Hl), (parsed_Ret _ _ _ _ _ _ _ Hp).
      destruct (Z.eqb_spec pport ControlServerPort); [done|].
      destruct (Cli.mixed_layers lp pp) eqn:E; [done|]. by apply mixed_layers_spec in E; [rewrite E in Hm|].
Qed.

(** [wireport join --postponed] stores its token as the last one and changes nothing
    else, so that the server's next start joins with it: the first attempt that lets it in
    ends the wait. A token that is stored already is refused, and the store is as it was. *)
Theorem postponed_join env now tok w :
  tok ≠ "" → healthy (w_tokens w) →
  (rows (w_tokens w) !! tok ≠ None → ∃ e,
     Cli.Join paths sh env true now [tok] w
     = (Ret tt, with_text (w_out w)
         (w_err w +:+ "Failed to create join token: " +:+ error_text e +:+ newline) w)) ∧
  (rows (w_tokens w) !! tok = None →
   (∀ k x, rows (w_tokens w) !! k = Some x → jt_CreatedAt x < now) → ∃ t err,
     let w1 := with_text (w_out w) err (with_tokens t w) in
     Cli.Join paths sh env true now [tok] w = (Ret tt, w1) ∧
     GetLastToken t = Ret (MkJoinToken tok now) ∧
     ∀ envs attempts i said w2,
       print_out ("Attempting to join wireport network using a stored join token" +:+ newline) w1 = (Ret tt, said) →
       LocalJoin.Join paths sh (envs i) tok said = (Ret true, w2) →
       Life.join_until paths sh envs (S attempts) i w1 = (Ret true, w2)).
Proof.
  intros Htok Hh. unfold Cli.Join. rewrite bool_decide_eq_false_2 by done. cbn [String.eqb]. split.
  - intros Hin. destruct (create_clash (MkJoinToken tok now) (w_tokens w) Hh Hin) as [e He].
    exists e. erewrite or_complain_Throw; [reflexivity|].
    apply on_part_text; [exact He|by destruct w].
  - intros Hfresh Hnew. destruct (last_created _ _ _ Hh Hfresh Hnew) as (t & Hc & Ht & Hlast).
    assert (on_tokens (CreateToken tok now) w = (Ret (MkJoinToken tok now), with_tokens t w)) as Hrun
      by by apply on_part_Ret.
    exists t. eexists. cbn zeta. split; [by rewrite (or_complain_Ret _ _ _ _ _ _ Hrun)|].
    split; [exact Hlast|]. intros envs attempts i said w2 Hsay Hjoin. cbn [Life.join_until].
    rewrite (M_bind_Ret _ _ _ _ _ Hsay). injection Hsay as <-.
    erewrite M_bind_Ret; [|unfold attempt, on_tokens, on_part, query; cbn -[GetLastToken]; rewrite Hlast; reflexivity].
    cbv beta iota. by rewrite (M_bind_Ret _ _ _ _ _ Hjoin).
Qed.
End properties.

(** ** At work *)

Definition at_the_terminal : Typed := MkTyped (inr "root") (inr "secret").

Lemma buildSSHCredentials_complete_witness :
  ∃ c, (buildSSHCredentials at_the_terminal (MkSshFlags "" false) ["admin@192.0.2.7:2222"] false false fresh_world).1
       = Ret c ∧ cred_Port c = 2222 ∧ complete c.
Proof.
  destruct (buildSSHCredentials_complete at_the_terminal (MkSshFlags "" false) ["admin@192.0.2.7:2222"]
    false false fresh_world _ _ (surjective_pairing _)) as [_ Hc].
  eexists. split; [vm_compute; reflexivity|]. split; [reflexivity|]. apply Hc. vm_compute. reflexivity.
Defined.

Definition postponed_world : World :=
  (Cli.Join (R := toy_raymond) (JQ := one_value_json sample_request) (JD := one_value_json (MkJoinRequestDTO "Kg=="))
     (JP := no_json) sample_paths (λ _ _, None) answering true 7 ["Kg=="] fresh_world).2.

Lemma postponed_join_witness :
  ∃ t err, (Cli.Join (R := toy_raymond) (JQ := one_value_json sample_request)
     (JD := one_value_json (MkJoinRequestDTO "Kg==")) (JP := no_json) sample_paths (λ _ _, None) answering
     true 7 ["Kg=="] fresh_world) = (Ret tt, with_text (w_out fresh_world) err (with_tokens t fresh_world)) ∧
  GetLastToken t = Ret (MkJoinToken "Kg==" 7).
Proof.
  destruct (@postponed_join _ _ _ _ toy_raymond _ (one_value_json sample_request)
    (one_value_json (MkJoinRequestDTO "Kg==")) no_json _ sample_paths (λ _ _, None) answering 7 "Kg=="
    fresh_world) as [_ Hok]; [discriminate|exact I|].
  destruct Hok as (t & err & Hrun & Hlast & _); [vm_compute; reflexivity|intros k x Hx; vm_compute in Hx; discriminate Hx|].
  exists t, err. split; [exact Hrun|exact Hlast].
Defined.

Definition gateway_world : World := with_nodes demo_gateway fresh_world.

Lemma demo_publishable :
  publishable "http://10.0.0.2:3000" "https://demo.example.com:443" "http" "10.0.0.2" 3000 "https" "demo.example.com" 443.
Proof. split; [vm_compute; reflexivity|vm_compute; reflexivity|discriminate|intros [E|E]; discriminate E]. Qed.
Lemma demo_control_port :
  complaint "http://10.0.0.2:3000" "https://demo.example.com:4060" ("❌ Error: port " +:+ Itoa ControlServerPort +:+
    " is reserved for wireport control plane and cannot be used for publishing services").
Proof. apply (control_port _ _ ("http", "10.0.0.2", 3000) "https" "demo.example.com"); vm_compute; reflexivity. Qed.
(** A service that is published, one for the gateway's own port, and one on a machine that
    has no node yet. *)
Lemma publish_checked_witness :
  let publish := Cli.ServicePublish (R := toy_raymond) (AJ := no_api_json) sample_paths (λ _ _, None) no_network in
  publish "http://10.0.0.2:3000" "https://demo.example.com:443" gateway_world
  = Cmd.ServicePublish (R := toy_raymond) (AJ := no_api_json) sample_paths (λ _ _, None) no_network
      (Some (node_ID (demo_node "gw" demo_gateway))) "http" "10.0.0.2" 3000 "https" "demo.example.com" 443 gateway_world ∧
  (∃ text, text = "❌ Error: port 4060 is reserved for wireport control plane and cannot be used for publishing services" ∧
     publish "http://10.0.0.2:3000" "https://demo.example.com:4060" gateway_world
     = (Ret tt, with_text (w_out gateway_world) (w_err gateway_world +:+ text +:+ newline) gateway_world)) ∧
  publish "http://10.0.0.2:3000" "https://demo.example.com:443" fresh_world
  = (Ret tt, with_text (w_out fresh_world) (w_err fresh_world +:+
       ("❌ Error: failed to get current node: " +:+ error_text ErrRecordNotFound) +:+ newline) fresh_world).
Proof.
  intros publish. subst publish. cbv beta. split; [|split].
  - pose proof (@publish_checked _ _ _ _ toy_raymond _ no_api_json sample_paths (λ _ _, None)
      no_network "http://10.0.0.2:3000" "https://demo.example.com:443" gateway_world) as H. cbv zeta in H.
    assert (GetCurrentNode (w_nodes gateway_world) = Ret (demo_node "gw" demo_gateway)) as Hn by (vm_compute; reflexivity).
    exact (proj1 (proj1 H _ _ _ _ _ _ demo_publishable) _ Hn).
  - pose proof (@publish_checked _ _ _ _ toy_raymond _ no_api_json sample_paths (λ _ _, None)
      no_network "http://10.0.0.2:3000" "https://demo.example.com:4060" gateway_world) as H. cbv zeta in H.
    eexists. split; [|exact (proj1 (proj2 H) _ demo_control_port)]. vm_compute. reflexivity.
  - pose proof (@publish_checked _ _ _ _ toy_raymond _ no_api_json sample_paths (λ _ _, None)
      no_network "http://10.0.0.2:3000" "https://demo.example.com:443" fresh_world) as H. cbv zeta in H.
    assert (GetCurrentNode (w_nodes fresh_world) = Throw ErrRecordNotFound) as Hn by (vm_compute; reflexivity).
    exact (proj2 (proj1 H _ _ _ _ _ _ demo_publishable) _ Hn).
Defined.
