(* ===== verification/CommandLine.v ===== *)
(** * Running a command line: [cmd/server/commands/] under [cobra]

    The [Run] function of every command, as it reads the package's variables, the flag
    [--ssh-key-path] and its arguments, over the operations of Cli; and [rootCmd.Execute()].
    What the flags of a command mean is stated without the variables, from the flags alone:
    the two agree although variables are shared between commands. *)
From S2P Require Import Prelude GoStrings GoNet Mtls NodeTypes Gorm.
From S2P Require Import NodesRepo PublicServices NodeConfigs JoinStore NetworkApps.
From S2P Require Import NodesDemo Aes CommandTypes JoinClient Addresses Docker.
From S2P Require Import Ssh World DockerSocket LocalJoin LocalService LocalNodes.
From S2P Require Import ApiCommands Commands Reconcile Machines Lifecycle Cli CommandTree.

(** What is around the program while it runs: what is typed, what the machine gives. *)
Record Surroundings : Type := MkSurroundings {
  sr_typed : Typed;
  sr_join : JoinEnv;
  sr_create : CreateEnv;
  sr_command : CommandEnv;
  sr_serves : TLSConfig → string;
  sr_public_ip : error + (error + string);
  sr_elapsed : nat → Z;
  sr_socket : SocketState;
  sr_order : LabelOrder;
  sr_tries : nat → JoinEnv;
  sr_depth : nat;
  sr_attempts : nat;
  sr_rounds : nat;
  sr_now : Z;
}.

Section command_line.
  Context {GN : Gorm string Node} {GS : Gorm ServiceKey PublicService}
    {GR : Gorm string JoinRequest} {GT : Gorm string JoinToken} {R : Raymond} {X : X509}
    {SL : SshLib} {JQ : Json JoinRequest} {JD : Json JoinRequestDTO} {JP : Json JoinResponseDTO}
    {AJ : ApiJson} {CB : Cobra}.
  Context (paths : ConfigPaths) (sh : nat → string → option string) (http : Transport).
  Context (sr : Surroundings) (meanwhile : nat → World → World) (Version : string).

(** [cmd.Flag("ssh-key-path").Value.String()], where [buildSSHCredentials] is called: a flag
    the command does not declare is a nil pointer. *)
Definition with_key (flag : string → option Value) (k : string → M World unit) : M World unit :=
  match flag "ssh-key-path" with
  | Some v => k (value_text v)
  | None => lift (Panic "invalid memory address or nil pointer dereference")
  end.
(** [args[0]] and [args[1]] *)
Definition two_args (args : list string) (k : string → string → M World unit) : M World unit :=
  match args with
  | a :: b :: _ => k a b
  | _ => lift (Panic "index out of range")
  end.

(** The [Run] function of each command: [g] is what the package's variables hold, [flag] is
    [cmd.Flag]. *)
Definition Run (c : Command) (g : Globals) (flag : string → option Value) (args : list string) :
    M World unit :=
  let b v := as_bool (g v) in
  let s v := as_text (g v) in
  let gateway_ssh k := with_key flag (λ key, k (MkSshFlags key (b GatewaySSHKeyPassEmpty))) in
  let server_ssh k := with_key flag (λ key, k (MkSshFlags key (b ServerSSHKeyPassEmpty))) in
  match c with
  | StartGatewayCmd => Cli.GatewayStart paths (sr_create sr) (sr_serves sr) (sr_public_ip sr) (b GatewayStartConfigureOnly)
  | StatusGatewayCmd => gateway_ssh (λ f, Cli.GatewayStatus (sr_typed sr) f args)
  | UpGatewayCmd => gateway_ssh (λ f, Cli.GatewayUp paths sh (sr_typed sr) (sr_join sr) f args
      (s GatewayDockerImage) (s GatewayDockerImageTag))
  | DownGatewayCmd => gateway_ssh (λ f, Cli.GatewayDown http (sr_typed sr) f (b forceGatewayTeardown) args)
  | UpgradeGatewayCmd => gateway_ssh (λ f, Cli.GatewayUpgrade (sr_typed sr) f args
      (s GatewayDockerImage) (s GatewayDockerImageTag))
  | NewServerCmd => Cli.ServerNew http (sr_command sr) (b forceServerCreation) (b quietServerCreation) (s dockerSubnet)
  | StartServerCmd => Cli.ServerStart paths sh http (sr_socket sr) (sr_order sr) (sr_tries sr)
      (sr_depth sr) (sr_attempts sr) (sr_rounds sr)
  | StatusServerCmd => server_ssh (λ f, Cli.ServerStatus (sr_typed sr) f args)
  | UpServerCmd => server_ssh (λ f, Cli.ServerUp paths http (sr_typed sr) (sr_join sr) (sr_command sr) (sr_elapsed sr) f args
      (s ServerDockerImage) (s ServerDockerImageTag) (s dockerSubnet))
  | DownServerCmd => server_ssh (λ f, Cli.ServerDown http (sr_typed sr) (sr_join sr) f (b forceServerTeardown) args)
  | ListServerCmd => Cli.ServerList http
  | UpgradeServerCmd => server_ssh (λ f, Cli.ServerUpgrade (sr_typed sr) f args
      (s ServerDockerImage) (s ServerDockerImageTag))
  | ServerLabelAddCmd => two_args args (Cli.ServerLabelAdd http)
  | ServerLabelRemoveCmd => two_args args (Cli.ServerLabelRemove http)
  | NewClientCmd => Cli.ClientNew paths sh http meanwhile (sr_command sr)
      (b joinRequestClientCreation) (b quietClientCreation) (b waitClientCreation)
  | ListClientCmd => Cli.ClientList http
  | JoinCmd => Cli.Join paths sh (sr_join sr) (b JoinPostponed) (sr_now sr) args
  | PublishServiceCmd => Cli.ServicePublish paths sh http (s local) (s public)
  | UnpublishServiceCmd => Cli.ServiceUnpublish paths sh http (s public)
  | ListServiceCmd => Cli.ServiceList http
  | NewParamsServiceCmd => Cli.ServiceParamNew paths sh http (s public) (s paramValue)
  | RemoveParamsServiceCmd => Cli.ServiceParamRemove paths sh http (s public) (s paramValue)
  | ListParamsServiceCmd => Cli.ServiceParamList http (s public)
  | rootCmd | GatewayCmd | ServerCmd | ServerLabelCmd | ClientCmd | ServiceCmd | ParamsServiceCmd => mret tt
  end.

(** [rootCmd.Execute()] *)
Definition Execute (argv : list string) : M World unit :=
  match parse (declared Version) argv with
  | Shows text => print_out text
  | Fails said err => _ ← print_err said; throw err
  | Runs c given args g => Run c g (own_value (flags_of (declared Version) c) given) args
  end.

(** ** What a command line means *)

(** The command by its own flags, each given or its default, and its arguments. *)
Definition meaning (c : Command) (own : string → Value) (args : list string) : M World unit :=
  let b name := as_bool (own name) in
  let s name := as_text (own name) in
  let login := MkSshFlags (value_text (own "ssh-key-path")) (b "ssh-key-pass-empty") in
  match c with
  | StartGatewayCmd => Cli.GatewayStart paths (sr_create sr) (sr_serves sr) (sr_public_ip sr) (b "configure")
  | StatusGatewayCmd => Cli.GatewayStatus (sr_typed sr) login args
  | UpGatewayCmd => Cli.GatewayUp paths sh (sr_typed sr) (sr_join sr) login args (s "image") (s "image-tag")
  | DownGatewayCmd => Cli.GatewayDown http (sr_typed sr) login (b "force") args
  | UpgradeGatewayCmd => Cli.GatewayUpgrade (sr_typed sr) login args (s "image") (s "image-tag")
  | NewServerCmd => Cli.ServerNew http (sr_command sr) (b "force") (b "quiet") (s "docker-subnet")
  | StartServerCmd => Cli.ServerStart paths sh http (sr_socket sr) (sr_order sr) (sr_tries sr)
      (sr_depth sr) (sr_attempts sr) (sr_rounds sr)
  | StatusServerCmd => Cli.ServerStatus (sr_typed sr) login args
  | UpServerCmd => Cli.ServerUp paths http (sr_typed sr) (sr_join sr) (sr_command sr) (sr_elapsed sr) login args
      (s "image") (s "image-tag") (s "docker-subnet")
  | DownServerCmd => Cli.ServerDown http (sr_typed sr) (sr_join sr) login (b "force") args
  | ListServerCmd => Cli.ServerList http
  | UpgradeServerCmd => Cli.ServerUpgrade (sr_typed sr) login args (s "image") (s "image-tag")
  | ServerLabelAddCmd => Cli.ServerLabelAdd http (nth 0 args "") (nth 1 args "")
  | ServerLabelRemoveCmd => Cli.ServerLabelRemove http (nth 0 args "") (nth 1 args "")
  | NewClientCmd => Cli.ClientNew paths sh http meanwhile (sr_command sr) (b "join-request") (b "quiet") (b "wait")
  | ListClientCmd => Cli.ClientList http
  | JoinCmd => Cli.Join paths sh (sr_join sr) (b "postponed") (sr_now sr) args
  | PublishServiceCmd => Cli.ServicePublish paths sh http (s "local") (s "public")
  | UnpublishServiceCmd => Cli.ServiceUnpublish paths sh http (s "public")
  | ListServiceCmd => Cli.ServiceList http
  | NewParamsServiceCmd => Cli.ServiceParamNew paths sh http (s "public") (s "param-value")
  | RemoveParamsServiceCmd => Cli.ServiceParamRemove paths sh http (s "public") (s "param-value")
  | ListParamsServiceCmd => Cli.ServiceParamList http (s "public")
  | rootCmd | GatewayCmd | ServerCmd | ServerLabelCmd | ClientCmd | ServiceCmd | ParamsServiceCmd => mret tt
  end.

(** ** Properties *)

Context {CL : CobraLaws}.

(** The variables hold what the command's own flags stand for. *)
Definition holds_own (own : string → option Value) (g : Globals) (fs : list Flag) : Prop :=
  Forall (λ f, match flag_variable f with Some v => own (flag_name f) = Some (g v) | None => True end) fs.
(** The key flag is declared wherever it is asked for. *)
Definition logs_in (c : Command) : bool :=
  match c with
  | StatusGatewayCmd | UpGatewayCmd | DownGatewayCmd | UpgradeGatewayCmd
  | StatusServerCmd | UpServerCmd | DownServerCmd | UpgradeServerCmd => true
  | _ => false
  end.
Lemma key_declared c given :
  logs_in c = true → ∃ v, own_value (flags_of (declared Version) c) given "ssh-key-path" = Some v.
Proof. destruct c; intros [=]; vm_compute; eauto. Qed.

Ltac own_reads H :=
  repeat match type of H with
  | Forall _ (_ :: _) =>
      let H1 := fresh "Hread" in apply Forall_cons in H as [H1 H]; cbn in H1; try rewrite H1
  end.
Lemma Run_meaning c own g args :
  accepts (Args (declaration c)) args = true → (logs_in c = true → ∃ v, own "ssh-key-path" = Some v) →
  holds_own own g (flag_table Version c) →
  Run c g own args = meaning c (λ name, default (Text "") (own name)) args.
Proof.
  intros Ha Hk Ho. unfold holds_own in Ho.
  destruct c; cbn [flag_table app] in Ho; unfold Run, meaning, with_key; cbn zeta; own_reads Ho;
    try (destruct (Hk eq_refl) as [key ->]); cbn [default].
  17-18: apply bool_decide_eq_true_1 in Ha; destruct args as [|a [|b []]]; try discriminate Ha.
  all: reflexivity.
Qed.

(** C33: a command line does what the flags and arguments of its own command say, each flag
    the value it is given or the default it was declared with, although the commands keep
    their flags in variables that they share: no declaration and no other command's flag gets
    in between, no argument is read that is not there and no flag that is not declared.  *)
Theorem Execute_means argv c given args g w :
  parse (declared Version) argv = Runs c given args g →
  under (declared Version) rootCmd c ∧ Runnable c = true ∧ accepts (Args (declaration c)) args = true ∧
  Execute argv w
  = meaning c (λ name, default (Text "") (own_value (flags_of (declared Version) c) given name)) args w.
Proof.
  intros Hp. destruct (parse_runs _ _ _ _ _ _ (declared_well Version) Hp) as (Hu & Hr & Ha & _).
  split; [exact Hu|]. split; [exact Hr|]. split; [exact Ha|].
  unfold Execute. rewrite Hp.
  apply (f_equal (λ m, m w)), Run_meaning; [exact Ha|exact (key_declared c given)|].
  unfold holds_own. rewrite <- flag_table_ok. apply Forall_forall. intros f Hf.
  destruct (flag_variable f) as [v|] eqn:Hv; [|done]. by eapply flag_reads.
Qed.

(** Upgrading a gateway always takes a machine, though the usage line has it in brackets: the
    gateway's own address is never looked up. *)
Lemma upgrade_names_machine argv given args g :
  parse (declared Version) argv = Runs UpgradeGatewayCmd given args g → ∃ machine, args = [machine].
Proof.
  intros Hp. destruct (parse_runs _ _ _ _ _ _ (declared_well Version) Hp) as (_ & _ & Ha & _).
  apply bool_decide_eq_true_1 in Ha. destruct args as [|a []]; [discriminate Ha|by exists a|discriminate Ha].
Qed.
End command_line.

(** ** At work *)

Definition sample_surroundings : Surroundings :=
  MkSurroundings at_the_terminal answering (demo_env "n1" 20) demo_command_env (λ _, "") (inr (inr "203.0.113.7"))
    (λ _, 0) demo_socket map_to_list (λ _, answering) 2 3 1 7.
Definition run_line (argv : list string) : Out unit * World :=
  Execute (R := toy_raymond) (SL := toy_ssh) (JQ := one_value_json sample_request)
    (JD := one_value_json (MkJoinRequestDTO "Kg==")) (JP := no_json) (AJ := no_api_json) (CB := small_cobra)
    sample_paths (λ _ _, None) no_network sample_surroundings (λ _ w, w) "1.0.0" argv fresh_world.

(** [wireport join --postponed Kg==] stores the token. *)
Definition postponed_line : list string := ["join"; "--postponed"; "Kg=="].
Definition postponed_given : gmap string Value := {[ "postponed" := Bool true ]}.
Definition postponed_globals : Globals :=
  stored_in (flags_of (declared "1.0.0") JoinCmd) (λ n, postponed_given !! n) (globals (declared "1.0.0")).
Lemma postponed_parses :
  parse (declared "1.0.0") postponed_line
  = Runs JoinCmd (λ n, postponed_given !! n) ["Kg=="] postponed_globals.
Proof. vm_compute. reflexivity. Qed.
Lemma Execute_means_witness :
  (run_line postponed_line).1 = Ret tt ∧
  GetLastToken (w_tokens (run_line postponed_line).2) = Ret (MkJoinToken "Kg==" 7).
Proof.
  pose proof (@Execute_means _ _ _ _ toy_raymond _ toy_ssh (one_value_json sample_request)
    (one_value_json (MkJoinRequestDTO "Kg==")) no_json no_api_json small_cobra sample_paths (λ _ _, None)
    no_network sample_surroundings (λ _ w, w) "1.0.0" small_cobra_laws postponed_line
    JoinCmd (λ n, postponed_given !! n) ["Kg=="] postponed_globals fresh_world postponed_parses)
    as (_ & _ & _ & E).
  unfold run_line. rewrite E. split; vm_compute; reflexivity.
Defined.
(** A label needs its two arguments, and a flag its command. *)
Lemma refused_lines :
  (run_line ["server"; "label"; "add"; "10.0.0.2"]).1 = Throw (Errorf "wrong arguments") ∧
  (run_line ["gateway"; "upgrade"]).1 = Throw (Errorf "wrong arguments") ∧
  (run_line ["server"; "list"; "--force"]).1 = Throw (Errorf "unknown flag").
Proof. repeat split; vm_compute; reflexivity. Qed.
