(* ===== verification/Database.v ===== *)
(** * [internal/database/service.go]: the database opened, repaired and closed

    [sqliteDSNImmediate] makes the text sqlite is opened with from the path of the file, by way
    of [net/url].  [ensureNodeLabelsAreValidJSON] reads the column [labels] as text, row by
    row, and replaces what is not JSON; [json.Valid] is written out: it is the scanner of
    [encoding/json], a machine with one state and one stack that reads the text once.  What
    opening, migrating and closing do is the library's: [Storage] holds its answers. *)
From S2P Require Import Prelude GoStrings Url Config.

(** ** [json.Valid] *)

Definition isSpace (c : ascii) : bool :=
  bool_decide (code c ∈ [32; 9; 13; 10]).
Definition hex_digit (c : ascii) : bool :=
  is_digit c || ((97 <=? code c) && (code c <=? 102)) || ((65 <=? code c) && (code c <=? 70)).
Definition quote : ascii := chr 34.
Definition backslash : ascii := chr 92.

(** The [step] functions of the scanner; [InEscU] counts the hex digits to come, [InLiteral]
    holds the letters to come. *)
Inductive Step : Type :=
| BeginValueOrEmpty | BeginValue | BeginStringOrEmpty | BeginString | EndValue | EndTop
| InString | InStringEsc | InEscU (digits : nat) | Neg | Digits | Zero | Dot | Dot0 | Exp | ExpSign | Exp0
| InLiteral (rest : string).
Inductive ParseState : Type := parseObjectKey | parseObjectValue | parseArrayValue.
Record Scanner : Type := MkScanner { step : Step; parseState : list ParseState }.

Definition maxNestingDepth : Z := 10000.
Definition pushParseState (p : ParseState) (next : Step) (stack : list ParseState) : option Scanner :=
  if Z.of_nat (length (p :: stack)) <=? maxNestingDepth then Some (MkScanner next (p :: stack)) else None.
Definition popParseState (stack : list ParseState) : option Scanner :=
  match stack with
  | [] => None
  | [_] => Some (MkScanner EndTop [])
  | _ :: stack' => Some (MkScanner EndValue stack')
  end.

Definition stateBeginValue (c : ascii) (stack : list ParseState) : option Scanner :=
  let go s := Some (MkScanner s stack) in
  if isSpace c then go BeginValue
  else if Ascii.eqb c "{" then pushParseState parseObjectKey BeginStringOrEmpty stack
  else if Ascii.eqb c "[" then pushParseState parseArrayValue BeginValueOrEmpty stack
  else if Ascii.eqb c quote then go InString
  else if Ascii.eqb c "-" then go Neg
  else if Ascii.eqb c "0" then go Zero
  else if Ascii.eqb c "t" then go (InLiteral "rue")
  else if Ascii.eqb c "f" then go (InLiteral "alse")
  else if Ascii.eqb c "n" then go (InLiteral "ull")
  else if is_digit c then go Digits
  else None.
Definition stateBeginString (c : ascii) (stack : list ParseState) : option Scanner :=
  if isSpace c then Some (MkScanner BeginString stack)
  else if Ascii.eqb c quote then Some (MkScanner InString stack)
  else None.
Definition stateEndTop (c : ascii) : option Scanner :=
  if isSpace c then Some (MkScanner EndTop []) else None.
Definition stateEndValue (c : ascii) (stack : list ParseState) : option Scanner :=
  match stack with
  | [] => stateEndTop c
  | ps :: below =>
      if isSpace c then Some (MkScanner EndValue stack)
      else
        match ps with
        | parseObjectKey =>
            if Ascii.eqb c ":" then Some (MkScanner BeginValue (parseObjectValue :: below)) else None
        | parseObjectValue =>
            if Ascii.eqb c "," then Some (MkScanner BeginString (parseObjectKey :: below))
            else if Ascii.eqb c "}" then popParseState stack else None
        | parseArrayValue =>
            if Ascii.eqb c "," then Some (MkScanner BeginValue stack)
            else if Ascii.eqb c "]" then popParseState stack else None
        end
  end.
Definition state0 (c : ascii) (stack : list ParseState) : option Scanner :=
  if Ascii.eqb c "." then Some (MkScanner Dot stack)
  else if Ascii.eqb c "e" || Ascii.eqb c "E" then Some (MkScanner Exp stack)
  else stateEndValue c stack.
Definition stateESign (c : ascii) (stack : list ParseState) : option Scanner :=
  if is_digit c then Some (MkScanner Exp0 stack) else None.

(** One character. *)
Definition scan (s : Scanner) (c : ascii) : option Scanner :=
  let stack := parseState s in
  let go next := Some (MkScanner next stack) in
  match step s with
  | BeginValueOrEmpty =>
      if isSpace c then go BeginValueOrEmpty
      else if Ascii.eqb c "]" then stateEndValue c stack
      else stateBeginValue c stack
  | BeginValue => stateBeginValue c stack
  | BeginStringOrEmpty =>
      if isSpace c then go BeginStringOrEmpty
      else if Ascii.eqb c "}" then
        match stack with
        | _ :: below => stateEndValue c (parseObjectValue :: below)
        | [] => None
        end
      else stateBeginString c stack
  | BeginString => stateBeginString c stack
  | EndValue => stateEndValue c stack
  | EndTop => stateEndTop c
  | InString =>
      if Ascii.eqb c quote then go EndValue
      else if Ascii.eqb c backslash then go InStringEsc
      else if code c <? 32 then None
      else go InString
  | InStringEsc =>
      if Ascii.eqb c "u" then go (InEscU 3)
      else if bool_decide (c ∈ ["b"%char; "f"%char; "n"%char; "r"%char; "t"%char; backslash; "/"%char; quote])
      then go InString
      else None
  | InEscU n =>
      if hex_digit c then go (match n with O => InString | S n' => InEscU n' end) else None
  | Neg =>
      if Ascii.eqb c "0" then go Zero else if is_digit c then go Digits else None
  | Digits => if is_digit c then go Digits else state0 c stack
  | Zero => state0 c stack
  | Dot => if is_digit c then go Dot0 else None
  | Dot0 =>
      if is_digit c then go Dot0
      else if Ascii.eqb c "e" || Ascii.eqb c "E" then go Exp
      else stateEndValue c stack
  | Exp => if Ascii.eqb c "+" || Ascii.eqb c "-" then go ExpSign else stateESign c stack
  | ExpSign => stateESign c stack
  | Exp0 => if is_digit c then go Exp0 else stateEndValue c stack
  | InLiteral (String l rest) =>
      if Ascii.eqb c l then go (match rest with EmptyString => EndValue | _ => InLiteral rest end) else None
  | InLiteral EmptyString => None
  end.

Fixpoint scan_all (s : Scanner) (data : string) : option Scanner :=
  match data with
  | EmptyString => Some s
  | String c data' => s' ← scan s c; scan_all s' data'
  end.
(** [scan.eof()]: the value is over, or a blank ends it. *)
Definition ended (s : Scanner) : bool :=
  match step s with
  | EndTop => true
  | _ => match scan s " " with Some (MkScanner EndTop _) => true | _ => false end
  end.
Definition json_Valid (data : string) : bool :=
  match scan_all (MkScanner BeginValue []) data with
  | Some s => ended s
  | None => false
  end.

(** ** The repair *)

(** The column: a row's [labels] are NULL or a text. *)
Notation LabelRows := (gmap string (option string)).

Definition needsUpdate (labels : option string) : bool :=
  match labels with
  | None => true
  | Some l =>
      let raw := TrimSpace l in
      if bool_decide (raw = "") then true else negb (json_Valid raw)
  end.
Definition empty_array : string := "[]".

(** What the database answers: to the query for all rows, and to each update. *)
Record Answers : Type := MkAnswers {
  scan_error : option error;
  update_error : string → option error;
}.

Definition update_label (db : Answers) (id : string) : M LabelRows unit :=
  match update_error db id with
  | Some err => throw err
  | None => rows ← get; put (<[id := Some empty_array]> rows)
  end.
Definition repair_row (db : Answers) (row : string * option string) : M LabelRows unit :=
  if negb (needsUpdate row.2) then mret tt else update_label db row.1.

(** [ensureNodeLabelsAreValidJSON(db)] *)
Definition ensureNodeLabelsAreValidJSON (db : Answers) : M LabelRows unit :=
  match scan_error db with
  | Some err => throw err
  | None => rows ← get; foreach (repair_row db) (map_to_list rows)
  end.

(** ** Opening and closing *)

(** [sqliteDSNImmediate(path)] *)
Definition with_query (query : string) (u : URL) : URL :=
  MkURL (Scheme u) (Opaque u) (User u) (Host u) (Path u) (RawPath u) (OmitHost u) (ForceQuery u)
    query (Fragment u) (RawFragment u).
Definition sqliteDSNImmediate (path : string) : string :=
  match Parse path with
  | Ret u => URL_String (with_query (Encode (Set_value "_txlock" "immediate" (Query u))) u)
  | _ => path
  end.

(** What the operating system and the library answer, by directory and by DSN; [migrated] is
    the column of labels that [db.AutoMigrate] leaves. *)
Record Storage : Type := MkStorage {
  mkdir_error : string → option error;
  open_error : string → option error;
  migrate_error : string → option error;
  migrated : string → LabelRows;
  row_answers : Answers;
  handle_error : string → option error;
  close_error : string → option error;
}.

(** What the process has done: the directories it asked for, the databases that are open, the
    labels in the last one, and what it printed on [stderr].  A [*gorm.DB] is the DSN it was
    opened with, nil is [None]. *)
Record Process : Type := MkProcess {
  directories : list string; connections : list string; labels : LabelRows; printed : string;
}.
Definition or_error {A} (failure : option error) (c : M Process A) : M Process A :=
  match failure with Some err => throw err | None => c end.
Definition MkdirAll (st : Storage) (dir : string) : M Process unit :=
  or_error (mkdir_error st dir)
    (λ p, (Ret tt, MkProcess (directories p ++ [dir]) (connections p) (labels p) (printed p))).
Definition gorm_Open (st : Storage) (dsn : string) : M Process string :=
  or_error (open_error st dsn)
    (λ p, (Ret dsn, MkProcess (directories p) (connections p ++ [dsn]) (labels p) (printed p))).
Definition AutoMigrate (st : Storage) (db : string) : M Process unit :=
  or_error (migrate_error st db)
    (λ p, (Ret tt, MkProcess (directories p) (connections p) (migrated st db) (printed p))).
Definition on_labels {A} (c : M LabelRows A) : M Process A := λ p,
  let '(o, rows) := c (labels p) in
  (o, MkProcess (directories p) (connections p) rows (printed p)).

Section opening.
  Context (st : Storage).

(** [InitDB()], with [config.Config.DatabasePath] *)
Definition InitDB (DatabasePath : string) : M Process string :=
  _ ← MkdirAll st (Dir DatabasePath);
  db ← gorm_Open st (sqliteDSNImmediate DatabasePath);
  _ ← AutoMigrate st db;
  _ ← on_labels (ensureNodeLabelsAreValidJSON (row_answers st));
  mret db.

(** [CloseDB(db)]: [db.DB()] reads a field of its receiver. *)
Definition CloseDB (db : option string) : M Process unit :=
  match db with
  | None => λ p, (Panic "invalid memory address or nil pointer dereference", p)
  | Some db => λ p,
      match handle_error st db with
      | Some err => (Throw err, p)
      | None =>
          let p := MkProcess (directories p) (filter (λ d, d ≠ db) (connections p)) (labels p) (printed p) in
          match close_error st db with
          | Some err => (Throw err, p)
          | None => (Ret tt, p)
          end
      end
  end.
End opening.

(** ** Properties *)

Definition repaired (labels : option string) : option string :=
  if needsUpdate labels then Some empty_array else labels.
Definition usable (labels : option string) : Prop :=
  ∃ l, labels = Some l ∧ json_Valid (TrimSpace l) = true.

Lemma repaired_usable labels : usable (repaired labels).
Proof.
  unfold repaired. destruct (needsUpdate labels) eqn:E.
  - exists empty_array. split; [done|]. vm_compute. reflexivity.
  - destruct labels as [l|]; [|done]. exists l. split; [done|]. unfold needsUpdate in E.
    case_bool_decide; [done|]. by apply negb_false_iff.
Qed.
Lemma usable_needs labels : usable labels → needsUpdate labels = false.
Proof.
  intros (l & -> & Hv). unfold needsUpdate. case_bool_decide as E; [by rewrite E in Hv|].
  by rewrite Hv.
Qed.

(** The rows in [l] are still as they were, the others are repaired. *)
Definition pending (rows0 : LabelRows) (l : list (string * option string)) (rows : LabelRows) : Prop :=
  ∀ id, rows !! id = if decide (id ∈ l.*1) then rows0 !! id else repaired <$> rows0 !! id.
(** No row of [l] needs an update that fails. *)
Definition updatable (db : Answers) (l : list (string * option string)) : Prop :=
  ∀ row, row ∈ l → needsUpdate row.2 = true → update_error db row.1 = None.

Lemma pending_repaired rows0 rows : pending rows0 [] rows → rows = repaired <$> rows0.
Proof. intros Hp. apply map_eq. intros id. rewrite lookup_fmap. apply (Hp id). Qed.

(** One row: it is repaired or was usable, or its update is the one that fails. *)
Lemma pending_step db rows0 id labels l rows :
  id ∉ l.*1 → rows0 !! id = Some labels → pending rows0 ((id, labels) :: l) rows →
  (∃ rows', repair_row db (id, labels) rows = (Ret tt, rows') ∧ pending rows0 l rows' ∧
     (needsUpdate labels = true → update_error db id = None)) ∨
  (∃ err, needsUpdate labels = true ∧ update_error db id = Some err ∧
     repair_row db (id, labels) rows = (Throw err, rows)).
Proof.
  intros Hid Hrow Hp. unfold repair_row, update_label. cbn [fst snd].
  assert (∀ id', id' ≠ id → rows !! id' = if decide (id' ∈ l.*1) then rows0 !! id' else repaired <$> rows0 !! id') as Hothers.
  { intros id' Hne. rewrite (Hp id'). cbn. by repeat case_decide; set_solver. }
  destruct (needsUpdate labels) eqn:E; cbn [negb].
  - destruct (update_error db id) as [err|]; [right; by exists err|]. left.
    exists (<[id:=Some empty_array]> rows). split; [done|]. split; [|done]. intros id'.
    destruct (decide (id' = id)) as [->|Hne].
    + rewrite lookup_insert_eq, decide_False, Hrow by done. cbn. unfold repaired. by rewrite E.
    + by rewrite lookup_insert_ne, Hothers by done.
  - left. exists rows. split; [done|]. split; [|done]. intros id'.
    destruct (decide (id' = id)) as [->|Hne]; [|by apply Hothers].
    rewrite (Hp id), decide_True, decide_False, Hrow by (done || set_solver).
    cbn. unfold repaired. by rewrite E.
Qed.

(** The rows one after the other: all are repaired, or those before the first update that
    fails. *)
Lemma foreach_repairs db rows0 l : ∀ rows,
  NoDup l.*1 → (∀ row, row ∈ l → rows0 !! row.1 = Some row.2) → pending rows0 l rows →
  (∃ rows', foreach (repair_row db) l rows = (Ret tt, rows') ∧ pending rows0 [] rows' ∧ updatable db l) ∨
  (∃ before id ls after err rows', l = before ++ (id, ls) :: after ∧ updatable db before ∧
     needsUpdate ls = true ∧ update_error db id = Some err ∧ pending rows0 ((id, ls) :: after) rows' ∧
     foreach (repair_row db) l rows = (Throw err, rows')).
Proof.
  induction l as [|[id labels] l IH]; intros rows Hnd Hl Hp; cbn [foreach].
  { left. exists rows. split; [done|]. split; [done|]. by intros row Hin%elem_of_nil. }
  apply NoDup_cons in Hnd as [Hid Hnd].
  destruct (pending_step db rows0 id labels l rows Hid (Hl (id, labels) ltac:(by left)) Hp)
    as [(rows1 & Hrun & Hp1 & Hupd)|(err & Hn & He & Hrun)].
  - rewrite (M_bind_Ret _ _ _ _ _ Hrun).
    assert (∀ k, updatable db k → updatable db ((id, labels) :: k)) as Hcons.
    { intros k Hk row [->|Hin]%elem_of_cons; [exact Hupd|by apply Hk]. }
    destruct (IH rows1 Hnd (λ row Hin, Hl row ltac:(by right)) Hp1)
      as [(rows' & Hr & Hp' & Hu)|(before & id' & ls & after & err & rows' & -> & Hu & Hrest)].
    + left. exists rows'. auto.
    + right. exists ((id, labels) :: before), id', ls, after, err, rows'. split; [done|]. auto.
  - right. exists [], id, labels, l, err, rows. split; [done|]. split; [by intros row Hin%elem_of_nil|].
    split; [done|]. split; [done|]. split; [done|]. by rewrite (M_bind_Throw _ _ _ _ _ Hrun).
Qed.

Lemma map_rows_pending (rows : LabelRows) : pending rows (map_to_list rows) rows.
Proof.
  intros id. case_decide as Hid; [done|]. destruct (rows !! id) as [l|] eqn:E; [|done].
  exfalso. apply Hid, list_elem_of_fmap. exists (id, l). split; [done|]. by apply elem_of_map_to_list.
Qed.

(** What stops the repair, and the labels then: the query for the rows, or the update of one
    of those that need it, when the rows before it are repaired and the others as they were. *)
Inductive repair_fails (db : Answers) (rows : LabelRows) : error → LabelRows → Prop :=
| scan_fails err : scan_error db = Some err → repair_fails db rows err rows
| update_fails before id ls after err rows' : scan_error db = None →
    map_to_list rows = before ++ (id, ls) :: after → updatable db before →
    needsUpdate ls = true → update_error db id = Some err →
    pending rows ((id, ls) :: after) rows' → repair_fails db rows err rows'.

Lemma labels_repaired db rows :
  (ensureNodeLabelsAreValidJSON db rows = (Ret tt, repaired <$> rows) ∧
     scan_error db = None ∧ updatable db (map_to_list rows)) ∨
  ∃ err rows', ensureNodeLabelsAreValidJSON db rows = (Throw err, rows') ∧ repair_fails db rows err rows'.
Proof.
  unfold ensureNodeLabelsAreValidJSON. destruct (scan_error db) as [e|] eqn:Es.
  { right. exists e, rows. split; [done|by constructor]. }
  destruct (foreach_repairs db rows (map_to_list rows) rows (NoDup_fst_map_to_list _)
    ltac:(by intros [id l] Hin%elem_of_map_to_list) (map_rows_pending rows))
    as [(rows' & Hrun & Hp & Hu)|(before & id & ls & after & err & rows' & Hl & Hu & Hn & He & Hp & Hrun)].
  - left. apply pending_repaired in Hp as ->. by split.
  - right. exists err, rows'. split; [exact Hrun|]. by apply (update_fails _ _ before id ls after).
Qed.
Lemma repaired_all (rows : LabelRows) id l : (repaired <$> rows) !! id = Some l → usable l.
Proof. intros (l0 & <- & _)%lookup_fmap_Some. apply repaired_usable. Qed.

(** Labels that are usable are left alone. *)
Lemma repaired_again db (rows : LabelRows) :
  scan_error db = None → (∀ id l, rows !! id = Some l → usable l) →
  ensureNodeLabelsAreValidJSON db rows = (Ret tt, rows).
Proof.
  intros Hs Huse. unfold ensureNodeLabelsAreValidJSON. rewrite Hs.
  assert (∀ ls st, (∀ row, row ∈ ls → usable row.2) → foreach (repair_row db) ls st = (Ret tt, st)) as Hskip.
  { intros ls st. induction ls as [|row ls IH]; intros Hu; [done|]. cbn [foreach].
    erewrite M_bind_Ret; [apply IH; intros r Hr; apply Hu; by right|].
    unfold repair_row. by rewrite usable_needs by (apply Hu; by left). }
  refine (Hskip _ _ _). intros [id l] Hin%elem_of_map_to_list. by eapply Huse.
Qed.

(** *** The DSN *)

Definition immediate : string := "_txlock=immediate".
(** The part of a DSN that names the file. *)
Definition file_part (dsn : string) : string := (Cut "?" dsn).1.

Lemma escape_lacks_query s : lacks "?" (escape s encodePath) = true.
Proof.
  induction s as [|c s IH]; [done|].
  change (lacks "?" (escape_char encodePath c +:+ escape s encodePath) = true).
  rewrite lacks_app, IH, andb_true_r. clear IH. revert c. by_bytes.
Qed.
Lemma path_again_lacks path : lacks "?" path = true → lacks "?" (path_again path) = true.
Proof. intros Hp. unfold path_again. destruct (validEncoded _ _); [done|apply escape_lacks_query]. Qed.
Lemma dsn_of_path path :
  rooted_path path → has_control path = false →
  sqliteDSNImmediate path = path_again path +:+ "?" +:+ immediate.
Proof.
  intros Hp Hc. unfold sqliteDSNImmediate. rewrite Parse_path by done.
  assert (∀ u, RawQuery u = "" → Encode (Set_value "_txlock" "immediate" (Query u)) = immediate) as Hq.
  { intros u Hu. unfold Query. rewrite Hu. vm_compute. reflexivity. }
  rewrite Hq by done. by apply URL_String_path.
Qed.

(** For a path from the root the DSN is the path as a URL prints it and the mode of locking:
    it names the file of the path exactly if every character may stand in a URL's path as it is.
    With a control character the path is no URL, and the mode is left out. *)
Theorem sqliteDSNImmediate_names path :
  rooted_path path →
  (has_control path = true → sqliteDSNImmediate path = path) ∧
  (has_control path = false →
     sqliteDSNImmediate path = file_part (sqliteDSNImmediate path) +:+ "?" +:+ immediate ∧
     (file_part (sqliteDSNImmediate path) = path ↔ validEncoded path encodePath = true)).
Proof.
  intros Hp. split; intros Hc.
  - unfold sqliteDSNImmediate. by destruct (Parse_control path (path_no_fragment _ Hp) Hc) as [err ->].
  - assert (file_part (sqliteDSNImmediate path) = path_again path) as ->; [|split].
    + rewrite dsn_of_path by done. unfold file_part, Cut. change ("?" +:+ immediate) with (String "?" immediate).
      by rewrite cut_first_app by (apply path_again_lacks, Hp).
    + by apply dsn_of_path.
    + apply path_again_same.
Qed.

(** *** The whole *)

(** Nothing failed: the directory is there, the database open under its DSN, and every row's
    labels are a JSON text; opening it again changes nothing.  *)
Record ready (st : Storage) (path : string) (p p' : Process) : Prop := {
  ready_directory : mkdir_error st (Dir path) = None ∧ directories p' = directories p ++ [Dir path];
  ready_connection : open_error st (sqliteDSNImmediate path) = None ∧
    connections p' = connections p ++ [sqliteDSNImmediate path];
  ready_migrated : migrate_error st (sqliteDSNImmediate path) = None;
  ready_updates : scan_error (row_answers st) = None ∧
    updatable (row_answers st) (map_to_list (migrated st (sqliteDSNImmediate path)));
  ready_labels : labels p' = repaired <$> migrated st (sqliteDSNImmediate path);
  ready_usable : ∀ id l, labels p' !! id = Some l → usable l;
  ready_again : ensureNodeLabelsAreValidJSON (row_answers st) (labels p') = (Ret tt, labels p');
  ready_silent : printed p' = printed p;
}.
(** The first call that fails, its error, and what is left: calls before it have done their
    work, those after it nothing. *)
Inductive failed (st : Storage) (path : string) (p : Process) : error → Process → Prop :=
| failed_directory err : mkdir_error st (Dir path) = Some err → failed st path p err p
| failed_open err : mkdir_error st (Dir path) = None → open_error st (sqliteDSNImmediate path) = Some err →
    failed st path p err (MkProcess (directories p ++ [Dir path]) (connections p) (labels p) (printed p))
| failed_migrate err : mkdir_error st (Dir path) = None → open_error st (sqliteDSNImmediate path) = None →
    migrate_error st (sqliteDSNImmediate path) = Some err →
    failed st path p err (MkProcess (directories p ++ [Dir path])
      (connections p ++ [sqliteDSNImmediate path]) (labels p) (printed p))
| failed_repair err rows : mkdir_error st (Dir path) = None → open_error st (sqliteDSNImmediate path) = None →
    migrate_error st (sqliteDSNImmediate path) = None →
    repair_fails (row_answers st) (migrated st (sqliteDSNImmediate path)) err rows →
    failed st path p err (MkProcess (directories p ++ [Dir path])
      (connections p ++ [sqliteDSNImmediate path]) rows (printed p)).

(** C36: opening the database ends in one of two ways.  Either no call failed: the directory of
    the file has been made, one connection is open under the DSN of the path, and every row's
    labels are a JSON text: what was is left alone, NULL, blanks and everything else have become
    the empty array, and opening it again changes nothing.  Or the first call that failed
    gives the error: making the directory, opening, migrating, reading the rows or the update of
    a row that needs it.  Nothing after it has been done: when an update fails the rows before it are
    repaired and the others as they were; and what was opened by then stays open, since the
    caller gets nil. *)
Theorem InitDB_ready st path p o p' :
  InitDB st path p = (o, p') →
  match o with
  | Ret db => db = sqliteDSNImmediate path ∧ ready st path p p'
  | Throw err => failed st path p err p'
  | _ => False
  end.
Proof.
  unfold InitDB, MkdirAll, or_error. destruct (mkdir_error st (Dir path)) as [err|] eqn:Em.
  { intros [= <- <-]. by constructor. }
  unfold gorm_Open, or_error. destruct (open_error st (sqliteDSNImmediate path)) as [err|] eqn:Eo.
  { intros [= <- <-]. by apply failed_open. }
  remember (sqliteDSNImmediate path) as dsn eqn:Hdsn. unfold mbind, M_bind, mret, M_ret. cbn.
  unfold AutoMigrate, or_error. destruct (migrate_error st dsn) as [err|] eqn:Ea.
  { intros [= <- <-]. subst dsn. by apply failed_migrate. }
  cbn. unfold on_labels. cbn.
  destruct (labels_repaired (row_answers st) (migrated st dsn)) as [(-> & Hs & Hu)|(err & rows & -> & Hf)].
  - intros [= <- <-]. subst dsn. split; [done|].
    split; cbn; [by split|by split|done|by split|done|apply repaired_all| |done].
    apply repaired_again; [done|apply repaired_all].
  - intros [= <- <-]. subst dsn. by apply failed_repair.
Qed.

(** ** At work *)

Definition label_rows : LabelRows :=
  {[ "a" := None; "b" := Some " "; "c" := Some "[1, 2"; "d" := Some "null"; "e" := Some "{}" ]}.
Definition label_rows_after : LabelRows :=
  {[ "a" := Some "[]"; "b" := Some "[]"; "c" := Some "[]"; "d" := Some "null"; "e" := Some "{}" ]}.
Definition answers_ok : Answers := MkAnswers None (λ _, None).

(** A disk and a library without failures; what is JSON but no array of texts stays as well. *)
Definition sound_storage : Storage :=
  MkStorage (λ _, None) (λ _, None) (λ _, None) (λ _, label_rows) answers_ok (λ _, None) (λ _, None).
Definition new_process : Process := MkProcess [] [] ∅ "".
Definition home_path : string := "/home/ann/.wireport/default/wireport.db".

(** A row that cannot be written: the ones before it are repaired. *)
Definition locked : error := Errorf "database is locked".
Definition busy_storage : Storage :=
  MkStorage (λ _, None) (λ _, None) (λ _, None) (λ _, label_rows)
    (MkAnswers None (λ id, if bool_decide (id = "b") then Some locked else None)) (λ _, None) (λ _, None).

Lemma InitDB_ready_witness :
  (InitDB sound_storage home_path new_process
   = (Ret (home_path +:+ "?_txlock=immediate"),
      MkProcess ["/home/ann/.wireport/default"] [home_path +:+ "?_txlock=immediate"] label_rows_after "") ∧
   ∀ id l, label_rows_after !! id = Some l → usable l) ∧
  failed busy_storage home_path new_process locked (InitDB busy_storage home_path new_process).2.
Proof.
  split.
  - assert (InitDB sound_storage home_path new_process
      = (Ret (home_path +:+ "?_txlock=immediate"),
         MkProcess ["/home/ann/.wireport/default"] [home_path +:+ "?_txlock=immediate"] label_rows_after ""))
      as Hrun by (vm_compute; reflexivity).
    split; [exact Hrun|]. exact (ready_usable _ _ _ _ (proj2 (InitDB_ready _ _ _ _ _ Hrun))).
  - apply (InitDB_ready _ _ _ (Throw locked)). vm_compute. reflexivity.
Defined.

(** A home directory with a blank in its name: the directory that is made is not the one the
    DSN names. *)
Definition blank_path : string := "/Users/Ann Lee/.wireport/default/wireport.db".
Lemma blank_path_rooted : rooted_path blank_path.
Proof. split; [by eexists|done..]. Qed.
Lemma sqliteDSNImmediate_names_witness :
  file_part (sqliteDSNImmediate home_path) = home_path ∧ file_part (sqliteDSNImmediate blank_path) ≠ blank_path.
Proof.
  assert (rooted_path home_path) as Hhome by (split; [by eexists|done..]).
  split.
  - apply (proj2 (proj2 (sqliteDSNImmediate_names home_path Hhome) eq_refl)). vm_compute. reflexivity.
  - intros E. apply (proj2 (proj2 (sqliteDSNImmediate_names blank_path blank_path_rooted) eq_refl)) in E.
    vm_compute in E. discriminate.
Defined.
Example blank_path_apart :
  Dir blank_path = "/Users/Ann Lee/.wireport/default" ∧
  sqliteDSNImmediate blank_path = "/Users/Ann%20Lee/.wireport/default/wireport.db?_txlock=immediate".
Proof. vm_compute. done. Qed.
(** Other paths: a query that is kept, one in front of a fragment, and texts that are no URL. *)
Example other_dsns :
  map sqliteDSNImmediate ["file:w.db?cache=shared"; "/srv/w.db?_pragma=foreign_keys(1)"; "/srv/a#1/w.db";
                          "/srv/100%/w.db"; ":memory:"]
  = ["file:w.db?_txlock=immediate&cache=shared"; "/srv/w.db?_pragma=foreign_keys%281%29&_txlock=immediate";
     "/srv/a?_txlock=immediate#1/w.db"; "/srv/100%/w.db"; ":memory:"].
Proof. vm_compute. done. Qed.
