(* ===== verification/Main.v ===== *)
(** * [cmd/server/main.go]: the entry point

    Opens the database, hands over to the commands, closes the database.  The commands are
    a parameter here: [Execute] of CommandLine over the tables of the database. *)
From S2P Require Import Prelude GoStrings Config Database.

Section main.
  Context (st : Storage) (DatabasePath : string).
  (** [commands.RegisterCommands(rootCmd, db)] and [rootCmd.Execute()] *)
  Context (execute : string → M Process unit).

(** [rootCmd.PrintErrf] *)
Definition PrintErrf (text : string) : M Process unit := λ p,
  (Ret tt, MkProcess (directories p) (connections p) (labels p) (printed p +:+ text)).
Definition or_complain (prefix : string) (r : error + unit) : M Process unit :=
  match r with
  | inl err => PrintErrf (prefix +:+ error_text err +:+ newline)
  | inr _ => mret tt
  end.

(** [main()]: the deferred function is the last statement, so it is deferred only once the
    commands have returned. *)
Definition main : M Process unit :=
  opened ← attempt (InitDB st DatabasePath);
  db ← match opened with
       | inl err =>
           _ ← or_complain ("Failed to initialize database at " +:+ DatabasePath +:+ ": ") (inl err);
           mret None
       | inr db =>
           r ← attempt (execute db);
           _ ← or_complain "" r;
           mret (Some db)
       end;
  r ← attempt (CloseDB st db);
  or_complain "Failed to close database: " r.

(** ** Properties *)

Definition complaint (prefix : string) (failure : option error) : string :=
  match failure with
  | Some err => prefix +:+ error_text err +:+ newline
  | None => ""
  end.
Definition still_open (db : string) (dbs : list string) : list string :=
  match handle_error st db with Some _ => dbs | None => filter (λ d, d ≠ db) dbs end.
Definition closing_error (db : string) : option error :=
  match handle_error st db with Some err => Some err | None => close_error st db end.
Definition outcome_error {A} (o : Out A) : option error :=
  match o with Throw err => Some err | _ => None end.

(** C40: how the program ends. A database that cannot be opened is reported, no command runs,
    and the program panics, for what is closed then is nil.  Otherwise a command that returns,
    with an error or without, has its error printed and the database closed behind it (unless
    there is no handle to close it by; what fails in closing is printed, too); one that panics
    or ends the process leaves the database open. *)
Theorem main_ends p o1 p1 :
  InitDB st DatabasePath p = (o1, p1) →
  match o1 with
  | Ret db =>
      let '(o2, p2) := execute db p1 in
      match o2 with
      | Ret _ | Throw _ =>
          (main p).1 = Ret tt ∧
          connections (main p).2 = still_open db (connections p2) ∧
          printed (main p).2 = printed p2 +:+ complaint "" (outcome_error o2)
                                 +:+ complaint "Failed to close database: " (closing_error db)
      | Panic w => main p = (Panic w, p2)
      | Exited w => main p = (Exited w, p2)
      end
  | Throw err =>
      main p = (Panic "invalid memory address or nil pointer dereference",
        MkProcess (directories p1) (connections p1) (labels p1)
          (printed p1 +:+ complaint ("Failed to initialize database at " +:+ DatabasePath +:+ ": ") (Some err)))
  | _ => (main p).1 = match o1 with Panic w => Panic w | Exited w => Exited w | _ => Ret tt end
  end.
Proof.
  intros Hrun. unfold main, attempt, mbind, M_bind, mret, M_ret. rewrite Hrun.
  destruct o1 as [db|err|w|w]; [|done..].
  unfold still_open, closing_error.
  destruct (execute db p1) as [o2 p2]. destruct o2 as [[]|err|w|w]; [| |done..];
    cbn; destruct (handle_error st db); cbn; [|destruct (close_error st db); cbn| |destruct (close_error st db); cbn]; rewrite ?str_app_nil_r, ?str_app_assoc; done.
Qed.
End main.

(** ** At work *)

(** A disk that is full, and one that is not. *)
Definition full_storage : Storage :=
  MkStorage (λ _, Some (Errorf "no space left on device")) (λ _, None) (λ _, None) (λ _, ∅) answers_ok
    (λ _, None) (λ _, None).
Lemma main_ends_witness :
  (main full_storage "/srv/wireport.db" (λ _, mret tt) new_process).1
    = Panic "invalid memory address or nil pointer dereference" ∧
  connections (main sound_storage home_path (λ _, throw (Errorf "unknown command")) new_process).2 = [].
Proof.
  split.
  - pose proof (main_ends full_storage "/srv/wireport.db" (λ _, mret tt) new_process _ _ (surjective_pairing _)) as H.
    exact (f_equal fst H).
  - pose proof (main_ends sound_storage home_path (λ _, throw (Errorf "unknown command")) new_process _ _
      (surjective_pairing _)) as H.
    exact (proj1 (proj2 H)).
Defined.
